(* ===== verification/_CoqProject ===== *)
-Q . S2P
Prelude.v
Platform.v
LinkedList.v
Bytes.v
Checksum.v
IpTypes.v
Devices.v
Arp.v
Ip.v
IpService.v
Transport.v
Icmp.v
Udp.v
UdpSpec.v
TcpTypes.v
TcpOutput.v
TcpInput.v
TcpUser.v
TcpInv.v
TcpSafety.v
TcpAccept.v
TcpConn.v
TcpProps.v
TcpMore.v
TcpSend.v
Concurrency.v
Stack.v
StackFrame.v
StackProps.v
StackTcp.v
Commands.v
AppInv.v
CommandProps.v
Termination.v
Shutdown.v
