(* ===== verification/Prelude.v ===== *)
(** * rust-user-net: a verification development

    The program (src/src/) is an IPv4 stack in user space: frames come from a TAP
    device, an interrupt (a real-time signal) makes the device read its frame and
    queue the payload at a protocol, SIGUSR1 makes the protocols handle their
    queues, and ARP, IP, ICMP, UDP and TCP answer through the same device.  This
    library translates that code into executable definitions and proves what
    they do: where the stack does its job, and where it does not, what it does
    instead.

    ** Parts

    - [Prelude] (this file): outcomes of Rust code ([Ret], [Panic], [UB], [Blocks],
      [NoFuel]) with their monad, machine integers as [Z] with checked or
      wrapping arithmetic after the [BuildProfile], slices, record update, the
      predicates [ensures] / [returns] / [defined] / [refines] and the tactics.
    - [Platform]: what the standard library and the kernel provide.  Channels, the
      pending signals and the TAP file are modelled as state ([Env], [TapFile]);
      the clock, the random numbers and the hardware address are the fields of
      the class [Platform], so every theorem holds for all of them.
    - [LinkedList] (utils/list.rs), [Bytes] (utils/byte.rs and the struct views of
      utils/mod.rs), [Checksum] (cksum16 of utils/mod.rs).
    - [IpTypes] (net.rs, the data of protocols/ip/mod.rs): addresses and their
      text, endpoints, interfaces, routes and their lookup, header ids.
    - [Devices] (interrupt.rs, drivers/, devices/, the queues of protocols/mod.rs).
    - [Arp] (protocols/arp.rs), [Ip] (headers and output of protocols/ip/mod.rs),
      [Transport] (the pseudo header that udp.rs and tcp.rs both declare), [Icmp]
      (protocols/ip/icmp.rs), [Udp] (protocols/ip/udp.rs).
    - TCP (protocols/ip/tcp.rs): [TcpTypes] data, control blocks and [select],
      [TcpOutput] output and retransmission, [TcpInput] [segment_arrives] with one
      definition per numbered check and [input], [TcpUser] the user calls.
    - [Concurrency]: the critical sections of app.rs and tcp.rs as sequences of lock
      operations and a step relation over threads.
    - [Stack]: [input] of protocols/ip/mod.rs, the dispatch of protocols/mod.rs, the
      state of [NetApp] (app.rs) and the signal loop with the end of main (main.rs).
    - [Commands] (app.rs): the data of the command line, the threads of the four
      commands and of the retransmission as state machines, [log_data].
    - [AppInv]: the whole program as one step relation, [app_step]: signals with the
      frames the kernel has by then, the command, the retransmission thread and the
      shutdown in any order, and its invariant [app_inv].
    - [UdpSpec]: the abstract UDP sockets and the simulation of their table.

    Code that runs on a device with the shared contexts and the environment takes
    and returns a [Net] (device, [ProtocolContexts], [Env]); TCP adds its table
    ([TcpSys]); the application has everything ([NetApp]).  A definition has the
    name of its Rust function, prefixed with the module's where two modules use
    the same name (tcp_input for tcp::input).  Functions that lock, wait on a
    channel and lock again are split at the wait: [tcp_send] is the part of send
    before its loop and [tcp_send_round] what it does with each wakeup.

    ** Theorems

    - The running program ([app_step]): [app_invariant], [wire_well_formed],
      [app_steps_terminate] ([Termination]); how it ends: [shutdown_ends_command],
      [udp_shutdown_panics], [reset_hangs_receiver] ([Shutdown]); what a command
      sends: [udp_send_command_requests] ([CommandProps]).
    - Between two stations: [tcp_end_to_end] ([StackTcp]), [udp_end_to_end],
      [arp_exchange], [icmp_echo].
    - The stack: [netapp_new_spec], [handle_protocol_drains], [receive_bounds],
      [foreign_datagram_panics], and the locks: [ordered_sections_complete],
      [lock_order_deadlocks].
    - Representation: [cksum16_rfc1071], [ip_header_roundtrip],
      [check_ip_header_spec], [ethernet_roundtrip], [tcp_segment_roundtrip],
      [udp_delivers], and the lemma [ip_addr_roundtrip].
    - Routing and output: [lookup_longest_prefix], [ip_output_sends]; the lemmas
      [ip_output_waits_for_arp], [ip_output_broadcast_panics], [arp_cache_expiry].
    - UDP sockets: [udp_sockets_refine], [udp_binding_unique]; the lemma
      [udp_send_to_source].
    - TCP, the table: [tcp_table_invariant] over the step relation [tcp_step] of all
      operations, [tcp_select_spec], [passive_reopen_remembers],
      [accept_never_returns] ([TcpAccept]).
    - TCP, a connection: [tcp_active_open], [tcp_handshake], [tcp_stream_delivered],
      [tcp_send_segments], [tcp_send_underflow], [tcp_unacceptable],
      [tcp_reset_frees], [tcp_fin_received]; the lemmas [tcp_receive_front] and
      [tcp_close_resets].
    - TCP, retransmission: [retransmit_entry]; the lemmas [clean_data_queue_one] and
      [retransmit_empties].

    The TCP theorems do not open IP: [ip_takes] says IP accepts one segment, and
    the class [IpService] ([IpService.v]) what IP promises for several; its
    instance for a neighbour with a cached hardware address discharges it.
    [TcpInv] and [TcpConn] hold the lemmas on the table and on single steps,
    [TcpProps], [TcpMore] and [TcpSend] the theorems; [StackFrame] shows what
    processing never changes and what it writes, and [StackProps] has the theorems on the stack.

    ** Bounds

    Loops over a list are structural.  Three loops have a bound: the fold of the
    carries of a [u32] (three rounds, [fold_carries_norm]), the digits of a number
    in decimal (ten, [ip_addr_roundtrip]) and the loop of send (the length of
    the data: each round sends at least one byte, [send_loop_fuelled]).  [NoFuel]
    is unreachable in every step of the running program: [app_steps_terminate].

    ** Not modelled

    The parser that clap derives from the command line's types, the format of log
    lines, registering signal handlers, starting, joining and sleeping threads.
    What the kernel does with a call is a parameter ([tap_call], the frames it
    delivers); a write to the TAP file that fails is only logged by the source, so
    what is written means what was handed to write. Critical sections are atomic:
    a section is one function on the state, [app_step] interleaves sections and
    the state machines of the threads, and [Concurrency] has the locks themselves.
    Arithmetic on sequence numbers does not wrap in a checked build, so theorems
    about a connection carry the hypothesis that its numbers stay below 2^32.

    Planned next: connect and bind of the socket interface together with
    [tcp_find_port]; segments that arrive out of order; the TCP commands of two
    stations end to end, over [app_step] of both; liveness of the retransmission
    thread. *)
From stdpp Require Export prelude gmap list numbers strings.
From Stdlib Require Export ZArith Lia.

Open Scope Z_scope.

(** ** Outcomes of a piece of Rust code

    [Ret a]: the code returned [a].  [Panic]: a Rust panic (an [unwrap] of
    [None]/[Err], an index or slice out of range, an explicit [panic!], an
    arithmetic overflow under overflow checks).  [UB]: undefined behaviour,
    which this program only has through [ptr::read] past the end of a slice.
    [Blocks]: the thread waits (empty channel, empty TAP queue).  [NoFuel]:
    the iteration bound of a modelled [while] loop was too small; every loop
    that has a bound is proved never to reach it. *)
Inductive outcome (A : Type) : Type :=
| Ret (a : A)
| Panic
| UB
| Blocks
| NoFuel.
Arguments Ret {A} a.
Arguments Panic {A}.
Arguments UB {A}.
Arguments Blocks {A}.
Arguments NoFuel {A}.

#[export] Instance outcome_ret : MRet outcome := fun A a => Ret a.
#[export] Instance outcome_bind : MBind outcome := fun A B f m =>
  match m with
  | Ret a => f a
  | Panic => Panic
  | UB => UB
  | Blocks => Blocks
  | NoFuel => NoFuel
  end.

(** [Result<A, ()>]. *)
Inductive result (A : Type) : Type :=
| Ok (a : A)
| Err.
Arguments Ok {A} a.
Arguments Err {A}.

Definition unwrap {A} (o : option A) : outcome A :=
  match o with Some a => Ret a | None => Panic end.

Definition unwrap_result {A} (r : result A) : outcome A :=
  match r with Ok a => Ret a | Err => Panic end.

Definition is_some {A} (o : option A) : bool :=
  match o with Some _ => true | None => false end.

(** [while]/[loop] bodies tell the loop whether to go on. *)
Inductive loop_ctl := Continue | Break.

(** ** Machine integers

    A [w]-bit unsigned integer is a [Z] in [0, 2^w).  [+], [-] and [*] are
    checked in a debug build (the README's [cargo build]) and wrap in a release
    build; the development is generic in that choice. *)
Class BuildProfile := { overflow_checks : bool }.

Definition u8_max : Z := 255.
Definition u16_max : Z := 65535.
Definition u32_max : Z := 4294967295.

Definition in_u8 (z : Z) : Prop := 0 <= z < 256.
Definition in_u16 (z : Z) : Prop := 0 <= z < 65536.
Definition in_u32 (z : Z) : Prop := 0 <= z < 4294967296.
Definition in_usize (z : Z) : Prop := 0 <= z < 18446744073709551616.
Definition bytes_ok (l : list Z) : Prop := Forall in_u8 l.

Definition as_u8 (z : Z) : Z := z mod 256.
Definition as_u16 (z : Z) : Z := z mod 65536.
Definition as_u32 (z : Z) : Z := z mod 4294967296.

Definition not_u16 (z : Z) : Z := 65535 - z.
Definition not_u32 (z : Z) : Z := 4294967295 - z.

Definition checked `{BuildProfile} (bound v : Z) : outcome Z :=
  if (0 <=? v) && (v <? bound) then Ret v
  else if overflow_checks then Panic else Ret (v mod bound).

Definition add_u16 `{BuildProfile} (a b : Z) : outcome Z := checked 65536 (a + b).
Definition sub_u16 `{BuildProfile} (a b : Z) : outcome Z := checked 65536 (a - b).
Definition add_u32 `{BuildProfile} (a b : Z) : outcome Z := checked 4294967296 (a + b).
Definition sub_u32 `{BuildProfile} (a b : Z) : outcome Z := checked 4294967296 (a - b).
Definition add_usize `{BuildProfile} (a b : Z) : outcome Z := checked 18446744073709551616 (a + b).
Definition sub_usize `{BuildProfile} (a b : Z) : outcome Z := checked 18446744073709551616 (a - b).

(** ** Slices *)

(** [l.len()] *)
Definition zlen {A} (l : list A) : Z := Z.of_nat (length l).

(** [l[i]] *)
Definition index {A} (l : list A) (i : Z) : outcome A :=
  if 0 <=? i then unwrap (l !! Z.to_nat i) else Panic.

(** [&l[i..]] *)
Definition slice_from {A} (l : list A) (i : Z) : outcome (list A) :=
  if (0 <=? i) && (i <=? zlen l) then Ret (drop (Z.to_nat i) l) else Panic.

(** [&l[i..j]] *)
Definition slice {A} (l : list A) (i j : Z) : outcome (list A) :=
  if (0 <=? i) && (i <=? j) && (j <=? zlen l)
  then Ret (take (Z.to_nat (j - i)) (drop (Z.to_nat i) l)) else Panic.

(** [l[i] = v] *)
Definition set_index {A} (l : list A) (i : Z) (v : A) : outcome (list A) :=
  if (0 <=? i) && (i <? zlen l) then Ret (<[Z.to_nat i := v]> l) else Panic.

(** ** Record update: [r <| field := v |>] *)
Class Setter {R T} (proj : R -> T) := set_field : T -> R -> R.

Declare Scope rust_scope.
Delimit Scope rust_scope with rust.
Notation "r <| f := v |>" := (set_field (proj := f) v r)
  (at level 1, left associativity, format "r  <| f  :=  v |>") : rust_scope.
Open Scope rust_scope.

(** ** Reasoning about outcomes

    [ensures m Q]: whenever [m] returns, its result satisfies [Q] (partial).
    [returns m Q]: [m] returns and its result satisfies [Q] (total). *)
Definition ensures {A} (m : outcome A) (Q : A -> Prop) : Prop :=
  match m with Ret a => Q a | _ => True end.

Definition returns {A} (m : outcome A) (Q : A -> Prop) : Prop :=
  match m with Ret a => Q a | _ => False end.

(** The two ways a program step is meaningful at all: it does not read out of
    bounds and its loops had enough fuel. *)
Definition defined {A} (m : outcome A) : Prop :=
  match m with UB | NoFuel => False | _ => True end.

Create HintDb rust.

Lemma bind_ret {A B} (a : A) (f : A -> outcome B) : (x ← Ret a; f x) = f a.
Proof. done. Qed.

Lemma bind_Ret_inv {A B} (m : outcome A) (f : A -> outcome B) b :
  (x ← m; f x) = Ret b -> exists a, m = Ret a /\ f a = Ret b.
Proof. destruct m; naive_solver. Qed.

Lemma ensures_bind {A B} (m : outcome A) (f : A -> outcome B) Q :
  ensures m (fun a => ensures (f a) Q) -> ensures (x ← m; f x) Q.
Proof. by destruct m. Qed.

Lemma ensures_bind2 {A B} (m : outcome A) (f : A -> outcome B) (P : A -> Prop) Q :
  ensures m P -> (forall a, P a -> ensures (f a) Q) -> ensures (x ← m; f x) Q.
Proof. destruct m; simpl; auto. Qed.

Lemma returns_bind {A B} (m : outcome A) (f : A -> outcome B) Q :
  returns m (fun a => returns (f a) Q) -> returns (x ← m; f x) Q.
Proof. by destruct m. Qed.

Lemma ensures_mono {A} (m : outcome A) (P Q : A -> Prop) :
  ensures m P -> (forall a, P a -> Q a) -> ensures m Q.
Proof. destruct m; simpl; eauto. Qed.

Lemma returns_mono {A} (m : outcome A) (P Q : A -> Prop) :
  returns m P -> (forall a, P a -> Q a) -> returns m Q.
Proof. destruct m; simpl; eauto. Qed.

Lemma ensures_Ret {A} (m : outcome A) Q :
  ensures m Q <-> forall a, m = Ret a -> Q a.
Proof. destruct m; naive_solver. Qed.

Lemma returns_Ret {A} (m : outcome A) Q :
  returns m Q <-> exists a, m = Ret a /\ Q a.
Proof. destruct m; naive_solver. Qed.

Lemma returns_ensures {A} (m : outcome A) (Q : A -> Prop) : returns m Q -> ensures m Q.
Proof. destruct m; naive_solver. Qed.

Lemma ensures_True {A} (m : outcome A) : ensures m (fun _ => True).
Proof. by destruct m. Qed.

Lemma ensures_all {A} (m : outcome A) (Q : A -> Prop) : (forall a, Q a) -> ensures m Q.
Proof. destruct m; simpl; auto. Qed.

(** Two computations that end the same way, with results related by [R]. *)
Definition refines {A B} (R : A -> B -> Prop) (m : outcome A) (m' : outcome B) : Prop :=
  match m, m' with
  | Ret a, Ret b => R a b
  | Panic, Panic | UB, UB | Blocks, Blocks | NoFuel, NoFuel => True
  | _, _ => False
  end.

Lemma refines_bind {A B A' B'} (R : A -> B -> Prop) (R' : A' -> B' -> Prop) m m' f f' :
  refines R m m' -> (forall a b, m' = Ret b -> R a b -> refines R' (f a) (f' b)) ->
  refines R' (m ≫= f) (m' ≫= f').
Proof. destruct m, m'; simpl; try done. intros HR Hf. by apply Hf. Qed.

Lemma refines_same {A B B'} (R : B -> B' -> Prop) (m : outcome A) f f' :
  (forall a, m = Ret a -> refines R (f a) (f' a)) -> refines R (m ≫= f) (m ≫= f').
Proof. destruct m; simpl; auto. Qed.

Lemma refines_Ret {A B} (R : A -> B -> Prop) m b : refines R m (Ret b) -> exists a, m = Ret a /\ R a b.
Proof. destruct m; simpl; try done. by eexists. Qed.

Lemma refines_Panic {A B} (R : A -> B -> Prop) m : refines R m Panic -> m = Panic.
Proof. by destruct m. Qed.

Lemma defined_bind {A B} (m : outcome A) (f : A -> outcome B) :
  defined m -> ensures m (fun a => defined (f a)) -> defined (x ← m; f x).
Proof. destruct m; naive_solver. Qed.

Lemma defined_bind_all {A B} (m : outcome A) (f : A -> outcome B) :
  defined m -> (forall a, defined (f a)) -> defined (x ← m; f x).
Proof. destruct m; simpl; auto. Qed.

Lemma defined_not_UB {A} (m : outcome A) : defined m -> m <> UB.
Proof. by destruct m. Qed.

Lemma unwrap_defined {A} (o : option A) : defined (unwrap o).
Proof. by destruct o. Qed.
Lemma unwrap_result_defined {A} (r : result A) : defined (unwrap_result r).
Proof. by destruct r. Qed.

Lemma unwrap_Ret {A} (o : option A) a : unwrap o = Ret a <-> o = Some a.
Proof. destruct o; naive_solver. Qed.

(** *** Checked arithmetic *)
Section arithmetic.
Context `{BuildProfile}.

Lemma checked_ok bound v : 0 <= v < bound -> checked bound v = Ret v.
Proof.
  intros ?. unfold checked.
  by rewrite (proj2 (Z.leb_le _ _)), (proj2 (Z.ltb_lt _ _)) by lia.
Qed.

Lemma checked_range bound v : 0 < bound ->
  ensures (checked bound v) (fun r => 0 <= r < bound).
Proof.
  intros ?. unfold checked. destruct ((_ && _)) eqn:E; simpl.
  - lia.
  - destruct overflow_checks; simpl; [done|]. by apply Z.mod_pos_bound.
Qed.

Lemma checked_defined bound v : defined (checked bound v).
Proof. unfold checked. repeat case_match; done. Qed.

Lemma checked_cases bound v : (exists r, checked bound v = Ret r) \/ checked bound v = Panic.
Proof. unfold checked. repeat case_match; eauto. Qed.

(** In a debug build an operation that leaves the range panics. *)
Lemma checked_panic bound v :
  overflow_checks = true -> ~ (0 <= v < bound) -> checked bound v = Panic.
Proof.
  intros E ?. unfold checked. rewrite E.
  destruct ((0 <=? v) && (v <? bound)) eqn:B; [lia|done].
Qed.

Lemma add_u16_ok a b : 0 <= a + b < 65536 -> add_u16 a b = Ret (a + b).
Proof. apply checked_ok. Qed.
Lemma sub_u16_ok a b : 0 <= a - b < 65536 -> sub_u16 a b = Ret (a - b).
Proof. apply checked_ok. Qed.
Lemma add_u32_ok a b : 0 <= a + b < 4294967296 -> add_u32 a b = Ret (a + b).
Proof. apply checked_ok. Qed.
Lemma sub_u32_ok a b : 0 <= a - b < 4294967296 -> sub_u32 a b = Ret (a - b).
Proof. apply checked_ok. Qed.
Lemma add_usize_ok a b : in_usize (a + b) -> add_usize a b = Ret (a + b).
Proof. apply checked_ok. Qed.
Lemma sub_usize_ok a b : in_usize (a - b) -> sub_usize a b = Ret (a - b).
Proof. apply checked_ok. Qed.

Lemma add_u16_range a b : ensures (add_u16 a b) in_u16.
Proof. by apply checked_range. Qed.
Lemma sub_u16_range a b : ensures (sub_u16 a b) in_u16.
Proof. by apply checked_range. Qed.
Lemma add_u32_range a b : ensures (add_u32 a b) in_u32.
Proof. by apply checked_range. Qed.
Lemma sub_u32_range a b : ensures (sub_u32 a b) in_u32.
Proof. by apply checked_range. Qed.
Lemma add_usize_range a b : ensures (add_usize a b) in_usize.
Proof. by apply checked_range. Qed.
Lemma sub_usize_range a b : ensures (sub_usize a b) in_usize.
Proof. by apply checked_range. Qed.
End arithmetic.

#[export] Hint Resolve add_u16_range sub_u16_range add_u32_range sub_u32_range
  add_usize_range sub_usize_range checked_defined unwrap_defined unwrap_result_defined : rust.

Lemma as_u16_id z : in_u16 z -> as_u16 z = z.
Proof. intros. by apply Z.mod_small. Qed.
Lemma as_u32_id z : in_u32 z -> as_u32 z = z.
Proof. intros. by apply Z.mod_small. Qed.
Lemma as_u8_id z : in_u8 z -> as_u8 z = z.
Proof. intros. by apply Z.mod_small. Qed.
Lemma as_u16_range z : in_u16 (as_u16 z).
Proof. by apply Z.mod_pos_bound. Qed.
Lemma as_u32_range z : in_u32 (as_u32 z).
Proof. by apply Z.mod_pos_bound. Qed.
Lemma as_u8_range z : in_u8 (as_u8 z).
Proof. by apply Z.mod_pos_bound. Qed.
#[export] Hint Resolve as_u16_range as_u32_range as_u8_range : rust.

(** *** Slices *)
Section slices.
Context {A : Type}.
Implicit Types l : list A.

Lemma zlen_nonneg l : 0 <= zlen l.
Proof. unfold zlen. lia. Qed.
Lemma zlen_app l1 l2 : zlen (l1 ++ l2) = zlen l1 + zlen l2.
Proof. unfold zlen. rewrite length_app. lia. Qed.
Lemma zlen_nil : zlen ([] : list A) = 0.
Proof. done. Qed.
Lemma zlen_cons x l : zlen (x :: l) = 1 + zlen l.
Proof. unfold zlen. simpl. lia. Qed.

Lemma index_lookup l (i : nat) : index l (Z.of_nat i) = unwrap (l !! i).
Proof.
  unfold index. rewrite (proj2 (Z.leb_le _ _)) by lia. by rewrite Nat2Z.id.
Qed.

Lemma index_panic l i : zlen l <= i -> index l i = Panic.
Proof.
  intros Hi. unfold index. pose proof (zlen_nonneg l).
  rewrite (proj2 (Z.leb_le _ _)) by lia.
  rewrite lookup_ge_None_2; [done|]. unfold zlen in *. lia.
Qed.

Lemma index_app l1 l2 i : 0 <= i -> index (l1 ++ l2) (zlen l1 + i) = index l2 i.
Proof.
  intros Hi. unfold index. pose proof (zlen_nonneg l1).
  rewrite !(proj2 (Z.leb_le _ _)) by lia. f_equal.
  rewrite lookup_app_r by (unfold zlen; lia). f_equal. unfold zlen. lia.
Qed.

Lemma index_app_0 l1 x l2 : index (l1 ++ x :: l2) (zlen l1) = Ret x.
Proof. rewrite <-(Z.add_0_r (zlen l1)). by rewrite index_app. Qed.

Lemma slice_from_app l1 l2 i : i = zlen l1 -> slice_from (l1 ++ l2) i = Ret l2.
Proof.
  intros ->. unfold slice_from. pose proof (zlen_nonneg l1). pose proof (zlen_nonneg l2).
  rewrite zlen_app, !(proj2 (Z.leb_le _ _)) by lia. simpl.
  unfold zlen. rewrite Nat2Z.id. by rewrite drop_app_length.
Qed.

Lemma slice_app l1 l2 l3 i j :
  i = zlen l1 -> j = zlen l1 + zlen l2 -> slice (l1 ++ l2 ++ l3) i j = Ret l2.
Proof.
  intros -> ->. unfold slice.
  pose proof (zlen_nonneg l1). pose proof (zlen_nonneg l2). pose proof (zlen_nonneg l3).
  rewrite !zlen_app, !(proj2 (Z.leb_le _ _)) by lia. simpl.
  replace (zlen l1 + zlen l2 - zlen l1) with (zlen l2) by lia.
  unfold zlen. rewrite !Nat2Z.id. by rewrite drop_app_length, take_app_length.
Qed.

Lemma index_defined l i : defined (index l i).
Proof. unfold index. case_match; [apply unwrap_defined|done]. Qed.
Lemma slice_defined l i j : defined (slice l i j).
Proof. unfold slice. by case_match. Qed.
Lemma slice_from_defined l i : defined (slice_from l i).
Proof. unfold slice_from. by case_match. Qed.
Lemma set_index_defined l i x : defined (set_index l i x).
Proof. unfold set_index. by case_match. Qed.

Lemma slice_from_ok l i : 0 <= i <= zlen l -> slice_from l i = Ret (drop (Z.to_nat i) l).
Proof. intros. unfold slice_from. by rewrite !(proj2 (Z.leb_le _ _)) by lia. Qed.
Lemma slice_from_Forall (P : A -> Prop) l i : Forall P l -> ensures (slice_from l i) (Forall P).
Proof. intros. unfold slice_from. case_match; [by apply Forall_drop|done]. Qed.
Lemma slice_Forall (P : A -> Prop) l i j : Forall P l -> ensures (slice l i j) (Forall P).
Proof. intros. unfold slice. case_match; [by apply Forall_take, Forall_drop|done]. Qed.
Lemma set_index_app l1 x y l2 : set_index (l1 ++ x :: l2) (zlen l1) y = Ret (l1 ++ y :: l2).
Proof.
  unfold set_index. pose proof (zlen_nonneg l1). pose proof (zlen_nonneg l2).
  rewrite zlen_app, zlen_cons, (proj2 (Z.leb_le _ _)), (proj2 (Z.ltb_lt _ _)) by lia. cbn [andb].
  replace (Z.to_nat (zlen l1)) with (length l1 + 0)%nat by (unfold zlen; lia).
  by rewrite insert_app_r.
Qed.
Lemma zlen_replicate n (x : A) : zlen (replicate n x) = Z.of_nat n.
Proof. unfold zlen. by rewrite length_replicate. Qed.
Lemma zlen_drop n l : Z.of_nat n <= zlen l -> zlen (drop n l) = zlen l - Z.of_nat n.
Proof. unfold zlen. rewrite length_drop. lia. Qed.
Lemma zlen_take n l : Z.of_nat n <= zlen l -> zlen (take n l) = Z.of_nat n.
Proof. unfold zlen. rewrite length_take. lia. Qed.
End slices.
#[export] Hint Rewrite @zlen_app @zlen_nil @zlen_cons @zlen_replicate : zlen.

#[export] Hint Resolve index_defined slice_defined slice_from_defined set_index_defined : rust.

Ltac zlen_simpl := autorewrite with zlen in *.

(** *** Automation

    [run]: one symbolic execution step of a goal about an outcome; [step]/[steps]
    split binds and conditionals of an [ensures] goal. *)
Ltac ens_step :=
  lazymatch goal with
  | |- ensures (mbind _ _) _ => apply ensures_bind
  | |- ensures (Ret _) _ => simpl
  | |- ensures Panic _ => exact I
  | |- ensures UB _ => exact I
  | |- ensures Blocks _ => exact I
  | |- ensures NoFuel _ => exact I
  | |- ensures (if ?b then _ else _) _ => destruct b eqn:?
  | |- ensures (match ?x with _ => _ end) _ => destruct x eqn:?
  end.

(** Closes [defined] goals compositionally, with the [rust] hints at the leaves. *)
Ltac def_step :=
  lazymatch goal with
  | |- defined (mbind _ _) => apply defined_bind_all; [|intros ?]
  | |- defined (Ret _) => exact I
  | |- defined Panic => exact I
  | |- defined Blocks => exact I
  | |- defined (if ?b then _ else _) => destruct b eqn:?
  | |- defined (let '_ := ?x in _) => destruct x eqn:?
  | |- defined (match ?x with _ => _ end) => destruct x eqn:?
  | |- defined _ => solve [eauto with rust]
  end.
Ltac def_tac := repeat def_step.

(** Inversion of a hypothesis that says a computation returned. *)
Ltac inv_bind H :=
  let x := fresh "x" in
  let E := fresh "E" in
  apply bind_Ret_inv in H; destruct H as (x & E & H).

(** [find]-style lemmas on options. *)
Lemma is_some_true {A} (o : option A) : is_some o = true <-> is_Some o.
Proof. destruct o as [a|]; split; [by exists a | done | done | by intros [? ?]]. Qed.
