(* ===== verification/Platform.v ===== *)
(** * The world outside the crate

    What the source takes from the Rust standard library and from the operating
    system: [mpsc] channels, [SystemTime], signals raised in the own process,
    the random number generator of the [rand] crate and the TAP file.  Channels,
    durations and the pending-signal list are modelled (standard library); the
    clock, the generator and the hardware address the kernel reports are the
    fields of the class [Platform], arguments of every definition that uses them. *)
From S2P Require Import Prelude.

(** ** Parameters: clock, random numbers, kernel *)

(** The calls into the kernel that open the TAP device, in drivers/tap.rs. *)
Inductive TapCall :=
| OpenTun (path : String.string)           (* [OpenOptions::open] *)
| IfreqFromName (name : String.string)     (* [ifreq::from_name] *)
| TunSetIff (ifr_flags : Z)                (* [ioctl] TUNSETIFF *)
| SetOwn                                   (* [fcntl] F_SETOWN, own process *)
| SetAsync                                 (* [fcntl] F_SETFL, O_ASYNC *)
| SetSig (sig : Z)                         (* [fcntl] F_SETSIG *)
| InetSocket                               (* [socket] *)
| GetHwAddr                                (* [ioctl] SIOCGIFHWADDR *)
| IfreqGetName.                            (* [ifreq::get_name]: the name is UTF-8 *)

Class Platform := {
  (** Whether the kernel grants a call. *)
  tap_call : TapCall -> bool;
  (** [SystemTime::now()], in nanoseconds since the epoch: the value of the
      [n]-th reading.  Nothing is assumed about monotonicity. *)
  clock : nat -> Z;
  (** [rand::thread_rng().gen_range(0..u32::MAX)]: the [n]-th number drawn,
      which is documented to lie in the half-open range. *)
  gen_range : nat -> Z;
  gen_range_spec : forall n, 0 <= gen_range n < u32_max;
  (** [ifr_hwaddr.sa_data] as the kernel fills it: 14 bytes. *)
  tap_hw_addr : list Z;
  tap_hw_addr_len : length tap_hw_addr = 14%nat;
  tap_hw_addr_bytes : bytes_ok tap_hw_addr
}.

(** ** Channels

    [mpsc::channel()] returns a [Sender] and a [Receiver] of a new unbounded
    queue.  A channel is named by its position in the list of all channels.
    The program never clones a [Sender], so one flag says whether it is alive. *)
Record Chan := mkChan {
  ch_queue : list bool;
  ch_rx_alive : bool;
  ch_tx_alive : bool
}.

Record Env := mkEnv {
  env_ticks : nat;        (* readings of the clock so far *)
  env_draws : nat;        (* random numbers drawn so far *)
  env_chans : list Chan;
  env_signals : list Z    (* signals raised and not yet delivered *)
}.

#[export] Instance set_ch_queue : Setter ch_queue :=
  fun v c => mkChan v (ch_rx_alive c) (ch_tx_alive c).
#[export] Instance set_ch_rx_alive : Setter ch_rx_alive :=
  fun v c => mkChan (ch_queue c) v (ch_tx_alive c).
#[export] Instance set_ch_tx_alive : Setter ch_tx_alive :=
  fun v c => mkChan (ch_queue c) (ch_rx_alive c) v.
#[export] Instance set_env_ticks : Setter env_ticks :=
  fun v e => mkEnv v (env_draws e) (env_chans e) (env_signals e).
#[export] Instance set_env_draws : Setter env_draws :=
  fun v e => mkEnv (env_ticks e) v (env_chans e) (env_signals e).
#[export] Instance set_env_chans : Setter env_chans :=
  fun v e => mkEnv (env_ticks e) (env_draws e) v (env_signals e).
#[export] Instance set_env_signals : Setter env_signals :=
  fun v e => mkEnv (env_ticks e) (env_draws e) (env_chans e) v.

Definition env_init : Env := mkEnv 0 0 [] [].

(** [mpsc::channel()] *)
Definition channel (e : Env) : nat * Env :=
  (length (env_chans e), e <|env_chans := env_chans e ++ [mkChan [] true true]|>).

(** [sender.send(b)]: an error when the receiver has been dropped. *)
Definition chan_send (c : nat) (b : bool) (e : Env) : result unit * Env :=
  match env_chans e !! c with
  | Some ch =>
      if ch_rx_alive ch
      then (Ok tt, e <|env_chans := <[c := ch <|ch_queue := ch_queue ch ++ [b]|>]> (env_chans e)|>)
      else (Err, e)
  | None => (Err, e)
  end.

(** [receiver.recv()]: the oldest message; an error when the queue is empty and
    the sender is gone; otherwise the thread waits. *)
Definition chan_recv (c : nat) (e : Env) : outcome (result bool * Env) :=
  match env_chans e !! c with
  | Some ch =>
      match ch_queue ch with
      | b :: q => Ret (Ok b, e <|env_chans := <[c := ch <|ch_queue := q|>]> (env_chans e)|>)
      | [] => if ch_tx_alive ch then Blocks else Ret (Err, e)
      end
  | None => Ret (Err, e)
  end.

(** Dropping one end of a channel. *)
Definition drop_sender (c : option nat) (e : Env) : Env :=
  match c with
  | Some c => e <|env_chans := alter (fun ch => ch <|ch_tx_alive := false|>) c (env_chans e)|>
  | None => e
  end.

Definition drop_receiver (c : nat) (e : Env) : Env :=
  e <|env_chans := alter (fun ch => ch <|ch_rx_alive := false|>) c (env_chans e)|>.

(** ** Time *)

Definition NANOS_PER_SEC : Z := 1000000000.
Definition from_secs (s : Z) : Z := s * NANOS_PER_SEC.
Definition from_micros (us : Z) : Z := us * 1000.
Definition as_secs (d : Z) : Z := d / NANOS_PER_SEC.
Definition as_micros (d : Z) : Z := d / 1000.

(** [SystemTime::now()] *)
Definition now `{Platform} (e : Env) : Z * Env :=
  (clock (env_ticks e), e <|env_ticks := S (env_ticks e)|>).

(** [t.elapsed()]: an error when [t] is later than the present. *)
Definition elapsed `{Platform} (t : Z) (e : Env) : result Z * Env :=
  let '(n, e) := now e in
  (if t <=? n then Ok (n - t) else Err, e).

(** [t.checked_add(d)]: the seconds of a [SystemTime] are an [i64]. *)
Definition checked_add (t d : Z) : option Z :=
  if as_secs (t + d) <? 2 ^ 63 then Some (t + d) else None.

(** ** Random numbers and signals *)

Definition rng_u32 `{Platform} (e : Env) : Z * Env :=
  (gen_range (env_draws e), e <|env_draws := S (env_draws e)|>).

(** [signal_hook::low_level::raise(sig)]: the signal becomes pending. *)
Definition raise (sig : Z) (e : Env) : Env := e <|env_signals := env_signals e ++ [sig]|>.

(** ** The TAP file

    [rx]: what the kernel has queued for reading, one entry per [read] ([None]:
    the call fails); [tx]: the frames written. *)
Record TapFile := mkTapFile { tap_rx : list (option (list Z)); tap_tx : list (list Z) }.

(** [file.read(&mut buf)] for a buffer of [n] bytes: the length, the frame cut
    at [n] bytes; an empty queue makes the thread wait. *)
Definition tap_read (n : nat) (f : TapFile) : outcome (result (list Z) * TapFile) :=
  match tap_rx f with
  | [] => Blocks
  | None :: q => Ret (Err, mkTapFile q (tap_tx f))
  | Some frame :: q => Ret (Ok (take n frame), mkTapFile q (tap_tx f))
  end.

(** [file.write(data)] *)
Definition tap_write (data : list Z) (f : TapFile) : TapFile :=
  mkTapFile (tap_rx f) (tap_tx f ++ [data]).

(** ** Laws *)

Section laws.
Context `{Platform}.

Lemma rng_u32_range e : 0 <= fst (rng_u32 e) < u32_max.
Proof. apply gen_range_spec. Qed.

Lemma elapsed_ok t e d e' : elapsed t e = (Ok d, e') -> 0 <= d /\ t + d = clock (env_ticks e).
Proof. unfold elapsed. simpl. case_match; intros; simplify_eq; lia. Qed.

Lemma elapsed_err t e e' : elapsed t e = (Err, e') -> clock (env_ticks e) < t.
Proof. unfold elapsed. simpl. case_match; intros; simplify_eq; lia. Qed.

(** A message sent on a fresh channel is what its receiver reads. *)
Lemma channel_send_recv e b :
  let '(c, e1) := channel e in
  let '(r, e2) := chan_send c b e1 in
  r = Ok tt /\ exists e3, chan_recv c e2 = Ret (Ok b, e3).
Proof.
  unfold channel, chan_send. cbn.
  rewrite lookup_app_r by lia. rewrite Nat.sub_diag. cbn. split; [done|].
  unfold chan_recv. cbn.
  rewrite list_lookup_insert_eq by (rewrite length_app; simpl; lia). cbn. eauto.
Qed.
End laws.

(** A concrete platform, for evaluation: a clock that advances one millisecond
    per reading and a generator that counts. *)
Definition demo_hw_addr : list Z := [2; 0; 0; 0; 0; 1; 0; 0; 0; 0; 0; 0; 0; 0].

Lemma demo_gen_spec (n : nat) : 0 <= 1000 + Z.of_nat n mod 1000 < u32_max.
Proof.
  pose proof (Z.mod_pos_bound (Z.of_nat n) 1000 eq_refl). unfold u32_max. lia.
Qed.

Lemma demo_hw_addr_bytes : bytes_ok demo_hw_addr.
Proof. repeat constructor; done. Qed.

Definition platform_with_clock (c : nat -> Z) : Platform := {|
  tap_call _ := true;
  clock := c;
  gen_range n := 1000 + Z.of_nat n mod 1000;
  gen_range_spec := demo_gen_spec;
  tap_hw_addr := demo_hw_addr;
  tap_hw_addr_len := eq_refl;
  tap_hw_addr_bytes := demo_hw_addr_bytes
|}.

Definition demo_platform : Platform := platform_with_clock (fun n => from_micros (1000 * Z.of_nat n)).

Definition debug_build : BuildProfile := {| overflow_checks := true |}.
Definition release_build : BuildProfile := {| overflow_checks := false |}.
