(* ===== verification/LinkedList.v ===== *)
(** * utils/list.rs: the singly linked list

    [Node] and [List] as in the source, [push] (walk to the last node and link a
    new one), [iter] as the unfolding of [Iter::next], and [traverse], a [for]
    loop over [iter_mut] whose body may change the element, thread a state and
    [break].  The abstract view of a list is [to_list]; the laws say that [push]
    appends and that both iterators visit the elements in order. *)
From S2P Require Import Prelude.

#[local] Set Warnings "-register-all".

Inductive Node (T : Type) : Type :=
| mkNode (elem : T) (next : option (Node T)).
Arguments mkNode {T} elem next.

Definition elem {T} (n : Node T) : T := match n with mkNode e _ => e end.
Definition next {T} (n : Node T) : option (Node T) := match n with mkNode _ l => l end.

Record List (T : Type) : Type := mkList { head : option (Node T) }.
Arguments mkList {T} head.
Arguments head {T} l.

(** [List::new] *)
Definition list_new {T} : List T := mkList None.

(** The [while] loop of [List::push]. *)
Fixpoint push_loop {T} (node new_node : Node T) : Node T :=
  match node with
  | mkNode e None => mkNode e (Some new_node)
  | mkNode e (Some n) => mkNode e (Some (push_loop n new_node))
  end.

Definition push {T} (l : List T) (x : T) : List T :=
  let new_node := mkNode x None in
  match head l with
  | None => mkList (Some new_node)
  | Some h => mkList (Some (push_loop h new_node))
  end.

(** [Iter]: the state is the next node; [Iter::next]. *)
Definition iter {T} (l : List T) : option (Node T) := head l.

Definition iter_next {T} (it : option (Node T)) : option (T * option (Node T)) :=
  match it with
  | None => None
  | Some node => Some (elem node, next node)
  end.

(** What a [for] loop over [iter()] sees. *)
Fixpoint node_to_list {T} (n : Node T) : list T :=
  match n with
  | mkNode e None => [e]
  | mkNode e (Some n) => e :: node_to_list n
  end.

Definition to_list {T} (l : List T) : list T :=
  match head l with None => [] | Some n => node_to_list n end.

(** [for x in l.iter_mut() { body }] *)
Fixpoint traverse_node {S T} (body : S -> T -> outcome (S * T * loop_ctl))
    (n : Node T) (s : S) : outcome (S * Node T) :=
  match n with
  | mkNode e nx =>
      '(s, e, ctl) ← body s e;
      match ctl, nx with
      | Break, _ | Continue, None => Ret (s, mkNode e nx)
      | Continue, Some m =>
          '(s, m) ← traverse_node body m s; Ret (s, mkNode e (Some m))
      end
  end.

Definition traverse {S T} (body : S -> T -> outcome (S * T * loop_ctl))
    (l : List T) (s : S) : outcome (S * List T) :=
  match head l with
  | None => Ret (s, l)
  | Some n => '(s, n) ← traverse_node body n s; Ret (s, mkList (Some n))
  end.

(** The same loop over the abstract view. *)
Fixpoint traverse_list {S T} (body : S -> T -> outcome (S * T * loop_ctl))
    (l : list T) (s : S) : outcome (S * list T) :=
  match l with
  | [] => Ret (s, [])
  | e :: l' =>
      '(s, e, ctl) ← body s e;
      match ctl with
      | Break => Ret (s, e :: l')
      | Continue => '(s, l') ← traverse_list body l' s; Ret (s, e :: l')
      end
  end.

(** A search through [iter_mut()] that returns a mutable reference to the first
    element with [p]: the element and how a new value for it is put back. *)
Fixpoint focus_node {T} (p : T -> bool) (n : Node T) : option (T * (T -> Node T)) :=
  match n with
  | mkNode e nx =>
      if p e then Some (e, fun e => mkNode e nx)
      else match nx with
           | None => None
           | Some m =>
               match focus_node p m with
               | None => None
               | Some (x, put) => Some (x, fun x => mkNode e (Some (put x)))
               end
           end
  end.

Definition focus {T} (p : T -> bool) (l : List T) : option (T * (T -> List T)) :=
  match head l with
  | None => None
  | Some n =>
      match focus_node p n with
      | None => None
      | Some (x, put) => Some (x, fun x => mkList (Some (put x)))
      end
  end.

(** Lists built by successive [push]. *)
Definition from_list {T} (l : list T) : List T := fold_left push l list_new.

(** ** Laws *)

(** What the list promises to its clients ([IPRoutes], [NetDevices],
    [NetProtocols] and the interfaces of a device). *)
Class SeqLike (C : Type -> Type) := {
  seq_new : forall {T}, C T;
  seq_push : forall {T}, C T -> T -> C T;
  seq_view : forall {T}, C T -> list T;
  seq_view_new : forall {T}, seq_view (seq_new : C T) = [];
  seq_view_push : forall {T} (c : C T) x, seq_view (seq_push c x) = seq_view c ++ [x]
}.

Section laws.
Context {T : Type}.
Implicit Types (n : Node T) (l : List T) (x : T).

(** [Node] is nested in [option]: its induction principle. *)
Fixpoint node_ind' (P : Node T -> Prop)
    (base : forall e, P (mkNode e None))
    (step : forall e n, P n -> P (mkNode e (Some n))) n : P n :=
  match n with
  | mkNode e None => base e
  | mkNode e (Some m) => step e m (node_ind' P base step m)
  end.

Lemma push_loop_view n x :
  node_to_list (push_loop n (mkNode x None)) = node_to_list n ++ [x].
Proof. induction n as [e|e n IH] using node_ind'; simpl; [done|]. by rewrite IH. Qed.

Lemma to_list_new : to_list (list_new : List T) = [].
Proof. done. Qed.

Lemma to_list_push l x : to_list (push l x) = to_list l ++ [x].
Proof. unfold to_list, push. destruct (head l); simpl; [apply push_loop_view|done]. Qed.

Lemma to_list_from_list (xs : list T) : to_list (from_list xs) = xs.
Proof.
  unfold from_list. assert (forall l, to_list (fold_left push xs l) = to_list l ++ xs) as H.
  { induction xs as [|x xs IH]; intros l; simpl; [by rewrite app_nil_r|].
    by rewrite IH, to_list_push, <-app_assoc. }
  by rewrite H.
Qed.

Lemma focus_node_view p n :
  match focus_node p n with
  | None => Forall (fun x => p x = false) (node_to_list n)
  | Some (x, put) => p x = true /\ exists l1 l2 : list T,
      node_to_list n = l1 ++ x :: l2 /\ Forall (fun x => p x = false) l1
      /\ forall x', node_to_list (put x') = l1 ++ x' :: l2
  end.
Proof.
  induction n as [e|e n IH] using node_ind'; simpl; destruct (p e) eqn:E.
  - split; [done|]. by exists [], [].
  - by repeat constructor.
  - split; [done|]. by exists [], (node_to_list n).
  - destruct (focus_node p n) as [[x put]|]; [|by constructor].
    destruct IH as (Hp & l1 & l2 & -> & Hl1 & Hput). split; [done|].
    exists (e :: l1), l2. split_and!; [done|by constructor|]. intros x'. simpl. by rewrite Hput.
Qed.

(** The element found is the first with [p], and only it is replaced. *)
Lemma focus_view p l :
  match focus p l with
  | None => Forall (fun x => p x = false) (to_list l)
  | Some (x, put) => p x = true /\ exists l1 l2 : list T,
      to_list l = l1 ++ x :: l2 /\ Forall (fun x => p x = false) l1
      /\ forall x', to_list (put x') = l1 ++ x' :: l2
  end.
Proof.
  unfold focus, to_list. destruct (head l) as [n|]; [|constructor].
  pose proof (focus_node_view p n) as H. by destruct (focus_node p n) as [[x put]|].
Qed.

(** Unfolding [Iter::next] enumerates the view. *)
Lemma iter_next_view l :
  match iter_next (iter l) with
  | None => to_list l = []
  | Some (x, it) => to_list l = x :: to_list (mkList it)
  end.
Proof. destruct l as [[[e [m|]]|]]; done. Qed.

Lemma traverse_node_view {S} (body : S -> T -> outcome (S * T * loop_ctl)) n s :
  ('(s, n) ← traverse_node body n s; Ret (s, node_to_list n)) =
  traverse_list body (node_to_list n) s.
Proof.
  revert s. induction n as [e|e n IH] using node_ind'; intros s; simpl.
  - destruct (body s e) as [[[s' e'] []]| | | |]; done.
  - destruct (body s e) as [[[s' e'] []]| | | |]; simpl; try done.
    specialize (IH s'). rewrite <-IH.
    destruct (traverse_node body n s') as [[? ?]| | | |]; done.
Qed.

Lemma traverse_view {S} (body : S -> T -> outcome (S * T * loop_ctl)) l s :
  ('(s, l) ← traverse body l s; Ret (s, to_list l)) = traverse_list body (to_list l) s.
Proof.
  unfold traverse, to_list. destruct (head l) as [n|] eqn:E; simpl; [|by rewrite E].
  rewrite <-traverse_node_view. by destruct (traverse_node body n s) as [[? ?]| | | |].
Qed.

Lemma traverse_refines {S} (body : S -> T -> outcome (S * T * loop_ctl)) l s :
  refines (fun '(s1, l1) '(s2, xs) => s1 = s2 /\ to_list l1 = xs)
    (traverse body l s) (traverse_list body (to_list l) s).
Proof. rewrite <-traverse_view. by destruct (traverse body l s) as [[? ?]| | | |]. Qed.
End laws.

#[export] Instance List_SeqLike : SeqLike List := {
  seq_new := @list_new;
  seq_push := @push;
  seq_view := @to_list;
  seq_view_new := @to_list_new;
  seq_view_push := @to_list_push
}.

(** An invariant of every element and of the state is kept by a traversal whose
    body keeps it. *)
Lemma traverse_list_ensures {S T} (body : S -> T -> outcome (S * T * loop_ctl))
    (I : S -> Prop) (P : T -> Prop) (l : list T) s :
  (forall s e, I s -> P e -> ensures (body s e) (fun '(s, e, _) => I s /\ P e)) ->
  I s -> Forall P l ->
  ensures (traverse_list body l s) (fun '(s, l') => I s /\ Forall P l' /\ length l' = length l).
Proof.
  intros Hb. revert s. induction l as [|e l IH]; intros s Hs Hl; simpl; [done|].
  apply Forall_cons in Hl as [He Hl]. apply ensures_bind.
  eapply ensures_mono; [by apply Hb|]. intros [[s' e'] ctl] [Hs' He'].
  destruct ctl; simpl; [|by auto].
  apply ensures_bind. eapply ensures_mono; [by apply IH|].
  intros [s'' l'] (? & ? & Hlen). simpl. split_and!; auto.
Qed.

Lemma traverse_ensures {S T} (body : S -> T -> outcome (S * T * loop_ctl))
    (I : S -> Prop) (P : T -> Prop) (l : List T) s :
  (forall s e, I s -> P e -> ensures (body s e) (fun '(s, e, _) => I s /\ P e)) ->
  I s -> Forall P (to_list l) ->
  ensures (traverse body l s)
    (fun '(s, l') => I s /\ Forall P (to_list l') /\ length (to_list l') = length (to_list l)).
Proof.
  intros Hb Hs Hl. pose proof (traverse_list_ensures body I P (to_list l) s Hb Hs Hl) as H.
  rewrite <-traverse_view in H. by destruct (traverse body l s) as [[? ?]| | | |].
Qed.
