(* ===== verification/Bytes.v ===== *)
(** * utils/byte.rs and the struct/slice conversions of utils/mod.rs

    Byte swapping between host and network order, and [to_u8_slice] /
    [bytes_to_struct]: a struct viewed as its bytes and a slice read as a struct.
    The host is little endian ([cfg!(target_endian)] on the x86-64 Linux machines
    the README names); a struct is laid out in declaration order without padding
    ([repr(packed)], or fields that leave no padding). *)
From S2P Require Import Prelude.

Definition TARGET_BIG_ENDIAN : bool := false.

(** ** utils/byte.rs *)

Definition byte_swap_u16 (v : Z) : Z :=
  Z.lor (as_u16 (Z.shiftl (Z.land v 0x00ff) 8)) (Z.shiftr (Z.land v 0xff00) 8).

Definition byte_swap_u32 (v : Z) : Z :=
  Z.lor (Z.lor (Z.lor
    (as_u32 (Z.shiftl (Z.land v 0x000000ff) 24))
    (as_u32 (Z.shiftl (Z.land v 0x0000ff00) 8)))
    (Z.shiftr (Z.land v 0x00ff0000) 8))
    (Z.shiftr (Z.land v 0xff000000) 24).

Definition be_to_le_u16 (v : Z) : Z := if TARGET_BIG_ENDIAN then v else byte_swap_u16 v.
Definition le_to_be_u16 (v : Z) : Z := if TARGET_BIG_ENDIAN then v else byte_swap_u16 v.
Definition be_to_le_u32 (v : Z) : Z := if TARGET_BIG_ENDIAN then v else byte_swap_u32 v.
Definition le_to_be_u32 (v : Z) : Z := if TARGET_BIG_ENDIAN then v else byte_swap_u32 v.

(** ** Integers in memory (little endian) *)

Fixpoint le_bytes (n : nat) (v : Z) : list Z :=
  match n with
  | O => []
  | S n => v mod 256 :: le_bytes n (v / 256)
  end.

Fixpoint le_int (l : list Z) : Z :=
  match l with
  | [] => 0
  | b :: l => b + 256 * le_int l
  end.

(** The [n] bytes at offset [off]. *)
Definition bytes_at (off n : nat) (b : list Z) : list Z := take n (drop off b).
Definition int_at (off n : nat) (b : list Z) : Z := le_int (bytes_at off n b).

(** ** Structs as bytes

    What a struct type that crosses the wire provides: its size, its bytes
    ([to_u8_slice]), the struct held by exactly that many bytes, and the range
    of its fields. *)
Class Packed (T : Type) := {
  size_of : Z;
  to_u8_slice : T -> list Z;
  struct_of : list Z -> T;
  packed_wf : T -> Prop;
  size_of_nonneg : 0 <= size_of;
  to_u8_slice_len : forall x, packed_wf x -> zlen (to_u8_slice x) = size_of;
  to_u8_slice_bytes : forall x, packed_wf x -> bytes_ok (to_u8_slice x);
  struct_of_to : forall x, packed_wf x -> struct_of (to_u8_slice x) = x;
  struct_of_wf : forall b, zlen b = size_of -> bytes_ok b -> packed_wf (struct_of b);
  to_struct_of : forall b, zlen b = size_of -> bytes_ok b -> to_u8_slice (struct_of b) = b
}.
Arguments size_of T {_}.

(** [bytes_to_struct::<T>(b)]: [ptr::read] of [size_of::<T>()] bytes at the start
    of the slice, whatever the slice's length. *)
Definition bytes_to_struct T `{Packed T} (b : list Z) : outcome T :=
  if zlen b <? size_of T then UB
  else Ret (struct_of (take (Z.to_nat (size_of T)) b)).

(** ** Integers: laws *)

Lemma land_ones_shift v n k : 0 <= n -> 0 <= k ->
  Z.land v (Z.shiftl (Z.ones k) n) = ((v / 2 ^ n) mod 2 ^ k) * 2 ^ n.
Proof.
  intros. rewrite <-Z.shiftr_div_pow2, <-Z.land_ones, <-Z.shiftl_mul_pow2 by lia.
  apply Z.bits_inj'. intros i Hi.
  rewrite Z.land_spec, !Z.shiftl_spec by lia. rewrite Z.land_spec.
  destruct (decide (i < n)).
  - rewrite !(Z.testbit_neg_r _ (i - n)) by lia. by rewrite !andb_false_r.
  - rewrite Z.shiftr_spec by lia. by rewrite Z.sub_add.
Qed.

Lemma lor_add a b n : 0 <= n -> 0 <= b < 2 ^ n -> Z.lor (a * 2 ^ n) b = a * 2 ^ n + b.
Proof.
  intros Hn Hb. assert (Z.land (a * 2 ^ n) b = 0) as E.
  { apply Z.bits_inj'. intros i Hi. rewrite Z.land_spec, Z.bits_0.
    destruct (decide (i < n)).
    - by rewrite Z.mul_pow2_bits_low.
    - rewrite <-(Z.mod_small b (2 ^ n)), Z.mod_pow2_bits_high by lia. apply andb_false_r. }
  rewrite <-Z.lxor_lor by done. by rewrite Z.add_nocarry_lxor.
Qed.

Lemma lor_add_pow a b m n :
  m = 2 ^ n -> 0 <= n -> 0 <= b < m -> Z.lor (a * m) b = a * m + b.
Proof. intros ->. apply lor_add. Qed.

Lemma byte_swap_u16_eq v : in_u16 v -> byte_swap_u16 v = (v mod 256) * 256 + v / 256.
Proof.
  intros Hv. unfold byte_swap_u16, as_u16, in_u16 in *.
  change 0xff00 with (Z.shiftl (Z.ones 8) 8). change 0x00ff with (Z.shiftl (Z.ones 8) 0).
  rewrite !land_ones_shift, Z.shiftl_mul_pow2, Z.shiftr_div_pow2 by lia.
  change (2 ^ 0) with 1. change (2 ^ 8) with 256. rewrite Z.div_1_r, Z.mul_1_r.
  rewrite Z.div_mul, (Z.mod_small (v / 256)) by (try lia; Z.to_euclidean_division_equations; lia).
  rewrite (Z.mod_small (_ * 256)) by (pose proof (Z.mod_pos_bound v 256 eq_refl); lia).
  apply (lor_add _ _ 8); [lia|]. Z.to_euclidean_division_equations; lia.
Qed.

Lemma byte_swap_u32_eq v : in_u32 v ->
  byte_swap_u32 v = (v mod 256) * 16777216 + (v / 256 mod 256) * 65536
                    + (v / 65536 mod 256) * 256 + v / 16777216.
Proof.
  intros Hv. unfold byte_swap_u32, as_u32, in_u32 in *.
  change 0xff000000 with (Z.shiftl (Z.ones 8) 24).
  change 0x00ff0000 with (Z.shiftl (Z.ones 8) 16).
  change 0x0000ff00 with (Z.shiftl (Z.ones 8) 8).
  change 0x000000ff with (Z.shiftl (Z.ones 8) 0).
  rewrite !land_ones_shift, !Z.shiftl_mul_pow2, !Z.shiftr_div_pow2 by lia.
  change (2 ^ 0) with 1. change (2 ^ 8) with 256. change (2 ^ 16) with 65536.
  change (2 ^ 24) with 16777216. rewrite Z.div_1_r, Z.mul_1_r.
  rewrite (Z.div_mul (v / 16777216 mod 256)) by lia.
  rewrite (Z.mod_small (v / 16777216)) by (Z.to_euclidean_division_equations; lia).
  replace (v / 65536 mod 256 * 65536 / 256) with (v / 65536 mod 256 * 256)
    by (change 65536 with (256 * 256) at 3; rewrite Z.mul_assoc; by rewrite Z.div_mul).
  assert (forall x, 0 <= x mod 256 < 256) as B by (intros; by apply Z.mod_pos_bound).
  pose proof (B v). pose proof (B (v / 256)). pose proof (B (v / 65536)).
  rewrite (Z.mod_small (v mod 256 * 16777216)) by lia.
  rewrite (Z.mod_small (v / 256 mod 256 * 256 * 256)) by lia.
  assert (0 <= v / 16777216 < 256) by (Z.to_euclidean_division_equations; lia).
  rewrite (lor_add_pow _ _ 16777216 24) by lia.
  replace (v mod 256 * 16777216 + v / 256 mod 256 * 256 * 256)
    with ((v mod 256 * 256 + v / 256 mod 256) * 65536) by lia.
  rewrite (lor_add_pow _ _ 65536 16) by lia.
  replace ((v mod 256 * 256 + v / 256 mod 256) * 65536 + v / 65536 mod 256 * 256)
    with (((v mod 256 * 256 + v / 256 mod 256) * 256 + v / 65536 mod 256) * 256) by lia.
  rewrite (lor_add_pow _ _ 256 8) by lia. lia.
Qed.

Lemma byte_swap_u16_range v : in_u16 v -> in_u16 (byte_swap_u16 v).
Proof.
  intros Hv. rewrite byte_swap_u16_eq by done. unfold in_u16 in *.
  Z.to_euclidean_division_equations; lia.
Qed.

Lemma byte_swap_u32_bytes a b c d : in_u8 a -> in_u8 b -> in_u8 c -> in_u8 d ->
  byte_swap_u32 (((d * 256 + c) * 256 + b) * 256 + a) = ((a * 256 + b) * 256 + c) * 256 + d.
Proof.
  unfold in_u8. intros. rewrite byte_swap_u32_eq by (unfold in_u32; lia).
  set (v := ((d * 256 + c) * 256 + b) * 256 + a).
  assert (v mod 256 = a /\ v / 256 = (d * 256 + c) * 256 + b) as [-> ->].
  { unfold v. split; Z.to_euclidean_division_equations; lia. }
  assert (v / 65536 = d * 256 + c /\ v / 16777216 = d) as [-> ->].
  { unfold v. split; Z.to_euclidean_division_equations; lia. }
  assert (((d * 256 + c) * 256 + b) mod 256 = b /\ (d * 256 + c) mod 256 = c) as [-> ->].
  { split; Z.to_euclidean_division_equations; lia. }
  lia.
Qed.

Lemma u32_as_bytes v : in_u32 v -> exists a b c d,
  in_u8 a /\ in_u8 b /\ in_u8 c /\ in_u8 d /\ v = ((d * 256 + c) * 256 + b) * 256 + a.
Proof.
  intros Hv. exists (v mod 256), (v / 256 mod 256), (v / 256 / 256 mod 256), (v / 256 / 256 / 256).
  unfold in_u8, in_u32 in *. split_and!; Z.to_euclidean_division_equations; lia.
Qed.

Lemma byte_swap_u32_range v : in_u32 v -> in_u32 (byte_swap_u32 v).
Proof.
  intros (a & b & c & d & ? & ? & ? & ? & ->)%u32_as_bytes.
  rewrite byte_swap_u32_bytes by done. unfold in_u8, in_u32 in *. lia.
Qed.

Lemma byte_swap_u16_involutive v : in_u16 v -> byte_swap_u16 (byte_swap_u16 v) = v.
Proof.
  intros Hv. rewrite (byte_swap_u16_eq (byte_swap_u16 v)) by by apply byte_swap_u16_range.
  rewrite byte_swap_u16_eq by done. unfold in_u16 in *.
  Z.to_euclidean_division_equations; lia.
Qed.

Lemma byte_swap_u32_involutive v : in_u32 v -> byte_swap_u32 (byte_swap_u32 v) = v.
Proof.
  intros (a & b & c & d & ? & ? & ? & ? & ->)%u32_as_bytes.
  by rewrite !byte_swap_u32_bytes.
Qed.

Lemma be_le_u16 v : in_u16 v -> be_to_le_u16 (le_to_be_u16 v) = v.
Proof. apply byte_swap_u16_involutive. Qed.
Lemma le_be_u16 v : in_u16 v -> le_to_be_u16 (be_to_le_u16 v) = v.
Proof. apply byte_swap_u16_involutive. Qed.
Lemma be_le_u32 v : in_u32 v -> be_to_le_u32 (le_to_be_u32 v) = v.
Proof. apply byte_swap_u32_involutive. Qed.
Lemma le_to_be_u16_range v : in_u16 v -> in_u16 (le_to_be_u16 v).
Proof. apply byte_swap_u16_range. Qed.
Lemma be_to_le_u16_range v : in_u16 v -> in_u16 (be_to_le_u16 v).
Proof. apply byte_swap_u16_range. Qed.
Lemma le_to_be_u32_range v : in_u32 v -> in_u32 (le_to_be_u32 v).
Proof. apply byte_swap_u32_range. Qed.
Lemma be_to_le_u32_range v : in_u32 v -> in_u32 (be_to_le_u32 v).
Proof. apply byte_swap_u32_range. Qed.
#[export] Hint Resolve le_to_be_u16_range be_to_le_u16_range le_to_be_u32_range
  be_to_le_u32_range : rust.

(** ** Bytes of integers: laws *)

(** Closes [bytes_ok] of an explicit list. *)
Ltac bytes_tac :=
  unfold bytes_ok;
  repeat (apply Forall_cons_2; [first [assumption | unfold in_u8 in *; lia]|]);
  try exact (Forall_nil_2 _).

Lemma le_bytes_len n v : length (le_bytes n v) = n.
Proof. revert v. induction n; intros; simpl; auto. Qed.

Lemma le_bytes_bytes n v : bytes_ok (le_bytes n v).
Proof.
  revert v. induction n as [|n IH]; intros v; constructor.
  - by apply Z.mod_pos_bound.
  - apply IH.
Qed.

Lemma le_int_le_bytes n v : 0 <= v < 256 ^ Z.of_nat n -> le_int (le_bytes n v) = v.
Proof.
  revert v. induction n as [|n IH]; intros v Hv; simpl; [lia|].
  rewrite IH.
  - pose proof (Z.div_mod v 256). lia.
  - rewrite Nat2Z.inj_succ, Z.pow_succ_r in Hv by lia.
    split; [apply Z.div_pos; lia | apply Z.div_lt_upper_bound; lia].
Qed.

Lemma le_int_range l : bytes_ok l -> 0 <= le_int l < 256 ^ zlen l.
Proof.
  induction 1 as [|b l Hb _ IH]; [done|]. simpl. zlen_simpl.
  rewrite Z.pow_add_r by (pose proof (zlen_nonneg l); lia).
  unfold in_u8 in Hb. lia.
Qed.

Lemma le_bytes_le_int l : bytes_ok l -> le_bytes (length l) (le_int l) = l.
Proof.
  induction 1 as [|b l Hb _ IH]; [done|]. simpl. unfold in_u8 in Hb.
  assert ((b + 256 * le_int l) mod 256 = b /\ (b + 256 * le_int l) / 256 = le_int l) as [-> ->].
  { split; Z.to_euclidean_division_equations; lia. }
  by rewrite IH.
Qed.

Lemma le_int_bound_16 a b : in_u8 a -> in_u8 b -> in_u16 (le_int [a; b]).
Proof. unfold in_u8, in_u16. cbn [le_int]. lia. Qed.
Lemma le_int_bound_32 a b c d :
  in_u8 a -> in_u8 b -> in_u8 c -> in_u8 d -> in_u32 (le_int [a; b; c; d]).
Proof. unfold in_u8, in_u32. cbn [le_int]. lia. Qed.

(** A host integer stored after [le_to_be_u16] lies in memory most significant
    byte first: network order. *)
Lemma le_to_be_u16_bytes v : in_u16 v -> le_bytes 2 (le_to_be_u16 v) = [v / 256; v mod 256].
Proof.
  intros Hv. unfold le_to_be_u16, TARGET_BIG_ENDIAN. rewrite byte_swap_u16_eq by done.
  unfold in_u16 in Hv. simpl.
  f_equal; [|f_equal]; Z.to_euclidean_division_equations; lia.
Qed.

Lemma le_to_be_u32_bytes a b c d : in_u8 a -> in_u8 b -> in_u8 c -> in_u8 d ->
  le_bytes 4 (le_to_be_u32 (((d * 256 + c) * 256 + b) * 256 + a)) = [d; c; b; a].
Proof.
  intros. unfold le_to_be_u32, TARGET_BIG_ENDIAN. rewrite byte_swap_u32_bytes by done.
  replace (((a * 256 + b) * 256 + c) * 256 + d) with (le_int [d; c; b; a]) by (simpl; lia).
  apply (le_bytes_le_int [d; c; b; a]). bytes_tac.
Qed.

(** ** Structs: laws *)
Section packed.
Context {T : Type} `{Packed T}.

(** A struct is read back from its bytes, whatever follows them. *)
Lemma bytes_to_struct_app (x : T) rest : packed_wf x ->
  bytes_to_struct T (to_u8_slice x ++ rest) = Ret x.
Proof.
  intros Hx. unfold bytes_to_struct. pose proof (to_u8_slice_len x Hx) as L.
  pose proof (zlen_nonneg rest). rewrite zlen_app, L.
  rewrite (proj2 (Z.ltb_ge _ _)) by lia.
  rewrite take_app_length' by (unfold zlen in L; lia). by rewrite struct_of_to.
Qed.

Lemma bytes_to_struct_short b : zlen b < size_of T -> bytes_to_struct T b = UB.
Proof. intros. unfold bytes_to_struct. by rewrite (proj2 (Z.ltb_lt _ _)). Qed.

(** Reading a struct is the only out-of-bounds access a handler can make. *)
Lemma bytes_to_struct_UB {A} b (k : T -> outcome A) : (forall x, defined (k x)) ->
  (x ← bytes_to_struct T b; k x) = UB <-> zlen b < size_of T.
Proof.
  intros Hk. unfold bytes_to_struct. destruct (zlen b <? size_of T) eqn:E; cbn.
  - split; [lia|done].
  - split; [|lia]. intros Eu. pose proof (Hk (struct_of (take (Z.to_nat (size_of T)) b))) as Hd.
    by rewrite Eu in Hd.
Qed.

(** A slice that is long enough starts with the bytes of the struct read. *)
Lemma bytes_to_struct_split b : bytes_ok b -> size_of T <= zlen b ->
  exists x rest, bytes_to_struct T b = Ret x /\ packed_wf x /\ b = to_u8_slice x ++ rest.
Proof.
  intros Hb Hlen. unfold bytes_to_struct. rewrite (proj2 (Z.ltb_ge _ _)) by lia.
  set (n := Z.to_nat (size_of T)). pose proof size_of_nonneg.
  assert (zlen (take n b) = size_of T) as L.
  { unfold zlen in *. rewrite length_take. lia. }
  assert (bytes_ok (take n b)) as B by by apply Forall_take.
  exists (struct_of (take n b)), (drop n b). split_and!; [done|by apply struct_of_wf|].
  rewrite to_struct_of by done. by rewrite take_drop.
Qed.

Lemma bytes_to_struct_wf b : bytes_ok b -> ensures (bytes_to_struct T b) packed_wf.
Proof.
  intros Hb. unfold bytes_to_struct. case_match eqn:E; simpl; [done|].
  apply struct_of_wf; [|by apply Forall_take].
  pose proof size_of_nonneg. unfold zlen in *. rewrite length_take. lia.
Qed.
End packed.

(** Turns [length l = k] into [l = [x1; ..; xk]] with the bytes' ranges. *)
Ltac explode_list l :=
  repeat (destruct l as [|? l]; simpl in *; try lia; try done).

Ltac bytes_inv :=
  repeat match goal with
  | H : bytes_ok (_ :: _) |- _ => apply Forall_cons in H; destruct H
  | H : Forall in_u8 (_ :: _) |- _ => apply Forall_cons in H; destruct H
  | H : Forall in_u8 [] |- _ => clear H
  | H : bytes_ok [] |- _ => clear H
  end.

Lemma le2_id v : in_u16 v -> v mod 256 + 256 * (v / 256 mod 256 + 256 * 0) = v.
Proof. unfold in_u16. intros. Z.to_euclidean_division_equations; lia. Qed.
Lemma le4_id v : in_u32 v ->
  v mod 256 + 256 * (v / 256 mod 256 + 256 * (v / 256 / 256 mod 256
    + 256 * (v / 256 / 256 / 256 mod 256 + 256 * 0))) = v.
Proof.
  intros Hv. change (le_int (le_bytes 4 v) = v). apply le_int_le_bytes. done.
Qed.
Lemma le1_id v : in_u8 v -> v mod 256 + 256 * 0 = v.
Proof. unfold in_u8. intros. rewrite Z.mod_small; lia. Qed.
Lemma le2_bytes_id a b : in_u8 a -> in_u8 b -> le_bytes 2 (le_int [a; b]) = [a; b].
Proof. intros. apply (le_bytes_le_int [a; b]). bytes_tac. Qed.
Lemma le4_bytes_id a b c d : in_u8 a -> in_u8 b -> in_u8 c -> in_u8 d ->
  le_bytes 4 (le_int [a; b; c; d]) = [a; b; c; d].
Proof. intros. apply (le_bytes_le_int [a; b; c; d]). bytes_tac. Qed.
Lemma le1_bytes_id a : in_u8 a -> le_bytes 1 (le_int [a]) = [a].
Proof. intros. apply (le_bytes_le_int [a]). bytes_tac. Qed.
