(* ===== verification/Checksum.v ===== *)
(** * utils/mod.rs: the Internet checksum

    [cksum16] as the source computes it (a [u32] accumulator, one pass over the
    16-bit words, carries folded at the end) and the reference it is equivalent
    to: the complement of the one's complement sum of RFC 1071. *)
From S2P Require Import Prelude Platform Bytes.

Section code.
Context `{BuildProfile}.

(** The word loop and the odd byte after it. *)
Fixpoint cksum_words (data : list Z) (i : Z) (len : nat) (sum : Z) : outcome Z :=
  match len with
  | S (S len) =>
      hi ← index data i;
      lo ← index data (i + 1);
      sum ← add_u32 sum (Z.lor (as_u16 (Z.shiftl hi 8)) lo);
      cksum_words data (i + 2) len sum
  | S O =>
      hi ← index data i;
      add_u32 sum (as_u16 (Z.shiftl hi 8))
  | O => Ret sum
  end.

(** [while (sum >> 16) != 0]; two additions are enough for a [u32]. *)
Fixpoint fold_carries (fuel : nat) (sum : Z) : outcome Z :=
  match fuel with
  | O => NoFuel
  | S fuel =>
      if Z.shiftr sum 16 =? 0 then Ret sum
      else sum ← add_u32 (Z.land sum 0xffff) (Z.shiftr sum 16); fold_carries fuel sum
  end.

Definition cksum16 (data : list Z) (len init : Z) : outcome Z :=
  sum ← cksum_words data 0 (Z.to_nat len) init;
  sum ← fold_carries 3 sum;
  Ret (not_u16 (as_u16 sum)).
End code.

(** ** Reference *)

(** The 16-bit words of a message, most significant byte first, padded with a
    zero byte. *)
Fixpoint be_words (l : list Z) : list Z :=
  match l with
  | a :: b :: l => a * 256 + b :: be_words l
  | [a] => [a * 256]
  | [] => []
  end.

(** One's complement addition of 16-bit numbers. *)
Definition ones_add (a b : Z) : Z := if a + b <=? 65535 then a + b else a + b - 65535.

Definition rfc1071 (l : list Z) (init : Z) : Z := 65535 - fold_left ones_add (be_words l) init.

(** The sum of the words, and the representative of a sum in one's complement. *)
Definition word_sum (l : list Z) : Z := foldr Z.add 0 (be_words l).
Definition ones_norm (s : Z) : Z := if s =? 0 then 0 else (s - 1) mod 65535 + 1.

(** ** Lemmas *)

Lemma pair_ind (P : nat -> Prop) :
  P O -> P 1%nat -> (forall n, P n -> P (S (S n))) -> forall n, P n.
Proof.
  intros H0 H1 HS n. enough (P n /\ P (S n)) by tauto.
  induction n as [|n [? ?]]; auto.
Qed.

Lemma list_pair_ind {A} (P : list A -> Prop) :
  P [] -> (forall a, P [a]) -> (forall a b l, P l -> P (a :: b :: l)) -> forall l, P l.
Proof.
  intros H0 H1 HS l. remember (length l) as n eqn:E. revert l E.
  induction n as [| |n IH] using pair_ind; intros l E.
  - by destruct l.
  - destruct l as [|? []]; simplify_eq/=; auto.
  - destruct l as [|? [|? l]]; simplify_eq/=; auto.
Qed.

Lemma word_sum_cons a b l : word_sum (a :: b :: l) = a * 256 + b + word_sum l.
Proof. done. Qed.

Lemma word_sum_app l1 l2 : Z.even (zlen l1) = true -> word_sum (l1 ++ l2) = word_sum l1 + word_sum l2.
Proof.
  induction l1 as [|a|a b l1 IH] using list_pair_ind; intros E; [done..|].
  simpl app. rewrite !word_sum_cons, IH; [lia|].
  rewrite <-E, !zlen_cons. replace (1 + (1 + zlen l1)) with (zlen l1 + 2 * 1) by lia.
  by rewrite Z.even_add_mul_2.
Qed.

Lemma be_words_range l : bytes_ok l -> Forall in_u16 (be_words l).
Proof.
  induction l as [|a|a b l IH] using list_pair_ind; intros Hl; simpl; bytes_inv.
  - constructor.
  - constructor; [|constructor]. unfold in_u8, in_u16 in *. lia.
  - constructor; [|by apply IH]. unfold in_u8, in_u16 in *. lia.
Qed.

Lemma word_sum_range l : bytes_ok l -> 0 <= word_sum l <= 65535 * ((zlen l + 1) / 2).
Proof.
  induction l as [|a|a b l IH] using list_pair_ind; intros Hl.
  - done.
  - bytes_inv. unfold word_sum. simpl. change ((zlen [a] + 1) / 2) with 1. unfold in_u8 in *. lia.
  - bytes_inv. rewrite word_sum_cons, !zlen_cons.
    replace (1 + (1 + zlen l) + 1) with (zlen l + 1 + 1 * 2) by lia.
    rewrite Z.div_add by lia. unfold in_u8 in *. specialize (IH H1). lia.
Qed.

Lemma ones_norm_range s : 0 <= s -> in_u16 (ones_norm s).
Proof.
  intros. unfold ones_norm, in_u16. case_match; [lia|].
  pose proof (Z.mod_pos_bound (s - 1) 65535 eq_refl). lia.
Qed.

Lemma ones_norm_small s : in_u16 s -> ones_norm s = s.
Proof.
  intros. unfold ones_norm, in_u16 in *. case_match; [lia|].
  rewrite Z.mod_small by lia. lia.
Qed.

(** Two nonnegative sums that agree modulo 65535, and on being zero, have the
    same representative. *)
Lemma ones_norm_ext s t k : 0 <= s -> 0 <= t -> s = t + 65535 * k -> (s = 0 <-> t = 0) ->
  ones_norm s = ones_norm t.
Proof.
  intros ? ? E Hz. unfold ones_norm. destruct (s =? 0) eqn:E1, (t =? 0) eqn:E2; try lia.
  replace (s - 1) with (t - 1 + k * 65535) by lia. by rewrite Z.mod_add.
Qed.

Lemma ones_add_norm s w : 0 <= s -> in_u16 w -> ones_add (ones_norm s) w = ones_norm (s + w).
Proof.
  intros Hs Hw. pose proof (ones_norm_range s Hs) as Hr. unfold ones_add, in_u16 in *.
  assert (exists k, s = ones_norm s + 65535 * k /\ (s = 0 <-> ones_norm s = 0)) as (k & E & Hz).
  { unfold ones_norm. case_match; [exists 0; lia|]. exists ((s - 1) / 65535).
    pose proof (Z.div_mod (s - 1) 65535). pose proof (Z.mod_pos_bound (s - 1) 65535 eq_refl). lia. }
  case_match.
  - rewrite <-(ones_norm_small (ones_norm s + w)) by (unfold in_u16; lia).
    symmetry. apply (ones_norm_ext _ _ k); lia.
  - rewrite <-(ones_norm_small (ones_norm s + w - 65535)) by (unfold in_u16; lia).
    symmetry. apply (ones_norm_ext _ _ (k + 1)); lia.
Qed.

Lemma fold_ones_add l s : 0 <= s -> Forall in_u16 l ->
  fold_left ones_add l (ones_norm s) = ones_norm (s + foldr Z.add 0 l).
Proof.
  revert s. induction l as [|w l IH]; intros s Hs Hl; simpl; [by rewrite Z.add_0_r|].
  apply Forall_cons in Hl as [Hw Hl]. rewrite ones_add_norm by done.
  rewrite IH by (unfold in_u16 in *; lia || done). f_equal. lia.
Qed.

Lemma rfc1071_norm l init : bytes_ok l -> in_u16 init ->
  rfc1071 l init = 65535 - ones_norm (init + word_sum l).
Proof.
  intros Hl Hi. unfold rfc1071. rewrite <-(ones_norm_small init) at 1 by done.
  rewrite fold_ones_add; [done|unfold in_u16 in *; lia|by apply be_words_range].
Qed.

Lemma hi_lo_word hi lo : in_u8 hi -> in_u8 lo ->
  Z.lor (as_u16 (Z.shiftl hi 8)) lo = hi * 256 + lo.
Proof.
  unfold in_u8, as_u16. intros. rewrite Z.shiftl_mul_pow2 by lia.
  change (2 ^ 8) with 256. rewrite Z.mod_small by lia. apply (lor_add_pow _ _ 256 8); lia.
Qed.

Lemma hi_word hi : in_u8 hi -> as_u16 (Z.shiftl hi 8) = hi * 256.
Proof.
  unfold in_u8, as_u16. intros. rewrite Z.shiftl_mul_pow2 by lia.
  change (2 ^ 8) with 256. by rewrite Z.mod_small by lia.
Qed.

Section proofs.
Context `{BuildProfile}.

Lemma fold_carries_norm s : in_u32 s -> fold_carries 3 s = Ret (ones_norm s).
Proof.
  intros Hs.
  assert (forall f t, 0 <= t < 4294967296 ->
    fold_carries (S f) t = if t / 65536 =? 0 then Ret (ones_norm t)
                           else fold_carries f (t mod 65536 + t / 65536)) as step.
  { intros f t Ht. simpl. rewrite Z.shiftr_div_pow2 by lia. change (2 ^ 16) with 65536.
    destruct (t / 65536 =? 0) eqn:E.
    - rewrite ones_norm_small; [done|]. unfold in_u16. Z.to_euclidean_division_equations; lia.
    - change 0xffff with (Z.ones 16). rewrite Z.land_ones by lia. change (2 ^ 16) with 65536.
      rewrite add_u32_ok by (Z.to_euclidean_division_equations; lia). done. }
  assert (forall t, 0 <= t ->
    ones_norm (t mod 65536 + t / 65536) = ones_norm t) as keep.
  { intros t Ht. symmetry. apply (ones_norm_ext _ _ (t / 65536));
      Z.to_euclidean_division_equations; lia. }
  unfold in_u32 in Hs.
  rewrite step by lia. case_match; [done|]. set (t := s mod 65536 + s / 65536).
  assert (0 <= t <= 131070) by (unfold t; Z.to_euclidean_division_equations; lia).
  rewrite step by lia. case_match; [unfold t; by rewrite keep by lia|].
  set (u := t mod 65536 + t / 65536).
  assert (0 <= u <= 65535) by (unfold u; Z.to_euclidean_division_equations; lia).
  rewrite step by lia. rewrite (Z.div_small u) by lia. simpl.
  unfold u. rewrite keep by lia. unfold t. by rewrite keep by lia.
Qed.

(** The word loop adds the words of the first [len] bytes. *)
Lemma cksum_words_sum len pre l sum :
  bytes_ok l -> Z.of_nat len <= zlen l -> 0 <= sum ->
  sum + word_sum (take len l) < 4294967296 ->
  cksum_words (pre ++ l) (zlen pre) len sum = Ret (sum + word_sum (take len l)).
Proof.
  revert pre l sum. induction len as [| |len IH] using pair_ind; intros pre l sum Hb Hlen H0 Hs.
  - simpl. by rewrite Z.add_0_r.
  - destruct l as [|a l]; [done|]. bytes_inv. cbn [cksum_words].
    rewrite index_app_0, bind_ret, hi_word by done. revert Hs. unfold word_sum. simpl.
    rewrite ?Z.add_0_r. intros. unfold in_u8 in *. by rewrite add_u32_ok by lia.
  - destruct l as [|a [|b l]]; [done|unfold zlen in Hlen; simpl in Hlen; lia|]. bytes_inv.
    revert Hs. cbn [take]. rewrite word_sum_cons. intros Hs.
    assert (bytes_ok (take len l)) as Ht by by apply Forall_take.
    pose proof (word_sum_range _ Ht) as Hr. unfold in_u8 in *.
    cbn [cksum_words]. rewrite index_app_0, bind_ret, index_app by lia.
    change (index (a :: b :: l) 1) with (Ret b). rewrite bind_ret.
    rewrite hi_lo_word by done. rewrite add_u32_ok, bind_ret by lia.
    replace (zlen pre + 2) with (zlen (pre ++ [a; b])) by (zlen_simpl; lia).
    replace (pre ++ a :: b :: l) with ((pre ++ [a; b]) ++ l) by by rewrite <-app_assoc.
    rewrite IH; [f_equal; lia|done| |lia|lia].
    rewrite !zlen_cons in Hlen. lia.
Qed.

(** Reading past the end of the slice panics. *)
Lemma cksum_words_short len pre l sum :
  zlen l < Z.of_nat len -> cksum_words (pre ++ l) (zlen pre) len sum = Panic.
Proof.
  revert pre l sum. induction len as [| |len IH] using pair_ind; intros pre l sum Hlen.
  - pose proof (zlen_nonneg l). lia.
  - destruct l; [|rewrite zlen_cons in Hlen; pose proof (zlen_nonneg l); lia]. cbn.
    by rewrite index_panic by (rewrite app_nil_r; lia).
  - destruct l as [|a [|b l]].
    + cbn [cksum_words]. rewrite app_nil_r. by rewrite (index_panic pre (zlen pre)) by lia.
    + cbn [cksum_words]. rewrite (index_panic _ (zlen pre + 1)) by (zlen_simpl; lia).
      by rewrite index_app_0.
    + cbn [cksum_words].
      rewrite index_app_0, bind_ret, index_app by lia.
      change (index (a :: b :: l) 1) with (Ret b). rewrite bind_ret.
      destruct (add_u32 _ _) eqn:E; simpl; try done;
        try (revert E; unfold add_u32, checked; repeat case_match; done).
      replace (zlen pre + 2) with (zlen (pre ++ [a; b])) by (zlen_simpl; lia).
      replace (pre ++ a :: b :: l) with ((pre ++ [a; b]) ++ l) by by rewrite <-app_assoc.
      apply IH. rewrite !zlen_cons in Hlen. lia.
Qed.

(** The bound that keeps the accumulator in a [u32]: 65536 words. *)
Definition CKSUM_MAX_LEN : Z := 131072.

Lemma word_sum_take_bound data len : bytes_ok data -> 0 <= len <= CKSUM_MAX_LEN ->
  0 <= word_sum (take (Z.to_nat len) data) <= 65535 * 65536.
Proof.
  intros Hb Hl. unfold CKSUM_MAX_LEN in *.
  assert (bytes_ok (take (Z.to_nat len) data)) as Ht by by apply Forall_take.
  pose proof (word_sum_range _ Ht) as Hr.
  assert ((zlen (take (Z.to_nat len) data) + 1) / 2 <= 65536).
  { apply Z.lt_succ_r. apply Z.div_lt_upper_bound; [lia|].
    unfold zlen. rewrite length_take. lia. }
  lia.
Qed.

Lemma cksum16_norm data len init :
  bytes_ok data -> 0 <= len <= zlen data -> len <= CKSUM_MAX_LEN -> in_u16 init ->
  cksum16 data len init =
    Ret (65535 - ones_norm (init + word_sum (take (Z.to_nat len) data))).
Proof.
  intros Hb Hlen Hmax Hi. unfold cksum16, CKSUM_MAX_LEN, in_u16 in *.
  pose proof (word_sum_take_bound data len Hb) as Hr. unfold CKSUM_MAX_LEN in Hr.
  rewrite (cksum_words_sum _ [] data) by (done || lia).
  rewrite bind_ret, fold_carries_norm, bind_ret by (unfold in_u32; lia).
  rewrite as_u16_id; [done|]. apply ones_norm_range. lia.
Qed.

Lemma cksum16_norm_all data init :
  bytes_ok data -> zlen data <= CKSUM_MAX_LEN -> in_u16 init ->
  cksum16 data (zlen data) init = Ret (65535 - ones_norm (init + word_sum data)).
Proof.
  intros. pose proof (zlen_nonneg data). rewrite cksum16_norm by (done || lia).
  unfold zlen. rewrite Nat2Z.id. by rewrite take_ge by lia.
Qed.

Lemma cksum16_range data len init : ensures (cksum16 data len init) in_u16.
Proof.
  unfold cksum16. repeat (apply ensures_bind, ensures_Ret; intros ? _). simpl.
  pose proof (as_u16_range a0). unfold in_u16, not_u16 in *. lia.
Qed.

Lemma cksum16_short_panics data len init : zlen data < len -> cksum16 data len init = Panic.
Proof.
  intros Hl. unfold cksum16. rewrite (cksum_words_short _ [] data); [done|].
  pose proof (zlen_nonneg data). lia.
Qed.
(** Two rounds of carries are enough for every accumulator: the loop ends. *)
Lemma cksum_words_range data i len sum : in_u32 sum -> ensures (cksum_words data i len sum) in_u32.
Proof.
  revert i sum. induction len as [| |len IH] using pair_ind; intros i sum Hs; cbn [cksum_words].
  - done.
  - destruct (index data i); cbn; try done. apply add_u32_range.
  - do 2 (apply ensures_bind, ensures_Ret; intros ? _).
    eapply ensures_bind2; [apply add_u32_range|]. auto.
Qed.

Lemma cksum_words_defined data i len sum : defined (cksum_words data i len sum).
Proof.
  revert i sum. induction len as [| |len IH] using pair_ind; intros i sum; cbn [cksum_words]; def_tac; auto.
Qed.

Lemma cksum16_defined data len init : in_u32 init -> defined (cksum16 data len init).
Proof.
  intros Hi. unfold cksum16. apply defined_bind; [apply cksum_words_defined|].
  eapply ensures_mono; [by apply cksum_words_range|]. intros sum Hs. by rewrite fold_carries_norm.
Qed.

Lemma cksum16_0_defined data len : defined (cksum16 data len 0).
Proof. by apply cksum16_defined. Qed.

(** The two sums of a message with a pseudo header. *)
Lemma cksum16_pseudo_defined {A} d len d' len' (k : Z -> Z -> outcome A) :
  (forall ps s, defined (k ps s)) ->
  defined (ps ← cksum16 d len 0; s ← cksum16 d' len' (not_u16 ps); k ps s).
Proof.
  intros Hk. apply defined_bind; [apply cksum16_0_defined|].
  eapply ensures_mono; [apply cksum16_range|]. intros ps Hps. cbv beta in *.
  apply defined_bind_all; [|auto]. apply cksum16_defined. unfold in_u16, in_u32, not_u16 in *. lia.
Qed.
(** Nothing in it waits. *)
Lemma bind_no_wait {A B} (m : outcome A) (f : A -> outcome B) :
  m <> Blocks -> (forall a, f a <> Blocks) -> (x ← m; f x) <> Blocks.
Proof. destruct m; cbn; auto; done. Qed.

Lemma index_no_wait (l : list Z) i : index l i <> Blocks.
Proof. unfold index. case_match; [|done]. by destruct (_ !! _). Qed.
Lemma add_u32_no_wait a b : add_u32 a b <> Blocks.
Proof. unfold add_u32, checked. by repeat case_match. Qed.

Lemma cksum16_no_wait data len init : cksum16 data len init <> Blocks.
Proof.
  unfold cksum16. apply bind_no_wait; [|intros s; apply bind_no_wait; [|done]].
  - generalize 0 as i. revert init. induction (Z.to_nat len) as [| |k IH] using pair_ind; intros init i; cbn [cksum_words];
      [done| |]; repeat (apply bind_no_wait; [apply index_no_wait|intros ?]); [apply add_u32_no_wait|].
    apply bind_no_wait; [apply add_u32_no_wait|]. intros ?. apply IH.
  - generalize 3%nat as fuel. intros fuel. revert s. induction fuel as [|fuel IH]; intros s; cbn [fold_carries]; [done|].
    case_match; [done|]. apply bind_no_wait; [apply add_u32_no_wait|]. exact IH.
Qed.
End proofs.

#[export] Hint Resolve cksum16_range cksum16_0_defined : rust.

(** The sum of a message that carries its own checksum is all ones. *)
Lemma ones_norm_complement s : 0 <= s -> ones_norm (s + (65535 - ones_norm s)) = 65535.
Proof.
  intros Hs. pose proof (ones_norm_range s Hs) as Hr. unfold in_u16 in Hr.
  assert (exists k, 0 <= k /\ s = ones_norm s + 65535 * k) as (k & ? & E).
  { unfold ones_norm. case_match; [exists 0; lia|]. exists ((s - 1) / 65535).
    pose proof (Z.div_mod (s - 1) 65535). pose proof (Z.div_pos (s - 1) 65535). lia. }
  rewrite (ones_norm_ext _ 65535 k) by lia. by apply ones_norm_small.
Qed.

(** Zeros at the end do not count. *)
Lemma word_sum_zeros k : word_sum (replicate k 0) = 0.
Proof. induction k as [| |k IH] using pair_ind; [done..|]. cbn [replicate]. by rewrite word_sum_cons, IH. Qed.

Lemma word_sum_pad l k : word_sum (l ++ replicate k 0) = word_sum l.
Proof.
  induction l as [|a|a b l IH] using list_pair_ind.
  - apply word_sum_zeros.
  - destruct k as [|k]; [done|]. cbn [app replicate]. rewrite word_sum_cons, word_sum_zeros.
    unfold word_sum. cbn. lia.
  - cbn [app]. by rewrite !word_sum_cons, IH.
Qed.

(** A sum and its representative. *)
Lemma ones_norm_mod s : 0 <= s -> exists k, s = ones_norm s + 65535 * k.
Proof.
  intros Hs. unfold ones_norm. case_match; [exists 0; lia|]. exists ((s - 1) / 65535).
  pose proof (Z.div_mod (s - 1) 65535). lia.
Qed.

(** Writing the checksum of a message into its zeroed, aligned checksum field. *)
Section patch.
Context (pre post : list Z) (init : Z).
Context (Hpre : bytes_ok pre) (Hpost : bytes_ok post) (He : Z.even (zlen pre) = true).
Context (Hi : in_u16 init).
Let c := 65535 - ones_norm (init + word_sum (pre ++ [0; 0] ++ post)).

Lemma patched_bytes_ok h l : in_u8 h -> in_u8 l -> bytes_ok (pre ++ [h; l] ++ post).
Proof. intros. repeat apply Forall_app_2; [done|bytes_tac|done]. Qed.

Lemma patched_sum_nonneg : 0 <= init + word_sum (pre ++ [0; 0] ++ post).
Proof.
  pose proof (word_sum_range _ (patched_bytes_ok 0 0 ltac:(done) ltac:(done))) as Hr.
  unfold in_u16 in Hi. lia.
Qed.

Lemma patch_range : in_u16 c.
Proof.
  pose proof (ones_norm_range _ patched_sum_nonneg) as Hr. unfold c, in_u16 in *. lia.
Qed.

Lemma patch_bytes : in_u8 (c / 256) /\ in_u8 (c mod 256).
Proof.
  pose proof patch_range as Hr. unfold in_u8, in_u16 in *.
  split; Z.to_euclidean_division_equations; lia.
Qed.

Lemma patch_norm : ones_norm (init + word_sum (pre ++ [c / 256; c mod 256] ++ post)) = 65535.
Proof.
  assert (forall h l, word_sum (pre ++ [h; l] ++ post) = word_sum pre + (h * 256 + l) + word_sum post) as S.
  { intros. rewrite word_sum_app by done. simpl. rewrite word_sum_cons. lia. }
  rewrite <-(ones_norm_complement _ patched_sum_nonneg). f_equal. fold c. rewrite !S.
  pose proof (Z.div_mod c 256). lia.
Qed.
End patch.

(** ** Properties *)

Section properties.
Context `{BuildProfile}.

(** C28: on every message of at most 131072 bytes and every 16-bit initial
    value, [cksum16] terminates without overflow in both build profiles and
    returns the RFC 1071 checksum of the first [len] bytes. *)
Theorem cksum16_rfc1071 data len init :
  bytes_ok data -> 0 <= len <= zlen data -> len <= CKSUM_MAX_LEN -> in_u16 init ->
  cksum16 data len init = Ret (rfc1071 (take (Z.to_nat len) data) init).
Proof.
  intros. rewrite rfc1071_norm by (done || by apply Forall_take). by apply cksum16_norm.
Qed.

(** The checksum only depends on the multiset of 16-bit words, so the
    field order of the pseudo headers does not matter. *)
Theorem cksum16_permutation d1 d2 init :
  bytes_ok d1 -> bytes_ok d2 -> zlen d1 <= CKSUM_MAX_LEN -> zlen d2 <= CKSUM_MAX_LEN ->
  in_u16 init -> be_words d1 ≡ₚ be_words d2 ->
  cksum16 d1 (zlen d1) init = cksum16 d2 (zlen d2) init.
Proof.
  intros ? ? ? ? ? Hp. rewrite !cksum16_norm_all by done. do 3 f_equal.
  unfold word_sum. clear -Hp. induction Hp; simpl; lia.
Qed.

(** A message with a zeroed, aligned checksum field, once the checksum of
    the whole is written there in network order, verifies: [cksum16] is 0. *)
Theorem cksum16_patch_verifies pre post init :
  bytes_ok pre -> bytes_ok post -> Z.even (zlen pre) = true ->
  zlen pre + 2 + zlen post <= CKSUM_MAX_LEN -> in_u16 init ->
  returns (cksum16 (pre ++ [0; 0] ++ post) (zlen pre + 2 + zlen post) init) (fun c =>
    cksum16 (pre ++ [c / 256; c mod 256] ++ post) (zlen pre + 2 + zlen post) init = Ret 0).
Proof.
  intros Hpre Hpost He Hlen Hi.
  assert (forall h l, in_u8 h -> in_u8 l ->
    cksum16 (pre ++ [h; l] ++ post) (zlen pre + 2 + zlen post) init =
    Ret (65535 - ones_norm (init + word_sum (pre ++ [h; l] ++ post)))) as C.
  { intros h l Hh Hl'.
    assert (zlen pre + 2 + zlen post = zlen (pre ++ [h; l] ++ post)) as E by (zlen_simpl; lia).
    rewrite E in *. apply cksum16_norm_all; try done. by apply patched_bytes_ok. }
  rewrite (C 0 0) by done. unfold returns.
  set (c := 65535 - _). destruct (patch_bytes pre post init) as [? ?]; try done.
  rewrite C by done. f_equal. unfold c. by rewrite patch_norm.
Qed.

(** A length larger than the slice is an index panic, never a read
    outside it. *)
Theorem cksum16_out_of_range data len init :
  zlen data < len -> cksum16 data len init = Panic.
Proof. apply cksum16_short_panics. Qed.
End properties.

Lemma cksum16_rfc1071_witness :
  @cksum16 debug_build [0x45; 0x00; 0x00; 0x73; 0xff] 5 7 =
    Ret (rfc1071 (take 5 [0x45; 0x00; 0x00; 0x73; 0xff]) 7).
Proof.
  apply (@cksum16_rfc1071 debug_build [0x45; 0x00; 0x00; 0x73; 0xff] 5 7);
    [bytes_tac | done | done | done].
Defined.

Lemma cksum16_permutation_witness :
  @cksum16 release_build [1; 2; 3; 4] 4 0 = @cksum16 release_build [3; 4; 1; 2] 4 0.
Proof.
  apply (@cksum16_permutation release_build [1; 2; 3; 4] [3; 4; 1; 2] 0);
    [bytes_tac | bytes_tac | done | done | done | apply perm_swap].
Defined.

Lemma cksum16_patch_verifies_witness :
  returns (@cksum16 debug_build ([8; 0] ++ [0; 0] ++ [1; 2; 3]) 7 0) (fun c =>
    @cksum16 debug_build ([8; 0] ++ [c / 256; c mod 256] ++ [1; 2; 3]) 7 0 = Ret 0).
Proof.
  apply (@cksum16_patch_verifies debug_build [8; 0] [1; 2; 3] 0);
    [bytes_tac | bytes_tac | done | done | done].
Defined.

Lemma cksum16_out_of_range_witness : @cksum16 debug_build [1; 2] 4 0 = Panic.
Proof. apply (@cksum16_out_of_range debug_build [1; 2] 4 0). done. Defined.
