(* ===== verification/IpTypes.v ===== *)
(** * net.rs and the data of protocols/ip/mod.rs

    Addresses and their text form, end points, interfaces, routes with the
    longest-prefix lookup, and the generator of IP header identifiers.  An
    [IPAdress] holds the four bytes of the address with the first one in the
    least significant position, which on the little endian host is its network
    byte order in memory. *)
From S2P Require Import Prelude LinkedList Bytes.
From Stdlib Require Import String Ascii.

#[local] Set Warnings "-register-all".

Abbreviation IPAdress := Z (only parsing).

Definition IP_ADDR_LEN : Z := 4.
Definition IP_MAX_SIZE : Z := u16_max.
Definition IP_HEADER_MIN_SIZE : Z := 20.
Definition IP_PAYLOAD_MAX_SIZE : Z := IP_MAX_SIZE - IP_HEADER_MIN_SIZE.
Definition IP_VERSION_4 : Z := 4.
Definition IP_ADDR_ANY : IPAdress := 0x00000000.
Definition IP_ADDR_BROADCAST : IPAdress := 0xffffffff.

(** ** net.rs *)

Inductive NetInterfaceFamily := IP | IPV6.

#[export] Instance NetInterfaceFamily_eq_dec : EqDecision NetInterfaceFamily.
Proof. solve_decision. Defined.

Inductive NetInterface := mkNetInterface {
  family : NetInterfaceFamily;
  ni_next : option NetInterface
}.

(** ** Text form of addresses *)

(** [addr.split('.')] *)
Fixpoint split_dot (s : string) : list string :=
  match s with
  | EmptyString => [EmptyString]
  | String c s =>
      if Ascii.eqb c "." then EmptyString :: split_dot s
      else match split_dot s with
           | [] => [String c EmptyString]
           | w :: ws => String c w :: ws
           end
  end.

(** [str::parse::<u8>()]: an optional [+], then at least one decimal digit, the
    value at most 255. *)
Definition digit (c : ascii) : option Z :=
  let n := Z.of_nat (nat_of_ascii c) in
  if (48 <=? n) && (n <=? 57) then Some (n - 48) else None.

Fixpoint parse_digits (acc : Z) (s : string) : option Z :=
  match s with
  | EmptyString => Some acc
  | String c s =>
      match digit c with
      | None => None
      | Some d => if acc * 10 + d <=? u8_max then parse_digits (acc * 10 + d) s else None
      end
  end.

Definition parse_u8 (s : string) : option Z :=
  match s with
  | EmptyString => None
  | String c EmptyString => parse_digits 0 s
  | String c rest => if Ascii.eqb c "+" then parse_digits 0 rest else parse_digits 0 s
  end.

(** [u32::to_string()]: ten digits are enough for a [u32]. *)
Fixpoint dec_string (fuel : nat) (n : Z) (acc : string) : string :=
  match fuel with
  | O => acc
  | S fuel =>
      let acc := String (ascii_of_nat (Z.to_nat (48 + n mod 10))) acc in
      if n <? 10 then acc else dec_string fuel (n / 10) acc
  end.
Definition u32_to_string (n : Z) : string := dec_string 10 n EmptyString.

(** The loop of [ip_addr_to_bytes]. *)
Fixpoint addr_parts (n : nat) (i : Z) (parts : list string) (res : Z) : outcome (option Z) :=
  match n with
  | O => Ret (Some res)
  | S n =>
      match parts with
      | [] => Ret None
      | part :: parts =>
          b ← unwrap (parse_u8 part);
          addr_parts n (i + 1) parts (Z.lor res (as_u32 (Z.shiftl b (8 * i))))
      end
  end.

Definition ip_addr_to_bytes (addr : string) : outcome (option IPAdress) :=
  addr_parts 4 0 (split_dot addr) 0.

Definition ip_addr_to_str (addr : IPAdress) : string :=
  let part i := u32_to_string (Z.land (Z.shiftr addr (8 * i)) 255) in
  String.concat "." [part 0; part 1; part 2; part 3].

(** ** End points *)

Record IPEndpoint := mkIPEndpoint { address : IPAdress; port : Z }.

#[export] Instance set_address : Setter address := fun v e => mkIPEndpoint v (port e).
#[export] Instance set_port : Setter port := fun v e => mkIPEndpoint (address e) v.
#[export] Instance IPEndpoint_eq_dec : EqDecision IPEndpoint.
Proof. solve_decision. Defined.

Definition IPEndpoint_new (addr port : Z) : IPEndpoint := mkIPEndpoint addr (le_to_be_u16 port).

Definition IPEndpoint_new_from_str (addr : string) (port : Z) : outcome IPEndpoint :=
  a ← ip_addr_to_bytes addr;
  a ← unwrap a;
  Ret (mkIPEndpoint a (le_to_be_u16 port)).

(** ** Interfaces *)

Inductive IPInterface := mkIPInterface {
  interface : NetInterface;
  ipi_next : option IPInterface;
  unicast : IPAdress;
  netmask : IPAdress;
  broadcast : IPAdress
}.

Definition IPInterface_new (unicast netmask : string) : outcome IPInterface :=
  let interface := mkNetInterface IP None in
  u ← ip_addr_to_bytes unicast; u ← unwrap u;
  m ← ip_addr_to_bytes netmask; m ← unwrap m;
  let broadcast := Z.lor (Z.land u m) (not_u32 m) in
  Ret (mkIPInterface interface None u m broadcast).

(** ** Routes *)

Record IPRoute := mkIPRoute {
  route_network : IPAdress;
  route_netmask : IPAdress;
  next_hop : IPAdress;
  route_interface : IPInterface
}.

Definition interface_route (i : IPInterface) : IPRoute :=
  mkIPRoute (Z.land (unicast i) (netmask i)) (netmask i) IP_ADDR_ANY i.

Definition gateway_route (gateway_ip : string) (i : IPInterface) : outcome IPRoute :=
  g ← ip_addr_to_bytes gateway_ip; g ← unwrap g;
  Ret (mkIPRoute IP_ADDR_ANY IP_ADDR_ANY g i).

Record IPRoutes := mkIPRoutes { route_entries : List IPRoute }.

Definition IPRoutes_new : IPRoutes := mkIPRoutes list_new.

Definition IPRoutes_register (r : IPRoutes) (route : IPRoute) : IPRoutes :=
  mkIPRoutes (push (route_entries r) route).

(** The body of the loop of [lookup_ip_route]. *)
Definition route_matches (dst : IPAdress) (r : IPRoute) : bool :=
  Z.land dst (route_netmask r) =? route_network r.

Definition lookup_step (dst : IPAdress) (candidate : option IPRoute) (route : IPRoute) : option IPRoute :=
  if route_matches dst route then
    match candidate with
    | None => Some route
    | Some c =>
        if be_to_le_u32 (route_netmask c) <? be_to_le_u32 (route_netmask route)
        then Some route else candidate
    end
  else candidate.

Definition lookup_ip_route (r : IPRoutes) (dst : IPAdress) : option IPRoute :=
  fold_left (lookup_step dst) (to_list (route_entries r)) None.

Definition get_interface_for (r : IPRoutes) (dst : IPAdress) : option IPInterface :=
  match lookup_ip_route r dst with
  | None => None
  | Some route => Some (route_interface route)
  end.

(** ** Protocol numbers and header identifiers *)

Inductive IPProtocolType := Icmp | Tcp | Udp | IPUnknown.

Definition ip_protocol_from_u8 (value : Z) : IPProtocolType :=
  if value =? 0x01 then Icmp
  else if value =? 0x06 then Tcp
  else if value =? 0x11 then Udp
  else IPUnknown.

(** [ip_proto as u8]; the discriminant of [Unknown] follows that of [Udp]. *)
Definition ip_protocol_as_u8 (p : IPProtocolType) : Z :=
  match p with Icmp => 0x01 | Tcp => 0x06 | Udp => 0x11 | IPUnknown => 0x12 end.

Record IPHeaderIdManager := mkIPHeaderIdManager { id_mtx : Z }.

Definition IPHeaderIdManager_new : IPHeaderIdManager := mkIPHeaderIdManager 128.

Definition generate_id `{BuildProfile} (m : IPHeaderIdManager) : outcome (Z * IPHeaderIdManager) :=
  id ← add_u16 (id_mtx m) 1;
  Ret (id, mkIPHeaderIdManager id).

(** ** Well-formedness *)

Definition endpoint_wf (e : IPEndpoint) : Prop := in_u32 (address e) /\ in_u16 (port e).
Definition iface_wf (i : IPInterface) : Prop :=
  in_u32 (unicast i) /\ in_u32 (netmask i) /\ in_u32 (broadcast i).
Definition route_wf (r : IPRoute) : Prop :=
  in_u32 (route_network r) /\ in_u32 (route_netmask r) /\ in_u32 (next_hop r)
  /\ iface_wf (route_interface r).
Definition routes_wf (r : IPRoutes) : Prop := Forall route_wf (to_list (route_entries r)).

(** ** Lemmas: text form *)

Fixpoint no_dot (s : string) : bool :=
  match s with
  | EmptyString => true
  | String c s => negb (Ascii.eqb c ".") && no_dot s
  end.

Lemma split_dot_word s : no_dot s = true -> split_dot s = [s].
Proof.
  induction s as [|c s IH]; [done|]. simpl. intros [Hc Hs]%andb_true_iff.
  destruct (Ascii.eqb c "."); [done|]. by rewrite IH.
Qed.

Lemma split_dot_app s t : no_dot s = true -> split_dot (s +:+ "." +:+ t) = s :: split_dot t.
Proof.
  induction s as [|c s IH]; [done|]. simpl. intros [Hc Hs]%andb_true_iff.
  destruct (Ascii.eqb c "."); [done|]. by rewrite IH.
Qed.

(** The decimal text of a byte is parsed back and holds no dot. *)
Lemma u8_string_parse n : in_u8 n ->
  parse_u8 (u32_to_string n) = Some n /\ no_dot (u32_to_string n) = true.
Proof.
  intros Hn.
  assert (forallb (fun k => bool_decide (parse_u8 (u32_to_string (Z.of_nat k)) = Some (Z.of_nat k))
     && no_dot (u32_to_string (Z.of_nat k))) (seq 0 256) = true) as H by by vm_compute.
  rewrite forallb_forall in H. specialize (H (Z.to_nat n)).
  rewrite Z2Nat.id in H by (unfold in_u8 in Hn; lia).
  rewrite andb_true_iff, bool_decide_eq_true in H. apply H.
  apply in_seq. unfold in_u8 in Hn. lia.
Qed.

Lemma addr_byte addr i : 0 <= i -> in_u8 (Z.land (Z.shiftr addr i) 255).
Proof.
  intros. change 255 with (Z.ones 8). rewrite Z.land_ones by lia. by apply Z.mod_pos_bound.
Qed.

Lemma addr_parts_step n i p parts res b :
  parse_u8 p = Some b ->
  addr_parts (S n) i (p :: parts) res = addr_parts n (i + 1) parts (Z.lor res (as_u32 (Z.shiftl b (8 * i)))).
Proof. intros E. cbn [addr_parts]. by rewrite E. Qed.

Lemma addr_reassemble addr : in_u32 addr ->
  Z.lor (Z.lor (Z.lor (Z.lor 0 (as_u32 (Z.shiftl (Z.land (Z.shiftr addr 0) 255) 0)))
    (as_u32 (Z.shiftl (Z.land (Z.shiftr addr 8) 255) 8)))
    (as_u32 (Z.shiftl (Z.land (Z.shiftr addr 16) 255) 16)))
    (as_u32 (Z.shiftl (Z.land (Z.shiftr addr 24) 255) 24)) = addr.
Proof.
  intros (a & b & c & d & Ha & Hb & Hc & Hd & ->)%u32_as_bytes.
  unfold as_u32, in_u8 in *. change 255 with (Z.ones 8).
  rewrite !Z.land_ones, !Z.shiftr_div_pow2, !Z.shiftl_mul_pow2 by lia.
  change (2 ^ 0) with 1. change (2 ^ 8) with 256. change (2 ^ 16) with 65536.
  change (2 ^ 24) with 16777216.
  set (v := ((d * 256 + c) * 256 + b) * 256 + a).
  assert (v / 1 mod 256 = a) as -> by (unfold v; Z.to_euclidean_division_equations; lia).
  assert (v / 256 mod 256 = b) as -> by (unfold v; Z.to_euclidean_division_equations; lia).
  assert (v / 65536 mod 256 = c) as -> by (unfold v; Z.to_euclidean_division_equations; lia).
  assert (v / 16777216 mod 256 = d) as -> by (unfold v; Z.to_euclidean_division_equations; lia).
  rewrite Z.mul_1_r, !(Z.mod_small _ 4294967296) by lia. rewrite Z.lor_0_l.
  rewrite (Z.lor_comm a), (lor_add_pow b a 256 8) by lia.
  rewrite (Z.lor_comm _ (c * 65536)), (lor_add_pow c _ 65536 16) by lia.
  rewrite (Z.lor_comm _ (d * 16777216)), (lor_add_pow d _ 16777216 24) by lia.
  unfold v. lia.
Qed.

(** ** Lemmas: masks *)

Lemma u32_high_bits v k : in_u32 v -> 32 <= k -> Z.testbit v k = false.
Proof.
  intros Hv Hk. rewrite <-(Z.mod_small v (2 ^ 32)) by done. apply Z.mod_pow2_bits_high. lia.
Qed.

Lemma not_u32_ldiff v : in_u32 v -> not_u32 v = Z.ldiff (Z.ones 32) v.
Proof.
  intros Hv. unfold not_u32. change 4294967295 with (Z.ones 32). apply Z.sub_nocarry_ldiff.
  rewrite Z.ldiff_ones_r, Z.shiftr_div_pow2 by lia.
  rewrite Z.div_small by done. apply Z.shiftl_0_l.
Qed.

Lemma not_u32_range v : in_u32 v -> in_u32 (not_u32 v).
Proof. unfold in_u32, not_u32. lia. Qed.

Lemma u32_of_bits v : 0 <= v -> (forall k, 32 <= k -> Z.testbit v k = false) -> in_u32 v.
Proof.
  intros H0 Hv. assert (v mod 2 ^ 32 = v) as <-.
  { apply Z.bits_inj'. intros k Hk. destruct (decide (k < 32)).
    - by apply Z.mod_pow2_bits_low.
    - rewrite Z.mod_pow2_bits_high, Hv by lia. done. }
  by apply Z.mod_pos_bound.
Qed.

Lemma land_u32 a b : in_u32 a -> in_u32 b -> in_u32 (Z.land a b).
Proof.
  intros Ha Hb. apply u32_of_bits.
  - apply Z.land_nonneg. left. unfold in_u32 in Ha. lia.
  - intros k Hk. by rewrite Z.land_spec, u32_high_bits.
Qed.

Lemma lor_u32 a b : in_u32 a -> in_u32 b -> in_u32 (Z.lor a b).
Proof.
  intros Ha Hb. apply u32_of_bits.
  - apply Z.lor_nonneg. unfold in_u32 in *. lia.
  - intros k Hk. by rewrite Z.lor_spec, !u32_high_bits.
Qed.

(** ** Lemmas: routes *)

Lemma lookup_step_fold dst l r0 :
  fold_left (lookup_step dst) l (Some r0) = Some r0
    /\ (forall r, In r l -> route_matches dst r = true ->
          be_to_le_u32 (route_netmask r) <= be_to_le_u32 (route_netmask r0))
  \/ exists l1 r l2, l = l1 ++ r :: l2 /\ fold_left (lookup_step dst) l (Some r0) = Some r
    /\ route_matches dst r = true
    /\ be_to_le_u32 (route_netmask r0) < be_to_le_u32 (route_netmask r)
    /\ (forall r', In r' l1 -> route_matches dst r' = true ->
          be_to_le_u32 (route_netmask r') < be_to_le_u32 (route_netmask r))
    /\ (forall r', In r' l2 -> route_matches dst r' = true ->
          be_to_le_u32 (route_netmask r') <= be_to_le_u32 (route_netmask r)).
Proof.
  revert r0. induction l as [|x l IH]; intros r0; simpl; [left; split; [done|tauto]|].
  unfold lookup_step at 2 4. destruct (route_matches dst x) eqn:M.
  - destruct (_ <? _) eqn:L.
    + destruct (IH x) as [[E Hall] | (l1 & r & l2 & -> & E & Mr & Hlt & H1 & H2)]; right.
      * exists [], x, l. split_and!; auto; [lia|done].
      * exists (x :: l1), r, l2. split_and!; auto; [lia|].
        intros r' [<-|Hin]; [intros; lia|by apply H1].
    + destruct (IH r0) as [[E Hall] | (l1 & r & l2 & -> & E & Mr & Hlt & H1 & H2)].
      * left. split; [done|]. intros r [<-|Hin]; [intros; lia|by apply Hall].
      * right. exists (x :: l1), r, l2. split_and!; auto.
        intros r' [<-|Hin]; [intros; lia|by apply H1].
  - destruct (IH r0) as [[E Hall] | (l1 & r & l2 & -> & E & Mr & Hlt & H1 & H2)].
    + left. split; [done|]. intros r [<-|Hin]; [congruence|by apply Hall].
    + right. exists (x :: l1), r, l2. split_and!; auto.
      intros r' [<-|Hin]; [congruence|by apply H1].
Qed.

Lemma lookup_none dst l :
  fold_left (lookup_step dst) l None = None <-> Forall (fun r => route_matches dst r = false) l.
Proof.
  induction l as [|x l IH]; simpl; [done|]. rewrite Forall_cons. unfold lookup_step at 2.
  destruct (route_matches dst x).
  - split; [|by intros [? _]]. intros E.
    destruct (lookup_step_fold dst l x) as [[E' _]|(? & ? & ? & _ & E' & _)]; congruence.
  - rewrite IH. split; [by intros|by intros [_ ?]].
Qed.

Lemma lookup_in dst (r : IPRoutes) route :
  lookup_ip_route r dst = Some route -> In route (to_list (route_entries r)).
Proof.
  unfold lookup_ip_route. generalize (to_list (route_entries r)). intros l.
  assert (forall c, fold_left (lookup_step dst) l c = Some route -> c = Some route \/ In route l) as H.
  { induction l as [|x l IH]; intros c; simpl; [tauto|]. intros E.
    destruct (IH _ E) as [E'|?]; [|tauto]. revert E'. unfold lookup_step.
    repeat case_match; intros; simplify_eq; auto. }
  intros E. by destruct (H None E).
Qed.

Lemma lookup_wf dst (r : IPRoutes) route :
  routes_wf r -> lookup_ip_route r dst = Some route -> route_wf route.
Proof.
  intros Hr Hl. apply lookup_in in Hl. unfold routes_wf in Hr. rewrite List.Forall_forall in Hr. auto.
Qed.

Lemma get_interface_for_wf r dst i : routes_wf r -> get_interface_for r dst = Some i -> iface_wf i.
Proof.
  unfold get_interface_for. intros Hr. case_match eqn:E; intros; simplify_eq.
  by apply (lookup_wf _ _ _ Hr E).
Qed.

(** ** Properties *)

Section properties.
Context `{BuildProfile}.

(** Printing an address and parsing it back is the identity on every
    32-bit address. *)
Theorem ip_addr_roundtrip addr :
  in_u32 addr -> ip_addr_to_bytes (ip_addr_to_str addr) = Ret (Some addr).
Proof.
  intros Ha. unfold ip_addr_to_bytes, ip_addr_to_str.
  change (8 * 0) with 0. change (8 * 1) with 8. change (8 * 2) with 16. change (8 * 3) with 24.
  assert (forall i, 0 <= i -> let s := u32_to_string (Z.land (Z.shiftr addr i) 255) in
    parse_u8 s = Some (Z.land (Z.shiftr addr i) 255) /\ no_dot s = true) as P.
  { intros i Hi. apply u8_string_parse. by apply addr_byte. }
  destruct (P 0) as [P0 D0], (P 8) as [P1 D1], (P 16) as [P2 D2], (P 24) as [P3 D3]; try done.
  cbn [String.concat]. rewrite !split_dot_app, split_dot_word by done.
  rewrite (addr_parts_step _ _ _ _ _ _ P0), (addr_parts_step _ _ _ _ _ _ P1),
    (addr_parts_step _ _ _ _ _ _ P2), (addr_parts_step _ _ _ _ _ _ P3).
  cbn [addr_parts]. do 2 f_equal. by apply addr_reassemble.
Qed.

(** C31: [lookup_ip_route] is longest-prefix match: it returns the first of the
    matching routes whose netmask, read most significant byte first, is the
    largest, and nothing exactly when no route matches. *)
Theorem lookup_longest_prefix r dst :
  match lookup_ip_route r dst with
  | None => forall route, In route (to_list (route_entries r)) -> route_matches dst route = false
  | Some route => exists before after,
      to_list (route_entries r) = before ++ route :: after
      /\ route_matches dst route = true
      /\ (forall r', In r' before -> route_matches dst r' = true ->
            be_to_le_u32 (route_netmask r') < be_to_le_u32 (route_netmask route))
      /\ (forall r', In r' after -> route_matches dst r' = true ->
            be_to_le_u32 (route_netmask r') <= be_to_le_u32 (route_netmask route))
  end.
Proof.
  unfold lookup_ip_route. generalize (to_list (route_entries r)). intros l.
  induction l as [|x l IH]; simpl; [done|]. unfold lookup_step at 2.
  destruct (route_matches dst x) eqn:M.
  - destruct (lookup_step_fold dst l x) as [[-> Hall]|(l1 & r1 & l2 & -> & -> & ? & ? & H1 & H2)].
    + exists [], l. by split_and!.
    + exists (x :: l1), l2. split_and!; auto. intros r' [<-|?]; auto.
  - destruct (fold_left (lookup_step dst) l None) as [route|] eqn:E.
    + destruct IH as (l1 & l2 & -> & ? & H1 & H2). exists (x :: l1), l2.
      split_and!; auto. intros r' [<-|?]; [congruence|auto].
    + intros r' [<-|?]; auto.
Qed.

(** An interface built from text has the broadcast address of its network:
    the network part is that of the unicast address and every host bit is set. *)
Theorem interface_broadcast_spec ip mask i :
  IPInterface_new ip mask = Ret i -> in_u32 (netmask i) ->
  Z.land (broadcast i) (netmask i) = Z.land (unicast i) (netmask i)
  /\ Z.lor (broadcast i) (netmask i) = 0xffffffff.
Proof.
  unfold IPInterface_new. intros E Hm. inv_bind E. inv_bind E. inv_bind E. inv_bind E.
  simplify_eq/=. rewrite not_u32_ldiff by done.
  change 0xffffffff with (Z.ones 32). split; apply Z.bits_inj'; intros k Hk;
    rewrite ?Z.land_spec, ?Z.lor_spec, ?Z.land_spec, ?Z.ldiff_spec, ?Z.land_spec;
    pose proof (u32_high_bits _ k Hm); destruct (decide (k < 32));
    rewrite ?Z.ones_spec_low, ?Z.ones_spec_high by lia;
    repeat match goal with |- context [Z.testbit ?x k] => destruct (Z.testbit x k) eqn:? end;
    naive_solver lia.
Qed.
End properties.

Lemma ip_addr_roundtrip_witness :
  ip_addr_to_bytes (ip_addr_to_str 0x0100007F) = Ret (Some 0x0100007F).
Proof. apply (ip_addr_roundtrip 0x0100007F). done. Defined.

Lemma interface_broadcast_spec_witness :
  exists i, IPInterface_new "192.0.2.2" "255.255.255.0" = Ret i
    /\ Z.land (broadcast i) (netmask i) = Z.land (unicast i) (netmask i)
    /\ Z.lor (broadcast i) (netmask i) = 0xffffffff.
Proof.
  eexists. split; [vm_compute; reflexivity|].
  apply (interface_broadcast_spec "192.0.2.2" "255.255.255.0"); [vm_compute; reflexivity|done].
Defined.
