(* ===== verification/Devices.v ===== *)
(** * interrupt.rs, drivers/, devices/ and the protocol queues of protocols/mod.rs

    [NetDevice] with its two kinds (Ethernet over a TAP file, loopback), the
    framing of Ethernet, the interrupt service routine that reads a frame and
    queues its payload for a protocol, and the collections [NetDevices] and
    [NetProtocols].  A device operation takes the device and the environment and
    returns both. *)
From S2P Require Import Prelude Platform LinkedList Bytes IpTypes.

#[local] Set Warnings "-register-all".

(** ** interrupt.rs *)

Definition INTR_IRQ_BASE : Z := 35.

Inductive IRQEntry := mkIRQEntry {
  irq : Z;
  irq_flags : Z;
  irq_next : option IRQEntry;
  custom_data : option (list Z)
}.

Definition IRQEntry_new (irq flags : Z) : IRQEntry := mkIRQEntry irq flags None None.

#[export] Instance set_custom_data : Setter custom_data :=
  fun v e => mkIRQEntry (irq e) (irq_flags e) (irq_next e) v.

(** ** protocols/mod.rs: queues *)

Inductive ProtocolType := ProtoArp | ProtoIP | ProtoUnknown.

#[export] Instance ProtocolType_eq_dec : EqDecision ProtocolType.
Proof. solve_decision. Defined.

Definition ProtocolType_from_u16 (value : Z) : ProtocolType :=
  if value =? 0x0800 then ProtoIP else if value =? 0x0806 then ProtoArp else ProtoUnknown.

(** [proto as u16]; the discriminant of [Unknown] follows that of [IP]. *)
Definition ProtocolType_as_u16 (p : ProtocolType) : Z :=
  match p with ProtoArp => 0x0806 | ProtoIP => 0x0800 | ProtoUnknown => 0x0801 end.

Record ProtocolData := mkProtocolData { pd_irq : Z; pd_data : option (list Z); pd_len : Z }.

Record NetProtocol := mkNetProtocol {
  protocol_type : ProtocolType;
  input_head : list ProtocolData
}.

#[export] Instance set_input_head : Setter input_head :=
  fun v p => mkNetProtocol (protocol_type p) v.

Definition NetProtocol_new (t : ProtocolType) : NetProtocol := mkNetProtocol t [].

Record NetProtocols := mkNetProtocols { protocol_entries : List NetProtocol }.

Definition NetProtocols_new : NetProtocols := mkNetProtocols list_new.

Definition NetProtocols_register (ps : NetProtocols) (p : NetProtocol) : NetProtocols :=
  mkNetProtocols (push (protocol_entries ps) p).

(** ** drivers/mod.rs *)

Inductive DriverType := Tap | Pcap.

Record DriverData := mkDriverData { file : TapFile; driver_irq : Z }.

(** ** devices/mod.rs: data *)

Definition DEVICE_FLAG_UP : Z := 0x0001.
Definition DEVICE_FLAG_LOOPBACK : Z := 0x0010.
Definition DEVICE_FLAG_BROADCAST : Z := 0x0020.
Definition DEVICE_FLAG_P2P : Z := 0x0040.
Definition DEVICE_FLAG_NEED_ARP : Z := 0x0100.
Definition IRQ_FLAG_SHARED : Z := 0x0001.
Definition NET_DEVICE_ADDR_LEN : nat := 14.

Inductive NetDeviceType := Loopback | Ethernet.

#[export] Instance NetDeviceType_eq_dec : EqDecision NetDeviceType.
Proof. solve_decision. Defined.

Record NetDevice := mkNetDevice {
  dev_index : Z;
  device_type : NetDeviceType;
  name : String.string;
  mtu : Z;
  flags : Z;
  header_len : Z;
  address_len : Z;
  dev_address : list Z;
  dev_broadcast : list Z;
  irq_entry : IRQEntry;
  interfaces : List IPInterface;
  driver_type : option DriverType;
  driver_data : option DriverData
}.

#[export] Instance set_flags : Setter flags := fun v d =>
  mkNetDevice (dev_index d) (device_type d) (name d) (mtu d) v (header_len d) (address_len d)
    (dev_address d) (dev_broadcast d) (irq_entry d) (interfaces d) (driver_type d) (driver_data d).
#[export] Instance set_dev_address : Setter dev_address := fun v d =>
  mkNetDevice (dev_index d) (device_type d) (name d) (mtu d) (flags d) (header_len d) (address_len d)
    v (dev_broadcast d) (irq_entry d) (interfaces d) (driver_type d) (driver_data d).
#[export] Instance set_irq_entry : Setter irq_entry := fun v d =>
  mkNetDevice (dev_index d) (device_type d) (name d) (mtu d) (flags d) (header_len d) (address_len d)
    (dev_address d) (dev_broadcast d) v (interfaces d) (driver_type d) (driver_data d).
#[export] Instance set_interfaces : Setter interfaces := fun v d =>
  mkNetDevice (dev_index d) (device_type d) (name d) (mtu d) (flags d) (header_len d) (address_len d)
    (dev_address d) (dev_broadcast d) (irq_entry d) v (driver_type d) (driver_data d).
#[export] Instance set_driver_type : Setter driver_type := fun v d =>
  mkNetDevice (dev_index d) (device_type d) (name d) (mtu d) (flags d) (header_len d) (address_len d)
    (dev_address d) (dev_broadcast d) (irq_entry d) (interfaces d) v (driver_data d).
#[export] Instance set_driver_data : Setter driver_data := fun v d =>
  mkNetDevice (dev_index d) (device_type d) (name d) (mtu d) (flags d) (header_len d) (address_len d)
    (dev_address d) (dev_broadcast d) (irq_entry d) (interfaces d) (driver_type d) v.

Definition NetDevice_new (i : Z) (ty : NetDeviceType) (nm : String.string) (mtu flags hlen alen : Z)
    (address broadcast : list Z) (irq_entry : IRQEntry) : NetDevice :=
  mkNetDevice i ty nm mtu flags hlen alen address broadcast irq_entry list_new None None.

(** ** devices/ethernet.rs and drivers/tap.rs *)

Definition IRQ_ETHERNET : Z := INTR_IRQ_BASE + 2.
Definition ETH_TAP_IRQ : Z := INTR_IRQ_BASE + 2.
Definition TUN_PATH : String.string := "/dev/net/tun".
(** linux/if_tun.h *)
Definition IFF_TAP : Z := 0x0002.
Definition IFF_NO_PI : Z := 0x1000.
Definition ETH_HDR_SIZE : Z := 14.
Definition ETH_FRAME_MIN : Z := 60.
Definition ETH_FRAME_MAX : Z := 1514.
Definition ETH_PAYLOAD_MIN : Z := ETH_FRAME_MIN - ETH_HDR_SIZE.
Definition ETH_PAYLOAD_MAX : Z := ETH_FRAME_MAX - ETH_HDR_SIZE.
Definition ETH_ADDR_LEN : nat := 6.
Definition ETH_ADDR_ANY : list Z := replicate 6 0x00.
Definition ETH_ADDR_BROADCAST : list Z := replicate 6 0xff.

Record EthernetHeader := mkEthernetHeader { dst : list Z; src : list Z; eth_type : Z }.

Definition EthernetHeader_bytes (h : EthernetHeader) : list Z :=
  dst h ++ src h ++ le_bytes 2 (eth_type h).
Definition EthernetHeader_of (b : list Z) : EthernetHeader :=
  mkEthernetHeader (bytes_at 0 6 b) (bytes_at 6 6 b) (int_at 12 2 b).
Definition mac_wf (m : list Z) : Prop := length m = 6%nat /\ bytes_ok m.
Definition EthernetHeader_wf (h : EthernetHeader) : Prop :=
  mac_wf (dst h) /\ mac_wf (src h) /\ in_u16 (eth_type h).

Section device_code.
Context `{Platform}.

(** A kernel call whose failure is unwrapped or answered with [panic!]. *)
Definition tap_must (c : TapCall) : outcome unit := if tap_call c then Ret tt else Panic.

Definition tap_set_address (d : NetDevice) : outcome NetDevice :=
  _ ← tap_must InetSocket;
  _ ← tap_must (IfreqFromName (name d));
  _ ← tap_must GetHwAddr;
  _ ← tap_must IfreqGetName;
  Ret (d <|dev_address := tap_hw_addr|>).

(** [tap::open] *)
Definition tap_open (d : NetDevice) : outcome NetDevice :=
  _ ← tap_must (OpenTun TUN_PATH);
  _ ← tap_must (IfreqFromName (name d));
  _ ← tap_must (TunSetIff (Z.lor IFF_TAP IFF_NO_PI));
  _ ← tap_must SetOwn;
  _ ← tap_must SetAsync;
  _ ← tap_must (SetSig (irq (irq_entry d)));
  d ← (if bool_decide (take 6 (dev_address d) = ETH_ADDR_ANY) then tap_set_address d else Ret d);
  Ret (d <|driver_data := Some (mkDriverData (mkTapFile [] []) ETH_TAP_IRQ)|>).

(** [tap::read_data]: the length read and the whole buffer. *)
Definition tap_read_data (d : NetDevice) : outcome (Z * list Z * NetDevice) :=
  dd ← unwrap (driver_data d);
  '(res, f) ← tap_read (Z.to_nat ETH_FRAME_MAX) (file dd);
  frame ← unwrap_result res;
  Ret (zlen frame, frame ++ replicate (Z.to_nat ETH_FRAME_MAX - length frame) 0,
       d <|driver_data := Some (mkDriverData f (driver_irq dd))|>).

(** [tap::write_data]: a failing write is only logged and the result is [Ok(())]
    either way, so [tap_tx] holds the frames handed to [write], accepted by the
    kernel or not. *)
Definition tap_write_data (d : NetDevice) (data : list Z) : outcome (result unit * NetDevice) :=
  dd ← unwrap (driver_data d);
  Ret (Ok tt, d <|driver_data := Some (mkDriverData (tap_write data (file dd)) (driver_irq dd))|>).

Definition pcap_read_data (d : NetDevice) : Z * list Z * NetDevice :=
  (0, replicate (Z.to_nat ETH_FRAME_MAX) 0, d).

Definition ethernet_open (d : NetDevice) : outcome (result unit * NetDevice) :=
  ty ← unwrap (driver_type d);
  match ty with
  | Tap => d ← tap_open d; Ret (Ok tt, d)
  | Pcap => Ret (Ok tt, d)
  end.
End device_code.

(** Packing of the Ethernet header. *)
Section EthernetHeader_packed.
Lemma EthernetHeader_len h : EthernetHeader_wf h -> zlen (EthernetHeader_bytes h) = 14.
Proof.
  intros ([L1 _] & [L2 _] & _). unfold EthernetHeader_bytes. zlen_simpl.
  unfold zlen. rewrite L1, L2, le_bytes_len. done.
Qed.
Lemma EthernetHeader_bytes_ok h : EthernetHeader_wf h -> bytes_ok (EthernetHeader_bytes h).
Proof.
  intros ([_ ?] & [_ ?] & _). repeat apply Forall_app_2; auto. apply le_bytes_bytes.
Qed.
Lemma EthernetHeader_of_to h : EthernetHeader_wf h -> EthernetHeader_of (EthernetHeader_bytes h) = h.
Proof.
  destruct h as [d s t]. intros ([L1 _] & [L2 _] & Ht). simpl in *.
  explode_list d. explode_list s. unfold EthernetHeader_of, int_at, bytes_at. simpl.
  by rewrite le2_id.
Qed.
Lemma EthernetHeader_of_wf b : zlen b = 14 -> bytes_ok b -> EthernetHeader_wf (EthernetHeader_of b).
Proof.
  intros L Hb. unfold zlen in L. explode_list b. bytes_inv.
  unfold EthernetHeader_of, EthernetHeader_wf, mac_wf, int_at, bytes_at. simpl.
  split_and!; try done; [bytes_tac..|]. by apply le_int_bound_16.
Qed.
Lemma EthernetHeader_to_of b : zlen b = 14 -> bytes_ok b -> EthernetHeader_bytes (EthernetHeader_of b) = b.
Proof.
  intros L Hb. unfold zlen in L. explode_list b. bytes_inv.
  unfold EthernetHeader_of, EthernetHeader_bytes, int_at, bytes_at. cbn [take drop dst src eth_type].
  by rewrite le2_bytes_id.
Qed.
End EthernetHeader_packed.

#[export] Instance EthernetHeader_Packed : Packed EthernetHeader := {
  size_of := 14;
  to_u8_slice := EthernetHeader_bytes;
  struct_of := EthernetHeader_of;
  packed_wf := EthernetHeader_wf;
  size_of_nonneg := ltac:(done);
  to_u8_slice_len := EthernetHeader_len;
  to_u8_slice_bytes := EthernetHeader_bytes_ok;
  struct_of_to := EthernetHeader_of_to;
  struct_of_wf := EthernetHeader_of_wf;
  to_struct_of := EthernetHeader_to_of
}.

Section ethernet_code.
Context `{Platform}.

Definition ethernet_read_data (d : NetDevice)
    : outcome (option (ProtocolType * list Z * Z) * NetDevice) :=
  ty ← unwrap (driver_type d);
  '(len, buf, d) ← match ty with
                   | Tap => tap_read_data d
                   | Pcap => Ret (pcap_read_data d)
                   end;
  let hdr_len := size_of EthernetHeader in
  if len <? hdr_len then Panic else
  hdr ← bytes_to_struct EthernetHeader buf;
  if negb (bool_decide (take ETH_ADDR_LEN (dev_address d) = dst hdr))
     && negb (bool_decide (ETH_ADDR_BROADCAST = dst hdr))
  then Ret (None, d)
  else
    let eth_type := be_to_le_u16 (eth_type hdr) in
    data ← slice buf hdr_len len;
    Ret (Some (ProtocolType_from_u16 eth_type, data, len - hdr_len), d).

Definition ethernet_transmit (d : NetDevice) (ether_type : ProtocolType) (data : list Z) (len : Z)
    (dst : list Z) : outcome (result unit * NetDevice) :=
  let hdr := mkEthernetHeader dst (take ETH_ADDR_LEN (dev_address d))
               (le_to_be_u16 (ProtocolType_as_u16 ether_type)) in
  let hdr_bytes := to_u8_slice hdr in
  let data_len := zlen data in
  let hdr_len := zlen hdr_bytes in
  if ETH_FRAME_MAX <? hdr_len + data_len then Panic else
  let frame := hdr_bytes ++ data
               ++ replicate (Z.to_nat (ETH_FRAME_MAX - (hdr_len + data_len))) 0 in
  let pad_len := if data_len <? ETH_PAYLOAD_MIN then ETH_PAYLOAD_MIN - data_len else 0 in
  let frame_len := hdr_len + data_len + pad_len in
  frame ← slice frame 0 frame_len;
  ty ← unwrap (driver_type d);
  match ty with
  | Tap => tap_write_data d frame
  | Pcap => Ret (Ok tt, d)
  end.

Definition ethernet_init (i : Z) (ty : DriverType) : NetDevice :=
  let irq_entry := IRQEntry_new IRQ_ETHERNET 0 in
  let device := NetDevice_new i Ethernet "tap0" ETH_PAYLOAD_MAX
    (Z.lor DEVICE_FLAG_BROADCAST DEVICE_FLAG_NEED_ARP) ETH_HDR_SIZE (Z.of_nat ETH_ADDR_LEN)
    (replicate NET_DEVICE_ADDR_LEN 0) (replicate NET_DEVICE_ADDR_LEN 0xff) irq_entry in
  device <|driver_type := Some ty|>.
End ethernet_code.

(** ** devices/loopback.rs *)

Definition IRQ_LOOPBACK : Z := INTR_IRQ_BASE + 5.
Definition LOOPBACK_MTU : Z := u16_max.

Definition loopback_read_data (d : NetDevice) : outcome (option (ProtocolType * list Z * Z)) :=
  data ← unwrap (custom_data (irq_entry d));
  Ret (Some (ProtoIP, data, zlen data)).

Definition loopback_transmit (d : NetDevice) (data : list Z) (e : Env)
    : outcome (result unit * NetDevice * Env) :=
  let d := d <|irq_entry := (irq_entry d) <|custom_data := Some data|>|> in
  Ret (Ok tt, d, raise IRQ_LOOPBACK e).

Definition loopback_init (i : Z) : NetDevice :=
  let irq_entry := IRQEntry_new IRQ_LOOPBACK IRQ_FLAG_SHARED in
  NetDevice_new i Loopback "lo" LOOPBACK_MTU DEVICE_FLAG_LOOPBACK 0 0
    (replicate NET_DEVICE_ADDR_LEN 0) (replicate NET_DEVICE_ADDR_LEN 0) irq_entry.

(** ** devices/mod.rs: operations *)

Definition SIGUSR1 : Z := 10.

Definition register_interface (d : NetDevice) (i : IPInterface) : NetDevice :=
  d <|interfaces := push (interfaces d) i|>.

Definition get_interface (d : NetDevice) (f : NetInterfaceFamily) : option IPInterface :=
  List.find (fun i => bool_decide (family (interface i) = f)) (to_list (interfaces d)).

Definition is_open (d : NetDevice) : bool := 0 <? Z.land (flags d) DEVICE_FLAG_UP.

Section device_ops.
Context `{Platform}.

Definition device_open (d : NetDevice) : outcome (result unit * NetDevice) :=
  let d := d <|flags := Z.lor (flags d) DEVICE_FLAG_UP|> in
  match device_type d with
  | Loopback => Ret (Ok tt, d)
  | Ethernet => ethernet_open d
  end.

Definition device_close (d : NetDevice) : result unit :=
  match device_type d with
  | Loopback => Ok tt
  | Ethernet => Ok tt
  end.

Definition device_transmit (d : NetDevice) (proto_type : ProtocolType) (data : list Z) (len : Z)
    (dst : list Z) (e : Env) : outcome (result unit * NetDevice * Env) :=
  if negb (is_open d) then Panic else
  match device_type d with
  | Loopback => loopback_transmit d data e
  | Ethernet => '(r, d) ← ethernet_transmit d proto_type data len dst; Ret (r, d, e)
  end.

(** The loop of [isr] over the protocols: the first one of the frame's type
    gets the payload. *)
Definition isr_enqueue (irq : Z) (proto_type : ProtocolType) (data : list Z) (len : Z)
    (_ : unit) (p : NetProtocol) : outcome (unit * NetProtocol * loop_ctl) :=
  if bool_decide (protocol_type p = proto_type)
  then let data_entry := mkProtocolData irq (Some data) len in
       Ret (tt, p <|input_head := input_head p ++ [data_entry]|>, Break)
  else Ret (tt, p, Continue).

Definition isr (d : NetDevice) (irq : Z) (ps : NetProtocols) (e : Env)
    : outcome (NetDevice * NetProtocols * Env) :=
  '(incoming_data, d) ← match device_type d with
                        | Loopback => x ← loopback_read_data d; Ret (x, d)
                        | Ethernet => ethernet_read_data d
                        end;
  match incoming_data with
  | None => Ret (d, ps, e)
  | Some (proto_type, data, len) =>
      '(_, entries) ← traverse (isr_enqueue irq proto_type data len) (protocol_entries ps) tt;
      Ret (d, mkNetProtocols entries, raise SIGUSR1 e)
  end.
End device_ops.

Record NetDevices := mkNetDevices { device_entries : List NetDevice }.

Definition NetDevices_new : NetDevices := mkNetDevices list_new.
Definition NetDevices_register (ds : NetDevices) (d : NetDevice) : NetDevices :=
  mkNetDevices (push (device_entries ds) d).

Definition handle_irq_body `{Platform} (n : Z) (s : NetProtocols * Env) (d : NetDevice)
    : outcome (NetProtocols * Env * NetDevice * loop_ctl) :=
  let '(ps, e) := s in
  if irq (irq_entry d) =? n
  then '(d, ps, e) ← isr d n ps e; Ret (ps, e, d, Continue)
  else Ret (ps, e, d, Continue).

Definition devices_handle_irq `{Platform} (ds : NetDevices) (n : Z) (ps : NetProtocols) (e : Env)
    : outcome (NetDevices * NetProtocols * Env) :=
  '(ps, e, entries) ← traverse (handle_irq_body n) (device_entries ds) (ps, e);
  Ret (mkNetDevices entries, ps, e).

(** [get_mut_by_type]: the first device of the type and how it is put back. *)
Definition get_mut_by_type (ds : NetDevices) (ty : NetDeviceType)
    : option (NetDevice * (NetDevice -> NetDevices)) :=
  match focus (fun d => bool_decide (device_type d = ty)) (device_entries ds) with
  | None => None
  | Some (d, put) => Some (d, fun d => mkNetDevices (put d))
  end.

(** ** Specification of a ready Ethernet device *)

(** The frame a payload travels in: header, payload, zero padding to the minimum. *)
Definition eth_frame (dst src : list Z) (proto : ProtocolType) (data : list Z) : list Z :=
  EthernetHeader_bytes (mkEthernetHeader dst src (le_to_be_u16 (ProtocolType_as_u16 proto)))
  ++ data ++ replicate (Z.to_nat (ETH_PAYLOAD_MIN - zlen data)) 0.

Definition dev_mac (d : NetDevice) : list Z := take ETH_ADDR_LEN (dev_address d).

Definition addr_wf (a : list Z) : Prop := length a = NET_DEVICE_ADDR_LEN /\ bytes_ok a.

Definition device_wf (d : NetDevice) : Prop :=
  addr_wf (dev_address d) /\ addr_wf (dev_broadcast d)
  /\ Forall iface_wf (to_list (interfaces d)) /\ in_u16 (flags d).

(** An open Ethernet device with its TAP file. *)
Record eth_ready (d : NetDevice) (f : TapFile) : Prop := {
  er_wf : device_wf d;
  er_type : device_type d = Ethernet;
  er_open : is_open d = true;
  er_driver : driver_type d = Some Tap;
  er_file : exists i, driver_data d = Some (mkDriverData f i)
}.

(** Replacing the TAP file of a device. *)
Definition with_file (d : NetDevice) (f : TapFile) : NetDevice :=
  match driver_data d with
  | Some dd => d <|driver_data := Some (mkDriverData f (driver_irq dd))|>
  | None => d
  end.

(** What [device_transmit] of a ready device amounts to. *)
Definition sent (d : NetDevice) (f : TapFile) (frame : list Z) : NetDevice :=
  with_file d (tap_write frame f).

Section device_lemmas.
Context `{Platform}.
Implicit Types (d : NetDevice) (f : TapFile).

Lemma dev_mac_wf d : device_wf d -> mac_wf (dev_mac d).
Proof.
  intros ([L B] & _). unfold dev_mac, mac_wf. split.
  - rewrite length_take, L. done.
  - by apply Forall_take.
Qed.

Lemma ProtocolType_as_u16_range p : in_u16 (ProtocolType_as_u16 p).
Proof. by destruct p. Qed.

Lemma ProtocolType_roundtrip p : ProtocolType_from_u16 (ProtocolType_as_u16 p) = p.
Proof. by destruct p. Qed.

Lemma eth_frame_len dst src proto data : mac_wf dst -> mac_wf src ->
  zlen (eth_frame dst src proto data) = 14 + Z.max 46 (zlen data).
Proof.
  intros. unfold eth_frame. rewrite !zlen_app.
  rewrite (EthernetHeader_len (mkEthernetHeader _ _ _)).
  - zlen_simpl. unfold ETH_PAYLOAD_MIN, ETH_FRAME_MIN, ETH_HDR_SIZE. lia.
  - split_and!; [done..|]. apply le_to_be_u16_range, ProtocolType_as_u16_range.
Qed.

Lemma ethernet_transmit_ready d f proto data len dst :
  eth_ready d f -> mac_wf dst -> zlen data <= ETH_PAYLOAD_MAX ->
  ethernet_transmit d proto data len dst = Ret (Ok tt, sent d f (eth_frame dst (dev_mac d) proto data)).
Proof.
  intros [Hwf _ _ Hdrv [i Hfile]] Hdst Hlen. unfold ethernet_transmit.
  pose proof (dev_mac_wf d Hwf) as Hmac. fold (dev_mac d).
  set (hdr := mkEthernetHeader _ _ _).
  assert (EthernetHeader_wf hdr) as Hh.
  { split_and!; [done..|]. apply le_to_be_u16_range, ProtocolType_as_u16_range. }
  change (to_u8_slice hdr) with (EthernetHeader_bytes hdr).
  rewrite (EthernetHeader_len hdr Hh).
  unfold ETH_PAYLOAD_MAX, ETH_PAYLOAD_MIN, ETH_FRAME_MAX, ETH_FRAME_MIN, ETH_HDR_SIZE in *.
  rewrite (proj2 (Z.ltb_ge _ _)) by lia.
  pose proof (zlen_nonneg data) as Hnn.
  assert (Z.of_nat (length (EthernetHeader_bytes hdr)) = 14) as Lh by apply (EthernetHeader_len hdr Hh).
  set (n := if zlen data <? 60 - 14 then 60 - 14 - zlen data else 0).
  assert (n = Z.max 0 (46 - zlen data)) as Hn by (unfold n; case_match; lia).
  replace (replicate (Z.to_nat (1514 - (14 + zlen data))) 0) with
    (replicate (Z.to_nat n) 0 ++ replicate (Z.to_nat (1500 - zlen data - n)) 0)
    by (rewrite <-replicate_add; f_equal; lia).
  rewrite (app_assoc (EthernetHeader_bytes hdr)), (app_assoc _ (replicate (Z.to_nat n) 0)).
  rewrite <-(app_nil_l (_ ++ replicate (Z.to_nat (1500 - zlen data - n)) 0)).
  rewrite slice_app; [|done|].
  2: { zlen_simpl. rewrite (EthernetHeader_len hdr Hh). lia. }
  rewrite bind_ret, Hdrv. simpl. unfold tap_write_data, sent, with_file. rewrite Hfile. simpl.
  unfold eth_frame, ETH_PAYLOAD_MIN, ETH_FRAME_MIN, ETH_HDR_SIZE. fold hdr.
  rewrite <-app_assoc. by replace (Z.to_nat (60 - 14 - zlen data)) with (Z.to_nat n) by lia.
Qed.

(** A ready device sends one frame and nothing else changes. *)
Lemma device_transmit_ready d f proto data len dst e :
  eth_ready d f -> mac_wf dst -> zlen data <= ETH_PAYLOAD_MAX ->
  device_transmit d proto data len dst e =
    Ret (Ok tt, sent d f (eth_frame dst (dev_mac d) proto data), e).
Proof.
  intros R Hdst Hlen. unfold device_transmit. rewrite (er_open _ _ R), (er_type _ _ R). simpl.
  by rewrite (ethernet_transmit_ready d f).
Qed.

Lemma device_transmit_too_long d f proto data len dst e :
  eth_ready d f -> mac_wf dst -> ETH_PAYLOAD_MAX < zlen data ->
  device_transmit d proto data len dst e = Panic.
Proof.
  intros [Hwf Ht Ho Hdrv [i Hfile]] Hdst Hlen.
  unfold device_transmit. rewrite Ho, Ht. simpl. unfold ethernet_transmit. fold (dev_mac d).
  set (hdr := mkEthernetHeader _ _ _). pose proof (dev_mac_wf d Hwf) as Hmac.
  change (to_u8_slice hdr) with (EthernetHeader_bytes hdr).
  rewrite (EthernetHeader_len hdr).
  - unfold ETH_PAYLOAD_MAX, ETH_FRAME_MAX, ETH_HDR_SIZE in *.
    by rewrite (proj2 (Z.ltb_lt _ _)) by lia.
  - split_and!; [done..|]. apply le_to_be_u16_range, ProtocolType_as_u16_range.
Qed.

Lemma with_file_ready d f f' : eth_ready d f -> eth_ready (with_file d f') f'.
Proof.
  intros [Hwf Ht Ho Hdrv [i Hfile]]. unfold with_file. rewrite Hfile. split; try done. by exists i.
Qed.
Lemma sent_ready d f frame : eth_ready d f -> eth_ready (sent d f frame) (tap_write frame f).
Proof. apply with_file_ready. Qed.
Lemma with_file_interfaces d f : interfaces (with_file d f) = interfaces d.
Proof. unfold with_file. by destruct (driver_data d). Qed.
Lemma with_file_mac d f : dev_mac (with_file d f) = dev_mac d.
Proof. unfold with_file. by destruct (driver_data d). Qed.
Lemma with_file_broadcast d f : dev_broadcast (with_file d f) = dev_broadcast d.
Proof. unfold with_file. by destruct (driver_data d). Qed.
Lemma with_file_flags d f : flags (with_file d f) = flags d.
Proof. unfold with_file. by destruct (driver_data d). Qed.
Lemma with_file_mtu d f : mtu (with_file d f) = mtu d.
Proof. unfold with_file. by destruct (driver_data d). Qed.
Lemma with_file_with_file d f f' : with_file (with_file d f) f' = with_file d f'.
Proof. unfold with_file. by destruct (driver_data d) eqn:E; simpl; rewrite ?E. Qed.

(** Reading the next frame from the TAP file. *)
Lemma tap_read_data_ready d rx tx frame :
  eth_ready d (mkTapFile (Some frame :: rx) tx) -> zlen frame <= ETH_FRAME_MAX ->
  tap_read_data d = Ret (zlen frame,
    frame ++ replicate (Z.to_nat (ETH_FRAME_MAX - zlen frame)) 0, with_file d (mkTapFile rx tx)).
Proof.
  intros [_ _ _ _ [i Hfile]] Hlen. unfold tap_read_data, with_file. rewrite Hfile. simpl.
  rewrite take_ge by (unfold zlen, ETH_FRAME_MAX in *; lia).
  do 6 f_equal. unfold zlen, ETH_FRAME_MAX. lia.
Qed.

Lemma ethernet_transmit_defined d proto data len dst :
  defined (ethernet_transmit d proto data len dst).
Proof. unfold ethernet_transmit, tap_write_data. cbv zeta. def_tac. Qed.

Lemma device_transmit_defined d proto data len dst e :
  defined (device_transmit d proto data len dst e).
Proof.
  pose proof ethernet_transmit_defined. unfold device_transmit, loopback_transmit.
  cbv zeta. def_tac.
Qed.

(** The queueing loop of [isr]. *)
Lemma isr_enqueue_hit n t data len u p : protocol_type p = t ->
  isr_enqueue n t data len u p =
    Ret (tt, p <|input_head := input_head p ++ [mkProtocolData n (Some data) len]|>, Break).
Proof. intros. unfold isr_enqueue. by rewrite bool_decide_eq_true_2. Qed.

Lemma isr_enqueue_miss n t data len u p : protocol_type p <> t ->
  isr_enqueue n t data len u p = Ret (tt, p, Continue).
Proof. intros. unfold isr_enqueue. by rewrite bool_decide_eq_false_2. Qed.

Lemma isr_enqueue_list n t data len ps1 p ps2 :
  protocol_type p = t -> Forall (fun q => protocol_type q <> t) ps1 ->
  traverse_list (isr_enqueue n t data len) (ps1 ++ p :: ps2) tt =
  Ret (tt, ps1 ++ p <|input_head := input_head p ++ [mkProtocolData n (Some data) len]|> :: ps2).
Proof.
  intros Hp Hps1. induction Hps1 as [|q ps1 Hq _ IH]; cbn [traverse_list app].
  - by rewrite isr_enqueue_hit.
  - rewrite isr_enqueue_miss, bind_ret by done. by rewrite IH.
Qed.

Lemma isr_enqueue_entries n data len (l : List NetProtocol) ps1 p ps2 :
  to_list l = ps1 ++ p :: ps2 -> Forall (fun q => protocol_type q <> protocol_type p) ps1 ->
  returns (traverse (isr_enqueue n (protocol_type p) data len) l tt) (fun '(_, l') =>
    to_list l' = ps1 ++ p <|input_head := input_head p ++ [mkProtocolData n (Some data) len]|> :: ps2).
Proof.
  intros Hl Hps1.
  pose proof (traverse_view (isr_enqueue n (protocol_type p) data len) l tt) as V.
  rewrite Hl, isr_enqueue_list in V by done.
  by destruct (traverse _ _ tt) as [[[] entries]| | | |]; simplify_eq/=.
Qed.

(** A frame whose bytes start with a header is taken apart as it was put
    together. *)
Lemma ethernet_read_data_ready d rx tx h payload :
  eth_ready d (mkTapFile (Some (EthernetHeader_bytes h ++ payload) :: rx) tx) ->
  EthernetHeader_wf h -> zlen payload <= ETH_PAYLOAD_MAX ->
  ethernet_read_data d =
    if bool_decide (dev_mac d = dst h) || bool_decide (ETH_ADDR_BROADCAST = dst h)
    then Ret (Some (ProtocolType_from_u16 (be_to_le_u16 (eth_type h)), payload, zlen payload),
              with_file d (mkTapFile rx tx))
    else Ret (None, with_file d (mkTapFile rx tx)).
Proof.
  intros R Hh Hlen. unfold ethernet_read_data. rewrite (er_driver _ _ R). simpl.
  pose proof (EthernetHeader_len h Hh) as Lh. pose proof (zlen_nonneg payload).
  rewrite (tap_read_data_ready _ _ _ _ R)
    by (rewrite zlen_app, Lh; unfold ETH_PAYLOAD_MAX, ETH_FRAME_MAX, ETH_HDR_SIZE in *; lia).
  simpl. rewrite zlen_app, Lh. rewrite (proj2 (Z.ltb_ge _ _)) by lia.
  rewrite <-app_assoc. change (EthernetHeader_bytes h) with (to_u8_slice h).
  rewrite bytes_to_struct_app by done. simpl. fold (dev_mac (with_file d (mkTapFile rx tx))).
  change (take 6 (dev_address ?x)) with (dev_mac x). rewrite with_file_mac.
  rewrite <-negb_orb. destruct (bool_decide _ || bool_decide _); simpl; [|done].
  rewrite slice_app; [|by rewrite Lh|by rewrite Lh]. simpl. do 4 f_equal. lia.
Qed.
End device_lemmas.
#[export] Hint Resolve device_transmit_defined : rust.

(** ** A concrete device, for evaluation *)

Definition demo_iface (ip : IPAdress) : IPInterface :=
  mkIPInterface (mkNetInterface IP None) None ip 0x00ffffff (Z.lor (Z.land ip 0x00ffffff) 0xff000000).

Definition demo_device (mac : Z) (ip : IPAdress) (f : TapFile) : NetDevice :=
  mkNetDevice 1 Ethernet "tap0" ETH_PAYLOAD_MAX 0x121 14 6 ([2; 0; 0; 0; 0; mac] ++ replicate 8 0)
    (replicate 14 0xff) (IRQEntry_new IRQ_ETHERNET 0) (from_list [demo_iface ip])
    (Some Tap) (Some (mkDriverData f ETH_TAP_IRQ)).

Lemma demo_iface_wf ip : in_u32 ip -> iface_wf (demo_iface ip).
Proof.
  intros. split_and!; [done|done|]. apply lor_u32; [by apply land_u32|done].
Qed.

Lemma demo_device_ready mac ip f : in_u8 mac -> in_u32 ip -> eth_ready (demo_device mac ip f) f.
Proof.
  intros Hm Hi. split; try done; [|by eexists].
  assert (addr_wf (dev_address (demo_device mac ip f))) by (split; [done|simpl; bytes_tac]).
  assert (addr_wf (dev_broadcast (demo_device mac ip f))) by (split; [done|simpl; bytes_tac]).
  split; [done|]. split; [done|]. split; [|done].
  constructor; [by apply demo_iface_wf|constructor].
Qed.

(** ** Properties *)

Section properties.
Context `{Platform}.

(** C32: Ethernet framing round trip.  What a ready device transmits is one
    frame of 60 to 1514 bytes; the device it is addressed to reads from that
    frame the same protocol type and the payload, followed by the padding. *)
Theorem ethernet_roundtrip d1 f1 d2 rx tx proto data len e :
  eth_ready d1 f1 -> zlen data <= ETH_PAYLOAD_MAX ->
  let frame := eth_frame (dev_mac d2) (dev_mac d1) proto data in
  eth_ready d2 (mkTapFile (Some frame :: rx) tx) ->
  device_transmit d1 proto data len (dev_mac d2) e = Ret (Ok tt, sent d1 f1 frame, e)
  /\ ETH_FRAME_MIN <= zlen frame <= ETH_FRAME_MAX
  /\ ethernet_read_data d2 = Ret (Some (proto,
       data ++ replicate (Z.to_nat (ETH_PAYLOAD_MIN - zlen data)) 0,
       Z.max ETH_PAYLOAD_MIN (zlen data)), with_file d2 (mkTapFile rx tx)).
Proof.
  intros R1 Hlen frame R2. pose proof (dev_mac_wf _ (er_wf _ _ R1)) as M1.
  pose proof (dev_mac_wf _ (er_wf _ _ R2)) as M2. pose proof (zlen_nonneg data).
  unfold ETH_PAYLOAD_MIN, ETH_PAYLOAD_MAX, ETH_FRAME_MIN, ETH_FRAME_MAX, ETH_HDR_SIZE in *.
  split_and!.
  - by apply device_transmit_ready.
  - unfold frame. rewrite eth_frame_len by done. lia.
  - unfold frame. rewrite eth_frame_len by done. lia.
  - unfold frame, eth_frame in R2. eapply ethernet_read_data_ready in R2.
    + rewrite R2. cbn [dst eth_type]. rewrite bool_decide_eq_true_2 by done. simpl.
      rewrite be_le_u16, ProtocolType_roundtrip by apply ProtocolType_as_u16_range.
      do 4 f_equal. zlen_simpl. unfold ETH_PAYLOAD_MIN, ETH_FRAME_MIN, ETH_HDR_SIZE. lia.
    + split_and!; [done..|]. apply le_to_be_u16_range, ProtocolType_as_u16_range.
    + zlen_simpl. unfold ETH_PAYLOAD_MAX, ETH_PAYLOAD_MIN, ETH_FRAME_MIN, ETH_FRAME_MAX, ETH_HDR_SIZE. lia.
Qed.

(** A payload over the 1500-byte limit, or a device that is not open,
    panics instead of sending anything. *)
Theorem device_transmit_rejects d f proto data len dst e :
  is_open d = false \/ (eth_ready d f /\ mac_wf dst /\ ETH_PAYLOAD_MAX < zlen data) ->
  device_transmit d proto data len dst e = Panic.
Proof.
  intros [Ho|(? & ? & ?)]; [|by eapply device_transmit_too_long].
  unfold device_transmit. by rewrite Ho.
Qed.

(** The interrupt service routine on a frame addressed to the device (or
    broadcast): its payload is appended, with its length, to the queue of the
    first protocol registered for its type; every other queue, and the order
    of the protocols, is unchanged; [SIGUSR1] is raised. *)
Theorem isr_delivers d rx tx h payload n ps ps1 p ps2 e :
  eth_ready d (mkTapFile (Some (EthernetHeader_bytes h ++ payload) :: rx) tx) ->
  EthernetHeader_wf h -> zlen payload <= ETH_PAYLOAD_MAX ->
  dst h = dev_mac d \/ dst h = ETH_ADDR_BROADCAST ->
  to_list (protocol_entries ps) = ps1 ++ p :: ps2 ->
  protocol_type p = ProtocolType_from_u16 (be_to_le_u16 (eth_type h)) ->
  Forall (fun q => protocol_type q <> protocol_type p) ps1 ->
  returns (isr d n ps e) (fun '(d', ps', e') =>
    d' = with_file d (mkTapFile rx tx)
    /\ to_list (protocol_entries ps') =
         ps1 ++ p <|input_head := input_head p ++ [mkProtocolData n (Some payload) (zlen payload)]|> :: ps2
    /\ e' = raise SIGUSR1 e).
Proof.
  intros R Hh Hlen Hdst Hps Hp Hps1. unfold isr. rewrite (er_type _ _ R). simpl.
  rewrite (ethernet_read_data_ready _ _ _ _ _ R) by done.
  replace (bool_decide _ || bool_decide _) with true.
  2: { symmetry. apply orb_true_iff. rewrite !bool_decide_eq_true. destruct Hdst; auto. }
  rewrite bind_ret. rewrite <-Hp.
  pose proof (isr_enqueue_entries n payload (zlen payload) (protocol_entries ps) ps1 p ps2 Hps Hps1) as V.
  by destruct (traverse _ _ tt) as [[[] entries]| | | |].
Qed.

(** A frame for another station is consumed and has no other effect: no
    queue changes and no signal is raised. *)
Theorem isr_ignores_foreign d rx tx h payload n ps e :
  eth_ready d (mkTapFile (Some (EthernetHeader_bytes h ++ payload) :: rx) tx) ->
  EthernetHeader_wf h -> zlen payload <= ETH_PAYLOAD_MAX ->
  dst h <> dev_mac d -> dst h <> ETH_ADDR_BROADCAST ->
  isr d n ps e = Ret (with_file d (mkTapFile rx tx), ps, e).
Proof.
  intros R Hh Hlen Hne Hnb. unfold isr. rewrite (er_type _ _ R). simpl.
  rewrite (ethernet_read_data_ready _ _ _ _ _ R) by done.
  by rewrite !bool_decide_eq_false_2 by done.
Qed.
End properties.

Lemma ethernet_roundtrip_witness :
  let d2 f := demo_device 2 0x020200c0 f in
  let d1 := demo_device 1 0x010200c0 (mkTapFile [] []) in
  let frame := eth_frame (dev_mac (d2 (mkTapFile [] []))) (dev_mac d1) ProtoIP [1; 2; 3] in
  exists r, @ethernet_read_data (d2 (mkTapFile [Some frame] [])) = Ret r.
Proof.
  intros d2 d1 frame. eexists.
  apply (@ethernet_roundtrip d1 (mkTapFile [] []) (d2 (mkTapFile [Some frame] [])) [] [] ProtoIP [1; 2; 3] 3 env_init).
  - by apply demo_device_ready.
  - done.
  - by apply demo_device_ready.
Defined.

Lemma device_transmit_rejects_witness :
  device_transmit (demo_device 1 0x010200c0 (mkTapFile [] [])) ProtoIP (replicate 1501 7) 1501
    [1; 2; 3; 4; 5; 6] env_init = Panic.
Proof.
  apply (device_transmit_rejects _ (mkTapFile [] [])). right. split_and!;
    [by apply demo_device_ready | split; [done | bytes_tac] | vm_compute; reflexivity].
Defined.

Lemma isr_delivers_witness :
  let h := mkEthernetHeader [2; 0; 0; 0; 0; 1] [2; 0; 0; 0; 0; 2] (le_to_be_u16 0x0800) in
  let f := mkTapFile [Some (EthernetHeader_bytes h ++ [7; 8; 9])] [] in
  returns (isr (demo_device 1 0x010200c0 f) IRQ_ETHERNET
    (mkNetProtocols (from_list [NetProtocol_new ProtoArp; NetProtocol_new ProtoIP])) env_init)
    (fun '(_, ps, e) => to_list (protocol_entries ps) =
       [NetProtocol_new ProtoArp; mkNetProtocol ProtoIP [mkProtocolData IRQ_ETHERNET (Some [7; 8; 9]) 3]]
       /\ env_signals e = [SIGUSR1]).
Proof.
  intros h f. eapply returns_mono.
  - apply (isr_delivers (demo_device 1 0x010200c0 f) [] [] h [7; 8; 9] IRQ_ETHERNET
      (mkNetProtocols (from_list [NetProtocol_new ProtoArp; NetProtocol_new ProtoIP]))
      [NetProtocol_new ProtoArp] (NetProtocol_new ProtoIP) [] env_init).
    + by apply demo_device_ready.
    + split_and!; [split; [done|bytes_tac]..|]. done.
    + done.
    + by left.
    + done.
    + by vm_compute.
    + by repeat constructor.
  - by intros [[d ps] e] (-> & -> & ->).
Defined.

Lemma isr_ignores_foreign_witness :
  let h := mkEthernetHeader [2; 0; 0; 0; 0; 9] [2; 0; 0; 0; 0; 2] (le_to_be_u16 0x0800) in
  let f := mkTapFile [Some (EthernetHeader_bytes h ++ [7; 8; 9])] [] in
  exists d, isr (demo_device 1 0x010200c0 f) IRQ_ETHERNET NetProtocols_new env_init
    = Ret (d, NetProtocols_new, env_init).
Proof.
  intros h f. eexists.
  apply (isr_ignores_foreign (demo_device 1 0x010200c0 f) [] [] h [7; 8; 9]);
    [by apply demo_device_ready | | done | done | done].
  split_and!; [split; [done|bytes_tac]..|]. done.
Defined.
