(* ===== verification/Arp.v ===== *)
(** * protocols/arp.rs

    The ARP cache with its expiry, the message format, request, reply, the input
    handler and address resolution; [ProtocolContexts] of protocols/mod.rs, and
    [Net], the triple of the device, the contexts and the environment that the
    functions of the IP layer receive as [&mut] arguments. *)
From S2P Require Import Prelude Platform LinkedList Bytes IpTypes Devices.

Definition ARP_HW_SPACE_ETHER : Z := 0x0001.
Definition ARP_PROTO_SPACE_IP : Z := 0x0800.
Definition ARP_OP_REQUEST : Z := 0x0001.
Definition ARP_OP_REPLY : Z := 0x0002.
Definition ARP_CACHE_TIMEOUT_SECS : Z := 60 * 60 * 4.

(** ** The cache *)

Inductive ArpTableEntryState := Incomplete | Resolved | Static.

Record ArpTableEntry := mkArpTableEntry {
  arp_state : ArpTableEntryState;
  proto_address : IPAdress;
  hw_address : list Z;
  timestamp : Z
}.

Record ArpTable := mkArpTable { arp_entries : gmap Z ArpTableEntry }.

Definition ArpTable_new : ArpTable := mkArpTable ∅.

Section table_code.
Context `{Platform}.

Definition ArpTable_get (t : ArpTable) (ip : IPAdress) (e : Env)
    : outcome (option (list Z) * ArpTable * Env) :=
  match arp_entries t !! ip with
  | Some entry =>
      let '(r, e) := elapsed (timestamp entry) e in
      dur ← unwrap_result r;
      if ARP_CACHE_TIMEOUT_SECS <? as_secs dur
      then Ret (None, mkArpTable (delete ip (arp_entries t)), e)
      else Ret (Some (hw_address entry), t, e)
  | None => Ret (None, t, e)
  end.

Definition ArpTable_update (t : ArpTable) (ip : IPAdress) (resolved : list Z) (e : Env)
    : ArpTable * Env :=
  let entries := match arp_entries t !! ip with
                 | Some _ => delete ip (arp_entries t)
                 | None => arp_entries t
                 end in
  let '(t0, e) := now e in
  (mkArpTable (<[ip := mkArpTableEntry Resolved ip resolved t0]> entries), e).
End table_code.

(** ** Contexts (protocols/mod.rs) and the arguments of the IP layer *)

Record ProtocolContexts := mkProtocolContexts {
  arp_table : ArpTable;
  ip_routes : IPRoutes;
  ip_id_manager : IPHeaderIdManager
}.

Record Net := mkNet { net_dev : NetDevice; net_ctx : ProtocolContexts; net_env : Env }.

#[export] Instance set_arp_table : Setter arp_table :=
  fun v c => mkProtocolContexts v (ip_routes c) (ip_id_manager c).
#[export] Instance set_ip_id_manager : Setter ip_id_manager :=
  fun v c => mkProtocolContexts (arp_table c) (ip_routes c) v.
#[export] Instance set_net_dev : Setter net_dev := fun v n => mkNet v (net_ctx n) (net_env n).
#[export] Instance set_net_ctx : Setter net_ctx := fun v n => mkNet (net_dev n) v (net_env n).
#[export] Instance set_net_env : Setter net_env := fun v n => mkNet (net_dev n) (net_ctx n) v.

(** ** Messages *)

Record ArpHeader := mkArpHeader {
  hw_addr_space : Z;
  proto_addr_space : Z;
  hw_addr_len : Z;
  proto_addr_len : Z;
  op : Z
}.

Record ArpMessage := mkArpMessage {
  arp_header : ArpHeader;
  sender_hw_addr : list Z;
  sender_proto_addr : list Z;
  target_hw_addr : list Z;
  target_proto_addr : list Z
}.

Definition ArpMessage_bytes (m : ArpMessage) : list Z :=
  let h := arp_header m in
  le_bytes 2 (hw_addr_space h) ++ le_bytes 2 (proto_addr_space h)
  ++ le_bytes 1 (hw_addr_len h) ++ le_bytes 1 (proto_addr_len h) ++ le_bytes 2 (op h)
  ++ sender_hw_addr m ++ sender_proto_addr m ++ target_hw_addr m ++ target_proto_addr m.

Definition ArpMessage_of (b : list Z) : ArpMessage :=
  mkArpMessage
    (mkArpHeader (int_at 0 2 b) (int_at 2 2 b) (int_at 4 1 b) (int_at 5 1 b) (int_at 6 2 b))
    (bytes_at 8 6 b) (bytes_at 14 4 b) (bytes_at 18 6 b) (bytes_at 24 4 b).

Definition ip4_wf (a : list Z) : Prop := length a = 4%nat /\ bytes_ok a.

Definition ArpMessage_wf (m : ArpMessage) : Prop :=
  let h := arp_header m in
  in_u16 (hw_addr_space h) /\ in_u16 (proto_addr_space h) /\ in_u8 (hw_addr_len h)
  /\ in_u8 (proto_addr_len h) /\ in_u16 (op h)
  /\ mac_wf (sender_hw_addr m) /\ ip4_wf (sender_proto_addr m)
  /\ mac_wf (target_hw_addr m) /\ ip4_wf (target_proto_addr m).

Section ArpMessage_packed.
Lemma ArpMessage_len m : ArpMessage_wf m -> zlen (ArpMessage_bytes m) = 28.
Proof.
  intros (_ & _ & _ & _ & _ & [L1 _] & [L2 _] & [L3 _] & [L4 _]).
  unfold ArpMessage_bytes, zlen. rewrite !length_app, !le_bytes_len, L1, L2, L3, L4. done.
Qed.
Lemma ArpMessage_bytes_ok m : ArpMessage_wf m -> bytes_ok (ArpMessage_bytes m).
Proof.
  intros (_ & _ & _ & _ & _ & [_ ?] & [_ ?] & [_ ?] & [_ ?]).
  repeat apply Forall_app_2; auto; apply le_bytes_bytes.
Qed.
Lemma ArpMessage_of_to m : ArpMessage_wf m -> ArpMessage_of (ArpMessage_bytes m) = m.
Proof.
  destruct m as [[] sh sp th tp].
  intros (? & ? & ? & ? & ? & [L1 _] & [L2 _] & [L3 _] & [L4 _]). simpl in *.
  explode_list sh. explode_list sp. explode_list th. explode_list tp.
  unfold ArpMessage_of, int_at, bytes_at. simpl. by rewrite !le2_id, !le1_id.
Qed.
Lemma ArpMessage_of_wf b : zlen b = 28 -> bytes_ok b -> ArpMessage_wf (ArpMessage_of b).
Proof.
  intros L Hb. unfold zlen in L. explode_list b. bytes_inv.
  unfold ArpMessage_of, ArpMessage_wf, mac_wf, ip4_wf, int_at, bytes_at. cbn [take drop].
  cbn [arp_header hw_addr_space proto_addr_space hw_addr_len proto_addr_len op
       sender_hw_addr sender_proto_addr target_hw_addr target_proto_addr].
  split_and!; try done; try bytes_tac; try by apply le_int_bound_16.
  all: unfold in_u8 in *; cbn [le_int]; lia.
Qed.
Lemma ArpMessage_to_of b : zlen b = 28 -> bytes_ok b -> ArpMessage_bytes (ArpMessage_of b) = b.
Proof.
  intros L Hb. unfold zlen in L. explode_list b. bytes_inv.
  unfold ArpMessage_of, ArpMessage_bytes, int_at, bytes_at. cbn [take drop].
  cbn [arp_header hw_addr_space proto_addr_space hw_addr_len proto_addr_len op
       sender_hw_addr sender_proto_addr target_hw_addr target_proto_addr].
  by rewrite !le2_bytes_id, !le1_bytes_id.
Qed.
End ArpMessage_packed.

#[export] Instance ArpMessage_Packed : Packed ArpMessage := {
  size_of := 28;
  to_u8_slice := ArpMessage_bytes;
  struct_of := ArpMessage_of;
  packed_wf := ArpMessage_wf;
  size_of_nonneg := ltac:(done);
  to_u8_slice_len := ArpMessage_len;
  to_u8_slice_bytes := ArpMessage_bytes_ok;
  struct_of_to := ArpMessage_of_to;
  struct_of_wf := ArpMessage_of_wf;
  to_struct_of := ArpMessage_to_of
}.

(** ** Operations *)

(** The header both senders build. *)
Definition arp_header_for (operation : Z) : ArpHeader :=
  mkArpHeader (le_to_be_u16 ARP_HW_SPACE_ETHER) (le_to_be_u16 ARP_PROTO_SPACE_IP)
    (Z.of_nat ETH_ADDR_LEN) IP_ADDR_LEN (le_to_be_u16 operation).

Section arp_code.
Context `{Platform}.

(** [device.transmit(..)] on the device of a [Net]. *)
Definition net_transmit (n : Net) (proto : ProtocolType) (data : list Z) (len : Z) (dst : list Z)
    : outcome (result unit * Net) :=
  '(r, d, e) ← device_transmit (net_dev n) proto data len dst (net_env n);
  Ret (r, mkNet d (net_ctx n) e).

Definition arp_request (iface : IPInterface) (target_ip : IPAdress) (n : Net)
    : outcome (result unit * Net) :=
  let request_msg := mkArpMessage (arp_header_for ARP_OP_REQUEST)
    (take 6 (dev_address (net_dev n))) (le_bytes 4 (unicast iface))
    (replicate 6 0) (le_bytes 4 target_ip) in
  let data := to_u8_slice request_msg in
  net_transmit n ProtoArp data (zlen data) (take 6 (dev_broadcast (net_dev n))).

Definition arp_reply (iface : IPInterface) (target_hw_addr : list Z) (target_ip : IPAdress)
    (destination_hw_addr : list Z) (n : Net) : outcome (result unit * Net) :=
  let reply_msg := mkArpMessage (arp_header_for ARP_OP_REPLY)
    (take 6 (dev_address (net_dev n))) (le_bytes 4 (unicast iface))
    target_hw_addr (le_bytes 4 target_ip) in
  let data := to_u8_slice reply_msg in
  net_transmit n ProtoArp data (zlen data) destination_hw_addr.

Definition arp_input (data : list Z) (len : Z) (n : Net) : outcome (result unit * Net) :=
  msg ← bytes_to_struct ArpMessage data;
  let h := arp_header msg in
  if negb (be_to_le_u16 (hw_addr_space h) =? ARP_HW_SPACE_ETHER)
     || negb (hw_addr_len h =? Z.of_nat ETH_ADDR_LEN) then Ret (Err, n)
  else if negb (be_to_le_u16 (proto_addr_space h) =? ARP_PROTO_SPACE_IP)
     || negb (proto_addr_len h =? IP_ADDR_LEN) then Ret (Err, n)
  else
    let target_ip := le_int (target_proto_addr msg) in
    iface ← unwrap (get_interface (net_dev n) IP);
    if negb (unicast iface =? target_ip) then Ret (Ok tt, n)
    else
      let sender_ip := le_int (sender_proto_addr msg) in
      let '(t, e) := ArpTable_update (arp_table (net_ctx n)) sender_ip (sender_hw_addr msg) (net_env n) in
      let n := mkNet (net_dev n) ((net_ctx n) <|arp_table := t|>) e in
      if be_to_le_u16 (op h) =? ARP_OP_REQUEST
      then arp_reply iface (sender_hw_addr msg) sender_ip (sender_hw_addr msg) n
      else Ret (Ok tt, n).

Definition arp_resolve (iface : IPInterface) (target_ip : IPAdress) (n : Net)
    : outcome (result (option (list Z)) * Net) :=
  if negb (bool_decide (device_type (net_dev n) = Ethernet)) then Ret (Err, n)
  else
    '(found, t, e) ← ArpTable_get (arp_table (net_ctx n)) target_ip (net_env n);
    let n := mkNet (net_dev n) ((net_ctx n) <|arp_table := t|>) e in
    match found with
    | Some hw_addr => Ret (Ok (Some hw_addr), n)
    | None =>
        '(r, n) ← arp_request iface target_ip n;
        match r with
        | Ok _ => Ret (Ok None, n)
        | Err => Ret (Err, n)
        end
    end.
End arp_code.

(** ** Specification and lemmas *)

(** The message of an operation between two stations. *)
Definition arp_msg (operation : Z) (smac : list Z) (sip : IPAdress) (tmac : list Z) (tip : IPAdress)
    : ArpMessage :=
  mkArpMessage (arp_header_for operation) smac (le_bytes 4 sip) tmac (le_bytes 4 tip).

Definition bcast_mac (d : NetDevice) : list Z := take 6 (dev_broadcast d).

(** The cache after [ip] was learned to be at [mac]. *)
Definition arp_learn `{Platform} (c : ProtocolContexts) (ip : IPAdress) (mac : list Z) (e : Env)
    : ProtocolContexts :=
  c <|arp_table := mkArpTable
        (<[ip := mkArpTableEntry Resolved ip mac (clock (env_ticks e))]> (arp_entries (arp_table c)))|>.

Definition tick (e : Env) : Env := e <|env_ticks := S (env_ticks e)|>.

Section arp_lemmas.
Context `{Platform}.
Implicit Types (n : Net) (f : TapFile) (d : NetDevice).

Lemma bcast_mac_wf d : device_wf d -> mac_wf (bcast_mac d).
Proof.
  intros (_ & [L B] & _). split; [|by apply Forall_take]. unfold bcast_mac.
  rewrite length_take, L. done.
Qed.

Lemma ip4_bytes_wf ip : ip4_wf (le_bytes 4 ip).
Proof. split; [done|apply le_bytes_bytes]. Qed.

Lemma arp_header_wf_for o : in_u16 o -> let h := arp_header_for o in
  in_u16 (hw_addr_space h) /\ in_u16 (proto_addr_space h) /\ in_u8 (hw_addr_len h)
  /\ in_u8 (proto_addr_len h) /\ in_u16 (op h).
Proof. intros Ho. split_and!; try done; by apply le_to_be_u16_range. Qed.

Lemma arp_msg_wf o smac sip tmac tip : in_u16 o -> mac_wf smac -> mac_wf tmac ->
  ArpMessage_wf (arp_msg o smac sip tmac tip).
Proof.
  intros Ho Hs Ht. pose proof (arp_header_wf_for o Ho) as (? & ? & ? & ? & ?).
  unfold ArpMessage_wf. cbn zeta. cbn [arp_msg arp_header sender_hw_addr sender_proto_addr
    target_hw_addr target_proto_addr].
  repeat match goal with |- _ /\ _ => split; [done|] end; try done.
  split; [apply ip4_bytes_wf|]. split; [done|apply ip4_bytes_wf].
Qed.

Lemma zero_mac_wf : mac_wf (replicate 6 0).
Proof. split; [done|]. simpl. bytes_tac. Qed.

Lemma net_transmit_ready n f proto data len dst :
  eth_ready (net_dev n) f -> mac_wf dst -> zlen data <= ETH_PAYLOAD_MAX ->
  net_transmit n proto data len dst =
    Ret (Ok tt, n <|net_dev := sent (net_dev n) f (eth_frame dst (dev_mac (net_dev n)) proto data)|>).
Proof. intros R ? ?. unfold net_transmit. by rewrite (device_transmit_ready _ _ _ _ _ _ _ R). Qed.

(** A message fits a frame and its first 28 bytes are read back. *)
Lemma arp_send n f o tmac tip dst : in_u16 o -> mac_wf tmac -> mac_wf dst ->
  eth_ready (net_dev n) f -> forall sip,
  let msg := arp_msg o (dev_mac (net_dev n)) sip tmac tip in
  net_transmit n ProtoArp (to_u8_slice msg) (zlen (to_u8_slice msg)) dst =
    Ret (Ok tt, n <|net_dev := sent (net_dev n) f
      (eth_frame dst (dev_mac (net_dev n)) ProtoArp (ArpMessage_bytes msg))|>).
Proof.
  intros Ho Ht Hd R sip msg. apply net_transmit_ready; try done.
  change (zlen (ArpMessage_bytes msg) <= 1500).
  rewrite ArpMessage_len; [done|]. apply arp_msg_wf; [done| |done]. by eapply dev_mac_wf, er_wf.
Qed.

Lemma arp_request_ready n f iface target_ip : eth_ready (net_dev n) f ->
  arp_request iface target_ip n = Ret (Ok tt, n <|net_dev := sent (net_dev n) f
    (eth_frame (bcast_mac (net_dev n)) (dev_mac (net_dev n)) ProtoArp
      (ArpMessage_bytes (arp_msg ARP_OP_REQUEST (dev_mac (net_dev n)) (unicast iface)
         (replicate 6 0) target_ip)))|>).
Proof.
  intros R. unfold arp_request. apply arp_send; try done.
  - apply zero_mac_wf.
  - by eapply bcast_mac_wf, er_wf.
Qed.

Lemma arp_reply_ready n f iface tmac tip dst : eth_ready (net_dev n) f -> mac_wf tmac -> mac_wf dst ->
  arp_reply iface tmac tip dst n = Ret (Ok tt, n <|net_dev := sent (net_dev n) f
    (eth_frame dst (dev_mac (net_dev n)) ProtoArp
      (ArpMessage_bytes (arp_msg ARP_OP_REPLY (dev_mac (net_dev n)) (unicast iface) tmac tip)))|>).
Proof. intros R Ht Hd. unfold arp_reply. by apply arp_send. Qed.

Lemma net_transmit_defined n proto data len dst : defined (net_transmit n proto data len dst).
Proof. unfold net_transmit. def_tac. Qed.
Hint Resolve net_transmit_defined : rust.

Lemma arp_request_defined iface ip n : defined (arp_request iface ip n).
Proof. unfold arp_request. def_tac. Qed.
Lemma arp_reply_defined iface tm ip dm n : defined (arp_reply iface tm ip dm n).
Proof. unfold arp_reply. def_tac. Qed.
Lemma ArpTable_get_defined t ip e : defined (ArpTable_get t ip e).
Proof. unfold ArpTable_get. def_tac. Qed.
Hint Resolve arp_request_defined ArpTable_get_defined : rust.
Lemma arp_resolve_defined iface ip n : defined (arp_resolve iface ip n).
Proof. unfold arp_resolve. def_tac. Qed.

(** The handler reads 28 bytes whatever the length of the payload. *)
Lemma arp_input_UB data len n : arp_input data len n = UB <-> zlen data < 28.
Proof.
  unfold arp_input. change (zlen data < 28) with (zlen data < size_of ArpMessage).
  apply (bytes_to_struct_UB (T := ArpMessage)). intros msg. cbv zeta. def_tac.
Qed.

Lemma ArpTable_get_miss t ip e : arp_entries t !! ip = None -> ArpTable_get t ip e = Ret (None, t, e).
Proof. intros E. unfold ArpTable_get. by rewrite E. Qed.

(** The handler on a well-formed message for this station. *)
Lemma arp_input_for_us n o smac sip tmac tip pad len iface :
  in_u16 o -> mac_wf smac -> mac_wf tmac -> in_u32 sip -> in_u32 tip ->
  get_interface (net_dev n) IP = Some iface -> unicast iface = tip ->
  arp_input (ArpMessage_bytes (arp_msg o smac sip tmac tip) ++ pad) len n =
    let n' := mkNet (net_dev n) (arp_learn (net_ctx n) sip smac (net_env n)) (tick (net_env n)) in
    if o =? ARP_OP_REQUEST then arp_reply iface smac sip smac n' else Ret (Ok tt, n').
Proof.
  intros Ho Hs Ht Hsip Htip Hif <-. unfold arp_input.
  change (ArpMessage_bytes ?m) with (to_u8_slice m).
  rewrite bytes_to_struct_app by by apply arp_msg_wf. rewrite bind_ret.
  unfold arp_msg. cbn [arp_header hw_addr_space proto_addr_space hw_addr_len proto_addr_len op
    sender_hw_addr sender_proto_addr target_proto_addr arp_header_for].
  rewrite !be_le_u16 by done. rewrite !Z.eqb_refl. cbn [negb orb].
  rewrite Hif. cbn [unwrap]. rewrite bind_ret, !le_int_le_bytes by done. rewrite Z.eqb_refl. cbn [negb].
  unfold ArpTable_update. destruct (arp_entries _ !! sip) eqn:E; cbn [now];
    unfold arp_learn, tick; [|done].
  by rewrite insert_delete_eq.
Qed.
End arp_lemmas.
#[export] Hint Resolve net_transmit_defined arp_reply_defined arp_resolve_defined : rust.

(** ** Properties *)

Section properties.
Context `{Platform}.

(** C27: a complete address resolution between two stations.  With no cache
    entry, [arp_resolve] broadcasts a request and reports nothing yet; the
    request makes the owner of the address learn the asker and answer it
    directly; the answer makes the asker learn the owner; a later resolution
    within four hours returns the owner's hardware address and sends
    nothing.  [padq] and [padr] are the Ethernet padding. *)
Theorem arp_exchange (A B : Net) fA fB ifA ifB padq padr lenq lenr :
  eth_ready (net_dev A) fA -> eth_ready (net_dev B) fB ->
  get_interface (net_dev A) IP = Some ifA -> get_interface (net_dev B) IP = Some ifB ->
  in_u32 (unicast ifA) -> in_u32 (unicast ifB) ->
  arp_entries (arp_table (net_ctx A)) !! unicast ifB = None ->
  let macA := dev_mac (net_dev A) in
  let macB := dev_mac (net_dev B) in
  let request := arp_msg ARP_OP_REQUEST macA (unicast ifA) (replicate 6 0) (unicast ifB) in
  let reply := arp_msg ARP_OP_REPLY macB (unicast ifB) macA (unicast ifA) in
  let A1 := A <|net_dev := sent (net_dev A) fA
    (eth_frame (bcast_mac (net_dev A)) macA ProtoArp (ArpMessage_bytes request))|> in
  let A2 := mkNet (net_dev A1) (arp_learn (net_ctx A) (unicast ifB) macB (net_env A)) (tick (net_env A)) in
  let t := clock (env_ticks (net_env A)) in
  let t' := clock (S (env_ticks (net_env A))) in
  t <= t' -> as_secs (t' - t) <= ARP_CACHE_TIMEOUT_SECS ->
  arp_resolve ifA (unicast ifB) A = Ret (Ok None, A1)
  /\ arp_input (ArpMessage_bytes request ++ padq) lenq B =
       Ret (Ok tt, mkNet
         (sent (net_dev B) fB (eth_frame macA macB ProtoArp (ArpMessage_bytes reply)))
         (arp_learn (net_ctx B) (unicast ifA) macA (net_env B)) (tick (net_env B)))
  /\ arp_input (ArpMessage_bytes reply ++ padr) lenr A1 = Ret (Ok tt, A2)
  /\ arp_resolve ifA (unicast ifB) A2 = Ret (Ok (Some macB), A2 <|net_env := tick (net_env A2)|>).
Proof.
  intros RA RB IA IB HA HB Hmiss macA macB request reply A1 A2 t t' Ht Hexp.
  pose proof (dev_mac_wf _ (er_wf _ _ RA)) as MA. pose proof (dev_mac_wf _ (er_wf _ _ RB)) as MB.
  split_and!.
  - unfold arp_resolve. rewrite (er_type _ _ RA). simpl. rewrite ArpTable_get_miss by done. simpl.
    rewrite (arp_request_ready _ fA) by done. by destruct A as [dA [tA rA iA] eA].
  - unfold request. rewrite (arp_input_for_us B _ _ _ _ _ _ _ ifB) by (done || apply zero_mac_wf).
    cbv zeta. rewrite Z.eqb_refl. by rewrite (arp_reply_ready _ fB).
  - unfold reply. rewrite (arp_input_for_us A1 _ _ _ _ _ _ _ ifA); try done.
    unfold A1. cbn. unfold get_interface, sent. by rewrite with_file_interfaces.
  - unfold arp_resolve. cbn [net_dev A2 A1]. unfold sent, with_file.
    assert (device_type (with_file (net_dev A) (tap_write (eth_frame (bcast_mac (net_dev A)) macA ProtoArp
      (ArpMessage_bytes request)) fA)) = Ethernet) as E.
    { unfold with_file. rewrite <-(er_type _ _ RA). by destruct (driver_data (net_dev A)). }
    unfold A2, A1. cbn [net_dev net_ctx net_env]. simpl. unfold sent. rewrite E. simpl.
    unfold ArpTable_get. simpl. rewrite lookup_insert_eq. unfold elapsed. cbn.
    fold t t'. rewrite (proj2 (Z.leb_le _ _)) by done. cbn.
    by rewrite (proj2 (Z.ltb_ge _ _)) by done.
Qed.

(** The cache.  A lookup returns the stored hardware address while at
    most four hours have passed, removes the entry and returns nothing after
    that, panics when the clock was set back, and leaves every other address
    alone. *)
Theorem arp_cache_expiry t ip entry e :
  arp_entries t !! ip = Some entry ->
  let now := clock (env_ticks e) in
  ArpTable_get t ip e =
    if now <? timestamp entry then Panic
    else if ARP_CACHE_TIMEOUT_SECS <? as_secs (now - timestamp entry)
    then Ret (None, mkArpTable (delete ip (arp_entries t)), tick e)
    else Ret (Some (hw_address entry), t, tick e).
Proof.
  intros E now. unfold ArpTable_get. rewrite E. unfold elapsed. simpl. fold now.
  destruct (now <? timestamp entry) eqn:L.
  - rewrite (proj2 (Z.leb_gt _ _)) by lia. done.
  - rewrite (proj2 (Z.leb_le _ _)) by lia. simpl. by case_match.
Qed.

(** What [update] stored is what [get] returns: the latest binding of an
    address replaces the earlier one and no other address is affected. *)
Theorem arp_update_get t ip mac e :
  let '(t', e') := ArpTable_update t ip mac e in
  arp_entries t' !! ip = Some (mkArpTableEntry Resolved ip mac (clock (env_ticks e)))
  /\ (forall ip', ip' <> ip -> arp_entries t' !! ip' = arp_entries t !! ip')
  /\ e' = tick e.
Proof.
  unfold ArpTable_update. simpl. split_and!; [by rewrite lookup_insert_eq| |done].
  intros ip' Hne. rewrite lookup_insert_ne by done. case_match; [|done].
  by rewrite lookup_delete_ne.
Qed.

(** A message of another hardware or protocol space, or with other
    address lengths, is refused and changes nothing; a message for another
    station is accepted and changes nothing. *)
Theorem arp_input_rejects msg pad len n iface :
  ArpMessage_wf msg -> get_interface (net_dev n) IP = Some iface ->
  (let h := arp_header msg in
   be_to_le_u16 (hw_addr_space h) <> ARP_HW_SPACE_ETHER \/ hw_addr_len h <> 6
   \/ be_to_le_u16 (proto_addr_space h) <> ARP_PROTO_SPACE_IP \/ proto_addr_len h <> IP_ADDR_LEN ->
   arp_input (ArpMessage_bytes msg ++ pad) len n = Ret (Err, n))
  /\ (unicast iface <> le_int (target_proto_addr msg) ->
      exists r, arp_input (ArpMessage_bytes msg ++ pad) len n = Ret (r, n)).
Proof.
  intros Hm Hif. unfold arp_input. change (ArpMessage_bytes msg) with (to_u8_slice msg).
  rewrite bytes_to_struct_app, bind_ret by done. cbv zeta. rewrite Hif. cbn [unwrap].
  change (Z.of_nat ETH_ADDR_LEN) with 6. split.
  - intros Hbad. destruct (negb _ || negb _) eqn:E1; [done|].
    destruct (negb (be_to_le_u16 (proto_addr_space _) =? _) || negb _) eqn:E2; [done|].
    exfalso. lia.
  - intros Hne. destruct (negb _ || negb _) eqn:E1; [by eexists|].
    destruct (negb (be_to_le_u16 (proto_addr_space _) =? _) || negb _) eqn:E2; [by eexists|].
    rewrite bind_ret, (proj2 (Z.eqb_neq _ _)) by done. by eexists.
Qed.
End properties.

(** ** Concrete stations, for evaluation *)

Definition demo_ctx (ip : IPAdress) : ProtocolContexts :=
  mkProtocolContexts ArpTable_new
    (IPRoutes_register IPRoutes_new (interface_route (demo_iface ip))) IPHeaderIdManager_new.

Definition demo_net (mac ip : Z) : Net :=
  mkNet (demo_device mac ip (mkTapFile [] [])) (demo_ctx ip) env_init.

Lemma arp_exchange_witness :
  let A := demo_net 1 0x010200c0 in
  let B := demo_net 2 0x020200c0 in
  let request := arp_msg ARP_OP_REQUEST (dev_mac (net_dev A)) 0x010200c0 (replicate 6 0) 0x020200c0 in
  exists B', @arp_input demo_platform (ArpMessage_bytes request ++ replicate 18 0) 46 B = Ret (Ok tt, B').
Proof.
  intros A B request. eexists.
  refine (proj1 (proj2 (@arp_exchange demo_platform A B (mkTapFile [] []) (mkTapFile [] [])
    (demo_iface 0x010200c0) (demo_iface 0x020200c0) (replicate 18 0) [] 46 28
    _ _ _ _ _ _ _ _ _))).
  - by apply demo_device_ready.
  - by apply demo_device_ready.
  - done.
  - done.
  - done.
  - done.
  - done.
  - vm_compute. discriminate.
  - vm_compute. discriminate.
Defined.

Lemma arp_cache_expiry_witness :
  let t := mkArpTable {[ 7 := mkArpTableEntry Resolved 7 [1; 2; 3; 4; 5; 6] 0 ]} in
  @ArpTable_get (platform_with_clock (fun _ => from_secs 14401)) t 7 env_init =
    Ret (None, mkArpTable (delete 7 (arp_entries t)), tick env_init).
Proof.
  intros t.
  apply (@arp_cache_expiry (platform_with_clock (fun _ => from_secs 14401)) t 7
    (mkArpTableEntry Resolved 7 [1; 2; 3; 4; 5; 6] 0) env_init).
  reflexivity.
Defined.

Lemma arp_input_rejects_witness :
  let msg := arp_msg 1 [2; 0; 0; 0; 0; 1] 1 (replicate 6 0) 0x030200c0 in
  exists r, @arp_input demo_platform (ArpMessage_bytes msg ++ []) 28 (demo_net 1 0x010200c0) = Ret (r, demo_net 1 0x010200c0).
Proof.
  intros msg. refine (proj2 (@arp_input_rejects demo_platform msg [] 28 (demo_net 1 0x010200c0) (demo_iface 0x010200c0) _ _) _).
  - apply arp_msg_wf; [done|split; [done|bytes_tac]|apply zero_mac_wf].
  - done.
  - done.
Defined.
