(* ===== verification/Ip.v ===== *)
(** * protocols/ip/mod.rs: headers and output

    The IPv4 header, its construction and validation, and [output]: route lookup,
    source check, header, next hop resolution and transmission. *)
From S2P Require Import Prelude Platform LinkedList Bytes Checksum IpTypes Devices Arp.

Record IPHeader := mkIPHeader {
  ver_len : Z;
  service_type : Z;
  total_len : Z;
  ip_id : Z;
  ip_offset : Z;
  ttl : Z;
  ip_proto : Z;
  ip_check_sum : Z;
  ip_src : IPAdress;
  ip_dst : IPAdress
}.

#[export] Instance set_ip_check_sum : Setter ip_check_sum := fun v h =>
  mkIPHeader (ver_len h) (service_type h) (total_len h) (ip_id h) (ip_offset h) (ttl h) (ip_proto h)
    v (ip_src h) (ip_dst h).

Definition IPHeader_bytes (h : IPHeader) : list Z :=
  le_bytes 1 (ver_len h) ++ le_bytes 1 (service_type h) ++ le_bytes 2 (total_len h)
  ++ le_bytes 2 (ip_id h) ++ le_bytes 2 (ip_offset h) ++ le_bytes 1 (ttl h)
  ++ le_bytes 1 (ip_proto h) ++ le_bytes 2 (ip_check_sum h) ++ le_bytes 4 (ip_src h)
  ++ le_bytes 4 (ip_dst h).

Definition IPHeader_of (b : list Z) : IPHeader :=
  mkIPHeader (int_at 0 1 b) (int_at 1 1 b) (int_at 2 2 b) (int_at 4 2 b) (int_at 6 2 b)
    (int_at 8 1 b) (int_at 9 1 b) (int_at 10 2 b) (int_at 12 4 b) (int_at 16 4 b).

Definition IPHeader_wf (h : IPHeader) : Prop :=
  in_u8 (ver_len h) /\ in_u8 (service_type h) /\ in_u16 (total_len h) /\ in_u16 (ip_id h)
  /\ in_u16 (ip_offset h) /\ in_u8 (ttl h) /\ in_u8 (ip_proto h) /\ in_u16 (ip_check_sum h)
  /\ in_u32 (ip_src h) /\ in_u32 (ip_dst h).

Section IPHeader_packed.
Lemma IPHeader_len h : IPHeader_wf h -> zlen (IPHeader_bytes h) = 20.
Proof. intros _. unfold IPHeader_bytes, zlen. by rewrite !length_app, !le_bytes_len. Qed.
Lemma IPHeader_bytes_ok h : IPHeader_wf h -> bytes_ok (IPHeader_bytes h).
Proof. intros _. repeat apply Forall_app_2; apply le_bytes_bytes. Qed.
Lemma IPHeader_of_to h : IPHeader_wf h -> IPHeader_of (IPHeader_bytes h) = h.
Proof.
  destruct h. intros (? & ? & ? & ? & ? & ? & ? & ? & ? & ?). simpl in *.
  unfold IPHeader_of, int_at, bytes_at. simpl. by rewrite !le4_id, !le2_id, !le1_id.
Qed.
Lemma IPHeader_of_wf b : zlen b = 20 -> bytes_ok b -> IPHeader_wf (IPHeader_of b).
Proof.
  intros L Hb. unfold zlen in L. explode_list b. bytes_inv.
  unfold IPHeader_of, IPHeader_wf, int_at, bytes_at. cbn [take drop].
  cbn [ver_len service_type total_len ip_id ip_offset ttl ip_proto ip_check_sum ip_src ip_dst].
  split_and!; try by apply le_int_bound_16.
  all: unfold in_u8, in_u32 in *; cbn [le_int]; lia.
Qed.
Lemma IPHeader_to_of b : zlen b = 20 -> bytes_ok b -> IPHeader_bytes (IPHeader_of b) = b.
Proof.
  intros L Hb. unfold zlen in L. explode_list b. bytes_inv.
  unfold IPHeader_of, IPHeader_bytes, int_at, bytes_at. cbn [take drop].
  cbn [ver_len service_type total_len ip_id ip_offset ttl ip_proto ip_check_sum ip_src ip_dst].
  by rewrite !le2_bytes_id, !le1_bytes_id, !le4_bytes_id.
Qed.
End IPHeader_packed.

#[export] Instance IPHeader_Packed : Packed IPHeader := {
  size_of := 20;
  to_u8_slice := IPHeader_bytes;
  struct_of := IPHeader_of;
  packed_wf := IPHeader_wf;
  size_of_nonneg := ltac:(done);
  to_u8_slice_len := IPHeader_len;
  to_u8_slice_bytes := IPHeader_bytes_ok;
  struct_of_to := IPHeader_of_to;
  struct_of_wf := IPHeader_of_wf;
  to_struct_of := IPHeader_to_of
}.

(** ** Operations *)

(** [<[u8; N]>::try_from(slice)] *)
Definition try_into_array (n : nat) (l : list Z) : result (list Z) :=
  if Nat.eqb (length l) n then Ok l else Err.

Section ip_code.
Context `{Platform} `{BuildProfile}.

Definition create_ip_header (ip_proto : IPProtocolType) (src dst : IPAdress) (data : list Z) (id : Z)
    : outcome IPHeader :=
  let hlen := size_of IPHeader in
  let len := zlen data in
  total ← add_u16 (as_u16 hlen) (as_u16 len);
  let header := mkIPHeader
    (Z.lor (as_u8 (Z.shiftl IP_VERSION_4 4)) (Z.shiftr (as_u8 hlen) 2))
    0 (le_to_be_u16 total) (le_to_be_u16 id) 0 0xff (ip_protocol_as_u8 ip_proto) 0 src dst in
  let header_bytes := to_u8_slice header in
  sum ← cksum16 header_bytes hlen 0;
  Ret (header <|ip_check_sum := le_to_be_u16 sum|>).

(** The hardware address for a datagram; [None]: wait for the ARP reply. *)
Definition ip_next_hop_addr (route : IPRoute) (dst next_hop : IPAdress) (n : Net)
    : outcome (option (list Z) * Net) :=
  let device := net_dev n in
  if 0 <? Z.land (flags device) DEVICE_FLAG_NEED_ARP then
    if (dst =? broadcast (route_interface route)) || (dst =? IP_ADDR_BROADCAST) then
      b ← slice (dev_broadcast device) 0 (Z.of_nat ETH_ADDR_LEN + 1);
      hw ← unwrap_result (try_into_array ETH_ADDR_LEN b);
      Ret (Some hw, n)
    else
      '(arp, n) ← arp_resolve (route_interface route) next_hop n;
      match arp with
      | Ok None => Ret (None, n)
      | Ok (Some hw) => Ret (Some hw, n)
      | Err => Ret (Some (replicate ETH_ADDR_LEN 0), n)
      end
  else Ret (Some (replicate ETH_ADDR_LEN 0), n).

Definition ip_output (ip_proto : IPProtocolType) (data : list Z) (src dst : IPAdress) (n : Net)
    : outcome (result unit * Net) :=
  match lookup_ip_route (ip_routes (net_ctx n)) dst with
  | None => Ret (Err, n)
  | Some route =>
      if negb (src =? IP_ADDR_ANY) && negb (src =? unicast (route_interface route))
      then Ret (Err, n)
      else
        let next_hop := if negb (next_hop route =? IP_ADDR_ANY) then next_hop route else dst in
        '(id, m) ← generate_id (ip_id_manager (net_ctx n));
        let n := n <|net_ctx := (net_ctx n) <|ip_id_manager := m|>|> in
        header ← create_ip_header ip_proto (unicast (route_interface route)) dst data id;
        let ip_data := to_u8_slice header ++ data in
        '(hw, n) ← ip_next_hop_addr route dst next_hop n;
        match hw with
        | None => Ret (Ok tt, n)
        | Some hw_addr => net_transmit n ProtoIP ip_data (zlen ip_data) hw_addr
        end
  end.

Definition check_ip_header (header : IPHeader) (data_len header_len : Z) : outcome (result unit) :=
  let ip_version := Z.shiftr (ver_len header) 4 in
  if negb (ip_version =? IP_VERSION_4) then Ret Err
  else if data_len <? header_len then Ret Err
  else if data_len <? be_to_le_u16 (total_len header) then Ret Err
  else
    let header_bytes := to_u8_slice header in
    sum ← cksum16 header_bytes header_len 0;
    if negb (sum =? 0) then Ret Err
    else
      let offset := be_to_le_u16 (ip_offset header) in
      if (0 <? Z.land offset 0x2000) || (0 <? Z.land offset 0x1fff) then Ret Err
      else Ret (Ok tt).
End ip_code.

(** ** Specification and lemmas *)

(** The header [create_ip_header] builds, without and with its checksum. *)
Definition ip_header0 (p : IPProtocolType) (src dst : IPAdress) (len id : Z) : IPHeader :=
  mkIPHeader 0x45 0 (le_to_be_u16 (20 + len)) (le_to_be_u16 id) 0 0xff (ip_protocol_as_u8 p) 0 src dst.

Definition ip_header (p : IPProtocolType) (src dst : IPAdress) (len id : Z) : IPHeader :=
  let h := ip_header0 p src dst len id in
  h <|ip_check_sum := le_to_be_u16 (65535 - ones_norm (word_sum (IPHeader_bytes h)))|>.

(** The datagram as it is handed to the device. *)
Definition ip_datagram (p : IPProtocolType) (src dst : IPAdress) (id : Z) (data : list Z) : list Z :=
  IPHeader_bytes (ip_header p src dst (zlen data) id) ++ data.

(** A header split around its checksum field. *)
Definition ip_header_pre (h : IPHeader) : list Z := take 10 (IPHeader_bytes h).
Definition ip_header_post (h : IPHeader) : list Z := drop 12 (IPHeader_bytes h).

Section ip_lemmas.
Context `{Platform} `{BuildProfile}.
Implicit Types (h : IPHeader) (n : Net) (p : IPProtocolType).

Lemma IPHeader_split h c : in_u16 c ->
  IPHeader_bytes (h <|ip_check_sum := le_to_be_u16 c|>) =
    ip_header_pre h ++ [c / 256; c mod 256] ++ ip_header_post h.
Proof.
  intros Hc. unfold ip_header_pre, ip_header_post, IPHeader_bytes.
  cbn [ver_len service_type total_len ip_id ip_offset ttl ip_proto ip_check_sum ip_src ip_dst
    set_field set_ip_check_sum]. rewrite le_to_be_u16_bytes by done. done.
Qed.

Lemma IPHeader_split0 h : ip_check_sum h = 0 ->
  IPHeader_bytes h = ip_header_pre h ++ [0; 0] ++ ip_header_post h.
Proof. intros E. unfold ip_header_pre, ip_header_post, IPHeader_bytes. by rewrite E. Qed.

Lemma ip_header_pre_ok h : bytes_ok (ip_header_pre h) /\ zlen (ip_header_pre h) = 10.
Proof.
  split; [|done]. apply Forall_take. repeat apply Forall_app_2; apply le_bytes_bytes.
Qed.
Lemma ip_header_post_ok h : bytes_ok (ip_header_post h) /\ zlen (ip_header_post h) = 8.
Proof.
  split; [|done]. apply Forall_drop. repeat apply Forall_app_2; apply le_bytes_bytes.
Qed.

Lemma ip_header0_wf p src dst len id :
  in_u32 src -> in_u32 dst -> in_u16 (20 + len) -> in_u16 id -> IPHeader_wf (ip_header0 p src dst len id).
Proof.
  intros. split_and!; try done; try (by apply le_to_be_u16_range). by destruct p.
Qed.

Lemma ip_header_checksum_range h : ip_check_sum h = 0 ->
  in_u16 (65535 - ones_norm (word_sum (IPHeader_bytes h))).
Proof.
  intros E. rewrite (IPHeader_split0 h E).
  pose proof (ip_header_pre_ok h) as [? ?]. pose proof (ip_header_post_ok h) as [? ?].
  by apply (patch_range _ _ 0).
Qed.

Lemma ip_header_wf p src dst len id :
  in_u32 src -> in_u32 dst -> in_u16 (20 + len) -> in_u16 id -> IPHeader_wf (ip_header p src dst len id).
Proof.
  intros Hs Hd Hl Hid. pose proof (ip_header0_wf p src dst len id Hs Hd Hl Hid) as
    (? & ? & ? & ? & ? & ? & ? & ? & ? & ?).
  split_and!; try done. apply le_to_be_u16_range. by apply ip_header_checksum_range.
Qed.

(** The checksum of the header built verifies. *)
Lemma ip_header_sum p src dst len id :
  ones_norm (word_sum (IPHeader_bytes (ip_header p src dst len id))) = 65535.
Proof.
  set (h := ip_header0 p src dst len id). unfold ip_header. fold h. cbv zeta.
  pose proof (ip_header_pre_ok h) as [? L1]. pose proof (ip_header_post_ok h) as [? ?].
  rewrite IPHeader_split by by apply ip_header_checksum_range.
  rewrite (IPHeader_split0 h) by done.
  by apply (patch_norm _ _ 0).
Qed.

Lemma IPHeader_bytes_any h : bytes_ok (IPHeader_bytes h) /\ zlen (IPHeader_bytes h) = 20.
Proof.
  split; [repeat apply Forall_app_2; apply le_bytes_bytes|].
  unfold IPHeader_bytes, zlen. by rewrite !length_app, !le_bytes_len.
Qed.

Lemma create_ip_header_eq p src dst data id : zlen data <= IP_PAYLOAD_MAX_SIZE ->
  create_ip_header p src dst data id = Ret (ip_header p src dst (zlen data) id).
Proof.
  intros Hl. unfold create_ip_header. pose proof (zlen_nonneg data).
  unfold IP_PAYLOAD_MAX_SIZE, IP_MAX_SIZE, IP_HEADER_MIN_SIZE, u16_max in Hl.
  change (size_of IPHeader) with 20. change (as_u16 20) with 20.
  rewrite as_u16_id by (unfold in_u16; lia). rewrite add_u16_ok, bind_ret by lia. cbv zeta.
  change (Z.lor (as_u8 (Z.shiftl IP_VERSION_4 4)) (Z.shiftr (as_u8 20) 2)) with 0x45.
  fold (ip_header0 p src dst (zlen data) id). set (h := ip_header0 _ _ _ _ _).
  change (to_u8_slice h) with (IPHeader_bytes h). destruct (IPHeader_bytes_any h) as [Hb L].
  rewrite <-L at 1. rewrite cksum16_norm_all; [done|done|by rewrite L|done].
Qed.

Lemma create_ip_header_ok p src dst data id :
  in_u32 src -> in_u32 dst -> zlen data <= IP_PAYLOAD_MAX_SIZE -> in_u16 id ->
  create_ip_header p src dst data id = Ret (ip_header p src dst (zlen data) id).
Proof. intros _ _ Hl _. by apply create_ip_header_eq. Qed.

Lemma cksum_ip_header h : IPHeader_wf h ->
  cksum16 (to_u8_slice h) 20 0 = Ret (65535 - ones_norm (word_sum (IPHeader_bytes h))).
Proof.
  intros Hh. change (to_u8_slice h) with (IPHeader_bytes h).
  rewrite <-(IPHeader_len h Hh) at 1. rewrite cksum16_norm_all; [done| | |done].
  - by apply IPHeader_bytes_ok.
  - by rewrite IPHeader_len.
Qed.


Lemma check_ip_header_own p src dst len id data_len :
  in_u32 src -> in_u32 dst -> 0 <= len <= IP_PAYLOAD_MAX_SIZE -> in_u16 id -> 20 + len <= data_len ->
  check_ip_header (ip_header p src dst len id) data_len 20 = Ret (Ok tt).
Proof.
  intros Hs Hd Hl Hid Hdl. unfold IP_PAYLOAD_MAX_SIZE, IP_MAX_SIZE, IP_HEADER_MIN_SIZE, u16_max in Hl.
  assert (in_u16 (20 + len)) as Ht by (unfold in_u16; lia).
  unfold check_ip_header. change (Z.shiftr (ver_len _) 4 =? IP_VERSION_4) with true. cbn [negb].
  rewrite (proj2 (Z.ltb_ge _ _)) by lia.
  change (total_len (ip_header p src dst len id)) with (le_to_be_u16 (20 + len)).
  rewrite be_le_u16 by done. rewrite (proj2 (Z.ltb_ge _ _)) by lia. cbv zeta.
  rewrite cksum_ip_header by by apply ip_header_wf. rewrite ip_header_sum. done.
Qed.

Lemma complement_zero s : 0 <= s -> (65535 - ones_norm s =? 0) = (ones_norm s =? 65535).
Proof. intros Hs. pose proof (ones_norm_range s Hs) as Hr. unfold in_u16 in Hr. lia. Qed.

Lemma cksum_header_prefix h hl : IPHeader_wf h -> 0 <= hl <= 20 ->
  cksum16 (to_u8_slice h) hl 0 =
    Ret (65535 - ones_norm (word_sum (take (Z.to_nat hl) (IPHeader_bytes h)))).
Proof.
  intros Hh Hl. apply cksum16_norm; [by apply IPHeader_bytes_ok| | |done].
  - change (to_u8_slice h) with (IPHeader_bytes h). by rewrite IPHeader_len.
  - unfold CKSUM_MAX_LEN. lia.
Qed.

(** The cached address of a station, not older than the timeout. *)
Definition arp_fresh n (ip : IPAdress) (mac : list Z) : Prop :=
  let now := clock (env_ticks (net_env n)) in
  exists entry, arp_entries (arp_table (net_ctx n)) !! ip = Some entry
    /\ hw_address entry = mac /\ timestamp entry <= now
    /\ as_secs (now - timestamp entry) <= ARP_CACHE_TIMEOUT_SECS.

Definition needs_arp (d : NetDevice) : bool := 0 <? Z.land (flags d) DEVICE_FLAG_NEED_ARP.

(** Where a datagram for [dst] is sent first. *)
Definition hop_of (route : IPRoute) (dst : IPAdress) : IPAdress :=
  if next_hop route =? IP_ADDR_ANY then dst else next_hop route.

Definition is_broadcast (route : IPRoute) (dst : IPAdress) : bool :=
  (dst =? broadcast (route_interface route)) || (dst =? IP_ADDR_BROADCAST).

Lemma arp_resolve_hit n iface ip mac :
  device_type (net_dev n) = Ethernet -> arp_fresh n ip mac ->
  arp_resolve iface ip n = Ret (Ok (Some mac), n <|net_env := tick (net_env n)|>).
Proof.
  intros Ht (entry & E & <- & Hts & Hexp). unfold arp_resolve. rewrite Ht. simpl.
  unfold ArpTable_get. rewrite E. unfold elapsed. simpl.
  rewrite (proj2 (Z.leb_le _ _)) by done. simpl.
  rewrite (proj2 (Z.ltb_ge _ _)) by done. simpl. by destruct n as [d [t r i] e].
Qed.

Lemma arp_resolve_miss n f iface ip :
  eth_ready (net_dev n) f -> arp_entries (arp_table (net_ctx n)) !! ip = None ->
  arp_resolve iface ip n = Ret (Ok None, n <|net_dev := sent (net_dev n) f
    (eth_frame (bcast_mac (net_dev n)) (dev_mac (net_dev n)) ProtoArp
      (ArpMessage_bytes (arp_msg ARP_OP_REQUEST (dev_mac (net_dev n)) (unicast iface)
         (replicate 6 0) ip)))|>).
Proof.
  intros R E. unfold arp_resolve. rewrite (er_type _ _ R). simpl.
  rewrite ArpTable_get_miss by done. simpl. rewrite (arp_request_ready _ f) by done.
  by destruct n as [d [t r i] e].
Qed.

(** What makes [ip_output] accept a datagram. *)
Record ip_sendable n (route : IPRoute) (src dst : IPAdress) (data : list Z) : Prop := {
  is_route : lookup_ip_route (ip_routes (net_ctx n)) dst = Some route;
  is_src : src = IP_ADDR_ANY \/ src = unicast (route_interface route);
  is_uni : in_u32 (unicast (route_interface route));
  is_dst : in_u32 dst;
  is_len : zlen data <= ETH_PAYLOAD_MAX - 20;
  is_id : 0 <= id_mtx (ip_id_manager (net_ctx n)) < 65535
}.

Definition next_id n : Z := id_mtx (ip_id_manager (net_ctx n)) + 1.
Definition take_id n : Net :=
  n <|net_ctx := (net_ctx n) <|ip_id_manager := mkIPHeaderIdManager (next_id n)|>|>.

(** The prefix of [ip_output] up to the choice of the hardware address. *)
Lemma ip_output_prefix n route p src dst data : ip_sendable n route src dst data ->
  ip_output p data src dst n =
    '(hw, n') ← ip_next_hop_addr route dst (hop_of route dst) (take_id n);
    match hw with
    | None => Ret (Ok tt, n')
    | Some hw_addr =>
        let d := ip_datagram p (unicast (route_interface route)) dst (next_id n) data in
        net_transmit n' ProtoIP d (zlen d) hw_addr
    end.
Proof.
  intros [Hr Hs Hu Hd Hl Hid]. unfold ip_output. rewrite Hr.
  replace (negb (src =? IP_ADDR_ANY) && negb (src =? unicast (route_interface route))) with false
    by (destruct Hs; subst; rewrite Z.eqb_refl; by rewrite ?andb_false_r).
  cbv zeta. unfold generate_id. rewrite add_u16_ok, !bind_ret by lia.
  rewrite create_ip_header_ok, bind_ret; [|done|done| |unfold in_u16; lia].
  2: { unfold ETH_PAYLOAD_MAX, ETH_FRAME_MAX, ETH_HDR_SIZE, IP_PAYLOAD_MAX_SIZE, IP_MAX_SIZE,
         IP_HEADER_MIN_SIZE, u16_max in *. lia. }
  unfold hop_of, take_id, next_id, ip_datagram.
  by destruct (next_hop route =? IP_ADDR_ANY).
Qed.

Lemma ip_datagram_len p src dst id data : in_u32 src -> in_u32 dst -> in_u16 id ->
  zlen data <= ETH_PAYLOAD_MAX - 20 ->
  zlen (ip_datagram p src dst id data) = 20 + zlen data.
Proof.
  intros. unfold ip_datagram. rewrite zlen_app. pose proof (zlen_nonneg data).
  unfold ETH_PAYLOAD_MAX, ETH_FRAME_MAX, ETH_HDR_SIZE in *.
  rewrite IPHeader_len; [done|]. apply ip_header_wf; unfold in_u16; try done; lia.
Qed.

(** The state after a datagram went out in a frame to [mac]. *)
Definition ip_sent n f p src dst mac (data : list Z) : Net :=
  mkNet (sent (net_dev n) f (eth_frame mac (dev_mac (net_dev n)) ProtoIP
           (ip_datagram p src dst (next_id n) data)))
    (net_ctx (take_id n)) (tick (net_env n)).

Lemma ip_output_resolved n f route p src dst data mac :
  eth_ready (net_dev n) f -> needs_arp (net_dev n) = true -> ip_sendable n route src dst data ->
  is_broadcast route dst = false -> arp_fresh n (hop_of route dst) mac -> mac_wf mac ->
  ip_output p data src dst n = Ret (Ok tt, ip_sent n f p (unicast (route_interface route)) dst mac data).
Proof.
  intros R Hna Hs Hb Hf Hm. rewrite (ip_output_prefix _ _ _ _ _ _ Hs).
  unfold ip_next_hop_addr. change (net_dev (take_id n)) with (net_dev n).
  unfold needs_arp in Hna. rewrite Hna. unfold is_broadcast in Hb. rewrite Hb.
  rewrite (arp_resolve_hit _ _ _ mac); [|by apply er_type in R|done]. rewrite !bind_ret.
  cbv zeta. rewrite (net_transmit_ready _ f); [done|done|done|].
  destruct Hs. rewrite ip_datagram_len by (unfold in_u16, next_id; try done; lia). lia.
Qed.

Lemma ip_output_unresolved n f route p src dst data :
  eth_ready (net_dev n) f -> needs_arp (net_dev n) = true -> ip_sendable n route src dst data ->
  is_broadcast route dst = false ->
  arp_entries (arp_table (net_ctx n)) !! hop_of route dst = None ->
  ip_output p data src dst n = Ret (Ok tt, (take_id n) <|net_dev := sent (net_dev n) f
    (eth_frame (bcast_mac (net_dev n)) (dev_mac (net_dev n)) ProtoArp
      (ArpMessage_bytes (arp_msg ARP_OP_REQUEST (dev_mac (net_dev n))
         (unicast (route_interface route)) (replicate 6 0) (hop_of route dst))))|>).
Proof.
  intros R Hna Hs Hb Hmiss. rewrite (ip_output_prefix _ _ _ _ _ _ Hs).
  unfold ip_next_hop_addr. change (net_dev (take_id n)) with (net_dev n).
  unfold needs_arp in Hna. rewrite Hna. unfold is_broadcast in Hb. rewrite Hb.
  by rewrite (arp_resolve_miss _ f).
Qed.
End ip_lemmas.

(** *** Output and validation neither read out of bounds nor loop. *)
Section ip_defined.
Context `{Platform} `{BuildProfile}.

Lemma create_ip_header_defined p src dst data id : defined (create_ip_header p src dst data id).
Proof. unfold create_ip_header, add_u16. cbv zeta. def_tac. Qed.

Lemma ip_next_hop_addr_defined route dst hop n : defined (ip_next_hop_addr route dst hop n).
Proof. unfold ip_next_hop_addr. cbv zeta. def_tac. Qed.

Lemma generate_id_defined m : defined (generate_id m).
Proof. unfold generate_id, add_u16. def_tac. Qed.

Lemma ip_output_defined p data src dst n : defined (ip_output p data src dst n).
Proof.
  pose proof create_ip_header_defined. pose proof ip_next_hop_addr_defined.
  pose proof generate_id_defined. unfold ip_output. cbv zeta. def_tac.
Qed.

Lemma check_ip_header_defined h dl hl : defined (check_ip_header h dl hl).
Proof. unfold check_ip_header. cbv zeta. def_tac. Qed.
End ip_defined.
#[export] Hint Resolve ip_output_defined check_ip_header_defined : rust.

(** ** Properties *)

Section properties.
Context `{Platform} `{BuildProfile}.

(** C30: header round trip.  For every payload that fits a datagram,
    [create_ip_header] returns a header that carries the addresses, protocol
    and identifier given, and that [check_ip_header] accepts on reception with
    any at least as large amount of received data. *)
Theorem ip_header_roundtrip p src dst data id data_len :
  in_u32 src -> in_u32 dst -> zlen data <= IP_PAYLOAD_MAX_SIZE -> in_u16 id ->
  20 + zlen data <= data_len ->
  returns (create_ip_header p src dst data id) (fun h =>
    ip_src h = src /\ ip_dst h = dst /\ ip_proto h = ip_protocol_as_u8 p
    /\ be_to_le_u16 (ip_id h) = id /\ be_to_le_u16 (total_len h) = 20 + zlen data
    /\ Z.shiftl (Z.land (ver_len h) 0x0f) 2 = 20
    /\ check_ip_header h data_len 20 = Ret (Ok tt)).
Proof.
  intros Hs Hd Hl Hid Hdl. rewrite create_ip_header_ok by done. pose proof (zlen_nonneg data).
  unfold IP_PAYLOAD_MAX_SIZE, IP_MAX_SIZE, IP_HEADER_MIN_SIZE, u16_max in Hl.
  assert (in_u16 (20 + zlen data)) as Ht by (unfold in_u16; lia).
  simpl. split_and!; try done; try by apply be_le_u16.
  by apply check_ip_header_own.
Qed.

(** C39: which received headers are accepted.  With [header_len] from the
    header itself, the checks accept exactly an unfragmented IPv4 header of 20
    bytes or less whose lengths fit the data and whose checksum verifies; a
    header with options (length over 20), otherwise plausible, makes the
    checksum index past the 20 bytes of the struct and panics. *)
Theorem check_ip_header_spec h data_len header_len :
  IPHeader_wf h -> 0 <= header_len ->
  let plausible := Z.shiftr (ver_len h) 4 = 4 /\ header_len <= data_len
                   /\ be_to_le_u16 (total_len h) <= data_len in
  (check_ip_header h data_len header_len = Ret (Ok tt) <->
     plausible /\ header_len <= 20
     /\ ones_norm (word_sum (take (Z.to_nat header_len) (IPHeader_bytes h))) = 65535
     /\ Z.land (be_to_le_u16 (ip_offset h)) 0x2000 = 0
     /\ Z.land (be_to_le_u16 (ip_offset h)) 0x1fff = 0)
  /\ (check_ip_header h data_len header_len = Panic <-> plausible /\ 20 < header_len).
Proof.
  intros Hh Hhl plausible. unfold plausible, check_ip_header, IP_VERSION_4. clear plausible.
  destruct (Z.shiftr (ver_len h) 4 =? 4) eqn:V; [|split; split; intros; naive_solver lia].
  destruct (data_len <? header_len) eqn:L; [split; split; intros; naive_solver lia|].
  destruct (data_len <? be_to_le_u16 (total_len h)) eqn:T; [split; split; intros; naive_solver lia|].
  apply Z.eqb_eq in V. apply Z.ltb_ge in L, T. cbn [negb]. cbv zeta.
  destruct (decide (20 < header_len)) as [Hbig|Hsmall].
  - rewrite cksum16_short_panics.
    + split; split; intros; naive_solver lia.
    + change (to_u8_slice h) with (IPHeader_bytes h). by rewrite IPHeader_len.
  - rewrite cksum_header_prefix, bind_ret by (done || lia).
    assert (bytes_ok (take (Z.to_nat header_len) (IPHeader_bytes h))) as Hb.
    { apply Forall_take. by apply IPHeader_bytes_ok. }
    pose proof (word_sum_range _ Hb) as Hr. rewrite complement_zero by lia.
    assert (forall x, 0 <= x -> (0 <? Z.land (be_to_le_u16 (ip_offset h)) x) =
      negb (Z.land (be_to_le_u16 (ip_offset h)) x =? 0)) as P.
    { intros x Hx. assert (0 <= Z.land (be_to_le_u16 (ip_offset h)) x) by (apply Z.land_nonneg; lia). lia. }
    rewrite !P by lia.
    remember (Z.land (be_to_le_u16 (ip_offset h)) 0x2000) as o1 eqn:Eo1.
    remember (Z.land (be_to_le_u16 (ip_offset h)) 0x1fff) as o2 eqn:Eo2.
    clear P Eo1 Eo2.
    destruct (ones_norm _ =? 65535) eqn:S; [|split; split; intros; naive_solver lia].
    destruct (o1 =? 0) eqn:O1; [|split; split; intros; naive_solver lia].
    destruct (o2 =? 0) eqn:O2; split; split; intros; naive_solver lia.
Qed.

(** C29: sending to a station whose hardware address is cached: exactly one
    frame leaves, addressed to the next hop of the route chosen, carrying the
    20-byte header and the data unchanged; the identifier advances by one. *)
Theorem ip_output_sends n f route p src dst data mac :
  eth_ready (net_dev n) f -> needs_arp (net_dev n) = true -> ip_sendable n route src dst data ->
  is_broadcast route dst = false -> arp_fresh n (hop_of route dst) mac -> mac_wf mac ->
  returns (ip_output p data src dst n) (fun '(r, n') =>
    r = Ok tt
    /\ (exists i h, driver_data (net_dev n') = Some (mkDriverData (tap_write
          (eth_frame mac (dev_mac (net_dev n)) ProtoIP (to_u8_slice h ++ data)) f) i)
        /\ create_ip_header p (unicast (route_interface route)) dst data (next_id n) = Ret h)
    /\ id_mtx (ip_id_manager (net_ctx n')) = next_id n
    /\ arp_table (net_ctx n') = arp_table (net_ctx n)
    /\ ip_routes (net_ctx n') = ip_routes (net_ctx n)).
Proof.
  intros R Hna Hs Hb Hf Hm. rewrite (ip_output_resolved _ f route _ _ _ _ mac) by done.
  simpl. split_and!; try done. destruct (er_file _ _ R) as [i Hi].
  unfold sent, with_file. rewrite Hi. eexists _, _. split; [reflexivity|].
  destruct Hs. apply create_ip_header_ok; try done.
  - unfold ETH_PAYLOAD_MAX, ETH_FRAME_MAX, ETH_HDR_SIZE, IP_PAYLOAD_MAX_SIZE, IP_MAX_SIZE,
      IP_HEADER_MIN_SIZE, u16_max in *. lia.
  - unfold in_u16, next_id. lia.
Qed.

(** Sending to a station that is not in the cache broadcasts one ARP
    request for the next hop and reports success; the datagram itself is not
    sent and not kept. *)
Theorem ip_output_waits_for_arp n f route p src dst data :
  eth_ready (net_dev n) f -> needs_arp (net_dev n) = true -> ip_sendable n route src dst data ->
  is_broadcast route dst = false ->
  arp_entries (arp_table (net_ctx n)) !! hop_of route dst = None ->
  returns (ip_output p data src dst n) (fun '(r, n') =>
    r = Ok tt
    /\ (exists i, driver_data (net_dev n') = Some (mkDriverData (tap_write
          (eth_frame (bcast_mac (net_dev n)) (dev_mac (net_dev n)) ProtoArp
            (to_u8_slice (arp_msg ARP_OP_REQUEST (dev_mac (net_dev n))
              (unicast (route_interface route)) (replicate 6 0) (hop_of route dst)))) f) i))
    /\ arp_table (net_ctx n') = arp_table (net_ctx n)).
Proof.
  intros R Hna Hs Hb Hmiss. rewrite (ip_output_unresolved _ f route) by done.
  simpl. split_and!; try done. destruct (er_file _ _ R) as [i Hi].
  unfold sent, with_file. rewrite Hi. by eexists.
Qed.

(** Sending to a broadcast address through an ARP device always panics:
    seven bytes of the broadcast hardware address are converted to an array of
    six. *)
Theorem ip_output_broadcast_panics n f route p src dst data :
  eth_ready (net_dev n) f -> needs_arp (net_dev n) = true -> ip_sendable n route src dst data ->
  is_broadcast route dst = true -> ip_output p data src dst n = Panic.
Proof.
  intros R Hna Hs Hb. rewrite (ip_output_prefix _ _ _ _ _ _ Hs).
  unfold ip_next_hop_addr. change (net_dev (take_id n)) with (net_dev n).
  unfold needs_arp in Hna. rewrite Hna. unfold is_broadcast in Hb. rewrite Hb.
  destruct (er_wf _ _ R) as (_ & [L _] & _).
  unfold slice. change (Z.of_nat ETH_ADDR_LEN + 1) with 7.
  rewrite (proj2 (Z.leb_le 7 _)) by (unfold zlen; rewrite L; done). simpl.
  unfold try_into_array. rewrite length_take, length_drop, L. done.
Qed.
End properties.

(** ** Concrete datagrams, for evaluation *)

Definition demo_route : IPRoute := interface_route (demo_iface 0x010200c0).

(** The station 192.0.2.1 that knows the hardware address of 192.0.2.2. *)
Definition demo_net_arp : Net :=
  mkNet (demo_device 1 0x010200c0 (mkTapFile [] []))
    ((demo_ctx 0x010200c0) <|arp_table := mkArpTable
       {[ 0x020200c0 := mkArpTableEntry Resolved 0x020200c0 [2; 0; 0; 0; 0; 2] 0 ]}|>) env_init.

Lemma demo_sendable data : zlen data <= 1480 ->
  ip_sendable demo_net_arp demo_route 0x010200c0 0x020200c0 data.
Proof. intros. by split; [reflexivity|right| | | |]. Qed.

Lemma demo_sendable0 ip data : zlen data <= 1480 -> in_u32 ip ->
  lookup_ip_route (ip_routes (demo_ctx 0x010200c0)) ip = Some demo_route ->
  ip_sendable (demo_net 1 0x010200c0) demo_route 0x010200c0 ip data.
Proof. intros. by split; [|right| | | |]. Qed.

Lemma demo_arp_fresh : @arp_fresh demo_platform demo_net_arp 0x020200c0 [2; 0; 0; 0; 0; 2].
Proof. eexists. split_and!; [reflexivity|done|done|done]. Qed.

Lemma demo_mac_wf : mac_wf [2; 0; 0; 0; 0; 2].
Proof. split; [done|bytes_tac]. Qed.

Lemma ip_header_roundtrip_witness :
  returns (@create_ip_header debug_build Udp 0x010200c0 0x020200c0 [1; 2; 3] 129) (fun h =>
    ip_src h = 0x010200c0 /\ ip_dst h = 0x020200c0 /\ ip_proto h = ip_protocol_as_u8 Udp
    /\ be_to_le_u16 (ip_id h) = 129 /\ be_to_le_u16 (total_len h) = 23
    /\ Z.shiftl (Z.land (ver_len h) 0x0f) 2 = 20
    /\ @check_ip_header debug_build h 46 20 = Ret (Ok tt)).
Proof. by apply (@ip_header_roundtrip debug_build Udp 0x010200c0 0x020200c0 [1; 2; 3] 129 46). Defined.

Lemma check_ip_header_spec_witness :
  @check_ip_header debug_build (ip_header0 Udp 0x010200c0 0x020200c0 4 129 ) 24 24 = Panic.
Proof.
  apply (@check_ip_header_spec debug_build (ip_header0 Udp 0x010200c0 0x020200c0 4 129) 24 24);
    [by apply ip_header0_wf | done | by vm_compute].
Defined.

Lemma ip_output_sends_witness :
  returns (@ip_output demo_platform debug_build Udp [1; 2; 3] 0x010200c0 0x020200c0 demo_net_arp)
    (fun '(r, _) => r = Ok tt).
Proof.
  eapply returns_mono.
  - apply (@ip_output_sends demo_platform debug_build demo_net_arp (mkTapFile [] []) demo_route
      Udp 0x010200c0 0x020200c0 [1; 2; 3] [2; 0; 0; 0; 0; 2]);
      [by apply demo_device_ready | done | by apply demo_sendable | done
      | apply demo_arp_fresh | apply demo_mac_wf].
  - intros [r n'] [E _]. exact E.
Defined.

Lemma ip_output_waits_for_arp_witness :
  returns (@ip_output demo_platform debug_build Udp [1; 2; 3] 0x010200c0 0x020200c0
    (demo_net 1 0x010200c0)) (fun '(r, _) => r = Ok tt).
Proof.
  eapply returns_mono.
  - apply (@ip_output_waits_for_arp demo_platform debug_build (demo_net 1 0x010200c0) (mkTapFile [] [])
      demo_route Udp 0x010200c0 0x020200c0 [1; 2; 3]);
      [by apply demo_device_ready | done | by apply demo_sendable0 | done | done].
  - intros [r n'] [E _]. exact E.
Defined.

Lemma ip_output_broadcast_panics_witness :
  @ip_output demo_platform debug_build Udp [1; 2; 3] 0x010200c0 0xff0200c0 (demo_net 1 0x010200c0) = Panic.
Proof.
  apply (@ip_output_broadcast_panics demo_platform debug_build (demo_net 1 0x010200c0) (mkTapFile [] [])
    demo_route Udp 0x010200c0 0xff0200c0 [1; 2; 3]);
    [by apply demo_device_ready | done | by apply demo_sendable0 | done].
Defined.

(** The unit test of protocols/ip/mod.rs. *)
Example test_ip_header : exists src dst,
  ip_addr_to_bytes "192.0.0.1" = Ret (Some src) /\ ip_addr_to_bytes "54.0.2.121" = Ret (Some dst)
  /\ @cksum16 debug_build (IPHeader_bytes (ip_header0 Icmp src dst 4 129)) 20 0 = Ret 0xc2e9.
Proof. by do 2 eexists. Qed.
