(* ===== verification/IpService.v ===== *)
(** * What IP promises to the transports

    The interface [IpService]: as long as the network is up for a pair of
    addresses, IP takes every segment of the size a frame holds and stays up.
    The TCP theorems about several segments use the interface; the Ethernet path
    with a resolved neighbour implements it. *)
From S2P Require Import Prelude Platform LinkedList Bytes Checksum IpTypes Devices Arp Ip.

(** IP takes a segment for the network. *)
Definition ip_accepts `{Platform} `{BuildProfile} (p : IPProtocolType) (n : Net) (seg : list Z)
    (src dst : IPAdress) (n' : Net) : Prop :=
  ip_output p seg src dst n = Ret (Ok tt, n').

Definition IP_SEG_MAX : Z := ETH_PAYLOAD_MAX - 20.

(** [ip_up k n]: [k] more segments can be sent. *)
Class IpService `{Platform} `{BuildProfile} (p : IPProtocolType) (src dst : IPAdress) := {
  ip_up : nat -> Net -> Prop;
  ip_up_send k n seg : ip_up (S k) n -> zlen seg <= IP_SEG_MAX ->
    exists n', ip_accepts p n seg src dst n' /\ ip_up k n';
  ip_up_env k n e : ip_up k n -> ip_up k (n <|net_env := e|>)
}.

Section ethernet_service.
Context `{Platform} `{BuildProfile}.
Context (p : IPProtocolType) (src dst : IPAdress) (route : IPRoute) (mac : list Z).

(** An open Ethernet device, a route, a cached neighbour that does not expire and
    identifiers for [k] datagrams. *)
Record eth_up (k : nat) (n : Net) : Prop := {
  eu_ready : exists f, eth_ready (net_dev n) f;
  eu_arp : needs_arp (net_dev n) = true;
  eu_route : lookup_ip_route (ip_routes (net_ctx n)) dst = Some route;
  eu_src : src = IP_ADDR_ANY \/ src = unicast (route_interface route);
  eu_uni : in_u32 (unicast (route_interface route));
  eu_dst : in_u32 dst;
  eu_broadcast : is_broadcast route dst = false;
  eu_id : 0 <= id_mtx (ip_id_manager (net_ctx n)) /\ id_mtx (ip_id_manager (net_ctx n)) + Z.of_nat k <= 65535;
  eu_mac : mac_wf mac;
  eu_cache : exists entry, arp_entries (arp_table (net_ctx n)) !! hop_of route dst = Some entry
    /\ hw_address entry = mac
    /\ forall t, timestamp entry <= clock t /\ as_secs (clock t - timestamp entry) <= ARP_CACHE_TIMEOUT_SECS
}.

(** The segment leaves in one frame to the neighbour. *)
Lemma eth_up_send_sent k n f seg : eth_up (S k) n -> eth_ready (net_dev n) f -> zlen seg <= IP_SEG_MAX ->
  let n' := ip_sent n f p (unicast (route_interface route)) dst mac seg in
  ip_accepts p n seg src dst n' /\ eth_up k n' /\ env_chans (net_env n') = env_chans (net_env n).
Proof.
  intros [_ Ha Hrt Hs Hu Hd Hb Hid Hm (entry & He & Hhw & Ht)] Hr Hl. split.
  - apply (ip_output_resolved n f route p src dst seg mac); try done.
    + split; try done. lia.
    + exists entry. destruct (Ht (env_ticks (net_env n))). by split_and!.
  - split; [|done]. split; cbn; try done.
    + eexists. by apply sent_ready.
    + unfold needs_arp, sent. by rewrite with_file_flags.
    + unfold next_id. lia.
    + by exists entry.
Qed.

Lemma eth_up_send k n seg : eth_up (S k) n -> zlen seg <= IP_SEG_MAX ->
  exists n', ip_accepts p n seg src dst n' /\ eth_up k n'.
Proof.
  intros Hu Hl. destruct (eu_ready _ _ Hu) as [f Hr]. destruct (eth_up_send_sent k n f seg Hu Hr Hl) as (? & ? & _). by eexists.
Qed.

(** Frames arriving at the device change nothing. *)
Lemma eth_up_file k d ctx e e' f f' : eth_ready d f -> eth_up k (mkNet d ctx e) ->
  eth_up k (mkNet (with_file d f') ctx e').
Proof.
  intros Hr []. split; try done.
  - exists f'. by apply (with_file_ready d f).
  - unfold needs_arp. cbn [net_dev]. by rewrite with_file_flags.
Qed.

Lemma eth_up_env k n e : eth_up k n -> eth_up k (n <|net_env := e|>).
Proof. intros []. by split. Qed.

Definition eth_service : IpService p src dst :=
  {| ip_up := eth_up; ip_up_send := eth_up_send; ip_up_env := eth_up_env |}.
End ethernet_service.
