(* ===== verification/Transport.v ===== *)
(** * What ICMP, UDP and TCP share

    Storing a checksum into a message, and the pseudo header that UDP and TCP sum
    with it (both files of protocols/ip/ declare the same struct; it is not
    packed, but its fields are aligned as declared and no theorem depends on
    their order, see [Checksum.cksum16_permutation]). *)
From S2P Require Import Prelude Platform LinkedList Bytes Checksum IpTypes Devices Arp Ip.

(** Storing a checksum in network order at an offset, as ICMP, UDP and TCP do. *)
Definition put_check_sum (data : list Z) (off sum : Z) : outcome (list Z) :=
  data ← set_index data off (as_u8 (Z.shiftr (Z.land sum 0xff00) 8));
  set_index data (off + 1) (as_u8 (Z.land sum 0xff)).

Record PseudoHeader := mkPseudoHeader {
  ph_src : IPAdress;
  ph_dst : IPAdress;
  zero : Z;
  ph_protocol : Z;
  ph_len : Z
}.

Definition PseudoHeader_bytes (h : PseudoHeader) : list Z :=
  le_bytes 4 (ph_src h) ++ le_bytes 4 (ph_dst h) ++ le_bytes 1 (zero h) ++ le_bytes 1 (ph_protocol h)
  ++ le_bytes 2 (ph_len h).

(** The pseudo header of a message of [len] bytes. *)
Definition pseudo_header (p : IPProtocolType) (src dst : IPAdress) (len_be : Z) : PseudoHeader :=
  mkPseudoHeader src dst 0 (ip_protocol_as_u8 p) len_be.

(** ** Specification: messages with a checksum *)

(** The initial value of the sum over the message: the sum of the pseudo header. *)
Definition pseudo_init (h : PseudoHeader) : Z := ones_norm (word_sum (PseudoHeader_bytes h)).

(** A message [pre ++ checksum ++ post] whose sum, from [init], is all ones. *)
Definition check_sum_of (pre post : list Z) (init : Z) : Z :=
  65535 - ones_norm (init + word_sum (pre ++ [0; 0] ++ post)).

Definition checksummed (pre post : list Z) (init : Z) : list Z :=
  let c := check_sum_of pre post init in pre ++ [c / 256; c mod 256] ++ post.

Lemma put_check_sum_ok pre a b post sum :
  in_u16 sum ->
  put_check_sum (pre ++ [a; b] ++ post) (zlen pre) sum =
    Ret (pre ++ [sum / 256; sum mod 256] ++ post).
Proof.
  intros Hs. unfold put_check_sum. cbn [app]. rewrite set_index_app, bind_ret.
  set (hi := as_u8 (Z.shiftr _ 8)).
  replace (zlen pre + 1) with (zlen (pre ++ [hi])) by (zlen_simpl; lia).
  change (pre ++ hi :: b :: post) with (pre ++ [hi] ++ b :: post). rewrite app_assoc, set_index_app.
  rewrite <-app_assoc. cbn [app]. unfold hi, in_u16 in *. do 2 f_equal.
  f_equal; [|f_equal].
  - change 0xff00 with (Z.lxor (Z.ones 16) (Z.ones 8)).
    rewrite Z.shiftr_land. change (Z.shiftr (Z.lxor (Z.ones 16) (Z.ones 8)) 8) with (Z.ones 8).
    rewrite Z.land_ones, Z.shiftr_div_pow2 by lia. unfold as_u8. change (2 ^ 8) with 256.
    Z.to_euclidean_division_equations; lia.
  - change 0xff with (Z.ones 8). rewrite Z.land_ones by lia. unfold as_u8. change (2 ^ 8) with 256.
    Z.to_euclidean_division_equations; lia.
Qed.

Lemma PseudoHeader_bytes_ok h : bytes_ok (PseudoHeader_bytes h).
Proof. repeat apply Forall_app_2; apply le_bytes_bytes. Qed.

Lemma PseudoHeader_len h : zlen (PseudoHeader_bytes h) = 12.
Proof. done. Qed.

Lemma pseudo_init_range h : in_u16 (pseudo_init h).
Proof. apply ones_norm_range. pose proof (word_sum_range _ (PseudoHeader_bytes_ok h)). lia. Qed.

Section transport_lemmas.
Context `{BuildProfile}.

Lemma pseudo_cksum h :
  cksum16 (PseudoHeader_bytes h) (zlen (PseudoHeader_bytes h)) 0 = Ret (not_u16 (pseudo_init h)).
Proof. by rewrite cksum16_norm_all by (done || apply PseudoHeader_bytes_ok). Qed.

Lemma not_u16_involutive v : not_u16 (not_u16 v) = v.
Proof. unfold not_u16. lia. Qed.

Section message.
Context (pre post : list Z) (init : Z).
Context (Hpre : bytes_ok pre) (Hpost : bytes_ok post) (He : Z.even (zlen pre) = true).
Context (Hi : in_u16 init) (Hl : zlen pre + 2 + zlen post <= CKSUM_MAX_LEN).

Lemma check_sum_of_range : in_u16 (check_sum_of pre post init).
Proof. by apply patch_range. Qed.

Lemma checksummed_len : zlen (checksummed pre post init) = zlen pre + 2 + zlen post.
Proof. unfold checksummed. zlen_simpl. lia. Qed.

Lemma checksummed_bytes_ok : bytes_ok (checksummed pre post init).
Proof.
  destruct (patch_bytes pre post init) as [? ?]; try done. by apply patched_bytes_ok.
Qed.

(** The sender computes the checksum over the zeroed field.. *)
Lemma cksum16_zeroed :
  cksum16 (pre ++ [0; 0] ++ post) (zlen pre + 2 + zlen post) init =
    Ret (check_sum_of pre post init).
Proof.
  replace (zlen pre + 2 + zlen post) with (zlen (pre ++ [0; 0] ++ post)) in * by (zlen_simpl; lia).
  apply cksum16_norm_all; try done. by apply patched_bytes_ok.
Qed.

Lemma put_check_sum_checksummed :
  put_check_sum (pre ++ [0; 0] ++ post) (zlen pre) (check_sum_of pre post init) =
    Ret (checksummed pre post init).
Proof. apply put_check_sum_ok. apply check_sum_of_range. Qed.

(** ..and the receiver finds zero. *)
Lemma cksum16_checksummed :
  cksum16 (checksummed pre post init) (zlen pre + 2 + zlen post) init = Ret 0.
Proof.
  rewrite <-checksummed_len. rewrite cksum16_norm_all.
  - unfold checksummed, check_sum_of. by rewrite patch_norm.
  - apply checksummed_bytes_ok.
  - by rewrite checksummed_len.
  - done.
Qed.
End message.
End transport_lemmas.

Lemma put_check_sum_defined data off sum : defined (put_check_sum data off sum).
Proof. unfold put_check_sum. def_tac. Qed.
#[export] Hint Resolve put_check_sum_defined : rust.
