(* ===== verification/Icmp.v ===== *)
(** * protocols/ip/icmp.rs

    The ICMP header, the input handler, which answers echo requests, and the
    output routine with its checksum. *)
From S2P Require Import Prelude Platform LinkedList Bytes Checksum IpTypes Devices Arp Ip Transport.

Definition ICMP_TYPE_ECHOREPLY : Z := 0.
Definition ICMP_TYPE_ECHO : Z := 8.

Record ICMPHeader := mkICMPHeader {
  icmp_type : Z;
  code : Z;
  icmp_check_sum : Z;
  values : Z
}.

Definition ICMPHeader_bytes (h : ICMPHeader) : list Z :=
  le_bytes 1 (icmp_type h) ++ le_bytes 1 (code h) ++ le_bytes 2 (icmp_check_sum h)
  ++ le_bytes 4 (values h).

Definition ICMPHeader_of (b : list Z) : ICMPHeader :=
  mkICMPHeader (int_at 0 1 b) (int_at 1 1 b) (int_at 2 2 b) (int_at 4 4 b).

Definition ICMPHeader_wf (h : ICMPHeader) : Prop :=
  in_u8 (icmp_type h) /\ in_u8 (code h) /\ in_u16 (icmp_check_sum h) /\ in_u32 (values h).

Section ICMPHeader_packed.
Lemma ICMPHeader_len h : ICMPHeader_wf h -> zlen (ICMPHeader_bytes h) = 8.
Proof. intros _. unfold ICMPHeader_bytes, zlen. by rewrite !length_app, !le_bytes_len. Qed.
Lemma ICMPHeader_bytes_ok h : ICMPHeader_wf h -> bytes_ok (ICMPHeader_bytes h).
Proof. intros _. repeat apply Forall_app_2; apply le_bytes_bytes. Qed.
Lemma ICMPHeader_of_to h : ICMPHeader_wf h -> ICMPHeader_of (ICMPHeader_bytes h) = h.
Proof.
  destruct h. intros (? & ? & ? & ?). simpl in *.
  unfold ICMPHeader_of, int_at, bytes_at. simpl. by rewrite !le4_id, !le2_id, !le1_id.
Qed.
Lemma ICMPHeader_of_wf b : zlen b = 8 -> bytes_ok b -> ICMPHeader_wf (ICMPHeader_of b).
Proof.
  intros L Hb. unfold zlen in L. explode_list b. bytes_inv.
  unfold ICMPHeader_of, ICMPHeader_wf, int_at, bytes_at. cbn [take drop].
  cbn [icmp_type code icmp_check_sum values].
  split_and!; try by apply le_int_bound_16.
  all: unfold in_u8, in_u32 in *; cbn [le_int]; lia.
Qed.
Lemma ICMPHeader_to_of b : zlen b = 8 -> bytes_ok b -> ICMPHeader_bytes (ICMPHeader_of b) = b.
Proof.
  intros L Hb. unfold zlen in L. explode_list b. bytes_inv.
  unfold ICMPHeader_of, ICMPHeader_bytes, int_at, bytes_at. cbn [take drop].
  cbn [icmp_type code icmp_check_sum values].
  by rewrite !le2_bytes_id, !le1_bytes_id, !le4_bytes_id.
Qed.
End ICMPHeader_packed.

#[export] Instance ICMPHeader_Packed : Packed ICMPHeader := {
  size_of := 8;
  to_u8_slice := ICMPHeader_bytes;
  struct_of := ICMPHeader_of;
  packed_wf := ICMPHeader_wf;
  size_of_nonneg := ltac:(done);
  to_u8_slice_len := ICMPHeader_len;
  to_u8_slice_bytes := ICMPHeader_bytes_ok;
  struct_of_to := ICMPHeader_of_to;
  struct_of_wf := ICMPHeader_of_wf;
  to_struct_of := ICMPHeader_to_of
}.

(** ** Operations *)

Section icmp_code.
Context `{Platform} `{BuildProfile}.

Definition icmp_output (icmp_type code values : Z) (icmp_data : list Z) (len : Z)
    (src dst : IPAdress) (n : Net) : outcome Net :=
  let hlen := size_of ICMPHeader in
  let hdr := mkICMPHeader icmp_type code 0 values in
  let data := to_u8_slice hdr ++ icmp_data in
  total ← add_usize hlen len;
  check_sum ← cksum16 data total 0;
  data ← put_check_sum data 2 check_sum;
  '(r, n) ← ip_output Icmp data src dst n;
  _ ← unwrap_result r;
  Ret n.

Definition icmp_input (data : list Z) (len : Z) (src dst : IPAdress) (iface : IPInterface) (n : Net)
    : outcome (result unit * Net) :=
  let icmp_hdr_size := size_of ICMPHeader in
  hdr ← bytes_to_struct ICMPHeader data;
  sum ← cksum16 data len 0;
  if negb (sum =? 0) then Ret (Err, n)
  else if icmp_type hdr =? ICMP_TYPE_ECHO then
    icmp_data ← slice_from data icmp_hdr_size;
    let dst := if negb (dst =? unicast iface) then unicast iface else dst in
    data_len ← sub_usize len icmp_hdr_size;
    n ← icmp_output ICMP_TYPE_ECHOREPLY (code hdr) (values hdr) icmp_data data_len dst src n;
    Ret (Ok tt, n)
  else Ret (Ok tt, n).
End icmp_code.

(** ** Specification: an ICMP message with its checksum in place *)

Definition icmp_post (values : Z) (payload : list Z) : list Z := le_bytes 4 values ++ payload.

Definition icmp_sum (ty code values : Z) (payload : list Z) : Z :=
  65535 - ones_norm (0 + word_sum ([ty; code] ++ [0; 0] ++ icmp_post values payload)).

Definition icmp_message (ty code values : Z) (payload : list Z) : list Z :=
  let c := icmp_sum ty code values payload in
  [ty; code] ++ [c / 256; c mod 256] ++ icmp_post values payload.

Section icmp_lemmas.
Context `{Platform} `{BuildProfile}.
Implicit Types (n : Net) (payload : list Z).

Lemma icmp_post_ok v payload : bytes_ok payload ->
  bytes_ok (icmp_post v payload) /\ zlen (icmp_post v payload) = 4 + zlen payload.
Proof.
  intros. split.
  - apply Forall_app_2; [apply le_bytes_bytes|done].
  - unfold icmp_post. rewrite zlen_app. done.
Qed.

Lemma icmp_sum_range ty c v payload : in_u8 ty -> in_u8 c -> bytes_ok payload ->
  in_u16 (icmp_sum ty c v payload).
Proof.
  intros. destruct (icmp_post_ok v payload) as [? _]; [done|].
  apply patch_range; [bytes_tac|done|done].
Qed.

Lemma icmp_message_eq ty c v payload : in_u8 ty -> in_u8 c -> bytes_ok payload ->
  icmp_message ty c v payload =
    to_u8_slice (mkICMPHeader ty c (le_to_be_u16 (icmp_sum ty c v payload)) v) ++ payload.
Proof.
  intros. cbn [to_u8_slice ICMPHeader_Packed]. unfold icmp_message, ICMPHeader_bytes, icmp_post. cbn [icmp_type code icmp_check_sum values].
  rewrite le_to_be_u16_bytes by by apply icmp_sum_range.
  rewrite <-!app_assoc. cbn [le_bytes]. by rewrite (Z.mod_small ty), (Z.mod_small c) by done.
Qed.

Lemma icmp_message_len ty c v payload : zlen (icmp_message ty c v payload) = 8 + zlen payload.
Proof. unfold icmp_message, icmp_post. zlen_simpl. change (zlen (le_bytes 4 v)) with 4. lia. Qed.

Lemma icmp_message_ok ty c v payload : in_u8 ty -> in_u8 c -> bytes_ok payload ->
  bytes_ok (icmp_message ty c v payload).
Proof.
  intros. destruct (icmp_post_ok v payload) as [? _]; [done|].
  destruct (patch_bytes [ty; c] (icmp_post v payload) 0) as [? ?]; try done; [bytes_tac|].
  apply patched_bytes_ok; [bytes_tac|done|done|done].
Qed.

(** The checksum of a complete message is zero. *)
Lemma icmp_message_sum ty c v payload : in_u8 ty -> in_u8 c -> bytes_ok payload ->
  8 + zlen payload <= CKSUM_MAX_LEN ->
  cksum16 (icmp_message ty c v payload) (8 + zlen payload) 0 = Ret 0.
Proof.
  intros. destruct (icmp_post_ok v payload) as [? _]; [done|].
  rewrite <-(icmp_message_len ty c v). rewrite cksum16_norm_all.
  - unfold icmp_message. cbv zeta. unfold icmp_sum. rewrite patch_norm; [done|bytes_tac|done|done|done].
  - by apply icmp_message_ok.
  - by rewrite icmp_message_len.
  - done.
Qed.

Lemma icmp_output_message ty c v payload src dst n :
  in_u8 ty -> in_u8 c -> bytes_ok payload -> 8 + zlen payload <= CKSUM_MAX_LEN ->
  icmp_output ty c v payload (zlen payload) src dst n =
    '(r, n) ← ip_output Icmp (icmp_message ty c v payload) src dst n;
    _ ← unwrap_result r; Ret n.
Proof.
  intros Ht Hc Hp Hl. unfold icmp_output. cbv zeta. change (size_of ICMPHeader) with 8.
  destruct (icmp_post_ok v payload) as [? Lp]; [done|].
  pose proof (zlen_nonneg payload). unfold CKSUM_MAX_LEN in *.
  rewrite add_usize_ok, bind_ret by (unfold in_usize; lia).
  replace (to_u8_slice (mkICMPHeader ty c 0 v) ++ payload)
    with ([ty; c] ++ [0; 0] ++ icmp_post v payload).
  2: { cbn. by rewrite (Z.mod_small ty), (Z.mod_small c) by done. }
  replace (8 + zlen payload) with (zlen ([ty; c] ++ [0; 0] ++ icmp_post v payload))
    by (rewrite !zlen_app, Lp; change (zlen [ty; c]) with 2; change (zlen [0; 0]) with 2; lia).
  rewrite cksum16_norm_all, bind_ret; [|apply patched_bytes_ok; [bytes_tac|done..]| |done].
  2: { rewrite !zlen_app, Lp. change (zlen [ty; c]) with 2. change (zlen [0; 0]) with 2.
       unfold CKSUM_MAX_LEN. lia. }
  change 2 with (zlen [ty; c]) at 1. fold (icmp_sum ty c v payload).
  by rewrite put_check_sum_ok by by apply icmp_sum_range.
Qed.
End icmp_lemmas.

Section icmp_defined.
Context `{Platform} `{BuildProfile}.

Lemma icmp_output_defined ty c v data len src dst n : defined (icmp_output ty c v data len src dst n).
Proof. unfold icmp_output, add_usize. cbv zeta. def_tac. Qed.
#[local] Hint Resolve icmp_output_defined : rust.

Lemma icmp_input_UB data len src dst iface n : icmp_input data len src dst iface n = UB <-> zlen data < 8.
Proof.
  unfold icmp_input. cbv zeta. change (zlen data < 8) with (zlen data < size_of ICMPHeader).
  apply (bytes_to_struct_UB (T := ICMPHeader)). intros h. unfold sub_usize. cbv zeta. def_tac.
Qed.
End icmp_defined.

(** ** Properties *)

Section properties.
Context `{Platform} `{BuildProfile}.

(** C33: ping.  An echo request from a station whose hardware address is known
    is answered with exactly one datagram: the echo reply with the same code,
    identifier, sequence number and payload, sent from the interface's own
    address back to the sender (also when the request went to another
    address); the reply verifies and is accepted on the other side, without
    an effect there. *)
Theorem icmp_echo n f iface route c v payload src dst mac :
  in_u8 c -> in_u32 v -> bytes_ok payload -> zlen payload <= ETH_PAYLOAD_MAX - 28 ->
  let request := icmp_message ICMP_TYPE_ECHO c v payload in
  let reply := icmp_message ICMP_TYPE_ECHOREPLY c v payload in
  eth_ready (net_dev n) f -> needs_arp (net_dev n) = true ->
  ip_sendable n route (unicast iface) src reply -> unicast iface = unicast (route_interface route) ->
  is_broadcast route src = false -> arp_fresh n (hop_of route src) mac -> mac_wf mac ->
  icmp_input request (zlen request) src dst iface n =
    Ret (Ok tt, ip_sent n f Icmp (unicast iface) src mac reply)
  /\ forall m iface' src' dst', icmp_input reply (zlen reply) src' dst' iface' m = Ret (Ok tt, m).
Proof.
  intros Hc Hv Hp Hl request reply R Hna Hs Hu Hb Hf Hm.
  unfold ETH_PAYLOAD_MAX, ETH_FRAME_MAX, ETH_HDR_SIZE in Hl. pose proof (zlen_nonneg payload).
  assert (forall ty, in_u8 ty -> ICMPHeader_wf (mkICMPHeader ty c (le_to_be_u16 (icmp_sum ty c v payload)) v)) as W.
  { intros ty Ht. split_and!; try done. by apply le_to_be_u16_range, icmp_sum_range. }
  split.
  - unfold icmp_input, request. rewrite icmp_message_len. cbv zeta.
    rewrite icmp_message_sum by (try done; unfold CKSUM_MAX_LEN; lia).
    rewrite icmp_message_eq by done.
    rewrite (bytes_to_struct_app (T := ICMPHeader)) by by apply W.
    rewrite !bind_ret. change (negb (0 =? 0)) with false. cbv iota. cbn [icmp_type code values].
    change (ICMP_TYPE_ECHO =? ICMP_TYPE_ECHO) with true. cbv iota.
    change (size_of ICMPHeader) with 8.
    rewrite slice_from_app, bind_ret by (symmetry; apply ICMPHeader_len; by apply W).
    rewrite sub_usize_ok, bind_ret by (unfold in_usize; lia).
    replace (8 + zlen payload - 8) with (zlen payload) by lia.
    rewrite icmp_output_message by (try done; unfold CKSUM_MAX_LEN; lia).
    replace (if negb (dst =? unicast iface) then unicast iface else dst) with (unicast iface)
      by (destruct (dst =? unicast iface) eqn:E; [apply Z.eqb_eq in E; done|done]).
    rewrite (ip_output_resolved n f route _ _ _ _ mac) by done.
    cbn. by rewrite Hu.
  - intros m iface' src' dst'. unfold icmp_input, reply. rewrite icmp_message_len.
    rewrite icmp_message_sum by (try done; unfold CKSUM_MAX_LEN; lia).
    rewrite icmp_message_eq by done.
    by rewrite (bytes_to_struct_app (T := ICMPHeader)) by by apply W.
Qed.

(** Everything else leaves the stack as it was: a message whose checksum
    does not verify is an error, a message of another type is ignored; and an
    echo request whose sender has no route panics. *)
Theorem icmp_input_others hdr payload src dst iface n :
  ICMPHeader_wf hdr -> bytes_ok payload -> 8 + zlen payload <= CKSUM_MAX_LEN ->
  let data := ICMPHeader_bytes hdr ++ payload in
  (ones_norm (word_sum data) <> 65535 -> icmp_input data (zlen data) src dst iface n = Ret (Err, n))
  /\ (icmp_type hdr <> ICMP_TYPE_ECHO ->
      exists r, icmp_input data (zlen data) src dst iface n = Ret (r, n))
  /\ (icmp_type hdr = ICMP_TYPE_ECHO -> ones_norm (word_sum data) = 65535 ->
      lookup_ip_route (ip_routes (net_ctx n)) src = None ->
      icmp_input data (zlen data) src dst iface n = Panic).
Proof.
  intros Hh Hp Hl data. pose proof (ICMPHeader_len hdr Hh) as L. pose proof (zlen_nonneg payload).
  assert (zlen data = 8 + zlen payload) as Ld by (unfold data; zlen_simpl; lia).
  assert (bytes_ok data) as Hb by (apply Forall_app_2; [by apply ICMPHeader_bytes_ok|done]).
  pose proof (word_sum_range _ Hb).
  assert (bytes_to_struct ICMPHeader data = Ret hdr) as S by exact (bytes_to_struct_app (T := ICMPHeader) hdr payload Hh).
  unfold icmp_input. rewrite S, cksum16_norm_all, !bind_ret by (done || lia).
  rewrite complement_zero by lia. change (size_of ICMPHeader) with 8. split_and!.
  - intros Hne. by rewrite (proj2 (Z.eqb_neq _ _)).
  - intros Hty. destruct (_ =? 65535); cbn [negb]; [|by eexists].
    rewrite (proj2 (Z.eqb_neq _ _)) by done. by eexists.
  - intros Hty Hsum Hroute. rewrite Z.add_0_l, Hsum, Hty. cbn [negb].
    change (ICMP_TYPE_ECHO =? ICMP_TYPE_ECHO) with true. cbv iota.
    unfold data. rewrite slice_from_app, bind_ret by (by symmetry).
    fold data. rewrite Ld. rewrite sub_usize_ok, bind_ret by (unfold in_usize, CKSUM_MAX_LEN in *; lia).
    replace (8 + zlen payload - 8) with (zlen payload) by lia.
    destruct Hh as (_ & ? & _ & _).
    rewrite icmp_output_message by done. unfold ip_output. by rewrite Hroute.
Qed.
End properties.

Lemma icmp_echo_witness :
  let request := icmp_message 8 0 0x01000700 [0x61; 0x62; 0x63] in
  @icmp_input demo_platform debug_build request 11 0x020200c0 0x010200c0 (demo_iface 0x010200c0) demo_net_arp =
    Ret (Ok tt, ip_sent demo_net_arp (mkTapFile [] []) Icmp 0x010200c0 0x020200c0 [2; 0; 0; 0; 0; 2]
      (icmp_message 0 0 0x01000700 [0x61; 0x62; 0x63])).
Proof.
  intros request.
  refine (proj1 (@icmp_echo demo_platform debug_build demo_net_arp (mkTapFile [] [])
    (demo_iface 0x010200c0) demo_route 0 0x01000700 [0x61; 0x62; 0x63] 0x020200c0 0x010200c0
    [2; 0; 0; 0; 0; 2] _ _ _ _ _ _ _ _ _ _ _)).
  - done.
  - done.
  - bytes_tac.
  - done.
  - by apply demo_device_ready.
  - done.
  - by apply demo_sendable.
  - done.
  - done.
  - apply demo_arp_fresh.
  - apply demo_mac_wf.
Defined.

Lemma icmp_input_others_witness :
  let data := ICMPHeader_bytes (mkICMPHeader 8 0 0 7) ++ [1] in
  @icmp_input demo_platform debug_build data 9 0x020200c0 0x010200c0 (demo_iface 0x010200c0) demo_net_arp =
    Ret (Err, demo_net_arp).
Proof.
  intros data.
  refine (proj1 (@icmp_input_others demo_platform debug_build (mkICMPHeader 8 0 0 7) [1] 0x020200c0 0x010200c0
    (demo_iface 0x010200c0) demo_net_arp _ _ _) _); [done | bytes_tac | done | by vm_compute].
Defined.
