(* ===== verification/Udp.v ===== *)
(** * protocols/ip/udp.rs

    The table of protocol control blocks, the input handler, the output routine
    and the user calls.  [receive_from], which locks the table twice and waits in
    between, is given as its two critical sections. *)
From S2P Require Import Prelude Platform LinkedList Bytes Checksum IpTypes Devices Arp Ip Transport.

Definition UDP_PCB_COUNT : nat := 16.
Definition UDP_SRC_PORT_MIN : Z := 49152.
Definition UDP_SRC_PORT_MAX : Z := 65535.

(** ** Data *)

Record UdpHeader := mkUdpHeader {
  udp_src_port : Z;
  udp_dst_port : Z;
  udp_len : Z;
  checksum : Z
}.

Definition UdpHeader_bytes (h : UdpHeader) : list Z :=
  le_bytes 2 (udp_src_port h) ++ le_bytes 2 (udp_dst_port h) ++ le_bytes 2 (udp_len h)
  ++ le_bytes 2 (checksum h).

Definition UdpHeader_of (b : list Z) : UdpHeader :=
  mkUdpHeader (int_at 0 2 b) (int_at 2 2 b) (int_at 4 2 b) (int_at 6 2 b).

Definition UdpHeader_wf (h : UdpHeader) : Prop :=
  in_u16 (udp_src_port h) /\ in_u16 (udp_dst_port h) /\ in_u16 (udp_len h) /\ in_u16 (checksum h).

Section UdpHeader_packed.
Lemma UdpHeader_len h : UdpHeader_wf h -> zlen (UdpHeader_bytes h) = 8.
Proof. intros _. unfold UdpHeader_bytes, zlen. by rewrite !length_app, !le_bytes_len. Qed.
Lemma UdpHeader_bytes_ok h : UdpHeader_wf h -> bytes_ok (UdpHeader_bytes h).
Proof. intros _. repeat apply Forall_app_2; apply le_bytes_bytes. Qed.
Lemma UdpHeader_of_to h : UdpHeader_wf h -> UdpHeader_of (UdpHeader_bytes h) = h.
Proof.
  destruct h. intros (? & ? & ? & ?). simpl in *.
  unfold UdpHeader_of, int_at, bytes_at. simpl. by rewrite !le2_id.
Qed.
Lemma UdpHeader_of_wf b : zlen b = 8 -> bytes_ok b -> UdpHeader_wf (UdpHeader_of b).
Proof.
  intros L Hb. unfold zlen in L. explode_list b. bytes_inv.
  unfold UdpHeader_of, UdpHeader_wf, int_at, bytes_at. cbn [take drop].
  cbn [udp_src_port udp_dst_port udp_len checksum].
  split_and!; by apply le_int_bound_16.
Qed.
Lemma UdpHeader_to_of b : zlen b = 8 -> bytes_ok b -> UdpHeader_bytes (UdpHeader_of b) = b.
Proof.
  intros L Hb. unfold zlen in L. explode_list b. bytes_inv.
  unfold UdpHeader_of, UdpHeader_bytes, int_at, bytes_at. cbn [take drop].
  cbn [udp_src_port udp_dst_port udp_len checksum].
  by rewrite !le2_bytes_id.
Qed.
End UdpHeader_packed.

#[export] Instance UdpHeader_Packed : Packed UdpHeader := {
  size_of := 8;
  to_u8_slice := UdpHeader_bytes;
  struct_of := UdpHeader_of;
  packed_wf := UdpHeader_wf;
  size_of_nonneg := ltac:(done);
  to_u8_slice_len := UdpHeader_len;
  to_u8_slice_bytes := UdpHeader_bytes_ok;
  struct_of_to := UdpHeader_of_to;
  struct_of_wf := UdpHeader_of_wf;
  to_struct_of := UdpHeader_to_of
}.

Inductive UdpPcbState := UdpFree | UdpOpen | UdpClosing.

#[export] Instance UdpPcbState_eq_dec : EqDecision UdpPcbState.
Proof. solve_decision. Defined.

Record UdpDataEntry := mkUdpDataEntry {
  remote_endpoint : IPEndpoint;
  entry_len : Z;
  entry_data : list Z
}.

Record UdpPcb := mkUdpPcb {
  udp_state : UdpPcbState;
  local_endpoint : IPEndpoint;
  udp_sender : option nat;
  data_entries : list UdpDataEntry
}.

#[export] Instance set_udp_state : Setter udp_state :=
  fun v p => mkUdpPcb v (local_endpoint p) (udp_sender p) (data_entries p).
#[export] Instance set_local_endpoint : Setter local_endpoint :=
  fun v p => mkUdpPcb (udp_state p) v (udp_sender p) (data_entries p).
#[export] Instance set_udp_sender : Setter udp_sender :=
  fun v p => mkUdpPcb (udp_state p) (local_endpoint p) v (data_entries p).
#[export] Instance set_data_entries : Setter data_entries :=
  fun v p => mkUdpPcb (udp_state p) (local_endpoint p) (udp_sender p) v.

Definition UdpPcb_new : UdpPcb := mkUdpPcb UdpFree (mkIPEndpoint IP_ADDR_ANY 0) None [].

(** [UdpPcbs], whose only field is the vector of entries. *)
Abbreviation UdpPcbs := (list UdpPcb).

Definition UdpPcbs_new : UdpPcbs := replicate UDP_PCB_COUNT UdpPcb_new.

(** ** The table *)

(** [self.entries[i]], for reading and writing back. *)
Definition pcb_at {P} (pcbs : list P) (i : nat) : outcome P := unwrap (pcbs !! i).

(** [sender.send(b).unwrap()] when there is a sender. *)
Definition send_unwrap (s : option nat) (b : bool) (e : Env) : outcome Env :=
  match s with
  | Some c => let '(r, e) := chan_send c b e in _ ← unwrap_result r; Ret e
  | None => Ret e
  end.

Definition udp_delete_entry (pcb_id : nat) (pcbs : UdpPcbs) (e : Env) : outcome (UdpPcbs * Env) :=
  entry ← pcb_at pcbs pcb_id;
  let entry := entry <|udp_state := UdpClosing|> in
  e ← send_unwrap (udp_sender entry) false e;
  let entry := entry <|udp_state := UdpFree|> <|local_endpoint := mkIPEndpoint IP_ADDR_ANY 0|>
                 <|data_entries := []|> in
  Ret (<[pcb_id := entry]> pcbs, e).

(** The test of [get_by_host] and [is_endpoint_used]. *)
Definition udp_answers (host_addr : IPAdress) (host_port : Z) (pcb : UdpPcb) : bool :=
  bool_decide (udp_state pcb = UdpOpen)
  && ((address (local_endpoint pcb) =? IP_ADDR_ANY) || (host_addr =? IP_ADDR_ANY)
      || (address (local_endpoint pcb) =? host_addr))
  && (port (local_endpoint pcb) =? host_port).

(** The first entry that answers, with its position. *)
Definition udp_get_by_host (pcbs : UdpPcbs) (host_addr : IPAdress) (host_port : Z) : option (nat * UdpPcb) :=
  list_find (fun pcb => udp_answers host_addr host_port pcb = true) pcbs.

Definition is_endpoint_used (pcbs : UdpPcbs) (host_addr : IPAdress) (host_port : Z) : bool :=
  existsb (udp_answers host_addr host_port) pcbs.

Fixpoint udp_close_sockets (pcbs : UdpPcbs) (e : Env) : outcome Env :=
  match pcbs with
  | [] => Ret e
  | pcb :: pcbs => e ← send_unwrap (udp_sender pcb) false e; udp_close_sockets pcbs e
  end.

(** ** Input and output *)

Section udp_code.
Context `{Platform} `{BuildProfile}.

Definition udp_input (data : list Z) (len : Z) (src dst : IPAdress) (pcbs : UdpPcbs) (e : Env)
    : outcome (result unit * UdpPcbs * Env) :=
  let udp_hdr_size := size_of UdpHeader in
  header ← bytes_to_struct UdpHeader data;
  let header_len := be_to_le_u16 (udp_len header) in
  if negb (header_len =? as_u16 len) then Panic else
  let pseudo_hdr_bytes := PseudoHeader_bytes (pseudo_header Udp src dst (udp_len header)) in
  psum ← cksum16 pseudo_hdr_bytes (zlen pseudo_hdr_bytes) 0;
  let pseudo_sum := not_u16 psum in
  sum ← cksum16 data len pseudo_sum;
  if negb (sum =? 0) then Ret (Err, pcbs, e) else
  match udp_get_by_host pcbs dst (udp_dst_port header) with
  | None => Ret (Err, pcbs, e)
  | Some (i, pcb) =>
      udp_data ← slice_from data udp_hdr_size;
      data_len ← sub_usize len udp_hdr_size;
      let data_entry := mkUdpDataEntry (mkIPEndpoint src (udp_src_port header)) data_len udp_data in
      let pcbs := <[i := pcb <|data_entries := data_entries pcb ++ [data_entry]|>]> pcbs in
      sender ← unwrap (udp_sender pcb);
      let '(r, e) := chan_send sender true e in
      _ ← unwrap_result r;
      Ret (Ok tt, pcbs, e)
  end.

Definition udp_output (src dst : IPEndpoint) (udp_data : list Z) (n : Net) : outcome Net :=
  let udp_hdr_size := size_of UdpHeader in
  let len := zlen udp_data in
  if IP_PAYLOAD_MAX_SIZE - udp_hdr_size <? len then Panic else
  let total_len := udp_hdr_size + len in
  let total_len_in_be := le_to_be_u16 (as_u16 total_len) in
  let udp_header := mkUdpHeader (port src) (port dst) total_len_in_be 0 in
  let pseudo_hdr_bytes := PseudoHeader_bytes (pseudo_header Udp (address src) (address dst) total_len_in_be) in
  pseudo_sum ← cksum16 pseudo_hdr_bytes (zlen pseudo_hdr_bytes) 0;
  let data := to_u8_slice udp_header ++ udp_data in
  sum ← cksum16 data total_len (not_u16 pseudo_sum);
  data ← put_check_sum data 6 sum;
  '(r, n) ← ip_output Udp data (address src) (address dst) n;
  _ ← unwrap_result r;
  Ret n.

(** ** User calls *)

Definition udp_open (pcbs : UdpPcbs) : outcome (nat * UdpPcbs) :=
  match list_find (fun pcb => udp_state pcb = UdpFree) pcbs with
  | Some (i, entry) => Ret (i, <[i := entry <|udp_state := UdpOpen|>]> pcbs)
  | None => Panic
  end.

Definition udp_bind (pcbs : UdpPcbs) (pcb_id : nat) (local : IPEndpoint) : outcome UdpPcbs :=
  match udp_get_by_host pcbs (address local) (port local) with
  | Some _ => Panic
  | None =>
      match pcbs !! pcb_id with
      | Some entry => Ret (<[pcb_id := entry <|local_endpoint := local|>]> pcbs)
      | None => Panic
      end
  end.

(** [for p in p0..p0 + n]: the first port that is not in use. *)
Fixpoint udp_find_port (pcbs : UdpPcbs) (addr : IPAdress) (n : nat) (p : Z) : Z :=
  match n with
  | O => 0
  | S n => if is_endpoint_used pcbs addr p then udp_find_port pcbs addr n (p + 1) else p
  end.

Definition udp_send_to (pcb_id : nat) (data : list Z) (remote : IPEndpoint) (pcbs : UdpPcbs) (n : Net)
    : outcome Net :=
  pcb ← pcb_at pcbs pcb_id;
  let local := IPEndpoint_new (address (local_endpoint pcb)) 0 in
  local ← (if address local =? IP_ADDR_ANY then
             interface ← unwrap (get_interface_for (ip_routes (net_ctx n)) (address remote));
             Ret (local <|address := unicast interface|>)
           else Ret local);
  local ← (if port (local_endpoint pcb) =? 0 then
             let local := local <|port := udp_find_port pcbs (address local)
                            (Z.to_nat (UDP_SRC_PORT_MAX - UDP_SRC_PORT_MIN)) UDP_SRC_PORT_MIN|> in
             if port local =? 0 then Panic else Ret local
           else Ret local);
  udp_output local remote data n.

(** [receive_from], first critical section: the channel of this call replaces
    the sender of the entry. *)
Definition udp_receive_start (pcb_id : nat) (pcbs : UdpPcbs) (e : Env) : outcome (nat * UdpPcbs * Env) :=
  let '(c, e) := channel e in
  pcb ← pcb_at pcbs pcb_id;
  let e := drop_sender (udp_sender pcb) e in
  Ret (c, <[pcb_id := pcb <|udp_sender := Some c|>]> pcbs, e).

(** [receive_from], from [recv] on: every path of the loop body returns. *)
Definition udp_receive_finish (c pcb_id : nat) (pcbs : UdpPcbs) (e : Env)
    : outcome (option UdpDataEntry * UdpPcbs * Env) :=
  '(r, e) ← chan_recv c e;
  b ← unwrap_result r;
  if negb b then Ret (None, pcbs, drop_receiver c e) else
  pcb ← pcb_at pcbs pcb_id;
  if negb (bool_decide (udp_state pcb = UdpOpen)) then Ret (None, pcbs, drop_receiver c e) else
  match data_entries pcb with
  | [] => Ret (None, pcbs, drop_receiver c e)
  | d :: ds => Ret (Some d, <[pcb_id := pcb <|data_entries := ds|>]> pcbs, drop_receiver c e)
  end.
End udp_code.

(** ** Specification *)

(** The datagram for [data]: ports, length and, between them and the data, the
    checksum over the pseudo header and all of it. *)
Definition udp_pre (src dst : IPEndpoint) (len : Z) : list Z :=
  le_bytes 2 (port src) ++ le_bytes 2 (port dst) ++ le_bytes 2 (le_to_be_u16 (8 + len)).

Definition udp_init (src dst : IPEndpoint) (len : Z) : Z :=
  pseudo_init (pseudo_header Udp (address src) (address dst) (le_to_be_u16 (8 + len))).

Definition udp_segment (src dst : IPEndpoint) (data : list Z) : list Z :=
  checksummed (udp_pre src dst (zlen data)) data (udp_init src dst (zlen data)).

Definition UDP_DATA_MAX : Z := IP_PAYLOAD_MAX_SIZE - 8.

(** A table in which no two sockets answer to the same datagram: open entries
    with a port do not overlap, free entries have no port. *)
Definition udp_overlap (p q : UdpPcb) : Prop :=
  port (local_endpoint p) <> 0 /\ port (local_endpoint p) = port (local_endpoint q)
  /\ (address (local_endpoint p) = IP_ADDR_ANY \/ address (local_endpoint q) = IP_ADDR_ANY
      \/ address (local_endpoint p) = address (local_endpoint q)).

Definition udp_exclusive (pcbs : UdpPcbs) : Prop :=
  (forall i j p q, pcbs !! i = Some p -> pcbs !! j = Some q -> i <> j ->
     udp_state p = UdpOpen -> udp_state q = UdpOpen -> ~ udp_overlap p q)
  /\ (forall i p, pcbs !! i = Some p -> udp_state p <> UdpOpen -> port (local_endpoint p) = 0).

Section udp_lemmas.
Context `{Platform} `{BuildProfile}.
Implicit Types (pcbs : UdpPcbs) (src dst : IPEndpoint) (data : list Z).

Lemma udp_pre_ok src dst len : bytes_ok (udp_pre src dst len) /\ zlen (udp_pre src dst len) = 6.
Proof. split; [|done]. repeat apply Forall_app_2; apply le_bytes_bytes. Qed.

Lemma udp_segment_len src dst data : zlen (udp_segment src dst data) = 8 + zlen data.
Proof.
  unfold udp_segment. rewrite checksummed_len. destruct (udp_pre_ok src dst (zlen data)) as [_ ->]. lia.
Qed.

Lemma udp_check_sum_range src dst data : bytes_ok data ->
  in_u16 (check_sum_of (udp_pre src dst (zlen data)) data (udp_init src dst (zlen data))).
Proof.
  intros. destruct (udp_pre_ok src dst (zlen data)) as [? ?].
  apply check_sum_of_range; [done|done|]. apply pseudo_init_range.
Qed.

Lemma udp_segment_bytes_ok src dst data : bytes_ok data -> bytes_ok (udp_segment src dst data).
Proof.
  intros. destruct (udp_pre_ok src dst (zlen data)) as [? L].
  apply checksummed_bytes_ok; [done|done|apply pseudo_init_range].
Qed.

(** The segment as a header struct followed by the data. *)
Definition udp_header_of src dst data : UdpHeader :=
  mkUdpHeader (port src) (port dst) (le_to_be_u16 (8 + zlen data))
    (le_to_be_u16 (check_sum_of (udp_pre src dst (zlen data)) data (udp_init src dst (zlen data)))).

Lemma udp_segment_eq src dst data : bytes_ok data ->
  udp_segment src dst data = to_u8_slice (udp_header_of src dst data) ++ data.
Proof.
  intros Hd. unfold udp_segment, checksummed, udp_header_of. cbn [to_u8_slice UdpHeader_Packed].
  unfold UdpHeader_bytes. cbn [udp_src_port udp_dst_port udp_len checksum].
  rewrite (le_to_be_u16_bytes (check_sum_of _ _ _)) by by apply udp_check_sum_range.
  unfold udp_pre. by rewrite <-!app_assoc.
Qed.

Lemma udp_header_of_wf src dst data : in_u16 (port src) -> in_u16 (port dst) -> bytes_ok data ->
  zlen data <= UDP_DATA_MAX -> UdpHeader_wf (udp_header_of src dst data).
Proof.
  intros. pose proof (zlen_nonneg data). unfold UDP_DATA_MAX, IP_PAYLOAD_MAX_SIZE, IP_MAX_SIZE,
    IP_HEADER_MIN_SIZE, u16_max in *.
  split_and!; [done|done| |]; apply le_to_be_u16_range; [unfold in_u16; lia|].
  by apply udp_check_sum_range.
Qed.

Lemma udp_segment_sum src dst data : bytes_ok data -> zlen data <= UDP_DATA_MAX ->
  cksum16 (udp_segment src dst data) (8 + zlen data) (udp_init src dst (zlen data)) = Ret 0.
Proof.
  intros. destruct (udp_pre_ok src dst (zlen data)) as [? L]. unfold UDP_DATA_MAX, IP_PAYLOAD_MAX_SIZE,
    IP_MAX_SIZE, IP_HEADER_MIN_SIZE, u16_max in *.
  replace (8 + zlen data) with (zlen (udp_pre src dst (zlen data)) + 2 + zlen data) at 1 by lia.
  apply cksum16_checksummed; [done|done|by rewrite L|apply pseudo_init_range|].
  unfold CKSUM_MAX_LEN. lia.
Qed.

(** What [udp_output] hands to IP. *)
Lemma udp_output_segment src dst data n : bytes_ok data -> zlen data <= UDP_DATA_MAX ->
  udp_output src dst data n =
    '(r, n) ← ip_output Udp (udp_segment src dst data) (address src) (address dst) n;
    _ ← unwrap_result r; Ret n.
Proof.
  intros Hd Hl. unfold udp_output. cbv zeta. change (size_of UdpHeader) with 8.
  pose proof (zlen_nonneg data). unfold UDP_DATA_MAX in Hl.
  rewrite (proj2 (Z.ltb_ge _ _)) by lia.
  unfold IP_PAYLOAD_MAX_SIZE, IP_MAX_SIZE, IP_HEADER_MIN_SIZE, u16_max in Hl.
  rewrite as_u16_id by (unfold in_u16; lia).
  rewrite pseudo_cksum, bind_ret, not_u16_involutive. fold (udp_init src dst (zlen data)).
  change (to_u8_slice (mkUdpHeader (port src) (port dst) (le_to_be_u16 (8 + zlen data)) 0))
    with (udp_pre src dst (zlen data) ++ [0; 0]). rewrite <-app_assoc.
  destruct (udp_pre_ok src dst (zlen data)) as [Hp L].
  replace (8 + zlen data) with (zlen (udp_pre src dst (zlen data)) + 2 + zlen data) at 2 by lia.
  rewrite cksum16_zeroed, bind_ret;
    [|done|done|apply pseudo_init_range|unfold CKSUM_MAX_LEN; lia].
  rewrite <-L at 1.
  rewrite put_check_sum_checksummed; [done|done|done|by apply pseudo_init_range].
Qed.

(** What [udp_input] does with it. *)
Lemma udp_input_segment src dst data pcbs e : endpoint_wf src -> endpoint_wf dst -> bytes_ok data ->
  zlen data <= UDP_DATA_MAX ->
  udp_input (udp_segment src dst data) (8 + zlen data) (address src) (address dst) pcbs e =
    match udp_get_by_host pcbs (address dst) (port dst) with
    | None => Ret (Err, pcbs, e)
    | Some (i, pcb) =>
        let d := mkUdpDataEntry src (zlen data) data in
        sender ← unwrap (udp_sender pcb);
        let '(r, e) := chan_send sender true e in
        _ ← unwrap_result r;
        Ret (Ok tt, <[i := pcb <|data_entries := data_entries pcb ++ [d]|>]> pcbs, e)
    end.
Proof.
  intros [_ Hs] [_ Hd] Hb Hl. pose proof (udp_header_of_wf src dst data Hs Hd Hb Hl) as W.
  pose proof (udp_segment_sum src dst data Hb Hl) as S. pose proof (zlen_nonneg data).
  unfold udp_input. cbv zeta. rewrite udp_segment_eq in * by done.
  rewrite (bytes_to_struct_app (T := UdpHeader)), bind_ret by done.
  unfold UDP_DATA_MAX, IP_PAYLOAD_MAX_SIZE, IP_MAX_SIZE, IP_HEADER_MIN_SIZE, u16_max in Hl.
  change (udp_len (udp_header_of src dst data)) with (le_to_be_u16 (8 + zlen data)).
  rewrite be_le_u16, as_u16_id, Z.eqb_refl by (unfold in_u16; lia). cbn [negb].
  rewrite pseudo_cksum, bind_ret, not_u16_involutive. fold (udp_init src dst (zlen data)).
  rewrite S, bind_ret. cbn [negb Z.eqb].
  change (udp_dst_port (udp_header_of src dst data)) with (port dst).
  destruct (udp_get_by_host _ _ _) as [[i pcb]|]; [|done].
  rewrite slice_from_app, bind_ret by (symmetry; by apply UdpHeader_len).
  change (size_of UdpHeader) with 8. rewrite sub_usize_ok, bind_ret by (unfold in_usize; lia).
  replace (8 + zlen data - 8) with (zlen data) by lia.
  change (udp_src_port (udp_header_of src dst data)) with (port src). by destruct src.
Qed.

(** A datagram followed by padding has another length than its header says. *)
Lemma udp_input_padded src dst data pad pcbs e : endpoint_wf src -> endpoint_wf dst -> bytes_ok data ->
  zlen data <= UDP_DATA_MAX -> 0 < zlen pad -> 8 + zlen data + zlen pad <= 65535 ->
  udp_input (udp_segment src dst data ++ pad) (8 + zlen data + zlen pad) (address src) (address dst) pcbs e = Panic.
Proof.
  intros [_ Hs] [_ Hd] Hb Hm Hp Hl. pose proof (zlen_nonneg data).
  pose proof (udp_header_of_wf src dst data Hs Hd Hb Hm) as W.
  unfold udp_input. cbv zeta. rewrite udp_segment_eq, <-app_assoc by done.
  rewrite (bytes_to_struct_app (T := UdpHeader)), bind_ret by done.
  change (udp_len (udp_header_of src dst data)) with (le_to_be_u16 (8 + zlen data)).
  rewrite be_le_u16, as_u16_id by (unfold in_u16; lia).
  by rewrite (proj2 (Z.eqb_neq (8 + zlen data) _)) by lia.
Qed.

Lemma udp_get_by_host_Some pcbs a p i pcb : udp_get_by_host pcbs a p = Some (i, pcb) ->
  pcbs !! i = Some pcb /\ udp_answers a p pcb = true.
Proof. intros (? & ? & _)%list_find_Some. done. Qed.

Lemma udp_get_by_host_None pcbs a p i pcb : udp_get_by_host pcbs a p = None ->
  pcbs !! i = Some pcb -> udp_answers a p pcb = false.
Proof.
  intros Hf%list_find_None Hi. rewrite Forall_lookup in Hf. specialize (Hf _ _ Hi).
  by destruct (udp_answers a p pcb).
Qed.

Lemma udp_answers_spec a p pcb : udp_answers a p pcb = true <->
  udp_state pcb = UdpOpen
  /\ (address (local_endpoint pcb) = IP_ADDR_ANY \/ a = IP_ADDR_ANY \/ address (local_endpoint pcb) = a)
  /\ port (local_endpoint pcb) = p.
Proof.
  unfold udp_answers. rewrite !andb_true_iff, !orb_true_iff, !Z.eqb_eq, bool_decide_eq_true. tauto.
Qed.

Lemma is_endpoint_used_spec pcbs a p :
  is_endpoint_used pcbs a p = is_some (udp_get_by_host pcbs a p).
Proof.
  unfold is_endpoint_used, udp_get_by_host. induction pcbs as [|q pcbs IH]; [done|]. simpl.
  rewrite IH. destruct (udp_answers a p q); simpl; [done|].
  by destruct (list_find _ pcbs) as [[]|].
Qed.
End udp_lemmas.

(** ** Reachable tables *)

Section udp_system.
Context `{Platform} `{BuildProfile}.

(** The operations on the table, from any thread and in any order.  [bind] is
    called on a socket that was opened. *)
Inductive udp_step : UdpPcbs * Env -> UdpPcbs * Env -> Prop :=
| us_open pcbs e i pcbs' : udp_open pcbs = Ret (i, pcbs') -> udp_step (pcbs, e) (pcbs', e)
| us_bind pcbs e i pcb local pcbs' :
    pcbs !! i = Some pcb -> udp_state pcb = UdpOpen -> udp_bind pcbs i local = Ret pcbs' ->
    udp_step (pcbs, e) (pcbs', e)
| us_delete pcbs e i pcbs' e' :
    udp_delete_entry i pcbs e = Ret (pcbs', e') -> udp_step (pcbs, e) (pcbs', e')
| us_input pcbs e data len src dst r pcbs' e' :
    udp_input data len src dst pcbs e = Ret (r, pcbs', e') -> udp_step (pcbs, e) (pcbs', e')
| us_receive_start pcbs e i c pcbs' e' :
    udp_receive_start i pcbs e = Ret (c, pcbs', e') -> udp_step (pcbs, e) (pcbs', e')
| us_receive_finish pcbs e c i r pcbs' e' :
    udp_receive_finish c i pcbs e = Ret (r, pcbs', e') -> udp_step (pcbs, e) (pcbs', e')
| us_close pcbs e e' : udp_close_sockets pcbs e = Ret e' -> udp_step (pcbs, e) (pcbs, e').

Lemma udp_overlap_sym p q : udp_overlap p q -> udp_overlap q p.
Proof. unfold udp_overlap. intros (? & E & ?). rewrite <-E. naive_solver. Qed.

Lemma udp_exclusive_insert pcbs i p : udp_exclusive pcbs ->
  (udp_state p <> UdpOpen -> port (local_endpoint p) = 0) ->
  (udp_state p = UdpOpen -> forall j q, j <> i -> pcbs !! j = Some q -> udp_state q = UdpOpen ->
     ~ udp_overlap p q) ->
  udp_exclusive (<[i := p]> pcbs).
Proof.
  intros [Hx Hf] Hp Ho. split.
  - intros j k q r Hj Hk Hne Hq Hr.
    rewrite list_lookup_insert_Some in Hj, Hk.
    destruct Hj as [(-> & <- & _)|[Hji Hj]], Hk as [(-> & <- & _)|[Hki Hk]].
    + done.
    + apply (Ho Hq k r); auto.
    + intros Hov. apply (Ho Hr j q); auto. by apply udp_overlap_sym.
    + by apply (Hx j k).
  - intros j q. rewrite list_lookup_insert_Some. intros [(-> & <- & _)|[_ Hj]]; [done|eauto].
Qed.

(** Replacing an entry by one with the same state and endpoint. *)
Lemma udp_exclusive_same pcbs i p p' : udp_exclusive pcbs -> pcbs !! i = Some p ->
  udp_state p' = udp_state p -> local_endpoint p' = local_endpoint p ->
  udp_exclusive (<[i := p']> pcbs).
Proof.
  intros Hx Hi Es El. pose proof Hx as [Hx1 Hx2]. apply udp_exclusive_insert; [done| |].
  - rewrite Es, El. by apply Hx2 with i.
  - unfold udp_overlap. rewrite Es, El. intros Ho j q Hne Hj Hq.
    apply (Hx1 i j p q); auto.
Qed.

Lemma pcb_at_Ret {P} (pcbs : list P) i p : pcb_at pcbs i = Ret p -> pcbs !! i = Some p.
Proof. apply unwrap_Ret. Qed.

Lemma udp_new_exclusive : udp_exclusive UdpPcbs_new.
Proof.
  split.
  - intros i j p q Hi%lookup_replicate. destruct Hi as [-> _]. done.
  - intros i p Hi%lookup_replicate. by destruct Hi as [-> _].
Qed.

Lemma udp_open_exclusive pcbs i pcbs' : udp_exclusive pcbs -> udp_open pcbs = Ret (i, pcbs') ->
  udp_exclusive pcbs'.
Proof.
  intros Hx. unfold udp_open. destruct (list_find _ _) as [[j p]|] eqn:E; [|done].
  apply list_find_Some in E as (Hj & Hp & _). intros [= <- <-].
  assert (port (local_endpoint p) = 0) as P0 by (apply (proj2 Hx j); [done|by rewrite Hp]).
  apply udp_exclusive_insert; [done|done|]. intros _ k q _ _ _ [Hne _]. exact (Hne P0).
Qed.

Lemma udp_bind_exclusive pcbs i p local pcbs' : udp_exclusive pcbs ->
  pcbs !! i = Some p -> udp_state p = UdpOpen -> udp_bind pcbs i local = Ret pcbs' ->
  udp_exclusive pcbs'.
Proof.
  intros Hx Hi Hp. unfold udp_bind. destruct (udp_get_by_host _ _ _) eqn:F; [done|].
  rewrite Hi. intros [= <-]. apply udp_exclusive_insert; [done|intros Hn; by destruct (Hn Hp)|].
  intros _ j q _ Hj Hq (_ & E & Ha). cbn in E, Ha.
  pose proof (udp_get_by_host_None _ _ _ _ _ F Hj) as Hno.
  assert (udp_answers (address local) (port local) q = true); [|congruence].
  apply udp_answers_spec. split; [done|]. split; [|done]. naive_solver.
Qed.

Lemma udp_step_exclusive s s' : udp_step s s' -> udp_exclusive (fst s) -> udp_exclusive (fst s').
Proof.
  intros [pcbs e i pcbs' E|pcbs e i p l pcbs' Hi Hp E|pcbs e i pcbs' e' E|pcbs e d l s0 d0 r pcbs' e' E
         |pcbs e i c pcbs' e' E|pcbs e c i r pcbs' e' E|pcbs e e' E] Hx; cbn [fst] in *.
  - by eapply udp_open_exclusive.
  - by eapply udp_bind_exclusive.
  - unfold udp_delete_entry in E. inv_bind E. inv_bind E. injection E as <- <-.
    apply udp_exclusive_insert; done.
  - unfold udp_input in E. inv_bind E. cbv zeta in E. destruct (negb _); [done|].
    inv_bind E. inv_bind E. destruct (negb _); [by injection E as <- <- <-|].
    destruct (udp_get_by_host _ _ _) as [[i p]|] eqn:F; [|by injection E as <- <- <-].
    inv_bind E. inv_bind E. inv_bind E. destruct (chan_send _ _ _). inv_bind E.
    injection E as <- <- <-. apply udp_get_by_host_Some in F as [Hi _].
    by apply (udp_exclusive_same _ _ p).
  - unfold udp_receive_start in E. cbn in E. inv_bind E. injection E as <- <- <-.
    apply pcb_at_Ret in E0. by apply (udp_exclusive_same _ _ x).
  - unfold udp_receive_finish in E. inv_bind E. destruct x as [r0 e0]. inv_bind E.
    destruct (negb x); [by injection E as <- <- <-|]. inv_bind E. apply pcb_at_Ret in E2.
    destruct (negb _); [by injection E as <- <- <-|].
    destruct (data_entries x0); injection E as <- <- <-; [done|].
    by apply (udp_exclusive_same _ _ x0).
  - done.
Qed.

Lemma udp_reachable_exclusive e s : rtc udp_step (UdpPcbs_new, e) s -> udp_exclusive (fst s).
Proof.
  intros Hr. assert (udp_exclusive (fst (UdpPcbs_new, e))) as Hx by apply udp_new_exclusive.
  induction Hr as [|s1 s2 s3 Hstep _ IH]; [done|]. apply IH. by eapply udp_step_exclusive.
Qed.
End udp_system.

(** The dynamic port: the search over [p, p + n) finds the least unused port,
    and with more ports than sockets there is one. *)
Section udp_ports.
Implicit Types (pcbs : UdpPcbs).

Lemma udp_find_port_spec pcbs a n p :
  let r := udp_find_port pcbs a n p in
  (p <= r < p + Z.of_nat n /\ is_endpoint_used pcbs a r = false
     /\ forall q, p <= q < r -> is_endpoint_used pcbs a q = true)
  \/ (r = 0 /\ forall q, p <= q < p + Z.of_nat n -> is_endpoint_used pcbs a q = true).
Proof.
  revert p. induction n as [|n IH]; intros p; cbn [udp_find_port]; cbv zeta.
  - right. split; [done|]. intros. lia.
  - destruct (is_endpoint_used pcbs a p) eqn:U.
    + destruct (IH (p + 1)) as [(Hr & Hu & Hall)|[Hr Hall]]; [left|right]; split_and!; try done; try lia.
      * intros q Hq. destruct (decide (q = p)) as [->|]; [done|]. apply Hall. lia.
      * intros q Hq. destruct (decide (q = p)) as [->|]; [done|]. apply Hall. lia.
    + left. split_and!; [lia|lia|done|]. intros. lia.
Qed.

Lemma is_endpoint_used_port pcbs a p : is_endpoint_used pcbs a p = true ->
  p ∈ map (fun pcb => port (local_endpoint pcb)) pcbs.
Proof.
  unfold is_endpoint_used. rewrite existsb_exists. intros (pcb & Hin & Ha%udp_answers_spec).
  destruct Ha as (_ & _ & <-). apply list_elem_of_fmap. exists pcb. split; [done|].
  by apply list_elem_of_In.
Qed.

Lemma udp_find_port_total pcbs a n p : (length pcbs < n)%nat -> 0 < p ->
  let r := udp_find_port pcbs a n p in
  p <= r < p + Z.of_nat n /\ is_endpoint_used pcbs a r = false
  /\ forall q, p <= q < r -> is_endpoint_used pcbs a q = true.
Proof.
  intros Hn Hp r. destruct (udp_find_port_spec pcbs a n p) as [Hok|[_ Hall]]; [done|exfalso].
  set (ports := map (fun k => p + Z.of_nat k) (seq 0 n)).
  assert (NoDup ports) as Hnd by (apply NoDup_fmap; [intros ? ?; lia|apply NoDup_seq]).
  assert (ports ⊆+ map (fun pcb => port (local_endpoint pcb)) pcbs) as Hs.
  { apply NoDup_submseteq; [done|]. intros q (k & -> & Hk)%list_elem_of_fmap.
    apply elem_of_seq in Hk. apply (is_endpoint_used_port _ a), Hall. lia. }
  apply submseteq_length in Hs. unfold ports in Hs. rewrite !length_map, length_seq in Hs. lia.
Qed.
End udp_ports.

Section udp_defined.
Context `{BuildProfile}.

Lemma udp_input_UB data len src dst pcbs e : udp_input data len src dst pcbs e = UB <-> zlen data < 8.
Proof.
  unfold udp_input. cbv zeta. change (zlen data < 8) with (zlen data < size_of UdpHeader).
  apply (bytes_to_struct_UB (T := UdpHeader)). intros h. cbv zeta. destruct (negb _); [done|].
  apply cksum16_pseudo_defined. intros ps s. unfold sub_usize. def_tac.
Qed.
End udp_defined.

(** ** Properties *)

Section properties.
Context `{Platform} `{BuildProfile}.

(** What the receiving station does with a datagram for a bound socket. *)
Lemma udp_input_delivers src dst data pcbs i pcb c ch e :
  endpoint_wf src -> endpoint_wf dst -> bytes_ok data -> zlen data <= UDP_DATA_MAX ->
  udp_get_by_host pcbs (address dst) (port dst) = Some (i, pcb) ->
  udp_sender pcb = Some c -> env_chans e !! c = Some ch -> ch_rx_alive ch = true ->
  ch_queue ch = [] -> data_entries pcb = [] ->
  returns (udp_input (udp_segment src dst data) (8 + zlen data) (address src) (address dst) pcbs e)
    (fun '(r, pcbs', e') => r = Ok tt
       /\ (forall j, j <> i -> pcbs' !! j = pcbs !! j)
       /\ returns (udp_receive_finish c i pcbs' e') (fun '(d, pcbs'', _) =>
            d = Some (mkUdpDataEntry src (zlen data) data) /\ pcbs'' = pcbs)).
Proof.
  intros Hs Hd Hb Hl Hg Hc Hch Ha Hq He.
  rewrite udp_input_segment by done. rewrite Hg. cbv zeta. rewrite Hc. cbn [unwrap]. rewrite bind_ret.
  unfold chan_send. rewrite Hch, Ha. cbn. rewrite He, Hq. cbn.
  apply udp_get_by_host_Some in Hg as [Hi (Ho & _)%udp_answers_spec].
  split_and!; [done|intros; by rewrite list_lookup_insert_ne|].
  unfold udp_receive_finish, chan_recv. cbn.
  rewrite list_lookup_insert_eq by by eapply lookup_lt_Some. cbn.
  unfold pcb_at. rewrite list_lookup_insert_eq by by eapply lookup_lt_Some. cbn.
  rewrite Ho. cbn. split; [done|].
  rewrite list_insert_insert_eq. apply list_insert_id. rewrite Hi. f_equal. destruct pcb. cbn in *. by subst.
Qed.

(** C25: UDP delivers.  What [udp_output] hands to IP is one datagram; given to
    [udp_input] of the station the destination names, it is queued for the
    socket bound to that endpoint, with the sender's endpoint and exactly the
    data, and wakes the receiver, whose [receive_from] returns it; no other
    socket changes. *)
Theorem udp_delivers src dst data n pcbs i pcb c ch e :
  endpoint_wf src -> endpoint_wf dst -> bytes_ok data -> zlen data <= UDP_DATA_MAX ->
  udp_get_by_host pcbs (address dst) (port dst) = Some (i, pcb) ->
  udp_sender pcb = Some c -> env_chans e !! c = Some ch -> ch_rx_alive ch = true ->
  ch_queue ch = [] -> data_entries pcb = [] ->
  udp_output src dst data n = ('(r, n) ← ip_output Udp (udp_segment src dst data) (address src) (address dst) n;
                               _ ← unwrap_result r; Ret n)
  /\ returns (udp_input (udp_segment src dst data) (8 + zlen data) (address src) (address dst) pcbs e)
       (fun '(r, pcbs', e') => r = Ok tt
          /\ (forall j, j <> i -> pcbs' !! j = pcbs !! j)
          /\ returns (udp_receive_finish c i pcbs' e') (fun '(d, pcbs'', _) =>
               d = Some (mkUdpDataEntry src (zlen data) data) /\ pcbs'' = pcbs)).
Proof.
  intros. split; [by apply udp_output_segment|by eapply udp_input_delivers].
Qed.

(** C26: sockets do not share datagrams.  Whatever the sequence of opens,
    binds, closes, inputs and receives, where only open sockets are bound, at most
    one socket answers to a destination other than 0.0.0.0 and port 0 (the address
    and port that a socket has before it is bound). *)
Theorem udp_binding_unique e pcbs e' a p i j q r :
  rtc udp_step (UdpPcbs_new, e) (pcbs, e') ->
  a <> IP_ADDR_ANY -> p <> 0 ->
  pcbs !! i = Some q -> pcbs !! j = Some r ->
  udp_answers a p q = true -> udp_answers a p r = true -> i = j.
Proof.
  intros [Hx _]%udp_reachable_exclusive Ha Hp Hq Hr
    (Oq & Aq & Pq)%udp_answers_spec (Or & Ar & Pr)%udp_answers_spec.
  destruct (decide (i = j)) as [|Hne]; [done|exfalso].
  apply (Hx i j q r); try done. split; [by rewrite Pq|]. split; [by rewrite Pq, Pr|]. naive_solver.
Qed.

(** The source endpoint of [send_to], from a socket with an address.  A
    bound socket does not send from its own port but from port 0; an unbound
    one sends from the least unused port of 49152..65534, which exists because
    the table has 16 entries, put into the header in host byte order. *)
Theorem udp_send_to_source i pcb data remote pcbs n :
  pcbs !! i = Some pcb -> length pcbs = UDP_PCB_COUNT ->
  address (local_endpoint pcb) <> IP_ADDR_ANY ->
  let a := address (local_endpoint pcb) in
  (port (local_endpoint pcb) <> 0 ->
     udp_send_to i data remote pcbs n = udp_output (mkIPEndpoint a 0) remote data n)
  /\ (port (local_endpoint pcb) = 0 -> exists p,
        UDP_SRC_PORT_MIN <= p < UDP_SRC_PORT_MAX /\ udp_get_by_host pcbs a p = None
        /\ (forall q, UDP_SRC_PORT_MIN <= q < p -> udp_get_by_host pcbs a q <> None)
        /\ udp_send_to i data remote pcbs n = udp_output (mkIPEndpoint a p) remote data n).
Proof.
  intros Hi Hlen Ha a. unfold udp_send_to, pcb_at. rewrite Hi. cbn [unwrap]. rewrite bind_ret.
  change (IPEndpoint_new (address (local_endpoint pcb)) 0) with (mkIPEndpoint a 0). cbv zeta.
  cbn [address]. rewrite (proj2 (Z.eqb_neq a _)) by done. rewrite bind_ret. split.
  - intros Hp. by rewrite (proj2 (Z.eqb_neq (port _) _)) by done.
  - intros ->. cbn [Z.eqb].
    destruct (udp_find_port_total pcbs a (Z.to_nat (UDP_SRC_PORT_MAX - UDP_SRC_PORT_MIN))
      UDP_SRC_PORT_MIN) as (Hr & Hu & Hall); [rewrite Hlen; vm_compute; lia|done|].
    cbn [address port set_field set_port]. set (p := udp_find_port _ _ _ _) in *.
    rewrite Z2Nat.id in Hr by done.
    exists p. rewrite (proj2 (Z.eqb_neq p 0)) by (unfold UDP_SRC_PORT_MIN in Hr; lia).
    split_and!; try lia; [ | |done].
    + rewrite is_endpoint_used_spec in Hu. by destruct (udp_get_by_host _ _ _).
    + intros q Hq. specialize (Hall q Hq). rewrite is_endpoint_used_spec in Hall.
      by destruct (udp_get_by_host _ _ _).
Qed.
End properties.

(** ** Concrete sockets, for evaluation *)

Definition demo_udp_pcb : UdpPcb := mkUdpPcb UdpOpen (mkIPEndpoint 0x020200c0 (le_to_be_u16 7)) (Some 0%nat) [].
Definition demo_udp_pcbs : UdpPcbs := demo_udp_pcb :: replicate 15 UdpPcb_new.
Definition demo_udp_env : Env := env_init <|env_chans := [mkChan [] true true]|>.
Definition demo_udp_src : IPEndpoint := mkIPEndpoint 0x010200c0 (le_to_be_u16 5000).

Lemma udp_delivers_witness :
  returns (@udp_input debug_build (udp_segment demo_udp_src (local_endpoint demo_udp_pcb) [1; 2; 3]) 11
    0x010200c0 0x020200c0 demo_udp_pcbs demo_udp_env) (fun '(r, pcbs', e') => r = Ok tt
      /\ (forall j, j <> 0%nat -> pcbs' !! j = demo_udp_pcbs !! j)
      /\ returns (udp_receive_finish 0 0 pcbs' e') (fun '(d, pcbs'', _) =>
           d = Some (mkUdpDataEntry demo_udp_src 3 [1; 2; 3]) /\ pcbs'' = demo_udp_pcbs)).
Proof.
  refine (proj2 (@udp_delivers demo_platform debug_build demo_udp_src (local_endpoint demo_udp_pcb) [1; 2; 3]
    demo_net_arp demo_udp_pcbs 0 demo_udp_pcb 0 (mkChan [] true true) demo_udp_env _ _ _ _ _ _ _ _ _ _)).
  - by split.
  - by split.
  - bytes_tac.
  - done.
  - by vm_compute.
  - done.
  - done.
  - done.
  - done.
  - done.
Defined.

Lemma udp_binding_unique_witness :
  let pcbs := <[0%nat := UdpPcb_new <|udp_state := UdpOpen|> <|local_endpoint := mkIPEndpoint 0 7|>]> UdpPcbs_new in
  0%nat = 0%nat /\ udp_get_by_host pcbs 5 7 = Some (0%nat, UdpPcb_new <|udp_state := UdpOpen|> <|local_endpoint := mkIPEndpoint 0 7|>).
Proof.
  intros pcbs. split; [|by vm_compute].
  refine (@udp_binding_unique debug_build env_init pcbs env_init 5 7 0 0
    (UdpPcb_new <|udp_state := UdpOpen|> <|local_endpoint := mkIPEndpoint 0 7|>)
    (UdpPcb_new <|udp_state := UdpOpen|> <|local_endpoint := mkIPEndpoint 0 7|>) _ _ _ _ _ _ _); try done.
  eapply rtc_l; [|eapply rtc_l; [|apply rtc_refl]].
  - by eapply us_open.
  - by eapply (us_bind _ _ 0 _ (mkIPEndpoint 0 7)).
Defined.

Lemma udp_send_to_source_witness :
  @udp_send_to demo_platform debug_build 0 [1] demo_udp_src demo_udp_pcbs demo_net_arp =
    @udp_output demo_platform debug_build (mkIPEndpoint 0x020200c0 0) demo_udp_src [1] demo_net_arp.
Proof.
  refine (proj1 (@udp_send_to_source demo_platform debug_build 0 demo_udp_pcb [1] demo_udp_src demo_udp_pcbs
    demo_net_arp _ _ _) _); done.
Defined.
