(* ===== verification/UdpSpec.v ===== *)
(** * What the UDP sockets promise

    The abstract socket is the log of the datagrams that arrived for its endpoint
    since it was opened and the number of them handed to the user; [receive_from]
    hands out the next one.  The table of control blocks refines it: every
    labelled run of the operations of udp.rs is a run of the specification with
    the same labels. *)
From S2P Require Import Prelude Platform LinkedList Bytes Checksum IpTypes Devices Arp Ip Transport Udp.

#[local] Set Warnings "-register-all".

(** ** Specification *)

Record USocket := mkUSocket {
  sk_local : IPEndpoint;
  sk_log : list UdpDataEntry;
  sk_taken : nat
}.

Abbreviation USockets := (gmap nat USocket).

(** What a caller or a peer sees of an operation.  [EvDatagram dst entry]: a
    valid datagram for [dst]; [EvReceive i r]: [receive_from] returned [r];
    [EvInternal]: a packet that is refused, the start of a wait, a shutdown. *)
Inductive UdpEvent :=
| EvOpen (i : nat)
| EvBind (i : nat) (local : IPEndpoint)
| EvDelete (i : nat)
| EvDatagram (dst : IPEndpoint) (entry : UdpDataEntry)
| EvReceive (i : nat) (r : option UdpDataEntry)
| EvInternal.

(** The socket is meant by the endpoint. *)
Definition sk_answers (dst : IPEndpoint) (k : USocket) : Prop :=
  (address (sk_local k) = IP_ADDR_ANY \/ address dst = IP_ADDR_ANY \/ address (sk_local k) = address dst)
  /\ port (sk_local k) = port dst.

Inductive spec_step : USockets -> UdpEvent -> USockets -> Prop :=
| ss_open m i : m !! i = None ->
    spec_step m (EvOpen i) (<[i := mkUSocket (mkIPEndpoint IP_ADDR_ANY 0) [] 0]> m)
| ss_bind m i k local : m !! i = Some k ->
    (forall j k', m !! j = Some k' -> ~ sk_answers local k') ->
    spec_step m (EvBind i local) (<[i := mkUSocket local (sk_log k) (sk_taken k)]> m)
| ss_delete m i : spec_step m (EvDelete i) (delete i m)
| ss_datagram m i k dst entry : m !! i = Some k -> sk_answers dst k ->
    (port dst <> 0 -> address dst <> IP_ADDR_ANY -> forall j k', m !! j = Some k' -> sk_answers dst k' -> j = i) ->
    spec_step m (EvDatagram dst entry) (<[i := mkUSocket (sk_local k) (sk_log k ++ [entry]) (sk_taken k)]> m)
| ss_receive m i k entry : m !! i = Some k -> sk_log k !! sk_taken k = Some entry ->
    spec_step m (EvReceive i (Some entry)) (<[i := mkUSocket (sk_local k) (sk_log k) (S (sk_taken k))]> m)
| ss_interrupted m i : spec_step m (EvReceive i None) m
| ss_internal m : spec_step m EvInternal m.

Inductive spec_run : USockets -> list UdpEvent -> USockets -> Prop :=
| sr_nil m : spec_run m [] m
| sr_snoc m0 evs m ev m' : spec_run m0 evs m -> spec_step m ev m' -> spec_run m0 (evs ++ [ev]) m'.

(** The operations of udp.rs with their labels. *)
Section labelled.
Context `{BuildProfile}.

Inductive table_step : UdpPcbs * Env -> UdpEvent -> UdpPcbs * Env -> Prop :=
| ts_open pcbs e i pcbs' : udp_open pcbs = Ret (i, pcbs') -> table_step (pcbs, e) (EvOpen i) (pcbs', e)
| ts_bind pcbs e i pcb local pcbs' : pcbs !! i = Some pcb -> udp_state pcb = UdpOpen ->
    udp_bind pcbs i local = Ret pcbs' -> table_step (pcbs, e) (EvBind i local) (pcbs', e)
| ts_delete pcbs e i pcbs' e' : udp_delete_entry i pcbs e = Ret (pcbs', e') ->
    table_step (pcbs, e) (EvDelete i) (pcbs', e')
| ts_datagram pcbs e data len src dst h data_len pcbs' e' : bytes_to_struct UdpHeader data = Ret h ->
    sub_usize len (size_of UdpHeader) = Ret data_len -> udp_input data len src dst pcbs e = Ret (Ok tt, pcbs', e') ->
    table_step (pcbs, e) (EvDatagram (mkIPEndpoint dst (udp_dst_port h))
      (mkUdpDataEntry (mkIPEndpoint src (udp_src_port h)) data_len (drop 8 data))) (pcbs', e')
| ts_refused pcbs e data len src dst pcbs' e' : udp_input data len src dst pcbs e = Ret (Err, pcbs', e') ->
    table_step (pcbs, e) EvInternal (pcbs', e')
| ts_receive_start pcbs e i c pcbs' e' : udp_receive_start i pcbs e = Ret (c, pcbs', e') ->
    table_step (pcbs, e) EvInternal (pcbs', e')
| ts_receive pcbs e c i r pcbs' e' : udp_receive_finish c i pcbs e = Ret (r, pcbs', e') ->
    table_step (pcbs, e) (EvReceive i r) (pcbs', e')
| ts_close pcbs e e' : udp_close_sockets pcbs e = Ret e' -> table_step (pcbs, e) EvInternal (pcbs, e').

Inductive table_run : UdpPcbs * Env -> list UdpEvent -> UdpPcbs * Env -> Prop :=
| tr_nil s : table_run s [] s
| tr_snoc s0 evs s ev s' : table_run s0 evs s -> table_step s ev s' -> table_run s0 (evs ++ [ev]) s'.
End labelled.

(** The control block [p] of an entry represents the socket [o], if any: an open
    entry has its endpoint and queues what has not been handed out; any other
    entry is as new. *)
Definition represents (p : UdpPcb) (o : option USocket) : Prop :=
  if bool_decide (udp_state p = UdpOpen) then
    exists k, o = Some k /\ local_endpoint p = sk_local k /\ (sk_taken k <= length (sk_log k))%nat
      /\ data_entries p = drop (sk_taken k) (sk_log k)
  else o = None /\ local_endpoint p = mkIPEndpoint IP_ADDR_ANY 0 /\ data_entries p = [].

Definition refines_spec (pcbs : UdpPcbs) (m : USockets) : Prop :=
  (forall i, pcbs !! i = None -> m !! i = None) /\ (forall i p, pcbs !! i = Some p -> represents p (m !! i)).

(** ** Lemmas *)

Section refinement.
Context `{BuildProfile}.
Implicit Types (pcbs : UdpPcbs) (m : USockets) (e : Env) (k : USocket) (p : UdpPcb).

Lemma represents_open p o : represents p o -> udp_state p = UdpOpen ->
  exists k, o = Some k /\ local_endpoint p = sk_local k /\ (sk_taken k <= length (sk_log k))%nat
    /\ data_entries p = drop (sk_taken k) (sk_log k).
Proof. unfold represents. intros R E. by rewrite bool_decide_eq_true_2 in R. Qed.

Lemma represents_Some p k : represents p (Some k) -> udp_state p = UdpOpen.
Proof. unfold represents. case_bool_decide; [done|]. by intros [? _]. Qed.

(** The entries of a represented table. *)
Lemma refines_lookup pcbs m i k : refines_spec pcbs m -> m !! i = Some k ->
  exists p, pcbs !! i = Some p /\ udp_state p = UdpOpen /\ local_endpoint p = sk_local k.
Proof.
  intros [Hn Hr] Hi. destruct (pcbs !! i) as [p|] eqn:E; [|by rewrite (Hn i E) in Hi].
  specialize (Hr i p E). rewrite Hi in Hr. pose proof (represents_Some _ _ Hr) as Ho.
  destruct (represents_open _ _ Hr Ho) as (k' & [= <-] & El & _). by exists p.
Qed.

(** Changing one entry and its socket. *)
Lemma refines_insert pcbs m i p o : refines_spec pcbs m -> (i < length pcbs)%nat -> represents p o ->
  refines_spec (<[i := p]> pcbs) (partial_alter (fun _ => o) i m).
Proof.
  intros [Hn Hr] Hi Hp. split.
  - intros j Hj. apply lookup_ge_None in Hj. rewrite length_insert in Hj. rewrite <-lookup_ge_None in Hj.
    rewrite lookup_partial_alter_ne; [auto|]. intros ->. apply lookup_ge_None in Hj. lia.
  - intros j q Hj. apply list_lookup_insert_Some in Hj as [(-> & <- & _)|[Hne Hj]].
    + by rewrite lookup_partial_alter_eq.
    + rewrite lookup_partial_alter_ne by done. auto.
Qed.

(** Changing the sender only. *)
Lemma refines_sender pcbs m i p s : refines_spec pcbs m -> pcbs !! i = Some p ->
  refines_spec (<[i := p <|udp_sender := s|>]> pcbs) m.
Proof.
  intros [Hn Hr] Hi. split.
  - intros j Hj. apply Hn. apply lookup_ge_None in Hj. rewrite length_insert in Hj. by apply lookup_ge_None.
  - intros j q Hj. apply list_lookup_insert_Some in Hj as [(-> & <- & _)|[_ Hj]]; [|by apply Hr].
    exact (Hr _ _ Hi).
Qed.

Lemma sk_answers_iff p k dst : local_endpoint p = sk_local k -> udp_state p = UdpOpen ->
  udp_answers (address dst) (port dst) p = true <-> sk_answers dst k.
Proof. intros El Ho. rewrite udp_answers_spec. unfold sk_answers. rewrite <-El. naive_solver. Qed.

Lemma refines_new : refines_spec UdpPcbs_new ∅.
Proof.
  split; [done|]. intros i p Hi%lookup_replicate. by destruct Hi as [-> _].
Qed.
End refinement.

Section steps.
Context `{BuildProfile}.
Implicit Types (pcbs : UdpPcbs) (m : USockets) (e : Env) (k : USocket) (p : UdpPcb).

(** A step of the specification that the table follows. *)
Abbreviation follows pcbs' m ev := (exists m', spec_step m ev m' /\ refines_spec pcbs' m') (only parsing).

Lemma udp_open_refines pcbs m i pcbs' : refines_spec pcbs m -> udp_open pcbs = Ret (i, pcbs') ->
  follows pcbs' m (EvOpen i).
Proof.
  intros R E. unfold udp_open in E. destruct (list_find _ _) as [[j p]|] eqn:F; [|done]. injection E as <- <-.
  apply list_find_Some in F as (Hj & Hp & _). pose proof (proj2 R j p Hj) as Rp. unfold represents in Rp.
  rewrite Hp in Rp. cbn in Rp. destruct Rp as (Hm & Hl & Hd). eexists. split; [by apply ss_open|].
  apply (refines_insert _ _ _ _ (Some _) R); [by eapply lookup_lt_Some|]. eexists. by split_and!.
Qed.

Lemma udp_bind_refines pcbs m i p local pcbs' : refines_spec pcbs m -> pcbs !! i = Some p -> udp_state p = UdpOpen ->
  udp_bind pcbs i local = Ret pcbs' -> follows pcbs' m (EvBind i local).
Proof.
  intros R Hi Ho E. unfold udp_bind in E. destruct (udp_get_by_host _ _ _) eqn:F; [done|]. rewrite Hi in E.
  injection E as <-. destruct (represents_open _ _ (proj2 R i p Hi) Ho) as (k & Hm & Hl & Hlen & Hd).
  eexists. split.
  - apply (ss_bind _ _ k); [done|]. intros j k' Hj Ha.
    destruct (refines_lookup _ _ _ _ R Hj) as (q & Hq & Hqo & Hql).
    apply (sk_answers_iff q k' local Hql Hqo) in Ha. rewrite (udp_get_by_host_None _ _ _ _ _ F Hq) in Ha. done.
  - apply (refines_insert _ _ _ _ (Some _) R); [by eapply lookup_lt_Some|].
    unfold represents. rewrite bool_decide_eq_true_2 by done. by eexists.
Qed.

Lemma udp_delete_refines pcbs m i e pcbs' e' : refines_spec pcbs m -> udp_delete_entry i pcbs e = Ret (pcbs', e') ->
  follows pcbs' m (EvDelete i).
Proof.
  intros R E. unfold udp_delete_entry in E. inv_bind E. apply pcb_at_Ret in E0. inv_bind E. injection E as <- <-.
  eexists. split; [apply ss_delete|]. apply (refines_insert _ _ _ _ None R); [by eapply lookup_lt_Some|done].
Qed.

(** The socket a valid datagram goes to. *)
Lemma udp_datagram_refines pcbs m e data len src dst h data_len pcbs' e' :
  refines_spec pcbs m -> udp_exclusive pcbs -> bytes_to_struct UdpHeader data = Ret h ->
  sub_usize len (size_of UdpHeader) = Ret data_len -> udp_input data len src dst pcbs e = Ret (Ok tt, pcbs', e') ->
  follows pcbs' m (EvDatagram (mkIPEndpoint dst (udp_dst_port h))
    (mkUdpDataEntry (mkIPEndpoint src (udp_src_port h)) data_len (drop 8 data))).
Proof.
  intros R [Hx _] Hh Hlen E. unfold udp_input in E. rewrite Hh, bind_ret in E. cbv zeta in E.
  destruct (negb _); [done|]. do 2 inv_bind E. destruct (negb _); [done|].
  destruct (udp_get_by_host _ _ _) as [[i p]|] eqn:F; [|done].
  apply udp_get_by_host_Some in F as [Hi Ha]. rewrite Hlen in E.
  inv_bind E. rewrite bind_ret in E. inv_bind E. destruct (chan_send _ _ _) as [rs es]. inv_bind E. injection E as <- <-.
  assert (x1 = drop 8 data) as ->.
  { unfold slice_from in E2. case_match; [|done]. by injection E2. }
  set (dst_ep := mkIPEndpoint dst (udp_dst_port h)). change (udp_answers (address dst_ep) (port dst_ep) p = true) in Ha.
  pose proof (proj1 (udp_answers_spec _ _ _) Ha) as (Ho & Haddr & Hport).
  destruct (represents_open _ _ (proj2 R i p Hi) Ho) as (k & Hm & Hl & Hle & Hd).
  eexists. split; [apply (ss_datagram _ i k); [done|by apply (sk_answers_iff p k dst_ep)|]|].
  - intros Hp Hany j k' Hj Hk'. destruct (refines_lookup _ _ _ _ R Hj) as (q & Hq & Hqo & Hql).
    destruct (decide (j = i)) as [|Hne]; [done|]. destruct (Hx j i q p); try done.
    destruct Hk' as [Ha' Hp']. unfold udp_overlap. rewrite Hql, Hport. split_and!; [congruence|done|].
    destruct Ha' as [?|[?|?]]; [by left|done|]. destruct Haddr as [?|[?|?]]; [by right; left|done|right; right; congruence].
  - apply (refines_insert _ _ _ _ (Some _) R); [by eapply lookup_lt_Some|].
    unfold represents. rewrite bool_decide_eq_true_2 by done. eexists. split_and!; [done|done| |].
    + cbn. rewrite length_app. lia.
    + cbn. rewrite Hd, drop_app_le by done. done.
Qed.

Lemma udp_refused_same data len src dst pcbs e pcbs' e' :
  udp_input data len src dst pcbs e = Ret (Err, pcbs', e') -> pcbs' = pcbs.
Proof.
  intros E. unfold udp_input in E. inv_bind E. cbv zeta in E. destruct (negb _); [done|].
  do 2 inv_bind E. destruct (negb _); [by injection E as <- <-|].
  destruct (udp_get_by_host _ _ _) as [[i p]|]; [|by injection E as <- <-].
  do 3 inv_bind E. destruct (chan_send _ _ _). by inv_bind E.
Qed.

Lemma udp_receive_refines pcbs m e c i r pcbs' e' : refines_spec pcbs m ->
  udp_receive_finish c i pcbs e = Ret (r, pcbs', e') -> follows pcbs' m (EvReceive i r).
Proof.
  intros R E. unfold udp_receive_finish in E. inv_bind E. destruct x as [rb e1]. inv_bind E.
  destruct (negb x); [injection E as <- <- <-; exists m; split; [apply ss_interrupted|done]|].
  inv_bind E. apply pcb_at_Ret in E2. rename x0 into p.
  case_bool_decide as Ho; cbn [negb] in E;
    [|injection E as <- <- <-; exists m; split; [apply ss_interrupted|done]].
  destruct (data_entries p) as [|d ds] eqn:Ed; injection E as <- <- <-;
    [exists m; split; [apply ss_interrupted|done]|].
  destruct (represents_open _ _ (proj2 R i p E2) Ho) as (k & Hm & Hl & Hle & Hd). rewrite Ed in Hd.
  assert (sk_log k !! sk_taken k = Some d) as Hk by (rewrite <-(Nat.add_0_r (sk_taken k)), <-lookup_drop, <-Hd; done).
  eexists. split; [by apply (ss_receive _ _ k)|].
  apply (refines_insert _ _ _ _ (Some _) R); [by eapply lookup_lt_Some|].
  unfold represents. rewrite bool_decide_eq_true_2 by done. eexists. split_and!; [done|done| |].
  - cbn. by apply lookup_lt_Some in Hk.
  - cbn. rewrite (drop_S _ _ _ Hk) in Hd. by injection Hd.
Qed.

Lemma table_step_refines s ev s' m : table_step s ev s' -> refines_spec (fst s) m -> udp_exclusive (fst s) ->
  follows (fst s') m ev.
Proof.
  intros St R Hx. destruct St as [pcbs e i pcbs' E|pcbs e i p l pcbs' Hi Ho E|pcbs e i pcbs' e' E
    |pcbs e data len src dst h dl pcbs' e' Hh Hl E|pcbs e data len src dst pcbs' e' E|pcbs e i c pcbs' e' E
    |pcbs e c i r pcbs' e' E|pcbs e e' E]; cbn [fst] in *.
  - by eapply udp_open_refines.
  - by eapply udp_bind_refines.
  - by eapply udp_delete_refines.
  - by eapply udp_datagram_refines.
  - rewrite (udp_refused_same _ _ _ _ _ _ _ _ E). exists m. split; [apply ss_internal|done].
  - unfold udp_receive_start in E. cbn in E. inv_bind E. apply pcb_at_Ret in E0. injection E as <- <- <-.
    exists m. split; [apply ss_internal|]. by apply refines_sender.
  - by eapply udp_receive_refines.
  - exists m. split; [apply ss_internal|done].
Qed.

(** The labels can be forgotten. *)
Lemma table_step_udp_step s ev s' : table_step s ev s' -> udp_step s s'.
Proof.
  destruct 1; [by eapply us_open|by eapply us_bind|by eapply us_delete|by eapply us_input|by eapply us_input
    |by eapply us_receive_start|by eapply us_receive_finish|by apply us_close].
Qed.
End steps.

(** ** Properties *)

Section properties.
Context `{BuildProfile}.

(** C2: the UDP sockets refine their specification.  Whatever is opened, bound,
    deleted, received and refused in whatever order, what callers and peers see
    is a run of the specification: every datagram joins the log of the one socket
    that is bound to its endpoint, [receive_from] returns the entries of the log
    of its socket one after the other, each once and in the order of arrival, and
    what is queued in the table is the part of the log not yet returned. *)
Theorem udp_sockets_refine e evs pcbs e' : table_run (UdpPcbs_new, e) evs (pcbs, e') ->
  exists m, spec_run ∅ evs m /\ refines_spec pcbs m.
Proof.
  intros Hr. assert (exists m, spec_run ∅ evs m /\ refines_spec (fst (pcbs, e')) m /\ udp_exclusive (fst (pcbs, e')))
    as (m & Hs & R & _); [|by exists m].
  assert (refines_spec (fst (UdpPcbs_new, e)) ∅ /\ udp_exclusive (fst (UdpPcbs_new, e))) as P
    by (split; [apply refines_new|apply udp_new_exclusive]).
  induction Hr as [s|s0 evs s ev s' _ IH St]; [exists ∅; split; [apply sr_nil|exact P]|].
  destruct (IH P) as (m & Hs & R & Hx). destruct (table_step_refines s ev s' m St R Hx) as (m' & Hs' & R').
  exists m'. split_and!; [by eapply sr_snoc|done|].
  exact (udp_step_exclusive _ _ (table_step_udp_step _ _ _ St) Hx).
Qed.
End properties.

(** ** A concrete run, for evaluation: a socket is opened, bound, and gets a
    datagram that is then received. *)
Definition demo_udp_entry : UdpDataEntry := mkUdpDataEntry demo_udp_src 2 [104; 105].

Lemma udp_sockets_refine_witness :
  exists s m, @table_run debug_build (UdpPcbs_new, demo_udp_env)
    [EvOpen 0; EvBind 0 (mkIPEndpoint 0x020200c0 (le_to_be_u16 7)); EvInternal;
     EvDatagram (mkIPEndpoint 0x020200c0 (le_to_be_u16 7)) demo_udp_entry; EvReceive 0 (Some demo_udp_entry)] s
  /\ refines_spec (fst s) m.
Proof.
  assert (exists s, @table_run debug_build (UdpPcbs_new, demo_udp_env)
    [EvOpen 0; EvBind 0 (mkIPEndpoint 0x020200c0 (le_to_be_u16 7)); EvInternal;
     EvDatagram (mkIPEndpoint 0x020200c0 (le_to_be_u16 7)) demo_udp_entry; EvReceive 0 (Some demo_udp_entry)] s) as [s R].
  { eexists. eapply (tr_snoc _ [_; _; _; _]); [eapply (tr_snoc _ [_; _; _]); [eapply (tr_snoc _ [_; _]);
      [eapply (tr_snoc _ [_]); [eapply (tr_snoc _ []); [apply tr_nil|]|]|]|]|].
    - eapply ts_open. reflexivity.
    - eapply ts_bind; reflexivity.
    - eapply (ts_receive_start _ _ 0). reflexivity.
    - eapply (ts_datagram _ _ (udp_segment demo_udp_src (mkIPEndpoint 0x020200c0 (le_to_be_u16 7)) [104; 105]) 10
        0x010200c0 0x020200c0 (udp_header_of demo_udp_src (mkIPEndpoint 0x020200c0 (le_to_be_u16 7)) [104; 105]) 2);
        reflexivity.
    - eapply (ts_receive _ _ 1). reflexivity. }
  exists s. destruct s as [pcbs e'].
  destruct (@udp_sockets_refine debug_build demo_udp_env _ pcbs e' R) as (m & _ & Hm). by exists m.
Defined.
