(* ===== verification/TcpTypes.v ===== *)
(** * protocols/ip/tcp.rs: data and the table of control blocks

    Flags, the header, segments, the transmission control block and the
    operations of [TcpPcb] and [TcpPcbs].  The one-field structs [TcpDataQueue],
    [TcpBacklog] and [TcpPcbs] are the queues and the vector they hold. *)
From S2P Require Import Prelude Platform LinkedList Bytes Checksum IpTypes Devices Arp Ip Transport Udp.

Definition TCP_PCB_COUNT : nat := 16.
Definition TCP_DEFAULT_ITVL_MICROS : Z := 200000.
Definition TCP_RETRANSMIT_TIMOUT_SEC : Z := 12.
Definition TCP_TIMEWAIT_SEC : Z := 30.
Definition TCP_SRC_PORT_MIN : Z := 49152.
Definition TCP_SRC_PORT_MAX : Z := 65535.
Definition PCB_BUF_LEN : Z := 65535.

(** ** Flags *)

Inductive TcpFlag := FIN | SYN | RST | PSH | ACK | URG.

Definition tcp_flag_as_u8 (f : TcpFlag) : Z :=
  match f with FIN => 0x01 | SYN => 0x02 | RST => 0x04 | PSH => 0x08 | ACK => 0x10 | URG => 0x20 end.

Definition tcp_flag_is (flags : Z) (f : TcpFlag) : bool := Z.land flags 0x3f =? tcp_flag_as_u8 f.
Definition tcp_flag_exists (flags : Z) (f : TcpFlag) : bool :=
  negb (Z.land (Z.land flags 0x3f) (tcp_flag_as_u8 f) =? 0).

(** ** The header *)

Record TcpHeader := mkTcpHeader {
  th_src_port : Z;
  th_dst_port : Z;
  th_seq_num : Z;
  th_ack_num : Z;
  th_offset : Z;
  th_flags : Z;
  th_window : Z;
  th_sum : Z;
  th_urg_ptr : Z
}.

Definition TcpHeader_bytes (h : TcpHeader) : list Z :=
  le_bytes 2 (th_src_port h) ++ le_bytes 2 (th_dst_port h) ++ le_bytes 4 (th_seq_num h)
  ++ le_bytes 4 (th_ack_num h) ++ le_bytes 1 (th_offset h) ++ le_bytes 1 (th_flags h)
  ++ le_bytes 2 (th_window h) ++ le_bytes 2 (th_sum h) ++ le_bytes 2 (th_urg_ptr h).

Definition TcpHeader_of (b : list Z) : TcpHeader :=
  mkTcpHeader (int_at 0 2 b) (int_at 2 2 b) (int_at 4 4 b) (int_at 8 4 b) (int_at 12 1 b)
    (int_at 13 1 b) (int_at 14 2 b) (int_at 16 2 b) (int_at 18 2 b).

Definition TcpHeader_wf (h : TcpHeader) : Prop :=
  in_u16 (th_src_port h) /\ in_u16 (th_dst_port h) /\ in_u32 (th_seq_num h) /\ in_u32 (th_ack_num h)
  /\ in_u8 (th_offset h) /\ in_u8 (th_flags h) /\ in_u16 (th_window h) /\ in_u16 (th_sum h)
  /\ in_u16 (th_urg_ptr h).

Section TcpHeader_packed.
Lemma TcpHeader_len h : TcpHeader_wf h -> zlen (TcpHeader_bytes h) = 20.
Proof. intros _. unfold TcpHeader_bytes, zlen. by rewrite !length_app, !le_bytes_len. Qed.
Lemma TcpHeader_bytes_ok h : TcpHeader_wf h -> bytes_ok (TcpHeader_bytes h).
Proof. intros _. repeat apply Forall_app_2; apply le_bytes_bytes. Qed.
Lemma TcpHeader_of_to h : TcpHeader_wf h -> TcpHeader_of (TcpHeader_bytes h) = h.
Proof.
  destruct h. intros (? & ? & ? & ? & ? & ? & ? & ? & ?). simpl in *.
  unfold TcpHeader_of, int_at, bytes_at. simpl. by rewrite !le4_id, !le2_id, !le1_id.
Qed.
Lemma TcpHeader_of_wf b : zlen b = 20 -> bytes_ok b -> TcpHeader_wf (TcpHeader_of b).
Proof.
  intros L Hb. unfold zlen in L. explode_list b. bytes_inv.
  unfold TcpHeader_of, TcpHeader_wf, int_at, bytes_at. cbn [take drop].
  cbn [th_src_port th_dst_port th_seq_num th_ack_num th_offset th_flags th_window th_sum th_urg_ptr].
  split_and!; try by apply le_int_bound_16.
  all: unfold in_u8, in_u32 in *; cbn [le_int]; lia.
Qed.
Lemma TcpHeader_to_of b : zlen b = 20 -> bytes_ok b -> TcpHeader_bytes (TcpHeader_of b) = b.
Proof.
  intros L Hb. unfold zlen in L. explode_list b. bytes_inv.
  unfold TcpHeader_of, TcpHeader_bytes, int_at, bytes_at. cbn [take drop].
  cbn [th_src_port th_dst_port th_seq_num th_ack_num th_offset th_flags th_window th_sum th_urg_ptr].
  by rewrite !le2_bytes_id, !le1_bytes_id, !le4_bytes_id.
Qed.
End TcpHeader_packed.

#[export] Instance TcpHeader_Packed : Packed TcpHeader := {
  size_of := 20;
  to_u8_slice := TcpHeader_bytes;
  struct_of := TcpHeader_of;
  packed_wf := TcpHeader_wf;
  size_of_nonneg := ltac:(done);
  to_u8_slice_len := TcpHeader_len;
  to_u8_slice_bytes := TcpHeader_bytes_ok;
  struct_of_to := TcpHeader_of_to;
  struct_of_wf := TcpHeader_of_wf;
  to_struct_of := TcpHeader_to_of
}.

(** ** Segments and control blocks *)

Record TcpSegmentInfo := mkTcpSegmentInfo {
  seg_seq_num : Z;
  seg_ack_num : Z;
  seg_len : Z;
  seg_window : Z;
  seg_urg_ptr : Z
}.

Record TcpPcbSendContext := mkTcpPcbSendContext {
  snd_next : Z;
  snd_una : Z;
  snd_window : Z;
  snd_urg_ptr : Z;
  wl1 : Z;
  wl2 : Z
}.

Record TcpPcbRecvContext := mkTcpPcbRecvContext {
  rcv_next : Z;
  rcv_window : Z;
  rcv_urg_ptr : Z
}.

Inductive TcpPcbState :=
| Free
| Closed
| Listen
| SynSent
| SynReceived
| Established
| FinWait1
| FinWait2
| Closing
| TimeWait
| CloseWait
| LastAck.

Inductive TcpPcbMode := NotSet | Rfc793 | Socket.

#[export] Instance TcpPcbState_eq_dec : EqDecision TcpPcbState.
Proof. solve_decision. Defined.
#[export] Instance TcpPcbMode_eq_dec : EqDecision TcpPcbMode.
Proof. solve_decision. Defined.

Record TcpDataQueueEntry := mkTcpDataQueueEntry {
  first_sent_at : Z;
  last_sent_at : Z;
  retry_interval : Z;
  dq_seq_num : Z;
  dq_flags : Z;
  dq_data : list Z
}.

Record TcpPcb := mkTcpPcb {
  tcp_state : TcpPcbState;
  tcp_mode : TcpPcbMode;
  tcp_local : IPEndpoint;
  tcp_remote : IPEndpoint;
  send_context : TcpPcbSendContext;
  iss : Z;
  recv_context : TcpPcbRecvContext;
  irs : Z;
  tcp_mtu : Z;
  mss : Z;
  tcp_buf : list Z;
  wait_time : option Z;
  tcp_sender : option nat;
  data_queue : list TcpDataQueueEntry;
  parent_id : option nat;
  backlog : list nat
}.

#[export] Instance set_snd_next : Setter snd_next := fun v x =>
  mkTcpPcbSendContext v (snd_una x) (snd_window x) (snd_urg_ptr x) (wl1 x) (wl2 x).
#[export] Instance set_snd_una : Setter snd_una := fun v x =>
  mkTcpPcbSendContext (snd_next x) v (snd_window x) (snd_urg_ptr x) (wl1 x) (wl2 x).
#[export] Instance set_snd_window : Setter snd_window := fun v x =>
  mkTcpPcbSendContext (snd_next x) (snd_una x) v (snd_urg_ptr x) (wl1 x) (wl2 x).
#[export] Instance set_wl1 : Setter wl1 := fun v x =>
  mkTcpPcbSendContext (snd_next x) (snd_una x) (snd_window x) (snd_urg_ptr x) v (wl2 x).
#[export] Instance set_wl2 : Setter wl2 := fun v x =>
  mkTcpPcbSendContext (snd_next x) (snd_una x) (snd_window x) (snd_urg_ptr x) (wl1 x) v.
#[export] Instance set_rcv_next : Setter rcv_next := fun v x =>
  mkTcpPcbRecvContext v (rcv_window x) (rcv_urg_ptr x).
#[export] Instance set_rcv_window : Setter rcv_window := fun v x =>
  mkTcpPcbRecvContext (rcv_next x) v (rcv_urg_ptr x).
#[export] Instance set_tcp_state : Setter tcp_state := fun v x =>
  mkTcpPcb v (tcp_mode x) (tcp_local x) (tcp_remote x) (send_context x) (iss x) (recv_context x)
    (irs x) (tcp_mtu x) (mss x) (tcp_buf x) (wait_time x) (tcp_sender x) (data_queue x)
    (parent_id x) (backlog x).
#[export] Instance set_tcp_mode : Setter tcp_mode := fun v x =>
  mkTcpPcb (tcp_state x) v (tcp_local x) (tcp_remote x) (send_context x) (iss x) (recv_context x)
    (irs x) (tcp_mtu x) (mss x) (tcp_buf x) (wait_time x) (tcp_sender x) (data_queue x)
    (parent_id x) (backlog x).
#[export] Instance set_tcp_local : Setter tcp_local := fun v x =>
  mkTcpPcb (tcp_state x) (tcp_mode x) v (tcp_remote x) (send_context x) (iss x) (recv_context x)
    (irs x) (tcp_mtu x) (mss x) (tcp_buf x) (wait_time x) (tcp_sender x) (data_queue x)
    (parent_id x) (backlog x).
#[export] Instance set_tcp_remote : Setter tcp_remote := fun v x =>
  mkTcpPcb (tcp_state x) (tcp_mode x) (tcp_local x) v (send_context x) (iss x) (recv_context x)
    (irs x) (tcp_mtu x) (mss x) (tcp_buf x) (wait_time x) (tcp_sender x) (data_queue x)
    (parent_id x) (backlog x).
#[export] Instance set_send_context : Setter send_context := fun v x =>
  mkTcpPcb (tcp_state x) (tcp_mode x) (tcp_local x) (tcp_remote x) v (iss x) (recv_context x)
    (irs x) (tcp_mtu x) (mss x) (tcp_buf x) (wait_time x) (tcp_sender x) (data_queue x)
    (parent_id x) (backlog x).
#[export] Instance set_iss : Setter iss := fun v x =>
  mkTcpPcb (tcp_state x) (tcp_mode x) (tcp_local x) (tcp_remote x) (send_context x) v
    (recv_context x) (irs x) (tcp_mtu x) (mss x) (tcp_buf x) (wait_time x) (tcp_sender x)
    (data_queue x) (parent_id x) (backlog x).
#[export] Instance set_recv_context : Setter recv_context := fun v x =>
  mkTcpPcb (tcp_state x) (tcp_mode x) (tcp_local x) (tcp_remote x) (send_context x) (iss x) v
    (irs x) (tcp_mtu x) (mss x) (tcp_buf x) (wait_time x) (tcp_sender x) (data_queue x)
    (parent_id x) (backlog x).
#[export] Instance set_irs : Setter irs := fun v x =>
  mkTcpPcb (tcp_state x) (tcp_mode x) (tcp_local x) (tcp_remote x) (send_context x) (iss x)
    (recv_context x) v (tcp_mtu x) (mss x) (tcp_buf x) (wait_time x) (tcp_sender x) (data_queue x)
    (parent_id x) (backlog x).
#[export] Instance set_tcp_buf : Setter tcp_buf := fun v x =>
  mkTcpPcb (tcp_state x) (tcp_mode x) (tcp_local x) (tcp_remote x) (send_context x) (iss x)
    (recv_context x) (irs x) (tcp_mtu x) (mss x) v (wait_time x) (tcp_sender x) (data_queue x)
    (parent_id x) (backlog x).
#[export] Instance set_wait_time_field : Setter wait_time := fun v x =>
  mkTcpPcb (tcp_state x) (tcp_mode x) (tcp_local x) (tcp_remote x) (send_context x) (iss x)
    (recv_context x) (irs x) (tcp_mtu x) (mss x) (tcp_buf x) v (tcp_sender x) (data_queue x)
    (parent_id x) (backlog x).
#[export] Instance set_tcp_sender : Setter tcp_sender := fun v x =>
  mkTcpPcb (tcp_state x) (tcp_mode x) (tcp_local x) (tcp_remote x) (send_context x) (iss x)
    (recv_context x) (irs x) (tcp_mtu x) (mss x) (tcp_buf x) (wait_time x) v (data_queue x)
    (parent_id x) (backlog x).
#[export] Instance set_data_queue : Setter data_queue := fun v x =>
  mkTcpPcb (tcp_state x) (tcp_mode x) (tcp_local x) (tcp_remote x) (send_context x) (iss x)
    (recv_context x) (irs x) (tcp_mtu x) (mss x) (tcp_buf x) (wait_time x) (tcp_sender x) v
    (parent_id x) (backlog x).
#[export] Instance set_parent_id : Setter parent_id := fun v x =>
  mkTcpPcb (tcp_state x) (tcp_mode x) (tcp_local x) (tcp_remote x) (send_context x) (iss x)
    (recv_context x) (irs x) (tcp_mtu x) (mss x) (tcp_buf x) (wait_time x) (tcp_sender x)
    (data_queue x) v (backlog x).
#[export] Instance set_backlog : Setter backlog := fun v x =>
  mkTcpPcb (tcp_state x) (tcp_mode x) (tcp_local x) (tcp_remote x) (send_context x) (iss x)
    (recv_context x) (irs x) (tcp_mtu x) (mss x) (tcp_buf x) (wait_time x) (tcp_sender x)
    (data_queue x) (parent_id x) v.

(** The fields the code reaches through the two contexts. *)
Definition set_una (v : Z) (p : TcpPcb) : TcpPcb := p <|send_context := (send_context p) <|snd_una := v|>|>.
Definition set_next (v : Z) (p : TcpPcb) : TcpPcb := p <|send_context := (send_context p) <|snd_next := v|>|>.
Definition set_rcv_next_of (v : Z) (p : TcpPcb) : TcpPcb :=
  p <|recv_context := (recv_context p) <|rcv_next := v|>|>.
Definition set_rcv_window_of (v : Z) (p : TcpPcb) : TcpPcb :=
  p <|recv_context := (recv_context p) <|rcv_window := v|>|>.
(** [send.window], [send.wl1] and [send.wl2] from a segment. *)
Definition set_send_window (seg : TcpSegmentInfo) (p : TcpPcb) : TcpPcb :=
  p <|send_context := (send_context p) <|snd_window := seg_window seg|> <|wl1 := seg_seq_num seg|>
                        <|wl2 := seg_ack_num seg|>|>.

Definition TcpPcb_new : TcpPcb :=
  mkTcpPcb Free NotSet (mkIPEndpoint IP_ADDR_ANY 0) (mkIPEndpoint IP_ADDR_ANY 0)
    (mkTcpPcbSendContext 0 0 0 0 0 0) 0 (mkTcpPcbRecvContext 0 0 0) 0 0 0 [] None None [] None [].

Abbreviation TcpPcbs := (list TcpPcb).

Definition TcpPcbs_new : TcpPcbs := replicate TCP_PCB_COUNT TcpPcb_new.

Definition state_is (p : TcpPcb) (st : TcpPcbState) : bool := bool_decide (tcp_state p = st).
Definition mode_is (p : TcpPcb) (m : TcpPcbMode) : bool := bool_decide (tcp_mode p = m).

(** [sender.send(b)] when there is a sender, an error only being logged. *)
Definition notify (s : option nat) (b : bool) (e : Env) : Env :=
  match s with Some c => snd (chan_send c b e) | None => e end.

Section pcb_code.
Context `{Platform}.

Definition add_data_queue (seq_num flags : Z) (data : list Z) (p : TcpPcb) (e : Env) : TcpPcb * Env :=
  let '(t, e) := now e in
  let entry := mkTcpDataQueueEntry t t (from_micros TCP_DEFAULT_ITVL_MICROS) seq_num flags data in
  (p <|data_queue := data_queue p ++ [entry]|>, e).

(** The scan of [clean_data_queue]: the last entry before the first one at or
    after [una]. *)
Fixpoint clean_scan (una : Z) (i : nat) (q : list TcpDataQueueEntry) (found : option nat) : option nat :=
  match q with
  | [] => found
  | entry :: q => if una <=? dq_seq_num entry then found else clean_scan una (S i) q (Some i)
  end.

Definition clean_data_queue (p : TcpPcb) : TcpPcb :=
  match clean_scan (snd_una (send_context p)) 0 (data_queue p) None with
  | Some i => p <|data_queue := delete i (data_queue p)|>
  | None => p
  end.

Definition release (p : TcpPcb) (e : Env) : TcpPcb * Env :=
  let p := p <|tcp_state := Free|> in
  let e := notify (tcp_sender p) false e in
  (p <|data_queue := []|> <|backlog := []|>, e).

Definition add_backlog (pcb_id : nat) (p : TcpPcb) : TcpPcb := p <|backlog := backlog p ++ [pcb_id]|>.

Definition new_entry (pcbs : TcpPcbs) : option (nat * TcpPcb * TcpPcbs) :=
  match list_find (fun p => tcp_state p = Free) pcbs with
  | Some (i, p) => let p := p <|tcp_state := Closed|> in Some (i, p, <[i := p]> pcbs)
  | None => None
  end.

(** The local part of the test of [select]. *)
Definition local_matches (local : IPEndpoint) (p : TcpPcb) : bool :=
  ((address (tcp_local p) =? IP_ADDR_ANY) || (address (tcp_local p) =? address local))
  && (port (tcp_local p) =? port local).

Definition listens (p : TcpPcb) : bool :=
  state_is p Listen && (address (tcp_remote p) =? IP_ADDR_ANY) && (port (tcp_remote p) =? 0).

Fixpoint select_loop (local : IPEndpoint) (remote_opt : option IPEndpoint) (i : nat) (pcbs : TcpPcbs)
    (listen_pcb : option (nat * TcpPcb)) : option (nat * TcpPcb) :=
  match pcbs with
  | [] => listen_pcb
  | pcb :: pcbs =>
      if local_matches local pcb then
        match remote_opt with
        | None => Some (i, pcb)
        | Some remote =>
            if address (tcp_remote pcb) =? address remote then Some (i, pcb)
            else select_loop local remote_opt (S i) pcbs
                   (if listens pcb then Some (i, pcb) else listen_pcb)
        end
      else select_loop local remote_opt (S i) pcbs listen_pcb
  end.

Definition select (pcbs : TcpPcbs) (local : IPEndpoint) (remote_opt : option IPEndpoint) : option (nat * TcpPcb) :=
  select_loop local remote_opt 0 pcbs None.

Fixpoint tcp_close_sockets (pcbs : TcpPcbs) (e : Env) : TcpPcbs * Env :=
  match pcbs with
  | [] => ([], e)
  | pcb :: pcbs =>
      let '(pcb, e) := release pcb e in
      let '(pcbs, e) := tcp_close_sockets pcbs e in
      (pcb :: pcbs, e)
  end.

Definition set_wait_time (p : TcpPcb) (e : Env) : TcpPcb * Env :=
  match wait_time p with
  | None => let '(t, e) := now e in (p <|wait_time := checked_add t (from_secs TCP_TIMEWAIT_SEC)|>, e)
  | Some _ => (p, e)
  end.
End pcb_code.
