(* ===== verification/TcpOutput.v ===== *)
(** * protocols/ip/tcp.rs: output

    [output_segment], [output] and [retransmit]. *)
From S2P Require Import Prelude Platform LinkedList Bytes Checksum IpTypes Devices Arp Ip Transport TcpTypes.

(** A computation on the environment, run in a [Net]. *)
Definition on_env {A} (f : Env -> A * Env) (n : Net) : A * Net :=
  let '(a, e) := f (net_env n) in (a, n <|net_env := e|>).

Section output_code.
Context `{Platform} `{BuildProfile}.

Definition output_segment (seq_num ack_num flags window : Z) (tcp_data : list Z)
    (local remote : IPEndpoint) (n : Net) : outcome (Z * Net) :=
  let tcp_hdr_size := size_of TcpHeader in
  let tcp_data_len := zlen tcp_data in
  total_len ← add_usize tcp_data_len tcp_hdr_size;
  let tcp_header := mkTcpHeader (port local) (port remote) (le_to_be_u32 seq_num) (le_to_be_u32 ack_num)
    (as_u8 (Z.shiftl (Z.shiftr tcp_hdr_size 2) 4)) flags (le_to_be_u16 window) 0 0 in
  let pseudo_hdr_bytes := PseudoHeader_bytes
    (pseudo_header Tcp (address local) (address remote) (le_to_be_u16 (as_u16 total_len))) in
  pseudo_sum ← cksum16 pseudo_hdr_bytes (zlen pseudo_hdr_bytes) 0;
  let data := to_u8_slice tcp_header ++ tcp_data in
  sum ← cksum16 data total_len (not_u16 pseudo_sum);
  data ← put_check_sum data 16 sum;
  '(r, n) ← ip_output Tcp data (address local) (address remote) n;
  _ ← unwrap_result r;
  Ret (tcp_data_len, n).

Definition tcp_output (pcb : TcpPcb) (flags : Z) (data : list Z) (n : Net) : outcome (Z * TcpPcb * Net) :=
  let seq_num := if tcp_flag_exists flags SYN then iss pcb else snd_next (send_context pcb) in
  let '(pcb, n) := if (tcp_flag_exists flags SYN || tcp_flag_exists flags FIN) || (0 <? zlen data)
                   then on_env (add_data_queue seq_num flags data pcb) n else (pcb, n) in
  '(sent, n) ← output_segment seq_num (rcv_next (recv_context pcb)) flags
                 (rcv_window (recv_context pcb)) data (tcp_local pcb) (tcp_remote pcb) n;
  Ret (sent, pcb, n).

(** The inner loop of [retransmit]: pops every entry of the queue [q] of [pcb].
    [release] empties the queue, which ends the loop. *)
Fixpoint retransmit_queue (q : list TcpDataQueueEntry) (pcb : TcpPcb) (n : Net) : outcome (TcpPcb * Net) :=
  match q with
  | [] => Ret (pcb <|data_queue := []|>, n)
  | queue :: q =>
      let pcb := pcb <|data_queue := q|> in
      let '(r, n) := on_env (elapsed (first_sent_at queue)) n in
      age ← unwrap_result r;
      if TCP_RETRANSMIT_TIMOUT_SEC <=? as_secs age
      then Ret (on_env (release pcb) n)
      else
        timeout ← unwrap (checked_add (last_sent_at queue) (retry_interval queue));
        let '(r, n) := on_env (elapsed timeout) n in
        n ← match r with
            | Err => '(_, n) ← output_segment (dq_seq_num queue) (rcv_next (recv_context pcb))
                       (dq_flags queue) (rcv_window (recv_context pcb)) (dq_data queue)
                       (tcp_local pcb) (tcp_remote pcb) n; Ret n
            | Ok _ => Ret n
            end;
        retransmit_queue q pcb n
  end.

(** The body of the loop over the entries. *)
Definition retransmit_pcb (pcb : TcpPcb) (n : Net) : outcome (TcpPcb * Net) :=
  if state_is pcb Free then Ret (pcb, n)
  else if state_is pcb TimeWait then
    t ← unwrap (wait_time pcb);
    let '(r, n) := on_env (elapsed t) n in
    d ← unwrap_result r;
    if 0 <? as_micros d then Ret (on_env (release pcb) n)
    else retransmit_queue (data_queue pcb) pcb n
  else retransmit_queue (data_queue pcb) pcb n.

Fixpoint retransmit (pcbs : TcpPcbs) (n : Net) : outcome (TcpPcbs * Net) :=
  match pcbs with
  | [] => Ret ([], n)
  | pcb :: pcbs =>
      '(pcb, n) ← retransmit_pcb pcb n;
      '(pcbs, n) ← retransmit pcbs n;
      Ret (pcb :: pcbs, n)
  end.
End output_code.

(** ** Specification of a segment *)

Definition tcp_pre (seq ack flags window : Z) (local remote : IPEndpoint) : list Z :=
  le_bytes 2 (port local) ++ le_bytes 2 (port remote) ++ le_bytes 4 (le_to_be_u32 seq)
  ++ le_bytes 4 (le_to_be_u32 ack) ++ le_bytes 1 0x50 ++ le_bytes 1 flags ++ le_bytes 2 (le_to_be_u16 window).

Definition tcp_post (data : list Z) : list Z := [0; 0] ++ data.

Definition tcp_init (local remote : IPEndpoint) (len : Z) : Z :=
  pseudo_init (pseudo_header Tcp (address local) (address remote) (le_to_be_u16 (as_u16 (20 + len)))).

Definition tcp_segment (seq ack flags window : Z) (data : list Z) (local remote : IPEndpoint) : list Z :=
  checksummed (tcp_pre seq ack flags window local remote) (tcp_post data) (tcp_init local remote (zlen data)).

(** The longest segment the checksum routine is specified for. *)
Definition TCP_DATA_MAX : Z := CKSUM_MAX_LEN - 20.

Section output_lemmas.
Context `{Platform} `{BuildProfile}.
Implicit Types (local remote : IPEndpoint) (data : list Z) (n : Net).

Lemma tcp_pre_ok s a fl w local remote :
  bytes_ok (tcp_pre s a fl w local remote) /\ zlen (tcp_pre s a fl w local remote) = 16.
Proof. split; [|done]. repeat apply Forall_app_2; apply le_bytes_bytes. Qed.

Lemma tcp_post_ok data : bytes_ok data -> bytes_ok (tcp_post data) /\ zlen (tcp_post data) = 2 + zlen data.
Proof. intros. split; [by repeat constructor|]. unfold tcp_post. zlen_simpl. lia. Qed.

Lemma tcp_segment_len s a fl w data local remote :
  zlen (tcp_segment s a fl w data local remote) = 20 + zlen data.
Proof.
  unfold tcp_segment. rewrite checksummed_len. destruct (tcp_pre_ok s a fl w local remote) as [_ ->].
  unfold tcp_post. zlen_simpl. lia.
Qed.

Lemma tcp_check_sum_range s a fl w data local remote : bytes_ok data ->
  in_u16 (check_sum_of (tcp_pre s a fl w local remote) (tcp_post data) (tcp_init local remote (zlen data))).
Proof.
  intros Hd. destruct (tcp_pre_ok s a fl w local remote) as [? _]. destruct (tcp_post_ok data Hd) as [? _].
  apply check_sum_of_range; [done|done|apply pseudo_init_range].
Qed.

Lemma tcp_segment_bytes_ok s a fl w data local remote : bytes_ok data ->
  bytes_ok (tcp_segment s a fl w data local remote).
Proof.
  intros Hd. destruct (tcp_pre_ok s a fl w local remote) as [? _]. destruct (tcp_post_ok data Hd) as [? _].
  apply checksummed_bytes_ok; [done|done|apply pseudo_init_range].
Qed.

(** The segment as a header struct followed by the data. *)
Definition tcp_header_of s a fl w data local remote : TcpHeader :=
  mkTcpHeader (port local) (port remote) (le_to_be_u32 s) (le_to_be_u32 a) 0x50 fl (le_to_be_u16 w)
    (le_to_be_u16 (check_sum_of (tcp_pre s a fl w local remote) (tcp_post data)
       (tcp_init local remote (zlen data)))) 0.

Lemma tcp_segment_eq s a fl w data local remote : bytes_ok data ->
  tcp_segment s a fl w data local remote = to_u8_slice (tcp_header_of s a fl w data local remote) ++ data.
Proof.
  intros Hd. unfold tcp_segment, checksummed, tcp_header_of. cbn [to_u8_slice TcpHeader_Packed].
  unfold TcpHeader_bytes.
  cbn [th_src_port th_dst_port th_seq_num th_ack_num th_offset th_flags th_window th_sum th_urg_ptr].
  rewrite (le_to_be_u16_bytes (check_sum_of _ _ _)) by by apply tcp_check_sum_range.
  unfold tcp_pre, tcp_post. by rewrite <-!app_assoc.
Qed.

Lemma tcp_header_of_wf s a fl w data local remote :
  in_u16 (port local) -> in_u16 (port remote) -> in_u32 s -> in_u32 a -> in_u8 fl -> in_u16 w ->
  bytes_ok data -> TcpHeader_wf (tcp_header_of s a fl w data local remote).
Proof.
  intros. split_and!; try done.
  1,2: by apply le_to_be_u32_range.
  - by apply le_to_be_u16_range.
  - by apply le_to_be_u16_range, tcp_check_sum_range.
Qed.

(** What [output_segment] hands to IP. *)
Lemma output_segment_ip s a fl w data local remote n : bytes_ok data -> zlen data <= TCP_DATA_MAX ->
  output_segment s a fl w data local remote n =
    '(r, n) ← ip_output Tcp (tcp_segment s a fl w data local remote) (address local) (address remote) n;
    _ ← unwrap_result r; Ret (zlen data, n).
Proof.
  intros Hd Hl. unfold output_segment. cbv zeta. change (size_of TcpHeader) with 20.
  pose proof (zlen_nonneg data). unfold TCP_DATA_MAX, CKSUM_MAX_LEN in Hl.
  rewrite add_usize_ok, bind_ret by (unfold in_usize; lia). rewrite (Z.add_comm (zlen data)).
  rewrite pseudo_cksum, bind_ret, not_u16_involutive. fold (tcp_init local remote (zlen data)).
  match goal with |- context [to_u8_slice ?h ++ data] =>
    change (to_u8_slice h ++ data) with (tcp_pre s a fl w local remote ++ [0; 0] ++ tcp_post data) end.
  destruct (tcp_pre_ok s a fl w local remote) as [Hp L]. destruct (tcp_post_ok data Hd) as [Hq Lq].
  replace (20 + zlen data) with (zlen (tcp_pre s a fl w local remote) + 2 + zlen (tcp_post data)) at 1 by lia.
  rewrite cksum16_zeroed, bind_ret; [|done|done|apply pseudo_init_range|unfold CKSUM_MAX_LEN; lia].
  rewrite <-L at 1.
  rewrite put_check_sum_checksummed; [done|done|done|apply pseudo_init_range].
Qed.

Lemma tcp_segment_sum s a fl w data local remote : bytes_ok data -> zlen data <= TCP_DATA_MAX ->
  cksum16 (tcp_segment s a fl w data local remote) (20 + zlen data) (tcp_init local remote (zlen data)) = Ret 0.
Proof.
  intros Hd Hl. destruct (tcp_pre_ok s a fl w local remote) as [Hp L]. destruct (tcp_post_ok data Hd) as [Hq Lq].
  unfold TCP_DATA_MAX, CKSUM_MAX_LEN in Hl.
  replace (20 + zlen data) with (zlen (tcp_pre s a fl w local remote) + 2 + zlen (tcp_post data)) at 1 by lia.
  apply cksum16_checksummed; [done|done|by rewrite L|apply pseudo_init_range|unfold CKSUM_MAX_LEN; lia].
Qed.
End output_lemmas.
