(* ===== verification/TcpInput.v ===== *)
(** * protocols/ip/tcp.rs: input

    [segment_arrives], one definition per numbered check of the function, in its
    order, and [input].  The state is the table of control blocks together with
    the [Net] the segments leave through.  A check either returns from the
    function ([Stop]) or goes on to the next one ([Proceed]). *)
From S2P Require Import Prelude Platform LinkedList Bytes Checksum IpTypes Devices Arp Ip Transport Udp TcpTypes TcpOutput.

Record TcpSys := mkTcpSys { tcp_pcbs : TcpPcbs; tcp_net : Net }.

#[export] Instance set_tcp_pcbs : Setter tcp_pcbs := fun v s => mkTcpSys v (tcp_net s).
#[export] Instance set_tcp_net : Setter tcp_net := fun v s => mkTcpSys (tcp_pcbs s) v.

Inductive stage := Stop (s : TcpSys) | Proceed (s : TcpSys).

Definition stage_sys (r : stage) : TcpSys := match r with Stop s => s | Proceed s => s end.

Definition and_then (m : outcome stage) (k : TcpSys -> outcome stage) : outcome stage :=
  r ← m; match r with Stop s => Ret (Stop s) | Proceed s => k s end.
Notation "m >-> k" := (and_then m k) (at level 60, right associativity) : rust_scope.

(** Storing a control block and the network state. *)
Definition put_pcb (i : nat) (p : TcpPcb) (n : Net) (s : TcpSys) : TcpSys :=
  mkTcpSys (<[i := p]> (tcp_pcbs s)) n.

Definition state_in (st : TcpPcbState) (l : list TcpPcbState) : bool := bool_decide (st ∈ l).

(** What a segment is handed over with: the fields of the header, the flag byte,
    the text and its length, and the two endpoints. *)
Record Arrival := mkArrival {
  a_seg : TcpSegmentInfo;
  a_flags : Z;
  a_data : list Z;
  a_len : Z;
  a_local : IPEndpoint;
  a_remote : IPEndpoint
}.

Definition has (a : Arrival) (f : TcpFlag) : bool := tcp_flag_exists (a_flags a) f.

Section input_code.
Context `{Platform} `{BuildProfile}.

(** The <SEQ=SEG.ACK><CTL=RST> reply. *)
Definition reply_rst (a : Arrival) (n : Net) : outcome Net :=
  '(_, n) ← output_segment (seg_ack_num (a_seg a)) 0 (tcp_flag_as_u8 RST) 0 [] (a_local a) (a_remote a) n;
  Ret n.

Definition arrives_closed (a : Arrival) (s : TcpSys) : outcome TcpSys :=
  let n := tcp_net s in
  if has a RST then Ret s
  else if has a ACK then n ← reply_rst a n; Ret (s <|tcp_net := n|>)
  else
    ack ← add_u32 (seg_seq_num (a_seg a)) (seg_len (a_seg a));
    '(_, n) ← output_segment 0 ack (Z.lor (tcp_flag_as_u8 RST) (tcp_flag_as_u8 ACK)) 0 []
                (a_local a) (a_remote a) n;
    Ret (s <|tcp_net := n|>).

(** LISTEN *)
Definition arrives_listen (a : Arrival) (pcb_id : nat) (pcb_mode : TcpPcbMode) (s : TcpSys) : outcome TcpSys :=
  let seg := a_seg a in
  if has a RST then Ret s
  else if has a ACK then n ← reply_rst a (tcp_net s); Ret (s <|tcp_net := n|>)
  else if has a SYN then
    '(i, pcb, pcbs) ← (if bool_decide (pcb_mode = Socket) then
         '(i, new_pcb, pcbs) ← unwrap (new_entry (tcp_pcbs s));
         Ret (i, new_pcb <|tcp_mode := Socket|> <|parent_id := Some pcb_id|>, pcbs)
       else pcb ← pcb_at (tcp_pcbs s) pcb_id; Ret (pcb_id, pcb, tcp_pcbs s));
    let pcb := set_rcv_window_of PCB_BUF_LEN (pcb <|tcp_local := a_local a|> <|tcp_remote := a_remote a|>) in
    next ← add_u32 (seg_seq_num seg) 1;
    let pcb := set_rcv_next_of next pcb in
    let '(x, n) := on_env rng_u32 (tcp_net s) in
    let pcb := pcb <|iss := x|> in
    '(_, pcb, n) ← tcp_output pcb (Z.lor (tcp_flag_as_u8 SYN) (tcp_flag_as_u8 ACK)) [] n;
    next ← add_u32 (iss pcb) 1;
    let pcb := (set_una (iss pcb) (set_next next pcb)) <|tcp_state := SynReceived|> in
    Ret (put_pcb i pcb n (s <|tcp_pcbs := pcbs|>))
  else Ret s.

(** SYN-SENT *)
Definition syn_sent_bad_ack (a : Arrival) (pcb : TcpPcb) : bool :=
  (seg_ack_num (a_seg a) <=? iss pcb) || (snd_next (send_context pcb) <? seg_ack_num (a_seg a)).

Definition ack_in_window (a : Arrival) (pcb : TcpPcb) : bool :=
  (snd_una (send_context pcb) <=? seg_ack_num (a_seg a))
  && (seg_ack_num (a_seg a) <=? snd_next (send_context pcb)).

Definition arrives_syn_sent (a : Arrival) (pcb_id : nat) (s : TcpSys) : outcome TcpSys :=
  let seg := a_seg a in
  let n := tcp_net s in
  pcb ← pcb_at (tcp_pcbs s) pcb_id;
  if has a ACK && syn_sent_bad_ack a pcb then n ← reply_rst a n; Ret (s <|tcp_net := n|>) else
  let acceptable := has a ACK && ack_in_window a pcb in
  if has a RST then
    if acceptable then let '(pcb, n) := on_env (release pcb) n in Ret (put_pcb pcb_id pcb n s) else Ret s
  else if has a SYN then
    next ← add_u32 (seg_seq_num seg) 1;
    let pcb := (set_rcv_next_of next pcb) <|irs := seg_seq_num seg|> in
    let pcb := if acceptable then clean_data_queue (set_una (seg_ack_num seg) pcb) else pcb in
    if iss pcb <? snd_una (send_context pcb) then
      let pcb := pcb <|tcp_state := Established|> in
      '(_, pcb, n) ← tcp_output pcb (tcp_flag_as_u8 ACK) [] n;
      let pcb := set_send_window seg pcb in
      let n := n <|net_env := notify (tcp_sender pcb) true (net_env n)|> in
      Ret (put_pcb pcb_id pcb n s)
    else
      let pcb := pcb <|tcp_state := SynReceived|> in
      '(_, pcb, n) ← tcp_output pcb (Z.lor (tcp_flag_as_u8 SYN) (tcp_flag_as_u8 ACK)) [] n;
      Ret (put_pcb pcb_id pcb n s)
  else Ret s.

(** First: the sequence number. *)
Definition in_recv_window (x : Z) (pcb : TcpPcb) : outcome bool :=
  let ctx := recv_context pcb in
  if rcv_next ctx <=? x then hi ← add_u32 (rcv_next ctx) (rcv_window ctx); Ret (x <? hi) else Ret false.

Definition seq_acceptable (seg : TcpSegmentInfo) (pcb : TcpPcb) : outcome bool :=
  let ctx := recv_context pcb in
  if seg_len seg <? 1 then
    if rcv_window ctx <? 1 then Ret (seg_seq_num seg =? rcv_next ctx)
    else in_recv_window (seg_seq_num seg) pcb
  else if rcv_window ctx <? 1 then Ret false
  else
    first_in ← in_recv_window (seg_seq_num seg) pcb;
    if first_in : bool then Ret true
    else end_ ← add_u32 (seg_seq_num seg) (seg_len seg); last ← sub_u32 end_ 1; in_recv_window last pcb.

Definition check_sequence (a : Arrival) (pcb_id : nat) (pcb_state : TcpPcbState) (s : TcpSys) : outcome stage :=
  if state_in pcb_state [SynReceived; Established; FinWait1; FinWait2; CloseWait; Closing; LastAck; TimeWait] then
    pcb ← pcb_at (tcp_pcbs s) pcb_id;
    acceptable ← seq_acceptable (a_seg a) pcb;
    if acceptable : bool then Ret (Proceed s)
    else if has a RST then
      '(_, pcb, n) ← tcp_output pcb (tcp_flag_as_u8 ACK) [] (tcp_net s);
      Ret (Stop (put_pcb pcb_id pcb n s))
    else Ret (Stop s)
  else Ret (Proceed s).

(** [pcb.release(); return] *)
Definition release_pcb (pcb_id : nat) (s : TcpSys) : outcome stage :=
  pcb ← pcb_at (tcp_pcbs s) pcb_id;
  let '(pcb, n) := on_env (release pcb) (tcp_net s) in
  Ret (Stop (put_pcb pcb_id pcb n s)).

(** Second: the RST bit. *)
Definition check_reset (a : Arrival) (pcb_id : nat) (pcb_state : TcpPcbState) (s : TcpSys) : outcome stage :=
  if state_in pcb_state [SynReceived] then
    if has a RST then release_pcb pcb_id s else Ret (Proceed s)
  else if state_in pcb_state [Established; FinWait1; FinWait2; CloseWait] then
    if has a RST then release_pcb pcb_id s else Ret (Proceed s)
  else if state_in pcb_state [Closing; LastAck; TimeWait] then release_pcb pcb_id s
  else Ret (Proceed s).

(** Fourth: the SYN bit. *)
Definition check_syn (a : Arrival) (pcb_id : nat) (pcb_state : TcpPcbState) (s : TcpSys) : outcome stage :=
  if state_in pcb_state [SynReceived; Established; FinWait1; FinWait2; CloseWait; Closing; LastAck; TimeWait]
     && has a SYN
  then release_pcb pcb_id s else Ret (Proceed s).

(** Fifth: the ACK field, by state. *)
Definition ack_syn_received (a : Arrival) (pcb_id : nat) (s : TcpSys) : outcome stage :=
  pcb ← pcb_at (tcp_pcbs s) pcb_id;
  if ack_in_window a pcb then
    let pcb := pcb <|tcp_state := Established|> in
    let n := (tcp_net s) <|net_env := notify (tcp_sender pcb) true (net_env (tcp_net s))|> in
    let s := put_pcb pcb_id pcb n s in
    match parent_id pcb with
    | None => Ret (Proceed s)
    | Some parent =>
        parent_pcb ← pcb_at (tcp_pcbs s) parent;
        let parent_pcb := add_backlog pcb_id parent_pcb in
        let n := (tcp_net s) <|net_env := notify (tcp_sender parent_pcb) true (net_env (tcp_net s))|> in
        Ret (Proceed (put_pcb parent parent_pcb n s))
    end
  else n ← reply_rst a (tcp_net s); Ret (Stop (s <|tcp_net := n|>)).

(** The window update that goes with a new acknowledgment. *)
Definition update_send_window (seg : TcpSegmentInfo) (pcb : TcpPcb) : TcpPcb :=
  let ctx := send_context pcb in
  if (wl1 ctx <? seg_seq_num seg) || ((wl1 ctx =? seg_seq_num seg) && (wl2 ctx <=? seg_ack_num seg))
  then set_send_window seg pcb else pcb.

Definition ack_established (a : Arrival) (pcb_id : nat) (pcb_state : TcpPcbState) (s : TcpSys) : outcome stage :=
  let seg := a_seg a in
  pcb ← pcb_at (tcp_pcbs s) pcb_id;
  let una := snd_una (send_context pcb) in
  let next := snd_next (send_context pcb) in
  let after (pcb : TcpPcb) : outcome stage :=
    if state_in pcb_state [Closing] && (seg_ack_num seg =? snd_next (send_context pcb)) then
      let '(pcb, n) := on_env (set_wait_time (pcb <|tcp_state := TimeWait|>)) (tcp_net s) in
      let n := n <|net_env := notify (tcp_sender pcb) true (net_env n)|> in
      Ret (Proceed (put_pcb pcb_id pcb n s))
    else Ret (Proceed (put_pcb pcb_id pcb (tcp_net s) s)) in
  if (una <? seg_ack_num seg) && (seg_ack_num seg <=? next) then
    after (update_send_window seg (clean_data_queue (set_una (seg_ack_num seg) pcb)))
  else if seg_ack_num seg <? una then after pcb
  else if next <? seg_ack_num seg then
    '(_, pcb, n) ← tcp_output pcb (tcp_flag_as_u8 ACK) [] (tcp_net s);
    Ret (Stop (put_pcb pcb_id pcb n s))
  else after pcb.

Definition ack_last_ack (a : Arrival) (pcb_id : nat) (s : TcpSys) : outcome stage :=
  pcb ← pcb_at (tcp_pcbs s) pcb_id;
  if seg_ack_num (a_seg a) =? snd_next (send_context pcb)
  then let '(pcb, n) := on_env (release pcb) (tcp_net s) in Ret (Stop (put_pcb pcb_id pcb n s))
  else Ret (Stop s).

Definition ack_time_wait (a : Arrival) (pcb_id : nat) (s : TcpSys) : outcome stage :=
  if has a FIN then
    pcb ← pcb_at (tcp_pcbs s) pcb_id;
    let '(pcb, n) := on_env (set_wait_time pcb) (tcp_net s) in
    Ret (Proceed (put_pcb pcb_id pcb n s))
  else Ret (Proceed s).

Definition check_ack (a : Arrival) (pcb_id : nat) (pcb_state : TcpPcbState) (s : TcpSys) : outcome stage :=
  if negb (has a ACK) then Ret (Stop s)
  else match pcb_state with
       | SynReceived => ack_syn_received a pcb_id s
       | Established | FinWait1 | FinWait2 | CloseWait | Closing => ack_established a pcb_id pcb_state s
       | LastAck => ack_last_ack a pcb_id s
       | TimeWait => ack_time_wait a pcb_id s
       | Free | Closed | Listen | SynSent => Ret (Proceed s)
       end.

(** Seventh: the segment text. *)
Definition process_text (a : Arrival) (pcb_id : nat) (pcb_state : TcpPcbState) (s : TcpSys) : outcome stage :=
  let seg := a_seg a in
  if state_in pcb_state [Established; FinWait1; FinWait2] then
    pcb ← pcb_at (tcp_pcbs s) pcb_id;
    if 0 <? a_len a then
      let pcb := pcb <|tcp_buf := tcp_buf pcb ++ a_data a|> in
      next ← add_u32 (seg_seq_num seg) (seg_len seg);
      let pcb := set_rcv_next_of next pcb in
      window ← sub_u16 (rcv_window (recv_context pcb)) (as_u16 (a_len a));
      let pcb := set_rcv_window_of window pcb in
      '(_, pcb, n) ← tcp_output pcb (tcp_flag_as_u8 ACK) [] (tcp_net s);
      let n := n <|net_env := notify (tcp_sender pcb) true (net_env n)|> in
      Ret (Proceed (put_pcb pcb_id pcb n s))
    else Ret (Proceed s)
  else Ret (Proceed s).

(** Eighth: the FIN bit. *)
Definition check_fin (a : Arrival) (pcb_id : nat) (pcb_state : TcpPcbState) (s : TcpSys) : outcome stage :=
  let seg := a_seg a in
  if has a FIN then
    pcb ← pcb_at (tcp_pcbs s) pcb_id;
    if state_in pcb_state [Closed; Listen; SynSent] then Ret (Stop s) else
    next ← add_u32 (seg_seq_num seg) 1;
    let pcb := set_rcv_next_of next pcb in
    '(_, pcb, n) ← tcp_output pcb (tcp_flag_as_u8 ACK) [] (tcp_net s);
    match pcb_state with
    | SynReceived | Established =>
        let pcb := pcb <|tcp_state := CloseWait|> in
        let n := n <|net_env := notify (tcp_sender pcb) true (net_env n)|> in
        Ret (Stop (put_pcb pcb_id pcb n s))
    | FinWait1 =>
        if seg_ack_num seg =? snd_next (send_context pcb) then
          let '(pcb, n) := on_env (set_wait_time (pcb <|tcp_state := TimeWait|>)) n in
          Ret (Stop (put_pcb pcb_id pcb n s))
        else Ret (Stop (put_pcb pcb_id (pcb <|tcp_state := Closing|>) n s))
    | FinWait2 => Ret (Stop (put_pcb pcb_id (pcb <|tcp_state := TimeWait|>) n s))
    | TimeWait =>
        let '(pcb, n) := on_env (set_wait_time pcb) n in
        Ret (Stop (put_pcb pcb_id pcb n s))
    | _ => Ret (Stop (put_pcb pcb_id pcb n s))
    end
  else Ret (Stop s).

(** The checks that follow the LISTEN and SYN-SENT cases. *)
Definition arrives_otherwise (a : Arrival) (pcb_id : nat) (pcb_state : TcpPcbState) (s : TcpSys) : outcome stage :=
  check_sequence a pcb_id pcb_state s >-> fun s =>
  check_reset a pcb_id pcb_state s >-> fun s =>
  check_syn a pcb_id pcb_state s >-> fun s =>
  check_ack a pcb_id pcb_state s >-> fun s =>
  process_text a pcb_id pcb_state s >-> fun s =>
  check_fin a pcb_id pcb_state s.

Definition segment_arrives (a : Arrival) (s : TcpSys) : outcome TcpSys :=
  match select (tcp_pcbs s) (a_local a) (Some (a_remote a)) with
  | None => arrives_closed a s
  | Some (pcb_id, pcb) =>
      let pcb_state := tcp_state pcb in
      if bool_decide (pcb_state = Closed) then arrives_closed a s
      else if bool_decide (pcb_state = Listen) then arrives_listen a pcb_id (tcp_mode pcb) s
      else if bool_decide (pcb_state = SynSent) then arrives_syn_sent a pcb_id s
      else r ← arrives_otherwise a pcb_id pcb_state s; Ret (stage_sys r)
  end.

(** [input] *)
Definition tcp_input (data : list Z) (len : Z) (src dst : IPAdress) (iface : IPInterface) (s : TcpSys)
    : outcome (result unit * TcpSys) :=
  let tcp_hdr_size := size_of TcpHeader in
  header ← bytes_to_struct TcpHeader data;
  if len <? tcp_hdr_size then Panic else
  let pseudo_hdr_bytes := PseudoHeader_bytes (pseudo_header Tcp src dst (le_to_be_u16 (as_u16 len))) in
  psum ← cksum16 pseudo_hdr_bytes (zlen pseudo_hdr_bytes) 0;
  sum ← cksum16 data len (not_u16 psum);
  if negb (sum =? 0) then Ret (Err, s) else
  if (src =? IP_ADDR_ANY) || (src =? broadcast iface) || (dst =? IP_ADDR_ANY) || (dst =? broadcast iface)
  then Panic else
  let local := mkIPEndpoint dst (th_dst_port header) in
  let remote := mkIPEndpoint src (th_src_port header) in
  let header_len := Z.shiftl (Z.shiftr (th_offset header) 4) 2 in
  text_len ← sub_usize len header_len;
  seg_len ← (if tcp_flag_exists (th_flags header) SYN then add_usize text_len 1 else Ret text_len);
  seg_len ← (if tcp_flag_exists (th_flags header) FIN then add_usize seg_len 1 else Ret seg_len);
  let seg := mkTcpSegmentInfo (be_to_le_u32 (th_seq_num header)) (be_to_le_u32 (th_ack_num header))
    (as_u16 seg_len) (be_to_le_u16 (th_window header)) (be_to_le_u16 (th_urg_ptr header)) in
  text ← slice_from data tcp_hdr_size;
  text_len ← sub_usize len header_len;
  s ← segment_arrives (mkArrival seg (th_flags header) text text_len local remote) s;
  Ret (Ok tt, s).
End input_code.
