(* ===== verification/TcpUser.v ===== *)
(** * protocols/ip/tcp.rs: user commands

    The commands of the two programming interfaces.  A command that waits on its
    channel is split where it gives up the lock of the control blocks: its first
    critical section, and what it does each time it is woken.  [Done] and
    [Again] say whether the command returned. *)
From S2P Require Import Prelude Platform LinkedList Bytes Checksum IpTypes Devices Arp Ip Transport Udp TcpTypes TcpOutput TcpInput.

Inductive step_result (A B : Type) := Done (a : A) | Again (b : B).
Arguments Done {A B} a.
Arguments Again {A B} b.

Definition sys_env (s : TcpSys) : Env := net_env (tcp_net s).
Definition with_env (e : Env) (s : TcpSys) : TcpSys := s <|tcp_net := (tcp_net s) <|net_env := e|>|>.

Section user_code.
Context `{Platform} `{BuildProfile}.

(** The SYN of an active open and the state after it. *)
Definition send_syn (pcb : TcpPcb) (n : Net) : outcome (TcpPcb * Net) :=
  let pcb := set_rcv_window_of PCB_BUF_LEN pcb in
  let '(x, n) := on_env rng_u32 n in
  let pcb := pcb <|iss := x|> in
  '(_, pcb, n) ← tcp_output pcb (tcp_flag_as_u8 SYN) [] n;
  let pcb := set_una (iss pcb) pcb in
  next ← add_u32 (iss pcb) 1;
  Ret ((set_next next pcb) <|tcp_state := SynSent|>, n).

(** [pcb.sender = Some(sender)]: the sender it replaces is dropped. *)
Definition put_sender (c : nat) (pcb : TcpPcb) (n : Net) : TcpPcb * Net :=
  (pcb <|tcp_sender := Some c|>, n <|net_env := drop_sender (tcp_sender pcb) (net_env n)|>).

Definition rfc793_open (local : IPEndpoint) (remote_opt : option IPEndpoint) (active : bool) (s : TcpSys)
    : outcome (nat * nat * TcpSys) :=
  let '(c, n) := on_env channel (tcp_net s) in
  '(i, pcb, pcbs) ← unwrap (new_entry (tcp_pcbs s));
  let pcb := pcb <|tcp_mode := Rfc793|> <|tcp_local := local|> in
  let '(pcb, n) := put_sender c pcb n in
  let pcb := match remote_opt with Some remote => pcb <|tcp_remote := remote|> | None => pcb end in
  '(pcb, n) ← (if negb active then Ret (pcb <|tcp_state := Listen|>, n) else send_syn pcb n);
  Ret (c, i, put_pcb i pcb n (s <|tcp_pcbs := pcbs|>)).

Definition rfc793_open_wake (c pcb_id : nat) (s : TcpSys)
    : outcome (step_result (option nat) unit * TcpSys) :=
  '(r, e) ← chan_recv c (sys_env s);
  proceed ← unwrap_result r;
  let s := with_env e s in
  pcb ← pcb_at (tcp_pcbs s) pcb_id;
  if state_is pcb Established then Ret (Done (Some pcb_id), with_env (drop_receiver c (sys_env s)) s)
  else if negb proceed || negb (state_is pcb SynReceived) then
    let '(pcb, n) := on_env (release pcb) (tcp_net s) in
    let s := put_pcb pcb_id pcb n s in
    Ret (Done None, with_env (drop_receiver c (sys_env s)) s)
  else Ret (Again tt, s).

Definition tcp_open (s : TcpSys) : outcome (nat * TcpSys) :=
  '(i, pcb, pcbs) ← unwrap (new_entry (tcp_pcbs s));
  Ret (i, s <|tcp_pcbs := <[i := pcb <|tcp_mode := Socket|>]> pcbs|>).

(** [for port in port..port + n]: the first port without a match, or the last. *)
Fixpoint tcp_find_port (pcbs : TcpPcbs) (local remote : IPEndpoint) (n : nat) (p : Z) : IPEndpoint :=
  match n with
  | O => local
  | S n =>
      let local := local <|port := p|> in
      if is_some (select pcbs local (Some remote)) then tcp_find_port pcbs local remote n (p + 1) else local
  end.

Definition tcp_connect (pcb_id : nat) (remote : IPEndpoint) (s : TcpSys) : outcome (nat * TcpSys) :=
  pcb ← pcb_at (tcp_pcbs s) pcb_id;
  if negb (mode_is pcb Socket) then Panic else
  let local := IPEndpoint_new (address (tcp_local pcb)) (port (tcp_local pcb)) in
  local ← (if address local =? IP_ADDR_ANY then
             interface ← unwrap (get_interface_for (ip_routes (net_ctx (tcp_net s))) (address remote));
             Ret (local <|address := unicast interface|>)
           else Ret local);
  local ← (if port local =? 0 then
             let local := tcp_find_port (tcp_pcbs s) local remote
                            (Z.to_nat (TCP_SRC_PORT_MAX - TCP_SRC_PORT_MIN)) TCP_SRC_PORT_MIN in
             if port local =? 0 then Panic else Ret local
           else Ret local);
  let '(c, n) := on_env channel (tcp_net s) in
  pcb ← pcb_at (tcp_pcbs s) pcb_id;
  let pcb := pcb <|tcp_local := local|> <|tcp_remote := remote|> in
  '(pcb, n) ← send_syn pcb n;
  let '(pcb, n) := put_sender c pcb n in
  Ret (c, put_pcb pcb_id pcb n s).

Definition tcp_connect_wake (c pcb_id : nat) (s : TcpSys) : outcome (step_result (option nat) unit * TcpSys) :=
  '(r, e) ← chan_recv c (sys_env s);
  wakeup ← unwrap_result r;
  let s := with_env e s in
  pcb ← pcb_at (tcp_pcbs s) pcb_id;
  let closed := put_pcb pcb_id (pcb <|tcp_state := Closed|>) (tcp_net s) s in
  if negb wakeup then Ret (Done None, with_env (drop_receiver c e) closed)
  else if state_is pcb Established then Ret (Done (Some pcb_id), with_env (drop_receiver c e) s)
  else if negb (state_is pcb SynReceived) then Ret (Done None, with_env (drop_receiver c e) closed)
  else Ret (Again tt, s).

Definition tcp_bind (pcb_id : nat) (local : IPEndpoint) (s : TcpSys) : outcome TcpSys :=
  if is_some (select (tcp_pcbs s) local None) then Panic else
  pcb ← pcb_at (tcp_pcbs s) pcb_id;
  if negb (mode_is pcb Socket) then Panic else
  Ret (put_pcb pcb_id (pcb <|tcp_local := local|>) (tcp_net s) s).

Definition tcp_listen (pcb_id : nat) (s : TcpSys) : outcome TcpSys :=
  pcb ← pcb_at (tcp_pcbs s) pcb_id;
  if negb (mode_is pcb Socket) then Panic else
  Ret (put_pcb pcb_id (pcb <|tcp_state := Listen|>) (tcp_net s) s).

(** [pcb.backlog.pcb_ids.pop_front()] *)
Definition pop_backlog (pcb : TcpPcb) : option nat * TcpPcb :=
  match backlog pcb with [] => (None, pcb) | b :: bs => (Some b, pcb <|backlog := bs|>) end.

(** [accept] up to its loop: the channel and the first backlog entry. *)
Definition tcp_accept (pcb_id : nat) (s : TcpSys) : outcome (nat * option nat * TcpSys) :=
  let '(c, n) := on_env channel (tcp_net s) in
  pcb ← pcb_at (tcp_pcbs s) pcb_id;
  if negb (mode_is pcb Socket) then Panic else
  if negb (state_is pcb Listen) then Panic else
  let '(pcb, n) := put_sender c pcb n in
  let '(next_backlog, pcb) := pop_backlog pcb in
  Ret (c, next_backlog, put_pcb pcb_id pcb n s).

(** One round of the loop of [accept]; the state is [next_backlog, backlog_id]. *)
Definition tcp_accept_round (c pcb_id : nat) (next_backlog backlog_id : option nat) (s : TcpSys)
    : outcome (step_result (option nat) (option nat * option nat) * TcpSys) :=
  match next_backlog with
  | None => Ret (Done backlog_id, with_env (drop_receiver c (sys_env s)) s)
  | Some _ =>
      '(r, e) ← chan_recv c (sys_env s);
      wakeup ← unwrap_result r;
      let s := with_env e s in
      if negb wakeup then Ret (Done None, with_env (drop_receiver c e) s) else
      pcb ← pcb_at (tcp_pcbs s) pcb_id;
      if state_is pcb Closed then Ret (Done None, with_env (drop_receiver c e) s) else
      let '(next, pcb) := pop_backlog pcb in
      Ret (Again (next, next_backlog), put_pcb pcb_id pcb (tcp_net s) s)
  end.

(** [send] up to its loop. *)
Definition tcp_send (pcb_id : nat) (s : TcpSys) : outcome (nat * TcpSys) :=
  let '(c, n) := on_env channel (tcp_net s) in
  pcb ← pcb_at (tcp_pcbs s) pcb_id;
  let '(pcb, n) := put_sender c pcb n in
  Ret (c, put_pcb pcb_id pcb n s).

(** How the inner loop of [send] ends: everything sent, woken after waiting for
    window, or told to stop. *)
Inductive send_end := AllSent (sent : Z) | Woken (sent : Z) | Interrupted.

(** The inner loop, with the capacity read before it. *)
Fixpoint send_loop (fuel : nat) (c pcb_id : nat) (data : list Z) (mss capacity sent : Z) (s : TcpSys)
    : outcome (send_end * TcpSys) :=
  if negb (sent <? zlen data) then Ret (AllSent sent, s) else
  if capacity <? 1 then
    '(r, e) ← chan_recv c (sys_env s);
    wakeup ← unwrap_result r;
    Ret (if wakeup : bool then Woken sent else Interrupted, with_env e s)
  else
    match fuel with
    | O => NoFuel
    | S fuel =>
        pcb ← pcb_at (tcp_pcbs s) pcb_id;
        let send_len := Z.min (Z.min mss (zlen data - sent)) capacity in
        text ← slice_from data sent;
        '(_, pcb, n) ← tcp_output pcb (Z.lor (tcp_flag_as_u8 ACK) (tcp_flag_as_u8 PSH)) text (tcp_net s);
        next ← add_u32 (snd_next (send_context pcb)) (as_u32 send_len);
        send_loop fuel c pcb_id data mss capacity (sent + send_len) (put_pcb pcb_id (set_next next pcb) n s)
    end.

(** One round of the outer loop of [send]. *)
Definition tcp_send_round (c pcb_id : nat) (data : list Z) (sent : Z) (s : TcpSys)
    : outcome (step_result (option Z) Z * TcpSys) :=
  pcb ← pcb_at (tcp_pcbs s) pcb_id;
  let ctx := send_context pcb in
  let finish (r : option Z) (s : TcpSys) : step_result (option Z) Z * TcpSys :=
    (Done r, with_env (drop_receiver c (sys_env s)) s) in
  if state_in (tcp_state pcb) [Established; CloseWait] then
    mss ← sub_usize (mtu (net_dev (tcp_net s))) (IP_HEADER_MIN_SIZE + size_of TcpHeader);
    if negb (sent <? zlen data) then Ret (finish (Some sent) s) else
    inflight ← sub_u32 (snd_next ctx) (snd_una ctx);
    capacity ← sub_u32 (snd_window ctx) inflight;
    '(r, s) ← send_loop (length data) c pcb_id data mss capacity sent s;
    match r with
    | AllSent sent => Ret (finish (Some sent) s)
    | Woken sent => Ret (Again sent, s)
    | Interrupted => Ret (finish None s)
    end
  else Ret (finish None s).

(** What [receive] keeps between its rounds. *)
Record RecvView := mkRecvView { rv_state : TcpPcbState; rv_window : Z; rv_remain : option Z }.

(** [receive] up to its loop. *)
Definition tcp_receive (pcb_id : nat) (s : TcpSys) : outcome (nat * RecvView * TcpSys) :=
  let '(c, n) := on_env channel (tcp_net s) in
  pcb ← pcb_at (tcp_pcbs s) pcb_id;
  let '(pcb, n) := put_sender c pcb n in
  Ret (c, mkRecvView (tcp_state pcb) (rcv_window (recv_context pcb)) None, put_pcb pcb_id pcb n s).

(** The end of [receive]: taking data from the buffer. *)
Definition receive_take (pcb_id : nat) (size : Z) (remain : option Z) (s : TcpSys) : outcome (list Z * TcpSys) :=
  pcb ← pcb_at (tcp_pcbs s) pcb_id;
  let buf_len := zlen (tcp_buf pcb) in
  let len := match remain with
             | None => Z.min buf_len size
             | Some remain => Z.min buf_len (Z.min size remain)
             end in
  data ← slice (tcp_buf pcb) 0 len;
  rest ← slice_from (tcp_buf pcb) len;
  window ← add_u16 (rcv_window (recv_context pcb)) (as_u16 len);
  Ret (data, put_pcb pcb_id (set_rcv_window_of window (pcb <|tcp_buf := rest|>)) (tcp_net s) s).

(** One round of the loop of [receive]. *)
Definition tcp_receive_round (c pcb_id : nat) (size : Z) (v : RecvView) (s : TcpSys)
    : outcome (step_result (option (list Z)) RecvView * TcpSys) :=
  let finish (r : option (list Z)) (s : TcpSys) : step_result (option (list Z)) RecvView * TcpSys :=
    (Done r, with_env (drop_receiver c (sys_env s)) s) in
  match rv_state v with
  | Closed | Listen | SynSent | SynReceived => Ret (finish None s)
  | Established | FinWait1 | FinWait2 =>
      if PCB_BUF_LEN <=? rv_window v then
        '(r, e) ← chan_recv c (sys_env s);
        wakeup ← unwrap_result r;
        let s := with_env e s in
        if negb wakeup then Ret (finish None s) else
        pcb ← pcb_at (tcp_pcbs s) pcb_id;
        let window := rcv_window (recv_context pcb) in
        remain ← sub_usize PCB_BUF_LEN window;
        Ret (Again (mkRecvView (tcp_state pcb) window (Some remain)), s)
      else '(d, s) ← receive_take pcb_id size (rv_remain v) s; Ret (finish (Some d) s)
  | CloseWait =>
      let remain := if rv_window v <? PCB_BUF_LEN then Some (PCB_BUF_LEN - rv_window v) else rv_remain v in
      '(d, s) ← receive_take pcb_id size remain s; Ret (finish (Some d) s)
  | Closing | LastAck | TimeWait | Free => Ret (Again v, s)
  end.

Definition tcp_close (pcb_id : nat) (s : TcpSys) : outcome TcpSys :=
  match tcp_pcbs s !! pcb_id with
  | None => Ret s
  | Some pcb =>
      '(_, pcb, n) ← tcp_output pcb (tcp_flag_as_u8 RST) [] (tcp_net s);
      let '(pcb, n) := on_env (release pcb) n in
      Ret (put_pcb pcb_id pcb n s)
  end.
End user_code.
