(* ===== verification/TcpInv.v ===== *)
(** * The invariant of the TCP table

    Which states a control block can be in, the ranges of its fields, and that
    every operation of the module keeps both: the step relation of the table and
    its reachable states. *)
From S2P Require Import Prelude Platform LinkedList Bytes Checksum IpTypes Devices Arp Ip Transport Udp TcpTypes TcpOutput TcpInput TcpUser.

(** ** The invariant *)

(** The states a connection is ever in: the code never starts the closing
    handshake, [close] sends a reset. *)
Definition live_state (st : TcpPcbState) : Prop :=
  st ∈ [Free; Closed; Listen; SynSent; SynReceived; Established; CloseWait].

Definition entry_ok (q : TcpDataQueueEntry) : Prop :=
  in_u32 (dq_seq_num q) /\ in_u8 (dq_flags q) /\ bytes_ok (dq_data q).

Record pcb_ok `{BuildProfile} (k : nat) (p : TcpPcb) : Prop := {
  ok_state : live_state (tcp_state p);
  ok_local : endpoint_wf (tcp_local p);
  ok_remote : endpoint_wf (tcp_remote p);
  ok_next : in_u32 (snd_next (send_context p));
  ok_una : in_u32 (snd_una (send_context p));
  ok_wnd : in_u16 (snd_window (send_context p));
  ok_wl : in_u32 (wl1 (send_context p)) /\ in_u32 (wl2 (send_context p));
  ok_iss : in_u32 (iss p);
  ok_rcv_next : in_u32 (rcv_next (recv_context p));
  ok_rcv_window : in_u16 (rcv_window (recv_context p));
  ok_buf : bytes_ok (tcp_buf p);
  ok_queue : Forall entry_ok (data_queue p);
  ok_parent : forall i, parent_id p = Some i -> (i < k)%nat;
  ok_backlog : Forall (fun i => (i < k)%nat) (backlog p);
  ok_order : overflow_checks = true -> snd_una (send_context p) <= snd_next (send_context p)
}.

Definition pcbs_ok `{BuildProfile} (pcbs : TcpPcbs) : Prop :=
  length pcbs = TCP_PCB_COUNT /\ Forall (pcb_ok TCP_PCB_COUNT) pcbs.

(** Segments as the parser makes them. *)
Definition arrival_wf (a : Arrival) : Prop :=
  in_u32 (seg_seq_num (a_seg a)) /\ in_u32 (seg_ack_num (a_seg a)) /\ in_u16 (seg_len (a_seg a))
  /\ in_u16 (seg_window (a_seg a)) /\ in_u8 (a_flags a) /\ bytes_ok (a_data a)
  /\ endpoint_wf (a_local a) /\ endpoint_wf (a_remote a).

(** Proves a control block well formed from the one it was made of. *)
Ltac pcb_tac := intros []; split; cbn in *; try done; try by eauto.

Section inv.
Context `{Platform} `{BuildProfile}.
Implicit Types (p : TcpPcb) (pcbs : TcpPcbs) (s : TcpSys) (n : Net) (k i : nat).

(** *** Fields *)

Lemma pcb_new_ok k : pcb_ok k TcpPcb_new.
Proof.
  split; cbn; try done; try constructor; try done.
Qed.

Lemma pcb_ok_state k p st : live_state st -> pcb_ok k p -> pcb_ok k (p <|tcp_state := st|>).
Proof. intros Hs. pcb_tac. Qed.
Lemma pcb_ok_mode k p m : pcb_ok k p -> pcb_ok k (p <|tcp_mode := m|>).
Proof. pcb_tac. Qed.
Lemma pcb_ok_local k p e : endpoint_wf e -> pcb_ok k p -> pcb_ok k (p <|tcp_local := e|>).
Proof. intros He. pcb_tac. Qed.
Lemma pcb_ok_remote k p e : endpoint_wf e -> pcb_ok k p -> pcb_ok k (p <|tcp_remote := e|>).
Proof. intros He. pcb_tac. Qed.
Lemma pcb_ok_iss k p v : in_u32 v -> pcb_ok k p -> pcb_ok k (p <|iss := v|>).
Proof. intros Hv. pcb_tac. Qed.
Lemma pcb_ok_irs k p v : pcb_ok k p -> pcb_ok k (p <|irs := v|>).
Proof. pcb_tac. Qed.
Lemma pcb_ok_sender k p v : pcb_ok k p -> pcb_ok k (p <|tcp_sender := v|>).
Proof. pcb_tac. Qed.
Lemma pcb_ok_wait k p v : pcb_ok k p -> pcb_ok k (p <|wait_time := v|>).
Proof. pcb_tac. Qed.
Lemma pcb_ok_buf k p v : bytes_ok v -> pcb_ok k p -> pcb_ok k (p <|tcp_buf := v|>).
Proof. intros Hv. pcb_tac. Qed.
Lemma pcb_ok_queue k p v : Forall entry_ok v -> pcb_ok k p -> pcb_ok k (p <|data_queue := v|>).
Proof. intros Hv. pcb_tac. Qed.
Lemma pcb_ok_backlog k p v : Forall (fun i => (i < k)%nat) v -> pcb_ok k p -> pcb_ok k (p <|backlog := v|>).
Proof. intros Hv. pcb_tac. Qed.
Lemma pcb_ok_parent k p i : (i < k)%nat -> pcb_ok k p -> pcb_ok k (p <|parent_id := Some i|>).
Proof. intros Hi. pcb_tac. intros j [= <-]. done. Qed.
Lemma pcb_ok_rcv_next k p v : in_u32 v -> pcb_ok k p -> pcb_ok k (set_rcv_next_of v p).
Proof. intros Hv. pcb_tac. Qed.
Lemma pcb_ok_rcv_window k p v : in_u16 v -> pcb_ok k p -> pcb_ok k (set_rcv_window_of v p).
Proof. intros Hv. pcb_tac. Qed.
Lemma pcb_ok_una k p v : in_u32 v -> v <= snd_next (send_context p) -> pcb_ok k p -> pcb_ok k (set_una v p).
Proof. intros Hv Hle. pcb_tac. Qed.
Lemma pcb_ok_next k p v : in_u32 v -> (overflow_checks = true -> snd_una (send_context p) <= v) ->
  pcb_ok k p -> pcb_ok k (set_next v p).
Proof. intros Hv Hle. pcb_tac. Qed.
(** The initial sequence numbers: both ends of the send window at once. *)
Lemma pcb_ok_una_next k p u v : in_u32 u -> in_u32 v -> u <= v -> pcb_ok k p ->
  pcb_ok k (set_una u (set_next v p)).
Proof. intros Hu Hv Hle. pcb_tac. Qed.
Lemma pcb_ok_next_una k p u v : in_u32 u -> in_u32 v -> u <= v -> pcb_ok k p ->
  pcb_ok k (set_next v (set_una u p)).
Proof. intros Hu Hv Hle. pcb_tac. Qed.
Lemma pcb_ok_send_window k p seg : in_u16 (seg_window seg) -> in_u32 (seg_seq_num seg) ->
  in_u32 (seg_ack_num seg) -> pcb_ok k p -> pcb_ok k (set_send_window seg p).
Proof. intros Hw Hs Ha. pcb_tac. Qed.

(** *** Operations on one control block *)

Lemma release_ok k p e : pcb_ok k p -> pcb_ok k (fst (release p e)).
Proof.
  intros Hp. unfold release. cbn [fst].
  apply pcb_ok_backlog; [constructor|]. apply pcb_ok_queue; [constructor|]. apply pcb_ok_state; [|done].
  unfold live_state. set_solver.
Qed.

Lemma clean_data_queue_ok k p : pcb_ok k p -> pcb_ok k (clean_data_queue p).
Proof.
  intros Hp. unfold clean_data_queue. case_match; [|done].
  apply pcb_ok_queue; [|done]. apply Forall_delete. by apply (ok_queue k p).
Qed.

Lemma set_wait_time_ok k p e : pcb_ok k p -> pcb_ok k (fst (set_wait_time p e)).
Proof. intros Hp. unfold set_wait_time. case_match; [done|]. by apply pcb_ok_wait. Qed.

Lemma on_env_release_ok k p n : pcb_ok k p -> pcb_ok k (fst (on_env (release p) n)).
Proof. apply (release_ok k p (net_env n)). Qed.

Lemma on_env_wait_ok k p n : pcb_ok k p -> pcb_ok k (fst (on_env (set_wait_time p) n)).
Proof.
  intros Hp. pose proof (set_wait_time_ok k p (net_env n) Hp) as Hw. unfold on_env.
  by destruct (set_wait_time p (net_env n)).
Qed.

(** [output] only appends to the queue. *)
Lemma tcp_output_frame p fl data n : ensures (tcp_output p fl data n) (fun '(_, p', _) =>
  p' = p \/ exists t, p' = p <|data_queue := data_queue p ++ [mkTcpDataQueueEntry t t
    (from_micros TCP_DEFAULT_ITVL_MICROS) (if tcp_flag_exists fl SYN then iss p else snd_next (send_context p))
    fl data]|>).
Proof.
  unfold tcp_output. destruct ((_ || _) || _); cbn [on_env add_data_queue now];
    apply ensures_bind, ensures_Ret; intros [? ?] _; [right|left]; [by eexists|done].
Qed.

Lemma tcp_output_ok k p fl data n : pcb_ok k p -> in_u8 fl -> bytes_ok data ->
  ensures (tcp_output p fl data n) (fun '(_, p', _) => pcb_ok k p'
     /\ tcp_state p' = tcp_state p /\ send_context p' = send_context p /\ recv_context p' = recv_context p
     /\ iss p' = iss p).
Proof.
  intros Hp Hf Hd. eapply ensures_mono; [apply tcp_output_frame|].
  intros [[z p'] n'] [->|[t ->]]; [by split_and!|]. split_and!; try done.
  apply pcb_ok_queue; [|done]. apply Forall_app_2; [by apply (ok_queue k p)|]. constructor; [|constructor].
  split_and!; try done. cbn. case_match; [by apply (ok_iss k p)|by apply (ok_next k p)].
Qed.

(** *** Tables *)

Lemma pcbs_ok_lookup pcbs i p : pcbs_ok pcbs -> pcbs !! i = Some p -> pcb_ok TCP_PCB_COUNT p.
Proof. intros [_ Hf] Hi. by eapply Forall_lookup_1. Qed.

Lemma pcbs_ok_insert pcbs i p : pcbs_ok pcbs -> pcb_ok TCP_PCB_COUNT p -> pcbs_ok (<[i := p]> pcbs).
Proof. intros [Hl Hf] Hp. split; [by rewrite length_insert|by apply Forall_insert]. Qed.

Lemma put_pcb_ok i p n s : pcbs_ok (tcp_pcbs s) -> pcb_ok TCP_PCB_COUNT p -> pcbs_ok (tcp_pcbs (put_pcb i p n s)).
Proof. apply pcbs_ok_insert. Qed.

Lemma pcb_at_ok pcbs i : pcbs_ok pcbs -> ensures (pcb_at pcbs i) (pcb_ok TCP_PCB_COUNT).
Proof. intros Hp. apply ensures_Ret. intros p Hi%unwrap_Ret. by eapply pcbs_ok_lookup. Qed.

Lemma new_entry_ok pcbs i p pcbs' : pcbs_ok pcbs -> new_entry pcbs = Some (i, p, pcbs') ->
  pcb_ok TCP_PCB_COUNT p /\ pcbs_ok pcbs'.
Proof.
  intros Hp. unfold new_entry. case_match eqn:E; [|done]. destruct p0 as [j q]. intros [= <- <- <-].
  apply list_find_Some in E as (Hj & _ & _).
  assert (pcb_ok TCP_PCB_COUNT (q <|tcp_state := Closed|>)).
  { apply pcb_ok_state; [unfold live_state; set_solver|]. by eapply pcbs_ok_lookup. }
  split; [done|]. by apply pcbs_ok_insert.
Qed.

Lemma pcbs_new_ok : pcbs_ok TcpPcbs_new.
Proof. split; [done|]. apply Forall_replicate, pcb_new_ok. Qed.

Lemma select_loop_index local r i0 pcbs l i p : select_loop local r i0 pcbs l = Some (i, p) ->
  l = Some (i, p) \/ ((i0 <= i)%nat /\ pcbs !! (i - i0)%nat = Some p).
Proof.
  revert i0 l. induction pcbs as [|q pcbs IH]; intros i0 l; cbn [select_loop]; [by left|].
  assert (forall l, select_loop local r (S i0) pcbs l = Some (i, p) ->
    l = Some (i, p) \/ ((i0 <= i)%nat /\ (q :: pcbs) !! (i - i0)%nat = Some p)) as Rec.
  { intros l' [?|[Hle Hi]]%IH; [by left|right]. split; [lia|].
    replace (i - i0)%nat with (S (i - S i0)) by lia. done. }
  assert (Some (i0, q) = Some (i, p) -> (i0 <= i)%nat /\ (q :: pcbs) !! (i - i0)%nat = Some p) as Here.
  { intros [= <- <-]. by rewrite Nat.sub_diag. }
  destruct (local_matches local q); [|apply Rec]. destruct r as [remote|]; [|auto].
  destruct (_ =? _); [auto|]. intros [Hl|?]%Rec; [|auto]. destruct (listens q); auto.
Qed.

Lemma select_lookup pcbs local r i p : select pcbs local r = Some (i, p) -> pcbs !! i = Some p.
Proof.
  unfold select. intros [?|[_ Hi]]%select_loop_index; [done|]. by rewrite Nat.sub_0_r in Hi.
Qed.
End inv.

Create HintDb tcp.
#[export] Hint Resolve pcb_ok_state pcb_ok_mode pcb_ok_local pcb_ok_remote pcb_ok_iss pcb_ok_irs
  pcb_ok_sender pcb_ok_wait pcb_ok_buf pcb_ok_rcv_next pcb_ok_rcv_window pcb_ok_send_window
  put_pcb_ok clean_data_queue_ok release_ok set_wait_time_ok : tcp.
#[export] Hint Extern 1 (live_state _) => unfold live_state; set_solver : tcp.
#[export] Hint Extern 1 (in_u16 _) => done : tcp.
#[export] Hint Extern 1 (in_u8 _) => done : tcp.

(** One step of a preservation proof: the head of the computation, with what is
    known of its result. *)
Ltac inv_head :=
  lazymatch goal with
  | |- ensures (Ret _) _ => cbn [ensures]
  | |- ensures (pcb_at _ _ ≫= _) _ =>
      eapply ensures_bind2; [by apply pcb_at_ok; eauto|intros ?pcb ?Hpcb]
  | |- ensures (add_u32 _ _ ≫= _) _ => eapply ensures_bind2; [by apply add_u32_range|intros ?v ?Hv]
  | |- ensures (sub_u32 _ _ ≫= _) _ => eapply ensures_bind2; [by apply sub_u32_range|intros ?v ?Hv]
  | |- ensures (add_u16 _ _ ≫= _) _ => eapply ensures_bind2; [by apply add_u16_range|intros ?v ?Hv]
  | |- ensures (sub_u16 _ _ ≫= _) _ => eapply ensures_bind2; [by apply sub_u16_range|intros ?v ?Hv]
  | |- ensures (tcp_output _ _ _ _ ≫= _) _ =>
      eapply ensures_bind2;
      [apply (tcp_output_ok TCP_PCB_COUNT); [eauto 10 with tcp|done|try by eauto; constructor]
      |intros [[?z ?pcb] ?n] (?Hpcb & ?Hst & ?Hsc & ?Hrc & ?Hiss)]
  | |- ensures (match on_env (release ?p) ?n with _ => _ end) _ =>
      assert (pcb_ok TCP_PCB_COUNT (fst (on_env (release p) n)))
        by (apply on_env_release_ok; eauto 10 with tcp);
      destruct (on_env (release p) n); cbn [fst] in *
  | |- ensures (match on_env (set_wait_time ?p) ?n with _ => _ end) _ =>
      assert (pcb_ok TCP_PCB_COUNT (fst (on_env (set_wait_time p) n)))
        by (apply on_env_wait_ok; eauto 10 with tcp);
      destruct (on_env (set_wait_time p) n); cbn [fst] in *
  | |- ensures (_ ≫= _) _ => eapply ensures_bind2; [apply ensures_True|intros ? _]
  | |- ensures (if ?b then _ else _) _ => destruct b eqn:?
  | |- ensures (match ?x with _ => _ end) _ => destruct x eqn:?
  | |- ensures Panic _ => exact I
  | |- ensures NoFuel _ => exact I
  | |- ensures Blocks _ => exact I
  end.

Section inv_input.
Context `{Platform} `{BuildProfile}.
Implicit Types (a : Arrival) (s : TcpSys) (i : nat).

Lemma rng_u32_in n : in_u32 (fst (on_env rng_u32 n)).
Proof. pose proof (rng_u32_range (net_env n)) as Hr. unfold u32_max in Hr. unfold in_u32, on_env. cbn in *. lia. Qed.

(** [add_u32 x 1] of a draw does not overflow. *)
Lemma rng_succ n : add_u32 (fst (on_env rng_u32 n)) 1 = Ret (fst (on_env rng_u32 n) + 1).
Proof.
  pose proof (rng_u32_range (net_env n)) as Hr. unfold u32_max in Hr.
  apply add_u32_ok. unfold on_env. cbn in *. lia.
Qed.

Definition keeps (m : outcome TcpSys) : Prop := ensures m (fun s' => pcbs_ok (tcp_pcbs s')).
Definition keeps_stage (m : outcome stage) : Prop := ensures m (fun r => pcbs_ok (tcp_pcbs (stage_sys r))).

Lemma arrives_closed_ok a s : pcbs_ok (tcp_pcbs s) -> keeps (arrives_closed a s).
Proof. intros Hs. unfold keeps, arrives_closed. cbv zeta. repeat inv_head; done. Qed.

Lemma add_u32_le (x y v : Z) : add_u32 x y = Ret v -> 0 <= y -> overflow_checks = true -> x <= v.
Proof. unfold add_u32, checked. intros E Hy Ho. rewrite Ho in E. repeat case_match; simplify_eq. lia. Qed.

Lemma arrives_syn_sent_ok a i s : arrival_wf a -> pcbs_ok (tcp_pcbs s) -> keeps (arrives_syn_sent a i s).
Proof.
  intros (Hseq & Hack & _ & Hw & _) Hs. unfold keeps, arrives_syn_sent. cbv zeta. inv_head.
  destruct (has a ACK && syn_sent_bad_ack a pcb) eqn:Eb; [repeat inv_head; done|].
  destruct (has a RST).
  { repeat inv_head; eauto with tcp. }
  destruct (has a SYN); [|done]. inv_head.
  set (q := if _ && _ then _ else _).
  assert (pcb_ok TCP_PCB_COUNT q) as Hq.
  { unfold q. destruct (has a ACK && ack_in_window a pcb) eqn:Ea; [|eauto with tcp].
    apply clean_data_queue_ok, pcb_ok_una; [done| |eauto with tcp].
    unfold ack_in_window in Ea. cbn. lia. }
  destruct (_ <? _); repeat inv_head; eauto 10 with tcp.
Qed.

Lemma arrives_listen_ok a i m s : arrival_wf a -> (i < TCP_PCB_COUNT)%nat -> pcbs_ok (tcp_pcbs s) ->
  keeps (arrives_listen a i m s).
Proof.
  intros (Hseq & Hack & _ & Hw & _ & _ & Hl & Hr) Hi Hs. unfold keeps, arrives_listen. cbv zeta.
  destruct (has a RST); [done|]. destruct (has a ACK); [repeat inv_head; done|].
  destruct (has a SYN); [|done].
  eapply (ensures_bind2 _ _ (fun '(_, q, pcbs) => pcb_ok TCP_PCB_COUNT q /\ pcbs_ok pcbs)).
  { destruct (bool_decide _).
    - destruct (new_entry _) as [[[j q] pcbs]|] eqn:E; [|done]. cbn.
      apply new_entry_ok in E as [? ?]; [|done]. split; [|done].
      by apply pcb_ok_parent, pcb_ok_mode.
    - by repeat inv_head. }
  intros [[j q] pcbs] [Hq Hpcbs]. inv_head.
  pose proof (rng_u32_in (tcp_net s)) as Hx. pose proof (rng_succ (tcp_net s)) as Hsucc.
  pose proof (add_u32_range (fst (on_env rng_u32 (tcp_net s))) 1) as Hn. rewrite Hsucc in Hn.
  destruct (on_env rng_u32 (tcp_net s)) as [x n]. cbn [fst ensures] in *.
  inv_head. rewrite Hiss. cbn [iss set_field set_iss]. rewrite Hsucc, bind_ret. cbn [ensures].
  apply (put_pcb_ok _ _ _ (s <|tcp_pcbs := pcbs|>)); [done|].
  apply pcb_ok_state; [unfold live_state; set_solver|]. apply pcb_ok_una_next; [done|done|lia|done].
Qed.

Lemma release_pcb_ok i s : pcbs_ok (tcp_pcbs s) -> keeps_stage (release_pcb i s).
Proof. intros Hs. unfold keeps_stage, release_pcb. repeat inv_head. cbn [ensures stage_sys]. eauto with tcp. Qed.

Lemma check_sequence_ok a i st s : pcbs_ok (tcp_pcbs s) -> keeps_stage (check_sequence a i st s).
Proof. intros Hs. unfold keeps_stage, check_sequence. repeat inv_head; cbn [ensures stage_sys]; eauto with tcp. Qed.

Lemma check_reset_ok a i st s : pcbs_ok (tcp_pcbs s) -> keeps_stage (check_reset a i st s).
Proof.
  intros Hs. unfold keeps_stage, check_reset.
  repeat case_match; try (by apply release_pcb_ok); done.
Qed.

Lemma check_syn_ok a i st s : pcbs_ok (tcp_pcbs s) -> keeps_stage (check_syn a i st s).
Proof.
  intros Hs. unfold keeps_stage, check_syn. case_match; [by apply release_pcb_ok|done].
Qed.

Lemma ack_syn_received_ok a i s : (i < TCP_PCB_COUNT)%nat -> pcbs_ok (tcp_pcbs s) ->
  keeps_stage (ack_syn_received a i s).
Proof.
  intros Hi Hs. unfold keeps_stage, ack_syn_received. inv_head. case_match; [|by repeat inv_head].
  cbv zeta. set (q := pcb <|tcp_state := Established|>).
  assert (pcb_ok TCP_PCB_COUNT q) as Hq by (apply pcb_ok_state; [unfold live_state; set_solver|done]).
  match goal with |- context [put_pcb i q ?n s] => set (s1 := put_pcb i q n s) end.
  assert (pcbs_ok (tcp_pcbs s1)) as Hs1 by by apply put_pcb_ok.
  case_match; [|done]. inv_head. cbn [ensures stage_sys]. apply put_pcb_ok; [done|].
  apply pcb_ok_backlog; [|done]. apply Forall_app_2; [by apply (ok_backlog TCP_PCB_COUNT)|by constructor].
Qed.

Lemma update_send_window_ok seg p : in_u16 (seg_window seg) -> in_u32 (seg_seq_num seg) ->
  in_u32 (seg_ack_num seg) -> pcb_ok TCP_PCB_COUNT p -> pcb_ok TCP_PCB_COUNT (update_send_window seg p).
Proof. intros. unfold update_send_window. case_match; eauto with tcp. Qed.

(** A state outside the closing handshake. *)
Lemma live_not_closing st : live_state st -> st <> FinWait1 /\ st <> FinWait2 /\ st <> Closing
  /\ st <> TimeWait /\ st <> LastAck.
Proof. unfold live_state. rewrite !elem_of_cons, elem_of_nil. naive_solver. Qed.

Lemma ack_established_ok a i st s : arrival_wf a -> live_state st -> pcbs_ok (tcp_pcbs s) ->
  keeps_stage (ack_established a i st s).
Proof.
  intros (Hseq & Hack & _ & Hw & _) Hst Hs. apply live_not_closing in Hst as (_ & _ & Hc & _).
  unfold keeps_stage, ack_established. cbv zeta. inv_head.
  replace (state_in st [Closing]) with false
    by (symmetry; apply bool_decide_eq_false; rewrite list_elem_of_singleton; done).
  cbn [andb]. repeat case_match; try (repeat inv_head); cbn [ensures stage_sys].
  all: apply put_pcb_ok; [done|]; try done.
  apply update_send_window_ok; try done. apply clean_data_queue_ok, pcb_ok_una; [done|lia|done].
Qed.

Lemma check_ack_ok a i st s : arrival_wf a -> (i < TCP_PCB_COUNT)%nat -> live_state st ->
  pcbs_ok (tcp_pcbs s) -> keeps_stage (check_ack a i st s).
Proof.
  intros Ha Hi Hst Hs. unfold check_ack. destruct (negb _); [done|].
  pose proof (live_not_closing st Hst) as (? & ? & ? & ? & ?).
  destruct st; try done; by (apply ack_syn_received_ok || apply ack_established_ok).
Qed.

Lemma process_text_ok a i st s : arrival_wf a -> pcbs_ok (tcp_pcbs s) -> keeps_stage (process_text a i st s).
Proof.
  intros (_ & _ & _ & _ & _ & Hd & _) Hs. unfold keeps_stage, process_text. cbv zeta.
  case_match; [|done]. inv_head. case_match; [|done].
  assert (pcb_ok TCP_PCB_COUNT (pcb <|tcp_buf := tcp_buf pcb ++ a_data a|>)).
  { apply pcb_ok_buf; [|done]. apply Forall_app_2; [by apply (ok_buf TCP_PCB_COUNT)|done]. }
  repeat inv_head. cbn [ensures stage_sys]. eauto with tcp.
Qed.

Lemma check_fin_ok a i st s : live_state st -> pcbs_ok (tcp_pcbs s) -> keeps_stage (check_fin a i st s).
Proof.
  intros Hst Hs. pose proof (live_not_closing st Hst) as (? & ? & ? & ? & ?).
  unfold keeps_stage, check_fin. cbv zeta. case_match; [|done]. inv_head. case_match; [done|].
  do 2 inv_head. destruct st; try done; cbn [ensures stage_sys]; eauto with tcp.
Qed.

Lemma and_then_keeps m k : keeps_stage m -> (forall s, pcbs_ok (tcp_pcbs s) -> keeps_stage (k s)) ->
  keeps_stage (m >-> k).
Proof. unfold keeps_stage, and_then. intros Hm Hk. destruct m as [[]| | | |]; cbn in *; auto. Qed.

Lemma arrives_otherwise_ok a i st s : arrival_wf a -> (i < TCP_PCB_COUNT)%nat -> live_state st ->
  pcbs_ok (tcp_pcbs s) -> keeps_stage (arrives_otherwise a i st s).
Proof.
  intros Ha Hi Hst Hs. unfold arrives_otherwise.
  repeat (apply and_then_keeps; [|intros; cbv beta]);
    auto using check_sequence_ok, check_reset_ok, check_syn_ok, check_ack_ok, process_text_ok, check_fin_ok.
Qed.

Lemma segment_arrives_ok a s : arrival_wf a -> pcbs_ok (tcp_pcbs s) -> keeps (segment_arrives a s).
Proof.
  intros Ha Hs. unfold segment_arrives. destruct (select _ _ _) as [[i p]|] eqn:E; [|by apply arrives_closed_ok].
  apply select_lookup in E.
  assert (i < TCP_PCB_COUNT)%nat as Hi by (destruct Hs as [<- _]; by eapply lookup_lt_Some).
  pose proof (pcbs_ok_lookup _ _ _ Hs E) as [Hst _ _ _ _ _ _ _ _ _ _ _ _ _ _].
  repeat case_match; auto using arrives_closed_ok, arrives_listen_ok, arrives_syn_sent_ok.
  unfold keeps. eapply ensures_bind2; [by apply arrives_otherwise_ok|]. done.
Qed.
End inv_input.

Section inv_ops.
Context `{Platform} `{BuildProfile}.
Implicit Types (s : TcpSys) (i c : nat).

Lemma tcp_input_ok data len src dst iface s : bytes_ok data -> in_u32 src -> in_u32 dst ->
  pcbs_ok (tcp_pcbs s) -> ensures (tcp_input data len src dst iface s) (fun '(_, s') => pcbs_ok (tcp_pcbs s')).
Proof.
  intros Hb Hsrc Hdst Hs. unfold tcp_input. cbv zeta.
  eapply ensures_bind2; [by apply bytes_to_struct_wf|].
  intros h (W1 & W2 & W3 & W4 & _ & W6 & W7 & _ & _).
  case_match; [done|]. do 2 inv_head. case_match; [done|]. case_match; [done|]. do 3 inv_head.
  eapply ensures_bind2; [by apply slice_from_Forall|intros text Ht]. inv_head.
  eapply ensures_bind2; [|intros s' Hs'; exact Hs'].
  apply segment_arrives_ok; [|done].
  split_and!; cbn; try done; try by apply be_to_le_u32_range.
  - apply as_u16_range.
  - by apply be_to_le_u16_range.
Qed.

Lemma retransmit_queue_ok q k p n : pcb_ok k p -> Forall entry_ok q ->
  ensures (retransmit_queue q p n) (fun '(p', _) => pcb_ok k p').
Proof.
  revert p n. induction q as [|d q IH]; intros p n Hp Hq; cbn [retransmit_queue].
  - by apply pcb_ok_queue.
  - apply Forall_cons in Hq as [Hd Hq]. cbv zeta.
    assert (pcb_ok k (p <|data_queue := q|>)) as Hp' by by apply pcb_ok_queue.
    destruct (on_env _ n) as [r n1]. inv_head. case_match.
    + pose proof (on_env_release_ok k _ n1 Hp') as Hr. by destruct (on_env (release _) n1).
    + inv_head. destruct (on_env _ n1) as [r' n2]. inv_head. by apply IH.
Qed.

Lemma retransmit_pcb_ok k p n : pcb_ok k p -> ensures (retransmit_pcb p n) (fun '(p', _) => pcb_ok k p').
Proof.
  intros Hp. pose proof (ok_queue k p Hp). unfold retransmit_pcb.
  case_match; [done|]. case_match; [|by apply retransmit_queue_ok].
  inv_head. destruct (on_env _ n) as [r n1]. inv_head. case_match; [|by apply retransmit_queue_ok].
  pose proof (on_env_release_ok k p n1 Hp) as Hr. cbn [ensures]. by destruct (on_env (release _) n1).
Qed.

Lemma retransmit_ok pcbs n : pcbs_ok pcbs -> ensures (retransmit pcbs n) (fun '(pcbs', _) => pcbs_ok pcbs').
Proof.
  intros [Hl Hf]. unfold pcbs_ok. rewrite <-Hl.
  enough (ensures (retransmit pcbs n) (fun '(pcbs', _) =>
    length pcbs' = length pcbs /\ Forall (pcb_ok TCP_PCB_COUNT) pcbs')) as E.
  { eapply ensures_mono; [done|]. intros [pcbs' n']. by rewrite Hl. }
  clear Hl. revert n. induction Hf as [|p pcbs Hp _ IH]; intros n; cbn [retransmit]; [done|].
  eapply ensures_bind2; [by apply retransmit_pcb_ok|intros [p' n1] Hp'].
  eapply ensures_bind2; [apply IH|intros [pcbs' n2] [Hl Hf]]. cbn. auto.
Qed.

(** A control block after its SYN. *)
Lemma send_syn_ok p n : pcb_ok TCP_PCB_COUNT p ->
  ensures (send_syn p n) (fun '(p', _) => pcb_ok TCP_PCB_COUNT p').
Proof.
  intros Hp. unfold send_syn. cbv zeta.
  pose proof (rng_u32_in n) as Hx. pose proof (rng_succ n) as Hsucc.
  pose proof (add_u32_range (fst (on_env rng_u32 n)) 1) as Hn. rewrite Hsucc in Hn.
  destruct (on_env rng_u32 n) as [x n1]. cbn [fst ensures] in *.
  inv_head. change (iss (set_una (iss pcb) pcb)) with (iss pcb).
  rewrite Hiss. cbn [iss set_field set_iss]. rewrite Hsucc, bind_ret. cbn [ensures].
  apply pcb_ok_state; [unfold live_state; set_solver|]. apply pcb_ok_next_una; [done|done|lia|done].
Qed.

Lemma unwrap_new_entry_ok s : pcbs_ok (tcp_pcbs s) -> ensures (unwrap (new_entry (tcp_pcbs s)))
  (fun '(i, p, pcbs) => pcb_ok TCP_PCB_COUNT p /\ pcbs_ok pcbs).
Proof.
  intros Hs. destruct (new_entry _) as [[[j q] pcbs]|] eqn:E; [|done]. by apply new_entry_ok in E.
Qed.

Lemma rfc793_open_ok local r act s : endpoint_wf local -> (forall e, r = Some e -> endpoint_wf e) ->
  pcbs_ok (tcp_pcbs s) -> ensures (rfc793_open local r act s) (fun '(_, _, s') => pcbs_ok (tcp_pcbs s')).
Proof.
  intros Hl Hr Hs. unfold rfc793_open. destruct (on_env channel _) as [c n].
  eapply ensures_bind2; [by apply unwrap_new_entry_ok|intros [[i p] pcbs] [Hp Hpcbs]]. cbv zeta.
  destruct (put_sender c _ n) as [p1 n1] eqn:E. injection E as <- <-.
  set (q := match r with Some _ => _ | None => _ end).
  assert (pcb_ok TCP_PCB_COUNT q) as Hq by (unfold q; destruct r; eauto 10 with tcp).
  eapply (ensures_bind2 _ _ (fun '(p', _) => pcb_ok TCP_PCB_COUNT p')).
  - destruct (negb act); [cbn; eauto with tcp|by apply send_syn_ok].
  - intros [p' n'] Hp'. by apply (put_pcb_ok _ _ _ (s <|tcp_pcbs := pcbs|>)).
Qed.

Lemma rfc793_open_wake_ok c i s : pcbs_ok (tcp_pcbs s) ->
  ensures (rfc793_open_wake c i s) (fun '(_, s') => pcbs_ok (tcp_pcbs s')).
Proof.
  intros Hs. unfold rfc793_open_wake. inv_head. destruct a as [r e]. inv_head. cbv zeta. inv_head.
  repeat (case_match; cbn [ensures]; try done).
  assert (pcb_ok TCP_PCB_COUNT t) as Ht.
  { pose proof (on_env_release_ok TCP_PCB_COUNT pcb (tcp_net (with_env e s)) Hpcb) as Hr.
    match goal with E : on_env _ _ = _ |- _ => by rewrite E in Hr end. }
  by apply put_pcb_ok.
Qed.

Lemma tcp_open_ok s : pcbs_ok (tcp_pcbs s) -> ensures (tcp_open s) (fun '(_, s') => pcbs_ok (tcp_pcbs s')).
Proof.
  intros Hs. unfold tcp_open.
  eapply ensures_bind2; [by apply unwrap_new_entry_ok|intros [[i p] pcbs] [Hp Hpcbs]].
  apply pcbs_ok_insert; [done|by apply pcb_ok_mode].
Qed.

Lemma tcp_find_port_wf pcbs local remote n p : endpoint_wf local -> 0 <= p -> p + Z.of_nat n <= 65536 ->
  endpoint_wf (tcp_find_port pcbs local remote n p).
Proof.
  revert local p. induction n as [|n IH]; intros local p Hl Hp Hn; cbn [tcp_find_port]; [done|].
  assert (endpoint_wf (local <|port := p|>)) by (destruct Hl; split; [done|unfold in_u16; cbn; lia]).
  case_match; [|done]. apply IH; [done|lia|lia].
Qed.

Lemma tcp_connect_ok i remote s : endpoint_wf remote -> routes_wf (ip_routes (net_ctx (tcp_net s))) ->
  pcbs_ok (tcp_pcbs s) -> ensures (tcp_connect i remote s) (fun '(_, s') => pcbs_ok (tcp_pcbs s')).
Proof.
  intros Hr Hroutes Hs. unfold tcp_connect. inv_head. case_match; [done|]. cbv zeta.
  set (l0 := IPEndpoint_new _ _).
  assert (endpoint_wf l0) as Hl0.
  { destruct (ok_local _ _ Hpcb). split; [done|]. by apply le_to_be_u16_range. }
  eapply (ensures_bind2 _ _ endpoint_wf).
  { case_match; [|done]. destruct (get_interface_for _ _) as [f|] eqn:E; [|done]. cbn.
    apply get_interface_for_wf in E as (? & _); [|done]. by destruct Hl0. }
  intros l1 Hl1. eapply (ensures_bind2 _ _ endpoint_wf).
  { case_match; [|done]. case_match; [done|]. apply tcp_find_port_wf; done. }
  intros l2 Hl2. destruct (on_env channel _) as [c n]. inv_head.
  eapply ensures_bind2; [apply send_syn_ok; eauto with tcp|intros [p' n'] Hp'].
  cbn [put_sender ensures]. apply put_pcb_ok; [done|by apply pcb_ok_sender].
Qed.

Lemma tcp_connect_wake_ok c i s : pcbs_ok (tcp_pcbs s) ->
  ensures (tcp_connect_wake c i s) (fun '(_, s') => pcbs_ok (tcp_pcbs s')).
Proof.
  intros Hs. unfold tcp_connect_wake. inv_head. destruct a as [r e]. inv_head. cbv zeta. inv_head.
  repeat (case_match; cbn [ensures]; try done); apply put_pcb_ok; eauto with tcp.
Qed.

Lemma tcp_bind_ok i local s : endpoint_wf local -> pcbs_ok (tcp_pcbs s) -> keeps (tcp_bind i local s).
Proof. intros Hl Hs. unfold keeps, tcp_bind. repeat inv_head; eauto with tcp. Qed.

Lemma tcp_listen_ok i s : pcbs_ok (tcp_pcbs s) -> keeps (tcp_listen i s).
Proof. intros Hs. unfold keeps, tcp_listen. repeat inv_head; eauto with tcp. Qed.

Lemma pop_backlog_ok p : pcb_ok TCP_PCB_COUNT p -> pcb_ok TCP_PCB_COUNT (snd (pop_backlog p)).
Proof.
  intros Hp. pose proof (ok_backlog _ _ Hp) as Hb. unfold pop_backlog. destruct (backlog p); [done|].
  apply Forall_cons in Hb as [_ Hb]. by apply pcb_ok_backlog.
Qed.

Lemma tcp_accept_ok i s : pcbs_ok (tcp_pcbs s) ->
  ensures (tcp_accept i s) (fun '(_, _, s') => pcbs_ok (tcp_pcbs s')).
Proof.
  intros Hs. unfold tcp_accept. destruct (on_env channel _) as [c n]. inv_head.
  case_match; [done|]. case_match; [done|]. destruct (put_sender c pcb n) as [p1 n1] eqn:E.
  injection E as <- <-.
  pose proof (pop_backlog_ok (pcb <|tcp_sender := Some c|>)) as Hb.
  destruct (pop_backlog _) as [nb q]. cbn [ensures]. apply put_pcb_ok; [done|].
  apply Hb. by apply pcb_ok_sender.
Qed.

Lemma tcp_accept_round_ok c i nb b s : pcbs_ok (tcp_pcbs s) ->
  ensures (tcp_accept_round c i nb b s) (fun '(_, s') => pcbs_ok (tcp_pcbs s')).
Proof.
  intros Hs. unfold tcp_accept_round. destruct nb; [|done]. inv_head. destruct a as [r e]. inv_head.
  cbv zeta. case_match; [done|]. inv_head. case_match; [done|].
  pose proof (pop_backlog_ok pcb Hpcb) as Hb. destruct (pop_backlog pcb) as [nb' q].
  cbn [ensures]. by apply put_pcb_ok.
Qed.

Lemma tcp_send_ok i s : pcbs_ok (tcp_pcbs s) -> ensures (tcp_send i s) (fun '(_, s') => pcbs_ok (tcp_pcbs s')).
Proof.
  intros Hs. unfold tcp_send. destruct (on_env channel _) as [c n]. inv_head.
  cbn [put_sender ensures]. apply put_pcb_ok; eauto with tcp.
Qed.

Lemma send_loop_ok fuel c i data mss cap sent s : bytes_ok data -> pcbs_ok (tcp_pcbs s) ->
  ensures (send_loop fuel c i data mss cap sent s) (fun '(_, s') => pcbs_ok (tcp_pcbs s')).
Proof.
  intros Hd. revert sent s. induction fuel as [|fuel IH]; intros sent s Hs; cbn [send_loop].
  all: case_match; [done|]; case_match.
  1, 3: inv_head; destruct a as [r e]; inv_head; done.
  - done.
  - inv_head. cbv zeta. eapply ensures_bind2; [by apply slice_from_Forall|intros text Ht].
    inv_head. apply ensures_bind, ensures_Ret. intros v Hv. apply IH. apply put_pcb_ok; [done|].
    pose proof (add_u32_range (snd_next (send_context pcb0)) (as_u32 (Z.min (Z.min mss (zlen data - sent)) cap))) as Hr.
    rewrite Hv in Hr. apply pcb_ok_next; [done| |done]. intros Ho.
    etrans; [by apply (ok_order _ _ Hpcb0)|]. eapply add_u32_le; [done| |done]. apply as_u32_range.
Qed.

Lemma tcp_send_round_ok c i data sent s : bytes_ok data -> pcbs_ok (tcp_pcbs s) ->
  ensures (tcp_send_round c i data sent s) (fun '(_, s') => pcbs_ok (tcp_pcbs s')).
Proof.
  intros Hd Hs. unfold tcp_send_round. inv_head. cbv zeta. case_match; [|done]. inv_head.
  case_match; [done|]. do 2 inv_head.
  eapply ensures_bind2; [by apply send_loop_ok|intros [r s'] Hs']. by repeat case_match.
Qed.

Lemma tcp_receive_ok i s : pcbs_ok (tcp_pcbs s) ->
  ensures (tcp_receive i s) (fun '(_, _, s') => pcbs_ok (tcp_pcbs s')).
Proof.
  intros Hs. unfold tcp_receive. destruct (on_env channel _) as [c n]. inv_head.
  cbn [put_sender ensures]. apply put_pcb_ok; eauto with tcp.
Qed.

Lemma receive_take_ok i size r s : pcbs_ok (tcp_pcbs s) ->
  ensures (receive_take i size r s) (fun '(_, s') => pcbs_ok (tcp_pcbs s')).
Proof.
  intros Hs. unfold receive_take. inv_head. cbv zeta. inv_head.
  eapply ensures_bind2; [by apply slice_from_Forall, (ok_buf _ _ Hpcb)|intros rest Hrest].
  inv_head. cbn [ensures]. apply put_pcb_ok; eauto with tcp.
Qed.

Lemma tcp_receive_round_ok c i size v s : pcbs_ok (tcp_pcbs s) ->
  ensures (tcp_receive_round c i size v s) (fun '(_, s') => pcbs_ok (tcp_pcbs s')).
Proof.
  intros Hs. assert (forall r, ensures ('(d, s) ← receive_take i size r s;
     Ret (@Done (option (list Z)) RecvView (Some d), with_env (drop_receiver c (sys_env s)) s))
    (fun '(_, s') => pcbs_ok (tcp_pcbs s'))) as Ht.
  { intros r. eapply ensures_bind2; [by apply receive_take_ok|by intros [d s']]. }
  unfold tcp_receive_round. cbv zeta.
  destruct (rv_state v); try done; try apply Ht; (case_match; [|by apply Ht]).
  all: inv_head; destruct a as [r e]; inv_head; case_match; [done|]; by do 2 inv_head.
Qed.

Lemma tcp_close_ok i s : pcbs_ok (tcp_pcbs s) -> keeps (tcp_close i s).
Proof.
  intros Hs. unfold keeps, tcp_close. destruct (_ !! i) as [p|] eqn:E; [|done].
  apply pcbs_ok_lookup in E; [|done]. repeat inv_head. cbn [ensures]. by apply put_pcb_ok.
Qed.

Lemma tcp_close_sockets_ok pcbs e : pcbs_ok pcbs -> pcbs_ok (fst (tcp_close_sockets pcbs e)).
Proof.
  intros [Hl Hf].
  enough (length (fst (tcp_close_sockets pcbs e)) = length pcbs
    /\ Forall (pcb_ok TCP_PCB_COUNT) (fst (tcp_close_sockets pcbs e))) as [El Ef]
    by (split; [by rewrite El|done]).
  clear Hl. revert e. induction Hf as [|p pcbs Hp _ IH]; intros e; cbn [tcp_close_sockets]; [done|].
  pose proof (release_ok TCP_PCB_COUNT p e Hp) as Hr. destruct (release p e) as [p' e'].
  specialize (IH e'). destruct (tcp_close_sockets pcbs e') as [pcbs' e''].
  cbn [fst] in *. destruct IH as [Hl' Hf']. split; [cbn [length]; by f_equal|by constructor].
Qed.
End inv_ops.

(** ** Reachable tables *)

Section tcp_system.
Context `{Platform} `{BuildProfile}.

(** One critical section of any thread: a segment from the network, a round of
    the retransmission thread, a (part of a) user command, the shutdown; or a
    step of the rest of the stack, which changes only the network side. *)
Inductive tcp_step : TcpSys -> TcpSys -> Prop :=
| ts_input s data len src dst iface r s' : bytes_ok data -> in_u32 src -> in_u32 dst ->
    tcp_input data len src dst iface s = Ret (r, s') -> tcp_step s s'
| ts_retransmit s pcbs n : retransmit (tcp_pcbs s) (tcp_net s) = Ret (pcbs, n) -> tcp_step s (mkTcpSys pcbs n)
| ts_rfc793_open s local r act c i s' : endpoint_wf local -> (forall e, r = Some e -> endpoint_wf e) ->
    rfc793_open local r act s = Ret (c, i, s') -> tcp_step s s'
| ts_rfc793_open_wake s c i r s' : rfc793_open_wake c i s = Ret (r, s') -> tcp_step s s'
| ts_open s i s' : tcp_open s = Ret (i, s') -> tcp_step s s'
| ts_connect s i remote c s' : endpoint_wf remote -> routes_wf (ip_routes (net_ctx (tcp_net s))) ->
    tcp_connect i remote s = Ret (c, s') -> tcp_step s s'
| ts_connect_wake s c i r s' : tcp_connect_wake c i s = Ret (r, s') -> tcp_step s s'
| ts_bind s i local s' : endpoint_wf local -> tcp_bind i local s = Ret s' -> tcp_step s s'
| ts_listen s i s' : tcp_listen i s = Ret s' -> tcp_step s s'
| ts_accept s i c nb s' : tcp_accept i s = Ret (c, nb, s') -> tcp_step s s'
| ts_accept_round s c i nb b r s' : tcp_accept_round c i nb b s = Ret (r, s') -> tcp_step s s'
| ts_send s i c s' : tcp_send i s = Ret (c, s') -> tcp_step s s'
| ts_send_round s c i data sent r s' : bytes_ok data ->
    tcp_send_round c i data sent s = Ret (r, s') -> tcp_step s s'
| ts_receive s i c v s' : tcp_receive i s = Ret (c, v, s') -> tcp_step s s'
| ts_receive_round s c i size v r s' : tcp_receive_round c i size v s = Ret (r, s') -> tcp_step s s'
| ts_close s i s' : tcp_close i s = Ret s' -> tcp_step s s'
| ts_close_sockets s :
    tcp_step s (mkTcpSys (fst (tcp_close_sockets (tcp_pcbs s) (sys_env s)))
                  ((tcp_net s) <|net_env := snd (tcp_close_sockets (tcp_pcbs s) (sys_env s))|>))
| ts_other s n : tcp_step s (s <|tcp_net := n|>).

(** Reading a preservation lemma at a result. *)
Lemma ensures_at {A} (m : outcome A) (Q : A -> Prop) x : ensures m Q -> m = Ret x -> Q x.
Proof. intros HQ ->. exact HQ. Qed.

Lemma tcp_step_ok s s' : tcp_step s s' -> pcbs_ok (tcp_pcbs s) -> pcbs_ok (tcp_pcbs s').
Proof.
  intros St Hs. destruct St.
  - match goal with E : tcp_input ?d ?l ?src ?dst ?f ?t = _ |- _ =>
      exact (ensures_at _ _ _ (tcp_input_ok d l src dst f t ltac:(done) ltac:(done) ltac:(done) Hs) E) end.
  - exact (ensures_at _ _ _ (retransmit_ok _ (tcp_net s) Hs) ltac:(eassumption)).
  - exact (ensures_at _ _ _ (rfc793_open_ok _ _ act _ ltac:(eassumption) ltac:(eassumption) Hs) ltac:(eassumption)).
  - exact (ensures_at _ _ _ (rfc793_open_wake_ok _ _ _ Hs) ltac:(eassumption)).
  - exact (ensures_at _ _ _ (tcp_open_ok _ Hs) ltac:(eassumption)).
  - exact (ensures_at _ _ _ (tcp_connect_ok _ _ _ ltac:(eassumption) ltac:(eassumption) Hs) ltac:(eassumption)).
  - exact (ensures_at _ _ _ (tcp_connect_wake_ok _ _ _ Hs) ltac:(eassumption)).
  - exact (ensures_at _ _ _ (tcp_bind_ok _ _ _ ltac:(eassumption) Hs) ltac:(eassumption)).
  - exact (ensures_at _ _ _ (tcp_listen_ok _ _ Hs) ltac:(eassumption)).
  - exact (ensures_at _ _ _ (tcp_accept_ok _ _ Hs) ltac:(eassumption)).
  - exact (ensures_at _ _ _ (tcp_accept_round_ok _ _ _ _ _ Hs) ltac:(eassumption)).
  - exact (ensures_at _ _ _ (tcp_send_ok _ _ Hs) ltac:(eassumption)).
  - exact (ensures_at _ _ _ (tcp_send_round_ok _ _ _ _ _ ltac:(eassumption) Hs) ltac:(eassumption)).
  - exact (ensures_at _ _ _ (tcp_receive_ok _ _ Hs) ltac:(eassumption)).
  - exact (ensures_at _ _ _ (tcp_receive_round_ok _ _ _ _ _ Hs) ltac:(eassumption)).
  - exact (ensures_at _ _ _ (tcp_close_ok _ _ Hs) ltac:(eassumption)).
  - by apply tcp_close_sockets_ok.
  - done.
Qed.

Lemma tcp_reachable_ok n s : rtc tcp_step (mkTcpSys TcpPcbs_new n) s -> pcbs_ok (tcp_pcbs s).
Proof.
  intros Hr. assert (pcbs_ok (tcp_pcbs (mkTcpSys TcpPcbs_new n))) as H0' by apply pcbs_new_ok.
  induction Hr as [|s1 s2 s3 Hstep _ IH]; [done|]. apply IH. by eapply tcp_step_ok.
Qed.
End tcp_system.
