(* ===== verification/TcpSafety.v ===== *)
(** * The TCP input path never reads out of bounds past its header

    No operation of the input path loops for ever or reads outside a slice,
    except for the first read of [input], the header. *)
From S2P Require Import Prelude Platform LinkedList Bytes Checksum IpTypes Devices Arp Ip Transport Udp TcpTypes TcpOutput TcpInput.

Section tcp_defined.
Context `{Platform} `{BuildProfile}.

Lemma output_segment_defined s a fl w data local remote n : defined (output_segment s a fl w data local remote n).
Proof.
  unfold output_segment, add_usize. cbv zeta. apply defined_bind_all; [apply checked_defined|intros total].
  apply (cksum16_pseudo_defined _ _ _ _ (fun _ sum => data ← put_check_sum _ 16 sum; _)).
  intros _ sum. def_tac.
Qed.
#[local] Hint Resolve output_segment_defined : rust.

Lemma tcp_output_defined p fl data n : defined (tcp_output p fl data n).
Proof. unfold tcp_output. cbv zeta. case_match. def_tac. Qed.

Lemma reply_rst_defined a n : defined (reply_rst a n).
Proof. unfold reply_rst. def_tac. Qed.

Lemma pcb_at_defined {P} (pcbs : list P) i : defined (pcb_at pcbs i).
Proof. apply unwrap_defined. Qed.
#[local] Hint Resolve tcp_output_defined reply_rst_defined pcb_at_defined : rust.

Lemma and_then_defined m k : defined m -> (forall s, defined (k s)) -> defined (m >-> k).
Proof. intros Hm Hk. unfold and_then. destruct m as [[]| | | |]; cbn; auto. Qed.

Lemma release_pcb_defined i s : defined (release_pcb i s).
Proof. unfold release_pcb. def_tac. Qed.
#[local] Hint Resolve release_pcb_defined : rust.

Lemma in_recv_window_defined x p : defined (in_recv_window x p).
Proof. unfold in_recv_window, add_u32. cbv zeta. def_tac. Qed.
#[local] Hint Resolve in_recv_window_defined : rust.

Lemma seq_acceptable_defined seg p : defined (seq_acceptable seg p).
Proof. unfold seq_acceptable, add_u32, sub_u32. cbv zeta. def_tac. Qed.
#[local] Hint Resolve seq_acceptable_defined : rust.

Lemma check_ack_defined a i st s : defined (check_ack a i st s).
Proof.
  unfold check_ack, ack_syn_received, ack_established, ack_last_ack, ack_time_wait. cbv zeta. def_tac.
Qed.

Lemma check_fin_defined a i st s : defined (check_fin a i st s).
Proof. unfold check_fin, add_u32. cbv zeta. def_tac. Qed.

Lemma arrives_otherwise_defined a i st s : defined (arrives_otherwise a i st s).
Proof.
  unfold arrives_otherwise, check_sequence, check_reset, check_syn, process_text, add_u32, sub_u16. cbv zeta.
  repeat (apply and_then_defined; [|intros; cbv beta]); try apply check_fin_defined;
    try apply check_ack_defined; def_tac.
Qed.

Lemma arrives_listen_defined a i m s : defined (arrives_listen a i m s).
Proof. unfold arrives_listen, add_u32. cbv zeta. def_tac. Qed.

Lemma arrives_syn_sent_defined a i s : defined (arrives_syn_sent a i s).
Proof. unfold arrives_syn_sent, add_u32. cbv zeta. def_tac. Qed.

Lemma segment_arrives_defined a s : defined (segment_arrives a s).
Proof.
  pose proof arrives_otherwise_defined. pose proof arrives_listen_defined.
  pose proof arrives_syn_sent_defined. unfold segment_arrives, arrives_closed, add_u32. cbv zeta. def_tac.
Qed.
#[local] Hint Resolve segment_arrives_defined : rust.

Lemma tcp_input_UB data len src dst iface s : tcp_input data len src dst iface s = UB <-> zlen data < 20.
Proof.
  unfold tcp_input. cbv zeta. change (zlen data < 20) with (zlen data < size_of TcpHeader).
  apply (bytes_to_struct_UB (T := TcpHeader)). intros h. cbv zeta. destruct (len <? _); [done|].
  apply cksum16_pseudo_defined. intros ps sum. unfold sub_usize, add_usize. def_tac.
Qed.
End tcp_defined.
