(* ===== verification/TcpAccept.v ===== *)
(** * [accept] never returns a connection

    The backlog of a listening socket and the loop of [accept] that empties it.
    The loop returns the entry it popped before the last one, when the backlog
    has run out; but a thread is woken once for every connection that joins the
    backlog, and pops one connection per wakeup: the backlog never runs out. *)
From S2P Require Import Prelude Platform LinkedList Bytes Checksum IpTypes Devices Arp Ip Transport Udp TcpTypes TcpOutput TcpInput TcpUser TcpInv TcpSafety.

#[local] Set Warnings "-register-all".

(** ** Specification *)

(** The loop of [accept] on the channel [c] for the socket [i]: its two
    variables, and the steps of the rest of the program between its rounds. *)
Section steps.
Context `{Platform} `{BuildProfile}.

Inductive accept_step (c i : nat) : option nat * option nat * TcpSys -> option nat * option nat * TcpSys -> Prop :=
| as_segment nb bid s data len src dst iface r s' :
    tcp_input data len src dst iface s = Ret (r, s') -> accept_step c i (nb, bid, s) (nb, bid, s')
| as_retransmit nb bid s pcbs n : retransmit (tcp_pcbs s) (tcp_net s) = Ret (pcbs, n) ->
    accept_step c i (nb, bid, s) (nb, bid, mkTcpSys pcbs n)
| as_round nb bid s nb' bid' s' : tcp_accept_round c i nb bid s = Ret (Again (nb', bid'), s') ->
    accept_step c i (nb, bid, s) (nb', bid', s').
End steps.

(** Senders are channels that exist. *)
Definition senders_ok (s : TcpSys) : Prop :=
  forall i p c, tcp_pcbs s !! i = Some p -> tcp_sender p = Some c -> (c < length (env_chans (sys_env s)))%nat.

(** The socket [i] listens and somebody accepts on the channel [c], which no other
    entry has: there are no more wakeups in it than connections in the backlog. *)
Record accepting (c i : nat) (pcbs : TcpPcbs) (chans : list Chan) : Prop := {
  acc_socket : exists p k, pcbs !! i = Some p /\ tcp_state p = Listen /\ tcp_mode p = Socket
    /\ tcp_sender p = Some c /\ data_queue p = []
    /\ chans !! c = Some (mkChan (replicate k true) true true) /\ (k <= length (backlog p))%nat;
  acc_others : forall j q, j <> i -> pcbs !! j = Some q -> tcp_sender q <> Some c
}.

Definition acc_sys (c i : nat) (s : TcpSys) : Prop := accepting c i (tcp_pcbs s) (env_chans (sys_env s)).

(** ** Channels: what output does not touch *)

Definition chans_same (n n' : Net) : Prop := env_chans (net_env n') = env_chans (net_env n).

Section output.
Context `{Platform} `{BuildProfile}.
Implicit Types (n : Net) (p : TcpPcb).

Lemma net_transmit_chans n proto data len dst :
  ensures (net_transmit n proto data len dst) (fun '(_, n') => chans_same n n').
Proof.
  unfold net_transmit, device_transmit, loopback_transmit. apply ensures_bind.
  case_match; [done|]. case_match; [done|]. apply ensures_bind, ensures_Ret. by intros [r d] _.
Qed.

Lemma elapsed_chans t e : env_chans (snd (elapsed t e)) = env_chans e.
Proof. done. Qed.

Lemma arp_resolve_chans iface ip n : ensures (arp_resolve iface ip n) (fun '(_, n') => chans_same n n').
Proof.
  unfold arp_resolve. case_match; [done|].
  eapply (ensures_bind2 _ _ (fun '(_, _, e) => env_chans e = env_chans (net_env n))).
  { unfold ArpTable_get. case_match; [|done]. pose proof (elapsed_chans (timestamp a) (net_env n)) as E.
    destruct (elapsed _ _) as [r e]. apply ensures_bind, ensures_Ret. intros dur _. by case_match. }
  intros [[r t] e] He. cbv zeta. case_match; [done|].
  eapply ensures_bind2; [apply net_transmit_chans|]. intros [[] n'] Hn; unfold chans_same in *; cbn in *; congruence.
Qed.

Lemma ip_output_chans (ty : IPProtocolType) data src dst n : ensures (ip_output ty data src dst n) (fun '(_, n') => chans_same n n').
Proof.
  unfold ip_output. case_match; [|done]. case_match; [done|]. cbv zeta.
  apply ensures_bind, ensures_Ret; intros [id m] _. apply ensures_bind, ensures_Ret; intros header _.
  eapply (ensures_bind2 _ _ (fun '(_, n') => chans_same n n')).
  { unfold ip_next_hop_addr. case_match; [|done]. case_match.
    - by do 2 (apply ensures_bind, ensures_Ret; intros ? _).
    - eapply ensures_bind2; [apply arp_resolve_chans|]. by intros [[[|]|] n'] Hn. }
  intros [[hw|] n1] Hn; [|done]. eapply ensures_mono; [apply net_transmit_chans|].
  intros [r n2] Hn2. unfold chans_same in *. congruence.
Qed.

Lemma output_segment_chans s a fl w data l r n :
  ensures (output_segment s a fl w data l r n) (fun '(_, n') => chans_same n n').
Proof.
  unfold output_segment. cbv zeta. do 4 (apply ensures_bind, ensures_Ret; intros ? _).
  eapply ensures_bind2; [apply ip_output_chans|]. intros [rs n'] Hn. by apply ensures_bind, ensures_Ret.
Qed.

Lemma tcp_output_chans p fl data n :
  ensures (tcp_output p fl data n) (fun '(_, p', n') => chans_same n n' /\ tcp_sender p' = tcp_sender p).
Proof.
  unfold tcp_output. cbv zeta. set (sq := if tcp_flag_exists fl SYN then _ else _).
  assert (forall q m, env_chans (net_env m) = env_chans (net_env n) -> tcp_sender q = tcp_sender p ->
    ensures ('(sent, n0) ← output_segment sq
      (rcv_next (recv_context q)) fl (rcv_window (recv_context q)) data (tcp_local q) (tcp_remote q) m; Ret (sent, q, n0))
      (fun '(_, p', n') => chans_same n n' /\ tcp_sender p' = tcp_sender p)) as Hgo.
  { intros q m Hm Hq. eapply ensures_bind2; [apply output_segment_chans|]. intros [z n'] Hn'.
    unfold chans_same in *. cbn in *. split; [congruence|done]. }
  destruct (_ || _); by apply Hgo.
Qed.

Lemma reply_rst_chans a n : ensures (reply_rst a n) (chans_same n).
Proof. unfold reply_rst. eapply ensures_bind2; [apply output_segment_chans|]. by intros [z n']. Qed.
End output.

(** ** The invariant *)

Section invariant.
Context `{Platform} `{BuildProfile}.
Context (c i : nat).
Implicit Types (n : Net) (p q : TcpPcb) (s : TcpSys) (a : Arrival) (pcbs : TcpPcbs).

Abbreviation accn pcbs n := (accepting c i pcbs (env_chans (net_env n))) (only parsing).
Abbreviation keeps_acc m := (ensures m (fun s' => acc_sys c i s')) (only parsing).

(** Another entry is stored. *)
Lemma acc_put pcbs chans j q : accepting c i pcbs chans -> j <> i -> tcp_sender q <> Some c ->
  accepting c i (<[j := q]> pcbs) chans.
Proof.
  intros [Hs Ho] Hj Hq. split.
  - destruct Hs as (p & k & Hi & ?). exists p, k. by rewrite list_lookup_insert_ne.
  - intros l r Hl Hr. apply list_lookup_insert_Some in Hr as [(-> & <- & _)|[_ Hr]]; [done|by eapply Ho].
Qed.

(** Another user is woken. *)
Lemma acc_notify pcbs e o b : accepting c i pcbs (env_chans e) -> o <> Some c ->
  accepting c i pcbs (env_chans (notify o b e)).
Proof.
  intros [(p & k & Hi & Hl & Hm & Hs & Hq & Hc & Hk) Ho] Hne. split; [|done].
  exists p, k. split_and!; try done. destruct o as [c'|]; [|done]. cbn. unfold chan_send.
  destruct (env_chans e !! c') as [ch|] eqn:E; [|done]. destruct (ch_rx_alive ch); [|done]. cbn.
  rewrite list_lookup_insert_ne; [done|]. congruence.
Qed.

(** A connection joins the backlog, and the thread that accepts is woken. *)
Lemma acc_backlog pcbs e p j : accepting c i pcbs (env_chans e) -> pcbs !! i = Some p ->
  accepting c i (<[i := add_backlog j p]> pcbs) (env_chans (notify (tcp_sender (add_backlog j p)) true e)).
Proof.
  intros [(p' & k & Hi & Hl & Hm & Hs & Hq & Hc & Hk) Ho] Hp. rewrite Hi in Hp. injection Hp as <-. split.
  - exists (add_backlog j p'), (S k). change (tcp_sender (add_backlog j p')) with (tcp_sender p'). rewrite Hs.
    split_and!; try done.
    + apply list_lookup_insert_eq. by eapply lookup_lt_Some.
    + cbn. unfold chan_send. rewrite Hc. cbn. rewrite list_lookup_insert_eq by by eapply lookup_lt_Some.
      rewrite <-replicate_cons_app. done.
    + cbn. rewrite length_app. cbn. lia.
  - intros l r Hl' Hr. rewrite list_lookup_insert_ne in Hr by done. by eapply Ho.
Qed.

Lemma acc_sender pcbs chans j q : accepting c i pcbs chans -> j <> i -> pcbs !! j = Some q -> tcp_sender q <> Some c.
Proof. intros [_ Ho]. apply Ho. Qed.

Lemma acc_listens pcbs chans p : accepting c i pcbs chans -> pcbs !! i = Some p -> tcp_state p = Listen /\ tcp_mode p = Socket.
Proof. intros [(p' & k & Hi & Hl & Hm & _) _] Hp. rewrite Hi in Hp. injection Hp as <-. by split. Qed.

Lemma acc_new_entry pcbs chans k q pcbs' : accepting c i pcbs chans -> new_entry pcbs = Some (k, q, pcbs') ->
  k <> i /\ tcp_sender q <> Some c /\ accepting c i pcbs' chans.
Proof.
  intros Ha. unfold new_entry. destruct (list_find _ _) as [[l r]|] eqn:F; [|done]. intros [= <- <- <-].
  apply list_find_Some in F as (Hl & Hf & _).
  assert (l <> i) as Hne by (intros ->; apply (acc_listens _ _ r Ha) in Hl as [? _]; congruence).
  assert (tcp_sender r <> Some c) as Hr by by eapply acc_sender.
  split_and!; [done|done|]. by apply acc_put.
Qed.

Lemma acc_chans pcbs n n' : chans_same n n' -> accn pcbs n -> accn pcbs n'.
Proof. unfold chans_same. by intros ->. Qed.

Lemma acc_put_pcb j q n s : accn (tcp_pcbs s) n -> j <> i -> tcp_sender q <> Some c -> acc_sys c i (put_pcb j q n s).
Proof. intros. by apply acc_put. Qed.

Lemma acc_release pcbs p n p' n' : on_env (release p) n = (p', n') -> accn pcbs n -> tcp_sender p <> Some c ->
  accn pcbs n' /\ tcp_sender p' <> Some c.
Proof. intros E Ha Hp. unfold on_env, release in E. cbn -[notify] in E. injection E as <- <-. split; [by apply acc_notify|done]. Qed.

Lemma acc_wait_time pcbs p n p' n' : on_env (set_wait_time p) n = (p', n') -> accn pcbs n -> tcp_sender p <> Some c ->
  accn pcbs n' /\ tcp_sender p' <> Some c.
Proof.
  intros E Ha Hp. unfold on_env, set_wait_time in E. destruct (wait_time p); cbn in E; injection E as <- <-; by split.
Qed.
End invariant.

Lemma clean_data_queue_sender p : tcp_sender (clean_data_queue p) = tcp_sender p.
Proof. unfold clean_data_queue. by case_match. Qed.
Lemma update_send_window_sender seg p : tcp_sender (update_send_window seg p) = tcp_sender p.
Proof. unfold update_send_window. by case_match. Qed.

(** One step of an operation on the entry [j]: what it reads, sends and wakes. *)
Ltac acc_step :=
  lazymatch goal with
  | Ha : accepting ?c ?i _ (env_chans (net_env ?n)), Hj : ?j <> ?i |- ensures (mbind _ (pcb_at _ ?j)) _ =>
      apply ensures_bind, ensures_Ret; intros ?p ?Hp%pcb_at_Ret;
      match goal with Hp : _ !! j = Some ?p |- _ => pose proof (acc_sender _ _ _ _ _ _ Ha Hj Hp) end
  | Ha : accepting ?c ?i _ (env_chans (net_env ?n)) |- ensures (mbind _ (tcp_output ?p _ _ ?n)) _ =>
      let Hn := fresh "Hn" in let Hs := fresh "Hs" in
      eapply ensures_bind2; [apply tcp_output_chans|];
      intros [[?z ?p'] ?n'] [Hn Hs]; eapply (acc_chans c i) in Hn; [|exact Ha]; cbn in Hs; clear Ha
  | Ha : accepting ?c ?i _ (env_chans (net_env ?n)) |- ensures (mbind _ (output_segment _ _ _ _ _ _ _ ?n)) _ =>
      let Hn := fresh "Hn" in
      eapply ensures_bind2; [apply output_segment_chans|]; intros [?z ?n'] Hn; eapply (acc_chans c i) in Hn; [|exact Ha]; clear Ha
  | Ha : accepting ?c ?i _ (env_chans (net_env ?n)) |- ensures (mbind _ (reply_rst _ ?n)) _ =>
      let Hn := fresh "Hn" in
      eapply ensures_bind2; [apply reply_rst_chans|]; intros ?n' Hn; eapply (acc_chans c i) in Hn; [|exact Ha]; clear Ha
  | Ha : accepting ?c ?i _ (env_chans (net_env ?n)) |- ensures (match on_env (release ?p) ?n with _ => _ end) _ =>
      let E := fresh "E" in
      destruct (on_env (release p) n) as [?p' ?n'] eqn:E; eapply (acc_release c i) in E; [destruct E|exact Ha|try done]; clear Ha
  | Ha : accepting ?c ?i _ (env_chans (net_env ?n)) |- ensures (match on_env (set_wait_time ?p) ?n with _ => _ end) _ =>
      let E := fresh "E" in
      destruct (on_env (set_wait_time p) n) as [?p' ?n'] eqn:E; eapply (acc_wait_time c i) in E; [destruct E|exact Ha|try done];
      clear Ha
  | |- ensures (mbind _ (if _ then _ else _)) _ => apply ensures_bind
  | |- ensures (mbind _ _) _ => apply ensures_bind, ensures_Ret; intros ? _
  | |- ensures (if ?b then _ else _) _ => destruct b
  | |- ensures (match ?x with _ => _ end) _ => destruct x
  | |- ensures (Ret _) _ => cbn [ensures stage_sys]
  | |- ensures _ _ => exact I
  end.
Ltac acc_end :=
  try match goal with Ha : accepting _ _ _ _ |- acc_sys _ _ _ => exact Ha end;
  try match goal with |- acc_sys _ _ (put_pcb _ _ (_ <|net_env := notify _ _ _|>) _) =>
    apply acc_put_pcb; [apply acc_notify|..] | |- acc_sys _ _ (put_pcb _ _ _ _) => apply acc_put_pcb end;
  cbn -[clean_data_queue update_send_window]; rewrite ?update_send_window_sender, ?clean_data_queue_sender; cbn;
  try done; try congruence.
Ltac acc_tac := cbv zeta; repeat (acc_step; cbv beta iota); acc_end.

Section arrival.
Context `{Platform} `{BuildProfile}.
Context (c i : nat).
Implicit Types (n : Net) (p q : TcpPcb) (s : TcpSys) (a : Arrival) (pcbs : TcpPcbs).

Abbreviation keeps_stage m := (ensures m (fun r => acc_sys c i (stage_sys r))) (only parsing).

Lemma and_then_acc m k : keeps_stage m -> (forall s, acc_sys c i s -> keeps_stage (k s)) -> keeps_stage (m >-> k).
Proof. intros Hm Hk. unfold and_then. eapply ensures_bind2; [apply Hm|]. intros [s|s] Hs; [done|by apply Hk]. Qed.

Lemma check_sequence_acc a j st s : j <> i -> acc_sys c i s -> keeps_stage (check_sequence a j st s).
Proof. intros Hj Hs. pose proof Hs as Ha. unfold acc_sys, sys_env in Ha. unfold check_sequence. acc_tac. Qed.

Lemma release_pcb_acc j s : j <> i -> acc_sys c i s -> keeps_stage (release_pcb j s).
Proof. intros Hj Hs. pose proof Hs as Ha. unfold acc_sys, sys_env in Ha. unfold release_pcb. acc_tac. Qed.

Lemma ack_syn_received_acc a j s : j <> i -> acc_sys c i s -> keeps_stage (ack_syn_received a j s).
Proof.
  intros Hj Hs. pose proof Hs as Ha. unfold acc_sys, sys_env in Ha. unfold ack_syn_received. cbv zeta. acc_step.
  acc_step; [|acc_tac; exact (acc_chans c i _ _ _ Hn Hs)].
  set (s1 := put_pcb j _ _ s). assert (acc_sys c i s1) as Hs1 by (unfold s1; acc_end).
  destruct (parent_id _) as [parent|]; [|exact Hs1]. apply ensures_bind, ensures_Ret. intros q Hq%pcb_at_Ret.
  destruct (decide (parent = i)) as [->|Hne].
  - by apply acc_backlog.
  - assert (tcp_sender q <> Some c) as Hqs by (eapply acc_sender; [exact Hs1|exact Hne|exact Hq]).
    apply acc_put_pcb; [apply acc_notify; [exact Hs1|exact Hqs]|exact Hne|exact Hqs].
Qed.

Lemma ack_established_acc a j st s : j <> i -> acc_sys c i s -> keeps_stage (ack_established a j st s).
Proof. intros Hj Hs. pose proof Hs as Ha. unfold acc_sys, sys_env in Ha. unfold ack_established. acc_tac. Qed.

Lemma process_text_acc a j st s : j <> i -> acc_sys c i s -> keeps_stage (process_text a j st s).
Proof. intros Hj Hs. pose proof Hs as Ha. unfold acc_sys, sys_env in Ha. unfold process_text. acc_tac. Qed.

Lemma check_fin_acc a j st s : j <> i -> acc_sys c i s -> keeps_stage (check_fin a j st s).
Proof. intros Hj Hs. pose proof Hs as Ha. unfold acc_sys, sys_env in Ha. unfold check_fin. acc_tac. Qed.

Lemma check_ack_acc a j st s : j <> i -> acc_sys c i s -> keeps_stage (check_ack a j st s).
Proof.
  intros Hj Hs. pose proof Hs as Ha. unfold acc_sys, sys_env in Ha. unfold check_ack. case_match; [done|].
  pose proof ack_syn_received_acc. pose proof ack_established_acc.
  destruct st; auto; unfold ack_last_ack, ack_time_wait; acc_tac.
Qed.

Lemma arrives_otherwise_acc a j st s : j <> i -> acc_sys c i s -> keeps_stage (arrives_otherwise a j st s).
Proof.
  intros Hj Hs. unfold arrives_otherwise.
  repeat (apply and_then_acc; [|clear s Hs; intros s Hs; cbv beta]).
  - by apply check_sequence_acc.
  - unfold check_reset. repeat case_match; try done; by apply release_pcb_acc.
  - unfold check_syn. case_match; [by apply release_pcb_acc|done].
  - by apply check_ack_acc.
  - by apply process_text_acc.
  - by apply check_fin_acc.
Qed.

Lemma arrives_syn_sent_acc a j s : j <> i -> acc_sys c i s -> ensures (arrives_syn_sent a j s) (acc_sys c i).
Proof.
  intros Hj Hs. pose proof Hs as Ha. unfold acc_sys, sys_env in Ha. unfold arrives_syn_sent. acc_tac.
  all: match goal with E : tcp_sender ?p' = _ |- tcp_sender ?p' <> _ => rewrite E end.
  all: destruct (_ && _); rewrite ?clean_data_queue_sender; done.
Qed.

Lemma arrives_closed_acc a s : acc_sys c i s -> ensures (arrives_closed a s) (acc_sys c i).
Proof.
  intros Hs. pose proof Hs as Ha. unfold acc_sys, sys_env in Ha. unfold arrives_closed. acc_tac.
Qed.

Lemma arrives_listen_acc a j m s p : acc_sys c i s -> tcp_pcbs s !! j = Some p -> tcp_state p = Listen -> tcp_mode p = m ->
  ensures (arrives_listen a j m s) (acc_sys c i).
Proof.
  intros Hs Hp Hl Hm. pose proof Hs as Ha. unfold acc_sys, sys_env in Ha. unfold arrives_listen. cbv zeta.
  acc_step; [done|]. acc_step; [acc_tac|]. acc_step; [|done].
  eapply (ensures_bind2 _ _ (fun '(k, q, pcbs) => k <> i /\ tcp_sender q <> Some c
    /\ accepting c i pcbs (env_chans (net_env (tcp_net s))))).
  - case_bool_decide as Em.
    + apply ensures_bind, ensures_Ret. intros [[k q] pcbs] E%unwrap_Ret. cbn. by eapply acc_new_entry.
    + assert (j <> i) as Hj by (intros ->; apply (acc_listens _ _ _ _ _ Ha) in Hp as [_ ?]; congruence).
      acc_step. cbn. by split_and!.
  - intros [[k q] pcbs] (Hk & Hq & Ha'). clear Ha. apply ensures_bind, ensures_Ret. intros x _.
    destruct (on_env rng_u32 (tcp_net s)) as [iss n1] eqn:E.
    assert (accepting c i pcbs (env_chans (net_env n1))) as Ha by (unfold on_env in E; cbn in E; by injection E as _ <-).
    clear Ha'. acc_tac.
Qed.

Lemma segment_arrives_acc a s : acc_sys c i s -> ensures (segment_arrives a s) (acc_sys c i).
Proof.
  intros Hs. unfold segment_arrives. destruct (select _ _ _) as [[j p]|] eqn:E; [|by apply arrives_closed_acc].
  apply select_lookup in E as Hj. cbv zeta. case_bool_decide; [by apply arrives_closed_acc|].
  case_bool_decide; [by eapply arrives_listen_acc|].
  assert (j <> i) by (intros ->; apply (acc_listens _ _ _ _ _ Hs) in Hj as [? _]; congruence).
  case_bool_decide; [by apply arrives_syn_sent_acc|].
  eapply ensures_bind2; [by apply arrives_otherwise_acc|]. done.
Qed.

Lemma tcp_input_acc data len src dst iface s : acc_sys c i s ->
  ensures (tcp_input data len src dst iface s) (fun '(_, s') => acc_sys c i s').
Proof.
  intros Hs. unfold tcp_input. cbv zeta. apply ensures_bind, ensures_Ret; intros h _. case_match; [done|].
  do 2 (apply ensures_bind, ensures_Ret; intros ? _). case_match; [done|]. case_match; [done|].
  do 5 (apply ensures_bind, ensures_Ret; intros ? _).
  eapply ensures_bind2; [by apply segment_arrives_acc|]. done.
Qed.

(** *** The retransmission thread *)

Lemma retransmit_queue_acc pcbs es p n : accepting c i pcbs (env_chans (net_env n)) -> tcp_sender p <> Some c ->
  ensures (retransmit_queue es p n) (fun '(p', n') =>
    accepting c i pcbs (env_chans (net_env n')) /\ tcp_sender p' <> Some c).
Proof.
  revert p n. induction es as [|entry es IH]; intros p n Ha Hp; cbn [retransmit_queue]; [done|].
  cbv zeta. destruct (on_env (elapsed (first_sent_at entry)) n) as [r1 n1] eqn:E1.
  assert (accepting c i pcbs (env_chans (net_env n1))) as Ha1 by (unfold on_env in E1; cbn in E1; by injection E1 as _ <-).
  apply ensures_bind, ensures_Ret. intros age _. case_match.
  { destruct (on_env (release _) n1) as [p' n'] eqn:E. eapply acc_release in E; [exact E|done|done]. }
  apply ensures_bind, ensures_Ret. intros timeout _.
  destruct (on_env (elapsed timeout) n1) as [r2 n2] eqn:E2.
  assert (accepting c i pcbs (env_chans (net_env n2))) as Ha2 by (unfold on_env in E2; cbn in E2; by injection E2 as _ <-).
  eapply (ensures_bind2 _ _ (fun n' => accepting c i pcbs (env_chans (net_env n')))).
  { destruct r2; [done|]. eapply ensures_bind2; [apply output_segment_chans|].
    intros [z n'] Hn. exact (acc_chans c i _ _ _ Hn Ha2). }
  intros n' Hn'. by apply IH.
Qed.

Lemma retransmit_pcb_acc pcbs p n : accepting c i pcbs (env_chans (net_env n)) -> tcp_sender p <> Some c ->
  ensures (retransmit_pcb p n) (fun '(p', n') =>
    accepting c i pcbs (env_chans (net_env n')) /\ tcp_sender p' <> Some c).
Proof.
  intros Ha Hp. unfold retransmit_pcb. case_match; [done|]. case_match; [|by apply retransmit_queue_acc].
  apply ensures_bind, ensures_Ret. intros t _. destruct (on_env (elapsed t) n) as [r1 n1] eqn:E1.
  assert (accepting c i pcbs (env_chans (net_env n1))) as Ha1 by (unfold on_env in E1; cbn in E1; by injection E1 as _ <-).
  apply ensures_bind, ensures_Ret. intros dur _. case_match; [|by apply retransmit_queue_acc].
  destruct (on_env (release _) n1) as [p' n'] eqn:E. eapply acc_release in E; [exact E|done|done].
Qed.

(** A listening socket has nothing to retransmit. *)
Lemma retransmit_listening p n : tcp_state p = Listen -> data_queue p = [] -> retransmit_pcb p n = Ret (p, n).
Proof.
  intros Hl Hq. unfold retransmit_pcb, state_is. rewrite Hl, Hq. cbn. destruct p. cbn in Hq. by subst.
Qed.

Lemma retransmit_acc pre pcbs n : accepting c i (pre ++ pcbs) (env_chans (net_env n)) ->
  ensures (retransmit pcbs n) (fun '(pcbs', n') => accepting c i (pre ++ pcbs') (env_chans (net_env n'))).
Proof.
  revert pre n. induction pcbs as [|p pcbs IH]; intros pre n Ha; cbn [retransmit]; [done|].
  assert ((pre ++ p :: pcbs) !! length pre = Some p) as Hp by (by rewrite list_lookup_middle).
  eapply (ensures_bind2 _ _ (fun '(p', n') => accepting c i (pre ++ p' :: pcbs) (env_chans (net_env n')))).
  - destruct (decide (length pre = i)) as [Ei|Hne].
    + destruct (acc_socket _ _ _ _ Ha) as (q & k & Hi & Hl & _ & _ & Hq & _). rewrite Ei, Hi in Hp. injection Hp as ->.
      by rewrite retransmit_listening.
    + pose proof (acc_sender _ _ _ _ _ _ Ha Hne Hp) as Hs.
      eapply ensures_mono; [by apply (retransmit_pcb_acc _ _ _ Ha)|]. intros [p' n'] [Ha' Hs'].
      replace (pre ++ p' :: pcbs) with (<[length pre := p']> (pre ++ p :: pcbs)); [by apply acc_put|].
      rewrite insert_app_r_alt by done. by rewrite Nat.sub_diag.
  - intros [p' n'] Ha'. rewrite (app_assoc pre [p'] pcbs : pre ++ p' :: pcbs = _) in Ha'.
    eapply ensures_bind2; [by apply IH|]. intros [pcbs' n2] Ha2. cbn. by rewrite <-app_assoc in Ha2.
Qed.
End arrival.

(** *** The loop of [accept] *)

Section accepting.
Context `{Platform} `{BuildProfile}.
Implicit Types (s : TcpSys).

(** Every wakeup finds a connection in the backlog. *)
Lemma accept_round_acc c i nb bid s : acc_sys c i s -> is_Some nb ->
  match tcp_accept_round c i nb bid s with
  | Ret (Again (nb', _), s') => is_Some nb' /\ acc_sys c i s'
  | Blocks => True
  | _ => False
  end.
Proof.
  intros [(p & k & Hi & Hl & Hm & Hs & Hq & Hc & Hk) Ho] [b ->]. unfold tcp_accept_round, chan_recv. rewrite Hc. cbn [ch_queue].
  destruct k as [|k]; cbn [replicate]; [done|]. rewrite bind_ret. cbn [unwrap_result]. rewrite bind_ret. cbn [negb].
  unfold pcb_at. change (tcp_pcbs (with_env ?e s)) with (tcp_pcbs s). rewrite Hi. cbn [unwrap]. rewrite bind_ret.
  unfold state_is. rewrite Hl. cbn. unfold pop_backlog. destruct (backlog p) as [|b' bs] eqn:Eb; [cbn in Hk; lia|].
  split; [by eexists|]. split.
  - exists (p <|backlog := bs|>), k. split_and!; try done.
    + apply list_lookup_insert_eq. by eapply lookup_lt_Some.
    + cbn. by rewrite list_lookup_insert_eq by by eapply lookup_lt_Some.
    + cbn in *. lia.
  - intros j q Hj Hq'. cbn in Hq'. rewrite list_lookup_insert_ne in Hq' by done. by eapply Ho.
Qed.

Lemma accept_step_acc c i nb bid s nb' bid' s' : accept_step c i (nb, bid, s) (nb', bid', s') ->
  acc_sys c i s -> is_Some nb -> acc_sys c i s' /\ is_Some nb'.
Proof.
  intros St Ha Hn. inversion St; subst.
  - split; [|done]. pose proof (tcp_input_acc c i data len src dst iface s Ha) as P. 
    match goal with E : tcp_input _ _ _ _ _ _ = _ |- _ => by rewrite E in P end.
  - split; [|done]. pose proof (retransmit_acc c i [] (tcp_pcbs s) (tcp_net s) Ha) as P.
    match goal with E : retransmit _ _ = _ |- _ => by rewrite E in P end.
  - pose proof (accept_round_acc c i nb bid s Ha Hn) as P.
    match goal with E : tcp_accept_round _ _ _ _ _ = _ |- _ => rewrite E in P end. by destruct P.
Qed.
End accepting.

Lemma accept_empty i s c nb s0 p : tcp_pcbs s !! i = Some p -> backlog p = [] ->
  tcp_accept i s = Ret (c, nb, s0) -> nb = None.
Proof.
  intros Hi Hb E. unfold tcp_accept in E. cbn [on_env channel] in E. unfold pcb_at in E. rewrite Hi in E.
  cbn [unwrap] in E. rewrite bind_ret in E. destruct (negb (mode_is _ _)); [done|]. destruct (negb (state_is _ _)); [done|].
  unfold pop_backlog in E. cbn in E. rewrite Hb in E. by injection E.
Qed.

Lemma accept_start i s c nb s0 p b bs : senders_ok s -> tcp_pcbs s !! i = Some p -> data_queue p = [] ->
  backlog p = b :: bs -> tcp_accept i s = Ret (c, nb, s0) -> nb = Some b /\ acc_sys c i s0.
Proof.
  intros Hok Hi Hq Hb E. unfold tcp_accept in E. cbn [on_env channel] in E.
  unfold pcb_at in E. rewrite Hi in E. cbn [unwrap] in E. rewrite bind_ret in E.
  unfold mode_is, state_is in E. case_bool_decide as Hm; cbn in E; [|done]. case_bool_decide as Hl; cbn in E; [|done].
  unfold pop_backlog in E. cbn in E. rewrite Hb in E. injection E as <- <- <-. split; [done|]. split.
  - eexists _, 0%nat. split_and!; [by apply list_lookup_insert_eq, (lookup_lt_Some _ _ p)|done|done|done|done| |cbn; lia].
    cbn. destruct (tcp_sender p) as [c'|] eqn:Es; cbn.
    + rewrite list_lookup_alter_ne by (specialize (Hok i p c' Hi Es); unfold sys_env in Hok; lia).
      by rewrite lookup_app_r, Nat.sub_diag.
    + by rewrite lookup_app_r, Nat.sub_diag.
  - intros j q Hj Hq' Hs. cbn in Hq'. rewrite list_lookup_insert_ne in Hq' by done.
    specialize (Hok j q _ Hq' Hs). unfold sys_env in Hok. lia.
Qed.

(** ** Properties *)

Section properties.
Context `{Platform} `{BuildProfile}.
Implicit Types (s : TcpSys).

(** C10: [accept] never returns a connection.  With an empty backlog it returns
    [None] at once, without waiting.  With a connection in the backlog it waits for
    another one, and again: whatever segments arrive and whenever the
    retransmission thread runs, every wakeup brings a connection of its own, the
    thread pops one for each, and no round of the loop is the last. *)
Theorem accept_never_returns i p s c nb s0 : senders_ok s -> tcp_pcbs s !! i = Some p -> data_queue p = [] ->
  tcp_accept i s = Ret (c, nb, s0) ->
  (backlog p = [] -> exists s', tcp_accept_round c i nb None s0 = Ret (Done None, s'))
  /\ (backlog p <> [] -> forall nb' bid' s', rtc (accept_step c i) (nb, None, s0) (nb', bid', s') ->
      forall r s'', tcp_accept_round c i nb' bid' s' <> Ret (Done r, s'')).
Proof.
  intros Hok Hi Hq E. split.
  - intros Hb. rewrite (accept_empty i s c nb s0 p Hi Hb E). by eexists.
  - destruct (backlog p) as [|b bs] eqn:Hb; [done|]. intros _.
    destruct (accept_start i s c nb s0 p b bs Hok Hi Hq Hb E) as [-> Ha]. intros nb' bid' s' Hr.
    assert (forall x y, rtc (accept_step c i) x y -> acc_sys c i (snd x) -> is_Some (fst (fst x)) ->
      acc_sys c i (snd y) /\ is_Some (fst (fst y))) as Hinv.
    { clear. intros x y Hr. induction Hr as [|[[nb bid] s] [[nb1 bid1] s1] z St _ IH]; [done|]. intros Ha Hn.
      destruct (accept_step_acc _ _ _ _ _ _ _ _ St Ha Hn). by apply IH. }
    destruct (Hinv _ _ Hr Ha) as [Ha' Hn']; [by eexists|]. intros r s'' Er.
    pose proof (accept_round_acc c i nb' bid' s' Ha' Hn') as P. by rewrite Er in P.
Qed.
End properties.

(** ** A concrete socket, for evaluation: one connection in the backlog. *)
Definition demo_listener : TcpPcb :=
  TcpPcb_new <|tcp_state := Listen|> <|tcp_mode := Socket|> <|backlog := [1%nat]|>.
Definition demo_accept_sys : TcpSys :=
  mkTcpSys (demo_listener :: replicate 15 TcpPcb_new)
    (mkNet (loopback_init 0) (mkProtocolContexts ArpTable_new IPRoutes_new IPHeaderIdManager_new) env_init).

Lemma accept_never_returns_witness : exists c nb s0, tcp_accept 0 demo_accept_sys = Ret (c, nb, s0)
  /\ forall r s'', tcp_accept_round c 0 nb None s0 <> Ret (Done r, s'').
Proof.
  do 3 eexists. split; [reflexivity|].
  refine (proj2 (@accept_never_returns demo_platform debug_build 0 demo_listener demo_accept_sys _ _ _ _ _ _ eq_refl) _ _ _ _ _).
  - intros [|j] p c Hj Hs; cbn in Hj; [by injection Hj as <-|].
    apply (list_elem_of_lookup_2 (replicate 15 TcpPcb_new)), elem_of_replicate in Hj as [-> _]. done.
  - reflexivity.
  - reflexivity.
  - done.
  - apply rtc_refl.
Defined.
