(* ===== verification/TcpConn.v ===== *)
(** * TCP connections: specification of the input path

    What a parsed segment is, how [select] chooses a control block, what
    [output] does when IP takes the segment, and the behaviour of
    [segment_arrives] in the states of a connection. *)
From S2P Require Import Prelude Platform LinkedList Bytes Checksum IpTypes Devices Arp Ip IpService Transport Udp TcpTypes TcpOutput TcpInput TcpUser TcpInv.

Definition FL_ACK : Z := tcp_flag_as_u8 ACK.
Definition FL_SYN : Z := tcp_flag_as_u8 SYN.
Definition FL_SYN_ACK : Z := Z.lor (tcp_flag_as_u8 SYN) (tcp_flag_as_u8 ACK).
Definition FL_PSH_ACK : Z := Z.lor (tcp_flag_as_u8 ACK) (tcp_flag_as_u8 PSH).
Definition FL_FIN_ACK : Z := Z.lor (tcp_flag_as_u8 FIN) (tcp_flag_as_u8 ACK).

(** The sequence space a segment takes: its data, SYN and FIN. *)
Definition seq_space (fl : Z) (data : list Z) : Z :=
  zlen data + (if tcp_flag_exists fl SYN then 1 else 0) + (if tcp_flag_exists fl FIN then 1 else 0).

(** A segment from [src] as [segment_arrives] gets it at [dst]. *)
Definition arrival (seq ack fl w : Z) (data : list Z) (src dst : IPEndpoint) : Arrival :=
  mkArrival (mkTcpSegmentInfo seq ack (as_u16 (seq_space fl data)) w 0) fl data (zlen data) dst src.

(** The addresses [input] accepts. *)
Definition unicast_pair (src dst : IPEndpoint) (iface : IPInterface) : bool :=
  negb ((address src =? IP_ADDR_ANY) || (address src =? broadcast iface) || (address dst =? IP_ADDR_ANY)
        || (address dst =? broadcast iface)).

(** IP takes a segment from [local] to [remote] for the network. *)
Definition ip_takes `{Platform} `{BuildProfile} (n : Net) (seg : list Z) (local remote : IPEndpoint) (n' : Net) : Prop :=
  ip_accepts Tcp n seg (address local) (address remote) n'.

(** Evaluates the flag tests of a segment with known flags, and the state tests
    of a known state. *)
Ltac flags_tac :=
  unfold has in *; cbn [a_flags arrival] in *;
  repeat match goal with
  | |- context [tcp_flag_exists ?v ?f] =>
      let b := eval vm_compute in (tcp_flag_exists v f) in
      lazymatch b with
      | true => change (tcp_flag_exists v f) with true
      | false => change (tcp_flag_exists v f) with false
      end
  | |- context [state_in ?v ?l] =>
      let b := eval vm_compute in (state_in v l) in
      lazymatch b with
      | true => change (state_in v l) with true
      | false => change (state_in v l) with false
      end
  end; cbn [andb orb negb].

Section conn.
Context `{Platform} `{BuildProfile}.
Implicit Types (p q : TcpPcb) (pcbs : TcpPcbs) (s : TcpSys) (n : Net) (src dst local remote : IPEndpoint).

(** *** Parsing *)

Lemma tcp_input_segment seq ack fl w data src dst iface s :
  in_u32 seq -> in_u32 ack -> in_u8 fl -> in_u16 w -> bytes_ok data -> zlen data <= TCP_DATA_MAX ->
  endpoint_wf src -> endpoint_wf dst ->
  tcp_input (tcp_segment seq ack fl w data src dst) (20 + zlen data) (address src) (address dst) iface s =
    if unicast_pair src dst iface
    then s ← segment_arrives (arrival seq ack fl w data src dst) s; Ret (Ok tt, s)
    else Panic.
Proof.
  intros Hs Ha Hf Hw Hd Hl [_ Hsp] [_ Hdp]. pose proof (zlen_nonneg data).
  pose proof (tcp_header_of_wf seq ack fl w data src dst Hsp Hdp Hs Ha Hf Hw Hd) as W.
  pose proof (tcp_segment_sum seq ack fl w data src dst Hd Hl) as S.
  unfold tcp_input. cbv zeta. rewrite tcp_segment_eq in * by done.
  rewrite (bytes_to_struct_app (T := TcpHeader)), bind_ret by done. change (size_of TcpHeader) with 20.
  rewrite (proj2 (Z.ltb_ge _ _)) by lia. rewrite pseudo_cksum, bind_ret, not_u16_involutive.
  fold (tcp_init src dst (zlen data)). rewrite S, bind_ret. change (negb (0 =? 0)) with false. cbv iota.
  unfold unicast_pair. destruct (_ || _); [done|]. cbn [negb].
  change (th_offset (tcp_header_of seq ack fl w data src dst)) with 0x50.
  change (Z.shiftl (Z.shiftr 0x50 4) 2) with 20.
  change (th_flags (tcp_header_of seq ack fl w data src dst)) with fl.
  unfold TCP_DATA_MAX, CKSUM_MAX_LEN in Hl.
  rewrite sub_usize_ok, bind_ret by (unfold in_usize; lia). replace (20 + zlen data - 20) with (zlen data) by lia.
  replace (x ← _; y ← _; _) with (Ret (seq_space fl data) ≫= fun seg_len : Z =>
    text ← slice_from (to_u8_slice (tcp_header_of seq ack fl w data src dst) ++ data) 20;
    text_len ← Ret (zlen data);
    s ← segment_arrives (mkArrival (mkTcpSegmentInfo
        (be_to_le_u32 (th_seq_num (tcp_header_of seq ack fl w data src dst)))
        (be_to_le_u32 (th_ack_num (tcp_header_of seq ack fl w data src dst)))
        (as_u16 seg_len)
        (be_to_le_u16 (th_window (tcp_header_of seq ack fl w data src dst)))
        (be_to_le_u16 (th_urg_ptr (tcp_header_of seq ack fl w data src dst))))
      fl text text_len
      (mkIPEndpoint (address dst) (th_dst_port (tcp_header_of seq ack fl w data src dst)))
      (mkIPEndpoint (address src) (th_src_port (tcp_header_of seq ack fl w data src dst)))) s;
    Ret (Ok tt, s)).
  2: { unfold seq_space. destruct (tcp_flag_exists fl SYN), (tcp_flag_exists fl FIN);
       rewrite ?add_usize_ok, ?bind_ret by (unfold in_usize; lia);
       rewrite ?add_usize_ok, ?bind_ret by (unfold in_usize; lia); rewrite ?Z.add_0_r; done. }
  rewrite bind_ret, slice_from_app, !bind_ret by (symmetry; by apply TcpHeader_len).
  unfold arrival.
  change (th_seq_num (tcp_header_of seq ack fl w data src dst)) with (le_to_be_u32 seq).
  change (th_ack_num (tcp_header_of seq ack fl w data src dst)) with (le_to_be_u32 ack).
  change (th_window (tcp_header_of seq ack fl w data src dst)) with (le_to_be_u16 w).
  change (th_urg_ptr (tcp_header_of seq ack fl w data src dst)) with 0.
  rewrite !be_le_u32, be_le_u16 by done. by destruct src, dst.
Qed.

(** *** [select] *)

(** An entry that [select] takes at once: the local part matches, and the remote
    address (not the port). *)
Definition full_match local remote p : bool :=
  local_matches local p && (address (tcp_remote p) =? address remote).

Definition no_earlier local remote pcbs (i : nat) : Prop :=
  forall j q, (j < i)%nat -> pcbs !! j = Some q -> full_match local remote q = false.

Lemma select_loop_full local remote i0 pcbs l i p :
  pcbs !! i = Some p -> full_match local remote p = true -> no_earlier local remote pcbs i ->
  select_loop local (Some remote) i0 pcbs l = Some ((i0 + i)%nat, p).
Proof.
  revert i0 l i. induction pcbs as [|q pcbs IH]; intros i0 l i Hi Hm Hno; [done|]. cbn [select_loop].
  destruct i as [|i].
  - injection Hi as ->. unfold full_match in Hm. apply andb_true_iff in Hm as [-> ->]. by rewrite Nat.add_0_r.
  - pose proof (Hno 0%nat q ltac:(lia) eq_refl) as Hq. unfold full_match in Hq.
    replace (i0 + S i)%nat with (S i0 + i)%nat by lia.
    assert (no_earlier local remote pcbs i) as Hno' by (intros j r Hj; apply (Hno (S j)); lia).
    destruct (local_matches local q); [|by apply IH]. destruct (_ =? _); [done|by apply IH].
Qed.

Lemma select_loop_first local remote i0 pcbs l i p :
  select_loop local (Some remote) i0 pcbs l = Some (i, p) ->
  (l = Some (i, p) /\ no_earlier local remote pcbs (length pcbs))
  \/ exists k, i = (i0 + k)%nat /\ pcbs !! k = Some p /\ no_earlier local remote pcbs k.
Proof.
  revert i0 l. induction pcbs as [|q pcbs IH]; intros i0 l; cbn [select_loop].
  - intros ->. left. split; [done|]. intros j r Hj. cbn in Hj. lia.
  - assert (full_match local remote q = false -> forall l' , select_loop local (Some remote) (S i0) pcbs l' = Some (i, p) ->
      (l' = Some (i, p) /\ no_earlier local remote (q :: pcbs) (length (q :: pcbs)))
      \/ exists k, i = (i0 + S k)%nat /\ pcbs !! k = Some p /\ no_earlier local remote (q :: pcbs) (S k)) as Rec.
    { intros Hq l' [[Hl Hno]|(k & -> & Hk & Hno)]%IH.
      - left. split; [done|]. intros [|j] r Hj Hr; [by injection Hr as <-|]. apply (Hno j r); [cbn in Hj; lia|done].
      - right. exists k. split_and!; [lia|done|].
        intros [|j] r Hj Hr; [by injection Hr as <-|]. apply (Hno j r); [lia|done]. }
    assert (forall k, no_earlier local remote (q :: pcbs) (S k) -> no_earlier local remote (q :: pcbs) 0) as Hz.
    { intros k _ j r Hj. lia. }
    unfold full_match in Rec. destruct (local_matches local q); cbn [andb] in Rec.
    + destruct (_ =? _).
      * intros [= <- <-]. right. exists 0%nat. split_and!; [lia|done|]. intros j r Hj. lia.
      * intros Hsel. destruct (Rec eq_refl _ Hsel) as [[Hl Hno]|(k & -> & Hk & Hno)].
        -- destruct (listens q); [|by left]. injection Hl as <- <-. right. exists 0%nat.
           split_and!; [lia|done|]. intros j r Hj. lia.
        -- right. by exists (S k).
    + intros Hsel. destruct (Rec eq_refl _ Hsel) as [?|(k & -> & Hk & Hno)]; [by left|]. right. by exists (S k).
Qed.

Lemma select_first pcbs local remote i p : select pcbs local (Some remote) = Some (i, p) ->
  pcbs !! i = Some p /\ no_earlier local remote pcbs i.
Proof. unfold select. intros [[? _]|(k & -> & Hk & Hno)]%select_loop_first; done. Qed.

(** Once chosen and connected to the remote, an entry stays chosen. *)
Lemma select_after pcbs local remote i p q : select pcbs local (Some remote) = Some (i, p) ->
  full_match local remote q = true -> select (<[i := q]> pcbs) local (Some remote) = Some (i, q).
Proof.
  intros [Hi Hno]%select_first Hq. unfold select.
  apply (select_loop_full local remote 0); [|done|].
  - apply list_lookup_insert_eq. by eapply lookup_lt_Some.
  - intros j r Hj. rewrite list_lookup_insert_ne by lia. by apply Hno.
Qed.

Lemma full_match_own local remote p : tcp_local p = local -> tcp_remote p = remote ->
  full_match local remote p = true.
Proof. intros <- <-. unfold full_match, local_matches. rewrite !Z.eqb_refl. by rewrite orb_true_r. Qed.

(** *** [output] *)

(** The state in which a segment is handed to IP: queueing it reads the clock. *)
Definition tick_net n : Net := n <|net_env := tick (net_env n)|>.

Definition queue_entry (t seq fl : Z) (data : list Z) : TcpDataQueueEntry :=
  mkTcpDataQueueEntry t t (from_micros TCP_DEFAULT_ITVL_MICROS) seq fl data.

(** A bare acknowledgment is not queued. *)
Lemma tcp_output_ack p n n' :
  ip_takes n (tcp_segment (snd_next (send_context p)) (rcv_next (recv_context p)) FL_ACK
    (rcv_window (recv_context p)) [] (tcp_local p) (tcp_remote p)) (tcp_local p) (tcp_remote p) n' ->
  tcp_output p FL_ACK [] n = Ret (0, p, n').
Proof.
  intros Ht. unfold tcp_output. flags_tac. change (0 <? zlen []) with false. cbv iota.
  rewrite output_segment_ip by (constructor || done). unfold ip_takes, ip_accepts in Ht. by rewrite Ht.
Qed.

(** Anything that takes sequence space is. *)
Lemma tcp_output_queued p fl data n n' seq :
  seq = (if tcp_flag_exists fl SYN then iss p else snd_next (send_context p)) ->
  (tcp_flag_exists fl SYN || tcp_flag_exists fl FIN) || (0 <? zlen data) = true ->
  bytes_ok data -> zlen data <= TCP_DATA_MAX ->
  ip_takes (tick_net n) (tcp_segment seq (rcv_next (recv_context p)) fl
    (rcv_window (recv_context p)) data (tcp_local p) (tcp_remote p)) (tcp_local p) (tcp_remote p) n' ->
  tcp_output p fl data n = Ret (zlen data,
    p <|data_queue := data_queue p ++ [queue_entry (clock (env_ticks (net_env n))) seq fl data]|>, n').
Proof.
  intros -> Hq Hd Hl Ht. unfold tcp_output. rewrite Hq.
  cbn [on_env add_data_queue now]. rewrite output_segment_ip by done. unfold ip_takes, ip_accepts in Ht.
  cbn [recv_context tcp_local tcp_remote set_field set_data_queue].
  change (n <|net_env := (net_env n) <|env_ticks := S (env_ticks (net_env n))|>|>) with (tick_net n).
  by rewrite Ht.
Qed.

(** *** The sequence check *)

Lemma state_in_true st l : st ∈ l -> state_in st l = true.
Proof. apply bool_decide_eq_true_2. Qed.

(** What RFC 793 says is acceptable for the window of [wnd] numbers from [nxt]:
    for a closed window, the empty segment at [nxt] only; otherwise the first or
    the last number of the segment lies in the window. *)
Definition in_receive_window (seq len nxt wnd : Z) : Prop :=
  (wnd = 0 /\ len = 0 /\ seq = nxt)
  \/ (0 < wnd /\ (nxt <= seq < nxt + wnd \/ 0 < len /\ nxt <= seq + len - 1 < nxt + wnd)).
#[export] Instance in_receive_window_dec seq len nxt wnd : Decision (in_receive_window seq len nxt wnd).
Proof. unfold in_receive_window. apply _. Defined.

Lemma in_recv_window_spec x p : 0 <= rcv_next (recv_context p) -> 0 <= rcv_window (recv_context p) ->
  rcv_next (recv_context p) + rcv_window (recv_context p) < 4294967296 ->
  in_recv_window x p =
    Ret (bool_decide (rcv_next (recv_context p) <= x < rcv_next (recv_context p) + rcv_window (recv_context p))).
Proof.
  intros Hn Hw Hb. unfold in_recv_window. cbv zeta. destruct (Z.leb_spec (rcv_next (recv_context p)) x).
  - rewrite add_u32_ok, bind_ret by lia. f_equal. destruct (Z.ltb_spec x (rcv_next (recv_context p) + rcv_window (recv_context p)));
      symmetry; [apply bool_decide_eq_true|apply bool_decide_eq_false]; lia.
  - f_equal. symmetry. apply bool_decide_eq_false. lia.
Qed.

(** The code decides it, away from the end of the sequence space. *)
Lemma seq_acceptable_window seg p :
  0 <= rcv_next (recv_context p) -> 0 <= rcv_window (recv_context p) ->
  rcv_next (recv_context p) + rcv_window (recv_context p) < 4294967296 ->
  0 <= seg_seq_num seg -> 0 <= seg_len seg -> seg_seq_num seg + seg_len seg < 4294967296 ->
  seq_acceptable seg p = Ret (bool_decide (in_receive_window (seg_seq_num seg) (seg_len seg)
    (rcv_next (recv_context p)) (rcv_window (recv_context p)))).
Proof.
  intros Hn Hw Hb Hq Hl Hql. unfold seq_acceptable, in_receive_window. cbv zeta.
  destruct (Z.ltb_spec (seg_len seg) 1), (Z.ltb_spec (rcv_window (recv_context p)) 1);
    rewrite ?in_recv_window_spec by done; rewrite ?bind_ret.
  - f_equal. destruct (Z.eqb_spec (seg_seq_num seg) (rcv_next (recv_context p))); symmetry;
      [apply bool_decide_eq_true|apply bool_decide_eq_false]; lia.
  - f_equal. apply bool_decide_ext. lia.
  - f_equal. symmetry. apply bool_decide_eq_false. lia.
  - case_bool_decide; [f_equal; symmetry; apply bool_decide_eq_true; lia|].
    rewrite add_u32_ok, bind_ret, sub_u32_ok, bind_ret, in_recv_window_spec by lia.
    f_equal. apply bool_decide_ext. lia.
Qed.

Lemma seq_acceptable_next seg p :
  seg_seq_num seg = rcv_next (recv_context p) ->
  0 <= rcv_next (recv_context p) -> 0 <= seg_len seg ->
  rcv_next (recv_context p) + rcv_window (recv_context p) < 4294967296 ->
  0 < rcv_window (recv_context p) -> seq_acceptable seg p = Ret true.
Proof.
  intros Hs Hr Hl Hb Hw. unfold seq_acceptable, in_recv_window. cbv zeta. rewrite Hs.
  rewrite (proj2 (Z.leb_le (rcv_next _) _)) by lia.
  rewrite add_u32_ok by lia. rewrite !bind_ret, (proj2 (Z.ltb_ge (rcv_window _) _)) by lia.
  rewrite (proj2 (Z.ltb_lt (rcv_next (recv_context p)) _)) by lia.
  destruct (seg_len seg <? 1); by rewrite ?bind_ret.
Qed.

(** *** The handshake, one segment at a time *)

(** A control block seen from outside: its state, endpoints, send sequence
    variables and receive sequence variables. *)
Definition conn_is p (st : TcpPcbState) local remote (una nxt rcv wnd : Z) : Prop :=
  tcp_state p = st /\ tcp_local p = local /\ tcp_remote p = remote
  /\ snd_una (send_context p) = una /\ snd_next (send_context p) = nxt
  /\ rcv_next (recv_context p) = rcv /\ rcv_window (recv_context p) = wnd.

Definition draw_net n : Net := n <|net_env := snd (rng_u32 (net_env n))|>.
Definition drawn n : Z := fst (rng_u32 (net_env n)).

Lemma drawn_range n : 0 <= drawn n < u32_max.
Proof. apply rng_u32_range. Qed.

(** LISTEN, a SYN: the entry itself becomes the connection. *)
Lemma listen_syn s i q x z w src dst n' :
  select (tcp_pcbs s) dst (Some src) = Some (i, q) -> tcp_state q = Listen -> tcp_mode q <> Socket ->
  0 <= x < 4294967295 ->
  let y := drawn (tcp_net s) in
  ip_takes (tick_net (draw_net (tcp_net s)))
    (tcp_segment y (x + 1) FL_SYN_ACK PCB_BUF_LEN [] dst src) dst src n' ->
  exists q', segment_arrives (arrival x z FL_SYN w [] src dst) s = Ret (put_pcb i q' n' s)
    /\ conn_is q' SynReceived dst src y (y + 1) (x + 1) PCB_BUF_LEN
    /\ parent_id q' = parent_id q /\ tcp_sender q' = tcp_sender q
    /\ send_context q' = set_field (proj := snd_una) y (set_field (proj := snd_next) (y + 1) (send_context q))
    /\ tcp_buf q' = tcp_buf q.
Proof.
  intros Hsel Hst Hm Hx y Ht. unfold segment_arrives. cbn [a_local a_remote arrival]. rewrite Hsel, Hst.
  cbn [bool_decide decide_rel]. rewrite bool_decide_eq_false_2, bool_decide_eq_true_2 by done.
  unfold arrives_listen. flags_tac. cbn [a_seg a_local a_remote arrival seg_seq_num].
  rewrite bool_decide_eq_false_2 by done. unfold pcb_at.
  destruct (select_first _ _ _ _ _ Hsel) as [-> _]. cbn [unwrap]. rewrite !bind_ret.
  rewrite add_u32_ok, bind_ret by lia. cbv zeta. cbn [on_env rng_u32]. fold (drawn (tcp_net s)). fold y.
  change ((tcp_net s) <|net_env := (net_env (tcp_net s)) <|env_draws := S (env_draws (net_env (tcp_net s)))|>|>)
    with (draw_net (tcp_net s)).
  fold FL_SYN_ACK. change (gen_range _) with y.
  rewrite (tcp_output_queued _ FL_SYN_ACK [] _ n' y); [|done|done|constructor|done|done].
  rewrite bind_ret. pose proof (drawn_range (tcp_net s)) as Hr. fold y in Hr. unfold u32_max in Hr.
  match goal with |- context [add_u32 (iss ?p) 1] => change (iss p) with y end.
  rewrite add_u32_ok, bind_ret by lia.
  eexists. split; [destruct s; reflexivity|]. by split_and!.
Qed.

(** SYN-SENT, the SYN and ACK of the other side. *)
Lemma syn_sent_syn_ack s i p x y w src dst n' :
  select (tcp_pcbs s) dst (Some src) = Some (i, p) ->
  conn_is p SynSent dst src x (x + 1) (rcv_next (recv_context p)) PCB_BUF_LEN -> iss p = x ->
  0 <= x -> 0 <= y < 4294967295 ->
  ip_takes (tcp_net s) (tcp_segment (x + 1) (y + 1) FL_ACK PCB_BUF_LEN [] dst src) dst src n' ->
  exists p', segment_arrives (arrival y (x + 1) FL_SYN_ACK w [] src dst) s =
      Ret (put_pcb i p' (n' <|net_env := notify (tcp_sender p) true (net_env n')|>) s)
    /\ conn_is p' Established dst src (x + 1) (x + 1) (y + 1) PCB_BUF_LEN
    /\ snd_window (send_context p') = w
    /\ data_queue p' = data_queue (clean_data_queue (set_una (x + 1) p))
    /\ tcp_sender p' = tcp_sender p /\ tcp_buf p' = tcp_buf p.
Proof.
  intros Hsel (Hst & Hl & Hr & Hu & Hn & _ & Hw) Hi Hx Hy Ht.
  unfold segment_arrives. cbn [a_local a_remote arrival]. rewrite Hsel, Hst.
  rewrite !bool_decide_eq_false_2, bool_decide_eq_true_2 by done.
  unfold arrives_syn_sent, pcb_at. destruct (select_first _ _ _ _ _ Hsel) as [-> _]. cbn [unwrap].
  rewrite bind_ret. unfold syn_sent_bad_ack, ack_in_window. flags_tac.
  cbn [a_seg arrival seg_seq_num seg_ack_num]. rewrite Hi, Hu, Hn.
  rewrite (proj2 (Z.leb_gt _ _)), Z.ltb_irrefl, (proj2 (Z.leb_le x _)), Z.leb_refl by lia. cbn [orb andb].
  rewrite add_u32_ok, bind_ret by lia. cbv zeta.
  set (p0 := (set_rcv_next_of (y + 1) p) <|irs := y|>).
  set (p1 := clean_data_queue (set_una (x + 1) p0)).
  assert (p1 = p0 <|send_context := send_context (set_una (x + 1) p0)|>
     <|data_queue := data_queue (clean_data_queue (set_una (x + 1) p))|>) as Hp1.
  { unfold p1, clean_data_queue. cbn. by case_match. }
  replace (iss p1) with x by (by rewrite Hp1). replace (snd_una (send_context p1)) with (x + 1) by (by rewrite Hp1).
  rewrite (proj2 (Z.ltb_lt x _)) by lia.
  fold FL_ACK. rewrite (tcp_output_ack _ _ n').
  2: { rewrite Hp1. cbn. rewrite Hl, Hr, Hn, Hw. done. }
  rewrite bind_ret. rewrite Hp1. eexists. split; [reflexivity|].
  by split_and!.
Qed.

(** SYN-RECEIVED, the final ACK, without a parent to tell. *)
Lemma syn_received_ack s i q x y w src dst :
  select (tcp_pcbs s) dst (Some src) = Some (i, q) ->
  conn_is q SynReceived dst src y (y + 1) (x + 1) PCB_BUF_LEN -> parent_id q = None ->
  0 <= x -> x + 1 + PCB_BUF_LEN < 4294967296 ->
  segment_arrives (arrival (x + 1) (y + 1) FL_ACK w [] src dst) s =
    Ret (put_pcb i (q <|tcp_state := Established|>)
           ((tcp_net s) <|net_env := notify (tcp_sender q) true (net_env (tcp_net s))|>) s).
Proof.
  intros Hsel (Hst & Hl & Hr & Hu & Hn & Hrn & Hw) Hp Hx Hb.
  unfold segment_arrives. cbn [a_local a_remote arrival]. rewrite Hsel, Hst.
  rewrite !bool_decide_eq_false_2 by done.
  destruct (select_first _ _ _ _ _ Hsel) as [Hi _].
  unfold arrives_otherwise, and_then, check_sequence, pcb_at. flags_tac.
  rewrite Hi. cbn [unwrap]. rewrite bind_ret.
  rewrite seq_acceptable_next by (rewrite ?Hrn, ?Hw; cbn; unfold PCB_BUF_LEN in *; try done; lia).
  rewrite !bind_ret. unfold check_reset, check_syn. flags_tac. rewrite !bind_ret. unfold check_ack. flags_tac.
  unfold ack_syn_received, pcb_at. rewrite Hi. cbn [unwrap]. rewrite bind_ret.
  unfold ack_in_window. cbn [a_seg arrival seg_ack_num]. rewrite Hu, Hn, (proj2 (Z.leb_le y _)), Z.leb_refl by lia.
  cbn [andb]. cbv zeta. cbn [parent_id set_field set_tcp_state]. rewrite Hp, bind_ret.
  unfold process_text, check_fin. flags_tac. by rewrite !bind_ret.
Qed.

(** *** Data *)

Lemma clean_data_queue_same p : exists l, clean_data_queue p = p <|data_queue := l|>.
Proof.
  unfold clean_data_queue. case_match; [by eexists|]. exists (data_queue p). by destruct p.
Qed.

Lemma conn_clean p st l r u nx rc wn : conn_is p st l r u nx rc wn -> conn_is (clean_data_queue p) st l r u nx rc wn.
Proof. destruct (clean_data_queue_same p) as [q ->]. done. Qed.

Lemma conn_update_window seg p st l r u nx rc wn :
  conn_is p st l r u nx rc wn -> conn_is (update_send_window seg p) st l r u nx rc wn.
Proof. intros Hc. unfold update_send_window. cbv zeta. case_match; exact Hc. Qed.

(** The acknowledgment of an in-window segment, in ESTABLISHED. *)
Lemma ack_established_spec a s i p local remote una nxt rcv wnd :
  tcp_pcbs s !! i = Some p -> conn_is p Established local remote una nxt rcv wnd ->
  una <= seg_ack_num (a_seg a) <= nxt ->
  exists p', ack_established a i Established s = Ret (Proceed (put_pcb i p' (tcp_net s) s))
    /\ conn_is p' Established local remote (seg_ack_num (a_seg a)) nxt rcv wnd
    /\ tcp_buf p' = tcp_buf p /\ tcp_sender p' = tcp_sender p /\ parent_id p' = parent_id p.
Proof.
  intros Hi Hc Ha. pose proof Hc as (Hst & Hl & Hr & Hu & Hn & Hrn & Hw).
  unfold ack_established, pcb_at. rewrite Hi. cbn [unwrap]. rewrite bind_ret. flags_tac. rewrite Hu, Hn.
  destruct (una <? seg_ack_num (a_seg a)) eqn:Eu; cbn [andb].
  - rewrite (proj2 (Z.leb_le _ nxt)) by lia. eexists. split; [reflexivity|]. split_and!.
    + apply conn_update_window, conn_clean. by split_and!.
    + unfold update_send_window. destruct (clean_data_queue_same (set_una (seg_ack_num (a_seg a)) p)) as [q ->].
      by case_match.
    + unfold update_send_window. destruct (clean_data_queue_same (set_una (seg_ack_num (a_seg a)) p)) as [q ->].
      by case_match.
    + unfold update_send_window. destruct (clean_data_queue_same (set_una (seg_ack_num (a_seg a)) p)) as [q ->].
      by case_match.
  - apply Z.ltb_ge in Eu. rewrite (proj2 (Z.ltb_ge _ una)), (proj2 (Z.ltb_ge nxt _)) by lia.
    assert (seg_ack_num (a_seg a) = una) as -> by lia. exists p. by split_and!.
Qed.

(** The text of a segment without FIN that starts at the expected number. *)
Lemma established_data s i p src dst una nxt rcv wnd ack w data n' :
  select (tcp_pcbs s) dst (Some src) = Some (i, p) ->
  conn_is p Established dst src una nxt rcv wnd -> una <= ack <= nxt ->
  0 <= rcv -> 0 < zlen data <= wnd -> wnd <= 65535 -> rcv + wnd < 4294967296 ->
  ip_takes (tcp_net s) (tcp_segment nxt (rcv + zlen data) FL_ACK (wnd - zlen data) [] dst src) dst src n' ->
  exists p', segment_arrives (arrival rcv ack FL_PSH_ACK w data src dst) s =
      Ret (put_pcb i p' (n' <|net_env := notify (tcp_sender p) true (net_env n')|>) s)
    /\ conn_is p' Established dst src ack nxt (rcv + zlen data) (wnd - zlen data)
    /\ tcp_buf p' = tcp_buf p ++ data /\ tcp_sender p' = tcp_sender p.
Proof.
  intros Hsel Hc Ha Hr0 Hd Hwm Hb Ht. pose proof Hc as (Hst & Hl & Hr & Hu & Hn & Hrn & Hw).
  unfold segment_arrives. cbn [a_local a_remote arrival]. rewrite Hsel, Hst.
  rewrite !bool_decide_eq_false_2 by done. destruct (select_first _ _ _ _ _ Hsel) as [Hi _].
  unfold arrives_otherwise, and_then, check_sequence, pcb_at. flags_tac. rewrite Hi. cbn [unwrap]. rewrite bind_ret.
  rewrite seq_acceptable_next.
  2-6: rewrite ?Hrn, ?Hw; cbn; try done; try lia. 2: apply as_u16_range.
  rewrite !bind_ret. unfold check_reset, check_syn. flags_tac. rewrite !bind_ret. unfold check_ack. flags_tac.
  destruct (ack_established_spec (arrival rcv ack FL_PSH_ACK w data src dst) s i p dst src una nxt rcv wnd)
    as (p1 & -> & Hc1 & Hbuf & Hsn & _); [done|done|done|]. rewrite bind_ret.
  unfold process_text, pcb_at. flags_tac. cbn [tcp_pcbs put_pcb].
  rewrite list_lookup_insert_eq by by eapply lookup_lt_Some. cbn [unwrap]. rewrite bind_ret.
  cbn [a_len a_seg a_data arrival seg_seq_num seg_len seg_ack_num]. rewrite (proj2 (Z.ltb_lt 0 _)) by lia. cbv zeta.
  assert (as_u16 (seq_space FL_PSH_ACK data) = zlen data) as ->.
  { unfold seq_space. change (tcp_flag_exists FL_PSH_ACK SYN) with false.
    change (tcp_flag_exists FL_PSH_ACK FIN) with false. rewrite !Z.add_0_r. apply as_u16_id. unfold in_u16. lia. }
  rewrite add_u32_ok, bind_ret by lia. destruct Hc1 as (Hst1 & Hl1 & Hr1 & Hu1 & Hn1 & Hrn1 & Hw1).
  rewrite as_u16_id by (unfold in_u16; lia). cbn [rcv_window recv_context set_rcv_next_of set_field set_recv_context
    set_rcv_next set_tcp_buf]. rewrite Hw1, sub_u16_ok, bind_ret by lia.
  fold FL_ACK. rewrite (tcp_output_ack _ _ n').
  2: { cbn. rewrite Hl1, Hr1, Hn1. done. }
  rewrite bind_ret. unfold check_fin. flags_tac. rewrite !bind_ret. cbn [stage_sys tcp_sender set_rcv_window_of
    set_rcv_next_of set_field set_recv_context set_tcp_buf]. rewrite Hsn.
  eexists. split; [unfold put_pcb; cbn; by rewrite list_insert_insert_eq|].
  split_and!; try done. by cbn; rewrite Hbuf.
Qed.
End conn.
