(* ===== verification/TcpProps.v ===== *)
(** * TCP: the theorems

    What the module guarantees a user and a peer: the invariant of reachable
    tables, segments on the wire, the handshake, delivery of a stream, resets,
    and the behaviour of the retransmission queue. *)
From S2P Require Import Prelude Platform LinkedList Bytes Checksum IpTypes Devices Arp Ip IpService Transport Udp TcpTypes TcpOutput TcpInput TcpUser TcpInv TcpSafety TcpConn.

(** A sender's segments in order: data, acknowledgment and window of each. *)
Definition Chunk : Type := list Z * Z * Z.

Definition chunk_data (c : Chunk) : list Z := fst (fst c).

Definition stream_of (cs : list Chunk) : list Z := concat (map chunk_data cs).

(** What makes a run of segments acceptable to a receiver with send variables
    [una, nxt] and [wnd] bytes of window. *)
Fixpoint chunks_ok (una nxt wnd : Z) (cs : list Chunk) : Prop :=
  match cs with
  | [] => True
  | (d, a, w) :: cs => 0 < zlen d <= wnd /\ bytes_ok d /\ in_u16 w /\ una <= a <= nxt
                       /\ chunks_ok a nxt (wnd - zlen d) cs
  end.

(** Feeding them to [input], the first one with sequence number [seq]. *)
Fixpoint tcp_feed `{Platform} `{BuildProfile} (src dst : IPEndpoint) (iface : IPInterface) (seq : Z)
    (cs : list Chunk) (s : TcpSys) : outcome TcpSys :=
  match cs with
  | [] => Ret s
  | (d, a, w) :: cs =>
      '(r, s) ← tcp_input (tcp_segment seq a FL_PSH_ACK w d src dst) (20 + zlen d)
                  (address src) (address dst) iface s;
      _ ← unwrap_result r;
      tcp_feed src dst iface (seq + zlen d) cs s
  end.

(** Between the networks [n] and [n']: IP took one acknowledgment for each
    segment, with the number after its data and the window it leaves, each
    followed by a wakeup of the user, and nothing else. *)
Fixpoint acks_sent `{Platform} `{BuildProfile} (src dst : IPEndpoint) (nxt seq wnd : Z) (sender : option nat)
    (cs : list Chunk) (n n' : Net) : Prop :=
  match cs with
  | [] => n' = n
  | (d, _, _) :: cs => exists n1,
      ip_takes n (tcp_segment nxt (seq + zlen d) FL_ACK (wnd - zlen d) [] dst src) dst src n1
      /\ acks_sent src dst nxt (seq + zlen d) (wnd - zlen d) sender cs
           (n1 <|net_env := notify sender true (net_env n1)|>) n'
  end.

Section props_lemmas.
Context `{Platform} `{BuildProfile}.
Implicit Types (p q : TcpPcb) (s : TcpSys) (src dst : IPEndpoint).

Lemma put_pcb_same s i p : tcp_pcbs s !! i = Some p -> put_pcb i p (tcp_net s) s = s.
Proof. intros Hi. destruct s. unfold put_pcb. cbn in *. by rewrite list_insert_id. Qed.

Lemma put_pcb_put s i p q n n' : put_pcb i q n' (put_pcb i p n s) = put_pcb i q n' s.
Proof. unfold put_pcb. cbn. by rewrite list_insert_insert_eq. Qed.

Lemma tcp_feed_established src dst iface `{!IpService Tcp (address dst) (address src)} cs :
  forall seq una nxt wnd s i p,
  unicast_pair src dst iface = true -> endpoint_wf src -> endpoint_wf dst ->
  select (tcp_pcbs s) dst (Some src) = Some (i, p) -> conn_is p Established dst src una nxt seq wnd ->
  0 <= seq -> 0 <= una -> nxt < 4294967296 -> 0 <= wnd <= 65535 -> seq + wnd < 4294967296 ->
  chunks_ok una nxt wnd cs -> ip_up (length cs) (tcp_net s) ->
  exists n' p' una', tcp_feed src dst iface seq cs s = Ret (put_pcb i p' n' s)
    /\ acks_sent src dst nxt seq wnd (tcp_sender p) cs (tcp_net s) n'
    /\ conn_is p' Established dst src una' nxt (seq + zlen (stream_of cs)) (wnd - zlen (stream_of cs))
    /\ tcp_buf p' = tcp_buf p ++ stream_of cs.
Proof.
  induction cs as [|[[d a] w] cs IH]; intros seq una nxt wnd s i p Hun Hsw Hdw Hsel Hc Hseq Hu Hn Hw Hb Hok Hup.
  - exists (tcp_net s), p, una. destruct (select_first _ _ _ _ _ Hsel) as [Hi _]. rewrite put_pcb_same by done.
    change (stream_of []) with ([] : list Z). rewrite zlen_nil, Z.add_0_r, Z.sub_0_r, app_nil_r. by split_and!.
  - destruct Hok as (Hd & Hdb & Hwu & Ha & Hok).
    destruct (ip_up_send (length cs) (tcp_net s)
      (tcp_segment nxt (seq + zlen d) FL_ACK (wnd - zlen d) [] dst src)) as (n1 & Ht & Hup').
    { exact Hup. }
    { rewrite tcp_segment_len. done. }
    destruct (established_data s i p src dst una nxt seq wnd a w d n1) as (p' & E & Hc' & Hbuf & Hsn);
      try done; try lia.
    cbn [tcp_feed]. rewrite tcp_input_segment, Hun, E.
    2-9: try done; unfold in_u32, TCP_DATA_MAX, CKSUM_MAX_LEN; lia.
    rewrite !bind_ret. cbn [unwrap_result]. rewrite bind_ret.
    set (s1 := put_pcb i p' _ s).
    edestruct (IH (seq + zlen d) a nxt (wnd - zlen d) s1 i p') as (n' & p2 & una' & Ef & Hacks & Hc2 & Hbuf');
      [done|done|done| |exact Hc'|lia|lia|lia|lia|lia|done|by apply ip_up_env|].
    { unfold s1. cbn [tcp_pcbs put_pcb]. apply (select_after _ _ _ _ p); [done|].
      destruct Hc' as (_ & Hl & Hr & _). by apply full_match_own. }
    exists n', p2, una'. change (stream_of ((d, a, w) :: cs)) with (d ++ stream_of cs). rewrite zlen_app.
    rewrite !Z.add_assoc, Z.sub_add_distr. split_and!; try done; try apply Hc2.
    + rewrite Ef. unfold s1. by rewrite put_pcb_put.
    + exists n1. split; [exact Ht|]. by rewrite Hsn in Hacks.
    + rewrite Hbuf', Hbuf. by rewrite app_assoc.
Qed.
End props_lemmas.

(** ** Properties *)

Section properties.
Context `{Platform} `{BuildProfile}.

(** C3: the invariant of the table.  Whatever segments arrive and whatever the
    user calls, the retransmission thread and the rest of the stack do, in any
    order: a control block is in one of seven states (the closing handshake is
    never started), its fields keep their widths, its queue and buffer hold
    bytes, the ids of its parent and backlog are in the table, and in a checked
    build [una] does not pass [next]. *)
Theorem tcp_table_invariant n s i p :
  rtc tcp_step (mkTcpSys TcpPcbs_new n) s -> tcp_pcbs s !! i = Some p ->
  pcb_ok TCP_PCB_COUNT p
  /\ tcp_state p ∉ [FinWait1; FinWait2; Closing; TimeWait; LastAck].
Proof.
  intros Hr Hi. pose proof (pcbs_ok_lookup _ _ _ (tcp_reachable_ok _ _ Hr) Hi) as Hp.
  split; [done|]. pose proof (live_not_closing _ (ok_state _ _ Hp)). set_solver.
Qed.

(** C23: segments on the wire.  [output_segment] hands one message to IP and
    returns the length of the data; the peer's [input] accepts its checksum and
    gives [segment_arrives] exactly the numbers, flags, window, data and
    endpoints that were sent, provided the addresses are unicast. *)
Theorem tcp_segment_roundtrip seq ack fl w data src dst iface n n' s :
  in_u32 seq -> in_u32 ack -> in_u8 fl -> in_u16 w -> bytes_ok data -> zlen data <= TCP_DATA_MAX ->
  endpoint_wf src -> endpoint_wf dst -> unicast_pair src dst iface = true ->
  let seg := tcp_segment seq ack fl w data src dst in
  ip_takes n seg src dst n' ->
  output_segment seq ack fl w data src dst n = Ret (zlen data, n')
  /\ tcp_input seg (zlen seg) (address src) (address dst) iface s =
       (s ← segment_arrives (mkArrival (mkTcpSegmentInfo seq ack (as_u16 (seq_space fl data)) w 0)
               fl data (zlen data) dst src) s; Ret (Ok tt, s)).
Proof.
  intros Hs Ha Hf Hw Hd Hl Hsw Hdw Hu seg Ht. unfold seg in *. split.
  - rewrite output_segment_ip by done. unfold ip_takes, ip_accepts in Ht. by rewrite Ht.
  - rewrite tcp_segment_len, tcp_input_segment by done. by rewrite Hu.
Qed.

(** C7: the three-way handshake.  A client in SYN-SENT and a listening server
    exchange SYN, SYN-ACK and ACK (the server's initial number is its random
    draw): both end ESTABLISHED and agree on the sequence numbers, the client's
    window and retransmission queue are set up, both users are woken, and no
    other control block changes. *)
Theorem tcp_handshake A B i j p q x z wx cl sv ifA ifB nA nB :
  endpoint_wf cl -> endpoint_wf sv -> unicast_pair cl sv ifB = true -> unicast_pair sv cl ifA = true ->
  select (tcp_pcbs A) cl (Some sv) = Some (i, p) ->
  conn_is p SynSent cl sv x (x + 1) (rcv_next (recv_context p)) PCB_BUF_LEN -> iss p = x ->
  select (tcp_pcbs B) sv (Some cl) = Some (j, q) -> tcp_state q = Listen -> tcp_mode q <> Socket ->
  parent_id q = None ->
  0 <= x -> x + 1 + PCB_BUF_LEN < 4294967296 -> in_u32 z -> in_u16 wx ->
  let y := drawn (tcp_net B) in
  let syn := tcp_segment x z FL_SYN wx [] cl sv in
  let syn_ack := tcp_segment y (x + 1) FL_SYN_ACK PCB_BUF_LEN [] sv cl in
  let ack := tcp_segment (x + 1) (y + 1) FL_ACK PCB_BUF_LEN [] cl sv in
  ip_takes (tick_net (draw_net (tcp_net B))) syn_ack sv cl nB ->
  ip_takes (tcp_net A) ack cl sv nA ->
  exists B1 A1 B2 p' q',
    tcp_input syn 20 (address cl) (address sv) ifB B = Ret (Ok tt, B1) /\ tcp_net B1 = nB
    /\ tcp_input syn_ack 20 (address sv) (address cl) ifA A = Ret (Ok tt, A1)
    /\ tcp_input ack 20 (address cl) (address sv) ifB B1 = Ret (Ok tt, B2)
    /\ tcp_pcbs A1 = <[i := p']> (tcp_pcbs A) /\ tcp_pcbs B2 = <[j := q']> (tcp_pcbs B)
    /\ conn_is p' Established cl sv (x + 1) (x + 1) (y + 1) PCB_BUF_LEN
    /\ conn_is q' Established sv cl y (y + 1) (x + 1) PCB_BUF_LEN
    /\ snd_window (send_context p') = PCB_BUF_LEN
    /\ net_env (tcp_net A1) = notify (tcp_sender p) true (net_env nA)
    /\ net_env (tcp_net B2) = notify (tcp_sender q) true (net_env nB).
Proof.
  intros Hcl Hsv HuB HuA HselA Hcp Hiss HselB Hstq Hmq Hpq Hx Hxb Hz Hwx y syn syn_ack ack HtB HtA.
  pose proof (drawn_range (tcp_net B)) as Hy. fold y in Hy. unfold u32_max, PCB_BUF_LEN in Hy, Hxb.
  destruct (listen_syn B j q x z wx cl sv nB) as (q1 & E1 & Hq1 & Hpar & Hsnd & _); [done|done|done|lia|done|].
  destruct (syn_sent_syn_ack A i p x y PCB_BUF_LEN sv cl nA) as (p' & E2 & Hp' & Hwin & _);
    [done|done|done|lia|lia|done|].
  set (B1 := put_pcb j q1 nB B).
  assert (select (tcp_pcbs B1) sv (Some cl) = Some (j, q1)) as HselB1.
  { destruct Hq1 as (_ & Hl & Hr & _). apply (select_after _ _ _ _ q); [done|by apply full_match_own]. }
  pose proof (syn_received_ack B1 j q1 x y PCB_BUF_LEN cl sv HselB1 Hq1 ltac:(by rewrite Hpar) Hx Hxb) as E3.
  exists B1. do 4 eexists. unfold syn, syn_ack, ack.
  assert (zlen ([] : list Z) <= TCP_DATA_MAX) by done.
  assert (bytes_ok []) by constructor.
  change 20 with (20 + zlen ([] : list Z)).
  rewrite !tcp_input_segment, HuB, HuA by (try done; unfold in_u32; lia).
  rewrite E1, E2. fold B1. rewrite E3, !bind_ret.
  split_and!; try reflexivity; try apply Hp'; try apply Hq1; try done.
  - cbn. by rewrite list_insert_insert_eq.
  - destruct Hq1 as [_ Hq1]. by split.
  - cbn. by rewrite Hsnd.
Qed.

(** C6: the byte stream.  Segments that continue the stream, within the window
    and with valid acknowledgments, are all accepted as long as IP takes the
    acknowledgments: each one is answered by exactly one acknowledgment of its
    data and wakes the user; the receive buffer grows by exactly the
    concatenation of their data, the next expected number and the window move by
    its length, and the connection stays ESTABLISHED.  Only the entry of the
    connection and the network change, and of the network only what the
    acknowledgments and wakeups change. *)
Theorem tcp_stream_delivered src dst iface `{!IpService Tcp (address dst) (address src)}
    cs seq una nxt wnd s i p :
  unicast_pair src dst iface = true -> endpoint_wf src -> endpoint_wf dst ->
  select (tcp_pcbs s) dst (Some src) = Some (i, p) -> conn_is p Established dst src una nxt seq wnd ->
  0 <= seq -> 0 <= una -> nxt < 4294967296 -> 0 <= wnd <= 65535 -> seq + wnd < 4294967296 ->
  chunks_ok una nxt wnd cs -> ip_up (length cs) (tcp_net s) ->
  returns (tcp_feed src dst iface seq cs s) (fun s' => exists p' una',
    s' = put_pcb i p' (tcp_net s') s
    /\ acks_sent src dst nxt seq wnd (tcp_sender p) cs (tcp_net s) (tcp_net s')
    /\ conn_is p' Established dst src una' nxt (seq + zlen (stream_of cs)) (wnd - zlen (stream_of cs))
    /\ tcp_buf p' = tcp_buf p ++ stream_of cs).
Proof.
  intros. edestruct (tcp_feed_established src dst iface cs) as (n' & p' & una' & -> & Ha & Hc & Hb); try done.
  exists p', una'. by split_and!.
Qed.

(** What [receive] takes, in full. *)
Lemma receive_take_eq i size remain s p :
  tcp_pcbs s !! i = Some p -> 0 <= size -> (forall r, remain = Some r -> 0 <= r) ->
  0 <= rcv_window (recv_context p) -> rcv_window (recv_context p) + zlen (tcp_buf p) = PCB_BUF_LEN ->
  let len := Z.min (zlen (tcp_buf p)) (Z.min size (default size remain)) in
  receive_take i size remain s = Ret (take (Z.to_nat len) (tcp_buf p),
    put_pcb i (set_rcv_window_of (rcv_window (recv_context p) + len)
      (p <|tcp_buf := drop (Z.to_nat len) (tcp_buf p)|>)) (tcp_net s) s).
Proof.
  intros Hi Hs Hr Hw Hwb len. unfold receive_take, pcb_at. rewrite Hi. cbn [unwrap]. rewrite bind_ret. cbv zeta.
  pose proof (zlen_nonneg (tcp_buf p)). unfold PCB_BUF_LEN in *.
  set (len' := match remain with Some _ => _ | None => _ end).
  assert (0 <= default size remain) as Hd by (destruct remain; cbn; [by apply Hr|done]).
  assert (len' = len) as -> by (unfold len', len; destruct remain; cbn; lia).
  assert (0 <= len <= zlen (tcp_buf p)) as Hlb by lia. clearbody len.
  unfold slice. rewrite !(proj2 (Z.leb_le _ _)) by lia. cbn [andb]. rewrite bind_ret.
  rewrite slice_from_ok, bind_ret by lia. rewrite as_u16_id by (unfold in_u16; lia).
  rewrite add_u16_ok, bind_ret by lia. by rewrite Z.sub_0_r.
Qed.

(** Receiving.  What [receive] hands to the user at the end of its wait is
    the front of the buffer, at most [size] bytes and at most what had arrived
    when it looked; the rest stays, and the bytes taken open the window again,
    so buffer and window keep filling up the same 65535 bytes. *)
Theorem tcp_receive_front i size remain s p :
  tcp_pcbs s !! i = Some p -> 0 <= size -> (forall r, remain = Some r -> 0 <= r) ->
  0 <= rcv_window (recv_context p) -> rcv_window (recv_context p) + zlen (tcp_buf p) = PCB_BUF_LEN ->
  returns (receive_take i size remain s) (fun '(data, s') => exists p',
    tcp_pcbs s' = <[i := p']> (tcp_pcbs s)
    /\ tcp_buf p = data ++ tcp_buf p'
    /\ zlen data = Z.min (zlen (tcp_buf p)) (Z.min size (default size remain))
    /\ rcv_window (recv_context p') + zlen (tcp_buf p') = PCB_BUF_LEN
    /\ rcv_next (recv_context p') = rcv_next (recv_context p) /\ tcp_state p' = tcp_state p).
Proof.
  intros Hi Hs Hr Hw Hwb. rewrite (receive_take_eq i size remain s p) by done. cbn [returns]. cbv zeta.
  pose proof (zlen_nonneg (tcp_buf p)).
  assert (0 <= default size remain) as Hd by (destruct remain; cbn; [by apply Hr|done]).
  set (len := Z.min _ _). assert (0 <= len <= zlen (tcp_buf p)) as Hlb by (unfold len; lia).
  eexists. split; [reflexivity|]. cbn.
  split_and!; [by rewrite take_drop| | |done|done].
  - rewrite zlen_take; lia.
  - rewrite zlen_drop by lia. lia.
Qed.
End properties.

(** ** More lemmas *)

(** The released control block: free, with an empty queue and backlog. *)
Definition released (p : TcpPcb) : TcpPcb := p <|tcp_state := Free|> <|data_queue := []|> <|backlog := []|>.

Section more_lemmas.
Context `{Platform} `{BuildProfile}.
Implicit Types (p q : TcpPcb) (s : TcpSys) (n : Net).

Lemma on_env_release p n :
  on_env (release p) n = (released p, n <|net_env := notify (tcp_sender p) false (net_env n)|>).
Proof. done. Qed.

Lemma on_env_elapsed t n : on_env (elapsed t) n =
  (if t <=? clock (env_ticks (net_env n)) then Ok (clock (env_ticks (net_env n)) - t) else Err, tick_net n).
Proof. done. Qed.

Lemma release_pcb_eq i p s : tcp_pcbs s !! i = Some p ->
  release_pcb i s = Ret (Stop (put_pcb i (released p)
    ((tcp_net s) <|net_env := notify (tcp_sender p) false (net_env (tcp_net s))|>) s)).
Proof. intros Hi. unfold release_pcb, pcb_at. by rewrite Hi. Qed.

(** A segment for an entry in one of the synchronized live states. *)
Definition synchronized (st : TcpPcbState) : Prop := st ∈ [SynReceived; Established; CloseWait].

Lemma synchronized_arrives a s i p :
  select (tcp_pcbs s) (a_local a) (Some (a_remote a)) = Some (i, p) -> synchronized (tcp_state p) ->
  segment_arrives a s = (r ← arrives_otherwise a i (tcp_state p) s; Ret (stage_sys r)).
Proof.
  intros Hsel Hst. unfold segment_arrives. rewrite Hsel.
  unfold synchronized in Hst. rewrite !elem_of_cons, elem_of_nil in Hst.
  by destruct Hst as [->|[->|[->|[]]]].
Qed.

(** The scan of the queue. *)
Lemma clean_scan_spec una i (q1 q2 : list TcpDataQueueEntry) found :
  Forall (fun e => dq_seq_num e < una) q1 ->
  (match q2 with e :: _ => una <= dq_seq_num e | [] => True end) ->
  clean_scan una i (q1 ++ q2) found = match q1 with [] => found | _ => Some (i + length q1 - 1)%nat end.
Proof.
  intros Hq1 Hq2. revert i found. induction Hq1 as [|e q1 He _ IH]; intros i found.
  - destruct q2 as [|e q2]; [done|]. cbn. by rewrite (proj2 (Z.leb_le _ _)).
  - cbn [app clean_scan]. rewrite (proj2 (Z.leb_gt _ _)) by done. rewrite IH.
    destruct q1; cbn [length]; f_equal; lia.
Qed.
End more_lemmas.

Section properties2.
Context `{Platform} `{BuildProfile}.
Implicit Types (p q : TcpPcb) (s : TcpSys) (n : Net).

(** C35: segments outside the window.  In a synchronized state a segment none
    of whose numbers lies in the receive window (with a closed window: unless it
    is empty and carries exactly the expected number) changes no control block;
    it is dropped, or answered with one acknowledgment when it carries RST. *)
Theorem tcp_unacceptable a s i p n' :
  select (tcp_pcbs s) (a_local a) (Some (a_remote a)) = Some (i, p) -> synchronized (tcp_state p) ->
  let seg := a_seg a in
  let ctx := recv_context p in
  0 <= rcv_next ctx -> 0 <= rcv_window ctx -> rcv_next ctx + rcv_window ctx < 4294967296 ->
  0 <= seg_seq_num seg -> 0 <= seg_len seg -> seg_seq_num seg + seg_len seg < 4294967296 ->
  ~ in_receive_window (seg_seq_num seg) (seg_len seg) (rcv_next ctx) (rcv_window ctx) ->
  (has a RST = false -> segment_arrives a s = Ret s)
  /\ (has a RST = true ->
      ip_takes (tcp_net s) (tcp_segment (snd_next (send_context p)) (rcv_next ctx) FL_ACK
        (rcv_window ctx) [] (tcp_local p) (tcp_remote p)) (tcp_local p) (tcp_remote p) n' ->
      segment_arrives a s = Ret (s <|tcp_net := n'|>)).
Proof.
  intros Hsel Hst seg ctx Hn Hw Hnw Hq Hl Hql Hout. rewrite (synchronized_arrives _ _ i p) by done.
  destruct (select_first _ _ _ _ _ Hsel) as [Hi _].
  assert (seq_acceptable seg p = Ret false) as Hacc by by rewrite seq_acceptable_window, bool_decide_eq_false_2.
  assert (state_in (tcp_state p) [SynReceived; Established; FinWait1; FinWait2; CloseWait; Closing; LastAck; TimeWait]
    = true) as Hin by (apply state_in_true; unfold synchronized in Hst; set_solver).
  unfold arrives_otherwise, and_then, check_sequence, pcb_at. rewrite Hin, Hi. cbn [unwrap].
  rewrite bind_ret. fold seg. rewrite Hacc, bind_ret. split; intros ->; [done|]. intros Ht.
  fold FL_ACK. rewrite (tcp_output_ack _ _ n') by done. cbn. unfold put_pcb. by rewrite list_insert_id.
Qed.

(** C36: resets.  In a synchronized state an acceptable segment with RST or SYN
    frees the control block: its queue and backlog are emptied, a waiting user
    is told [false], nothing is sent and no other entry changes. *)
Theorem tcp_reset_frees a s i p :
  select (tcp_pcbs s) (a_local a) (Some (a_remote a)) = Some (i, p) -> synchronized (tcp_state p) ->
  seq_acceptable (a_seg a) p = Ret true -> has a RST = true \/ has a SYN = true ->
  segment_arrives a s = Ret (put_pcb i (released p)
    ((tcp_net s) <|net_env := notify (tcp_sender p) false (net_env (tcp_net s))|>) s).
Proof.
  intros Hsel Hst Hacc Hf. rewrite (synchronized_arrives _ _ i p) by done.
  destruct (select_first _ _ _ _ _ Hsel) as [Hi _].
  assert (state_in (tcp_state p) [SynReceived; Established; FinWait1; FinWait2; CloseWait; Closing; LastAck; TimeWait]
    = true) as Hin by (apply state_in_true; unfold synchronized in Hst; set_solver).
  unfold arrives_otherwise, and_then, check_sequence, check_reset, check_syn, pcb_at. rewrite Hin, Hi. cbn [unwrap].
  rewrite bind_ret, Hacc, !bind_ret. unfold synchronized in Hst. rewrite !elem_of_cons, elem_of_nil in Hst.
  destruct (has a RST) eqn:Er.
  - destruct Hst as [->|[->|[->|[]]]]; flags_tac; by rewrite (release_pcb_eq i p).
  - destruct Hf as [?|Hf]; [done|]. rewrite Hf.
    destruct Hst as [->|[->|[->|[]]]]; flags_tac; rewrite bind_ret, (release_pcb_eq i p) by done; done.
Qed.

(** The queue of unacknowledged segments.  When the first entries are below
    [una] and the next one is not, [clean_data_queue] removes one entry, the last
    of them: the entries acknowledged with it stay queued. *)
Theorem clean_data_queue_one p (q1 q2 : list TcpDataQueueEntry) :
  data_queue p = q1 ++ q2 -> Forall (fun e => dq_seq_num e < snd_una (send_context p)) q1 ->
  (match q2 with e :: _ => snd_una (send_context p) <= dq_seq_num e | [] => True end) ->
  clean_data_queue p = p <|data_queue := removelast q1 ++ q2|>.
Proof.
  intros Hq Hq1 Hq2. unfold clean_data_queue. rewrite Hq, clean_scan_spec by done.
  destruct q1 as [|e q1]; [by destruct p; cbn in *; subst|]. rewrite Nat.add_0_l.
  destruct (exists_last (l := e :: q1)) as (q0 & x & ->); [done|].
  rewrite length_app, removelast_last. cbn [length]. replace (length q0 + 1 - 1)%nat with (length q0) by lia.
  rewrite <-app_assoc. cbn [app]. by rewrite delete_middle.
Qed.

(** C20: the retransmission thread, for one entry that can still be retried.  It
    sends the segment again exactly when its retry time has {e not} been reached
    and, either way, takes it off the queue: a segment is retransmitted at most
    once, and not at all when the thread comes late.  An entry older than twelve
    seconds releases the connection. *)
Theorem retransmit_entry p e n n' :
  let c0 := clock (env_ticks (net_env n)) in
  let c1 := clock (S (env_ticks (net_env n))) in
  let due := last_sent_at e + retry_interval e in
  let n2 := tick_net (tick_net n) in
  live_state (tcp_state p) -> tcp_state p <> Free -> data_queue p = [e] ->
  first_sent_at e <= c0 -> as_secs due < 2 ^ 63 ->
  bytes_ok (dq_data e) -> zlen (dq_data e) <= TCP_DATA_MAX ->
  (as_secs (c0 - first_sent_at e) < TCP_RETRANSMIT_TIMOUT_SEC -> c1 < due ->
     ip_takes n2 (tcp_segment (dq_seq_num e) (rcv_next (recv_context p)) (dq_flags e)
       (rcv_window (recv_context p)) (dq_data e) (tcp_local p) (tcp_remote p)) (tcp_local p) (tcp_remote p) n' ->
     retransmit_pcb p n = Ret (p <|data_queue := []|>, n'))
  /\ (as_secs (c0 - first_sent_at e) < TCP_RETRANSMIT_TIMOUT_SEC -> due <= c1 ->
     retransmit_pcb p n = Ret (p <|data_queue := []|>, n2))
  /\ (TCP_RETRANSMIT_TIMOUT_SEC <= as_secs (c0 - first_sent_at e) ->
     retransmit_pcb p n = Ret (released p,
       (tick_net n) <|net_env := notify (tcp_sender p) false (net_env (tick_net n))|>)).
Proof.
  intros c0 c1 due n2 Hl Hf Hq Hc0 Hdue Hb Hlen. apply live_not_closing in Hl as (_ & _ & _ & Htw & _).
  unfold retransmit_pcb, state_is. rewrite !bool_decide_eq_false_2 by done. rewrite Hq.
  cbn [retransmit_queue]. rewrite on_env_elapsed. fold c0. rewrite (proj2 (Z.leb_le _ c0)) by done.
  cbn [unwrap_result]. rewrite bind_ret.
  assert (unwrap (checked_add (last_sent_at e) (retry_interval e)) = Ret due) as Hadd
    by (unfold checked_add; fold due; by rewrite (proj2 (Z.ltb_lt _ _))).
  split_and!; intros Hage.
  - intros Hlt Ht. rewrite (proj2 (Z.leb_gt TCP_RETRANSMIT_TIMOUT_SEC _)), Hadd, bind_ret, on_env_elapsed by done.
    change (clock (env_ticks (net_env (tick_net n)))) with c1. rewrite (proj2 (Z.leb_gt due _)) by done.
    cbn [recv_context tcp_local tcp_remote set_field set_data_queue]. fold n2.
    rewrite output_segment_ip by done. unfold ip_takes, ip_accepts in Ht. by rewrite Ht.
  - intros Hle. rewrite (proj2 (Z.leb_gt TCP_RETRANSMIT_TIMOUT_SEC _)), Hadd, bind_ret, on_env_elapsed by done.
    change (clock (env_ticks (net_env (tick_net n)))) with c1. by rewrite (proj2 (Z.leb_le due _)).
  - by rewrite (proj2 (Z.leb_le TCP_RETRANSMIT_TIMOUT_SEC _)).
Qed.

(** After a round of the thread no control block has anything queued, except
    those that are free. *)
Theorem retransmit_empties pcbs n :
  ensures (retransmit pcbs n) (fun '(pcbs', _) => length pcbs' = length pcbs
    /\ forall i p, pcbs' !! i = Some p -> data_queue p = [] \/ (tcp_state p = Free /\ pcbs !! i = Some p)).
Proof.
  assert (forall l p n, ensures (retransmit_queue l p n) (fun '(p', _) => data_queue p' = [])) as Hqueue.
  { induction l as [|e l IH]; intros p n0; cbn [retransmit_queue]; [done|]. cbv zeta.
    destruct (on_env _ n0) as [r n1]. inv_head. case_match; [done|]. inv_head.
    destruct (on_env _ n1) as [r' n2]. inv_head. apply IH. }
  assert (forall p n, ensures (retransmit_pcb p n) (fun '(p', _) =>
    data_queue p' = [] \/ (tcp_state p' = Free /\ p' = p))) as Hpcb.
  { intros p n0. unfold retransmit_pcb, state_is. case_match eqn:Ef.
    - right. apply bool_decide_eq_true in Ef. done.
    - assert (ensures (retransmit_queue (data_queue p) p n0) (fun '(p', _) =>
        data_queue p' = [] \/ (tcp_state p' = Free /\ p' = p))) as Hq.
      { eapply ensures_mono; [apply Hqueue|]. intros [p' ?] ?. by left. }
      case_match; [|done]. inv_head. destruct (on_env _ n0) as [r n1]. inv_head. case_match; [by left|].
      eapply ensures_mono; [apply Hqueue|]. intros [p' ?] ?. by left. }
  revert n. induction pcbs as [|p pcbs IH]; intros n; cbn [retransmit]; [done|].
  eapply ensures_bind2; [apply Hpcb|intros [p' n1] Hp'].
  eapply ensures_bind2; [apply IH|intros [pcbs' n2] [Hl Hall]]. split; [cbn; by rewrite Hl|].
  intros [|i] q Hi; [|by apply (Hall i q)]. injection Hi as <-. destruct Hp' as [?|[? ->]]; auto.
Qed.

(** Bounds of the input path: the only read outside a slice [input] can make
    is that of the header, before the length is checked; with 20 bytes it ends
    in every state of the table, and no loop of it runs out of rounds. *)
Theorem tcp_input_bounds data len src dst iface s :
  (tcp_input data len src dst iface s = UB <-> zlen data < 20)
  /\ tcp_input data len src dst iface s <> NoFuel.
Proof.
  split; [apply tcp_input_UB|]. destruct (decide (zlen data < 20)) as [Hlt|Hge].
  - by rewrite (proj2 (tcp_input_UB data len src dst iface s)).
  - intros E. unfold tcp_input in E. revert E. unfold bytes_to_struct. change (size_of TcpHeader) with 20.
    rewrite (proj2 (Z.ltb_ge (zlen data) 20)) by lia. rewrite bind_ret. cbv zeta. destruct (len <? 20); [done|].
    match goal with |- ?m = NoFuel -> _ => assert (defined m) as D end.
    { apply cksum16_pseudo_defined. intros ps sum. unfold sub_usize, add_usize.
      pose proof segment_arrives_defined. def_tac. }
    intros E. by rewrite E in D.
Qed.
End properties2.

(** ** Concrete connections, for evaluation *)

(** Two stations that know each other's hardware address, under a clock that
    stands still; [demo_cl] is at 192.0.2.1, port 5000, and [demo_sv] at
    192.0.2.2, port 7. *)
Definition demo_still : Platform := platform_with_clock (fun _ => 0).

Definition demo_cl : IPEndpoint := mkIPEndpoint 0x010200c0 (le_to_be_u16 5000).
Definition demo_sv : IPEndpoint := mkIPEndpoint 0x020200c0 (le_to_be_u16 7).

Definition demo_station (mac : Z) (ip peer : IPAdress) : Net :=
  mkNet (demo_device mac ip (mkTapFile [] []))
    ((demo_ctx ip) <|arp_table := mkArpTable
       {[ peer := mkArpTableEntry Resolved peer [2; 0; 0; 0; 0; 9] 0 ]}|>)
    (env_init <|env_chans := [mkChan [] true true]|>).

Definition demo_net_cl : Net := demo_station 1 (address demo_cl) (address demo_sv).
Definition demo_net_sv : Net := demo_station 2 (address demo_sv) (address demo_cl).

(** The network after a segment was handed over. *)
Definition ip_after (n : Net) (seg : list Z) (local remote : IPEndpoint) : Net :=
  match @ip_output demo_still debug_build Tcp seg (address local) (address remote) n with
  | Ret (_, n') => n'
  | _ => n
  end.

Definition demo_entry (st : TcpPcbState) (local remote : IPEndpoint) (una nxt wnd rcv : Z) (buf : list Z)
    (q : list TcpDataQueueEntry) : TcpPcb :=
  mkTcpPcb st Rfc793 local remote (mkTcpPcbSendContext nxt una wnd 0 0 0) una
    (mkTcpPcbRecvContext rcv (PCB_BUF_LEN - zlen buf) 0) 0 0 0 buf None (Some 0%nat) q None [].

Definition demo_table (p : TcpPcb) : TcpPcbs := p :: replicate 15 TcpPcb_new.

Definition demo_cl_sys (p : TcpPcb) : TcpSys := mkTcpSys (demo_table p) demo_net_cl.
Definition demo_sv_sys (p : TcpPcb) : TcpSys := mkTcpSys (demo_table p) demo_net_sv.

Definition demo_established : TcpPcb := demo_entry Established demo_sv demo_cl 50 50 1000 700 [] [].

Lemma tcp_segment_roundtrip_witness :
  let seg := tcp_segment 700 50 FL_PSH_ACK 1000 [104; 105] demo_cl demo_sv in
  @output_segment demo_still debug_build 700 50 FL_PSH_ACK 1000 [104; 105] demo_cl demo_sv demo_net_cl =
    Ret (2, ip_after demo_net_cl seg demo_cl demo_sv).
Proof.
  refine (proj1 (@tcp_segment_roundtrip demo_still debug_build 700 50 FL_PSH_ACK 1000 [104; 105] demo_cl demo_sv
    (demo_iface (address demo_sv)) demo_net_cl (ip_after demo_net_cl _ demo_cl demo_sv)
    (demo_sv_sys demo_established) _ _ _ _ _ _ _ _ _ _)); try done; try bytes_tac; try by split.
Defined.

Lemma tcp_unacceptable_witness :
  let s := demo_sv_sys demo_established in
  @segment_arrives demo_still debug_build (arrival (700 + 65535) 50 FL_PSH_ACK 1000 [104] demo_cl demo_sv) s = Ret s
  /\ @segment_arrives demo_still debug_build (arrival 699 50 FL_PSH_ACK 1000 [104] demo_cl demo_sv) s = Ret s.
Proof.
  split.
  - refine (proj1 (@tcp_unacceptable demo_still debug_build _ (demo_sv_sys demo_established) 0 demo_established
      demo_net_sv _ _ _ _ _ _ _ _ _) _); try done; [unfold synchronized; set_solver|].
    unfold in_receive_window. vm_compute. intuition discriminate.
  - refine (proj1 (@tcp_unacceptable demo_still debug_build _ (demo_sv_sys demo_established) 0 demo_established
      demo_net_sv _ _ _ _ _ _ _ _ _) _); try done; [unfold synchronized; set_solver|].
    unfold in_receive_window. vm_compute. intuition discriminate.
Defined.

Lemma tcp_reset_frees_witness :
  let s := demo_sv_sys demo_established in
  @segment_arrives demo_still debug_build (arrival 700 50 (tcp_flag_as_u8 RST) 1000 [] demo_cl demo_sv) s =
    Ret (put_pcb 0 (released demo_established)
      (demo_net_sv <|net_env := notify (Some 0%nat) false (net_env demo_net_sv)|>) s).
Proof.
  refine (@tcp_reset_frees demo_still debug_build _ (demo_sv_sys demo_established) 0 demo_established _ _ _ _);
    try done; [unfold synchronized; set_solver|by left].
Defined.

Lemma tcp_handshake_witness :
  let p := demo_entry SynSent demo_cl demo_sv 300 301 0 0 []
             [mkTcpDataQueueEntry 0 0 200000000 300 FL_SYN []] in
  let q := demo_entry Listen demo_sv (mkIPEndpoint IP_ADDR_ANY 0) 0 0 0 0 [] [] in
  let syn := tcp_segment 300 0 FL_SYN 65535 [] demo_cl demo_sv in
  exists B1, @tcp_input demo_still debug_build syn 20 (address demo_cl) (address demo_sv)
    (demo_iface (address demo_sv)) (demo_sv_sys q) = Ret (Ok tt, B1).
Proof.
  intros p q syn.
  edestruct (@tcp_handshake demo_still debug_build (demo_cl_sys p) (demo_sv_sys q) 0 0 p q 300 0 65535
    demo_cl demo_sv (demo_iface (address demo_cl)) (demo_iface (address demo_sv))
    (ip_after demo_net_cl (tcp_segment 301 1001 FL_ACK PCB_BUF_LEN [] demo_cl demo_sv) demo_cl demo_sv)
    (ip_after (tick_net (@draw_net demo_still demo_net_sv))
      (tcp_segment 1000 301 FL_SYN_ACK PCB_BUF_LEN [] demo_sv demo_cl) demo_sv demo_cl))
    as (B1 & _ & _ & _ & _ & E & _); [..|by exists B1]; try done; by split.
Defined.

Lemma tcp_receive_front_witness :
  let p := demo_entry Established demo_sv demo_cl 50 50 1000 700 [1; 2; 3] [] in
  returns (@receive_take debug_build 0 2 None (demo_sv_sys p)) (fun '(data, _) => zlen data = 2).
Proof.
  intros p. eapply returns_mono.
  - refine (@tcp_receive_front debug_build 0 2 None (demo_sv_sys p) p _ _ _ _ _); done.
  - intros [data s'] (p' & _ & _ & L & _). exact L.
Defined.

Lemma clean_data_queue_one_witness :
  let e k := mkTcpDataQueueEntry 0 0 200000000 k FL_PSH_ACK [7] in
  let p := demo_entry Established demo_sv demo_cl 3 4 1000 700 [] [e 1; e 2; e 3] in
  clean_data_queue p = p <|data_queue := [e 1; e 3]|>.
Proof.
  intros e p. refine (clean_data_queue_one p [e 1; e 2] [e 3] _ _ _); [done| |done].
  by repeat constructor.
Defined.

Lemma retransmit_entry_witness :
  let e := mkTcpDataQueueEntry 0 0 200000000 50 FL_PSH_ACK [7] in
  let p := demo_entry Established demo_sv demo_cl 50 51 1000 700 [] [e] in
  exists n', @retransmit_pcb demo_still debug_build p demo_net_sv = Ret (p <|data_queue := []|>, n').
Proof.
  intros e p. exists (ip_after (tick_net (tick_net demo_net_sv))
    (tcp_segment 50 700 FL_PSH_ACK PCB_BUF_LEN [7] demo_sv demo_cl) demo_sv demo_cl).
  refine (proj1 (@retransmit_entry demo_still debug_build p e demo_net_sv _ _ _ _ _ _ _ _) _ _ _); try done.
  - unfold live_state. set_solver.
  - bytes_tac.
Defined.

(** A client opens a connection: the state after the step is in the invariant. *)
Definition demo_opened : TcpSys :=
  match @rfc793_open demo_still debug_build demo_cl (Some demo_sv) true (mkTcpSys TcpPcbs_new demo_net_cl) with
  | Ret (_, _, s) => s
  | _ => mkTcpSys [] demo_net_cl
  end.

Lemma tcp_table_invariant_witness :
  exists p, tcp_pcbs demo_opened !! 0%nat = Some p /\ tcp_state p = SynSent /\ @pcb_ok debug_build TCP_PCB_COUNT p.
Proof.
  eexists. split; [vm_compute; reflexivity|]. split; [done|].
  refine (proj1 (@tcp_table_invariant demo_still debug_build demo_net_cl demo_opened 0 _ _ _)).
  - eapply rtc_l; [|apply rtc_refl].
    eapply (@ts_rfc793_open demo_still debug_build _ demo_cl (Some demo_sv) true 1%nat 0%nat).
    + by split.
    + intros e [= <-]. by split.
    + by vm_compute.
  - vm_compute. reflexivity.
Defined.

Lemma demo_eth_up : @eth_up demo_still (address demo_sv) (address demo_cl)
  (interface_route (demo_iface (address demo_sv))) [2; 0; 0; 0; 0; 9] 2 demo_net_sv.
Proof.
  split; try done.
  - eexists. by apply demo_device_ready.
  - by right.
  - by split; [|bytes_tac].
  - eexists. split_and!; [reflexivity|done|done].
Qed.

Definition demo_chunks : list Chunk := [([104; 101], 50, 1000); ([108; 108; 111], 50, 1000)].

Lemma tcp_stream_delivered_witness :
  returns (@tcp_feed demo_still debug_build demo_cl demo_sv (demo_iface (address demo_sv)) 700 demo_chunks
    (demo_sv_sys demo_established))
    (fun s' => exists p', tcp_pcbs s' !! 0%nat = Some p' /\ tcp_buf p' = [104; 101; 108; 108; 111]
      /\ @acks_sent demo_still debug_build demo_cl demo_sv 50 700 PCB_BUF_LEN (Some 0%nat) demo_chunks
           demo_net_sv (tcp_net s')).
Proof.
  eapply returns_mono.
  - refine (@tcp_stream_delivered demo_still debug_build demo_cl demo_sv (demo_iface (address demo_sv))
      (@eth_service demo_still debug_build Tcp (address demo_sv) (address demo_cl)
         (interface_route (demo_iface (address demo_sv))) [2; 0; 0; 0; 0; 9])
      demo_chunks 700 50 50 PCB_BUF_LEN (demo_sv_sys demo_established) 0 demo_established
      _ _ _ _ _ _ _ _ _ _ _ _); try done; try by split_and!.
    + cbn [chunks_ok demo_chunks]. split_and!; first [done|bytes_tac].
    + exact demo_eth_up.
  - intros s' (p' & una' & Hs & Ha & _ & Hb). exists p'. split_and!; [|done|exact Ha]. by rewrite Hs.
Defined.
