(* ===== verification/TcpMore.v ===== *)
(** * TCP: the table, opening, closing and sending

    Which control block answers a segment, what a new connection inherits from
    the last user of its entry, how a connection ends, and what [send] puts on
    the wire. *)
From S2P Require Import Prelude Platform LinkedList Bytes Checksum IpTypes Devices Arp Ip IpService Transport Udp TcpTypes TcpOutput TcpInput TcpUser TcpInv TcpSafety TcpConn TcpProps.

(** An entry [select] falls back on: a listener without a remote end. *)
Definition listen_match (local : IPEndpoint) (p : TcpPcb) : bool := local_matches local p && listens p.

Section select_lemmas.
Context `{Platform} `{BuildProfile}.
Implicit Types (p q : TcpPcb) (pcbs : TcpPcbs) (local remote : IPEndpoint).

(** The last listener of a list, or the one found before. *)
Lemma select_loop_none local remote i0 pcbs l :
  (forall j q, pcbs !! j = Some q -> full_match local remote q = false) ->
  match select_loop local (Some remote) i0 pcbs l with
  | Some (i, p) =>
      (l = Some (i, p) /\ forall j q, pcbs !! j = Some q -> listen_match local q = false)
      \/ exists k, i = (i0 + k)%nat /\ pcbs !! k = Some p /\ listen_match local p = true
           /\ forall j q, (k < j)%nat -> pcbs !! j = Some q -> listen_match local q = false
  | None => l = None /\ forall j q, pcbs !! j = Some q -> listen_match local q = false
  end.
Proof.
  revert i0 l. induction pcbs as [|r pcbs IH]; intros i0 l Hno; cbn [select_loop].
  - destruct l as [[i p]|]; [left|]; by split.
  - pose proof (Hno 0%nat r eq_refl) as Hr. unfold full_match in Hr.
    specialize (fun l' => IH (S i0) l' (fun j q Hj => Hno (S j) q Hj)).
    unfold listen_match in *. destruct (local_matches local r) eqn:El; cbn [andb] in Hr.
    + rewrite Hr. specialize (IH (if listens r then Some (i0, r) else l)).
      destruct (listens r) eqn:Eli.
      * destruct (select_loop _ _ _ _ _) as [[i p]|]; [right|by destruct IH].
        destruct IH as [[[= <- <-] Hn]|(k & -> & Hk & Hm & Hn)].
        -- exists 0%nat. split_and!; [lia|done|by rewrite El, Eli|]. intros [|j] q Hj; [lia|apply Hn].
        -- exists (S k). split_and!; [lia|done|done|]. intros [|j] q Hj; [lia|]. apply Hn. lia.
      * destruct (select_loop _ _ _ _ _) as [[i p]|].
        -- destruct IH as [[-> Hn]|(k & -> & Hk & Hm & Hn)]; [left|right].
           ++ split; [done|]. intros [|j] q; [intros [= <-]; by rewrite El, Eli|apply Hn].
           ++ exists (S k). split_and!; [lia|done|done|]. intros [|j] q Hj; [lia|]. apply Hn. lia.
        -- destruct IH as [-> Hn]. split; [done|].
           intros [|j] q; [intros [= <-]; by rewrite El, Eli|apply Hn].
    + specialize (IH l). destruct (select_loop _ _ _ _ _) as [[i p]|].
      * destruct IH as [[-> Hn]|(k & -> & Hk & Hm & Hn)]; [left|right].
        -- split; [done|]. intros [|j] q; [intros [= <-]; by rewrite El|apply Hn].
        -- exists (S k). split_and!; [lia|done|done|]. intros [|j] q Hj; [lia|]. apply Hn. lia.
      * destruct IH as [-> Hn]. split; [done|]. intros [|j] q; [intros [= <-]; by rewrite El|apply Hn].
Qed.

(** Whether some entry matches completely. *)
Lemma full_match_dec local remote pcbs :
  (exists i p, pcbs !! i = Some p /\ full_match local remote p = true /\ no_earlier local remote pcbs i)
  \/ (forall j q, pcbs !! j = Some q -> full_match local remote q = false).
Proof.
  induction pcbs as [|r pcbs IH]; [by right|]. destruct (full_match local remote r) eqn:Er.
  - left. exists 0%nat, r. split_and!; [done|done|]. intros j q Hj. lia.
  - destruct IH as [(i & p & Hi & Hm & Hno)|Hno]; [left|right].
    + exists (S i), p. split_and!; [done|done|]. intros [|j] q Hj; [by intros [= <-]|]. apply Hno. lia.
    + intros [|j] q; [by intros [= <-]|apply Hno].
Qed.

Lemma select_lookup_match local remote pcbs i p : select pcbs local (Some remote) = Some (i, p) ->
  pcbs !! i = Some p /\ (full_match local remote p = true \/ listen_match local p = true).
Proof.
  unfold select. intros Hs. destruct (full_match_dec local remote pcbs) as [(k & q & Hk & Hm & Hno)|Hno].
  - rewrite (select_loop_full local remote 0 pcbs None k q) in Hs by done. injection Hs as <- <-. by split; [|left].
  - pose proof (select_loop_none local remote 0 pcbs None Hno) as S. rewrite Hs in S.
    destruct S as [[? _]|(k & -> & Hk & Hm & _)]; [done|]. by split; [|right].
Qed.
End select_lemmas.

Section open_lemmas.
Context `{Platform} `{BuildProfile}.

(** The SYN of an active open. *)
Lemma send_syn_spec (q : TcpPcb) (n n' : Net) : let x := drawn n in
  ip_takes (tick_net (draw_net n)) (tcp_segment x (rcv_next (recv_context q)) FL_SYN PCB_BUF_LEN []
    (tcp_local q) (tcp_remote q)) (tcp_local q) (tcp_remote q) n' ->
  exists q', send_syn q n = Ret (q', n')
    /\ conn_is q' SynSent (tcp_local q) (tcp_remote q) x (x + 1) (rcv_next (recv_context q)) PCB_BUF_LEN
    /\ iss q' = x /\ tcp_mode q' = tcp_mode q /\ tcp_sender q' = tcp_sender q
    /\ data_queue q' = data_queue q ++ [queue_entry (clock (env_ticks (net_env n))) x FL_SYN []].
Proof.
  intros x Ht. unfold send_syn. cbn [on_env rng_u32]. cbv zeta. fold FL_SYN.
  pose proof (drawn_range n) as Hx. fold x in Hx. unfold u32_max in Hx. change (gen_range (env_draws (net_env n))) with x.
  rewrite (tcp_output_queued _ FL_SYN [] _ n' x); [|done|done|constructor|done|exact Ht].
  rewrite bind_ret. set (q1 := _ <|data_queue := _|>). change (iss (set_una (iss q1) q1)) with x.
  rewrite add_u32_ok, bind_ret by lia. eexists. split; [reflexivity|]. by split_and!.
Qed.
End open_lemmas.

(** ** Properties *)

Section more_properties.
Context `{Platform} `{BuildProfile}.
Implicit Types (p q : TcpPcb) (s : TcpSys) (n : Net) (local remote : IPEndpoint).

(** C22: demultiplexing.  A segment goes to the first entry, in any state and
    [Free] included, whose local end matches and whose remote address is the
    sender's, whatever its port; if there is none, to the last listener whose
    local end matches and that has no remote end; otherwise to nobody. *)
Theorem tcp_select_spec (pcbs : TcpPcbs) local remote :
  match select pcbs local (Some remote) with
  | Some (i, p) => pcbs !! i = Some p
      /\ ((full_match local remote p = true /\ no_earlier local remote pcbs i)
          \/ ((forall j q, pcbs !! j = Some q -> full_match local remote q = false)
              /\ listen_match local p = true
              /\ forall j q, (i < j)%nat -> pcbs !! j = Some q -> listen_match local q = false))
  | None => forall j q, pcbs !! j = Some q -> full_match local remote q = false /\ listen_match local q = false
  end.
Proof.
  unfold select. destruct (full_match_dec local remote pcbs) as [(i & p & Hi & Hm & Hno)|Hno].
  - rewrite (select_loop_full local remote 0 pcbs None i p) by done. cbn. split; [done|by left].
  - pose proof (select_loop_none local remote 0 pcbs None Hno) as S.
    destruct (select_loop _ _ _ _ _) as [[i p]|].
    + destruct S as [[? _]|(k & -> & Hk & Hm & Hl)]; [done|]. cbn. split; [done|]. right. by split_and!.
    + destruct S as [_ Hl]. intros j q Hj. split; [by eapply Hno|by eapply Hl].
Qed.

(** The network state in which an open sends its SYN. *)
Definition open_net s p : Net :=
  let n := snd (on_env channel (tcp_net s)) in n <|net_env := drop_sender (tcp_sender p) (net_env n)|>.

(** C24: active open.  The first free entry becomes SYN-SENT with the endpoints
    given, the random initial number, one SYN handed to IP and kept in its
    queue, and the waiting user's channel; this is the state the handshake
    starts from. *)
Theorem tcp_active_open s i p local remote n' :
  list_find (fun q => tcp_state q = Free) (tcp_pcbs s) = Some (i, p) ->
  let n := open_net s p in
  let x := drawn n in
  ip_takes (tick_net (draw_net n))
    (tcp_segment x (rcv_next (recv_context p)) FL_SYN PCB_BUF_LEN [] local remote) local remote n' ->
  exists q, rfc793_open local (Some remote) true s =
      Ret (length (env_chans (net_env (tcp_net s))), i, put_pcb i q n' s)
    /\ conn_is q SynSent local remote x (x + 1) (rcv_next (recv_context p)) PCB_BUF_LEN /\ iss q = x
    /\ tcp_mode q = Rfc793 /\ tcp_sender q = Some (length (env_chans (net_env (tcp_net s))))
    /\ data_queue q = data_queue p ++ [queue_entry (clock (env_ticks (net_env n))) x FL_SYN []].
Proof.
  intros Hf n x Ht. unfold rfc793_open, new_entry. rewrite Hf. cbn [on_env channel unwrap]. rewrite bind_ret.
  set (q0 := p <|tcp_state := Closed|> <|tcp_mode := Rfc793|> <|tcp_local := local|>).
  unfold put_sender. cbn [negb]. change (net_env ((tcp_net s) <|net_env := _|>)) with (net_env (snd (on_env channel (tcp_net s)))).
  destruct (send_syn_spec (q0 <|tcp_sender := Some (length (env_chans (net_env (tcp_net s))))|> <|tcp_remote := remote|>)
    n n') as (q & E & Hc & Hi & Hm & Hs & Hq); [exact Ht|].
  exists q. change (send_syn _ _) with (send_syn (q0 <|tcp_sender := Some (length (env_chans (net_env (tcp_net s))))|>
    <|tcp_remote := remote|>) n). rewrite E, bind_ret.
  split; [unfold put_pcb; cbn; by rewrite list_insert_insert_eq|]. by split_and!.
Qed.

(** C37: what a released entry remembers.  A connection is released (by a
    reset, a timeout, a failed open or [close]) and its entry is the first free
    one.  The passive open that gets it keeps the peer's address, the unread data
    and the parent of the old connection: the new listener answers that peer
    only, and hands it the old bytes first. *)
Theorem passive_reopen_remembers s i p local :
  tcp_pcbs s !! i = Some p ->
  (forall j q, (j < i)%nat -> tcp_pcbs s !! j = Some q -> tcp_state q <> Free) ->
  address (tcp_remote p) <> IP_ADDR_ANY ->
  let '(freed, n) := on_env (release p) (tcp_net s) in
  returns (rfc793_open local None false (put_pcb i freed n s)) (fun '(c, j, s') => j = i
    /\ exists q, tcp_pcbs s' = <[i := q]> (tcp_pcbs s) /\ tcp_state q = Listen /\ tcp_local q = local
    /\ tcp_remote q = tcp_remote p /\ tcp_buf q = tcp_buf p /\ parent_id q = parent_id p
    /\ forall l r, address r <> address (tcp_remote p) -> forall t, select (tcp_pcbs s') l (Some r) <> Some (i, t)).
Proof.
  intros Hi Hfirst Hp. rewrite on_env_release. set (s1 := put_pcb i (released p) _ s).
  assert (tcp_pcbs s1 = <[i := released p]> (tcp_pcbs s)) as Hs1 by done.
  assert (list_find (fun q => tcp_state q = Free) (tcp_pcbs s1) = Some (i, released p)) as Hf.
  { rewrite Hs1. apply list_find_Some. split_and!; [|done|].
    - apply list_lookup_insert_eq. by eapply lookup_lt_Some.
    - intros j r Hj Hlt. rewrite list_lookup_insert_ne in Hj by lia. by apply (Hfirst j). }
  unfold rfc793_open, new_entry. rewrite Hf. cbn [on_env channel unwrap]. rewrite bind_ret.
  unfold put_sender. cbn [negb]. rewrite bind_ret. cbn [returns]. split; [done|].
  set (q := _ <|tcp_state := Listen|>). exists q. unfold put_pcb. cbn [tcp_pcbs set_field set_tcp_pcbs].
  rewrite Hs1, !list_insert_insert_eq. split_and!; try done.
  intros l r Hr t Hs.
  pose proof (select_lookup_match l r (<[i := q]> (tcp_pcbs s)) i t Hs) as [Hl Hm].
  rewrite list_lookup_insert_eq in Hl by by eapply lookup_lt_Some. injection Hl as <-.
  unfold full_match, listen_match, listens in Hm. change (tcp_remote q) with (tcp_remote p) in Hm.
  rewrite (proj2 (Z.eqb_neq _ _)) in Hm by done. lia.
Qed.

(** C21: the other side closes.  In ESTABLISHED, an in-order segment with FIN
    moves the connection to CLOSE-WAIT and wakes the user.  Without data the
    number expected next is one more, and that is what is acknowledged.  With
    data the buffer grows by the data, but the number expected next is again only
    one more than the segment's: the second acknowledgment sent takes back the
    first, which covered the data. *)
Theorem tcp_fin_received s i p src dst una nxt rcv wnd ack w data n1 n2 :
  select (tcp_pcbs s) dst (Some src) = Some (i, p) ->
  conn_is p Established dst src una nxt rcv wnd -> una <= ack <= nxt ->
  0 <= rcv -> zlen data <= wnd -> 0 < wnd <= 65535 -> rcv + wnd + 1 < 4294967296 ->
  zlen data < 65535 ->
  let woken n := n <|net_env := notify (tcp_sender p) true (net_env n)|> in
  let wnd' := wnd - zlen data in
  ip_takes (tcp_net s) (tcp_segment nxt (rcv + zlen data + 1) FL_ACK wnd' [] dst src) dst src n1 ->
  (data <> [] -> ip_takes (woken n1) (tcp_segment nxt (rcv + 1) FL_ACK wnd' [] dst src) dst src n2) ->
  exists p', segment_arrives (arrival rcv ack FL_FIN_ACK w data src dst) s =
      Ret (put_pcb i p' (woken (if decide (data = []) then n1 else n2)) s)
    /\ conn_is p' CloseWait dst src ack nxt (rcv + 1) wnd' /\ tcp_buf p' = tcp_buf p ++ data.
Proof.
  intros Hsel Hc Ha Hr0 Hd Hwm Hb Hdm woken wnd' Ht1 Ht2. pose proof Hc as (Hst & Hl & Hr & Hu & Hn & Hrn & Hw).
  pose proof (zlen_nonneg data).
  unfold segment_arrives. cbn [a_local a_remote arrival]. rewrite Hsel, Hst.
  rewrite !bool_decide_eq_false_2 by done. destruct (select_first _ _ _ _ _ Hsel) as [Hi _].
  unfold arrives_otherwise, and_then, check_sequence, pcb_at. flags_tac. rewrite Hi. cbn [unwrap]. rewrite bind_ret.
  rewrite seq_acceptable_next.
  2-6: rewrite ?Hrn, ?Hw; cbn; try done; try lia. 2: apply as_u16_range.
  rewrite !bind_ret. unfold check_reset, check_syn. flags_tac. rewrite !bind_ret. unfold check_ack. flags_tac.
  destruct (ack_established_spec (arrival rcv ack FL_FIN_ACK w data src dst) s i p dst src una nxt rcv wnd)
    as (p1 & -> & Hc1 & Hbuf & Hsn & _); [done|done|done|]. rewrite bind_ret.
  pose proof (lookup_lt_Some _ _ _ Hi) as Hlt. destruct Hc1 as (Hst1 & Hl1 & Hr1 & Hu1 & Hn1 & Hrn1 & Hw1).
  assert (as_u16 (seq_space FL_FIN_ACK data) = zlen data + 1) as Hsp.
  { unfold seq_space. change (tcp_flag_exists FL_FIN_ACK SYN) with false.
    change (tcp_flag_exists FL_FIN_ACK FIN) with true. rewrite Z.add_0_r. apply as_u16_id. unfold in_u16. lia. }
  unfold process_text, check_fin, pcb_at. flags_tac. cbn [tcp_pcbs put_pcb].
  rewrite list_lookup_insert_eq by done. cbn [unwrap]. rewrite bind_ret.
  cbn [a_len a_seg a_data arrival seg_seq_num seg_len seg_ack_num]. fold FL_ACK.
  destruct (decide (data = [])) as [->|Hne].
  - change (0 <? zlen []) with false. cbv iota. rewrite bind_ret. cbn [tcp_pcbs put_pcb].
    rewrite list_lookup_insert_eq by done. cbn [unwrap]. rewrite bind_ret, add_u32_ok, bind_ret by lia. cbv zeta.
    rewrite (tcp_output_ack _ _ n1).
    2: { unfold wnd' in Ht1. change (zlen []) with 0 in Ht1. rewrite Z.add_0_r, Z.sub_0_r in Ht1. cbn.
         by rewrite Hl1, Hr1, Hn1, Hw1. }
    rewrite bind_ret. cbn [stage_sys tcp_sender set_rcv_next_of set_field set_recv_context set_tcp_state]. rewrite Hsn.
    eexists. split; [unfold put_pcb; cbn; by rewrite list_insert_insert_eq|].
    unfold wnd'. change (zlen []) with 0. rewrite Z.sub_0_r, app_nil_r. split; [by split_and!|done].
  - assert (0 < zlen data) as Hpos by (destruct data; [done|]; rewrite zlen_cons; pose proof (zlen_nonneg data); lia).
    rewrite (proj2 (Z.ltb_lt 0 _)) by done. cbv zeta. rewrite Hsp, (add_u32_ok rcv (zlen data + 1)), bind_ret by lia.
    rewrite as_u16_id by (unfold in_u16; lia). cbn [rcv_window recv_context set_rcv_next_of set_field set_recv_context
      set_rcv_next set_tcp_buf]. rewrite Hw1, (sub_u16_ok wnd (zlen data)), bind_ret by lia. fold wnd'.
    rewrite (tcp_output_ack _ _ n1).
    2: { cbn. rewrite Hl1, Hr1, Hn1, Z.add_assoc. done. }
    rewrite bind_ret. cbn [tcp_sender set_rcv_window_of set_rcv_next_of set_field set_recv_context set_tcp_buf].
    rewrite Hsn, bind_ret. fold (woken n1). cbn [tcp_pcbs put_pcb].
    rewrite list_lookup_insert_eq by (rewrite length_insert; done). cbn [unwrap].
    rewrite bind_ret, add_u32_ok, bind_ret by lia. cbn [tcp_net put_pcb].
    rewrite (tcp_output_ack _ _ n2).
    2: { cbn. rewrite Hl1, Hr1, Hn1. by apply Ht2. }
    rewrite bind_ret. cbn [stage_sys tcp_sender set_rcv_window_of set_rcv_next_of set_field set_recv_context set_tcp_buf
      set_tcp_state]. rewrite Hsn.
    eexists. split; [unfold put_pcb; cbn; by rewrite !list_insert_insert_eq|].
    split; [by split_and!|]. cbn. by rewrite Hbuf.
Qed.

(** [close].  Whatever the state of the entry, [close] sends one RST with the
    next sequence number, once, and frees the entry: the FIN handshake is never
    begun, the queue is discarded and a waiting user is told [false]. *)
Theorem tcp_close_resets s i p n' :
  tcp_pcbs s !! i = Some p ->
  ip_takes (tcp_net s) (tcp_segment (snd_next (send_context p)) (rcv_next (recv_context p)) (tcp_flag_as_u8 RST)
    (rcv_window (recv_context p)) [] (tcp_local p) (tcp_remote p)) (tcp_local p) (tcp_remote p) n' ->
  tcp_close i s = Ret (put_pcb i (released p) (n' <|net_env := notify (tcp_sender p) false (net_env n')|>) s).
Proof.
  intros Hi Ht. unfold tcp_close. rewrite Hi. unfold tcp_output. flags_tac. change (0 <? zlen []) with false. cbv iota.
  cbn [orb]. rewrite output_segment_ip by (constructor || done). unfold ip_takes, ip_accepts in Ht.
  rewrite Ht, !bind_ret. cbn [unwrap_result]. by rewrite !bind_ret, on_env_release.
Qed.
End more_properties.

(** ** Concrete connections, for evaluation *)

Definition demo_closed : TcpSys := mkTcpSys TcpPcbs_new demo_net_cl.
Definition demo_syn_net : Net :=
  ip_after (tick_net (@draw_net demo_still (open_net demo_closed TcpPcb_new)))
    (tcp_segment 1000 0 FL_SYN PCB_BUF_LEN [] demo_cl demo_sv) demo_cl demo_sv.

Lemma tcp_active_open_witness :
  exists q, @rfc793_open demo_still debug_build demo_cl (Some demo_sv) true demo_closed =
      Ret (1%nat, 0%nat, put_pcb 0 q demo_syn_net demo_closed)
    /\ conn_is q SynSent demo_cl demo_sv 1000 1001 0 PCB_BUF_LEN.
Proof.
  pose proof (@tcp_active_open demo_still debug_build demo_closed 0 TcpPcb_new demo_cl demo_sv demo_syn_net) as T.
  cbv zeta in T.
  destruct T as (q & E & Hc & _); [by vm_compute|by vm_compute|]. exists q. split; [exact E|exact Hc].
Defined.

Lemma passive_reopen_remembers_witness :
  let p := demo_established <|tcp_buf := [1; 2]|> in
  let '(freed, n) := on_env (release p) demo_net_sv in
  returns (@rfc793_open demo_still debug_build demo_sv None false (put_pcb 0 freed n (demo_sv_sys p)))
    (fun '(_, _, s') => exists q, tcp_pcbs s' = <[0%nat := q]> (demo_table p) /\ tcp_buf q = [1; 2]).
Proof.
  intros p. pose proof (@passive_reopen_remembers demo_still debug_build (demo_sv_sys p) 0 p demo_sv eq_refl) as T.
  rewrite on_env_release in T |- *.
  eapply returns_mono; [apply T; [lia|done]|].
  intros [[c j] s'] (_ & q & Ht & _ & _ & _ & Hb & _). by exists q.
Defined.

Definition demo_fin_net1 : Net := ip_after demo_net_sv (tcp_segment 50 702 FL_ACK 65534 [] demo_sv demo_cl) demo_sv demo_cl.
Definition demo_woken (n : Net) : Net := n <|net_env := notify (Some 0%nat) true (net_env n)|>.
Definition demo_fin_net2 : Net :=
  ip_after (demo_woken demo_fin_net1) (tcp_segment 50 701 FL_ACK 65534 [] demo_sv demo_cl) demo_sv demo_cl.

Lemma tcp_fin_received_witness :
  exists p', @segment_arrives demo_still debug_build (arrival 700 50 FL_FIN_ACK 1000 [104] demo_cl demo_sv)
      (demo_sv_sys demo_established) = Ret (put_pcb 0 p' (demo_woken demo_fin_net2) (demo_sv_sys demo_established))
    /\ rcv_next (recv_context p') = 701 /\ tcp_buf p' = [104].
Proof.
  destruct (@tcp_fin_received demo_still debug_build (demo_sv_sys demo_established) 0 demo_established demo_cl demo_sv
    50 50 700 PCB_BUF_LEN 50 1000 [104] demo_fin_net1 demo_fin_net2) as (p' & E & Hc & Hb).
  all: try lazymatch goal with
       | |- ip_takes _ _ _ _ _ => by vm_compute
       | |- _ -> ip_takes _ _ _ _ _ => intros _; by vm_compute
       | |- conn_is _ _ _ _ _ _ _ _ => by split_and!
       | |- select _ _ _ = _ => by vm_compute
       | |- _ <= _ => done
       | |- _ < _ => done
       | |- _ /\ _ => done
       end.
  exists p'. split; [exact E|]. split; [|exact Hb]. by destruct Hc as (_ & _ & _ & _ & _ & -> & _).
Defined.

Lemma tcp_close_resets_witness :
  exists n', @tcp_close demo_still debug_build 0 (demo_sv_sys demo_established) =
    Ret (put_pcb 0 (released demo_established) n' (demo_sv_sys demo_established)).
Proof.
  set (n1 := ip_after demo_net_sv (tcp_segment 50 700 (tcp_flag_as_u8 RST) 65535 [] demo_sv demo_cl) demo_sv demo_cl).
  eexists. apply (@tcp_close_resets demo_still debug_build (demo_sv_sys demo_established) 0 demo_established n1);
    by vm_compute.
Defined.
