(* ===== verification/TcpSend.v ===== *)
(** * TCP: what [send] puts on the wire *)
From S2P Require Import Prelude Platform LinkedList Bytes Checksum IpTypes Devices Arp Ip IpService Transport Udp TcpTypes TcpOutput TcpInput TcpUser TcpInv TcpSafety TcpConn TcpProps.

(** The number of rounds that send [r] bytes in steps of [m]. *)
Definition steps (m r : Z) : nat := Z.to_nat ((r + m - 1) / m).

(** The segments of [send]: the [k]-th starts [k * m] bytes into the data, with
    the number that belongs to it, and carries all the data from there on. *)
Definition sends_from (m next : Z) (data : list Z) (es : list TcpDataQueueEntry) : Prop :=
  length es = steps m (zlen data)
  /\ forall k e, es !! k = Some e ->
       dq_seq_num e = next + Z.of_nat k * m /\ dq_flags e = FL_PSH_ACK
       /\ dq_data e = drop (Z.to_nat (Z.of_nat k * m)) data.

Section send_lemmas.
Context `{Platform} `{BuildProfile}.
Implicit Types (p q : TcpPcb) (s : TcpSys) (data : list Z).

Lemma steps_0 m : 0 < m -> steps m 0 = 0%nat.
Proof. intros. unfold steps. rewrite Z.add_0_l, Z.div_small by lia. done. Qed.

Lemma steps_last m r : 0 < r <= m -> steps m r = 1%nat.
Proof.
  intros. unfold steps. replace (r + m - 1) with ((r - 1) + 1 * m) by lia.
  rewrite Z.div_add, Z.div_small by lia. done.
Qed.

Lemma steps_more m r : 0 < m < r -> steps m r = S (steps m (r - m)).
Proof.
  intros. unfold steps. replace (r + m - 1) with ((r - m + m - 1) + 1 * m) by lia.
  rewrite Z.div_add by lia. rewrite Z.add_1_r, Z2Nat.inj_succ; [done|]. apply Z.div_pos; lia.
Qed.

Lemma sends_from_nil m next : 0 < m -> sends_from m next [] [].
Proof. intros. split; [by rewrite steps_0|]. by intros k e ?. Qed.

Lemma sends_from_cons m next data e es : 0 < m -> data <> [] ->
  dq_seq_num e = next -> dq_flags e = FL_PSH_ACK -> dq_data e = data ->
  sends_from m (next + Z.min m (zlen data)) (drop (Z.to_nat (Z.min m (zlen data))) data) es ->
  sends_from m next data (e :: es).
Proof.
  intros Hm Hne Hs Hf Hd [Hl Hes]. pose proof (zlen_nonneg data).
  assert (0 < zlen data) by (destruct data; [done|]; rewrite zlen_cons; pose proof (zlen_nonneg data); lia).
  rewrite zlen_drop in Hl by lia. rewrite Z2Nat.id in Hl by lia.
  split.
  - cbn [length]. rewrite Hl. destruct (decide (zlen data <= m)).
    + rewrite (steps_last m (zlen data)) by lia. rewrite Z.min_r, Z.sub_diag, steps_0 by lia. done.
    + rewrite (steps_more m (zlen data)) by lia. by rewrite Z.min_l by lia.
  - intros [|k] e' Hk.
    + injection Hk as <-. rewrite Z.mul_0_l, Z.add_0_r. by split_and!.
    + assert (m < zlen data) as Hlt.
      { destruct (decide (zlen data <= m)); [|lia]. exfalso. apply lookup_lt_Some in Hk. cbn in Hk.
        rewrite Z.min_r, Z.sub_diag, steps_0 in Hl by lia. lia. }
      destruct (Hes k e' Hk) as (Hs' & Hf' & Hd'). rewrite Z.min_l in * by lia. split_and!; [lia|done|].
      rewrite Hd', drop_drop. f_equal. lia.
Qed.

(** Nothing left to send. *)
Lemma send_loop_finished fuel c i data mss capacity s p : 0 < Z.min mss capacity -> tcp_pcbs s !! i = Some p ->
  exists es n, send_loop fuel c i data mss capacity (zlen data) s = Ret (AllSent (zlen data),
      put_pcb i ((set_next (snd_next (send_context p) + (zlen data - zlen data)) p)
        <|data_queue := data_queue p ++ es|>) n s)
    /\ sends_from (Z.min mss capacity) (snd_next (send_context p)) (drop (Z.to_nat (zlen data)) data) es.
Proof.
  intros Hm Hi. exists [], (tcp_net s).
  split; [|unfold zlen; rewrite Nat2Z.id, drop_all; by apply sends_from_nil].
  rewrite Z.sub_diag, Z.add_0_r, app_nil_r. destruct s as [pcbs n], p as [? ? ? ? []]. unfold put_pcb.
  cbn in *. rewrite list_insert_id by done. destruct fuel; cbn [send_loop]; by rewrite Z.ltb_irrefl.
Qed.

(** The inner loop, with room in the window. *)
Lemma send_loop_sends c i data (local remote : IPEndpoint)
    `{!IpService Tcp (address local) (address remote)} mss capacity : 0 < mss -> 0 < capacity ->
  bytes_ok data -> zlen data + 20 <= IP_SEG_MAX ->
  forall fuel sent s p, 0 <= sent <= zlen data -> zlen data - sent <= Z.of_nat fuel ->
  tcp_pcbs s !! i = Some p -> tcp_local p = local -> tcp_remote p = remote ->
  0 <= snd_next (send_context p) -> snd_next (send_context p) + (zlen data - sent) < 4294967296 ->
  ip_up fuel (tcp_net s) ->
  exists es n, send_loop fuel c i data mss capacity sent s = Ret (AllSent (zlen data),
      put_pcb i ((set_next (snd_next (send_context p) + (zlen data - sent)) p) <|data_queue := data_queue p ++ es|>) n s)
    /\ sends_from (Z.min mss capacity) (snd_next (send_context p)) (drop (Z.to_nat sent) data) es.
Proof.
  intros Hm Hcap Hb Hlen. unfold IP_SEG_MAX, ETH_PAYLOAD_MAX, ETH_FRAME_MAX, ETH_HDR_SIZE in Hlen.
  induction fuel as [|fuel IH]; intros sent s p Hs Hf Hi Hl Hr Hn0 Hn Hup; cbn [send_loop].
  - assert (sent = zlen data) as -> by lia. apply (send_loop_finished 0); [lia|done].
  - destruct (decide (sent = zlen data)) as [->|Hne]; [apply (send_loop_finished (S fuel)); [lia|done]|].
    rewrite (proj2 (Z.ltb_lt sent _)), (proj2 (Z.ltb_ge capacity 1)) by lia. cbn [negb].
    unfold pcb_at. rewrite Hi. cbn [unwrap]. rewrite bind_ret. cbv zeta. rewrite slice_from_ok, bind_ret by lia.
    set (text := drop (Z.to_nat sent) data).
    assert (zlen text = zlen data - sent) as Lt by (unfold text; rewrite zlen_drop by lia; lia).
    assert (bytes_ok text) as Hbt by by apply Forall_drop.
    set (n0 := tcp_net s). set (next := snd_next (send_context p)) in *.
    destruct (ip_up_send fuel (tick_net n0)
      (tcp_segment next (rcv_next (recv_context p)) FL_PSH_ACK (rcv_window (recv_context p)) text local remote))
      as (n1 & Ht & Hup1).
    { by apply ip_up_env. }
    { rewrite tcp_segment_len, Lt. unfold IP_SEG_MAX, ETH_PAYLOAD_MAX, ETH_FRAME_MAX, ETH_HDR_SIZE. lia. }
    fold FL_PSH_ACK.
    rewrite (tcp_output_queued p FL_PSH_ACK text n0 n1 next);
      [|done|by rewrite (proj2 (Z.ltb_lt 0 _)), orb_true_r by lia|done| |by rewrite Hl, Hr].
    2: { unfold TCP_DATA_MAX, CKSUM_MAX_LEN. lia. }
    rewrite bind_ret. set (p1 := p <|data_queue := _|>).
    set (step := Z.min (Z.min mss (zlen data - sent)) capacity).
    assert (0 < step <= zlen data - sent) as Hst by lia.
    change (snd_next (send_context p1)) with next.
    rewrite as_u32_id, add_u32_ok, bind_ret by (unfold in_u32; lia).
    set (p2 := set_next (next + step) p1). set (s2 := put_pcb i p2 n1 s).
    assert (tcp_pcbs s2 !! i = Some p2) as Hi2 by (apply list_lookup_insert_eq; by eapply lookup_lt_Some).
    destruct (IH (sent + step) s2 p2) as (es & n & E & Hes); try done; try lia.
    { change (snd_next (send_context p2)) with (next + step). lia. }
    { change (snd_next (send_context p2)) with (next + step). lia. }
    set (e := queue_entry (clock (env_ticks (net_env n0))) next FL_PSH_ACK text) in *.
    exists (e :: es), n. fold s2. rewrite E. change (snd_next (send_context p2)) with (next + step) in *.
    change (data_queue p2) with (data_queue p ++ [e]). split.
    + unfold s2, put_pcb. cbn [tcp_pcbs]. rewrite list_insert_insert_eq, <-app_assoc. cbn [app].
      by replace (next + step + (zlen data - (sent + step))) with (next + (zlen data - sent)) by lia.
    + assert (Z.min (Z.min mss capacity) (zlen text) = step) as Hmin by lia.
      apply sends_from_cons; [lia| |done|done|done|].
      * intros Hnil. rewrite Hnil in Lt. change (zlen []) with 0 in Lt. lia.
      * rewrite Hmin. unfold text. rewrite drop_drop. replace (Z.to_nat sent + Z.to_nat step)%nat
          with (Z.to_nat (sent + step)) by lia. done.
Qed.
(** More in flight than the window allows. *)
Lemma send_round_underflow c i data sent s p :
  tcp_pcbs s !! i = Some p -> tcp_state p ∈ [Established; CloseWait] -> sent < zlen data ->
  let ctx := send_context p in
  0 <= snd_una ctx <= snd_next ctx -> in_u32 (snd_next ctx) -> 0 <= snd_window ctx < snd_next ctx - snd_una ctx ->
  overflow_checks = true -> tcp_send_round c i data sent s = Panic.
Proof.
  intros Hi Hst Hs ctx Hu Hn Hw Ho. unfold tcp_send_round, pcb_at. rewrite Hi. cbn [unwrap]. rewrite bind_ret. cbv zeta.
  unfold state_in. rewrite bool_decide_eq_true_2 by done. unfold in_u32 in Hn. fold ctx.
  match goal with |- context [sub_usize ?a ?b] =>
    destruct (checked_cases 18446744073709551616 (a - b)) as [[mss E]|E]; unfold sub_usize; rewrite E; [|done] end.
  rewrite bind_ret. rewrite (proj2 (Z.ltb_lt sent _)) by done. cbn [negb].
  rewrite (sub_u32_ok (snd_next ctx)), bind_ret by lia. unfold sub_u32. rewrite checked_panic; [done|done|lia].
Qed.
End send_lemmas.

(** ** Properties *)

Section send_properties.
Context `{Platform} `{BuildProfile}.

(** C19: [send].  On a connection with room in its window, [send] of at most 1460
    bytes (what one frame holds) returns the length of the data after finitely many segments, [next] advances by that
    length and every segment waits in the queue.  The steps are the smaller of
    segment size and free window, but each segment carries all the data from
    its start on: one segment with exactly the data when it fits a step, and
    otherwise segments that repeat the tail and run over the peer's window. *)
Theorem tcp_send_segments c i data s p `{!IpService Tcp (address (tcp_local p)) (address (tcp_remote p))} :
  tcp_pcbs s !! i = Some p -> tcp_state p ∈ [Established; CloseWait] ->
  data <> [] -> bytes_ok data -> zlen data + 20 <= IP_SEG_MAX ->
  let ctx := send_context p in
  let capacity := snd_window ctx - (snd_next ctx - snd_una ctx) in
  let mss := mtu (net_dev (tcp_net s)) - 40 in
  0 <= snd_una ctx <= snd_next ctx -> snd_next ctx + zlen data < 4294967296 -> snd_window ctx <= 65535 ->
  0 < capacity -> 0 < mss < 65536 -> ip_up (length data) (tcp_net s) ->
  returns (tcp_send_round c i data 0 s) (fun '(r, s') => r = Done (Some (zlen data))
    /\ exists es, sends_from (Z.min mss capacity) (snd_next ctx) data es
    /\ tcp_pcbs s' = <[i := (set_next (snd_next ctx + zlen data) p) <|data_queue := data_queue p ++ es|>]> (tcp_pcbs s)
    /\ (zlen data <= Z.min mss capacity -> map dq_data es = [data])).
Proof.
  intros Hi Hst Hne Hb Hlen ctx capacity mss Hu Hn Hw Hc Hm Hup.
  assert (0 < zlen data) as Hpos by (destruct data; [done|]; rewrite zlen_cons; pose proof (zlen_nonneg data); lia).
  unfold tcp_send_round, pcb_at. rewrite Hi. cbn [unwrap]. rewrite bind_ret. cbv zeta.
  unfold state_in. rewrite bool_decide_eq_true_2 by done. change (IP_HEADER_MIN_SIZE + size_of TcpHeader) with 40.
  fold ctx. rewrite sub_usize_ok, bind_ret by (unfold in_usize; lia). fold mss.
  rewrite (proj2 (Z.ltb_lt 0 _)) by done. cbn [negb].
  rewrite (sub_u32_ok (snd_next ctx)), bind_ret by lia. rewrite sub_u32_ok, bind_ret by (unfold capacity in *; lia).
  fold capacity.
  destruct (send_loop_sends c i data (tcp_local p) (tcp_remote p) mss capacity ltac:(lia) Hc Hb Hlen (length data) 0 s p)
    as (es & n & E & Hes); try done; try lia.
  { unfold zlen. lia. }
  1,2: fold ctx; lia.
  rewrite E, bind_ret. cbn [returns]. split; [done|]. exists es. change (drop (Z.to_nat 0) data) with data in Hes.
  split; [done|]. split; [cbn; by rewrite Z.sub_0_r|].
  intros Hfit. destruct Hes as [Hl Hes]. rewrite steps_last in Hl by lia.
  destruct es as [|e [|]]; try done. cbn. by destruct (Hes 0%nat e eq_refl) as (_ & _ & ->).
Qed.

(** C38: a window smaller than what is in flight makes [send] of data panic in
    a checked build.  A peer that shrinks its window does this; so does a passive
    handshake on an entry whose window was never set: the SYN-ACK still counts as
    in flight and the acknowledgment of the handshake sets no window, so a [send]
    right after it panics. *)
Theorem tcp_send_underflow : overflow_checks = true ->
  (forall c i data sent s p,
     tcp_pcbs s !! i = Some p -> tcp_state p ∈ [Established; CloseWait] -> sent < zlen data ->
     let ctx := send_context p in
     0 <= snd_una ctx <= snd_next ctx -> in_u32 (snd_next ctx) -> 0 <= snd_window ctx < snd_next ctx - snd_una ctx ->
     tcp_send_round c i data sent s = Panic)
  /\ (forall s i q src dst x z w w' n',
     select (tcp_pcbs s) dst (Some src) = Some (i, q) -> tcp_state q = Listen -> tcp_mode q <> Socket ->
     parent_id q = None -> snd_window (send_context q) = 0 -> 0 <= x -> x + 1 + PCB_BUF_LEN < 4294967296 ->
     let y := drawn (tcp_net s) in
     ip_takes (tick_net (draw_net (tcp_net s)))
       (tcp_segment y (x + 1) FL_SYN_ACK PCB_BUF_LEN [] dst src) dst src n' ->
     exists s1 s2 p,
       segment_arrives (arrival x z FL_SYN w [] src dst) s = Ret s1
       /\ segment_arrives (arrival (x + 1) (y + 1) FL_ACK w' [] src dst) s1 = Ret s2
       /\ tcp_pcbs s2 !! i = Some p /\ tcp_state p = Established
       /\ forall c data, data <> [] -> tcp_send_round c i data 0 s2 = Panic).
Proof.
  intros Ho. split; [intros; by eapply send_round_underflow|].
  intros s i q src dst x z w w' n' Hsel Hst Hm Hpar Hwin Hx Hb y Ht.
  pose proof (drawn_range (tcp_net s)) as Hy. fold y in Hy. unfold u32_max, PCB_BUF_LEN in Hy, Hb.
  destruct (listen_syn s i q x z w src dst n') as (q1 & E1 & Hq1 & Hpar1 & _ & Hsnd & _); [done|done|done|lia|done|].
  set (s1 := put_pcb i q1 n' s) in *.
  assert (i < length (tcp_pcbs s))%nat as Hlt by (destruct (select_first _ _ _ _ _ Hsel); by eapply lookup_lt_Some).
  assert (select (tcp_pcbs s1) dst (Some src) = Some (i, q1)) as Hsel1.
  { destruct Hq1 as (_ & Hl & Hr & _). apply (select_after _ _ _ _ q); [done|by apply full_match_own]. }
  pose proof (syn_received_ack s1 i q1 x y w' src dst Hsel1 Hq1 ltac:(by rewrite Hpar1) Hx Hb) as E2.
  do 3 eexists. split; [exact E1|]. split; [exact E2|].
  assert (forall p n, tcp_pcbs (put_pcb i p n s1) !! i = Some p) as Hi2
    by (intros; unfold s1, put_pcb; cbn; apply list_lookup_insert_eq; by rewrite length_insert).
  split; [apply Hi2|]. split; [done|]. intros c data Hd.
  assert (0 < zlen data) as Hpos by (destruct data; [done|]; rewrite zlen_cons; pose proof (zlen_nonneg data); lia).
  set (q2 := q1 <|tcp_state := Established|>) in *.
  assert (send_context q2 = set_field (proj := snd_una) y (set_field (proj := snd_next) (y + 1) (send_context q)))
    as Hc2 by exact Hsnd.
  apply (send_round_underflow c i data 0 _ q2 (Hi2 _ _)); rewrite ?Hc2; clearbody y; cbn;
    [set_solver|done|lia|unfold in_u32; lia|lia|done].
Qed.
End send_properties.

(** ** Concrete connections, for evaluation *)

Lemma tcp_send_segments_witness :
  returns (@tcp_send_round demo_still debug_build 0 0 [1; 2] 0 (demo_sv_sys demo_established))
    (fun '(r, s') => r = Done (Some 2) /\ exists p', tcp_pcbs s' = <[0%nat := p']> (demo_table demo_established)
       /\ map dq_data (data_queue p') = [[1; 2]]).
Proof.
  eapply returns_mono.
  - apply (@tcp_send_segments demo_still debug_build 0 0 [1; 2] (demo_sv_sys demo_established) demo_established
      (@eth_service demo_still debug_build Tcp (address demo_sv) (address demo_cl)
         (interface_route (demo_iface (address demo_sv))) [2; 0; 0; 0; 0; 9])); try done.
    + set_solver.
    + bytes_tac.
    + exact demo_eth_up.
  - intros [r s'] (-> & es & _ & Ht & Hfit). split; [done|]. eexists. split; [exact Ht|]. by apply Hfit.
Defined.

Lemma tcp_send_underflow_witness :
  let p := demo_entry Established demo_sv demo_cl 50 51 0 700 [] [] in
  let q := demo_entry Listen demo_sv (mkIPEndpoint IP_ADDR_ANY 0) 0 0 0 0 [] [] in
  @tcp_send_round demo_still debug_build 0 0 [1] 0 (demo_sv_sys p) = Panic
  /\ exists s1 s2,
       @segment_arrives demo_still debug_build (arrival 300 0 FL_SYN 65535 [] demo_cl demo_sv) (demo_sv_sys q) = Ret s1
       /\ @segment_arrives demo_still debug_build (arrival 301 1001 FL_ACK 65535 [] demo_cl demo_sv) s1 = Ret s2
       /\ @tcp_send_round demo_still debug_build 0 0 [1] 0 s2 = Panic.
Proof.
  intros p q. destruct (@tcp_send_underflow demo_still debug_build eq_refl) as [T1 T2]. split.
  - apply (T1 0%nat 0%nat [1] 0 (demo_sv_sys p) p); try done. set_solver.
  - edestruct (T2 (demo_sv_sys q) 0%nat q demo_cl demo_sv 300 0 65535 65535
      (ip_after (tick_net (@draw_net demo_still demo_net_sv))
        (tcp_segment 1000 301 FL_SYN_ACK PCB_BUF_LEN [] demo_sv demo_cl) demo_sv demo_cl))
      as (s1 & s2 & p' & E1 & E2 & _ & _ & P); [done..|]. exists s1, s2. split_and!; [exact E1|exact E2|by apply P].
Defined.
