(* ===== verification/Concurrency.v ===== *)
(** * The locks of [NetApp]

    Three threads share the devices, the protocol queues, the contexts and the
    control blocks, each behind a mutex: the signal loop, the retransmission
    thread and the thread of the command.  Here a critical section is the
    sequence of its lock operations (a guard lives to the end of its scope), and
    the state is the locks each thread holds and what it still has to do. *)
From S2P Require Import Prelude.

Inductive Lock := LDevices | LProtocols | LContexts | LPcbs.

#[export] Instance Lock_eq_dec : EqDecision Lock.
Proof. solve_decision. Defined.

(** [Wait]: [receiver.recv()] on the channel of the connection; [Notify]:
    [sender.send(true)] on it. *)
Inductive Action := Acquire (l : Lock) | Release (l : Lock) | Wait | Notify.

#[export] Instance Action_eq_dec : EqDecision Action.
Proof. solve_decision. Defined.

Record Thread := mkThread { held : list Lock; todo : list Action }.

Record World := mkWorld { threads : list Thread; messages : nat }.

(** ** The critical sections of the program *)

(** Guards taken in order, [body], guards dropped in reverse. *)
Definition section (ls : list Lock) (body : list Action) : list Action :=
  map Acquire ls ++ body ++ map Release (rev ls).

Definition sec_handle_protocol : list Action := section [LDevices; LProtocols; LContexts; LPcbs] [Notify].
Definition sec_handle_irq : list Action := section [LDevices; LProtocols] [].
Definition sec_close_sockets : list Action := section [LPcbs] [].
Definition sec_tcp_transmit : list Action := section [LPcbs; LDevices; LContexts] [].
Definition sec_rfc793_open : list Action := section [LPcbs; LDevices; LContexts] [].
(** The command's call of [tcp::send] with no room in the peer's window: the
    caller holds the devices and the contexts all along. *)
Definition sec_tcp_send_blocked : list Action :=
  section [LDevices; LContexts] (section [LPcbs] [] ++ section [LPcbs] [] ++ [Wait] ++ section [LPcbs] []).
Definition sec_udp_socket : list Action := section [LPcbs] [].
Definition sec_udp_send : list Action := section [LDevices; LContexts; LPcbs] [].
Definition sec_udp_receive : list Action := section [LPcbs] [] ++ [Wait] ++ section [LPcbs] [].

(** ** Steps *)

Definition free_lock (l : Lock) (ts : list Thread) : Prop := forall j t, ts !! j = Some t -> l ∉ held t.

Definition without (l : Lock) (ls : list Lock) : list Lock := filter (fun k => k <> l) ls.

Inductive step : World -> World -> Prop :=
| step_acquire i l h p ts m : ts !! i = Some (mkThread h (Acquire l :: p)) -> free_lock l ts ->
    step (mkWorld ts m) (mkWorld (<[i := mkThread (l :: h) p]> ts) m)
| step_release i l h p ts m : ts !! i = Some (mkThread h (Release l :: p)) ->
    step (mkWorld ts m) (mkWorld (<[i := mkThread (without l h) p]> ts) m)
| step_wait i h p ts m : ts !! i = Some (mkThread h (Wait :: p)) ->
    step (mkWorld ts (S m)) (mkWorld (<[i := mkThread h p]> ts) m)
| step_notify i h p ts m : ts !! i = Some (mkThread h (Notify :: p)) ->
    step (mkWorld ts m) (mkWorld (<[i := mkThread h p]> ts) (S m)).

Definition start (ps : list (list Action)) : World := mkWorld (map (mkThread []) ps) 0.

Definition finished (w : World) : Prop := Forall (fun t => todo t = []) (threads w).

Definition stuck (w : World) : Prop := ~ finished w /\ forall w', ~ step w w'.

(** ** An executable scheduler *)

Definition lock_free (l : Lock) (ts : list Thread) : bool := forallb (fun t => negb (bool_decide (l ∈ held t))) ts.

(** The step of thread [i], if it can take one. *)
Definition run_one (i : nat) (w : World) : option World :=
  match threads w !! i with
  | Some (mkThread h (Acquire l :: p)) =>
      if lock_free l (threads w) then Some (mkWorld (<[i := mkThread (l :: h) p]> (threads w)) (messages w)) else None
  | Some (mkThread h (Release l :: p)) => Some (mkWorld (<[i := mkThread (without l h) p]> (threads w)) (messages w))
  | Some (mkThread h (Wait :: p)) =>
      match messages w with O => None | S m => Some (mkWorld (<[i := mkThread h p]> (threads w)) m) end
  | Some (mkThread h (Notify :: p)) => Some (mkWorld (<[i := mkThread h p]> (threads w)) (S (messages w)))
  | _ => None
  end.

Fixpoint run_schedule (order : list nat) (w : World) : option World :=
  match order with
  | [] => Some w
  | i :: order => match run_one i w with Some w => run_schedule order w | None => None end
  end.

Section scheduler.
Implicit Types (w : World) (ts : list Thread).

Lemma lock_free_spec l ts : lock_free l ts = true <-> free_lock l ts.
Proof.
  unfold lock_free, free_lock. rewrite forallb_forall. split.
  - intros H j t Hj. apply (bool_decide_eq_false (l ∈ held t)), negb_true_iff, H, list_elem_of_In.
    by eapply list_elem_of_lookup_2.
  - intros H t Ht. apply list_elem_of_In, list_elem_of_lookup_1 in Ht as [j Hj].
    apply negb_true_iff, bool_decide_eq_false. by eapply H.
Qed.

Lemma run_one_step i w w' : run_one i w = Some w' -> step w w'.
Proof.
  intros E. destruct w as [ts m]. unfold run_one in E. cbn [threads messages] in E.
  destruct (ts !! i) as [[h [|a p]]|] eqn:Et; try done. destruct a.
  - destruct (lock_free l ts) eqn:El; [|done]. injection E as <-. apply lock_free_spec in El. by eapply step_acquire.
  - injection E as <-. by eapply step_release.
  - destruct m; [done|]. injection E as <-. by eapply step_wait.
  - injection E as <-. by eapply step_notify.
Qed.

Lemma step_run w w' : step w w' -> exists i, (i < length (threads w))%nat /\ run_one i w = Some w'.
Proof.
  intros [i l h p ts m E Hl|i l h p ts m E|i h p ts m E|i h p ts m E]; exists i;
    (split; [by eapply lookup_lt_Some|]); unfold run_one; cbn [threads messages]; rewrite E; try done.
  by rewrite (proj2 (lock_free_spec l ts)).
Qed.

Lemma run_schedule_rtc order w w' : run_schedule order w = Some w' -> rtc step w w'.
Proof.
  revert w. induction order as [|i order IH]; intros w; cbn; [intros [= ->]; apply rtc_refl|].
  destruct (run_one i w) as [w1|] eqn:E; [|done]. intros Hr.
  apply run_one_step in E. eapply rtc_l; [exact E|by apply IH].
Qed.

(** Being stuck can be evaluated. *)
Definition is_stuck (w : World) : bool :=
  negb (forallb (fun t => match todo t with [] => true | _ => false end) (threads w))
  && forallb (fun i => match run_one i w with None => true | _ => false end) (seq 0 (length (threads w))).

Lemma is_stuck_stuck w : is_stuck w = true -> stuck w.
Proof.
  unfold is_stuck. rewrite andb_true_iff, negb_true_iff. intros [Hf Hs]. split.
  - intros Hfin. rewrite (proj2 (forallb_forall _ _)) in Hf; [done|]. intros t Ht%list_elem_of_In.
    unfold finished in Hfin. rewrite Forall_forall in Hfin. by rewrite (Hfin t Ht).
  - intros w' Hw. apply step_run in Hw as (i & Hi & E). rewrite forallb_forall in Hs.
    assert (In i (seq 0 (length (threads w)))) as Hin by (apply in_seq; lia).
    specialize (Hs i Hin). by rewrite E in Hs.
Qed.
End scheduler.

(** ** Threads that respect an order *)

Definition rank (l : Lock) : nat := match l with LDevices => 0 | LProtocols => 1 | LContexts => 2 | LPcbs => 3 end.

(** A thread that holds [h] takes only locks above those it holds, releases what
    it holds, does not wait, and ends with none. *)
Fixpoint ordered (h : list Lock) (p : list Action) : bool :=
  match p with
  | [] => bool_decide (h = [])
  | Acquire l :: p => forallb (fun k => bool_decide (rank k < rank l)%nat) h && ordered (l :: h) p
  | Release l :: p => bool_decide (l ∈ h) && ordered (without l h) p
  | Wait :: _ => false
  | Notify :: p => ordered h p
  end.

Definition ordered_thread (t : Thread) : Prop := ordered (held t) (todo t) = true.

(** The actions left in a world. *)
Definition work (w : World) : nat := sum_list_with (fun t => length (todo t)) (threads w).

Section order.
Implicit Types (w : World) (ts : list Thread) (t : Thread).

Lemma ordered_app h p q : ordered h p = true -> ordered [] q = true -> ordered h (p ++ q) = true.
Proof.
  revert h. induction p as [|a p IH]; intros h Hp Hq; cbn in *.
  - apply bool_decide_eq_true in Hp. by subst.
  - destruct a; [|..]; try (by apply IH); try done; apply andb_true_iff in Hp as [-> Hp]; by apply IH.
Qed.

Lemma ordered_concat (ps : list (list Action)) : Forall (fun p => ordered [] p = true) ps -> ordered [] (concat ps) = true.
Proof. induction 1; [done|]. by apply ordered_app. Qed.

Lemma ordered_step w w' : step w w' -> Forall ordered_thread (threads w) -> Forall ordered_thread (threads w').
Proof.
  intros [i l h p ts m E Hl|i l h p ts m E|i h p ts m E|i h p ts m E] Ho; cbn [threads] in *;
    apply Forall_insert; try done; pose proof (Forall_lookup_1 _ _ _ _ Ho E) as Ht; unfold ordered_thread in *;
    cbn in Ht |- *; try (by apply andb_true_iff in Ht as [_ Ht]); done.
Qed.

Lemma work_step w w' : step w w' -> (work w' < work w)%nat.
Proof.
  intros [i l h p ts m E Hl|i l h p ts m E|i h p ts m E|i h p ts m E]; unfold work; cbn [threads];
    rewrite <-(take_drop_middle ts i _ E) at 2; rewrite insert_take_drop by (by eapply lookup_lt_Some);
    rewrite !sum_list_with_app; cbn; lia.
Qed.

(** A thread that holds a lock of greatest rank, or any unfinished thread when
    none is held, can go on. *)
Lemma highest_lock ts : (forall t, t ∈ ts -> held t = []) \/
  exists i t l, ts !! i = Some t /\ l ∈ held t /\ forall u k, u ∈ ts -> k ∈ held u -> (rank k <= rank l)%nat.
Proof.
  assert (forall ls : list Lock, ls = [] \/ exists l, l ∈ ls /\ forall k, k ∈ ls -> (rank k <= rank l)%nat) as Hmax.
  { induction ls as [|l ls [->|(m & Hm & Hle)]]; [by left|right|right].
    - exists l. split; [set_solver|]. intros k ->%list_elem_of_singleton. done.
    - destruct (decide (rank m <= rank l)%nat).
      + exists l. split; [set_solver|]. intros k [->|Hk]%elem_of_cons; [done|]. specialize (Hle k Hk). lia.
      + exists m. split; [set_solver|]. intros k [->|Hk]%elem_of_cons; [lia|by apply Hle]. }
  destruct (Hmax (concat (map held ts))) as [Hn|(l & Hl & Hle)]; [left|right].
  - intros t Ht. destruct (held t) as [|k ks] eqn:Eh; [done|]. exfalso.
    assert (k ∈ concat (map held ts)) as Hk.
    { apply list_elem_of_In, in_concat. exists (held t). rewrite <-!list_elem_of_In.
      split; [by apply list_elem_of_fmap_2|rewrite Eh; set_solver]. }
    rewrite Hn in Hk. by apply not_elem_of_nil in Hk.
  - apply list_elem_of_In, in_concat in Hl as (h & Hh%list_elem_of_In & Hl%list_elem_of_In).
    apply list_elem_of_fmap in Hh as (t & -> & Ht). apply list_elem_of_lookup_1 in Ht as [i Hi].
    exists i, t, l. split_and!; [done|done|]. intros u k Hu Hk. apply Hle.
    apply list_elem_of_In, in_concat. exists (held u). rewrite <-!list_elem_of_In.
    split; [by apply list_elem_of_fmap_2|done].
Qed.

Lemma ordered_progress w : Forall ordered_thread (threads w) -> ~ finished w -> exists w', step w w'.
Proof.
  intros Ho Hf. destruct w as [ts m]. cbn [threads] in *.
  assert (forall i t, ts !! i = Some t -> todo t <> [] ->
    (forall l p, todo t = Acquire l :: p -> free_lock l ts) -> exists w', step (mkWorld ts m) w') as Go.
  { intros i [h p] Hi Hp Hfree. pose proof (Forall_lookup_1 _ _ _ _ Ho Hi) as Ht. cbn in Hp, Hfree.
    destruct p as [|[l|l| |] p]; [done|..].
    - eexists. eapply step_acquire; [done|by eapply Hfree].
    - eexists. by eapply step_release.
    - done.
    - eexists. by eapply step_notify. }
  destruct (highest_lock ts) as [Hnone|(i & t & l & Hi & Hl & Hmax)].
  - unfold finished in Hf. cbn [threads] in Hf.
    apply not_Forall_Exists in Hf; [|intros t; destruct (todo t); [by left|by right]].
    apply Exists_exists in Hf as (t & Ht & Hp). apply list_elem_of_lookup_1 in Ht as [i Hi].
    eapply Go; [exact Hi|exact Hp|]. intros l p _ j u Hu. rewrite (Hnone u) by by eapply list_elem_of_lookup_2.
    apply not_elem_of_nil.
  - pose proof (Forall_lookup_1 _ _ _ _ Ho Hi) as Ht. unfold ordered_thread in Ht.
    eapply Go; [exact Hi| |].
    + intros Hp. rewrite Hp in Ht. cbn in Ht. apply bool_decide_eq_true in Ht. rewrite Ht in Hl.
      by apply not_elem_of_nil in Hl.
    + intros k p Hp j u Hu Hk. rewrite Hp in Ht. cbn in Ht. apply andb_true_iff in Ht as [Hr _].
      rewrite forallb_forall in Hr. specialize (Hr l (proj1 (list_elem_of_In _ _) Hl)).
      apply bool_decide_eq_true in Hr. pose proof (Hmax u k ltac:(by eapply list_elem_of_lookup_2) Hk). lia.
Qed.
End order.

(** ** Properties *)

(** The sections of the signal loop and of the UDP commands that hold locks. *)
Definition ordered_sections : list (list Action) :=
  [sec_handle_protocol; sec_handle_irq; sec_close_sockets; sec_udp_socket; sec_udp_send].

Section lock_properties.

(** C14: the locks of the signal loop and of UDP sends.  Any number of threads,
    each running any sequence of these critical sections, never deadlock: from
    every state they reach they can all run to the end, because every section
    takes the locks in the order devices, protocols, contexts, control blocks. *)
Theorem ordered_sections_complete (ps : list (list (list Action))) (w : World) :
  Forall (Forall (fun p => p ∈ ordered_sections)) ps -> rtc step (start (map (@concat _) ps)) w ->
  exists w', rtc step w w' /\ finished w'.
Proof.
  intros Hps Hr. assert (Forall ordered_thread (threads w)) as Ho.
  { assert (Forall ordered_thread (threads (start (map (@concat _) ps)))) as Hs.
    { cbn. rewrite !Forall_map. eapply Forall_impl; [exact Hps|]. intros q Hq. apply ordered_concat.
      eapply Forall_impl; [exact Hq|]. intros p Hp. unfold ordered_sections in Hp.
      repeat (apply elem_of_cons in Hp as [->|Hp]; [by vm_compute|]). by apply not_elem_of_nil in Hp. }
    clear Hps. induction Hr as [|x y z Hxy _ IH]; [done|]. apply IH. by eapply ordered_step. }
  clear Hr. remember (work w) as k eqn:Hk. revert w Hk Ho.
  induction k as [k IH] using lt_wf_ind. intros w -> Ho.
  destruct (Forall_dec (fun t => todo t = []) (threads w)) as [Hf|Hf]; [exists w; by split; [apply rtc_refl|]|].
  destruct (ordered_progress w Ho Hf) as [w1 H1].
  destruct (IH (work w1) (work_step _ _ H1) w1 eq_refl (ordered_step _ _ H1 Ho)) as (w2 & H2 & Hfin).
  exists w2. split; [by eapply rtc_l|done].
Qed.

(** C15: the threads of the program do deadlock.  The retransmission thread and
    an active open take the control blocks first; each of them and the handler
    of SIGUSR1 can reach a state where neither can go on.  So can that handler
    and a command whose [send] waits for the peer's window: the wakeup can only
    come from the handler, which needs the devices the command holds. *)
Theorem lock_order_deadlocks :
  (exists w, rtc step (start [sec_handle_protocol; sec_tcp_transmit]) w /\ stuck w)
  /\ (exists w, rtc step (start [sec_handle_protocol; sec_rfc793_open]) w /\ stuck w)
  /\ (exists w, rtc step (start [sec_handle_protocol; sec_tcp_send_blocked]) w /\ stuck w).
Proof.
  assert (forall ps order w, run_schedule order (start ps) = Some w -> is_stuck w = true ->
    exists w, rtc step (start ps) w /\ stuck w) as Go.
  { intros ps order w Hr Hs. exists w. split; [by eapply run_schedule_rtc|by apply is_stuck_stuck]. }
  split_and!.
  - by eapply (Go _ [1; 0; 0; 0]%nat).
  - by eapply (Go _ [1; 0; 0; 0]%nat).
  - by eapply (Go _ [1; 1; 1; 1; 1; 1]%nat).
Qed.
End lock_properties.

Lemma ordered_sections_complete_witness : exists w',
  rtc step (start [sec_handle_irq ++ sec_handle_protocol ++ []; sec_udp_socket ++ sec_udp_send ++ []]) w' /\ finished w'.
Proof.
  apply (ordered_sections_complete [[sec_handle_irq; sec_handle_protocol]; [sec_udp_socket; sec_udp_send]]).
  - repeat constructor.
  - apply rtc_refl.
Defined.
