(* ===== verification/Stack.v ===== *)
(** * protocols/ip/mod.rs [input], protocols/mod.rs and app.rs: the stack

    The dispatch of received datagrams to the transports, the protocol queues
    and their handlers, the state of [NetApp] and the operations the signal loop
    of main.rs runs on it. *)
From S2P Require Import Prelude Platform LinkedList Bytes Checksum IpTypes Devices Arp Ip Transport Icmp Udp TcpTypes TcpOutput TcpInput.

#[local] Set Warnings "-register-all".

Record ControlBlocks := mkControlBlocks { udp_pcbs : UdpPcbs; tcp_blocks : TcpPcbs }.

Definition ControlBlocks_new : ControlBlocks := mkControlBlocks UdpPcbs_new TcpPcbs_new.

#[export] Instance set_udp_pcbs : Setter udp_pcbs := fun v c => mkControlBlocks v (tcp_blocks c).
#[export] Instance set_tcp_blocks : Setter tcp_blocks := fun v c => mkControlBlocks (udp_pcbs c) v.

Section stack_code.
Context `{Platform} `{BuildProfile}.

(** The dispatch of [ip::input] on the protocol. *)
Definition transport_input (p : IPProtocolType) (data : list Z) (len : Z) (src dst : IPAdress)
    (interface : IPInterface) (n : Net) (pcbs : ControlBlocks) : outcome (result unit * Net * ControlBlocks) :=
  match p with
  | Icmp => '(r, n) ← icmp_input data len src dst interface n; Ret (r, n, pcbs)
  | Tcp =>
      '(r, s) ← tcp_input data len src dst interface (mkTcpSys (tcp_blocks pcbs) n);
      Ret (r, tcp_net s, pcbs <|tcp_blocks := tcp_pcbs s|>)
  | Udp =>
      '(r, upcbs, e) ← udp_input data len src dst (udp_pcbs pcbs) (net_env n);
      Ret (r, n <|net_env := e|>, pcbs <|udp_pcbs := upcbs|>)
  | IPUnknown => Ret (Ok tt, n, pcbs)
  end.

(** [ip::input] *)
Definition ip_input (data : list Z) (len : Z) (n : Net) (pcbs : ControlBlocks)
    : outcome (result unit * Net * ControlBlocks) :=
  if len <? IP_HEADER_MIN_SIZE then Panic else
  header ← bytes_to_struct IPHeader data;
  let header_len := Z.shiftl (Z.land (ver_len header) 0x0f) 2 in
  checked_header ← check_ip_header header len header_len;
  match checked_header with
  | Err => Ret (Err, n, pcbs)
  | Ok _ =>
      match get_interface (net_dev n) IP with
      | None => Ret (Ok tt, n, pcbs)
      | Some interface =>
          if negb (unicast interface =? ip_dst header) then Ret (Err, n, pcbs) else
          sub_data ← slice_from data header_len;
          sub_len ← sub_usize len header_len;
          transport_input (ip_protocol_from_u8 (ip_proto header)) sub_data sub_len (ip_src header) (ip_dst header)
            interface n pcbs
      end
  end.

(** [NetProtocol::input] *)
Definition protocol_input (ty : ProtocolType) (data : list Z) (len : Z) (n : Net) (pcbs : ControlBlocks)
    : outcome (Net * ControlBlocks) :=
  match ty with
  | ProtoArp => '(r, n) ← arp_input data len n; _ ← unwrap_result r; Ret (n, pcbs)
  | ProtoIP => '(r, n, pcbs) ← ip_input data len n pcbs; _ ← unwrap_result r; Ret (n, pcbs)
  | ProtoUnknown => Ret (n, pcbs)
  end.

(** What a handler of received data works on besides the device. *)
Record Shared := mkShared { sh_ctx : ProtocolContexts; sh_pcbs : ControlBlocks; sh_env : Env }.

(** The loop of [handle_input] over the devices, for one entry of the queue. *)
Definition input_on_device (ty : ProtocolType) (pd : ProtocolData) (data : list Z) (s : Shared) (d : NetDevice)
    : outcome (Shared * NetDevice * loop_ctl) :=
  if irq (irq_entry d) =? pd_irq pd then
    '(n, pcbs) ← protocol_input ty data (pd_len pd) (mkNet d (sh_ctx s) (sh_env s)) (sh_pcbs s);
    Ret (mkShared (net_ctx n) pcbs (net_env n), net_dev n, Break)
  else Ret (s, d, Continue).

(** The loop of [handle_input], which pops the queue until it is empty. *)
Fixpoint handle_queue (ty : ProtocolType) (q : list ProtocolData) (ds : NetDevices) (s : Shared)
    : outcome (NetDevices * Shared) :=
  match q with
  | [] => Ret (ds, s)
  | pd :: q =>
      data ← unwrap (pd_data pd);
      '(s, entries) ← traverse (input_on_device ty pd data) (device_entries ds) s;
      handle_queue ty q (mkNetDevices entries) s
  end.

(** [NetProtocol::handle_input] *)
Definition handle_input (p : NetProtocol) (ds : NetDevices) (s : Shared)
    : outcome (NetProtocol * NetDevices * Shared) :=
  '(ds, s) ← handle_queue (protocol_type p) (input_head p) ds s;
  Ret (p <|input_head := []|>, ds, s).

Definition handle_data_body (s : NetDevices * Shared) (p : NetProtocol)
    : outcome (NetDevices * Shared * NetProtocol * loop_ctl) :=
  '(p, ds, s) ← handle_input p (fst s) (snd s);
  Ret (ds, s, p, Continue).

(** [NetProtocols::handle_data] *)
Definition handle_data (ps : NetProtocols) (ds : NetDevices) (s : Shared)
    : outcome (NetProtocols * NetDevices * Shared) :=
  '(s, entries) ← traverse handle_data_body (protocol_entries ps) (ds, s);
  Ret (mkNetProtocols entries, fst s, snd s).

(** ** app.rs: [NetApp]

    The four shared objects, and the world they run in. *)
Record NetApp := mkNetApp {
  app_devices : NetDevices;
  app_protocols : NetProtocols;
  app_contexts : ProtocolContexts;
  app_pcbs : ControlBlocks;
  app_env : Env
}.

Definition LOOPBACK_IP : String.string := "127.0.0.1".
Definition LOOPBACK_NETMASK : String.string := "255.255.255.0".
Definition DEFAULT_GATEWAY : String.string := "192.0.2.1".
Definition ETH_TAP_IP : String.string := "192.0.2.2".
Definition ETH_TAP_NETMASK : String.string := "255.255.255.0".

Definition NetApp_new (e : Env) : outcome NetApp :=
  let devices := NetDevices_new in
  let ip_routes := IPRoutes_new in
  '(r, loopback_device) ← device_open (loopback_init 0);
  _ ← unwrap_result r;
  loopback_interface ← IPInterface_new LOOPBACK_IP LOOPBACK_NETMASK;
  let loopback_device := register_interface loopback_device loopback_interface in
  let devices := NetDevices_register devices loopback_device in
  let ip_routes := IPRoutes_register ip_routes (interface_route loopback_interface) in
  '(r, ethernet_device) ← device_open (ethernet_init 1 Tap);
  _ ← unwrap_result r;
  ethernet_interface ← IPInterface_new ETH_TAP_IP ETH_TAP_NETMASK;
  let ethernet_device := register_interface ethernet_device ethernet_interface in
  let devices := NetDevices_register devices ethernet_device in
  default_gw_route ← gateway_route DEFAULT_GATEWAY ethernet_interface;
  let ip_routes := IPRoutes_register ip_routes default_gw_route in
  let protocols := NetProtocols_register NetProtocols_new (NetProtocol_new ProtoArp) in
  let protocols := NetProtocols_register protocols (NetProtocol_new ProtoIP) in
  Ret (mkNetApp devices protocols (mkProtocolContexts ArpTable_new ip_routes IPHeaderIdManager_new)
         ControlBlocks_new e).

Definition app_close_sockets (a : NetApp) : outcome NetApp :=
  e ← udp_close_sockets (udp_pcbs (app_pcbs a)) (app_env a);
  let '(tcp, e) := tcp_close_sockets (tcp_blocks (app_pcbs a)) e in
  Ret (mkNetApp (app_devices a) (app_protocols a) (app_contexts a)
         ((app_pcbs a) <|tcp_blocks := tcp|>) e).

Definition handle_protocol (a : NetApp) : outcome NetApp :=
  '(ps, ds, s) ← handle_data (app_protocols a) (app_devices a)
                   (mkShared (app_contexts a) (app_pcbs a) (app_env a));
  Ret (mkNetApp ds ps (sh_ctx s) (sh_pcbs s) (sh_env s)).

Definition handle_irq (n : Z) (a : NetApp) : outcome NetApp :=
  '(ds, ps, e) ← devices_handle_irq (app_devices a) n (app_protocols a) (app_env a);
  Ret (mkNetApp ds ps (app_contexts a) (app_pcbs a) e).

(** Running an operation on the Ethernet device and the contexts. *)
Definition on_ethernet {A} (f : Net -> outcome (A * Net)) (a : NetApp) : outcome (A * NetApp) :=
  '(eth_device, put) ← unwrap (get_mut_by_type (app_devices a) Ethernet);
  '(r, n) ← f (mkNet eth_device (app_contexts a) (app_env a));
  Ret (r, mkNetApp (put (net_dev n)) (app_protocols a) (net_ctx n) (app_pcbs a) (net_env n)).

(** One critical section of [tcp_transmit_thread]. *)
Definition tcp_transmit (a : NetApp) : outcome NetApp :=
  '(pcbs, a) ← on_ethernet (retransmit (tcp_blocks (app_pcbs a))) a;
  Ret (mkNetApp (app_devices a) (app_protocols a) (app_contexts a)
         ((app_pcbs a) <|tcp_blocks := pcbs|>) (app_env a)).

(** ** main.rs: the signal loop

    [term_signals] is [signal_hook::consts::TERM_SIGNALS]. *)
Definition SIGHUP : Z := 1.

Definition on_signal (term_signals : list Z) (sig : Z) (a : NetApp) : outcome (NetApp * loop_ctl) :=
  if sig =? SIGHUP then Ret (a, Continue)
  else if sig =? SIGUSR1 then a ← handle_protocol a; Ret (a, Continue)
  else if bool_decide (sig ∈ term_signals) then Ret (a, Break)
  else a ← handle_irq sig a; Ret (a, Continue).

(** After the loop, up to the joins.  [app_sender.send(()).unwrap()] and
    [tcp_sender.send(()).unwrap()] fail when the thread has ended and its receiver
    is gone. *)
Definition main_end (app_alive transmit_alive : bool) (a : NetApp) : outcome NetApp :=
  if negb app_alive then Panic else if negb transmit_alive then Panic else app_close_sockets a.

(** The loop over the signals delivered, with what follows it when the command
    and retransmission threads are alive or not by then; a loop that runs out of
    signals waits for the next one. *)
Fixpoint signal_loop (term_signals : list Z) (app_alive transmit_alive : bool) (sigs : list Z) (a : NetApp)
    : outcome NetApp :=
  match sigs with
  | [] => Blocks
  | sig :: sigs =>
      '(a, ctl) ← on_signal term_signals sig a;
      match ctl with
      | Break => main_end app_alive transmit_alive a
      | Continue => signal_loop term_signals app_alive transmit_alive sigs a
      end
  end.
End stack_code.

(** ** Lemmas *)

Section stack_lemmas.
Context `{Platform} `{BuildProfile}.
Implicit Types (n : Net) (p : IPProtocolType) (pcbs : ControlBlocks) (a : NetApp) (d : NetDevice) (s : Shared).

Lemma ip_protocol_roundtrip p : ip_protocol_from_u8 (ip_protocol_as_u8 p) = p.
Proof. by destruct p. Qed.

(** A datagram built by [ip_output], possibly padded, at a device with an
    interface. *)
Lemma ip_input_datagram p src dst id data pad iface n pcbs :
  get_interface (net_dev n) IP = Some iface ->
  in_u32 src -> in_u32 dst -> in_u16 id -> zlen data <= IP_PAYLOAD_MAX_SIZE -> zlen pad <= ETH_PAYLOAD_MAX ->
  ip_input (ip_datagram p src dst id data ++ pad) (20 + zlen data + zlen pad) n pcbs =
    if unicast iface =? dst
    then transport_input p (data ++ pad) (zlen data + zlen pad) src dst iface n pcbs
    else Ret (Err, n, pcbs).
Proof.
  intros Hi Hs Hd Hid Hl Hp. pose proof (zlen_nonneg data). pose proof (zlen_nonneg pad).
  unfold IP_PAYLOAD_MAX_SIZE, IP_MAX_SIZE, IP_HEADER_MIN_SIZE, u16_max in Hl.
  assert (IPHeader_wf (ip_header p src dst (zlen data) id)) as W
    by (apply ip_header_wf; unfold in_u16; try done; lia).
  unfold ip_input. change IP_HEADER_MIN_SIZE with 20. rewrite (proj2 (Z.ltb_ge (20 + zlen data + zlen pad) 20)) by lia.
  unfold ip_datagram. rewrite <-app_assoc.
  change (IPHeader_bytes ?h) with (to_u8_slice h). rewrite (bytes_to_struct_app (T := IPHeader)), bind_ret by done.
  cbv zeta. change (Z.shiftl (Z.land (ver_len (ip_header p src dst (zlen data) id)) 0x0f) 2) with 20.
  rewrite check_ip_header_own, bind_ret; [|done|done| |done|lia].
  2: { unfold IP_PAYLOAD_MAX_SIZE, IP_MAX_SIZE, IP_HEADER_MIN_SIZE, u16_max. lia. }
  rewrite Hi. change (ip_dst (ip_header p src dst (zlen data) id)) with dst.
  destruct (unicast iface =? dst); [|done]. cbn [negb].
  rewrite slice_from_app, bind_ret by (symmetry; by apply IPHeader_len).
  rewrite sub_usize_ok, bind_ret
    by (unfold in_usize, ETH_PAYLOAD_MAX, ETH_FRAME_MAX, ETH_HDR_SIZE in *; lia).
  replace (20 + zlen data + zlen pad - 20) with (zlen data + zlen pad) by lia.
  change (ip_proto (ip_header p src dst (zlen data) id)) with (ip_protocol_as_u8 p).
  by rewrite ip_protocol_roundtrip.
Qed.
End stack_lemmas.
