(* ===== verification/StackFrame.v ===== *)
(** * What the processing of packets never changes

    [net_same]: the identity of the device (everything but its driver and the
    pending loopback data) and the routes; and what it only adds to: the frames
    written, each of which carries an ARP message or a datagram ([frame_from],
    [packet_sent]) while the hardware addresses in use have their length.
    Every operation on a [Net] keeps it, from the drivers up to the dispatch of
    received packets. *)
From S2P Require Import Prelude Platform LinkedList Bytes Checksum IpTypes Devices Arp Ip Transport Icmp Udp TcpTypes TcpOutput TcpInput Stack.

#[local] Set Warnings "-register-all".

Definition dev_static (d : NetDevice) :=
  (dev_index d, device_type d, name d, (mtu d, flags d, header_len d, address_len d),
   (dev_address d, dev_broadcast d), (irq (irq_entry d), irq_flags (irq_entry d)), interfaces d, driver_type d).

(** The packets that the program hands to the device with the hardware address
    [mac] for the station [dst], by the type in the Ethernet header: an ARP request
    for an address, an ARP reply to that station, or an IP datagram of one of its
    three protocols, whose header is the one [ip_header] describes (its length and
    checksum are those of the datagram). *)
Inductive packet_sent (mac dst : list Z) : ProtocolType -> list Z -> Prop :=
  | sent_arp_request sip tip :
      packet_sent mac dst ProtoArp (ArpMessage_bytes (arp_msg ARP_OP_REQUEST mac sip (replicate 6 0) tip))
  | sent_arp_reply sip tip :
      packet_sent mac dst ProtoArp (ArpMessage_bytes (arp_msg ARP_OP_REPLY mac sip dst tip))
  | sent_datagram p sip tip id data : p <> IPUnknown -> in_u16 id ->
      packet_sent mac dst ProtoIP (ip_datagram p sip tip id data).

(** A frame of the station [mac]: from it, to a hardware address, with one of
    those packets, and zeros up to the minimum length. *)
Definition frame_from (mac frame : list Z) : Prop := exists dst proto packet,
  length dst = ETH_ADDR_LEN /\ packet_sent mac dst proto packet /\ zlen packet <= ETH_PAYLOAD_MAX
  /\ frame = eth_frame dst mac proto packet.

(** What a device has written to its TAP file. *)
Definition written (d : NetDevice) : list (list Z) :=
  match driver_data d with Some dd => tap_tx (file dd) | None => [] end.

(** Hardware addresses have their length: those of the device and those in the
    cache. *)
Definition cache_ok (t : ArpTable) : Prop :=
  forall ip entry, arp_entries t !! ip = Some entry -> length (hw_address entry) = ETH_ADDR_LEN.
Definition hw_ok (n : Net) : Prop :=
  length (dev_address (net_dev n)) = NET_DEVICE_ADDR_LEN /\ length (dev_broadcast (net_dev n)) = NET_DEVICE_ADDR_LEN
  /\ cache_ok (arp_table (net_ctx n)).

(** [n'] has written frames of its station after those of [n]. *)
Definition writes (n n' : Net) : Prop := exists frames,
  written (net_dev n') = written (net_dev n) ++ frames /\ Forall (frame_from (dev_mac (net_dev n))) frames.

Definition net_same (n n' : Net) : Prop :=
  dev_static (net_dev n') = dev_static (net_dev n) /\ ip_routes (net_ctx n') = ip_routes (net_ctx n)
  /\ (hw_ok n -> hw_ok n' /\ writes n n').

Lemma dev_static_mac d d' : dev_static d' = dev_static d -> dev_mac d' = dev_mac d.
Proof. unfold dev_static, dev_mac. intros. f_equal. congruence. Qed.

Lemma writes_refl n : writes n n.
Proof. exists []. by rewrite app_nil_r. Qed.

Lemma writes_trans n1 n2 n3 : dev_static (net_dev n2) = dev_static (net_dev n1) ->
  writes n1 n2 -> writes n2 n3 -> writes n1 n3.
Proof.
  intros S (f1 & E1 & F1) (f2 & E2 & F2). exists (f1 ++ f2). rewrite E2, E1, app_assoc. split; [done|].
  rewrite (dev_static_mac _ _ S) in F2. by apply Forall_app_2.
Qed.

#[export] Instance net_same_preorder : PreOrder net_same.
Proof.
  split; [intros n; split_and!; [done..|]; intros; split; [done|apply writes_refl]|].
  intros x y z (S1 & R1 & W1) (S2 & R2 & W2). split_and!; [congruence..|].
  intros Hx. destruct (W1 Hx) as [Hy F1]. destruct (W2 Hy) as [Hz F2]. split; [done|by apply (writes_trans x y z)].
Qed.

Lemma on_env_same {A} (f : Env -> A * Env) n r n' : on_env f n = (r, n') -> net_same n n'.
Proof.
  unfold on_env. destruct (f (net_env n)). intros [= <- <-]. split_and!; [done..|].
  intros. split; [done|]. apply (writes_refl n).
Qed.

Create HintDb frame.

(** A result that carries a network state. *)
Abbreviation keeps_net n0 m := (ensures m (fun '(_, n') => net_same n0 n')) (only parsing).

Lemma net_same_trans n0 n n' : net_same n0 n -> net_same n n' -> net_same n0 n'.
Proof. intros ? ?. by etrans. Qed.

(** Relates the end of a step to the state the proof started from. *)
Ltac frame_chain E :=
  try match goal with Hn : net_same _ ?n |- _ =>
    lazymatch type of E with net_same n _ => apply (net_same_trans _ _ _ Hn) in E end end.

(** One step: what is known of the head of the computation, or a case split. *)
Ltac frame_step :=
  lazymatch goal with
  | |- ensures (Ret _) _ => cbn [ensures]
  | |- ensures (match on_env ?f ?n with _ => _ end) _ =>
      let E := fresh "E" in
      destruct (on_env f n) as [? ?] eqn:E; apply on_env_same in E; frame_chain E
  | |- match on_env ?f ?n with _ => _ end =>
      let E := fresh "E" in
      destruct (on_env f n) as [? ?] eqn:E; apply on_env_same in E; frame_chain E
  | |- ensures (mbind _ (if _ then _ else _)) _ => apply ensures_bind
  | |- ensures (mbind _ (match _ with _ => _ end)) _ => apply ensures_bind
  | |- ensures (mbind _ (mbind _ _)) _ => apply ensures_bind
  | |- ensures (mbind _ _) _ =>
      first
        [ eapply ensures_bind2; [solve [eauto 4 with frame]|intros ?r ?Hr]
        | eapply ensures_bind2; [apply ensures_True|intros ?r _] ]
  | |- ensures (if ?b then _ else _) _ => destruct b eqn:?
  | |- ensures (match ?x with _ => _ end) _ => first [is_var x; destruct x | destruct x eqn:?]
  | |- ensures Panic _ => exact I
  | |- ensures UB _ => exact I
  | |- ensures Blocks _ => exact I
  | |- ensures NoFuel _ => exact I
  | |- ensures _ _ => 
      first
        [ solve [eauto 4 with frame]
        | eapply ensures_mono; [solve [eauto 4 with frame]|intros ?r ?Hr]
        | apply ensures_all; intros ?r ]
  | |- net_same _ _ => solve [eauto 6 with frame]
  end.
Ltac frame_tac := repeat (frame_step; cbv beta iota in * ).

Section frame.
Context `{Platform} `{BuildProfile}.
Implicit Types (n : Net) (p : TcpPcb) (s : TcpSys) (a : Arrival).

Lemma net_same_env n0 n e : net_same n0 n -> net_same n0 (n <|net_env := e|>).
Proof. done. Qed.
Lemma net_same_ctx n0 n c e : net_same n0 n -> ip_routes c = ip_routes (net_ctx n) ->
  (cache_ok (arp_table (net_ctx n)) -> cache_ok (arp_table c)) -> net_same n0 (mkNet (net_dev n) c e).
Proof.
  intros (H1 & H2 & H3) Hc Ht. split_and!; [done|cbn; congruence|]. intros H0'. destruct (H3 H0') as [(Ha & Hb & Hk) Hw].
  split; [|exact Hw]. split_and!; [done..|by apply Ht].
Qed.
Lemma net_same_mk n0 n c e : net_same n0 n -> ip_routes c = ip_routes (net_ctx n) ->
  arp_table c = arp_table (net_ctx n) -> net_same n0 (mkNet (net_dev n) c e).
Proof. intros Hn Hr Ht. apply net_same_ctx; [done..|]. by rewrite Ht. Qed.

(** *** The device *)

Lemma eth_header_len dst src ty : zlen (EthernetHeader_bytes (mkEthernetHeader dst src ty)) = zlen dst + zlen src + 2.
Proof. unfold EthernetHeader_bytes. rewrite !zlen_app. change (zlen (le_bytes _ _)) with 2. cbn [Devices.dst Devices.src]. lia. Qed.

(** The part of the frame buffer that is sent. *)
Lemma frame_slice hdr data (room pad : Z) : 0 <= pad -> pad <= room ->
  slice (hdr ++ data ++ replicate (Z.to_nat room) 0) 0 (zlen hdr + zlen data + pad) =
    Ret (hdr ++ data ++ replicate (Z.to_nat pad) 0).
Proof.
  intros Hp Hr. pose proof (slice_app [] (hdr ++ data ++ replicate (Z.to_nat pad) 0) (replicate (Z.to_nat (room - pad)) 0)
    0 (zlen hdr + zlen data + pad) eq_refl) as S.
  rewrite <-S; [|rewrite zlen_nil, !zlen_app, zlen_replicate; lia]. rewrite app_nil_l, <-!app_assoc, <-replicate_add.
  do 4 f_equal. lia.
Qed.

Lemma ethernet_transmit_writes d proto data len dst : length dst = ETH_ADDR_LEN ->
  length (dev_address d) = NET_DEVICE_ADDR_LEN ->
  (zlen data <= ETH_PAYLOAD_MAX -> packet_sent (dev_mac d) dst proto data) ->
  ensures (ethernet_transmit d proto data len dst) (fun '(_, d') =>
    exists frames, written d' = written d ++ frames /\ Forall (frame_from (dev_mac d)) frames).
Proof.
  intros Hd Ha Hp. unfold ethernet_transmit. cbv zeta. fold (dev_mac d).
  assert (zlen (dev_mac d) = 6) as Hm by (unfold dev_mac, zlen; rewrite length_take, Ha; done).
  assert (zlen dst = 6) as Hd' by (unfold zlen; by rewrite Hd).
  change (to_u8_slice ?h) with (EthernetHeader_bytes h). rewrite eth_header_len, Hm, Hd'. change (6 + 6 + 2) with 14.
  unfold ETH_FRAME_MAX, ETH_PAYLOAD_MIN, ETH_FRAME_MIN, ETH_HDR_SIZE. destruct (1514 <? 14 + zlen data) eqn:E; [done|].
  apply Z.ltb_ge in E. pose proof (zlen_nonneg data). set (pad := if zlen data <? 60 - 14 then _ else _).
  assert (pad = Z.max 0 (46 - zlen data)) as Hpad by (unfold pad; case_match; lia).
  set (hdr := EthernetHeader_bytes _).
  assert (zlen hdr = 14) as Hh by (unfold hdr; rewrite eth_header_len; lia).
  rewrite <-Hh, frame_slice, bind_ret by lia.
  apply ensures_bind, ensures_Ret. intros [] _; [|cbn; exists []; by rewrite app_nil_r].
  unfold tap_write_data. apply ensures_bind, ensures_Ret. intros dd Hdd%unwrap_Ret. cbn [ensures].
  unfold written. rewrite Hdd. cbn. eexists. split; [reflexivity|]. apply Forall_singleton.
  assert (zlen data <= ETH_PAYLOAD_MAX) as Hmax by (unfold ETH_PAYLOAD_MAX, ETH_FRAME_MAX, ETH_HDR_SIZE; lia).
  exists dst, proto, data. split_and!; [done|by apply Hp|done|].
  unfold eth_frame. fold hdr. unfold ETH_PAYLOAD_MIN, ETH_FRAME_MIN, ETH_HDR_SIZE.
  by replace (Z.to_nat (60 - 14 - zlen data)) with (Z.to_nat pad) by lia.
Qed.

Lemma device_transmit_same d proto data len dst e :
  ensures (device_transmit d proto data len dst e) (fun '(_, d', _) => dev_static d' = dev_static d).
Proof.
  unfold device_transmit, ethernet_transmit, loopback_transmit, tap_write_data. cbv zeta. frame_tac; done.
Qed.

Lemma device_transmit_writes d proto data len dst e : length dst = ETH_ADDR_LEN ->
  length (dev_address d) = NET_DEVICE_ADDR_LEN ->
  (zlen data <= ETH_PAYLOAD_MAX -> packet_sent (dev_mac d) dst proto data) ->
  ensures (device_transmit d proto data len dst e) (fun '(_, d', _) =>
    exists frames, written d' = written d ++ frames /\ Forall (frame_from (dev_mac d)) frames).
Proof.
  intros Hd Ha Hp. unfold device_transmit. case_match; [done|]. case_match.
  - cbn. exists []. by rewrite app_nil_r.
  - eapply ensures_bind2; [by apply ethernet_transmit_writes|]. by intros [r d'].
Qed.

Lemma net_transmit_same n0 n proto data len dst : net_same n0 n ->
  (zlen data <= ETH_PAYLOAD_MAX -> packet_sent (dev_mac (net_dev n)) dst proto data) ->
  (hw_ok n0 -> length dst = ETH_ADDR_LEN) -> keeps_net n0 (net_transmit n proto data len dst).
Proof.
  intros (Hs & Hr & Hn) Hp Hdst.
  unfold net_transmit. pose proof (device_transmit_same (net_dev n) proto data len dst (net_env n)) as S.
  pose proof (fun H1 H2 => device_transmit_writes (net_dev n) proto data len dst (net_env n) H1 H2 Hp) as W.
  destruct (device_transmit _ _ _ _ _ _) as [[[r d] e]| | | |]; try done. cbn in *. split_and!; [by etrans|done|].
  intros H0'. destruct (Hn H0') as [(Ha & Hb & Hk) Hw].
  assert (dev_address d = dev_address (net_dev n) /\ dev_broadcast d = dev_broadcast (net_dev n)) as [Ea Eb]
    by (unfold dev_static in S; split; congruence).
  split; [unfold hw_ok; cbn [net_dev net_ctx]; by rewrite Ea, Eb|].
  apply (writes_trans _ n); [done..|]. by apply W; [apply Hdst|].
Qed.
End frame.
#[export] Hint Resolve net_same_env : frame.
#[export] Hint Extern 1 (_ <> IPUnknown) => discriminate : frame.
#[export] Hint Extern 2 (net_same _ (mkNet (net_dev _) _ _)) => apply net_same_mk; [|reflexivity|reflexivity] : frame.
#[export] Hint Extern 3 (net_same _ _) => eapply net_same_trans; [eassumption|eassumption] : frame.
#[export] Hint Extern 1 (net_same _ _) => reflexivity : frame.

Section frame_ip.
Context `{Platform} `{BuildProfile}.
Implicit Types (n : Net).

Lemma mac_len (l : list Z) : length l = NET_DEVICE_ADDR_LEN -> length (take 6 l) = ETH_ADDR_LEN.
Proof. intros E. by rewrite length_take, E. Qed.

Lemma arp_request_same n0 n iface ip : net_same n0 n -> keeps_net n0 (arp_request iface ip n).
Proof.
  intros. unfold arp_request. apply net_transmit_same; [done|intros _; apply sent_arp_request|].
  intros H0'. apply mac_len. by apply H1.
Qed.
Lemma arp_reply_same n0 n iface ip dm : net_same n0 n -> length dm = ETH_ADDR_LEN ->
  keeps_net n0 (arp_reply iface dm ip dm n).
Proof. intros. unfold arp_reply. apply net_transmit_same; [done|intros _; apply sent_arp_reply|done]. Qed.

(** *** The cache *)

Lemma cache_ok_insert ip entry (m : gmap Z ArpTableEntry) : length (hw_address entry) = ETH_ADDR_LEN ->
  cache_ok (mkArpTable m) -> cache_ok (mkArpTable (<[ip := entry]> m)).
Proof.
  intros He Ht ip' entry' Hi. cbn in Hi. apply lookup_insert_Some in Hi as [(<- & <-)|[_ Hi]]; [done|by eapply Ht].
Qed.
Lemma cache_ok_delete ip (m : gmap Z ArpTableEntry) : cache_ok (mkArpTable m) -> cache_ok (mkArpTable (delete ip m)).
Proof. intros Ht ip' entry Hi. cbn in Hi. apply lookup_delete_Some in Hi as [_ Hi]. by eapply Ht. Qed.

Lemma ArpTable_update_ok t ip mac e : length mac = ETH_ADDR_LEN -> cache_ok t -> cache_ok (fst (ArpTable_update t ip mac e)).
Proof.
  intros Hm Ht. destruct t as [m]. unfold ArpTable_update. cbn. apply cache_ok_insert; [done|].
  case_match; [by apply cache_ok_delete|done].
Qed.

Lemma ArpTable_get_ok t ip e : ensures (ArpTable_get t ip e) (fun '(r, t', _) =>
  cache_ok t -> cache_ok t' /\ forall mac, r = Some mac -> length mac = ETH_ADDR_LEN).
Proof.
  destruct t as [m]. unfold ArpTable_get. cbn [arp_entries]. destruct (m !! ip) as [entry|] eqn:E; [|done].
  destruct (elapsed _ _) as [r e']. apply ensures_bind, ensures_Ret. intros dur _. case_match; cbn; intros Ht.
  - split; [by apply cache_ok_delete|done].
  - split; [done|]. intros mac [= <-]. by eapply Ht.
Qed.

Lemma ArpMessage_sender_len data : ensures (bytes_to_struct ArpMessage data) (fun m => length (sender_hw_addr m) = ETH_ADDR_LEN).
Proof.
  unfold bytes_to_struct. change (size_of ArpMessage) with 28. case_match eqn:E; [done|]. apply Z.ltb_ge in E.
  cbn. unfold bytes_at, zlen in *. rewrite length_take, length_drop, length_take. unfold ETH_ADDR_LEN. lia.
Qed.

(** An address that a resolution returned. *)
Lemma arp_resolve_same n0 n iface ip : net_same n0 n ->
  ensures (arp_resolve iface ip n) (fun '(r, n') => net_same n0 n'
    /\ forall mac, hw_ok n0 -> r = Ok (Some mac) -> length mac = ETH_ADDR_LEN).
Proof.
  intros Hn. unfold arp_resolve. case_match; [cbn; by split|].
  eapply ensures_bind2; [apply ArpTable_get_ok|]. intros [[r t] e] Ht. cbv zeta.
  assert (net_same n0 (mkNet (net_dev n) ((net_ctx n) <|arp_table := t|>) e)) as Hn'
    by (apply net_same_ctx; [done|done|]; intros Hk; by apply Ht).
  destruct r as [mac|].
  - cbn. split; [done|]. intros mac' H0' [= <-]. destruct Hn as (_ & _ & Hn). by apply Ht; [apply Hn|].
  - eapply ensures_bind2; [by apply arp_request_same|]. intros [[] n'] ?; cbn; by split.
Qed.

Lemma arp_input_same n0 n data len : net_same n0 n -> keeps_net n0 (arp_input data len n).
Proof.
  intros Hn. unfold arp_input. eapply ensures_bind2; [apply ArpMessage_sender_len|]. intros msg Hmac. cbv zeta.
  repeat (case_match; [done|]). apply ensures_bind, ensures_Ret. intros iface _. case_match; [done|].
  pose proof (ArpTable_update_ok (arp_table (net_ctx n)) (le_int (sender_proto_addr msg)) (sender_hw_addr msg) (net_env n) Hmac) as Ht.
  destruct (ArpTable_update _ _ _ _) as [t e].
  assert (net_same n0 (mkNet (net_dev n) ((net_ctx n) <|arp_table := t|>) e)) as Hn' by by apply net_same_ctx.
  case_match; [by apply arp_reply_same|done].
Qed.

Lemma ip_next_hop_same n0 n route dst hop : net_same n0 n ->
  ensures (ip_next_hop_addr route dst hop n) (fun '(r, n') => net_same n0 n'
    /\ forall mac, hw_ok n0 -> r = Some mac -> length mac = ETH_ADDR_LEN).
Proof.
  intros Hn. unfold ip_next_hop_addr. case_match; [|cbn; split; [done|by intros mac _ [= <-]]]. case_match.
  - apply ensures_bind, ensures_Ret. intros b _. apply ensures_bind, ensures_Ret. intros hw Hhw. cbn.
    split; [done|]. intros mac _ [= <-]. unfold try_into_array in Hhw. case_match eqn:E; [|done].
    apply Nat.eqb_eq in E. by injection Hhw as <-.
  - eapply ensures_bind2; [by apply arp_resolve_same|]. intros [[[mac|]|] n'] [Hn' Hm]; cbn; (split; [done|]);
      intros mac' H0' [= <-]; [by eapply Hm|done].
Qed.

Lemma generate_id_range m : ensures (generate_id m) (fun '(id, _) => in_u16 id).
Proof. unfold generate_id. eapply ensures_bind2; [apply add_u16_range|]. done. Qed.

(** A datagram that fits a frame is the one described. *)
Lemma datagram_sent mac hop p sip tip data id header : p <> IPUnknown -> in_u16 id ->
  create_ip_header p sip tip data id = Ret header ->
  zlen (to_u8_slice header ++ data) <= ETH_PAYLOAD_MAX ->
  packet_sent mac hop ProtoIP (to_u8_slice header ++ data).
Proof.
  intros Hp Hid Hc Hl. change (to_u8_slice header) with (IPHeader_bytes header) in *.
  rewrite zlen_app, (proj2 (IPHeader_bytes_any header)) in Hl.
  unfold ETH_PAYLOAD_MAX, ETH_FRAME_MAX, ETH_HDR_SIZE in Hl.
  rewrite create_ip_header_eq in Hc by (unfold IP_PAYLOAD_MAX_SIZE, IP_MAX_SIZE, IP_HEADER_MIN_SIZE, u16_max; lia).
  injection Hc as <-. by apply sent_datagram.
Qed.

Lemma ip_output_same n0 n p data src dst : net_same n0 n -> p <> IPUnknown ->
  keeps_net n0 (ip_output p data src dst n).
Proof.
  intros Hn Hp. unfold ip_output. case_match; [|done]. case_match; [done|]. cbv zeta.
  eapply ensures_bind2; [apply generate_id_range|]. intros [id m] Hid. apply ensures_bind, ensures_Ret. intros header Hh.
  eapply ensures_bind2; [by apply (ip_next_hop_same n0)|]. intros [[mac|] n1] [Hn1 Hm]; [|done].
  apply net_transmit_same; [done|by eapply datagram_sent|]. intros H0'. by apply Hm.
Qed.
#[local] Hint Resolve ip_output_same : frame.

Lemma icmp_output_same n0 n ty c v data len src dst : net_same n0 n ->
  ensures (icmp_output ty c v data len src dst n) (net_same n0).
Proof. intros. unfold icmp_output. cbv zeta. frame_tac. Qed.
#[local] Hint Resolve icmp_output_same : frame.

Lemma icmp_input_same n0 n data len src dst iface : net_same n0 n ->
  keeps_net n0 (icmp_input data len src dst iface n).
Proof. intros. unfold icmp_input. cbv zeta. frame_tac. Qed.
End frame_ip.
#[export] Hint Resolve ip_output_same arp_input_same icmp_input_same : frame.

Section frame_tcp.
Context `{Platform} `{BuildProfile}.
Implicit Types (n : Net) (p : TcpPcb) (s : TcpSys) (a : Arrival).

Lemma output_segment_same n0 n seq ack fl w data l r : net_same n0 n ->
  keeps_net n0 (output_segment seq ack fl w data l r n).
Proof. intros. unfold output_segment. cbv zeta. frame_tac. Qed.
#[local] Hint Resolve output_segment_same : frame.

Lemma tcp_output_same n0 n p fl data : net_same n0 n -> keeps_net n0 (tcp_output p fl data n).
Proof. intros. unfold tcp_output. cbv zeta. destruct (_ || _); frame_tac. Qed.
#[local] Hint Resolve tcp_output_same : frame.

Lemma reply_rst_same n0 n a : net_same n0 n -> ensures (reply_rst a n) (net_same n0).
Proof. intros. unfold reply_rst. frame_tac. Qed.
#[local] Hint Resolve reply_rst_same : frame.

(** The same for a check of [segment_arrives]. *)
Definition keeps_check n0 (m : outcome stage) : Prop :=
  ensures m (fun r => net_same n0 (tcp_net (stage_sys r))).

Lemma and_then_same n0 m k : keeps_check n0 m ->
  (forall s, net_same n0 (tcp_net s) -> keeps_check n0 (k s)) -> keeps_check n0 (m >-> k).
Proof.
  intros Hm Hk. unfold keeps_check, and_then. eapply ensures_bind2; [apply Hm|]. intros [s|s] Hs; [done|by apply Hk].
Qed.

Lemma arrives_otherwise_same n0 a i st s : net_same n0 (tcp_net s) -> keeps_check n0 (arrives_otherwise a i st s).
Proof.
  intros Hs. unfold arrives_otherwise.
  repeat (apply and_then_same; [|clear s Hs; intros s Hs; cbv beta]); unfold keeps_check.
  - unfold check_sequence. frame_tac.
  - unfold check_reset, release_pcb. frame_tac.
  - unfold check_syn, release_pcb. frame_tac.
  - unfold check_ack, ack_syn_received, ack_established, ack_last_ack, ack_time_wait. cbv zeta. frame_tac.
  - unfold process_text. cbv zeta. frame_tac.
  - unfold check_fin. cbv zeta. frame_tac.
Qed.
#[local] Hint Resolve arrives_otherwise_same : frame.

Lemma segment_arrives_same n0 a s : net_same n0 (tcp_net s) -> 
  ensures (segment_arrives a s) (fun s' => net_same n0 (tcp_net s')).
Proof.
  intros Hs. unfold segment_arrives. destruct (select _ _ _) as [[i p]|].
  - repeat case_match.
    + unfold arrives_closed. frame_tac.
    + unfold arrives_listen. cbv zeta. frame_tac.
    + unfold arrives_syn_sent. cbv zeta. frame_tac.
    + eapply ensures_bind2; [by apply (arrives_otherwise_same n0)|]. done.
  - unfold arrives_closed. frame_tac.
Qed.
#[local] Hint Resolve segment_arrives_same : frame.

Lemma tcp_input_same n0 data len src dst iface s : net_same n0 (tcp_net s) ->
  ensures (tcp_input data len src dst iface s) (fun '(_, s') => net_same n0 (tcp_net s')).
Proof. intros Hs. unfold tcp_input. cbv zeta. frame_tac. Qed.

Lemma retransmit_queue_same n0 n q p : net_same n0 n -> keeps_net n0 (retransmit_queue q p n).
Proof.
  revert p n. induction q as [|e q IH]; intros p n Hn; cbn [retransmit_queue]; [done|]. frame_tac.
Qed.
#[local] Hint Resolve retransmit_queue_same : frame.

Lemma retransmit_same n0 n pcbs : net_same n0 n -> keeps_net n0 (retransmit pcbs n).
Proof.
  revert n. induction pcbs as [|p pcbs IH]; intros n Hn; cbn [retransmit]; [done|].
  unfold retransmit_pcb. frame_tac.
Qed.

(** *** Received packets *)

Lemma ip_input_same n0 n data len pcbs : net_same n0 n ->
  ensures (ip_input data len n pcbs) (fun '(_, n', _) => net_same n0 n').
Proof.
  intros Hn. unfold ip_input, transport_input. cbv zeta. pose proof tcp_input_same. frame_tac.
Qed.
#[local] Hint Resolve ip_input_same : frame.

Lemma protocol_input_same n0 n ty data len pcbs : net_same n0 n ->
  ensures (protocol_input ty data len n pcbs) (fun '(n', _) => net_same n0 n').
Proof. intros Hn. unfold protocol_input. frame_tac. Qed.
End frame_tcp.
#[export] Hint Resolve protocol_input_same retransmit_same : frame.
