(* ===== verification/StackProps.v ===== *)
(** * The stack: the theorems

    Received frames from the TAP file to the sockets: the interrupt, the queues,
    the dispatch, and what it takes for a datagram of one station to reach a
    socket of another. *)
From S2P Require Import Prelude Platform LinkedList Bytes Checksum IpTypes Devices Arp Ip Transport Icmp Udp TcpTypes TcpOutput TcpInput TcpInv TcpSafety Stack StackFrame.

#[local] Set Warnings "-register-all".

(** ** Specification

    The packets of a queue, handled in order on one device. *)
Fixpoint process_queue `{Platform} `{BuildProfile} (ty : ProtocolType) (q : list ProtocolData) (n : Net)
    (pcbs : ControlBlocks) : outcome (Net * ControlBlocks) :=
  match q with
  | [] => Ret (n, pcbs)
  | pd :: q =>
      data ← unwrap (pd_data pd);
      '(n, pcbs) ← protocol_input ty data (pd_len pd) n pcbs;
      process_queue ty q n pcbs
  end.

(** A [NetApp] with the loopback device [lo], the Ethernet device [d] and the
    ARP and IP queues [qa] and [qi]. *)
Record app_view (a : NetApp) (lo d : NetDevice) (qa qi : list ProtocolData) : Prop := {
  av_devices : to_list (device_entries (app_devices a)) = [lo; d];
  av_lo : irq (irq_entry lo) = IRQ_LOOPBACK;
  av_eth : irq (irq_entry d) = IRQ_ETHERNET;
  av_protocols : to_list (protocol_entries (app_protocols a)) = [mkNetProtocol ProtoArp qa; mkNetProtocol ProtoIP qi]
}.

Definition app_net (a : NetApp) (d : NetDevice) : Net := mkNet d (app_contexts a) (app_env a).

Definition from_ethernet (q : list ProtocolData) : Prop := Forall (fun pd => pd_irq pd = IRQ_ETHERNET) q.

Section stack_lemmas.
Context `{Platform} `{BuildProfile}.
Implicit Types (n : Net) (pcbs : ControlBlocks) (a : NetApp) (d lo : NetDevice) (s : Shared) (q : list ProtocolData).

Lemma net_same_irq n n' : net_same n n' -> irq (irq_entry (net_dev n')) = irq (irq_entry (net_dev n)).
Proof. intros (E & _ & _). unfold dev_static in E. congruence. Qed.

Lemma handle_queue_refines ty q ds s lo d :
  to_list (device_entries ds) = [lo; d] -> irq (irq_entry lo) = IRQ_LOOPBACK ->
  irq (irq_entry d) = IRQ_ETHERNET -> from_ethernet q ->
  refines (fun '(ds', s') '(n, pcbs) => to_list (device_entries ds') = [lo; net_dev n]
             /\ irq (irq_entry (net_dev n)) = IRQ_ETHERNET /\ s' = mkShared (net_ctx n) pcbs (net_env n))
    (handle_queue ty q ds s) (process_queue ty q (mkNet d (sh_ctx s) (sh_env s)) (sh_pcbs s)).
Proof.
  intros Hds Hlo Hd Hq. revert ds s d Hds Hd. induction Hq as [|pd q Hpd _ IH]; intros ds s d Hds Hd.
  - cbn. split_and!; [done|done|by destruct s].
  - cbn [handle_queue process_queue]. apply refines_same. intros data _.
    pose proof (traverse_refines (input_on_device ty pd data) (device_entries ds) s) as T.
    rewrite Hds in T. cbn [traverse_list] in T.
    assert (input_on_device ty pd data s lo = Ret (s, lo, Continue)) as E1
      by (unfold input_on_device; by rewrite Hlo, Hpd).
    assert (input_on_device ty pd data s d =
      '(n, pcbs) ← protocol_input ty data (pd_len pd) (mkNet d (sh_ctx s) (sh_env s)) (sh_pcbs s);
      Ret (mkShared (net_ctx n) pcbs (net_env n), net_dev n, Break)) as E2
      by (unfold input_on_device; by rewrite Hd, Hpd, Z.eqb_refl).
    rewrite E1, bind_ret, E2 in T.
    pose proof (protocol_input_same (mkNet d (sh_ctx s) (sh_env s)) (mkNet d (sh_ctx s) (sh_env s)) ty data
      (pd_len pd) (sh_pcbs s) ltac:(reflexivity)) as Same.
    destruct (protocol_input _ _ _ _ _) as [[n pcbs]| | | |].
    2-5: by destruct (traverse _ _ _).
    apply refines_Ret in T as ([s1 l1] & -> & -> & Hl). rewrite !bind_ret.
    apply net_same_irq in Same. cbn in Same.
    destruct n as [d' c e]. apply (IH (mkNetDevices l1) (mkShared c pcbs e) d'); [done|].
    by rewrite <-Hd.
Qed.

(** What [handle_protocol] amounts to: the ARP packets, then the IP packets. *)
Definition process_received (qa qi : list ProtocolData) n pcbs : outcome (Net * ControlBlocks) :=
  '(n, pcbs) ← process_queue ProtoArp qa n pcbs; process_queue ProtoIP qi n pcbs.

(** The state of the application after its packets were processed. *)
Definition app_after (lo : NetDevice) (a' : NetApp) (r : Net * ControlBlocks) : Prop :=
  app_view a' lo (net_dev (fst r)) [] [] /\ app_contexts a' = net_ctx (fst r) /\ app_env a' = net_env (fst r)
  /\ app_pcbs a' = snd r.

Lemma handle_protocol_view a lo d qa qi : app_view a lo d qa qi -> from_ethernet qa -> from_ethernet qi ->
  refines (app_after lo) (handle_protocol a) (process_received qa qi (app_net a d) (app_pcbs a)).
Proof.
  intros [Hds Hlo Hd Hps] Hqa Hqi. unfold handle_protocol, handle_data, process_received.
  set (s0 := mkShared (app_contexts a) (app_pcbs a) (app_env a)).
  pose proof (traverse_refines handle_data_body (protocol_entries (app_protocols a)) (app_devices a, s0)) as T.
  set (m := traverse handle_data_body _ _) in *.
  rewrite Hps in T. cbn [traverse_list] in T. unfold handle_data_body, handle_input in T.
  cbn [fst snd protocol_type input_head] in T.
  pose proof (handle_queue_refines ProtoArp qa (app_devices a) s0 lo d Hds Hlo Hd Hqa) as Q1.
  change (mkNet d (sh_ctx s0) (sh_env s0)) with (app_net a d) in Q1. change (sh_pcbs s0) with (app_pcbs a) in Q1.
  destruct (process_queue ProtoArp qa _ _) as [[n1 pcbs1]| | | |].
  2-5: destruct (handle_queue ProtoArp qa _ _); try done; by destruct m.
  apply refines_Ret in Q1 as ([ds1 s1] & E1 & Hds1 & Hd1 & ->). rewrite E1, !bind_ret in T. rewrite bind_ret.
  cbn [fst snd] in T.
  pose proof (handle_queue_refines ProtoIP qi ds1 (mkShared (net_ctx n1) pcbs1 (net_env n1)) lo (net_dev n1)
    Hds1 Hlo Hd1 Hqi) as Q2. cbn [sh_ctx sh_env sh_pcbs] in Q2.
  replace (mkNet (net_dev n1) (net_ctx n1) (net_env n1)) with n1 in Q2 by by destruct n1.
  destruct (process_queue ProtoIP qi _ _) as [[n2 pcbs2]| | | |].
  2-5: destruct (handle_queue ProtoIP qi _ _); try done; by destruct m.
  apply refines_Ret in Q2 as ([ds2 s2] & E2 & Hds2 & Hd2 & ->). rewrite E2, !bind_ret in T.
  apply refines_Ret in T as ([[ds3 s3] l3] & E3 & [= -> ->] & Hl3). rewrite E3, !bind_ret. cbn.
  by split.
Qed.

(** The interrupt for a frame addressed to the device. *)
Definition queue_for (ty : ProtocolType) (pd : ProtocolData) (qa qi : list ProtocolData) :=
  match ty with
  | ProtoArp => (qa ++ [pd], qi)
  | ProtoIP => (qa, qi ++ [pd])
  | ProtoUnknown => (qa, qi)
  end.

Lemma app_queues_split ty qa qi : ty <> ProtoUnknown -> exists (ps1 : list NetProtocol) p ps2,
  [mkNetProtocol ProtoArp qa; mkNetProtocol ProtoIP qi] = ps1 ++ p :: ps2 /\ protocol_type p = ty
  /\ Forall (fun r => protocol_type r <> protocol_type p) ps1
  /\ forall pd, ps1 ++ p <|input_head := input_head p ++ [pd]|> :: ps2 =
       [mkNetProtocol ProtoArp (fst (queue_for ty pd qa qi)); mkNetProtocol ProtoIP (snd (queue_for ty pd qa qi))].
Proof.
  destruct ty; [| |done]; intros _.
  - by exists [], (mkNetProtocol ProtoArp qa), [mkNetProtocol ProtoIP qi].
  - exists [mkNetProtocol ProtoArp qa], (mkNetProtocol ProtoIP qi), []. split_and!; try done. by repeat constructor.
Qed.

Lemma handle_irq_frame a lo d qa qi rx tx h payload ty :
  app_view a lo d qa qi ->
  eth_ready d (mkTapFile (Some (EthernetHeader_bytes h ++ payload) :: rx) tx) ->
  EthernetHeader_wf h -> zlen payload <= ETH_PAYLOAD_MAX ->
  dst h = dev_mac d \/ dst h = ETH_ADDR_BROADCAST ->
  ProtocolType_from_u16 (be_to_le_u16 (eth_type h)) = ty -> ty <> ProtoUnknown ->
  let pd := mkProtocolData IRQ_ETHERNET (Some payload) (zlen payload) in
  returns (handle_irq IRQ_ETHERNET a) (fun a' =>
    app_view a' lo (with_file d (mkTapFile rx tx)) (fst (queue_for ty pd qa qi)) (snd (queue_for ty pd qa qi))
    /\ app_contexts a' = app_contexts a /\ app_pcbs a' = app_pcbs a /\ app_env a' = raise SIGUSR1 (app_env a)).
Proof.
  intros [Hds Hlo Hd Hps] R Hh Hlen Hdst Hty Hne pd. unfold handle_irq, devices_handle_irq.
  destruct (app_queues_split ty qa qi Hne) as (ps1 & p & ps2 & Hsplit & Hp & Hps1 & Hins). rewrite Hsplit in Hps.
  pose proof (isr_delivers d rx tx h payload IRQ_ETHERNET (app_protocols a) ps1 p ps2 (app_env a) R Hh Hlen Hdst Hps
    ltac:(congruence) Hps1) as I.
  pose proof (traverse_refines (handle_irq_body IRQ_ETHERNET) (device_entries (app_devices a))
    (app_protocols a, app_env a)) as T.
  set (m := traverse (handle_irq_body IRQ_ETHERNET) _ _) in *.
  rewrite Hds in T. cbn [traverse_list] in T. unfold handle_irq_body in T.
  rewrite Hlo, Hd in T. change (IRQ_LOOPBACK =? IRQ_ETHERNET) with false in T. rewrite Z.eqb_refl in T.
  cbn iota in T. rewrite bind_ret in T.
  apply returns_Ret in I as ([[d1 ps'] e1] & E1 & -> & Hps' & ->). rewrite E1, !bind_ret in T.
  apply refines_Ret in T as ([[ps2' e2] l2] & E2 & [= -> ->] & Hl2). rewrite E2, !bind_ret. cbn [returns].
  split_and!; try done. split; cbn; [done|done| |by rewrite Hps', Hins].
  unfold with_file. by case_match.
Qed.

(** The same for the frame another station sent. *)
Lemma handle_irq_sent a lo d qa qi rx tx smac proto data :
  app_view a lo d qa qi ->
  eth_ready d (mkTapFile (Some (eth_frame (dev_mac d) smac proto data) :: rx) tx) ->
  mac_wf smac -> zlen data <= ETH_PAYLOAD_MAX -> proto <> ProtoUnknown ->
  let payload := data ++ replicate (Z.to_nat (ETH_PAYLOAD_MIN - zlen data)) 0 in
  let pd := mkProtocolData IRQ_ETHERNET (Some payload) (zlen payload) in
  returns (handle_irq IRQ_ETHERNET a) (fun a' =>
    app_view a' lo (with_file d (mkTapFile rx tx)) (fst (queue_for proto pd qa qi)) (snd (queue_for proto pd qa qi))
    /\ app_contexts a' = app_contexts a /\ app_pcbs a' = app_pcbs a /\ app_env a' = raise SIGUSR1 (app_env a)).
Proof.
  intros Ha R Hm Hl Hp payload pd. pose proof (dev_mac_wf _ (er_wf _ _ R)). pose proof (zlen_nonneg data).
  unfold eth_frame in R. eapply handle_irq_frame; [done|exact R|..].
  - split_and!; [done..|]. apply le_to_be_u16_range, ProtocolType_as_u16_range.
  - unfold payload. zlen_simpl. unfold ETH_PAYLOAD_MAX, ETH_PAYLOAD_MIN, ETH_FRAME_MIN, ETH_FRAME_MAX, ETH_HDR_SIZE in *. lia.
  - by left.
  - cbn [eth_type]. by rewrite be_le_u16, ProtocolType_roundtrip by apply ProtocolType_as_u16_range.
  - done.
Qed.

(** An IP packet alone in the queues. *)
Lemma handle_protocol_ip a lo d payload len n' pcbs' :
  app_view a lo d [] [mkProtocolData IRQ_ETHERNET (Some payload) len] ->
  ip_input payload len (app_net a d) (app_pcbs a) = Ret (Ok tt, n', pcbs') ->
  returns (handle_protocol a) (fun a' => app_after lo a' (n', pcbs')).
Proof.
  intros Ha E. pose proof (handle_protocol_view a lo d [] _ Ha ltac:(constructor) ltac:(by repeat constructor)) as V.
  unfold process_received in V. cbn [process_queue] in V. rewrite bind_ret in V. cbn [unwrap pd_data pd_len] in V.
  rewrite bind_ret in V. unfold protocol_input in V. rewrite E, !bind_ret in V. cbn [unwrap_result] in V.
  rewrite !bind_ret in V. apply refines_Ret in V as (a' & -> & V). exact V.
Qed.

Lemma handle_protocol_ip_panics a lo d payload len qi :
  app_view a lo d [] (mkProtocolData IRQ_ETHERNET (Some payload) len :: qi) -> from_ethernet qi ->
  (exists n' pcbs', ip_input payload len (app_net a d) (app_pcbs a) = Ret (Err, n', pcbs'))
  \/ ip_input payload len (app_net a d) (app_pcbs a) = Panic ->
  handle_protocol a = Panic.
Proof.
  intros Ha Hq E. pose proof (handle_protocol_view a lo d [] _ Ha ltac:(constructor) ltac:(by constructor)) as V.
  unfold process_received in V. cbn [process_queue] in V. rewrite bind_ret in V. cbn [unwrap pd_data pd_len] in V.
  rewrite bind_ret in V. unfold protocol_input in V.
  destruct E as [(n' & pcbs' & E)|E]; rewrite E in V; by apply refines_Panic in V.
Qed.
(** A datagram for this station, from the frame to its transport: the interrupt
    queues it, and handling the signal is running the transport on its data and
    the padding of the frame. *)
Lemma datagram_arrives a lo d rx tx smac p src dst id data iface :
  app_view a lo d [] [] ->
  eth_ready d (mkTapFile (Some (eth_frame (dev_mac d) smac ProtoIP (ip_datagram p src dst id data)) :: rx) tx) ->
  mac_wf smac -> get_interface d IP = Some iface -> unicast iface = dst ->
  in_u32 src -> in_u32 dst -> in_u16 id -> zlen data <= ETH_PAYLOAD_MAX - 20 ->
  let pad := replicate (Z.to_nat (26 - zlen data)) 0 in
  let m := transport_input p (data ++ pad) (zlen data + zlen pad) src dst iface
             (mkNet (with_file d (mkTapFile rx tx)) (app_contexts a) (raise SIGUSR1 (app_env a))) (app_pcbs a) in
  returns (handle_irq IRQ_ETHERNET a) (fun a1 => app_env a1 = raise SIGUSR1 (app_env a)
    /\ (forall n' pcbs', m = Ret (Ok tt, n', pcbs') ->
         returns (handle_protocol a1) (fun a2 => app_after lo a2 (n', pcbs')))
    /\ ((exists n' pcbs', m = Ret (Err, n', pcbs')) \/ m = Panic -> handle_protocol a1 = Panic)).
Proof.
  intros Ha Rd Hm Hif Hu Hs Hd Hid Hl pad m. pose proof (zlen_nonneg data).
  pose proof Hl as Hl'. unfold ETH_PAYLOAD_MAX, ETH_FRAME_MAX, ETH_HDR_SIZE in Hl'.
  assert (zlen (ip_datagram p src dst id data) = 20 + zlen data) as Ldg by by apply ip_datagram_len.
  eapply returns_mono.
  { apply (handle_irq_sent a lo d [] [] rx tx smac ProtoIP (ip_datagram p src dst id data)); try done.
    unfold ETH_PAYLOAD_MAX, ETH_FRAME_MAX, ETH_HDR_SIZE. lia. }
  intros a1 (Ha1 & Hctx & Hpcbs & Henv). cbn [fst snd queue_for app] in Ha1.
  replace (Z.to_nat (ETH_PAYLOAD_MIN - zlen (ip_datagram p src dst id data))) with (Z.to_nat (26 - zlen data)) in Ha1
    by (rewrite Ldg; unfold ETH_PAYLOAD_MIN, ETH_FRAME_MIN, ETH_HDR_SIZE; lia).
  fold pad in Ha1.
  assert (zlen pad = Z.max 0 (26 - zlen data)) as Lpad by (unfold pad; rewrite zlen_replicate; lia).
  assert (ip_input (ip_datagram p src dst id data ++ pad) (zlen (ip_datagram p src dst id data ++ pad))
    (app_net a1 (with_file d (mkTapFile rx tx))) (app_pcbs a1) = m) as E.
  { rewrite zlen_app, Ldg, (ip_input_datagram _ _ _ _ _ _ iface); try done.
    - rewrite Hu, Z.eqb_refl. unfold m, app_net. by rewrite Hctx, Hpcbs, Henv.
    - unfold get_interface. cbn [net_dev app_net]. by rewrite with_file_interfaces.
    - unfold IP_PAYLOAD_MAX_SIZE, IP_MAX_SIZE, IP_HEADER_MIN_SIZE, u16_max. lia.
    - rewrite Lpad. unfold ETH_PAYLOAD_MAX, ETH_FRAME_MAX, ETH_HDR_SIZE. lia. }
  split; [done|]. split.
  - intros n' pcbs' Em. eapply handle_protocol_ip; [exact Ha1|]. by rewrite E.
  - intros Em. eapply handle_protocol_ip_panics; [exact Ha1|constructor|]. by rewrite E.
Qed.
End stack_lemmas.

(** *** Bounds *)

(** The bytes a transport reads before it looks at the length. *)
Definition transport_min (p : IPProtocolType) : Z :=
  match p with Icmp => 8 | Tcp => 20 | Udp => 8 | IPUnknown => 0 end.

(** The header an IP packet starts with, and the length it claims for itself. *)
Definition ip_header_at (data : list Z) : IPHeader := struct_of (take 20 data).
Definition ip_header_len (h : IPHeader) : Z := Z.shiftl (Z.land (ver_len h) 0x0f) 2.

Section bounds_lemmas.
Context `{Platform} `{BuildProfile}.
Implicit Types (n : Net) (pcbs : ControlBlocks).

Lemma bind_Ret_UB {A B} (m : outcome A) (f : A -> B) : (x ← m; Ret (f x)) = UB <-> m = UB.
Proof. by destruct m. Qed.

Lemma transport_input_UB p data len src dst iface n pcbs :
  transport_input p data len src dst iface n pcbs = UB <-> zlen data < transport_min p.
Proof.
  pose proof (zlen_nonneg data).
  destruct p; cbn [transport_input transport_min].
  - rewrite <-(icmp_input_UB data len src dst iface n). destruct (icmp_input _ _ _ _ _ _) as [[]| | | |]; done.
  - rewrite <-(tcp_input_UB data len src dst iface (mkTcpSys (tcp_blocks pcbs) n)).
    destruct (tcp_input _ _ _ _ _ _) as [[]| | | |]; done.
  - rewrite <-(udp_input_UB data len src dst (udp_pcbs pcbs) (net_env n)).
    destruct (udp_input _ _ _ _ _ _) as [[[]]| | | |]; done.
  - split; [done|lia].
Qed.

Lemma ip_header_len_range h : 0 <= ip_header_len h <= 60.
Proof.
  unfold ip_header_len. change 0x0f with (Z.ones 4). rewrite Z.land_ones, Z.shiftl_mul_pow2 by lia.
  pose proof (Z.mod_pos_bound (ver_len h) (2 ^ 4) ltac:(lia)). lia.
Qed.

(** A header that passes the checks does not claim more than the data. *)
Lemma check_ip_header_len h len hl : check_ip_header h len hl = Ret (Ok tt) -> hl <= len.
Proof.
  unfold check_ip_header. destruct (negb _); [done|]. destruct (len <? hl) eqn:E; [done|]. lia.
Qed.

Lemma ip_input_UB data n pcbs : zlen data <= 65535 -> ip_input data (zlen data) n pcbs = UB <->
  exists iface, let h := ip_header_at data in
    20 <= zlen data /\ check_ip_header h (zlen data) (ip_header_len h) = Ret (Ok tt)
    /\ get_interface (net_dev n) IP = Some iface /\ unicast iface = ip_dst h
    /\ zlen data - ip_header_len h < transport_min (ip_protocol_from_u8 (ip_proto h)).
Proof.
  intros Hmax. pose proof (zlen_nonneg data). unfold ip_input. change IP_HEADER_MIN_SIZE with 20.
  destruct (zlen data <? 20) eqn:E20; [split; [done|intros (? & ? & _); lia]|]. apply Z.ltb_ge in E20.
  unfold bytes_to_struct. change (size_of IPHeader) with 20. rewrite (proj2 (Z.ltb_ge (zlen data) 20)), bind_ret by done.
  change (struct_of (take (Z.to_nat 20) data)) with (ip_header_at data). cbv zeta. set (h := ip_header_at data).
  change (Z.shiftl (Z.land (ver_len h) 15) 2) with (ip_header_len h).
  pose proof (check_ip_header_defined h (zlen data) (ip_header_len h)) as D.
  destruct (check_ip_header h (zlen data) (ip_header_len h)) as [[[]|]| | | |] eqn:Ec; try done.
  2,3,4: split; [done|intros (? & _ & ? & _); done].
  rewrite bind_ret. pose proof (check_ip_header_len _ _ _ Ec). pose proof (ip_header_len_range h).
  destruct (get_interface (net_dev n) IP) as [iface|]; [|split; [done|intros (? & _ & _ & ? & _); done]].
  destruct (unicast iface =? ip_dst h) eqn:Eu; cbn [negb].
  - rewrite slice_from_ok, bind_ret, sub_usize_ok, bind_ret by (unfold in_usize; lia).
    rewrite transport_input_UB, zlen_drop by lia. rewrite Z2Nat.id by lia. split.
    + intros Hs. exists iface. split_and!; try done. lia.
    + intros (i & _ & _ & _ & _ & Hs). exact Hs.
  - split; [done|]. intros (i & _ & _ & [= ->] & Hu & _). lia.
Qed.
(** A packet whose destination is not the address of the interface, whatever else
    is in it, is an error that the dispatch unwraps. *)
Lemma foreign_input_panics data n pcbs iface : get_interface (net_dev n) IP = Some iface ->
  ip_dst (ip_header_at data) <> unicast iface -> protocol_input ProtoIP data (zlen data) n pcbs = Panic.
Proof.
  intros Hi Hne. unfold protocol_input, ip_input. change IP_HEADER_MIN_SIZE with 20.
  destruct (zlen data <? 20) eqn:E20; [done|]. apply Z.ltb_ge in E20.
  unfold bytes_to_struct. change (size_of IPHeader) with 20. rewrite (proj2 (Z.ltb_ge (zlen data) 20)), bind_ret by done.
  change (struct_of (take (Z.to_nat 20) data)) with (ip_header_at data). cbv zeta. set (h := ip_header_at data) in *.
  rewrite Hi, (proj2 (Z.eqb_neq _ _)) by done. cbn [negb].
  set (hl := Z.shiftl _ _). pose proof (check_ip_header_defined h (zlen data) hl) as D.
  assert (check_ip_header h (zlen data) hl <> Blocks) as B.
  { unfold check_ip_header. cbv zeta. repeat (case_match; [done|]). apply bind_no_wait; [apply cksum16_no_wait|].
    intros s. by repeat case_match. }
  by destruct (check_ip_header h (zlen data) hl) as [[[]|]| | | |].
Qed.

Lemma get_interface_same n n' f : net_same n n' -> get_interface (net_dev n') f = get_interface (net_dev n) f.
Proof.
  intros (S & _). assert (interfaces (net_dev n') = interfaces (net_dev n)) as E by (unfold dev_static in S; congruence).
  unfold get_interface. by rewrite E.
Qed.

Lemma process_queue_same ty q n pcbs : ensures (process_queue ty q n pcbs) (fun '(n', _) => net_same n n').
Proof.
  revert n pcbs. induction q as [|pd q IH]; intros n pcbs; cbn [process_queue]; [cbn [ensures]; reflexivity|].
  apply ensures_bind, ensures_Ret. intros data _.
  eapply ensures_bind2; [by apply (protocol_input_same n)|]. intros [n1 pcbs1] S1.
  eapply ensures_mono; [apply IH|]. intros [n2 pcbs2] S2. by etrans.
Qed.

Lemma process_queue_app ty q1 q2 n pcbs :
  process_queue ty (q1 ++ q2) n pcbs = '(n, pcbs) ← process_queue ty q1 n pcbs; process_queue ty q2 n pcbs.
Proof.
  revert n pcbs. induction q1 as [|pd q1 IH]; intros n pcbs; cbn [app process_queue]; [done|].
  destruct (pd_data pd); [|done]. cbn [unwrap]. rewrite !bind_ret.
  destruct (protocol_input _ _ _ _ _) as [[n1 pcbs1]| | | |]; try done. by rewrite !bind_ret.
Qed.

(** So a queue with such a packet is never worked off. *)
Lemma process_foreign qa q1 data q2 n pcbs iface : get_interface (net_dev n) IP = Some iface ->
  ip_dst (ip_header_at data) <> unicast iface ->
  process_received qa (q1 ++ mkProtocolData IRQ_ETHERNET (Some data) (zlen data) :: q2) n pcbs =
    (_ ← process_received qa q1 n pcbs; Panic).
Proof.
  intros Hi Hne. unfold process_received. pose proof (process_queue_same ProtoArp qa n pcbs) as S1.
  destruct (process_queue ProtoArp qa n pcbs) as [[n1 pcbs1]| | | |]; [|done..]. rewrite !bind_ret, process_queue_app.
  pose proof (process_queue_same ProtoIP q1 n1 pcbs1) as S2. cbn [ensures] in S1.
  destruct (process_queue ProtoIP q1 n1 pcbs1) as [[n2 pcbs2]| | | |]; [|done..]. rewrite !bind_ret.
  cbn [process_queue pd_data pd_len unwrap]. rewrite bind_ret, (foreign_input_panics _ _ _ iface); [done| |done].
  rewrite (get_interface_same n) by (by etrans). done.
Qed.
End bounds_lemmas.

(** ** Properties *)

Section stack_properties.
Context `{Platform} `{BuildProfile}.

(** C9: UDP end to end.  A datagram sent by one station to the neighbour whose
    hardware address it knows leaves in one frame.  At that neighbour the
    interrupt for the frame queues it and raises SIGUSR1, and handling the
    signal hands exactly the data, with the sender's endpoint, to the receiver
    waiting on the bound socket, when there are at least 18 bytes of data.  With
    fewer the frame is padded, the padding counts as data, and the receiving
    process panics. *)
Theorem udp_end_to_end n f route src dst data a lo d rx tx iface i pcb c ch :
  endpoint_wf src -> endpoint_wf dst -> bytes_ok data ->
  eth_ready (net_dev n) f -> needs_arp (net_dev n) = true ->
  ip_sendable n route (address src) (address dst) (udp_segment src dst data) ->
  address src = unicast (route_interface route) -> is_broadcast route (address dst) = false ->
  arp_fresh n (hop_of route (address dst)) (dev_mac d) ->
  let frame := eth_frame (dev_mac d) (dev_mac (net_dev n)) ProtoIP
    (ip_datagram Udp (address src) (address dst) (next_id n) (udp_segment src dst data)) in
  app_view a lo d [] [] -> eth_ready d (mkTapFile (Some frame :: rx) tx) ->
  get_interface d IP = Some iface -> unicast iface = address dst ->
  udp_get_by_host (udp_pcbs (app_pcbs a)) (address dst) (port dst) = Some (i, pcb) ->
  udp_sender pcb = Some c -> env_chans (app_env a) !! c = Some ch -> ch_rx_alive ch = true ->
  ch_queue ch = [] -> data_entries pcb = [] ->
  returns (udp_output src dst data n) (fun n' =>
    exists k, driver_data (net_dev n') = Some (mkDriverData (tap_write frame f) k))
  /\ returns (handle_irq IRQ_ETHERNET a) (fun a1 => app_env a1 = raise SIGUSR1 (app_env a)
       /\ (18 <= zlen data -> returns (handle_protocol a1) (fun a2 =>
            returns (udp_receive_finish c i (udp_pcbs (app_pcbs a2)) (app_env a2))
              (fun '(r, _, _) => r = Some (mkUdpDataEntry src (zlen data) data))))
       /\ (zlen data < 18 -> handle_protocol a1 = Panic)).
Proof.
  intros Hs Hd Hb R Hna Hsend Hsrc Hbc Harp frame Ha Rd Hif Hu Hg Hc Hch Hal Hq He.
  pose proof (zlen_nonneg data). pose proof (is_len _ _ _ _ _ Hsend) as Hlen. pose proof (is_id _ _ _ _ _ Hsend).
  rewrite udp_segment_len in Hlen. unfold ETH_PAYLOAD_MAX, ETH_FRAME_MAX, ETH_HDR_SIZE in Hlen.
  assert (zlen data <= UDP_DATA_MAX) as Hmax
    by (unfold UDP_DATA_MAX, IP_PAYLOAD_MAX_SIZE, IP_MAX_SIZE, IP_HEADER_MIN_SIZE, u16_max; lia).
  split.
  - rewrite udp_output_segment by done.
    rewrite (ip_output_resolved _ f route _ _ _ _ (dev_mac d)) by (try done; apply dev_mac_wf, (er_wf _ _ Rd)).
    cbn. destruct (er_file _ _ R) as [k Hk]. exists k. unfold sent, with_file. rewrite Hk.
    unfold frame. by rewrite Hsrc.
  - eapply returns_mono.
    { apply (datagram_arrives a lo d rx tx (dev_mac (net_dev n)) Udp (address src) (address dst) (next_id n)
        (udp_segment src dst data) iface); try done.
      - apply dev_mac_wf, (er_wf _ _ R).
      - apply Hs.
      - apply Hd.
      - unfold in_u16, next_id. lia.
      - apply (is_len _ _ _ _ _ Hsend). }
    intros a1 (He1 & Hret & Hpan). split; [done|]. rewrite udp_segment_len in Hret, Hpan.
    set (pad := replicate _ 0) in Hret, Hpan.
    assert (zlen pad = Z.max 0 (18 - zlen data)) as Lpad by (unfold pad; rewrite zlen_replicate; lia).
    split; intros Hdata.
    + assert (pad = []) as Hpad by (apply length_zero_iff_nil; unfold zlen in *; lia).
      clearbody pad. subst pad. rewrite app_nil_r in Hret. change (zlen []) with 0 in Hret. rewrite Z.add_0_r in Hret.
      pose proof (udp_input_delivers src dst data (udp_pcbs (app_pcbs a)) i pcb c ch (raise SIGUSR1 (app_env a))
        Hs Hd Hb Hmax Hg Hc Hch Hal Hq He) as D.
      apply returns_Ret in D as ([[r pcbs'] e'] & Ein & -> & _ & Hfin).
      eapply returns_mono; [apply Hret; unfold transport_input; cbn [net_env]; rewrite Ein; reflexivity|].
      intros a2 (_ & _ & He2 & Hp2). rewrite He2, Hp2. cbn. eapply returns_mono; [exact Hfin|].
      by intros [[r ?] ?] [-> _].
    + apply Hpan. right. unfold transport_input. rewrite udp_input_padded; [done|done|done|done|done|lia|lia].
Qed.

(** C13: the signal handler.  [handle_protocol] is the processing of the packets
    queued at that moment, the ARP packets before the IP packets and each queue
    in order, on the Ethernet device and the shared contexts and control blocks;
    it ends as that processing ends, and when it returns both queues are empty
    and the loopback device is as before. *)
Theorem handle_protocol_drains a lo d qa qi : app_view a lo d qa qi -> from_ethernet qa -> from_ethernet qi ->
  match process_received qa qi (app_net a d) (app_pcbs a) with
  | Ret (n, pcbs) => exists a', handle_protocol a = Ret a' /\ app_view a' lo (net_dev n) [] []
      /\ app_contexts a' = net_ctx n /\ app_env a' = net_env n /\ app_pcbs a' = pcbs
  | Panic => handle_protocol a = Panic
  | UB => handle_protocol a = UB
  | Blocks => handle_protocol a = Blocks
  | NoFuel => handle_protocol a = NoFuel
  end.
Proof.
  intros Ha Hqa Hqi. pose proof (handle_protocol_view a lo d qa qi Ha Hqa Hqi) as V.
  destruct (process_received _ _ _ _) as [[n pcbs]| | | |]; destruct (handle_protocol a) as [a'| | | |]; try done.
  exists a'. by split.
Qed.

(** C18: a packet for somebody else.  An IP packet whose destination field is
    not the unicast address of the interface (a broadcast, or a host the frame was
    meant to be routed to), whatever built it and wherever it waits in the queue,
    is an error that the handler unwraps: once the packets before it are
    processed the process panics, so the handler never returns. *)
Theorem foreign_datagram_panics a lo d qa q1 data q2 iface :
  app_view a lo d qa (q1 ++ mkProtocolData IRQ_ETHERNET (Some data) (zlen data) :: q2) ->
  from_ethernet qa -> from_ethernet q1 -> from_ethernet q2 ->
  get_interface d IP = Some iface -> ip_dst (ip_header_at data) <> unicast iface ->
  match process_received qa q1 (app_net a d) (app_pcbs a) with
  | Ret _ | Panic => handle_protocol a = Panic
  | UB => handle_protocol a = UB
  | Blocks => handle_protocol a = Blocks
  | NoFuel => handle_protocol a = NoFuel
  end.
Proof.
  intros Ha Hqa H1 H2 Hi Hne.
  pose proof (handle_protocol_view a lo d qa _ Ha Hqa ltac:(apply Forall_app_2; [done|by constructor])) as V.
  rewrite (process_foreign _ _ _ _ _ _ iface) in V by done.
  destruct (process_received qa q1 _ _) as [r| | | |]; cbn [mbind] in V; by destruct (handle_protocol a).
Qed.

(** The kernel calls of start-up, in order. *)
Definition start_up_calls : list TapCall :=
  [OpenTun "/dev/net/tun"; IfreqFromName "tap0"; TunSetIff 0x1002; SetOwn; SetAsync; SetSig 37; InetSocket;
   IfreqFromName "tap0"; GetHwAddr; IfreqGetName].

(** C40: start-up.  [NetApp::new] succeeds exactly when the kernel grants the
    calls that open the TAP device, among them the signal of the interrupt
    handler, and panics otherwise.  Then there are an open loopback device and an
    open Ethernet device with the hardware address of the TAP interface, ARP and
    IP with empty queues, free control blocks; 127.0.0.x goes to the loopback
    interface and every other address, on the local network or not, to the
    gateway 192.0.2.1. *)
Theorem netapp_new_spec e :
  if negb (forallb tap_call start_up_calls) then NetApp_new e = Panic else
  returns (NetApp_new e) (fun a => exists lo d i_lo i_eth gw,
    app_view a lo d [] [] /\ is_open lo = true /\ eth_ready d (mkTapFile [] [])
    /\ take 6 (dev_address d) = take 6 tap_hw_addr
    /\ get_interface lo IP = Some i_lo /\ get_interface d IP = Some i_eth
    /\ ip_addr_to_bytes ETH_TAP_IP = Ret (Some (unicast i_eth)) /\ ip_addr_to_bytes DEFAULT_GATEWAY = Ret (Some gw)
    /\ (forall dst, lookup_ip_route (ip_routes (app_contexts a)) dst =
         Some (if Z.land dst 0x00ffffff =? 0x0000007f then interface_route i_lo else mkIPRoute 0 0 gw i_eth))
    /\ app_pcbs a = ControlBlocks_new /\ app_env a = e).
Proof.
  unfold NetApp_new. cbn -[ip_addr_to_bytes]. unfold IPInterface_new, gateway_route.
  assert (ip_addr_to_bytes LOOPBACK_IP = Ret (Some 0x0100007f)) as -> by by vm_compute.
  assert (ip_addr_to_bytes LOOPBACK_NETMASK = Ret (Some 0x00ffffff)) as -> by by vm_compute.
  assert (ip_addr_to_bytes ETH_TAP_IP = Ret (Some 0x020200c0)) as Heth by by vm_compute.
  assert (ip_addr_to_bytes ETH_TAP_NETMASK = Ret (Some 0x00ffffff)) as -> by by vm_compute.
  assert (ip_addr_to_bytes DEFAULT_GATEWAY = Ret (Some 0x010200c0)) as Hgw by by vm_compute.
  rewrite Heth, Hgw. cbn -[ip_addr_to_bytes]. unfold tap_open, tap_set_address, tap_must. cbn.
  repeat (destruct (tap_call _); [cbn|reflexivity]).
  do 5 eexists. split; [split; reflexivity|]. split_and!; try reflexivity.
  - split; [|done|done|done|by eexists]. split; [|split; [|split]].
    + split; [apply tap_hw_addr_len|apply tap_hw_addr_bytes].
    + split; [done|]. cbn. bytes_tac.
    + constructor; [|constructor]. by split_and!.
    + done.
  - intros x. unfold lookup_ip_route. cbn. unfold lookup_step, route_matches. cbn.
    change (Z.land 16777343 16777215) with 127. destruct (Z.land x 16777215 =? 127); cbn;
    rewrite Z.land_0_r; reflexivity.
Qed.

(** C34: bounds of the receive path.  Processing a received packet reads outside
    the packet exactly when an ARP packet has fewer than 28 bytes, or when an IP
    packet with a valid header and our address carries fewer bytes than the
    header of its transport: the transports cast the bytes before they compare
    lengths. *)
Theorem receive_bounds ty data n pcbs : zlen data <= 65535 ->
  protocol_input ty data (zlen data) n pcbs = UB <->
  match ty with
  | ProtoArp => zlen data < 28
  | ProtoIP => exists iface, let h := ip_header_at data in
      20 <= zlen data /\ check_ip_header h (zlen data) (ip_header_len h) = Ret (Ok tt)
      /\ get_interface (net_dev n) IP = Some iface /\ unicast iface = ip_dst h
      /\ zlen data - ip_header_len h < transport_min (ip_protocol_from_u8 (ip_proto h))
  | ProtoUnknown => False
  end.
Proof.
  intros Hmax. destruct ty; cbn [protocol_input]; [| |done].
  - rewrite <-(arp_input_UB data (zlen data) n). by destruct (arp_input _ _ _) as [[[[]|] ?]| | | |].
  - rewrite <-(ip_input_UB data n pcbs Hmax). by destruct (ip_input _ _ _ _) as [[[[[]|] ?] ?]| | | |].
Qed.
End stack_properties.

(** ** Concrete stations, for evaluation

    The application of the station 192.0.2.2, with frames waiting at its TAP
    device and packets in its queues, one socket bound to port 7. *)
Definition demo_receiver (rx : list (option (list Z))) (qa qi : list ProtocolData) : NetApp :=
  mkNetApp (mkNetDevices (from_list [loopback_init 0; demo_device 2 0x020200c0 (mkTapFile rx [])]))
    (mkNetProtocols (from_list [mkNetProtocol ProtoArp qa; mkNetProtocol ProtoIP qi]))
    (demo_ctx 0x020200c0) (mkControlBlocks demo_udp_pcbs TcpPcbs_new) demo_udp_env.

Lemma demo_receiver_view rx qa qi :
  app_view (demo_receiver rx qa qi) (loopback_init 0) (demo_device 2 0x020200c0 (mkTapFile rx [])) qa qi.
Proof. by split. Qed.

Lemma udp_end_to_end_witness :
  let data := replicate 18 7 in
  let dst := local_endpoint demo_udp_pcb in
  let frame := eth_frame [2; 0; 0; 0; 0; 2] [2; 0; 0; 0; 0; 1] ProtoIP
    (ip_datagram Udp (address demo_udp_src) (address dst) (next_id demo_net_arp) (udp_segment demo_udp_src dst data)) in
  returns (@handle_irq demo_platform IRQ_ETHERNET (demo_receiver [Some frame] [] [])) (fun a1 =>
    returns (@handle_protocol demo_platform debug_build a1) (fun a2 =>
      returns (udp_receive_finish 0 0 (udp_pcbs (app_pcbs a2)) (app_env a2))
        (fun '(r, _, _) => r = Some (mkUdpDataEntry demo_udp_src 18 data)))).
Proof.
  intros data dst frame. eapply returns_mono.
  - refine (proj2 (@udp_end_to_end demo_platform debug_build demo_net_arp (mkTapFile [] []) demo_route demo_udp_src dst
      data (demo_receiver [Some frame] [] []) (loopback_init 0) (demo_device 2 0x020200c0 (mkTapFile [Some frame] []))
      [] [] (demo_iface 0x020200c0) 0 demo_udp_pcb 0 (mkChan [] true true)
      _ _ _ _ _ _ _ _ _ _ _ _ _ _ _ _ _ _ _)).
    + by split.
    + by split.
    + bytes_tac.
    + by apply demo_device_ready.
    + done.
    + by apply demo_sendable.
    + done.
    + done.
    + apply demo_arp_fresh.
    + apply demo_receiver_view.
    + by apply demo_device_ready.
    + done.
    + done.
    + by vm_compute.
    + done.
    + done.
    + done.
    + done.
    + done.
  - intros a1 (_ & Hdel & _). by apply Hdel.
Defined.

Definition demo_packet (dst : IPAdress) : list Z := ip_datagram Udp 0x010200c0 dst 129 [7; 7] ++ replicate 24 0.

Lemma handle_protocol_drains_witness :
  let pd := mkProtocolData IRQ_ETHERNET (Some (ArpMessage_bytes
    (arp_msg ARP_OP_REQUEST [2; 0; 0; 0; 0; 1] 0x010200c0 (replicate 6 0) 0x020200c0))) 28 in
  exists a', @handle_protocol demo_platform debug_build (demo_receiver [] [pd] []) = Ret a'.
Proof.
  intros pd. pose proof (@handle_protocol_drains demo_platform debug_build (demo_receiver [] [pd] []) (loopback_init 0)
    (demo_device 2 0x020200c0 (mkTapFile [] [])) [pd] [] (demo_receiver_view [] [pd] [])
    ltac:(by repeat constructor) ltac:(constructor)) as T.
  destruct (process_received _ _ _ _) as [[n pcbs]| | | |] eqn:E; [|by vm_compute in E..].
  destruct T as (a' & Ha & _). by exists a'.
Defined.

Lemma foreign_datagram_panics_witness :
  let packet := demo_packet 0xff0200c0 in
  let arp := mkProtocolData IRQ_ETHERNET (Some (ArpMessage_bytes
    (arp_msg ARP_OP_REQUEST [2; 0; 0; 0; 0; 1] 0x010200c0 (replicate 6 0) 0x020200c0))) 28 in
  @handle_protocol demo_platform debug_build
    (demo_receiver [] [arp] [mkProtocolData IRQ_ETHERNET (Some packet) (zlen packet)]) = Panic.
Proof.
  intros packet arp. pose proof (@foreign_datagram_panics demo_platform debug_build
    (demo_receiver [] [arp] [mkProtocolData IRQ_ETHERNET (Some packet) (zlen packet)]) (loopback_init 0)
    (demo_device 2 0x020200c0 (mkTapFile [] [])) [arp] [] packet [] (demo_iface 0x020200c0)
    (demo_receiver_view [] [arp] _) ltac:(by repeat constructor) ltac:(constructor) ltac:(constructor)) as T.
  destruct (process_received [arp] [] _ _) as [r| | | |] eqn:E in T; [|by vm_compute in E..].
  apply T; [reflexivity|]. vm_compute. discriminate.
Defined.

Lemma receive_bounds_witness :
  @protocol_input demo_platform debug_build ProtoArp (replicate 27 0) 27 (demo_net 1 0x010200c0) ControlBlocks_new = UB.
Proof. by apply (@receive_bounds demo_platform debug_build ProtoArp (replicate 27 0)). Defined.
