(* ===== verification/StackTcp.v ===== *)
(** * TCP through the whole stack

    A segment from the output routine of one station to the user of another who
    waits in [receive], across the frame, the interrupt, the queues and the
    dispatch; and what the padding of short frames does to it. *)
From S2P Require Import Prelude Platform LinkedList Bytes Checksum IpTypes Devices Arp Ip IpService Transport Icmp Udp TcpTypes TcpOutput TcpInput TcpUser TcpInv TcpConn TcpProps Stack StackFrame StackProps.

(** The TCP part of the application, on its Ethernet device [d]. *)
Definition app_sys (a : NetApp) (d : NetDevice) : TcpSys := mkTcpSys (tcp_blocks (app_pcbs a)) (app_net a d).

Section tcp_stack_lemmas.
Context `{Platform} `{BuildProfile}.
Implicit Types (a : NetApp) (d lo : NetDevice) (src dst : IPEndpoint) (s : TcpSys) (p : TcpPcb).

(** The pseudo header counts the bytes of the message. *)
Lemma pseudo_init_len src dst k len : 0 <= k -> 20 <= len -> len + k < 65536 ->
  exists j, tcp_init src dst (len - 20) + k = tcp_init src dst (len + k - 20) + 65535 * j.
Proof.
  intros Hk Hl Hlk. unfold tcp_init. replace (20 + (len - 20)) with len by lia.
  replace (20 + (len + k - 20)) with (len + k) by lia. rewrite !as_u16_id by (unfold in_u16; lia).
  assert (forall l, in_u16 l -> word_sum (PseudoHeader_bytes (pseudo_header Tcp (address src) (address dst) (le_to_be_u16 l)))
    = word_sum (le_bytes 4 (address src) ++ le_bytes 4 (address dst) ++ [0; 6]) + l) as S.
  { intros l Hl'. unfold PseudoHeader_bytes, pseudo_header. cbn [ph_src ph_dst zero ph_protocol ph_len ip_protocol_as_u8].
    rewrite le_to_be_u16_bytes by done. rewrite !app_assoc, word_sum_app by done. rewrite <-!app_assoc.
    change (le_bytes 1 0 ++ le_bytes 1 6) with [0; 6]. f_equal. unfold word_sum. cbn [be_words foldr].
    pose proof (Z.div_mod l 256). lia. }
  unfold pseudo_init.
  assert (forall l, in_u16 l -> 0 <= word_sum (PseudoHeader_bytes (pseudo_header Tcp (address src) (address dst) (le_to_be_u16 l)))) as P
    by (intros l _; apply word_sum_range, PseudoHeader_bytes_ok).
  destruct (ones_norm_mod _ (P len ltac:(unfold in_u16; lia))) as [j1 E1].
  destruct (ones_norm_mod _ (P (len + k) ltac:(unfold in_u16; lia))) as [j2 E2].
  rewrite !S in * by (unfold in_u16; lia). exists (j2 - j1). lia.
Qed.

(** A segment with zeros behind it, as long as the frame allows: the pseudo
    header now counts the zeros and the checksum fails. *)
Lemma tcp_input_padded seq ack fl w data src dst k iface s :
  in_u32 seq -> in_u32 ack -> in_u8 fl -> in_u16 w -> bytes_ok data -> endpoint_wf src -> endpoint_wf dst ->
  (0 < k)%nat -> 20 + zlen data + Z.of_nat k <= ETH_PAYLOAD_MAX ->
  tcp_input (tcp_segment seq ack fl w data src dst ++ replicate k 0) (20 + zlen data + Z.of_nat k)
    (address src) (address dst) iface s = Ret (Err, s).
Proof.
  intros Hs Ha Hf Hw Hd [_ Hsp] [_ Hdp] Hk Hl. pose proof (zlen_nonneg data).
  unfold ETH_PAYLOAD_MAX, ETH_FRAME_MAX, ETH_HDR_SIZE in Hl.
  pose proof (tcp_header_of_wf seq ack fl w data src dst Hsp Hdp Hs Ha Hf Hw Hd) as W.
  pose proof (tcp_segment_len seq ack fl w data src dst) as L.
  pose proof (tcp_segment_bytes_ok seq ack fl w data src dst Hd) as B.
  pose proof (tcp_segment_sum seq ack fl w data src dst Hd ltac:(unfold TCP_DATA_MAX, CKSUM_MAX_LEN; lia)) as S.
  assert (in_u16 (tcp_init src dst (zlen data))) as Hi by apply pseudo_init_range.
  rewrite <-L, cksum16_norm_all in S by (done || (rewrite L; unfold CKSUM_MAX_LEN; lia)). injection S as S.
  unfold tcp_input. cbv zeta. set (m := tcp_segment seq ack fl w data src dst ++ replicate k 0).
  assert (zlen m = 20 + zlen data + Z.of_nat k) as Lm by (unfold m; rewrite zlen_app, zlen_replicate, L; lia).
  assert (bytes_to_struct TcpHeader m = Ret (tcp_header_of seq ack fl w data src dst)) as ->.
  { unfold m. rewrite tcp_segment_eq, <-app_assoc by done. by rewrite (bytes_to_struct_app (T := TcpHeader)). }
  rewrite bind_ret. change (size_of TcpHeader) with 20. rewrite (proj2 (Z.ltb_ge _ _)) by lia.
  rewrite pseudo_cksum, bind_ret, not_u16_involutive.
  destruct (pseudo_init_len src dst (Z.of_nat k) (20 + zlen data)) as [j J]; [lia..|].
  replace (20 + zlen data - 20) with (zlen data) in J by lia.
  unfold tcp_init at 2 in J. replace (20 + (20 + zlen data + Z.of_nat k - 20)) with (20 + zlen data + Z.of_nat k) in J by lia.
  set (init' := pseudo_init _) in *. assert (in_u16 init') as Hi' by apply pseudo_init_range.
  rewrite <-Lm, cksum16_norm_all; [|apply Forall_app_2; [done|]|rewrite Lm; unfold CKSUM_MAX_LEN; lia|done].
  2: { apply Forall_replicate. done. }
  rewrite bind_ret. unfold m at 1. rewrite word_sum_pad.
  set (W0 := word_sum (tcp_segment seq ack fl w data src dst)) in *.
  assert (0 <= W0) by (apply word_sum_range; done). unfold in_u16 in Hi, Hi'.
  destruct (ones_norm_mod (tcp_init src dst (zlen data) + W0)) as [k1 E1]; [lia|].
  destruct (ones_norm_mod (init' + W0)) as [k2 E2]; [lia|].
  rewrite (proj2 (Z.eqb_neq _ 0)); [done|]. intros S'. lia.
Qed.
End tcp_stack_lemmas.

Section tcp_stack_delivery.
Context `{Platform} `{BuildProfile}.
Implicit Types (a : NetApp) (d lo : NetDevice) (src dst : IPEndpoint) (s : TcpSys) (p : TcpPcb).

Lemma notify_queue c e ch : env_chans e !! c = Some ch -> ch_rx_alive ch = true -> ch_queue ch = [] ->
  env_chans (notify (Some c) true e) !! c = Some (ch <|ch_queue := [true]|>).
Proof.
  intros Hc Hal Hq. unfold notify, chan_send. rewrite Hc, Hal, Hq. cbn.
  by rewrite list_lookup_insert_eq by by eapply lookup_lt_Some.
Qed.

(** A user waiting in [receive] on an empty buffer who is told that data came:
    the next two rounds hand it over. *)
Lemma receive_woken c i size s p ch :
  tcp_pcbs s !! i = Some p -> tcp_state p = Established -> tcp_buf p <> [] -> 0 <= size ->
  0 <= rcv_window (recv_context p) -> rcv_window (recv_context p) + zlen (tcp_buf p) = PCB_BUF_LEN ->
  env_chans (sys_env s) !! c = Some ch -> ch_queue ch = [true] ->
  returns (tcp_receive_round c i size (mkRecvView Established PCB_BUF_LEN None) s) (fun '(r, s1) =>
    exists v, r = Again v /\ returns (tcp_receive_round c i size v s1) (fun '(r, s2) =>
      r = Done (Some (take (Z.to_nat size) (tcp_buf p))))).
Proof.
  intros Hi Hst Hb Hs Hw Hwb Hc Hq. unfold tcp_receive_round at 1. cbn [rv_state rv_window].
  rewrite Z.leb_refl. unfold chan_recv. rewrite Hc, Hq, bind_ret. cbn [unwrap_result]. rewrite bind_ret. cbn [negb].
  cbv zeta. unfold pcb_at. cbn [tcp_pcbs with_env set_field set_tcp_net]. rewrite Hi. cbn [unwrap]. rewrite bind_ret.
  pose proof (zlen_nonneg (tcp_buf p)). unfold PCB_BUF_LEN in *. rewrite sub_usize_ok, bind_ret by (unfold in_usize; lia).
  cbn [returns]. eexists. split; [reflexivity|]. rewrite Hst. unfold tcp_receive_round. cbn [rv_state rv_window rv_remain].
  assert (0 < zlen (tcp_buf p)) by (destruct (tcp_buf p); [done|]; rewrite zlen_cons in *; pose proof (zlen_nonneg l); lia).
  unfold PCB_BUF_LEN. rewrite (proj2 (Z.leb_gt 65535 _)) by lia.
  rewrite (receive_take_eq i size _ _ p); try done; [|by intros r [= <-]; lia].
  rewrite bind_ret. cbn [returns from_option]. unfold id. do 2 f_equal.
  destruct (Z.le_ge_cases size (zlen (tcp_buf p))).
  - f_equal. lia.
  - rewrite !take_ge; [done|unfold zlen in *; lia|unfold zlen in *; lia].
Qed.
(** The acknowledgment of [data] and the frame it leaves in. *)
Definition answer_segment src dst (nxt seq : Z) (data : list Z) : list Z :=
  tcp_segment nxt (seq + zlen data) FL_ACK (PCB_BUF_LEN - zlen data) [] dst src.
Definition answer_frame a d src dst (nxt seq : Z) (data mac' : list Z) : list Z :=
  eth_frame mac' (dev_mac d) ProtoIP
    (ip_datagram Tcp (address dst) (address src) (next_id (app_net a d)) (answer_segment src dst nxt seq data)).

(** The receiving end: entry [i] is the connection, with an empty buffer and
    [seq] expected next, its user waits on channel [c], and the network is up for
    one answer through [route'] to the hardware address [mac']. *)
Record receiver_waits a d src dst (seq ack : Z) (i : nat) p (c : nat) (ch : Chan) (una nxt : Z) (route' : IPRoute)
    (mac' : list Z) : Prop := {
  rw_up : eth_up (address dst) (address src) route' mac' 1 (app_net a d);
  rw_select : select (tcp_blocks (app_pcbs a)) dst (Some src) = Some (i, p);
  rw_conn : conn_is p Established dst src una nxt seq PCB_BUF_LEN;
  rw_empty : tcp_buf p = [];
  rw_ack : una <= ack <= nxt;
  rw_una : 0 <= una;
  rw_nxt : nxt < 4294967296;
  rw_seq : seq + PCB_BUF_LEN < 4294967296;
  rw_sender : tcp_sender p = Some c;
  rw_chan : env_chans (app_env a) !! c = Some ch;
  rw_alive : ch_rx_alive ch = true;
  rw_quiet : ch_queue ch = []
}.

(** The device after one frame. *)
Lemma sent_driver d f frame : eth_ready d f -> exists k, driver_data (sent d f frame) = Some (mkDriverData (tap_write frame f) k).
Proof. intros R. destruct (er_file _ _ R) as [k Hk]. exists k. unfold sent, with_file. by rewrite Hk. Qed.

(** The frame in which the receiver answers. *)
Lemma answer_sent a d f f' src dst iface nxt seq data mac' route' k : eth_ready d f ->
  unicast_pair src dst iface = true -> eth_up (address dst) (address src) route' mac' k (app_net a d) ->
  let n := mkNet (with_file d f') (app_contexts a) (raise SIGUSR1 (app_env a)) in
  exists i, driver_data (net_dev (ip_sent n f' Tcp (unicast (route_interface route')) (address src) mac'
      (answer_segment src dst nxt seq data))) =
    Some (mkDriverData (tap_write (answer_frame a d src dst nxt seq data mac') f') i).
Proof.
  intros R Hu Hup n. cbn [ip_sent net_dev n]. unfold answer_frame.
  assert (address dst = unicast (route_interface route')) as <-.
  { destruct (eu_src _ _ _ _ _ _ Hup) as [E|E]; [|done]. unfold unicast_pair in Hu. rewrite E in Hu.
    change (IP_ADDR_ANY =? IP_ADDR_ANY) with true in Hu. by rewrite !orb_true_r in Hu. }
  assert (dev_mac (with_file d f') = dev_mac d) as -> by by rewrite with_file_mac.
  apply sent_driver. by apply (with_file_ready d f).
Qed.

(** The segment at its connection, and the user it wakes. *)
Lemma tcp_data_delivered a a1 lo d f f' src dst seq ack w data iface i p c ch una nxt size route' mac' :
  endpoint_wf src -> endpoint_wf dst -> unicast_pair src dst iface = true -> bytes_ok data -> data <> [] ->
  zlen data <= 65535 -> in_u32 seq -> in_u32 ack -> in_u16 w -> eth_ready d f ->
  receiver_waits a d src dst seq ack i p c ch una nxt route' mac' -> 0 <= size ->
  (forall n' pcbs', transport_input Tcp (tcp_segment seq ack FL_PSH_ACK w data src dst) (20 + zlen data) (address src)
      (address dst) iface (mkNet (with_file d f') (app_contexts a) (raise SIGUSR1 (app_env a))) (app_pcbs a) =
      Ret (Ok tt, n', pcbs') ->
    returns (handle_protocol a1) (fun a2 => app_after lo a2 (n', pcbs'))) ->
  returns (handle_protocol a1) (fun a2 => exists d2, app_view a2 lo d2 [] []
    /\ (exists k, driver_data d2 = Some (mkDriverData (tap_write (answer_frame a d src dst nxt seq data mac') f') k))
    /\ returns (tcp_receive_round c i size (mkRecvView Established PCB_BUF_LEN None) (app_sys a2 d2))
         (fun '(r, s1) => exists v, r = Again v /\ returns (tcp_receive_round c i size v s1)
            (fun '(r, _) => r = Done (Some (take (Z.to_nat size) data))))).
Proof.
  intros Hs Hd Hu Hb Hne Hmax Hsq Hak Hw R [Hup Hsel Hc Hbuf Hack _ _ Hb0 Hsn Hch Hal Hq] Hsz Hret.
  assert (0 < zlen data) by (destruct data; [done|]; rewrite zlen_cons; pose proof (zlen_nonneg data); lia).
  set (e := raise SIGUSR1 (app_env a)) in *.
  set (n := mkNet (with_file d f') (app_contexts a) e). set (s := mkTcpSys (tcp_blocks (app_pcbs a)) n).
  unfold app_net in Hup. pose proof (eth_up_file _ _ _ _ _ _ _ _ e _ f' R Hup) as Hup'. fold n in Hup'.
  destruct (eth_up_send_sent Tcp _ _ _ _ 0 n f' (answer_segment src dst nxt seq data) Hup') as (Ht & _ & Hch').
  { by apply (with_file_ready d f). }
  { unfold answer_segment. by rewrite tcp_segment_len. }
  set (n' := ip_sent _ _ _ _ _ _ _) in *. unfold PCB_BUF_LEN in Hb0. unfold in_u32 in Hsq.
  destruct (established_data s i p src dst una nxt seq PCB_BUF_LEN ack w data n') as (p' & E & Hc' & Hb' & Hs');
    try done; try (unfold PCB_BUF_LEN; lia).
  eapply returns_mono.
  - apply Hret. unfold transport_input. rewrite tcp_input_segment; try done.
    2: { unfold TCP_DATA_MAX, CKSUM_MAX_LEN. lia. }
    rewrite Hu. fold n s. rewrite E, !bind_ret. reflexivity.
  - intros a2 (Hv & Hctx & Henv & Hpcbs). cbn [fst snd tcp_net put_pcb set_field set_tcp_net] in *.
    exists (net_dev n'). split; [exact Hv|]. split; [by eapply answer_sent|].
    destruct (select_first _ _ _ _ _ Hsel) as [Hi _].
    rewrite Hbuf in Hb'. cbn [app] in Hb'. rewrite <-Hb'. destruct Hc' as (Hst' & _ & _ & _ & _ & _ & Hw').
    apply (receive_woken c i size (app_sys a2 (net_dev n')) p' (ch <|ch_queue := [true]|>)); try done.
    + unfold app_sys. cbn [tcp_pcbs]. rewrite Hpcbs. cbn. by rewrite list_lookup_insert_eq by by eapply lookup_lt_Some.
    + by rewrite Hb'.
    + rewrite Hw'. unfold PCB_BUF_LEN. lia.
    + rewrite Hw', Hb'. unfold PCB_BUF_LEN. lia.
    + unfold sys_env, app_sys, app_net. cbn [tcp_net net_env]. rewrite Henv, Hsn. cbn [net_env set_field set_net_env].
      apply (notify_queue c _ ch); [|done|done]. by rewrite Hch'.
Qed.
End tcp_stack_delivery.

(** ** Properties *)

Section tcp_stack_properties.
Context `{Platform} `{BuildProfile}.

(** C8: TCP end to end.  A segment sent to a neighbour whose hardware address is
    known leaves in one frame.  At that neighbour the interrupt for the frame
    queues it and raises SIGUSR1.  When the segment carries at least 6 bytes and
    continues an established connection whose user waits in [receive], handling
    the signal writes exactly one frame, the acknowledgment of the data, and the
    user gets the data.  With fewer bytes, whatever the flags (so every SYN, every
    bare acknowledgment and every FIN) and whatever the control blocks, the frame
    is padded, the pseudo header counts the padding, the checksum fails and the
    receiving process panics. *)
Theorem tcp_end_to_end n f route src dst seq ack fl w data a lo d rx tx iface :
  endpoint_wf src -> endpoint_wf dst -> unicast_pair src dst iface = true -> bytes_ok data ->
  in_u32 seq -> in_u32 ack -> in_u8 fl -> in_u16 w ->
  let segment := tcp_segment seq ack fl w data src dst in
  (* the sender *)
  eth_ready (net_dev n) f -> needs_arp (net_dev n) = true -> ip_sendable n route (address src) (address dst) segment ->
  address src = unicast (route_interface route) -> is_broadcast route (address dst) = false ->
  arp_fresh n (hop_of route (address dst)) (dev_mac d) ->
  let frame := eth_frame (dev_mac d) (dev_mac (net_dev n)) ProtoIP
    (ip_datagram Tcp (address src) (address dst) (next_id n) segment) in
  (* the receiver *)
  app_view a lo d [] [] -> eth_ready d (mkTapFile (Some frame :: rx) tx) ->
  get_interface d IP = Some iface -> unicast iface = address dst ->
  returns (output_segment seq ack fl w data src dst n) (fun '(len, n') => len = zlen data
    /\ exists k, driver_data (net_dev n') = Some (mkDriverData (tap_write frame f) k))
  /\ returns (handle_irq IRQ_ETHERNET a) (fun a1 => app_env a1 = raise SIGUSR1 (app_env a)
       /\ (forall i p c ch una nxt size route' mac', fl = FL_PSH_ACK -> 6 <= zlen data ->
            receiver_waits a d src dst seq ack i p c ch una nxt route' mac' -> 0 <= size ->
            returns (handle_protocol a1) (fun a2 => exists d2, app_view a2 lo d2 [] []
              /\ (exists k, driver_data d2 = Some (mkDriverData
                    (tap_write (answer_frame a d src dst nxt seq data mac') (mkTapFile rx tx)) k))
              /\ returns (tcp_receive_round c i size (mkRecvView Established PCB_BUF_LEN None) (app_sys a2 d2))
                   (fun '(r, s1) => exists v, r = Again v /\ returns (tcp_receive_round c i size v s1)
                      (fun '(r, _) => r = Done (Some (take (Z.to_nat size) data))))))
       /\ (zlen data < 6 -> handle_protocol a1 = Panic)).
Proof.
  intros Hs Hd Hu Hb Hsq Hak Hfl Hw segment R Hna Hsend Hsrc Hbc Harp frame Ha Rd Hif Hun.
  pose proof (zlen_nonneg data). pose proof (is_len _ _ _ _ _ Hsend) as Hlen. pose proof (is_id _ _ _ _ _ Hsend).
  unfold segment in Hlen. rewrite tcp_segment_len in Hlen. pose proof Hlen as Hlen'.
  unfold ETH_PAYLOAD_MAX, ETH_FRAME_MAX, ETH_HDR_SIZE in Hlen'.
  assert (zlen data <= TCP_DATA_MAX) as Hmax by (unfold TCP_DATA_MAX, CKSUM_MAX_LEN; lia).
  split.
  - rewrite output_segment_ip by done. fold segment.
    rewrite (ip_output_resolved _ f route _ _ _ _ (dev_mac d)) by (try done; apply dev_mac_wf, (er_wf _ _ Rd)).
    cbn [mbind returns unwrap_result]. split; [done|]. cbn [ip_sent net_dev]. rewrite <-Hsrc. by apply sent_driver.
  - eapply returns_mono.
    { apply (datagram_arrives a lo d rx tx (dev_mac (net_dev n)) Tcp (address src) (address dst) (next_id n)
        segment iface); try done.
      - apply dev_mac_wf, (er_wf _ _ R).
      - apply Hs.
      - apply Hd.
      - unfold in_u16, next_id. lia.
      - apply (is_len _ _ _ _ _ Hsend). }
    intros a1 (He1 & Hret & Hpan). split; [done|]. unfold segment in Hret, Hpan. rewrite tcp_segment_len in Hret, Hpan.
    split; [intros i p c ch una nxt size route' mac' -> Hdata Hrw Hsz|intros Hdata].
    + replace (Z.to_nat (26 - (20 + zlen data))) with 0%nat in Hret by lia. cbn [replicate] in Hret. rewrite app_nil_r in Hret.
      change (zlen []) with 0 in Hret. rewrite Z.add_0_r in Hret.
      apply (tcp_data_delivered a a1 lo d (mkTapFile (Some frame :: rx) tx) (mkTapFile rx tx) src dst seq ack w data iface
        i p c ch una nxt size route' mac'); try done; [by intros ->|lia].
    + apply Hpan. left. unfold transport_input. rewrite zlen_replicate.
      rewrite tcp_input_padded; [by do 2 eexists|done..|lia|].
      unfold ETH_PAYLOAD_MAX, ETH_FRAME_MAX, ETH_HDR_SIZE. lia.
Qed.
End tcp_stack_properties.

(** ** Concrete stations, for evaluation

    The station 192.0.2.2 with one established connection, to 192.0.2.1. *)
Definition demo_server (rx : list (option (list Z))) : NetApp :=
  mkNetApp (mkNetDevices (from_list [loopback_init 0; demo_device 2 (address demo_sv) (mkTapFile rx [])]))
    (mkNetProtocols (from_list [mkNetProtocol ProtoArp []; mkNetProtocol ProtoIP []]))
    (net_ctx demo_net_sv) (mkControlBlocks UdpPcbs_new (demo_table demo_established)) (net_env demo_net_sv).

Definition demo_segment (fl : Z) (data : list Z) : list Z := tcp_segment 700 50 fl 1000 data demo_cl demo_sv.
Definition demo_segment_frame (fl : Z) (data : list Z) : list Z :=
  eth_frame [2; 0; 0; 0; 0; 2] [2; 0; 0; 0; 0; 1] ProtoIP
    (ip_datagram Tcp (address demo_cl) (address demo_sv) (next_id demo_net_arp) (demo_segment fl data)).

Lemma demo_eth_up1 rx : @eth_up demo_still (address demo_sv) (address demo_cl)
  (interface_route (demo_iface (address demo_sv))) [2; 0; 0; 0; 0; 9] 1
  (app_net (demo_server rx) (demo_device 2 (address demo_sv) (mkTapFile rx []))).
Proof.
  split; try done.
  - eexists. by apply demo_device_ready.
  - by right.
  - by split; [|bytes_tac].
  - eexists. split_and!; [reflexivity|done|done].
Qed.

Lemma tcp_end_to_end_witness :
  let data := [71; 69; 84; 32; 47; 10] in
  returns (@handle_irq demo_still IRQ_ETHERNET (demo_server [Some (demo_segment_frame FL_PSH_ACK data)])) (fun a1 =>
    returns (@handle_protocol demo_still debug_build a1) (fun a2 => exists d2,
      written d2 = [answer_frame (demo_server []) (demo_device 2 (address demo_sv) (mkTapFile [] [])) demo_cl demo_sv
        50 700 data [2; 0; 0; 0; 0; 9]]
      /\ returns (@tcp_receive_round debug_build 0 0 2048 (mkRecvView Established PCB_BUF_LEN None) (app_sys a2 d2))
        (fun '(r, s1) => exists v, r = Again v
          /\ returns (@tcp_receive_round debug_build 0 0 2048 v s1) (fun '(r, _) => r = Done (Some data)))))
  /\ returns (@handle_irq demo_still IRQ_ETHERNET (demo_server [Some (demo_segment_frame FL_SYN [])])) (fun a1 =>
       @handle_protocol demo_still debug_build a1 = Panic).
Proof.
  intros data.
  assert (forall fl data', in_u8 fl -> bytes_ok data' -> 20 + zlen data' <= 1480 ->
    returns (@handle_irq demo_still IRQ_ETHERNET (demo_server [Some (demo_segment_frame fl data')])) (fun a1 =>
      (fl = FL_PSH_ACK -> 6 <= zlen data' -> returns (@handle_protocol demo_still debug_build a1) (fun a2 => exists d2,
        written d2 = [answer_frame (demo_server []) (demo_device 2 (address demo_sv) (mkTapFile [] [])) demo_cl demo_sv
          50 700 data' [2; 0; 0; 0; 0; 9]]
        /\ returns (@tcp_receive_round debug_build 0 0 2048 (mkRecvView Established PCB_BUF_LEN None) (app_sys a2 d2))
          (fun '(r, s1) => exists v, r = Again v /\ returns (@tcp_receive_round debug_build 0 0 2048 v s1)
            (fun '(r, _) => r = Done (Some (take 2048 data'))))))
      /\ (zlen data' < 6 -> @handle_protocol demo_still debug_build a1 = Panic))) as T.
  { intros fl data' Hfl Hb Hl.
    eapply returns_mono; [refine (proj2 (@tcp_end_to_end demo_still debug_build demo_net_arp (mkTapFile [] []) demo_route
      demo_cl demo_sv 700 50 fl 1000 data' (demo_server [Some (demo_segment_frame fl data')]) (loopback_init 0)
      (demo_device 2 (address demo_sv) (mkTapFile [Some (demo_segment_frame fl data')] [])) [] []
      (demo_iface (address demo_sv)) _ _ _ Hb _ _ Hfl _ _ _ _ _ _ _ _ _ _ _))|].
    1-6: by split.
    - by apply demo_device_ready.
    - done.
    - apply demo_sendable. by rewrite tcp_segment_len.
    - done.
    - done.
    - eexists. by split_and!.
    - by split.
    - by apply demo_device_ready.
    - done.
    - done.
    - intros a1 (_ & Hdel & Hpan). split; [|exact Hpan]. intros Hf H6. eapply returns_mono.
      + apply (Hdel 0%nat demo_established 0%nat (mkChan [] true true) 50 50 2048
          (interface_route (demo_iface (address demo_sv))) [2; 0; 0; 0; 0; 9] Hf H6); [|done].
        split; [apply demo_eth_up1|done..].
      + intros a2 (d2 & _ & (k & Hk) & E). exists d2. split; [unfold written; by rewrite Hk|exact E]. }
  split.
  - eapply returns_mono; [apply (T FL_PSH_ACK data); [by split|bytes_tac|done]|]. intros a1 [Hdel _]. by apply Hdel.
  - eapply returns_mono; [apply (T FL_SYN []); [by split|constructor|done]|]. intros a1 [_ Hpan]. by apply Hpan.
Defined.
