(* ===== verification/Commands.v ===== *)
(** * app.rs: the commands

    The command line's data, [run], and the threads of the four commands.  A
    thread is a state machine: a step is what it does between two points where
    it gives up its locks or waits; [Blocks] is a step that still waits.  The
    threads share the application with the signal loop and the retransmission
    thread: [app_step]. *)
From Stdlib Require Import Ascii.
From S2P Require Import Prelude Platform LinkedList Bytes Checksum IpTypes Devices Arp Ip Transport Icmp Udp TcpTypes TcpOutput TcpInput TcpUser Stack.

(** ** The command line *)

Inductive EndPointCommand :=
| Send (target_ip : String.string) (target_port : Z) (data : String.string)
| Receive (local_ip local_port : String.string).

Inductive Commands :=
| CommandsTcp (command : option EndPointCommand)
| CommandsUdp (command : option EndPointCommand).

(** The four threads. *)
Inductive Command :=
| TcpSendCommand (target_ip : String.string) (target_port : Z) (data : String.string)
| TcpReceiveCommand
| UdpSendCommand (target_ip : String.string) (target_port : Z) (data : String.string)
| UdpReceiveCommand.

Definition run (args : Commands) : outcome Command :=
  match args with
  | CommandsTcp tcp =>
      command ← unwrap tcp;
      Ret match command with
          | Send target_ip target_port data => TcpSendCommand target_ip target_port data
          | Receive _ _ => TcpReceiveCommand
          end
  | CommandsUdp udp =>
      command ← unwrap udp;
      Ret match command with
          | Send target_ip target_port data => UdpSendCommand target_ip target_port data
          | Receive _ _ => UdpReceiveCommand
          end
  end.

(** ** The text of a request *)

Definition BACKSLASH : ascii := ascii_of_nat 92.
Definition CR : ascii := ascii_of_nat 13.
Definition LF : ascii := ascii_of_nat 10.

(** [s.replace(from, to)] for a [from] of the two characters [x], [y] and a [to]
    of one: the matches from left to right. *)
Fixpoint replace2 (x y to : ascii) (s : String.string) : String.string :=
  match s with
  | EmptyString => EmptyString
  | String a t =>
      match t with
      | String b rest =>
          if Ascii.eqb a x && Ascii.eqb b y then String to (replace2 x y to rest) else String a (replace2 x y to t)
      | EmptyString => s
      end
  end.

Definition as_bytes (s : String.string) : list Z := map (fun c => Z.of_N (N_of_ascii c)) (String.list_ascii_of_string s).

(** [data.replace(..).replace(..).as_bytes().to_vec()] *)
Definition request_bytes (data : String.string) : list Z :=
  as_bytes (replace2 BACKSLASH "n"%char LF (replace2 BACKSLASH "r"%char CR data)).

(** ** The log *)

(** [str::from_utf8]: the well-formed byte sequences of UTF-8. *)
Definition utf8_cont (b : Z) : bool := (0x80 <=? b) && (b <=? 0xbf).

(** The second byte of a sequence of three or four bytes that starts with [a]. *)
Definition utf8_second3 (a b : Z) : bool :=
  if a =? 0xe0 then (0xa0 <=? b) && (b <=? 0xbf)
  else if a =? 0xed then (0x80 <=? b) && (b <=? 0x9f)
  else (0xe1 <=? a) && (a <=? 0xef) && utf8_cont b.
Definition utf8_second4 (a b : Z) : bool :=
  if a =? 0xf0 then (0x90 <=? b) && (b <=? 0xbf)
  else if a =? 0xf4 then (0x80 <=? b) && (b <=? 0x8f)
  else (0xf1 <=? a) && (a <=? 0xf3) && utf8_cont b.

Fixpoint from_utf8 (data : list Z) : bool :=
  match data with
  | [] => true
  | a :: data =>
      if a <? 0x80 then from_utf8 data
      else match data with
           | [] => false
           | b :: data =>
               if (0xc2 <=? a) && (a <=? 0xdf) && utf8_cont b then from_utf8 data
               else match data with
                    | [] => false
                    | c :: data =>
                        if utf8_second3 a b && utf8_cont c then from_utf8 data
                        else match data with
                             | [] => false
                             | d :: data => utf8_second4 a b && utf8_cont c && utf8_cont d && from_utf8 data
                             end
                    end
           end
  end.

(** The line logged for received data: as text, or a warning with the bytes. *)
Inductive LogLine := InfoReceived (text : list Z) | WarnUtf8 (data : list Z).

Definition log_data (data : list Z) : LogLine := if from_utf8 data then InfoReceived data else WarnUtf8 data.

(** ** The threads *)

(** Where a thread is: at the top of its loop, before its request, inside a call
    that waits on the channel [c] for the control block [i], or finished. *)
Inductive point :=
| AtTop
| AtRequest
| AtOpen (c i : nat)
| AtSend (c i : nat) (sent : Z)
| AtReceive (c i : nat) (v : RecvView)
| AtUdpReceive (c i : nat)
| Ended.

Record CmdThread := mkCmdThread {
  sock_opt : option nat;      (* [soc_opt] in the UDP commands *)
  request_sent : bool;
  sent_count : Z;
  at_point : point
}.

#[export] Instance set_sock_opt : Setter sock_opt :=
  fun v t => mkCmdThread v (request_sent t) (sent_count t) (at_point t).
#[export] Instance set_request_sent : Setter request_sent :=
  fun v t => mkCmdThread (sock_opt t) v (sent_count t) (at_point t).
#[export] Instance set_sent_count : Setter sent_count :=
  fun v t => mkCmdThread (sock_opt t) (request_sent t) v (at_point t).
#[export] Instance set_at_point : Setter at_point :=
  fun v t => mkCmdThread (sock_opt t) (request_sent t) (sent_count t) v.

Definition thread_start : CmdThread := mkCmdThread None false 0 AtTop.

Definition LOCAL_SEND_IP : String.string := "192.0.2.2".
Definition LOCAL_ANY_IP : String.string := "0.0.0.0".

Section command_code.
Context `{Platform} `{BuildProfile}.

(** A call of tcp.rs that gets the Ethernet device and the contexts.. *)
Definition on_tcp {A} (f : TcpSys -> outcome (A * TcpSys)) (a : NetApp) : outcome (A * NetApp) :=
  '(r, pcbs, a) ← on_ethernet (fun n => '(r, s) ← f (mkTcpSys (tcp_blocks (app_pcbs a)) n);
                                 Ret (r, tcp_pcbs s, tcp_net s)) a;
  Ret (r, mkNetApp (app_devices a) (app_protocols a) (app_contexts a)
            ((app_pcbs a) <|tcp_blocks := pcbs|>) (app_env a)).

(** ..and one that only gets the control blocks: no device is looked at, so any
    will do for the [Net] it runs in. *)
Definition on_tcp_pcbs {A} (f : TcpSys -> outcome (A * TcpSys)) (a : NetApp) : outcome (A * NetApp) :=
  '(r, s) ← f (mkTcpSys (tcp_blocks (app_pcbs a)) (mkNet (loopback_init 0) (app_contexts a) (app_env a)));
  Ret (r, mkNetApp (app_devices a) (app_protocols a) (app_contexts a)
            ((app_pcbs a) <|tcp_blocks := tcp_pcbs s|>) (net_env (tcp_net s))).

Definition open_with (local : IPEndpoint) (remote_opt : option IPEndpoint) (active : bool) (t : CmdThread) (a : NetApp)
    : outcome (CmdThread * NetApp) :=
  '(c, i, a) ← on_tcp (rfc793_open local remote_opt active) a;
  Ret (t <|at_point := AtOpen c i|>, a).

(** [tcp::receive(sock_opt.unwrap(), 2048, pcbs)], up to its wait. *)
Definition start_receive (t : CmdThread) (a : NetApp) : outcome (CmdThread * NetApp) :=
  sock ← unwrap (sock_opt t);
  '(c, v, a) ← on_tcp_pcbs (tcp_receive sock) a;
  Ret (t <|at_point := AtReceive c sock v|>, a).

(** A wakeup of [rfc793_open] and of [receive], in both TCP commands. *)
Definition open_wake (c i : nat) (t : CmdThread) (a : NetApp) : outcome (CmdThread * NetApp) :=
  '(r, a) ← on_tcp_pcbs (rfc793_open_wake c i) a;
  Ret (match r with Again _ => t | Done sock => t <|sock_opt := sock|> <|at_point := AtRequest|> end, a).

(** With the data given to [log_data]. *)
Definition receive_wake (c i : nat) (v : RecvView) (t : CmdThread) (a : NetApp)
    : outcome (CmdThread * list (list Z) * NetApp) :=
  '(r, a) ← on_tcp_pcbs (tcp_receive_round c i 2048 v) a;
  Ret match r with
      | Again v => (t <|at_point := AtReceive c i v|>, [], a)
      | Done receive_res =>
          (t <|at_point := AtTop|>, match receive_res with Some received => [received] | None => [] end, a)
      end.

(** A step that logs nothing. *)
Definition quiet (m : outcome (CmdThread * NetApp)) : outcome (CmdThread * list (list Z) * NetApp) :=
  '(t, a) ← m; Ret (t, [], a).

(** [tcp_send_command].  [stop]: the termination check finds a message, or the
    sender gone. *)
Definition tcp_send_command (target_ip : String.string) (target_port : Z) (data : String.string) (stop : bool)
    (t : CmdThread) (a : NetApp) : outcome (CmdThread * list (list Z) * NetApp) :=
  match at_point t with
  | AtTop =>
      if stop then Ret (t <|at_point := Ended|>, [], a)
      else if is_some (sock_opt t) then Ret (t <|at_point := AtRequest|>, [], a)
      else
        local ← IPEndpoint_new_from_str LOCAL_SEND_IP 7;
        remote ← IPEndpoint_new_from_str target_ip target_port;
        quiet (open_with local (Some remote) true t a)
  | AtOpen c i => quiet (open_wake c i t a)
  | AtRequest =>
      if negb (request_sent t) then
        sock ← unwrap (sock_opt t);
        '(c, a) ← on_tcp (tcp_send sock) a;
        Ret (t <|at_point := AtSend c sock 0|>, [], a)
      else quiet (start_receive t a)
  | AtSend c i sent =>
      '(r, a) ← on_tcp (tcp_send_round c i (request_bytes data) sent) a;
      match r with
      | Again sent => Ret (t <|at_point := AtSend c i sent|>, [], a)
      | Done _ => Ret (t <|request_sent := true|> <|at_point := AtRequest|>, [], a)
      end
  | AtReceive c i v => receive_wake c i v t a
  | AtUdpReceive _ _ | Ended => Ret (t, [], a)
  end.

Definition tcp_receive_command (stop : bool) (t : CmdThread) (a : NetApp)
    : outcome (CmdThread * list (list Z) * NetApp) :=
  match at_point t with
  | AtTop =>
      if stop then Ret (t <|at_point := Ended|>, [], a)
      else if is_some (sock_opt t) then Ret (t <|at_point := AtRequest|>, [], a)
      else
        local ← IPEndpoint_new_from_str LOCAL_ANY_IP 7;
        quiet (open_with local None false t a)
  | AtOpen c i => quiet (open_wake c i t a)
  | AtRequest =>
      if negb (is_some (sock_opt t)) then Ret (t <|at_point := Ended|>, [], a) else quiet (start_receive t a)
  | AtReceive c i v => receive_wake c i v t a
  | AtSend _ _ _ | AtUdpReceive _ _ | Ended => Ret (t, [], a)
  end.

(** The socket of both UDP commands, one critical section. *)
Definition udp_socket (t : CmdThread) (a : NetApp) : outcome (CmdThread * NetApp) :=
  '(soc, pcbs) ← udp_open (udp_pcbs (app_pcbs a));
  local ← IPEndpoint_new_from_str LOCAL_ANY_IP 7;
  pcbs ← udp_bind pcbs soc local;
  Ret (t <|sock_opt := Some soc|>,
       mkNetApp (app_devices a) (app_protocols a) (app_contexts a) ((app_pcbs a) <|udp_pcbs := pcbs|>) (app_env a)).

Definition udp_start_receive (t : CmdThread) (a : NetApp) : outcome (CmdThread * NetApp) :=
  soc ← unwrap (sock_opt t);
  '(c, pcbs, e) ← udp_receive_start soc (udp_pcbs (app_pcbs a)) (app_env a);
  Ret (t <|at_point := AtUdpReceive c soc|>,
       mkNetApp (app_devices a) (app_protocols a) (app_contexts a) ((app_pcbs a) <|udp_pcbs := pcbs|>) e).

Definition udp_receive_wake (c i : nat) (t : CmdThread) (a : NetApp) : outcome (CmdThread * list (list Z) * NetApp) :=
  '(receive_res, pcbs, e) ← udp_receive_finish c i (udp_pcbs (app_pcbs a)) (app_env a);
  Ret (t <|at_point := AtTop|>, match receive_res with Some entry => [entry_data entry] | None => [] end,
       mkNetApp (app_devices a) (app_protocols a) (app_contexts a) ((app_pcbs a) <|udp_pcbs := pcbs|>) e).

Definition udp_send_command (target_ip : String.string) (target_port : Z) (data : String.string) (stop : bool)
    (t : CmdThread) (a : NetApp) : outcome (CmdThread * list (list Z) * NetApp) :=
  match at_point t with
  | AtTop =>
      if stop then Ret (t <|at_point := Ended|>, [], a)
      else if is_some (sock_opt t) then Ret (t <|at_point := AtRequest|>, [], a)
      else '(t, a) ← udp_socket t a; Ret (t <|at_point := AtRequest|>, [], a)
  | AtRequest =>
      if sent_count t <? 2 then
        remote ← IPEndpoint_new_from_str target_ip target_port;
        soc ← unwrap (sock_opt t);
        '(_, a) ← on_ethernet (fun n => n ← udp_send_to soc (request_bytes data) remote (udp_pcbs (app_pcbs a)) n;
                                 Ret (tt, n)) a;
        Ret (t <|sent_count := sent_count t + 1|> <|at_point := AtTop|>, [], a)
      else quiet (udp_start_receive t a)
  | AtUdpReceive c i => udp_receive_wake c i t a
  | AtOpen _ _ | AtSend _ _ _ | AtReceive _ _ _ | Ended => Ret (t, [], a)
  end.

Definition udp_receive_command (stop : bool) (t : CmdThread) (a : NetApp)
    : outcome (CmdThread * list (list Z) * NetApp) :=
  match at_point t with
  | AtTop =>
      if stop then Ret (t <|at_point := Ended|>, [], a)
      else if is_some (sock_opt t) then Ret (t <|at_point := AtRequest|>, [], a)
      else '(t, a) ← udp_socket t a; Ret (t <|at_point := AtRequest|>, [], a)
  | AtRequest => quiet (udp_start_receive t a)
  | AtUdpReceive c i => udp_receive_wake c i t a
  | AtOpen _ _ | AtSend _ _ _ | AtReceive _ _ _ | Ended => Ret (t, [], a)
  end.

(** The loop body of [tcp_transmit_thread]. *)
Definition tcp_transmit_thread (stop : bool) (a : NetApp) : outcome (NetApp * loop_ctl) :=
  if stop then Ret (a, Break) else a ← tcp_transmit a; Ret (a, Continue).

Definition command_step (cmd : Command) (stop : bool) (t : CmdThread) (a : NetApp)
    : outcome (CmdThread * list (list Z) * NetApp) :=
  match cmd with
  | TcpSendCommand ip port data => tcp_send_command ip port data stop t a
  | TcpReceiveCommand => tcp_receive_command stop t a
  | UdpSendCommand ip port data => udp_send_command ip port data stop t a
  | UdpReceiveCommand => udp_receive_command stop t a
  end.

(** ** main.rs: signals and shutdown *)

(** The signals the loop of main waits for; others never reach it. *)
Definition watched_signals (term_signals : list Z) : list Z :=
  [SIGHUP; SIGUSR1; IRQ_LOOPBACK; IRQ_ETHERNET] ++ term_signals.

(** The end of [main] while the command is at [t]: its receiver is gone when it
    has ended. *)
Definition shutdown (t : CmdThread) (transmit_alive : bool) (a : NetApp) : outcome NetApp :=
  main_end (match at_point t with Ended => false | _ => true end) transmit_alive a.
End command_code.
