(* ===== verification/AppInv.v ===== *)
(** * The invariant of the running program

    The steps of the whole program: signals with whatever frames the kernel has
    by then, rounds of the retransmission thread, steps of the command and the
    shutdown, in any order the locks allow.  Every one of them keeps the devices
    and queues in shape, the TCP table within its invariant and the UDP sockets
    apart. *)
From S2P Require Import Prelude Platform LinkedList Bytes Checksum IpTypes Devices Arp Ip Transport Icmp Udp TcpTypes TcpOutput TcpInput TcpUser TcpInv Stack StackFrame StackProps Commands.

#[local] Set Warnings "-register-all".

(** ** Specification *)

(** The kernel queues frames for the TAP file. *)
Definition tap_deliver (frames : list (list Z)) (a : NetApp) : outcome NetApp :=
  '(eth_device, put) ← unwrap (get_mut_by_type (app_devices a) Ethernet);
  let tx := match driver_data eth_device with Some dd => tap_tx (file dd) | None => [] end in
  Ret (mkNetApp (put (with_file eth_device (mkTapFile (map Some frames) tx))) (app_protocols a) (app_contexts a)
         (app_pcbs a) (app_env a)).

(** A thread inside [tcp::send] has the devices and the contexts locked. *)
Definition holds_devices (t : CmdThread) : bool :=
  match at_point t with AtSend _ _ _ => true | _ => false end.

Inductive app_step `{Platform} `{BuildProfile} (cmd : Command) : CmdThread * NetApp -> CmdThread * NetApp -> Prop :=
| as_signal t a frames a1 term_signals sig a' ctl : holds_devices t = false -> Forall bytes_ok frames ->
    tap_deliver frames a = Ret a1 -> on_signal term_signals sig a1 = Ret (a', ctl) -> app_step cmd (t, a) (t, a')
| as_transmit t a stop a' ctl : holds_devices t = false -> tcp_transmit_thread stop a = Ret (a', ctl) ->
    app_step cmd (t, a) (t, a')
| as_close t a a' : app_close_sockets a = Ret a' -> app_step cmd (t, a) (t, a')
| as_command t a stop t' logs a' : command_step cmd stop t a = Ret (t', logs, a') -> app_step cmd (t, a) (t', a').

(** A packet as the interrupt handler queues it. *)
Definition received (pd : ProtocolData) : Prop :=
  pd_irq pd = IRQ_ETHERNET /\ exists data, pd_data pd = Some data /\ bytes_ok data /\ pd_len pd = zlen data.

Record app_ok `{BuildProfile} (a : NetApp) (lo d : NetDevice) (qa qi : list ProtocolData) : Prop := {
  ao_view : app_view a lo d qa qi;
  ao_lo : device_type lo = Loopback /\ custom_data (irq_entry lo) = None;
  ao_eth : device_type d = Ethernet;
  ao_mtu : mtu d = ETH_PAYLOAD_MAX;
  ao_hw : hw_ok (app_net a d);
  ao_written : Forall (frame_from (dev_mac d)) (written d);
  ao_arp_queue : Forall received qa;
  ao_ip_queue : Forall received qi;
  ao_tcp : pcbs_ok (tcp_blocks (app_pcbs a));
  ao_udp : udp_exclusive (udp_pcbs (app_pcbs a))
}.

Definition app_inv `{BuildProfile} (a : NetApp) : Prop := exists lo d qa qi, app_ok a lo d qa qi.

(** The ports of the command line are [u16]. *)
Definition command_wf (cmd : Command) : Prop :=
  match cmd with
  | TcpSendCommand _ port _ | UdpSendCommand _ port _ => in_u16 port
  | TcpReceiveCommand | UdpReceiveCommand => True
  end.

(** ** Lemmas *)

Section app_lemmas.
Context `{Platform} `{BuildProfile}.
Implicit Types (n : Net) (a : NetApp) (d lo : NetDevice) (s : TcpSys) (t : CmdThread).

(** *** The Ethernet device *)

Lemma dev_static_fields d d' : dev_static d' = dev_static d ->
  device_type d' = device_type d /\ irq (irq_entry d') = irq (irq_entry d) /\ mtu d' = mtu d.
Proof. unfold dev_static. intros E. split_and!; congruence. Qed.

Lemma app_focus a lo d qa qi : app_view a lo d qa qi -> device_type lo = Loopback -> device_type d = Ethernet ->
  exists put, get_mut_by_type (app_devices a) Ethernet = Some (d, put)
    /\ forall d', to_list (device_entries (put d')) = [lo; d'].
Proof.
  intros [Hds _ _ _] Hlo Hd. unfold get_mut_by_type.
  pose proof (focus_view (fun d => bool_decide (device_type d = Ethernet)) (device_entries (app_devices a))) as F.
  rewrite Hds in F. destruct (focus _ _) as [[x put]|].
  - destruct F as (Hx & l1 & l2 & E & Hl1 & Hput). apply bool_decide_eq_true in Hx.
    destruct l1 as [|y [|z l1]]; cbn in E.
    + injection E as -> <-. congruence.
    + injection E as -> -> <-. eexists. split; [reflexivity|]. intros d'. cbn. by rewrite Hput.
    + injection E as _ _ E. by destruct l1.
  - apply Forall_cons in F as [_ F]. apply Forall_cons in F as [F _]. by rewrite bool_decide_eq_true_2 in F.
Qed.

(** What a step does to the frames written. *)
Lemma written_same n n' : net_same n n' -> hw_ok n -> Forall (frame_from (dev_mac (net_dev n))) (written (net_dev n)) ->
  hw_ok n' /\ Forall (frame_from (dev_mac (net_dev n'))) (written (net_dev n')).
Proof.
  intros (Hs & _ & Hn) Hhw Hw. destruct (Hn Hhw) as [Hhw' (f & -> & Hf)]. split; [done|].
  rewrite (dev_static_mac _ _ Hs). by apply Forall_app_2.
Qed.

(** An operation on the Ethernet device that keeps its identity. *)
Lemma on_ethernet_ok {A} (f : Net -> outcome (A * Net)) a lo d qa qi (Q : A -> Prop) :
  app_ok a lo d qa qi ->
  (forall n, net_dev n = d -> ensures (f n) (fun '(r, n') => Q r /\ net_same n n')) ->
  ensures (on_ethernet f a) (fun '(r, a') => Q r /\ exists d', app_ok a' lo d' qa qi /\ app_pcbs a' = app_pcbs a).
Proof.
  intros [Hv [Hlo Hc] Hd Hm Hhw Hwr Hqa Hqi Ht Hu] Hf. unfold on_ethernet.
  destruct (app_focus a lo d qa qi Hv Hlo Hd) as (put & -> & Hput). cbn [unwrap]. rewrite bind_ret.
  eapply ensures_bind2; [by apply Hf|]. intros [r n'] [Hr Hn].
  pose proof (written_same _ _ Hn Hhw Hwr) as [Hhw' Hwr']. destruct Hn as [Hs _].
  apply dev_static_fields in Hs as (Ety & Eirq & Emtu).
  split; [done|]. exists (net_dev n'). split; [|done]. destruct Hv as [Hds Hlo' Hd' Hps].
  split; try done; [split; [apply Hput|done|cbn in *; congruence|done]|cbn in *; congruence..].
Qed.

(** New frames to read change neither the device nor what it has written. *)
Lemma with_file_same d frames : dev_static (with_file d (mkTapFile frames (written d))) = dev_static d
  /\ written (with_file d (mkTapFile frames (written d))) = written d.
Proof. unfold with_file, written. destruct (driver_data d) eqn:E; cbn; by rewrite ?E. Qed.

(** Reading changes only what is left to read. *)
Definition only_reads d d' : Prop := dev_static d' = dev_static d /\ written d' = written d.

Lemma app_ok_dev a a' lo d d' qa qi qa' qi' : app_ok a lo d qa qi -> app_view a' lo d' qa' qi' ->
  dev_static d' = dev_static d -> written d' = written d -> app_contexts a' = app_contexts a ->
  app_pcbs a' = app_pcbs a -> Forall received qa' -> Forall received qi' -> app_ok a' lo d' qa' qi'.
Proof.
  intros [_ Hl Hd Hm Hhw Hwr _ _ Ht Hu] Hv Hs Hw Hc Hp Hqa Hqi.
  pose proof (dev_static_fields _ _ Hs) as (Ety & _ & Emtu). split; try done; try congruence.
  - unfold hw_ok in *. cbn in *. rewrite Hc. unfold dev_static in Hs.
    assert (dev_address d' = dev_address d /\ dev_broadcast d' = dev_broadcast d) as [-> ->] by (split; congruence). done.
  - by rewrite Hw, (dev_static_mac _ _ Hs).
Qed.

Lemma tap_deliver_ok frames a lo d qa qi : app_ok a lo d qa qi ->
  ensures (tap_deliver frames a) (fun a' => app_ok a' lo (with_file d (mkTapFile (map Some frames) (written d))) qa qi).
Proof.
  intros Ha. pose proof Ha as [Hv [Hlo Hc] Hd _ _ _ Hqa Hqi _ _]. unfold tap_deliver.
  destruct (app_focus a lo d qa qi Hv Hlo Hd) as (put & -> & Hput). cbn [unwrap]. rewrite bind_ret. cbn [ensures].
  destruct (with_file_same d (map Some frames)) as [Hs Hw]. fold (written d). destruct Hv as [Hds Hlo' Hd' Hps].
  apply (app_ok_dev a _ lo d _ qa qi); try done. split; [apply Hput|done| |done].
  apply dev_static_fields in Hs as (_ & -> & _). done.
Qed.

(** *** Interrupts *)

(** What the device reads from frames of bytes are bytes. *)
Lemma ethernet_read_ok d frames tx : Forall bytes_ok frames ->
  ensures (ethernet_read_data (with_file d (mkTapFile (map Some frames) tx))) (fun '(r, d') =>
    only_reads (with_file d (mkTapFile (map Some frames) tx)) d'
    /\ match r with Some (_, data, len) => bytes_ok data /\ len = zlen data | None => True end).
Proof.
  intros Hf. set (d0 := with_file _ _).
  unfold ethernet_read_data. apply ensures_bind, ensures_Ret. intros ty _.
  eapply (ensures_bind2 _ _ (fun '(len, buf, d') => only_reads d0 d' /\ bytes_ok buf
    /\ (len < 14 \/ 0 <= len))).
  { destruct ty; [|cbn; split_and!; [done|by apply Forall_replicate|by left]].
    unfold tap_read_data. apply ensures_bind, ensures_Ret. intros dd Hdd%unwrap_Ret.
    assert (written d0 = tap_tx (file dd)) as Hwr by (unfold written; by rewrite Hdd).
    assert (file dd = mkTapFile (map Some frames) tx) as Hfile.
    { unfold d0, with_file in Hdd. destruct (driver_data d) eqn:E; [|congruence]. by injection Hdd as <-. }
    rewrite Hfile in Hwr |- *. destruct Hf as [|frame frames Hframe _]; cbn [map tap_read tap_rx]; [done|].
    rewrite bind_ret. cbn [unwrap_result]. rewrite bind_ret. cbn [ensures].
    split_and!; [by split| |right; apply zlen_nonneg]. apply Forall_app_2; [by apply Forall_take|by apply Forall_replicate]. }
  intros [[len buf] d'] (Hs & Hb & Hl). cbv beta zeta. change (size_of EthernetHeader) with 14.
  destruct (len <? 14) eqn:El; [done|]. apply Z.ltb_ge in El.
  apply ensures_bind, ensures_Ret. intros hdr _. case_match; [done|].
  apply ensures_bind, ensures_Ret. intros data Hdata. cbn [ensures]. split; [done|].
  unfold slice in Hdata. case_match eqn:Hc; [|done]. injection Hdata as <-.
  rewrite !andb_true_iff, !Z.leb_le in Hc. split; [by apply Forall_take, Forall_drop|].
  unfold zlen in *. rewrite length_take, length_drop. lia.
Qed.
End app_lemmas.

Section app_lemmas2.
Context `{Platform} `{BuildProfile}.
Implicit Types (n : Net) (a : NetApp) (d lo : NetDevice) (s : TcpSys) (t : CmdThread).

(** The interrupt handler queues what it read. *)
Lemma isr_ok d frames tx k ps qa qi e : device_type d = Ethernet -> Forall bytes_ok frames ->
  to_list (protocol_entries ps) = [mkNetProtocol ProtoArp qa; mkNetProtocol ProtoIP qi] ->
  k = IRQ_ETHERNET -> Forall received qa -> Forall received qi ->
  ensures (isr (with_file d (mkTapFile (map Some frames) tx)) k ps e) (fun '(d', ps', _) =>
    only_reads (with_file d (mkTapFile (map Some frames) tx)) d' /\ exists qa' qi', Forall received qa' /\ Forall received qi'
    /\ to_list (protocol_entries ps') = [mkNetProtocol ProtoArp qa'; mkNetProtocol ProtoIP qi']).
Proof.
  intros Hd Hf Hps -> Hqa Hqi. unfold isr. set (d0 := with_file _ _).
  assert (device_type d0 = Ethernet) as -> by (unfold d0, with_file; by case_match).
  eapply ensures_bind2; [by apply ethernet_read_ok|]. intros [[[[ty data] len]|] d'] [Hs Hdata].
  2: { cbn. split; [done|]. by exists qa, qi. }
  destruct Hdata as [Hb ->]. set (pd := mkProtocolData IRQ_ETHERNET (Some data) (zlen data)).
  assert (received pd) as Hpd by (split; [done|]; by exists data).
  pose proof (traverse_refines (isr_enqueue IRQ_ETHERNET ty data (zlen data)) (protocol_entries ps) tt) as T.
  rewrite Hps in T.
  assert (traverse_list (isr_enqueue IRQ_ETHERNET ty data (zlen data))
      [mkNetProtocol ProtoArp qa; mkNetProtocol ProtoIP qi] tt =
    Ret (tt, [mkNetProtocol ProtoArp (fst (queue_for ty pd qa qi)); mkNetProtocol ProtoIP (snd (queue_for ty pd qa qi))])) as E
    by by destruct ty.
  rewrite E in T. apply refines_Ret in T as ([[] l] & -> & _ & Hl). rewrite bind_ret. cbn [ensures].
  split; [done|]. eexists _, _. split_and!; [| |exact Hl]; destruct ty; cbn; try done; by apply Forall_app_2; auto.
Qed.

Lemma handle_irq_ok k a lo d frames tx qa qi : Forall bytes_ok frames ->
  app_ok a lo (with_file d (mkTapFile (map Some frames) tx)) qa qi -> ensures (handle_irq k a) app_inv.
Proof.
  intros Hf Ha. pose proof Ha as [[Hds Hlo Hd Hps] [Hlt Hlc] Hdt Hm Hhw Hwr Hqa Hqi Ht Hu]. set (d0 := with_file _ _) in *.
  assert (device_type d = Ethernet) as Hdt' by (unfold d0, with_file in Hdt; by case_match).
  unfold handle_irq, devices_handle_irq.
  pose proof (traverse_refines (handle_irq_body k) (device_entries (app_devices a)) (app_protocols a, app_env a)) as T.
  set (m := traverse _ _ _) in *. rewrite Hds in T. cbn [traverse_list] in T.
  unfold handle_irq_body in T. rewrite Hlo, Hd in T.
  destruct (IRQ_LOOPBACK =? k) eqn:El.
  { assert (isr lo k (app_protocols a) (app_env a) = Panic) as E
      by (unfold isr; rewrite Hlt; unfold loopback_read_data; by rewrite Hlc).
    rewrite E in T. apply refines_Panic in T. by rewrite T. }
  rewrite bind_ret in T. destruct (IRQ_ETHERNET =? k) eqn:Ee.
  - apply Z.eqb_eq in Ee as <-.
    pose proof (isr_ok d frames tx IRQ_ETHERNET (app_protocols a) qa qi (app_env a) Hdt' Hf Hps eq_refl Hqa Hqi) as I.
    fold d0 in I. destruct (isr d0 _ _ _) as [[[d1 ps1] e1]| | | |]; cbn [mbind outcome_bind] in T.
    2-5: by destruct m.
    destruct I as (Hs1 & qa' & qi' & Hqa' & Hqi' & Hps1).
    apply refines_Ret in T as ([[ps2 e2] l2] & -> & [= -> ->] & Hl2). cbn [ensures mbind outcome_bind].
    destruct Hs1 as [Hs1 Hw1]. exists lo, d1, qa', qi'. apply (app_ok_dev a _ lo d0 _ qa qi); try done.
    split; cbn; try done. apply dev_static_fields in Hs1 as (_ & -> & _). done.
  - rewrite bind_ret in T. apply refines_Ret in T as ([[ps2 e2] l2] & -> & [= -> ->] & Hl2). cbn [ensures mbind outcome_bind].
    exists lo, d0, qa, qi. by split.
Qed.

(** *** Received packets *)

Definition pcbs_inv (pcbs : ControlBlocks) : Prop := pcbs_ok (tcp_blocks pcbs) /\ udp_exclusive (udp_pcbs pcbs).

Lemma ip_input_ok data len n pcbs : bytes_ok data -> pcbs_inv pcbs ->
  ensures (ip_input data len n pcbs) (fun '(_, _, pcbs') => pcbs_inv pcbs').
Proof.
  intros Hb [Ht Hu]. unfold ip_input. case_match; [done|].
  eapply ensures_bind2; [by apply bytes_to_struct_wf|]. intros h W. cbv beta zeta in *.
  apply ensures_bind, ensures_Ret. intros [[]|] _; [|done]. case_match; [|done]. case_match; [done|].
  eapply ensures_bind2; [by apply slice_from_Forall|]. intros text Htext.
  apply ensures_bind, ensures_Ret. intros l _. unfold transport_input. destruct (ip_protocol_from_u8 _).
  - apply ensures_bind, ensures_Ret. intros [r n'] _. done.
  - eapply ensures_bind2; [apply tcp_input_ok; [done|apply W|apply W|exact Ht]|]. intros [r s'] Hs. by split.
  - apply ensures_bind, ensures_Ret. intros [[r u] e] E. split; [done|]. cbn.
    exact (udp_step_exclusive (_, _) (_, _) (us_input _ _ _ _ _ _ _ _ _ E) Hu).
  - done.
Qed.

Lemma process_queue_ok ty q n pcbs : Forall received q -> pcbs_inv pcbs ->
  ensures (process_queue ty q n pcbs) (fun '(n', pcbs') => pcbs_inv pcbs' /\ net_same n n').
Proof.
  intros Hq. revert n pcbs. induction Hq as [|pd q (_ & data & Hd & Hb & _) _ IH]; intros n pcbs Hp; cbn [process_queue]; [done|].
  rewrite Hd. cbn [unwrap]. rewrite bind_ret.
  eapply (ensures_bind2 _ _ (fun '(n', pcbs') => pcbs_inv pcbs' /\ net_same n n')).
  { assert (ensures (protocol_input ty data (pd_len pd) n pcbs) (fun '(_, pcbs') => pcbs_inv pcbs')) as P.
    { destruct ty; cbn [protocol_input]; [| |done].
      - apply ensures_bind, ensures_Ret. intros [r n'] _. by apply ensures_bind, ensures_Ret.
      - eapply ensures_bind2; [by apply ip_input_ok|]. intros [[r n'] pcbs'] ?. by apply ensures_bind, ensures_Ret. }
    pose proof (protocol_input_same n n ty data (pd_len pd) pcbs ltac:(reflexivity)) as S.
    destruct (protocol_input _ _ _ _ _) as [[n' pcbs']| | | |]; done. }
  intros [n1 pcbs1] [Hp1 Hn1]. eapply ensures_mono; [by apply IH|]. intros [n2 pcbs2] [? ?]. split; [done|by etrans].
Qed.

Lemma received_ethernet q : Forall received q -> from_ethernet q.
Proof. intros Hq. eapply Forall_impl; [exact Hq|]. by intros pd [? _]. Qed.

Lemma handle_protocol_ok a lo d qa qi : app_ok a lo d qa qi -> ensures (handle_protocol a) app_inv.
Proof.
  intros [Hv [Hlt Hlc] Hdt Hm Hhw Hwr Hqa Hqi Ht Hu].
  pose proof (handle_protocol_view a lo d qa qi Hv (received_ethernet _ Hqa) (received_ethernet _ Hqi)) as V.
  assert (ensures (process_received qa qi (app_net a d) (app_pcbs a)) (fun '(n', pcbs') =>
    pcbs_inv pcbs' /\ net_same (app_net a d) n')) as P.
  { unfold process_received. eapply ensures_bind2; [by apply process_queue_ok|]. intros [n1 p1] [? ?].
    eapply ensures_mono; [by apply process_queue_ok|]. intros [n2 p2] [? ?]. split; [done|by etrans]. }
  destruct (process_received _ _ _ _) as [[n' pcbs']| | | |].
  2-5: by destruct (handle_protocol a).
  apply refines_Ret in V as (a' & -> & Hv' & Hc' & _ & Hp'). destruct P as [[Ht' Hu'] Hn].
  pose proof (written_same _ _ Hn Hhw Hwr) as [Hhw' Hwr']. destruct Hn as [Hs _].
  apply dev_static_fields in Hs as (Ety & _ & Emtu). cbn [fst snd ensures] in *.
  exists lo, (net_dev n'), [], []. split; try done; [cbn in *; congruence..| |by rewrite Hp'|by rewrite Hp'].
  unfold hw_ok, app_net in *. cbn in *. by rewrite Hc'.
Qed.
End app_lemmas2.

(** *** Commands *)

Lemma addr_parts_range k i parts res : in_u32 res ->
  ensures (addr_parts k i parts res) (fun o => forall addr, o = Some addr -> in_u32 addr).
Proof.
  revert i parts res. induction k as [|k IH]; intros i parts res Hr; cbn [addr_parts]; [by intros ? [= <-]|].
  destruct parts as [|part parts]; [done|]. apply ensures_bind, ensures_Ret. intros b _. apply IH.
  apply lor_u32; [done|apply as_u32_range].
Qed.

Lemma IPEndpoint_new_from_str_wf addr p : in_u16 p -> ensures (IPEndpoint_new_from_str addr p) endpoint_wf.
Proof.
  intros Hp. unfold IPEndpoint_new_from_str, ip_addr_to_bytes.
  eapply ensures_bind2; [by apply addr_parts_range|]. intros o Ho.
  apply ensures_bind, ensures_Ret. intros v Hv%unwrap_Ret. split; [by apply Ho|by apply le_to_be_u16_range].
Qed.

Lemma request_bytes_ok data : bytes_ok (request_bytes data).
Proof.
  unfold request_bytes, as_bytes. apply Forall_forall. intros z (c & -> & _)%list_elem_of_fmap.
  pose proof (Ascii.N_ascii_bounded c). unfold in_u8. lia.
Qed.

Section user_frame.
Context `{Platform} `{BuildProfile}.
Implicit Types (n : Net) (s : TcpSys).

Lemma rfc793_open_same n0 local r act s : net_same n0 (tcp_net s) ->
  ensures (rfc793_open local r act s) (fun '(_, _, s') => net_same n0 (tcp_net s')).
Proof.
  intros Hn. unfold rfc793_open, put_sender, send_syn. cbv zeta. frame_step. pose proof tcp_output_same as Ho.
  apply ensures_bind, ensures_Ret. intros [[i p] pcbs] _.
  eapply (ensures_bind2 _ _ (fun '(_, n') => net_same n0 n')); [|by intros [? ?]].
  destruct (negb act); [done|].
  repeat first [progress frame_step | eapply ensures_bind2; [by apply Ho; eauto with frame|intros ? ?]].
Qed.

Lemma tcp_send_same n0 i s : net_same n0 (tcp_net s) ->
  ensures (tcp_send i s) (fun '(_, s') => net_same n0 (tcp_net s')).
Proof.
  intros Hn. unfold tcp_send, put_sender. frame_step. apply ensures_bind, ensures_Ret. intros p _. done.
Qed.

Lemma send_loop_same n0 fuel c i data mss cap sent s : net_same n0 (tcp_net s) ->
  ensures (send_loop fuel c i data mss cap sent s) (fun '(_, s') => net_same n0 (tcp_net s')).
Proof.
  revert sent s. induction fuel as [|fuel IH]; intros sent s Hn; cbn [send_loop]; case_match; try done; case_match; try done.
  1,2: apply ensures_bind, ensures_Ret; intros [r e] _; by apply ensures_bind, ensures_Ret.
  apply ensures_bind, ensures_Ret; intros p _. cbv zeta. apply ensures_bind, ensures_Ret; intros text _.
  eapply ensures_bind2; [by apply tcp_output_same|]. intros [[z p'] n'] Hn'.
  apply ensures_bind, ensures_Ret; intros v _. by apply IH.
Qed.

Lemma tcp_send_round_same n0 c i data sent s : net_same n0 (tcp_net s) ->
  ensures (tcp_send_round c i data sent s) (fun '(_, s') => net_same n0 (tcp_net s')).
Proof.
  intros Hn. unfold tcp_send_round. apply ensures_bind, ensures_Ret; intros p _. cbv zeta. case_match; [|done].
  apply ensures_bind, ensures_Ret; intros mss _. case_match; [done|].
  do 2 (apply ensures_bind, ensures_Ret; intros ? _).
  eapply ensures_bind2; [by apply send_loop_same|]. intros [[] s'] Hs; exact Hs.
Qed.

Lemma udp_send_to_same n0 i data remote pcbs n : net_same n0 n ->
  ensures (udp_send_to i data remote pcbs n) (net_same n0).
Proof.
  intros Hn. unfold udp_send_to. do 3 (apply ensures_bind, ensures_Ret; intros ? _; cbv zeta).
  unfold udp_output. case_match; [done|]. do 3 (apply ensures_bind, ensures_Ret; intros ? _; cbv zeta).
  eapply ensures_bind2; [by apply ip_output_same|]. intros [r n'] Hn'. by apply ensures_bind, ensures_Ret.
Qed.
End user_frame.

Section command_steps.
Context `{Platform} `{BuildProfile}.
Implicit Types (n : Net) (a : NetApp) (s : TcpSys) (t : CmdThread).

(** A result that carries the application. *)
Abbreviation keeps_app m := (ensures m (fun '(_, a') => app_inv a')) (only parsing).

Lemma app_inv_tcp a lo d qa qi pcbs e : app_ok a lo d qa qi -> pcbs_ok pcbs ->
  app_inv (mkNetApp (app_devices a) (app_protocols a) (app_contexts a) ((app_pcbs a) <|tcp_blocks := pcbs|>) e).
Proof. intros [[Hds Hlo Hd Hps] Hl Hdt Hm Hhw Hwr Hqa Hqi Ht Hu] Hp. exists lo, d, qa, qi. by split. Qed.

Lemma app_inv_udp a lo d qa qi pcbs e : app_ok a lo d qa qi -> udp_exclusive pcbs ->
  app_inv (mkNetApp (app_devices a) (app_protocols a) (app_contexts a) ((app_pcbs a) <|udp_pcbs := pcbs|>) e).
Proof. intros [[Hds Hlo Hd Hps] Hl Hdt Hm Hhw Hwr Hqa Hqi Ht Hu] Hp. exists lo, d, qa, qi. by split. Qed.

Lemma on_tcp_ok {A} (f : TcpSys -> outcome (A * TcpSys)) a : app_inv a ->
  (forall s, pcbs_ok (tcp_pcbs s) -> ensures (f s) (fun '(_, s') => pcbs_ok (tcp_pcbs s'))) ->
  (forall n0 s, net_same n0 (tcp_net s) -> ensures (f s) (fun '(_, s') => net_same n0 (tcp_net s'))) ->
  keeps_app (on_tcp f a).
Proof.
  intros (lo & d & qa & qi & Ha) Hf Hn. unfold on_tcp.
  eapply ensures_bind2; [apply (on_ethernet_ok _ a lo d qa qi (fun '(_, pcbs) => pcbs_ok pcbs) Ha)|].
  - intros n _. set (s := mkTcpSys _ n). pose proof (Hf s (ao_tcp _ _ _ _ _ Ha)) as P.
    pose proof (Hn n s ltac:(reflexivity)) as S. destruct (f s) as [[r s']| | | |]; by split.
  - intros [[r pcbs] a'] [Hp (d' & Ha' & _)]. by eapply app_inv_tcp.
Qed.

Lemma on_tcp_pcbs_ok {A} (f : TcpSys -> outcome (A * TcpSys)) a : app_inv a ->
  (forall s, pcbs_ok (tcp_pcbs s) -> ensures (f s) (fun '(_, s') => pcbs_ok (tcp_pcbs s'))) ->
  keeps_app (on_tcp_pcbs f a).
Proof.
  intros (lo & d & qa & qi & Ha) Hf. unfold on_tcp_pcbs.
  eapply ensures_bind2; [apply Hf; apply (ao_tcp _ _ _ _ _ Ha)|]. intros [r s'] Hs. by eapply app_inv_tcp.
Qed.

Lemma open_with_ok local r act t a : app_inv a -> endpoint_wf local -> (forall e, r = Some e -> endpoint_wf e) ->
  keeps_app (open_with local r act t a).
Proof.
  intros Ha Hl Hr. unfold open_with. eapply (ensures_bind2 _ _ (fun '(_, a') => app_inv a')); [|intros [[c i] a'] Ha'; exact Ha'].
  apply on_tcp_ok; [done| |].
  - intros s Hs. eapply ensures_mono; [by apply rfc793_open_ok|]. by intros [[c i] s'].
  - intros n0 s Hs. eapply ensures_mono; [by apply (rfc793_open_same n0)|]. by intros [[c i] s'].
Qed.

Lemma start_receive_ok t a : app_inv a -> keeps_app (start_receive t a).
Proof.
  intros Ha. unfold start_receive. apply ensures_bind, ensures_Ret; intros sock _.
  eapply (ensures_bind2 _ _ (fun '(_, a') => app_inv a')); [|intros [[c v] a'] Ha'; exact Ha'].
  apply on_tcp_pcbs_ok; [done|]. intros s Hs. eapply ensures_mono; [by apply tcp_receive_ok|]. by intros [[c v] s'].
Qed.

Lemma open_wake_ok c i t a : app_inv a -> keeps_app (open_wake c i t a).
Proof.
  intros Ha. unfold open_wake. eapply (ensures_bind2 _ _ (fun '(_, a') => app_inv a')); [|intros [r a'] Ha'; exact Ha'].
  apply on_tcp_pcbs_ok; [done|]. intros s. apply rfc793_open_wake_ok.
Qed.

Lemma receive_wake_ok c i v t a : app_inv a -> keeps_app (receive_wake c i v t a).
Proof.
  intros Ha. unfold receive_wake. eapply (ensures_bind2 _ _ (fun '(_, a') => app_inv a')); [|intros [[r|v'] a'] Ha'; exact Ha'].
  apply on_tcp_pcbs_ok; [done|]. intros s. apply tcp_receive_round_ok.
Qed.

Lemma quiet_ok m : keeps_app m -> keeps_app (quiet m).
Proof. intros Hm. unfold quiet. eapply ensures_bind2; [exact Hm|]. by intros [t a]. Qed.

Lemma udp_socket_ok t a : app_inv a -> keeps_app (udp_socket t a).
Proof.
  intros (lo & d & qa & qi & Ha). unfold udp_socket.
  apply ensures_bind, ensures_Ret. intros [soc pcbs] E. apply ensures_bind, ensures_Ret. intros local _.
  apply ensures_bind, ensures_Ret. intros pcbs' E'. eapply app_inv_udp; [exact Ha|].
  pose proof (udp_open_exclusive _ _ _ (ao_udp _ _ _ _ _ Ha) E) as Hx.
  unfold udp_open in E. case_match eqn:F; [|done]. destruct p as [j p]. injection E as <- <-.
  eapply udp_bind_exclusive; [exact Hx| | |exact E'].
  - rewrite list_lookup_insert_eq; [done|]. apply list_find_Some in F as (Hj & _). by eapply lookup_lt_Some.
  - done.
Qed.

Lemma udp_start_receive_ok t a : app_inv a -> keeps_app (udp_start_receive t a).
Proof.
  intros (lo & d & qa & qi & Ha). unfold udp_start_receive.
  apply ensures_bind, ensures_Ret. intros soc _. apply ensures_bind, ensures_Ret. intros [[c pcbs] e] E.
  eapply app_inv_udp; [exact Ha|].
  exact (udp_step_exclusive (_, _) (_, _) (us_receive_start _ _ _ _ _ _ E) (ao_udp _ _ _ _ _ Ha)).
Qed.

Lemma udp_receive_wake_ok c i t a : app_inv a -> keeps_app (udp_receive_wake c i t a).
Proof.
  intros (lo & d & qa & qi & Ha). unfold udp_receive_wake.
  apply ensures_bind, ensures_Ret. intros [[r pcbs] e] E. eapply app_inv_udp; [exact Ha|].
  exact (udp_step_exclusive (_, _) (_, _) (us_receive_finish _ _ _ _ _ _ _ E) (ao_udp _ _ _ _ _ Ha)).
Qed.
End command_steps.

Section app_system.
Context `{Platform} `{BuildProfile}.
Implicit Types (n : Net) (a : NetApp) (t : CmdThread).

Lemma command_step_ok cmd stop t a : command_wf cmd -> app_inv a ->
  ensures (command_step cmd stop t a) (fun '(_, a') => app_inv a').
Proof.
  intros Hc Ha. pose proof quiet_ok. pose proof open_wake_ok. pose proof receive_wake_ok. pose proof start_receive_ok.
  pose proof udp_start_receive_ok. pose proof udp_receive_wake_ok.
  assert (forall t a, app_inv a -> ensures ('(t, a) ← udp_socket t a; Ret (t <|at_point := AtRequest|>, [] : list (list Z), a))
    (fun '(_, a') => app_inv a')) as Hsock.
  { intros t' a' Ha'. eapply ensures_bind2; [by apply udp_socket_ok|]. by intros [? ?]. }
  destruct cmd as [ip port data| |ip port data|]; cbn [command_step].
  - unfold tcp_send_command. destruct (at_point t); auto.
    + case_match; [done|]. case_match; [done|].
      eapply ensures_bind2; [by apply IPEndpoint_new_from_str_wf|]. intros local Hl.
      eapply ensures_bind2; [by apply IPEndpoint_new_from_str_wf|]. intros remote Hr.
      apply quiet_ok, open_with_ok; [done|done|]. by intros e [= <-].
    + case_match; [|by auto]. apply ensures_bind, ensures_Ret; intros sock _.
      eapply (ensures_bind2 _ _ (fun '(_, a') => app_inv a')); [|by intros [c' a'] Ha'].
      apply on_tcp_ok; [done| |].
      * intros s Hs. eapply ensures_mono; [by apply tcp_send_ok|]. by intros [? ?].
      * intros n0 s Hs. eapply ensures_mono; [by apply (tcp_send_same n0)|]. by intros [? ?].
    + eapply (ensures_bind2 _ _ (fun '(_, a') => app_inv a')); [|by intros [[r|v] a'] Ha'].
      apply on_tcp_ok; [done| |].
      * intros s. apply tcp_send_round_ok, request_bytes_ok.
      * intros n0 s. apply tcp_send_round_same.
  - unfold tcp_receive_command. destruct (at_point t); auto.
    + case_match; [done|]. case_match; [done|].
      eapply ensures_bind2; [by apply IPEndpoint_new_from_str_wf|]. intros local Hl.
      by apply quiet_ok, open_with_ok.
    + case_match; [done|]. auto.
  - unfold udp_send_command. destruct (at_point t); auto.
    + case_match; [done|]. case_match; [done|]. auto.
    + case_match; [|by auto]. apply ensures_bind, ensures_Ret; intros remote _.
      apply ensures_bind, ensures_Ret; intros soc _. destruct Ha as (lo & d & qa & qi & Ha).
      eapply ensures_bind2; [apply (on_ethernet_ok _ a lo d qa qi (fun _ => True) Ha)|].
      * intros n _. eapply ensures_bind2; [by apply (udp_send_to_same n)|]. by intros n' Hn'.
      * intros [[] a'] [_ (d' & Ha' & _)]. by exists lo, d', qa, qi.
  - unfold udp_receive_command. destruct (at_point t); auto.
    case_match; [done|]. case_match; [done|]. auto.
Qed.

Lemma tcp_transmit_ok a : app_inv a -> ensures (tcp_transmit a) app_inv.
Proof.
  intros (lo & d & qa & qi & Ha). unfold tcp_transmit.
  eapply ensures_bind2; [apply (on_ethernet_ok _ a lo d qa qi (fun pcbs => pcbs_ok pcbs) Ha)|].
  - intros n _. pose proof (retransmit_ok _ n (ao_tcp _ _ _ _ _ Ha)) as P.
    pose proof (retransmit_same n n (tcp_blocks (app_pcbs a)) ltac:(reflexivity)) as S.
    destruct (retransmit _ _) as [[pcbs n']| | | |]; by split.
  - intros [pcbs a'] [Hp (d' & Ha' & _)]. by eapply app_inv_tcp.
Qed.

Lemma tcp_transmit_thread_ok stop a : app_inv a -> ensures (tcp_transmit_thread stop a) (fun '(a', _) => app_inv a').
Proof.
  intros Ha. unfold tcp_transmit_thread. case_match; [done|].
  eapply ensures_bind2; [by apply tcp_transmit_ok|]. done.
Qed.

Lemma app_close_ok a : app_inv a -> ensures (app_close_sockets a) app_inv.
Proof.
  intros (lo & d & qa & qi & Ha). unfold app_close_sockets. apply ensures_bind, ensures_Ret. intros e _.
  pose proof (tcp_close_sockets_ok (tcp_blocks (app_pcbs a)) e (ao_tcp _ _ _ _ _ Ha)) as Hp.
  destruct (tcp_close_sockets _ _) as [pcbs e']. by eapply app_inv_tcp.
Qed.

Lemma on_signal_ok frames a a1 term_signals sig : app_inv a -> Forall bytes_ok frames -> tap_deliver frames a = Ret a1 ->
  ensures (on_signal term_signals sig a1) (fun '(a', _) => app_inv a').
Proof.
  intros (lo & d & qa & qi & Ha) Hf E. pose proof (tap_deliver_ok frames a lo d qa qi Ha) as D. rewrite E in D.
  destruct D as [tx Ha1]. unfold on_signal. repeat case_match; try (cbn; by do 4 eexists).
  - eapply ensures_bind2; [by eapply handle_protocol_ok|]. done.
  - eapply ensures_bind2; [by eapply handle_irq_ok|]. done.
Qed.

Lemma app_step_ok cmd s s' : command_wf cmd -> app_step cmd s s' -> app_inv (snd s) -> app_inv (snd s').
Proof.
  intros Hc St Ha. destruct St as [t a frames a1 ts sig a' ctl _ Hf E1 E2|t a stop a' ctl _ E|t a a' E|t a stop t' logs a' E]; cbn [snd] in *.
  - pose proof (on_signal_ok frames a a1 ts sig Ha Hf E1) as P. by rewrite E2 in P.
  - pose proof (tcp_transmit_thread_ok stop a Ha) as P. by rewrite E in P.
  - pose proof (app_close_ok a Ha) as P. by rewrite E in P.
  - pose proof (command_step_ok cmd stop t a Hc Ha) as P. by rewrite E in P.
Qed.

Lemma tap_open_ok d : take 6 (dev_address d) = ETH_ADDR_ANY -> ensures (tap_open d) (fun d' =>
  d' = d <|dev_address := tap_hw_addr|> <|driver_data := Some (mkDriverData (mkTapFile [] []) ETH_TAP_IRQ)|>).
Proof.
  intros E. unfold tap_open, tap_set_address. do 6 (apply ensures_bind, ensures_Ret; intros ? _).
  rewrite bool_decide_eq_true_2 by done. apply ensures_bind. by do 4 (apply ensures_bind, ensures_Ret; intros ? _).
Qed.

Lemma NetApp_new_ok e : ensures (NetApp_new e) app_inv.
Proof.
  unfold NetApp_new. cbn -[ip_addr_to_bytes tap_open]. unfold IPInterface_new, gateway_route.
  assert (ip_addr_to_bytes LOOPBACK_IP = Ret (Some 0x0100007f)) as -> by by vm_compute.
  assert (ip_addr_to_bytes LOOPBACK_NETMASK = Ret (Some 0x00ffffff)) as -> by by vm_compute.
  assert (ip_addr_to_bytes ETH_TAP_IP = Ret (Some 0x020200c0)) as -> by by vm_compute.
  assert (ip_addr_to_bytes ETH_TAP_NETMASK = Ret (Some 0x00ffffff)) as -> by by vm_compute.
  assert (ip_addr_to_bytes DEFAULT_GATEWAY = Ret (Some 0x010200c0)) as -> by by vm_compute.
  cbn -[ip_addr_to_bytes tap_open]. match goal with |- context [tap_open ?d] =>
    pose proof (tap_open_ok d eq_refl) as T; destruct (tap_open d) as [d'| | | |]; [|exact I..] end.
  cbn in T. subst d'. cbn -[ip_addr_to_bytes].
  eexists _, _, [], []. split; try constructor; try reflexivity; try apply pcbs_new_ok; try apply udp_new_exclusive.
  - apply tap_hw_addr_len.
  - split; [done|]. intros ip entry Hi. cbn in Hi. by rewrite lookup_empty in Hi.
  - exact (Forall_nil_2 _).
Qed.

(** Every reachable state satisfies the invariant. *)
Lemma app_reachable cmd e a0 t a : command_wf cmd -> NetApp_new e = Ret a0 ->
  rtc (app_step cmd) (thread_start, a0) (t, a) -> app_inv a.
Proof.
  intros Hc E Hr. pose proof (NetApp_new_ok e) as H0'. rewrite E in H0'.
  change (app_inv (snd (thread_start, a0))) in H0'. change (app_inv (snd (t, a))).
  clear E. induction Hr as [|s1 s2 s3 St _ IH]; [done|]. apply IH. by eapply app_step_ok.
Qed.

Lemma frame_from_length mac frame : length mac = ETH_ADDR_LEN -> frame_from mac frame ->
  ETH_FRAME_MIN <= zlen frame <= ETH_FRAME_MAX.
Proof.
  intros Hm (dst & proto & data & Hd & _ & Hl & ->). unfold eth_frame. rewrite !zlen_app, eth_header_len, zlen_replicate.
  assert (zlen dst = 6 /\ zlen mac = 6) as [-> ->] by (unfold zlen; by rewrite Hd, Hm).
  pose proof (zlen_nonneg data).
  unfold ETH_PAYLOAD_MAX, ETH_PAYLOAD_MIN, ETH_FRAME_MIN, ETH_FRAME_MAX, ETH_HDR_SIZE in *. lia.
Qed.

(** The receiver's test of the header. *)
Lemma packet_sent_cksum mac dst packet : packet_sent mac dst ProtoIP packet -> cksum16 (take 20 packet) 20 0 = Ret 0.
Proof.
  intros Hp. inversion Hp as [| |p sip tip id data _ _]; subst. unfold ip_datagram. set (h := ip_header _ _ _ _ _).
  destruct (IPHeader_bytes_any h) as [Hb L].
  rewrite take_app_le by (unfold zlen in L; lia). rewrite take_ge by (unfold zlen in L; lia).
  rewrite <-L. rewrite cksum16_norm_all; [|done|by rewrite L|done].
  rewrite Z.add_0_l. unfold h. by rewrite ip_header_sum.
Qed.

(** C1: the invariant of the running program.  Start the application and run any
    command; whatever frames arrive and in whatever order the signal loop, the
    retransmission thread, the command and the shutdown take their turns (with
    the devices locked during [send]), it keeps its two devices and its two
    queues, every queued packet is a byte sequence with its own length from the
    Ethernet device, no TCP control block leaves the invariant of the table or
    enters the closing handshake, and no two UDP sockets answer to the same
    endpoint. *)
Theorem app_invariant cmd e a0 t a : command_wf cmd -> NetApp_new e = Ret a0 ->
  rtc (app_step cmd) (thread_start, a0) (t, a) ->
  exists lo d qa qi, app_view a lo d qa qi /\ device_type lo = Loopback /\ device_type d = Ethernet
    /\ Forall received (qa ++ qi)
    /\ (forall i p, tcp_blocks (app_pcbs a) !! i = Some p -> pcb_ok TCP_PCB_COUNT p
          /\ tcp_state p ∉ [FinWait1; FinWait2; Closing; TimeWait; LastAck])
    /\ udp_exclusive (udp_pcbs (app_pcbs a)).
Proof.
  intros Hc E Hr. destruct (app_reachable cmd e a0 t a Hc E Hr) as (lo & d & qa & qi & [Hv [Hl _] Hd Hm Hhw Hwr Hqa Hqi Ht Hu]).
  exists lo, d, qa, qi. split_and!; try done.
  - by apply Forall_app_2.
  - intros i p Hi. pose proof (pcbs_ok_lookup _ _ _ Ht Hi) as Hp. split; [done|].
    pose proof (live_not_closing _ (ok_state _ _ Hp)). set_solver.
Qed.

(** C4: everything on the wire is well formed.  Whatever the program does, every
    frame it has written to the TAP file has between the minimum of 60 and the
    maximum of 1514 bytes and consists of: an Ethernet header from the address of
    the device to a hardware address of six bytes; an ARP request or reply with
    that address as sender, the reply to the station it names, or an IP datagram
    of ICMP, TCP or UDP with the header of its length whose checksum verifies; and
    zeros up to the minimum. *)
Theorem wire_well_formed cmd e a0 t a : command_wf cmd -> NetApp_new e = Ret a0 ->
  rtc (app_step cmd) (thread_start, a0) (t, a) ->
  exists lo d qa qi, app_view a lo d qa qi /\ device_type d = Ethernet
  /\ Forall (fun frame => ETH_FRAME_MIN <= zlen frame <= ETH_FRAME_MAX
       /\ exists dst proto packet, length dst = ETH_ADDR_LEN /\ packet_sent (dev_mac d) dst proto packet
            /\ (proto = ProtoIP -> cksum16 (take 20 packet) 20 0 = Ret 0)
            /\ zlen packet <= ETH_PAYLOAD_MAX
            /\ frame = EthernetHeader_bytes (mkEthernetHeader dst (dev_mac d) (le_to_be_u16 (ProtocolType_as_u16 proto)))
                 ++ packet ++ replicate (Z.to_nat (ETH_PAYLOAD_MIN - zlen packet)) 0) (written d).
Proof.
  intros Hc E Hr. destruct (app_reachable cmd e a0 t a Hc E Hr) as (lo & d & qa & qi & [Hv _ Hd _ (Ha & _ & _) Hwr _ _ _ _]).
  exists lo, d, qa, qi. split_and!; [done..|]. eapply Forall_impl; [exact Hwr|]. intros frame Hf. split.
  - eapply frame_from_length; [|exact Hf]. unfold dev_mac. cbn in Ha. by rewrite length_take, Ha.
  - destruct Hf as (dst & proto & packet & ? & Hp & ? & ->). exists dst, proto, packet. split_and!; [done|done| |done|done].
    intros ->. by eapply packet_sent_cksum.
Qed.
End app_system.

(** ** A concrete run, for evaluation: [udp receive] opens its socket. *)
Definition demo_app : NetApp :=
  match @NetApp_new demo_platform env_init with Ret a => a | _ => demo_receiver [] [] [] end.

Definition demo_app1 : CmdThread * NetApp :=
  match @command_step demo_platform debug_build UdpReceiveCommand false thread_start demo_app with
  | Ret (t, _, a) => (t, a)
  | _ => (thread_start, demo_app)
  end.

Lemma app_invariant_witness :
  at_point (fst demo_app1) = AtRequest /\ udp_exclusive (udp_pcbs (app_pcbs (snd demo_app1))).
Proof.
  split; [by vm_compute|].
  destruct (@app_invariant demo_platform debug_build UdpReceiveCommand env_init demo_app (fst demo_app1) (snd demo_app1))
    as (lo & d & qa & qi & _ & _ & _ & _ & _ & Hu); [exact I|by vm_compute| |exact Hu].
  eapply rtc_l; [|apply rtc_refl].
  eapply (@as_command demo_platform debug_build UdpReceiveCommand thread_start demo_app false _ []). by vm_compute.
Defined.

(** [udp send] in two steps: its socket, and the request, which becomes an ARP
    request. *)
Definition demo_app_sent : CmdThread * NetApp :=
  match @command_step demo_platform debug_build (UdpSendCommand "192.0.2.1" 10007 "hello") false thread_start demo_app with
  | Ret (t, _, a) =>
      match @command_step demo_platform debug_build (UdpSendCommand "192.0.2.1" 10007 "hello") false t a with
      | Ret (t, _, a) => (t, a)
      | _ => (t, a)
      end
  | _ => (thread_start, demo_app)
  end.

Lemma wire_well_formed_witness : exists d,
  length (written d) = 1%nat /\ Forall (fun frame => ETH_FRAME_MIN <= zlen frame <= ETH_FRAME_MAX) (written d).
Proof.
  destruct (@wire_well_formed demo_platform debug_build (UdpSendCommand "192.0.2.1" 10007 "hello") env_init demo_app
    (fst demo_app_sent) (snd demo_app_sent)) as (lo & d & qa & qi & Hv & Hd & Hw); [done|by vm_compute| |].
  - eapply rtc_l; [|eapply rtc_l; [|apply rtc_refl]].
    + eapply (@as_command demo_platform debug_build _ thread_start demo_app false _ []). by vm_compute.
    + eapply (@as_command demo_platform debug_build _ _ _ false _ []). by vm_compute.
  - exists d. split.
    + destruct Hv as [Hds _ _ _]. 
      assert (map (fun d => length (written d)) (to_list (device_entries (app_devices (snd demo_app_sent)))) = [0%nat; 1%nat]) as E
        by by vm_compute.
      rewrite Hds in E. by injection E.
    + eapply Forall_impl; [exact Hw|]. by intros frame [Hf _].
Defined.
