(* ===== verification/CommandProps.v ===== *)
(** * The commands: what they put on the wire

    The UDP command sends its request twice, because the first one is lost when
    the hardware address of the next hop is not known yet. *)
From S2P Require Import Prelude Platform LinkedList Bytes Checksum IpTypes Devices Arp Ip Transport Icmp Udp TcpTypes TcpOutput TcpInput TcpUser TcpInv Stack StackFrame StackProps Commands AppInv.

Section command_lemmas.
Context `{Platform} `{BuildProfile}.
Implicit Types (n : Net) (a : NetApp) (d lo : NetDevice) (t : CmdThread).

(** A socket bound to a port of every address sends from the address of the
    interface, and from port 0. *)
Lemma udp_send_to_any i pcb data remote route pcbs n : pcbs !! i = Some pcb ->
  address (local_endpoint pcb) = IP_ADDR_ANY -> port (local_endpoint pcb) <> 0 ->
  lookup_ip_route (ip_routes (net_ctx n)) (address remote) = Some route ->
  udp_send_to i data remote pcbs n = udp_output (mkIPEndpoint (unicast (route_interface route)) 0) remote data n.
Proof.
  intros Hi Ha Hp Hr. unfold udp_send_to, pcb_at. rewrite Hi. cbn [unwrap]. rewrite bind_ret. cbv zeta.
  rewrite Ha. change (address (IPEndpoint_new IP_ADDR_ANY 0)) with IP_ADDR_ANY. rewrite Z.eqb_refl.
  unfold get_interface_for. rewrite Hr. cbn [unwrap]. rewrite !bind_ret.
  by rewrite (proj2 (Z.eqb_neq (port _) _)) by done.
Qed.

(** What [on_ethernet] does with an operation that returns. *)
Lemma on_ethernet_Ret {A} (f : Net -> outcome (A * Net)) a lo d qa qi r n' :
  app_view a lo d qa qi -> device_type lo = Loopback -> device_type d = Ethernet ->
  f (app_net a d) = Ret (r, n') -> irq (irq_entry (net_dev n')) = IRQ_ETHERNET ->
  exists a', on_ethernet f a = Ret (r, a') /\ app_view a' lo (net_dev n') qa qi
    /\ app_contexts a' = net_ctx n' /\ app_env a' = net_env n' /\ app_pcbs a' = app_pcbs a.
Proof.
  intros Hv Hlo Hd Hf Hirq. unfold on_ethernet.
  destruct (app_focus a lo d qa qi Hv Hlo Hd) as (put & -> & Hput). cbn [unwrap]. rewrite bind_ret.
  change (mkNet d (app_contexts a) (app_env a)) with (app_net a d). rewrite Hf, bind_ret.
  eexists. split; [reflexivity|]. destruct Hv as [Hds Hlo' Hd' Hps]. split_and!; try done.
  split; try done. apply Hput.
Qed.

Lemma sent_irq d f frame : irq (irq_entry (sent d f frame)) = irq (irq_entry d).
Proof. unfold sent, with_file. by case_match. Qed.
End command_lemmas.

(** A text of ASCII characters is logged as text. *)
Lemma log_data_ascii data : Forall (fun b => 0 <= b < 128) data -> log_data data = InfoReceived data.
Proof.
  intros Hd. unfold log_data. assert (from_utf8 data = true) as ->; [|done].
  induction Hd as [|b data Hb _ IH]; [done|]. cbn [from_utf8]. by rewrite (proj2 (Z.ltb_lt b 0x80)) by lia.
Qed.

Example log_data_euro : log_data [0xe2; 0x82; 0xac] = InfoReceived [0xe2; 0x82; 0xac].
Proof. reflexivity. Qed.
Example log_data_surrogate : log_data [0xed; 0xa0; 0x80] = WarnUtf8 [0xed; 0xa0; 0x80].
Proof. reflexivity. Qed.

(** ** Properties *)

Section command_properties.
Context `{Platform} `{BuildProfile}.
Implicit Types (a : NetApp) (d lo : NetDevice) (t : CmdThread).

(** C16: the requests of [udp send].  Before its second request, the command
    sends the data, with the escapes replaced, in one datagram to the target,
    when the hardware address of the next hop is cached; when it is not, the
    request is lost and one ARP request for the next hop is broadcast instead.
    The datagram comes from the interface's address and from port 0, not from
    the port 7 the socket is bound to.  After two requests the command waits
    for an answer. *)
Theorem udp_send_command_requests ip p data stop t a lo d f qa qi i pcb remote route :
  let src := mkIPEndpoint (unicast (route_interface route)) 0 in
  let request := udp_segment src remote (request_bytes data) in
  let n := app_net a d in
  app_view a lo d qa qi -> device_type lo = Loopback -> eth_ready d f -> needs_arp d = true ->
  at_point t = AtRequest -> sock_opt t = Some i -> udp_pcbs (app_pcbs a) !! i = Some pcb ->
  address (local_endpoint pcb) = IP_ADDR_ANY -> port (local_endpoint pcb) <> 0 ->
  IPEndpoint_new_from_str ip p = Ret remote -> ip_sendable n route (address src) (address remote) request ->
  is_broadcast route (address remote) = false ->
  let t' := t <|sent_count := sent_count t + 1|> <|at_point := AtTop|> in
  (sent_count t < 2 -> arp_entries (arp_table (app_contexts a)) !! hop_of route (address remote) = None ->
    exists a', udp_send_command ip p data stop t a = Ret (t', [], a') /\ app_pcbs a' = app_pcbs a
    /\ app_view a' lo (sent d f (eth_frame (bcast_mac d) (dev_mac d) ProtoArp (ArpMessage_bytes
         (arp_msg ARP_OP_REQUEST (dev_mac d) (unicast (route_interface route)) (replicate 6 0)
            (hop_of route (address remote)))))) qa qi)
  /\ (forall mac, sent_count t < 2 -> arp_fresh n (hop_of route (address remote)) mac -> mac_wf mac ->
    exists a', udp_send_command ip p data stop t a = Ret (t', [], a') /\ app_pcbs a' = app_pcbs a
    /\ app_view a' lo (sent d f (eth_frame mac (dev_mac d) ProtoIP
         (ip_datagram Udp (address src) (address remote) (next_id n) request))) qa qi)
  /\ (2 <= sent_count t -> exists a' c, udp_send_command ip p data stop t a =
        Ret (t <|at_point := AtUdpReceive c i|>, [], a') /\ app_view a' lo d qa qi).
Proof.
  intros src request n Hv Hlo R Hna Hat Hsock Hi Hany Hp Hrem Hs Hb t'.
  pose proof (is_len _ _ _ _ _ Hs) as Hlen. unfold request in Hlen. rewrite udp_segment_len in Hlen.
  pose proof (zlen_nonneg (request_bytes data)).
  assert (zlen (request_bytes data) <= UDP_DATA_MAX) as Hmax.
  { unfold ETH_PAYLOAD_MAX, ETH_FRAME_MAX, ETH_HDR_SIZE in Hlen.
    unfold UDP_DATA_MAX, IP_PAYLOAD_MAX_SIZE, IP_MAX_SIZE, IP_HEADER_MIN_SIZE, u16_max. lia. }
  assert (irq (irq_entry d) = IRQ_ETHERNET) as Hirq by apply Hv.
  assert (forall n', sent_count t < 2 -> ip_output Udp request (address src) (address remote) n = Ret (Ok tt, n') ->
    irq (irq_entry (net_dev n')) = IRQ_ETHERNET ->
    exists a', udp_send_command ip p data stop t a = Ret (t', [], a') /\ app_pcbs a' = app_pcbs a
      /\ app_view a' lo (net_dev n') qa qi) as Go.
  { intros n' Hc E Hirq'. unfold udp_send_command. rewrite Hat, (proj2 (Z.ltb_lt _ _)), Hrem, bind_ret, Hsock by done.
    cbn [unwrap]. rewrite bind_ret.
    destruct (on_ethernet_Ret (fun n => n ← udp_send_to i (request_bytes data) remote (udp_pcbs (app_pcbs a)) n;
      Ret (tt, n)) a lo d qa qi tt n' Hv Hlo (er_type _ _ R)) as (a' & -> & Hv' & _ & _ & Hpc); [|done|].
    - rewrite (udp_send_to_any i pcb _ _ route); [|done..|apply (is_route _ _ _ _ _ Hs)].
      rewrite udp_output_segment by (done || apply request_bytes_ok). fold n src request. by rewrite E.
    - exists a'. by rewrite bind_ret. }
  split_and!.
  - intros Hc Hmiss. pose proof (ip_output_unresolved n f route Udp _ _ request R Hna Hs Hb Hmiss) as E.
    destruct (Go _ Hc E) as (a' & E' & Hpc & Hv'); [by rewrite <-Hirq; apply sent_irq|]. by exists a'.
  - intros mac Hc Hf Hm. destruct (Go (ip_sent n f Udp (address src) (address remote) mac request)) as (a' & E & Hpc & Hv');
      [done|by apply (ip_output_resolved n f route)|by rewrite <-Hirq; apply sent_irq|].
    exists a'. by split_and!.
  - intros Hc. unfold udp_send_command. rewrite Hat, (proj2 (Z.ltb_ge _ _)) by done.
    unfold udp_start_receive. rewrite Hsock. cbn [unwrap]. rewrite bind_ret.
    unfold udp_receive_start, pcb_at. cbn [channel]. rewrite Hi. cbn [unwrap]. rewrite !bind_ret. cbn [quiet].
    eexists _, _. split; [reflexivity|]. by destruct Hv.
Qed.
End command_properties.

(** ** A concrete command, for evaluation: a socket on 0.0.0.0:7. *)
Definition demo_any_pcb : UdpPcb := mkUdpPcb UdpOpen (mkIPEndpoint IP_ADDR_ANY (le_to_be_u16 7)) None [].

Definition demo_sender : NetApp :=
  mkNetApp (mkNetDevices (from_list [loopback_init 0; demo_device 2 0x020200c0 (mkTapFile [] [])]))
    (mkNetProtocols (from_list [mkNetProtocol ProtoArp []; mkNetProtocol ProtoIP []]))
    (demo_ctx 0x020200c0) (mkControlBlocks (demo_any_pcb :: replicate 15 UdpPcb_new) TcpPcbs_new) env_init.

Lemma udp_send_command_requests_witness :
  let t := mkCmdThread (Some 0%nat) false 0 AtRequest in
  exists a', @udp_send_command demo_platform debug_build "192.0.2.1" 10007 "hello\n" false t demo_sender =
    Ret (mkCmdThread (Some 0%nat) false 1 AtTop, [], a').
Proof.
  intros t.
  destruct (proj1 (@udp_send_command_requests demo_platform debug_build "192.0.2.1" 10007 "hello\n" false t demo_sender
    (loopback_init 0) (demo_device 2 0x020200c0 (mkTapFile [] [])) (mkTapFile [] []) [] [] 0 demo_any_pcb
    (mkIPEndpoint 0x010200c0 (le_to_be_u16 10007)) (interface_route (demo_iface 0x020200c0))
    ltac:(by split) ltac:(done) ltac:(by apply demo_device_ready) ltac:(done) ltac:(done) ltac:(done) ltac:(done)
    ltac:(done) ltac:(by vm_compute) ltac:(by vm_compute) ltac:(by split; [|right| | | |]) ltac:(done)))
    as (a' & E & _); [done|done|]. by exists a'.
Defined.
