(* ===== verification/Termination.v ===== *)
(** * Termination

    The loops of the source whose end is not apparent from their shape - the
    folding of carries, the segments of [send] - are definitions with fuel.
    [fuelled] says that a computation ends before its fuel does.  Every step of
    the running program is: whatever happens, a critical section is left again,
    with a result, a panic, or a wait on an empty channel. *)
From S2P Require Import Prelude Platform LinkedList Bytes Checksum IpTypes Devices Arp Ip Transport Icmp Udp TcpTypes TcpOutput TcpInput TcpUser TcpInv TcpSafety Stack StackFrame StackProps Commands AppInv.

#[local] Set Warnings "-register-all".

Definition fuelled {A} (m : outcome A) : Prop := match m with NoFuel => False | _ => True end.

Create HintDb fuel.

(** ** Composition *)

Lemma fuelled_bind {A B} (m : outcome A) (f : A -> outcome B) :
  fuelled m -> (forall a, m = Ret a -> fuelled (f a)) -> fuelled (x ← m; f x).
Proof. destruct m; simpl; auto. Qed.

Lemma fuelled_bind_all {A B} (m : outcome A) (f : A -> outcome B) :
  fuelled m -> (forall a, fuelled (f a)) -> fuelled (x ← m; f x).
Proof. destruct m; simpl; auto. Qed.

Lemma defined_fuelled {A} (m : outcome A) : defined m -> fuelled m.
Proof. by destruct m. Qed.

Lemma fuelled_traverse_list {S T} (body : S -> T -> outcome (S * T * loop_ctl)) l s :
  (forall s x, fuelled (body s x)) -> fuelled (traverse_list body l s).
Proof.
  intros Hb. revert s. induction l as [|x l IH]; intros s; cbn [traverse_list]; [done|].
  apply fuelled_bind_all; [apply Hb|]. intros [[s' x'] []]; [|done].
  apply fuelled_bind_all; [apply IH|]. by intros [? ?].
Qed.

Lemma fuelled_traverse {S T} (body : S -> T -> outcome (S * T * loop_ctl)) l s :
  (forall s x, fuelled (body s x)) -> fuelled (traverse body l s).
Proof.
  intros Hb. pose proof (fuelled_traverse_list body (to_list l) s Hb) as F. rewrite <-traverse_view in F.
  by destruct (traverse body l s).
Qed.

(** One step: a known computation, a bind, or a case split. *)
Ltac fuel_step :=
  lazymatch goal with
  | |- fuelled (mbind _ _) => apply fuelled_bind_all; [|intros ?]
  | |- fuelled (Ret _) => exact I
  | |- fuelled Panic => exact I
  | |- fuelled Blocks => exact I
  | |- fuelled (if ?b then _ else _) => destruct b
  | |- fuelled (let '_ := ?x in _) => destruct x
  | |- fuelled (match ?x with _ => _ end) => destruct x
  | |- fuelled _ => solve [eauto 3 with fuel]
  end.
Ltac fuel_tac := cbv zeta; repeat (fuel_step; cbv beta iota).

(** ** Primitives *)

#[export] Hint Resolve defined_fuelled : fuel.
#[export] Hint Resolve unwrap_defined unwrap_result_defined index_defined slice_defined slice_from_defined
  set_index_defined checked_defined put_check_sum_defined pcb_at_defined cksum16_0_defined ip_output_defined : fuel.

#[export] Hint Extern 1 (fuelled (bytes_to_struct _ _)) => unfold bytes_to_struct; case_match; exact I : fuel.
#[export] Hint Extern 1 (fuelled (add_u16 _ _)) => apply defined_fuelled, checked_defined : fuel.
#[export] Hint Extern 1 (fuelled (sub_u16 _ _)) => apply defined_fuelled, checked_defined : fuel.
#[export] Hint Extern 1 (fuelled (add_u32 _ _)) => apply defined_fuelled, checked_defined : fuel.
#[export] Hint Extern 1 (fuelled (sub_u32 _ _)) => apply defined_fuelled, checked_defined : fuel.
#[export] Hint Extern 1 (fuelled (add_usize _ _)) => apply defined_fuelled, checked_defined : fuel.
#[export] Hint Extern 1 (fuelled (sub_usize _ _)) => apply defined_fuelled, checked_defined : fuel.

Section primitives.
Context `{Platform} `{BuildProfile}.

Lemma chan_recv_fuelled c e : fuelled (chan_recv c e).
Proof. unfold chan_recv. fuel_tac. Qed.

Lemma send_unwrap_fuelled o b e : fuelled (send_unwrap o b e).
Proof. unfold send_unwrap. fuel_tac. Qed.

Lemma cksum16_pair_fuelled {A} d len d' len' (k : Z -> Z -> outcome A) :
  (forall ps s, fuelled (k ps s)) ->
  fuelled (ps ← cksum16 d len 0; s ← cksum16 d' len' (not_u16 ps); k ps s).
Proof.
  intros Hk. apply fuelled_bind; [eauto with fuel|]. intros ps E.
  pose proof (cksum16_range d len 0) as R. rewrite E in R. cbn in R.
  apply fuelled_bind_all; [|auto]. apply defined_fuelled, cksum16_defined.
  unfold in_u16, in_u32, not_u16 in *. lia.
Qed.

Lemma addr_parts_fuelled k i parts res : fuelled (addr_parts k i parts res).
Proof.
  revert i parts res. induction k as [|k IH]; intros i parts res; cbn [addr_parts]; fuel_tac.
Qed.

Lemma new_from_str_fuelled s p : fuelled (IPEndpoint_new_from_str s p).
Proof.
  unfold IPEndpoint_new_from_str, ip_addr_to_bytes. pose proof addr_parts_fuelled. fuel_tac.
Qed.

Lemma output_segment_fuelled s a fl w data l r n : fuelled (output_segment s a fl w data l r n).
Proof. apply defined_fuelled, output_segment_defined. Qed.

Lemma tcp_output_fuelled p fl data n : fuelled (tcp_output p fl data n).
Proof. apply defined_fuelled, tcp_output_defined. Qed.
End primitives.
#[export] Hint Resolve chan_recv_fuelled send_unwrap_fuelled new_from_str_fuelled output_segment_fuelled
  tcp_output_fuelled : fuel.

(** ** Received packets *)

Section packets.
Context `{Platform} `{BuildProfile}.
Implicit Types (n : Net) (a : NetApp).

Lemma arp_input_fuelled data len n : fuelled (arp_input data len n).
Proof. unfold arp_input. pose proof arp_reply_defined. fuel_tac. Qed.

Lemma icmp_input_fuelled data len src dst iface n : fuelled (icmp_input data len src dst iface n).
Proof. unfold icmp_input. pose proof icmp_output_defined. fuel_tac. Qed.

Lemma udp_input_fuelled data len src dst pcbs e : fuelled (udp_input data len src dst pcbs e).
Proof.
  unfold udp_input. cbv zeta. apply fuelled_bind_all; [eauto with fuel|intros h]. fuel_step; [done|].
  apply (cksum16_pair_fuelled _ _ _ _ (fun _ sum => if negb (sum =? 0) then _ else _)). intros _ sum. fuel_tac.
Qed.

Lemma tcp_input_fuelled data len src dst iface s : fuelled (tcp_input data len src dst iface s).
Proof.
  unfold tcp_input. cbv zeta. apply fuelled_bind_all; [eauto with fuel|intros h]. fuel_step; [done|].
  apply (cksum16_pair_fuelled _ _ _ _ (fun _ sum => if negb (sum =? 0) then _ else _)). intros _ sum.
  pose proof segment_arrives_defined. fuel_tac.
Qed.

Lemma ip_input_fuelled data len n pcbs : fuelled (ip_input data len n pcbs).
Proof.
  unfold ip_input, transport_input. pose proof icmp_input_fuelled. pose proof udp_input_fuelled.
  pose proof tcp_input_fuelled. pose proof check_ip_header_defined. fuel_tac.
Qed.

Lemma protocol_input_fuelled ty data len n pcbs : fuelled (protocol_input ty data len n pcbs).
Proof.
  unfold protocol_input. pose proof arp_input_fuelled. pose proof ip_input_fuelled. fuel_tac.
Qed.

Lemma handle_queue_fuelled ty q ds s : fuelled (handle_queue ty q ds s).
Proof.
  pose proof protocol_input_fuelled.
  revert ds s. induction q as [|pd q IH]; intros ds s; cbn [handle_queue]; [done|].
  apply fuelled_bind_all; [eauto with fuel|intros data].
  apply fuelled_bind_all; [|intros [? ?]; apply IH].
  apply fuelled_traverse. intros s' d. unfold input_on_device. fuel_tac.
Qed.

Lemma handle_protocol_fuelled a : fuelled (handle_protocol a).
Proof.
  unfold handle_protocol, handle_data. pose proof handle_queue_fuelled.
  apply fuelled_bind_all; [|intros [[? ?] ?]; exact I]. apply fuelled_bind_all; [|intros [? ?]; exact I].
  apply fuelled_traverse. intros s p. unfold handle_data_body, handle_input. fuel_tac.
Qed.

Lemma handle_irq_fuelled k a : fuelled (handle_irq k a).
Proof.
  unfold handle_irq, devices_handle_irq.
  apply fuelled_bind_all; [|intros [[? ?] ?]; exact I]. apply fuelled_bind_all; [|intros [[? ?] ?]; exact I].
  apply fuelled_traverse. intros [ps e] d. unfold handle_irq_body, isr.
  fuel_step; [|done]. apply fuelled_bind_all; [|intros [[? ?] ?]; exact I].
  apply fuelled_bind_all.
  - unfold ethernet_read_data, tap_read_data, tap_read, loopback_read_data. fuel_tac.
  - intros [[[[ty data] len]|] d']; [|exact I]. apply fuelled_bind_all; [|intros [? ?]; exact I].
    apply fuelled_traverse. intros s p. unfold isr_enqueue. fuel_tac.
Qed.

Lemma on_signal_fuelled ts sig a : fuelled (on_signal ts sig a).
Proof. unfold on_signal. pose proof handle_protocol_fuelled. pose proof handle_irq_fuelled. fuel_tac. Qed.
End packets.

(** ** Commands and the retransmission thread *)

Section threads.
Context `{Platform} `{BuildProfile}.
Implicit Types (n : Net) (a : NetApp) (s : TcpSys) (t : CmdThread).

Lemma retransmit_queue_fuelled q p n : fuelled (retransmit_queue q p n).
Proof. revert p n. induction q as [|e q IH]; intros p n; cbn [retransmit_queue]; fuel_tac. Qed.

Lemma retransmit_fuelled pcbs n : fuelled (retransmit pcbs n).
Proof.
  revert n. pose proof retransmit_queue_fuelled.
  induction pcbs as [|p pcbs IH]; intros n; cbn [retransmit]; unfold retransmit_pcb; fuel_tac.
Qed.

(** Each round of the loop of [send] takes at least one byte of the data. *)
Lemma send_loop_fuelled fuel c i data mss cap sent s : 0 < mss -> zlen data <= Z.of_nat fuel + sent ->
  fuelled (send_loop fuel c i data mss cap sent s).
Proof.
  intros Hm. revert sent s. induction fuel as [|fuel IH]; intros sent s Hf; cbn [send_loop].
  - destruct (sent <? zlen data) eqn:E; [|done]. lia.
  - destruct (sent <? zlen data) eqn:E; [|done]. cbn [negb]. apply Z.ltb_lt in E.
    destruct (cap <? 1) eqn:Ec; [fuel_tac|]. apply Z.ltb_ge in Ec.
    do 2 (apply fuelled_bind_all; [eauto with fuel|intros ?]).
    apply fuelled_bind_all; [eauto with fuel|intros [[? ?] ?]].
    apply fuelled_bind_all; [eauto with fuel|intros ?]. apply IH. lia.
Qed.

Lemma tcp_send_round_fuelled c i data sent s : 0 <= sent -> mtu (net_dev (tcp_net s)) = ETH_PAYLOAD_MAX ->
  fuelled (tcp_send_round c i data sent s).
Proof.
  intros Hs Hm. unfold tcp_send_round. apply fuelled_bind_all; [eauto with fuel|intros p]. cbv zeta. rewrite Hm.
  case_match; [|done]. change (sub_usize _ _) with (checked 18446744073709551616 1460).
  rewrite checked_ok, bind_ret by done.
  case_match; [done|]. do 2 (apply fuelled_bind_all; [eauto with fuel|intros ?]).
  apply fuelled_bind_all; [|intros [[] ?]; exact I]. apply send_loop_fuelled; [done|]. unfold zlen. lia.
Qed.

(** [sent] never goes back. *)
Lemma send_loop_grows fuel c i data mss cap sent s : 0 <= mss ->
  ensures (send_loop fuel c i data mss cap sent s) (fun '(r, _) => forall sent', r = Woken sent' -> sent <= sent').
Proof.
  intros Hm. revert sent s. induction fuel as [|fuel IH]; intros sent s; cbn [send_loop];
    (destruct (sent <? zlen data) eqn:E; [|done]); cbn [negb]; apply Z.ltb_lt in E;
    (destruct (cap <? 1) eqn:Ec; [|try done]).
  1,2: apply ensures_bind, ensures_Ret; intros [r e] _; apply ensures_bind, ensures_Ret; intros [] _; cbn; intros ? [=]; lia.
  apply Z.ltb_ge in Ec. do 2 (apply ensures_bind, ensures_Ret; intros ? _).
  apply ensures_bind, ensures_Ret; intros [[? ?] ?] _. apply ensures_bind, ensures_Ret; intros ? _.
  eapply ensures_mono; [apply IH|]. intros [r s'] Hr sent' ->. specialize (Hr _ eq_refl). lia.
Qed.

Lemma tcp_send_round_grows c i data sent s :
  ensures (tcp_send_round c i data sent s) (fun '(r, _) => forall sent', r = Again sent' -> sent <= sent').
Proof.
  unfold tcp_send_round. apply ensures_bind, ensures_Ret; intros p _. cbv zeta. case_match; [|done].
  eapply ensures_bind2; [apply sub_usize_range|]. intros mss [Hm _]. case_match; [done|].
  do 2 (apply ensures_bind, ensures_Ret; intros ? _).
  eapply ensures_bind2; [by apply send_loop_grows|]. intros [[z|z|] s'] Hr; cbn; intros sent' [=]. subst. by apply Hr.
Qed.

Lemma tcp_open_fuelled local r act s : fuelled (rfc793_open local r act s).
Proof. unfold rfc793_open, send_syn. fuel_tac. Qed.
Lemma rfc793_open_wake_fuelled c i s : fuelled (rfc793_open_wake c i s).
Proof. unfold rfc793_open_wake. fuel_tac. Qed.
Lemma tcp_send_fuelled i s : fuelled (tcp_send i s).
Proof. unfold tcp_send. fuel_tac. Qed.
Lemma tcp_receive_fuelled i s : fuelled (tcp_receive i s).
Proof. unfold tcp_receive. fuel_tac. Qed.
Lemma tcp_receive_round_fuelled c i size v s : fuelled (tcp_receive_round c i size v s).
Proof. unfold tcp_receive_round, receive_take. fuel_tac. Qed.
Lemma udp_send_to_fuelled i data remote pcbs n : fuelled (udp_send_to i data remote pcbs n).
Proof.
  assert (forall l r d n, fuelled (udp_output l r d n)) as Ho.
  { intros l r d m. unfold udp_output. fuel_step; [done|].
    apply (cksum16_pair_fuelled _ _ _ _ (fun _ sum => data ← put_check_sum _ 6 sum; _)). intros _ sum. fuel_tac. }
  unfold udp_send_to. fuel_tac.
Qed.

Lemma on_ethernet_fuelled {A} (f : Net -> outcome (A * Net)) a : app_inv a ->
  (forall n, mtu (net_dev n) = ETH_PAYLOAD_MAX -> fuelled (f n)) -> fuelled (on_ethernet f a).
Proof.
  intros (lo & d & qa & qi & [Hv [Hlo _] Hd Hm _ _ _ _ _ _]) Hf. unfold on_ethernet.
  destruct (app_focus a lo d qa qi Hv Hlo Hd) as (put & -> & _). cbn [unwrap]. rewrite bind_ret.
  apply fuelled_bind_all; [by apply Hf|]. by intros [? ?].
Qed.

Lemma on_tcp_fuelled {A} (f : TcpSys -> outcome (A * TcpSys)) a : app_inv a ->
  (forall s, mtu (net_dev (tcp_net s)) = ETH_PAYLOAD_MAX -> fuelled (f s)) -> fuelled (on_tcp f a).
Proof.
  intros Ha Hf. unfold on_tcp. apply fuelled_bind_all; [|intros [[? ?] ?]; exact I].
  apply on_ethernet_fuelled; [done|]. intros n Hn. apply fuelled_bind_all; [by apply Hf|]. by intros [? ?].
Qed.

Lemma on_tcp_pcbs_fuelled {A} (f : TcpSys -> outcome (A * TcpSys)) a :
  (forall s, fuelled (f s)) -> fuelled (on_tcp_pcbs f a).
Proof. intros Hf. unfold on_tcp_pcbs. apply fuelled_bind_all; [apply Hf|]. by intros [? ?]. Qed.
End threads.
#[export] Hint Resolve tcp_open_fuelled rfc793_open_wake_fuelled tcp_send_fuelled tcp_receive_fuelled
  tcp_receive_round_fuelled udp_send_to_fuelled : fuel.

(** ** The program *)

(** A thread inside [send] has sent no less than nothing. *)
Definition thread_ok (t : CmdThread) : Prop := match at_point t with AtSend _ _ sent => 0 <= sent | _ => True end.

Section program.
Context `{Platform} `{BuildProfile}.
Implicit Types (a : NetApp) (t : CmdThread).

Lemma quiet_fuelled m : fuelled m -> fuelled (quiet m).
Proof. intros. unfold quiet. apply fuelled_bind_all; [done|]. by intros [? ?]. Qed.
Lemma open_with_fuelled local r act t a : app_inv a -> fuelled (open_with local r act t a).
Proof.
  intros. unfold open_with. apply fuelled_bind_all; [|intros [[? ?] ?]; exact I].
  apply on_tcp_fuelled; [done|]. eauto with fuel.
Qed.
Lemma start_receive_fuelled t a : fuelled (start_receive t a).
Proof.
  unfold start_receive. apply fuelled_bind_all; [eauto with fuel|intros sock].
  apply fuelled_bind_all; [|intros [[? ?] ?]; exact I]. apply on_tcp_pcbs_fuelled. eauto with fuel.
Qed.
Lemma open_wake_fuelled c i t a : fuelled (open_wake c i t a).
Proof.
  unfold open_wake. apply fuelled_bind_all; [|intros [? ?]; exact I]. apply on_tcp_pcbs_fuelled. eauto with fuel.
Qed.
Lemma receive_wake_fuelled c i v t a : fuelled (receive_wake c i v t a).
Proof.
  unfold receive_wake. apply fuelled_bind_all; [|intros [[] ?]; exact I]. apply on_tcp_pcbs_fuelled. eauto with fuel.
Qed.
Lemma udp_socket_fuelled t a : fuelled (udp_socket t a).
Proof. unfold udp_socket, udp_open, udp_bind. fuel_tac. Qed.
Lemma udp_start_receive_fuelled t a : fuelled (udp_start_receive t a).
Proof. unfold udp_start_receive, udp_receive_start. fuel_tac. Qed.
Lemma udp_receive_wake_fuelled c i t a : fuelled (udp_receive_wake c i t a).
Proof. unfold udp_receive_wake, udp_receive_finish. fuel_tac. Qed.
End program.

(** ** Properties *)

Section properties.
Context `{Platform} `{BuildProfile}.
Implicit Types (a : NetApp) (t : CmdThread).

Lemma on_tcp_result {A} (f : TcpSys -> outcome (A * TcpSys)) a (Q : A -> Prop) :
  (forall s, ensures (f s) (fun '(r, _) => Q r)) -> ensures (on_tcp f a) (fun '(r, _) => Q r).
Proof.
  intros Hf. unfold on_tcp, on_ethernet.
  eapply (ensures_bind2 _ _ (fun '((r, _), _) => Q r)); [|by intros [[r pcbs] a']].
  apply ensures_bind, ensures_Ret. intros [d put] _.
  eapply (ensures_bind2 _ _ (fun '((r, _), _) => Q r)); [|by intros [[r pcbs] n]].
  eapply ensures_bind2; [apply Hf|]. by intros [r s] Hr.
Qed.

(** Where a thread may be after a step: [sent] is counted up from 0. *)
Abbreviation keeps_thread m := (ensures m (fun '(t', _, _) => thread_ok t')) (only parsing).

Lemma open_with_thread l r act t a : keeps_thread (quiet (open_with l r act t a)).
Proof. unfold quiet, open_with. do 2 apply ensures_bind. apply ensures_Ret. by intros [[c i] a'] _. Qed.
Lemma open_wake_thread c i t a : thread_ok t -> keeps_thread (quiet (open_wake c i t a)).
Proof. intros. unfold quiet, open_wake. do 2 apply ensures_bind. apply ensures_Ret. by intros [[r|r] a'] _. Qed.
Lemma start_receive_thread t a : keeps_thread (quiet (start_receive t a)).
Proof.
  unfold quiet, start_receive. do 2 apply ensures_bind. apply ensures_Ret. intros sock _.
  apply ensures_bind, ensures_Ret. by intros [[c v] a'] _.
Qed.
Lemma receive_wake_thread c i v t a : keeps_thread (receive_wake c i v t a).
Proof. unfold receive_wake. apply ensures_bind, ensures_Ret. by intros [[r|r] a'] _. Qed.
Lemma udp_socket_thread t a : keeps_thread ('(t, a) ← udp_socket t a; Ret (t <|at_point := AtRequest|>, [] : list (list Z), a)).
Proof. apply ensures_bind, ensures_Ret. by intros [t' a'] _. Qed.
Lemma udp_start_receive_thread t a : keeps_thread (quiet (udp_start_receive t a)).
Proof.
  unfold quiet, udp_start_receive. do 2 apply ensures_bind. apply ensures_Ret; intros ? _.
  apply ensures_bind, ensures_Ret. by intros [[c pcbs] e] _.
Qed.
Lemma udp_receive_wake_thread c i t a : keeps_thread (udp_receive_wake c i t a).
Proof. unfold udp_receive_wake. apply ensures_bind, ensures_Ret. by intros [[r pcbs] e] _. Qed.

Lemma tcp_send_command_thread ip port data stop t a : thread_ok t ->
  keeps_thread (tcp_send_command ip port data stop t a).
Proof.
  intros Ht. pose proof open_wake_thread. pose proof receive_wake_thread. unfold tcp_send_command.
  destruct (at_point t) eqn:E; try done; auto.
  - repeat (case_match; [done|]). do 2 (apply ensures_bind, ensures_Ret; intros ? _). apply open_with_thread.
  - case_match; [|apply start_receive_thread]. apply ensures_bind, ensures_Ret; intros sock _.
    apply ensures_bind, ensures_Ret. by intros [c a'] _.
  - eapply ensures_bind2; [apply (on_tcp_result _ a (fun r => forall sent', r = Again sent' -> sent <= sent'));
      intros s; apply tcp_send_round_grows|].
    intros [[r|sent'] a'] Hs; [done|]. specialize (Hs _ eq_refl). unfold thread_ok in *. rewrite E in Ht. cbn. lia.
Qed.

Lemma command_step_thread_ok cmd stop t a : thread_ok t -> keeps_thread (command_step cmd stop t a).
Proof.
  intros Ht. pose proof open_wake_thread. pose proof receive_wake_thread. pose proof start_receive_thread.
  pose proof open_with_thread. pose proof udp_socket_thread. pose proof udp_start_receive_thread.
  pose proof udp_receive_wake_thread. destruct cmd; cbn [command_step].
  - by apply tcp_send_command_thread.
  - unfold tcp_receive_command. destruct (at_point t); try done; auto; repeat (case_match; [done|]); auto.
    apply ensures_bind, ensures_Ret; auto.
  - unfold udp_send_command. destruct (at_point t); try done; auto; repeat (case_match; try done); auto.
    do 2 (apply ensures_bind, ensures_Ret; intros ? _). apply ensures_bind, ensures_Ret. by intros [[] a'] _.
  - unfold udp_receive_command. destruct (at_point t); try done; auto; repeat (case_match; [done|]); auto.
Qed.

Lemma command_step_fuelled cmd stop t a : app_inv a -> thread_ok t -> fuelled (command_step cmd stop t a).
Proof.
  intros Ha Ht. pose proof quiet_fuelled. pose proof open_with_fuelled. pose proof start_receive_fuelled.
  pose proof open_wake_fuelled. pose proof receive_wake_fuelled. pose proof udp_socket_fuelled.
  pose proof udp_start_receive_fuelled. pose proof udp_receive_wake_fuelled.
  destruct cmd; cbn [command_step].
  - unfold tcp_send_command. unfold thread_ok in Ht. destruct (at_point t); fuel_tac; apply on_tcp_fuelled;
      eauto with fuel; intros; by apply tcp_send_round_fuelled.
  - unfold tcp_receive_command. fuel_tac.
  - unfold udp_send_command. fuel_tac. apply on_ethernet_fuelled; [done|]. intros n _. fuel_tac.
  - unfold udp_receive_command. fuel_tac.
Qed.
Lemma app_step_thread_ok cmd s s' : app_step cmd s s' -> thread_ok (fst s) -> thread_ok (fst s').
Proof.
  intros St Ht. destruct St as [| | |t a stop t' logs a' E]; [done..|]. cbn [fst] in *.
  pose proof (command_step_thread_ok cmd stop t a Ht) as P. by rewrite E in P.
Qed.

(** C5: every step of the program comes to an end.  From any state the program
    reaches, with any command, any frames and any interleaving, a handled signal,
    a round of the retransmission thread, the closing of the sockets and the next
    step of the command all end before the fuel of their loops: the carries of a
    checksum are folded after two rounds, [send] makes progress with every
    segment, and what is left of a wait is the wait on an empty channel. *)
Theorem app_steps_terminate cmd e a0 t a : command_wf cmd -> NetApp_new e = Ret a0 ->
  rtc (app_step cmd) (thread_start, a0) (t, a) ->
  (forall term_signals sig, fuelled (on_signal term_signals sig a))
  /\ (forall frames a1 term_signals sig, tap_deliver frames a = Ret a1 -> fuelled (on_signal term_signals sig a1))
  /\ (forall stop, fuelled (tcp_transmit_thread stop a))
  /\ fuelled (app_close_sockets a)
  /\ (forall stop, fuelled (command_step cmd stop t a)).
Proof.
  intros Hc E Hr. pose proof (app_reachable cmd e a0 t a Hc E Hr) as Ha.
  assert (thread_ok t) as Ht.
  { assert (thread_ok (fst (thread_start, a0))) as P by done. change (thread_ok (fst (t, a))). clear E Ha.
    induction Hr as [|s1 s2 s3 St _ IH]; [done|]. apply IH. by eapply app_step_thread_ok. }
  split_and!.
  - intros. apply on_signal_fuelled.
  - intros. apply on_signal_fuelled.
  - intros stop. unfold tcp_transmit_thread, tcp_transmit. case_match; [done|].
    apply fuelled_bind_all; [|done]. apply fuelled_bind_all; [|by intros [? ?]].
    apply on_ethernet_fuelled; [done|]. intros. apply retransmit_fuelled.
  - unfold app_close_sockets. apply fuelled_bind_all; [|intros; by case_match].
    generalize (app_env a). induction (udp_pcbs (app_pcbs a)) as [|p l IH]; intros e'; cbn [udp_close_sockets]; fuel_tac.
  - intros stop. by apply command_step_fuelled.
Qed.
End properties.

Lemma app_steps_terminate_witness :
  fuelled (@command_step demo_platform debug_build UdpReceiveCommand false (fst demo_app1) (snd demo_app1)).
Proof.
  destruct (@app_steps_terminate demo_platform debug_build UdpReceiveCommand env_init demo_app (fst demo_app1) (snd demo_app1))
    as (_ & _ & _ & _ & Ht); [exact I|by vm_compute| |exact (Ht false)].
  eapply rtc_l; [|apply rtc_refl].
  eapply (@as_command demo_platform debug_build UdpReceiveCommand thread_start demo_app false _ []). by vm_compute.
Defined.
