(* ===== verification/Shutdown.v ===== *)
(** * How the commands end

    What the signal thread does when it leaves its loop - it closes the sockets,
    which wakes the thread of the command, and joins it - and the case in which
    the join never returns: a connection the peer has reset. *)
From S2P Require Import Prelude Platform LinkedList Bytes Checksum IpTypes Devices Arp Ip Transport Icmp Udp TcpTypes TcpOutput TcpInput TcpUser Stack Commands.

#[local] Set Warnings "-register-all".

(** ** Specification *)

(** [e'] is [e] with some number of [false] more in the channel [c]. *)
Definition woken (c : nat) (k : nat) (e e' : Env) : Prop :=
  forall q, env_chans e !! c = Some (mkChan q true true) ->
    env_chans e' !! c = Some (mkChan (q ++ replicate k false) true true).

(** A thread that waits: the channel is the sender of the control block, and
    nothing has been sent. *)
Definition waiting (t : CmdThread) (c : nat) (a : NetApp) : Prop :=
  env_chans (app_env a) !! c = Some (mkChan [] true true)
  /\ match at_point t with
     | AtOpen c' i => c' = c /\ sock_opt t = None /\ request_sent t = false
         /\ exists p, tcp_blocks (app_pcbs a) !! i = Some p /\ tcp_sender p = Some c
     | AtReceive c' i v => c' = c /\ rv_state v ∈ [Established; FinWait1; FinWait2] /\ PCB_BUF_LEN <= rv_window v
         /\ exists p, tcp_blocks (app_pcbs a) !! i = Some p /\ tcp_sender p = Some c
     | AtUdpReceive c' i => c' = c /\ exists p, udp_pcbs (app_pcbs a) !! i = Some p /\ udp_sender p = Some c
     | _ => False
     end.

(** The points a command can be at. *)
Definition point_of (cmd : Command) (t : CmdThread) : bool :=
  match cmd, at_point t with
  | (TcpSendCommand _ _ _ | TcpReceiveCommand), (AtOpen _ _ | AtReceive _ _ _) => true
  | (UdpSendCommand _ _ _ | UdpReceiveCommand), AtUdpReceive _ _ => true
  | _, _ => false
  end.

(** ** Lemmas *)

Section wakeups.
Context `{Platform} `{BuildProfile}.
Implicit Types (e : Env) (a : NetApp) (t : CmdThread).

Lemma woken_refl c e : woken c 0 e e.
Proof. intros q Hq. by rewrite app_nil_r. Qed.

Lemma woken_trans c k1 k2 e1 e2 e3 : woken c k1 e1 e2 -> woken c k2 e2 e3 -> woken c (k1 + k2) e1 e3.
Proof. intros H1 H2 q Hq. rewrite replicate_add, app_assoc. auto. Qed.

(** Sending [false] somewhere. *)
Lemma chan_send_woken c c' e : woken c (if bool_decide (c' = c) then 1 else 0) e (snd (chan_send c' false e)).
Proof.
  intros q Hq. unfold chan_send. case_bool_decide as E.
  - subst c'. rewrite Hq. cbn. by rewrite list_lookup_insert_eq by by eapply lookup_lt_Some.
  - cbn [replicate]. rewrite app_nil_r. destruct (env_chans e !! c') as [ch|]; [|done].
    destruct (ch_rx_alive ch); [|done]. cbn. by rewrite list_lookup_insert_ne.
Qed.

Lemma notify_woken c s e : woken c (if bool_decide (s = Some c) then 1 else 0) e (notify s false e).
Proof.
  destruct s as [c'|]; [|apply woken_refl].
  pose proof (chan_send_woken c c' e) as W. repeat case_bool_decide; simplify_eq; done.
Qed.

Lemma tcp_close_woken c pcbs e : exists k,
  woken c k e (snd (tcp_close_sockets pcbs e))
  /\ ((exists i p, pcbs !! i = Some p /\ tcp_sender p = Some c) -> (0 < k)%nat).
Proof.
  revert e. induction pcbs as [|p pcbs IH]; intros e; cbn [tcp_close_sockets].
  - exists 0%nat. split; [apply woken_refl|]. by intros (i & p & Hi & _).
  - unfold release at 1. destruct (IH (notify (tcp_sender p) false e)) as (k & Hk & Hpos).
    cbn -[notify]. change (tcp_sender (p <|tcp_state := Free|>)) with (tcp_sender p).
    destruct (tcp_close_sockets pcbs (notify (tcp_sender p) false e)) as [pcbs' e'].
    exists ((if bool_decide (tcp_sender p = Some c) then 1 else 0) + k)%nat. split.
    + eapply woken_trans; [apply notify_woken|exact Hk].
    + intros ([|i] & p' & Hi & Hs); cbn in Hi.
      * injection Hi as ->. rewrite bool_decide_eq_true_2 by done. lia.
      * assert (0 < k)%nat by (apply Hpos; by exists i, p'). lia.
Qed.

Lemma udp_close_woken c pcbs e e' : udp_close_sockets pcbs e = Ret e' -> exists k,
  woken c k e e' /\ ((exists i p, pcbs !! i = Some p /\ udp_sender p = Some c) -> (0 < k)%nat).
Proof.
  revert e. induction pcbs as [|p pcbs IH]; intros e E; cbn [udp_close_sockets] in E.
  - injection E as <-. exists 0%nat. split; [apply woken_refl|]. by intros (i & p & Hi & _).
  - inv_bind E. apply IH in E as (k & Hk & Hpos).
    assert (x = notify (udp_sender p) false e) as ->.
    { unfold send_unwrap in E0. destruct (udp_sender p) as [c'|]; [|by injection E0]. cbn.
      destruct (chan_send c' false e) as [[] e1]; cbn in E0; [by injection E0|done]. }
    exists ((if bool_decide (udp_sender p = Some c) then 1 else 0) + k)%nat. split.
    + eapply woken_trans; [apply notify_woken|exact Hk].
    + intros ([|i] & p' & Hi & Hs); cbn in Hi.
      * injection Hi as ->. rewrite bool_decide_eq_true_2 by done. lia.
      * assert (0 < k)%nat by (apply Hpos; by exists i, p'). lia.
Qed.

(** A channel somebody waits on has a [false] in front after the sockets are
    closed. *)
Lemma app_close_wakes c a a' : app_close_sockets a = Ret a' ->
  env_chans (app_env a) !! c = Some (mkChan [] true true) ->
  (exists i p, tcp_blocks (app_pcbs a) !! i = Some p /\ tcp_sender p = Some c)
  \/ (exists i p, udp_pcbs (app_pcbs a) !! i = Some p /\ udp_sender p = Some c) ->
  exists q, env_chans (app_env a') !! c = Some (mkChan (false :: q) true true).
Proof.
  intros E Hc Hs. unfold app_close_sockets in E. inv_bind E.
  destruct (udp_close_woken c _ _ _ E0) as (k1 & W1 & P1).
  destruct (tcp_close_woken c (tcp_blocks (app_pcbs a)) x) as (k2 & W2 & P2).
  destruct (tcp_close_sockets _ _) as [pcbs e2]. injection E as <-. cbn [app_env snd] in *.
  pose proof (woken_trans _ _ _ _ _ _ W1 W2 [] Hc) as W. cbn [app] in W.
  assert (exists k, (k1 + k2)%nat = S k) as [k Ek].
  { assert (0 < k1 + k2)%nat; [|exists (pred (k1 + k2)); lia]. destruct Hs as [Ht|Hu]; [specialize (P2 Ht)|specialize (P1 Hu)]; lia. }
  rewrite Ek in W. by exists (replicate k false).
Qed.
End wakeups.

Section after_closing.
Context `{Platform} `{BuildProfile}.
Implicit Types (e : Env) (a : NetApp) (t : CmdThread).

Lemma tcp_close_frees pcbs e i p : pcbs !! i = Some p ->
  exists p', fst (tcp_close_sockets pcbs e) !! i = Some p' /\ tcp_state p' = Free.
Proof.
  revert e i. induction pcbs as [|q pcbs IH]; intros e i; [done|]. cbn [tcp_close_sockets]. unfold release at 1.
  cbn -[notify]. specialize (IH (notify (tcp_sender q) false e)).
  destruct (tcp_close_sockets pcbs (notify (tcp_sender q) false e)) as [pcbs' e'].
  destruct i as [|i]; cbn; [|by apply IH]. intros [= ->]. by eexists.
Qed.

Lemma app_close_frees a a' i p : app_close_sockets a = Ret a' -> tcp_blocks (app_pcbs a) !! i = Some p ->
  exists p', tcp_blocks (app_pcbs a') !! i = Some p' /\ tcp_state p' = Free.
Proof.
  intros E Hi. unfold app_close_sockets in E. inv_bind E.
  pose proof (tcp_close_frees _ x i p Hi) as F. destruct (tcp_close_sockets _ _). by injection E as <-.
Qed.

(** The answer of a [recv] that finds [false]. *)
Lemma chan_recv_front c e b q : env_chans e !! c = Some (mkChan (b :: q) true true) ->
  exists e', chan_recv c e = Ret (Ok b, e').
Proof. intros E. unfold chan_recv. rewrite E. by eexists. Qed.

Lemma receive_wake_false c i v t a q : rv_state v ∈ [Established; FinWait1; FinWait2] ->
  PCB_BUF_LEN <= rv_window v -> env_chans (app_env a) !! c = Some (mkChan (false :: q) true true) ->
  exists a', receive_wake c i v t a = Ret (t <|at_point := AtTop|>, [], a')
    /\ tcp_blocks (app_pcbs a') = tcp_blocks (app_pcbs a).
Proof.
  intros Hv Hw Hc. destruct (chan_recv_front _ _ _ _ Hc) as [e' E].
  unfold receive_wake, on_tcp_pcbs. set (s := mkTcpSys _ _).
  assert (tcp_receive_round c i 2048 v s = Ret (Done None, with_env (drop_receiver c e') s)) as ->.
  { unfold tcp_receive_round. rewrite (proj2 (Z.leb_le _ _)) by done. change (sys_env s) with (app_env a). rewrite E.
    rewrite !elem_of_cons in Hv. by destruct Hv as [-> |[-> |[-> |Hv%not_elem_of_nil]]]. }
  by eexists.
Qed.

Lemma open_wake_false c i t a p q : tcp_blocks (app_pcbs a) !! i = Some p -> tcp_state p = Free ->
  env_chans (app_env a) !! c = Some (mkChan (false :: q) true true) ->
  exists a', open_wake c i t a = Ret (t <|sock_opt := None|> <|at_point := AtRequest|>, a').
Proof.
  intros Hi Hp Hc. destruct (chan_recv_front _ _ _ _ Hc) as [e' E].
  unfold open_wake, on_tcp_pcbs. set (s := mkTcpSys _ _).
  unfold rfc793_open_wake. change (sys_env s) with (app_env a). rewrite E. cbn [unwrap_result]. rewrite !bind_ret.
  unfold pcb_at. change (tcp_pcbs (with_env e' s)) with (tcp_blocks (app_pcbs a)). rewrite Hi. cbn [unwrap].
  cbn [mbind outcome_bind]. unfold state_is. rewrite Hp, bool_decide_eq_false_2 by done. cbn [negb orb].
  destruct (on_env _ _). by eexists.
Qed.

Lemma udp_receive_wake_false c i t a q : env_chans (app_env a) !! c = Some (mkChan (false :: q) true true) ->
  exists a', udp_receive_wake c i t a = Ret (t <|at_point := AtTop|>, [], a').
Proof.
  intros Hc. destruct (chan_recv_front _ _ _ _ Hc) as [e' E].
  unfold udp_receive_wake, udp_receive_finish. rewrite E. by eexists.
Qed.

(** [receive] in a state it neither waits nor returns in. *)
Lemma receive_wake_spins c i v t a : at_point t = AtReceive c i v -> rv_state v ∈ [Free; Closing; LastAck; TimeWait] ->
  receive_wake c i v t a = Ret (t, [], a).
Proof.
  intros Et Hv. unfold receive_wake, on_tcp_pcbs. set (s := mkTcpSys _ _).
  assert (tcp_receive_round c i 2048 v s = Ret (Again v, s)) as ->.
  { unfold tcp_receive_round. rewrite !elem_of_cons in Hv. by destruct Hv as [-> |[-> |[-> |[-> |Hv%not_elem_of_nil]]]]. }
  destruct t, a as [ds ps ctx [u p] e]. cbn in Et. by subst.
Qed.

Lemma start_receive_ready t a i p : sock_opt t = Some i -> tcp_blocks (app_pcbs a) !! i = Some p ->
  exists c v a', start_receive t a = Ret (t <|at_point := AtReceive c i v|>, a') /\ rv_state v = tcp_state p.
Proof.
  intros Hs Hi. unfold start_receive, on_tcp_pcbs, tcp_receive. rewrite Hs. cbn [unwrap]. rewrite bind_ret.
  cbn [on_env channel]. unfold pcb_at. cbn [tcp_pcbs]. rewrite Hi. by do 3 eexists.
Qed.

(** At the top of its loop a command obeys the termination check. *)
Lemma command_stops cmd t a : at_point t = AtTop ->
  command_step cmd true t a = Ret (t <|at_point := Ended|>, [], a).
Proof.
  intros E. destruct cmd; cbn [command_step];
    unfold tcp_send_command, tcp_receive_command, udp_send_command, udp_receive_command; by rewrite E.
Qed.

Lemma udp_close_panics pcbs e i p c ch : pcbs !! i = Some p -> udp_sender p = Some c ->
  env_chans e !! c = Some ch -> ch_rx_alive ch = false -> udp_close_sockets pcbs e = Panic.
Proof.
  revert e i ch. induction pcbs as [|p0 pcbs IH]; intros e i ch Hi Hs Hc Hr; [done|]. cbn [udp_close_sockets].
  unfold send_unwrap, chan_send. destruct i as [|i]; cbn in Hi.
  - injection Hi as ->. by rewrite Hs, Hc, Hr.
  - destruct (udp_sender p0) as [c0|]; [|by eapply IH].
    destruct (env_chans e !! c0) as [ch0|] eqn:E0; [|done]. destruct (ch_rx_alive ch0) eqn:Er; [|done].
    cbn [unwrap_result]. rewrite !bind_ret. eapply IH; [done..| |exact Hr]. cbn.
    rewrite list_lookup_insert_ne; [done|]. intros ->. congruence.
Qed.
End after_closing.

(** ** Properties *)

Section shutdown.
Context `{Platform} `{BuildProfile}.
Implicit Types (a : NetApp) (t : CmdThread).

(** C12: the end of the program.  When the signal loop ends and closes the
    sockets, a command that waits for data or for its connection is woken, and
    the thread ends: at its next termination check, or at once when the open was
    interrupted - except [tcp send], which panics when its open is interrupted. *)
Theorem shutdown_ends_command cmd t c a a' transmit_alive stop :
  waiting t c a -> point_of cmd t = true -> shutdown t transmit_alive a = Ret a' ->
  exists t1 a1, command_step cmd stop t a' = Ret (t1, [], a1)
  /\ match cmd, at_point t with
     | TcpSendCommand _ _ _, AtOpen _ _ => forall stop', command_step cmd stop' t1 a1 = Panic
     | _, _ => exists t2, command_step cmd true t1 a1 = Ret (t2, [], a1) /\ at_point t2 = Ended
     end.
Proof.
  intros [Hc Hw] Hp E'. assert (app_close_sockets a = Ret a') as E.
  { unfold shutdown, main_end in E'. destruct (at_point t); try done; by destruct transmit_alive. }
  clear E'. destruct (at_point t) as [| |c' i| |c' i v|c' i|] eqn:Et; try done.
  - destruct Hw as (-> & Hsock & Hsent & p & Hi & Hs).
    destruct (app_close_wakes c a a' E Hc) as [q Hq]; [left; by exists i, p|].
    destruct (app_close_frees a a' i p E Hi) as (p' & Hi' & Hp').
    destruct (open_wake_false c i t a' p' q Hi' Hp' Hq) as [a1 E1].
    eexists _, a1. destruct cmd; unfold point_of in Hp; rewrite Et in Hp; try done; cbn [command_step];
      unfold tcp_send_command, tcp_receive_command; rewrite Et, E1; (split; [reflexivity|]).
    + intros stop'. cbn. by rewrite Hsent.
    + eexists. by split.
  - destruct Hw as (-> & Hv & Hwin & p & Hi & Hs).
    destruct (app_close_wakes c a a' E Hc) as [q Hq]; [left; by exists i, p|].
    destruct (receive_wake_false c i v t a' q Hv Hwin Hq) as (a1 & E1 & _).
    eexists _, a1. destruct cmd; unfold point_of in Hp; rewrite Et in Hp; try done; cbn [command_step];
      unfold tcp_send_command, tcp_receive_command; rewrite Et; (split; [exact E1|]); eexists; by split.
  - destruct Hw as (-> & p & Hi & Hs).
    destruct (app_close_wakes c a a' E Hc) as [q Hq]; [right; by exists i, p|].
    destruct (udp_receive_wake_false c i t a' q Hq) as [a1 E1].
    eexists _, a1. destruct cmd; unfold point_of in Hp; rewrite Et in Hp; try done; cbn [command_step];
      unfold udp_send_command, udp_receive_command; rewrite Et; (split; [exact E1|]); eexists; by split.
Qed.

(** C17: shutting down between two datagrams.  [receive_from] leaves its sender
    in the socket and drops the receiver when it returns, and closing the
    sockets unwraps the failure to send: once a UDP command has received
    anything, closing the sockets outside the next [receive_from] panics. *)
Theorem udp_shutdown_panics c i t a t' logs a' p ch :
  udp_pcbs (app_pcbs a) !! i = Some p -> udp_sender p = Some c -> env_chans (app_env a) !! c = Some ch ->
  udp_receive_wake c i t a = Ret (t', logs, a') ->
  at_point t' = AtTop /\ app_close_sockets a' = Panic.
Proof.
  intros Hi Hs Hc E. unfold udp_receive_wake in E. inv_bind E. destruct x as [[r pcbs] e].
  injection E as <- _ <-. split; [done|]. unfold app_close_sockets. cbn -[udp_close_sockets tcp_close_sockets].
  unfold udp_receive_finish in E0. inv_bind E0. destruct x as [rb e1]. inv_bind E0.
  assert (exists ch', env_chans e1 !! c = Some ch') as [ch' Hc'].
  { unfold chan_recv in E. rewrite Hc in E. destruct (ch_queue ch).
    - destruct (ch_tx_alive ch); [done|]. injection E as _ <-. by eexists.
    - injection E as _ <-. cbn. rewrite list_lookup_insert_eq by by eapply lookup_lt_Some. by eexists. }
  assert (env_chans (drop_receiver c e1) !! c = Some (ch' <|ch_rx_alive := false|>)) as Hd.
  { cbn. by rewrite list_lookup_alter, decide_True, Hc'. }
  assert (exists p', pcbs !! i = Some p' /\ udp_sender p' = Some c /\ e = drop_receiver c e1) as (p' & Hi' & Hs' & ->).
  { unfold pcb_at in E0. rewrite Hi in E0. cbn [unwrap] in E0. rewrite bind_ret in E0.
    repeat case_match; simplify_eq; try (by exists p). exists (p <|data_entries := l|>). split; [|by split].
    by apply list_lookup_insert_eq, (lookup_lt_Some _ _ p). }
  by rewrite (udp_close_panics pcbs _ i p' c _ Hi' Hs' Hd).
Qed.

(** C11: a reset connection hangs the program.  When the peer resets the
    connection a command receives from, the entry is free and the thread is woken
    with [false]; its next call of [receive] finds a state the loop of the
    function neither waits nor returns in, and every step from then on, whatever
    happens to the rest of the program and whether or not it is told to stop,
    leaves the thread where it is. *)
Theorem reset_hangs_receiver cmd c i v t a p q :
  cmd = TcpReceiveCommand \/ (exists ip p data, cmd = TcpSendCommand ip p data /\ request_sent t = true) ->
  at_point t = AtReceive c i v -> sock_opt t = Some i -> rv_state v = Established -> PCB_BUF_LEN <= rv_window v ->
  tcp_blocks (app_pcbs a) !! i = Some p -> tcp_state p = Free ->
  env_chans (app_env a) !! c = Some (mkChan (false :: q) true true) ->
  exists t1 a1 t2 t3 a3,
    command_step cmd false t a = Ret (t1, [], a1)
    /\ command_step cmd false t1 a1 = Ret (t2, [], a1)
    /\ command_step cmd false t2 a1 = Ret (t3, [], a3)
    /\ at_point t3 <> Ended
    /\ forall stop a', command_step cmd stop t3 a' = Ret (t3, [], a').
Proof.
  intros Hcmd Et Hsock Hv Hw Hi Hp Hc.
  destruct (receive_wake_false c i v t a q) as [a1 E1]; [by rewrite Hv; left|done..|].
  destruct E1 as [E1 Hpcbs]. rewrite <-Hpcbs in Hi. set (t1 := t <|at_point := AtTop|>) in *.
  set (t2 := t1 <|at_point := AtRequest|>).
  destruct (start_receive_ready t2 a1 i p Hsock Hi) as (c' & v' & a3 & E3 & Hv').
  rewrite Hp in Hv'. exists t1, a1, t2, (t1 <|at_point := AtReceive c' i v'|>), a3.
  assert (forall (stop : bool) a', receive_wake c' i v' (t1 <|at_point := AtReceive c' i v'|>) a' =
    Ret (t1 <|at_point := AtReceive c' i v'|>, [], a')) as Hspin.
  { intros. apply receive_wake_spins; [done|]. rewrite Hv'. by left. }
  destruct Hcmd as [-> |(ip & port & data & -> & Hsent)]; cbn [command_step];
    unfold tcp_receive_command, tcp_send_command; rewrite Et.
  - split_and!; [done| | |done|exact Hspin].
    + cbn. by rewrite Hsock.
    + transitivity (quiet (start_receive t2 a1)); [|by rewrite E3].
      cbn -[start_receive quiet]. by rewrite Hsock.
  - split_and!; [done| | |done|exact Hspin].
    + cbn. by rewrite Hsock.
    + transitivity (quiet (start_receive t2 a1)); [|by rewrite E3].
      cbn -[start_receive quiet]. by rewrite Hsent.
Qed.
End shutdown.

(** ** Concrete threads, for evaluation *)

(** A socket of its own channel, on a live channel without messages. *)
Definition demo_udp_waiting : NetApp :=
  mkNetApp (mkNetDevices list_new) (mkNetProtocols list_new) (mkProtocolContexts ArpTable_new IPRoutes_new IPHeaderIdManager_new)
    (mkControlBlocks demo_udp_pcbs TcpPcbs_new) demo_udp_env.

Definition demo_udp_thread : CmdThread := mkCmdThread (Some 0%nat) false 0 (AtUdpReceive 0 0).

Lemma shutdown_ends_command_witness :
  exists a', @shutdown demo_udp_thread true demo_udp_waiting = Ret a' /\ exists t1 a1 t2,
    @command_step demo_platform debug_build UdpReceiveCommand false demo_udp_thread a' = Ret (t1, [], a1)
    /\ @command_step demo_platform debug_build UdpReceiveCommand true t1 a1 = Ret (t2, [], a1) /\ at_point t2 = Ended.
Proof.
  eexists. split; [reflexivity|].
  edestruct (fun a' => @shutdown_ends_command demo_platform debug_build UdpReceiveCommand demo_udp_thread 0 demo_udp_waiting a' true)
    as (t1 & a1 & E1 & t2 & E2 & H2); [|reflexivity|reflexivity|exists t1, a1, t2; split_and!; [exact E1|exact E2|exact H2]].
  split; [reflexivity|]. split; [reflexivity|]. by eexists.
Defined.

(** The same socket, with a message in the channel. *)
Definition demo_with_chan (q : list bool) : NetApp :=
  mkNetApp (app_devices demo_udp_waiting) (app_protocols demo_udp_waiting) (app_contexts demo_udp_waiting)
    (app_pcbs demo_udp_waiting) (env_init <|env_chans := [mkChan q true true]|>).

Lemma udp_shutdown_panics_witness :
  exists t' logs a', @udp_receive_wake 0 0 demo_udp_thread (demo_with_chan [true]) = Ret (t', logs, a')
    /\ @app_close_sockets a' = Panic.
Proof.
  do 3 eexists. split; [reflexivity|].
  eapply (@udp_shutdown_panics 0 0 demo_udp_thread (demo_with_chan [true]) _ _ _ demo_udp_pcb); reflexivity.
Defined.

Definition demo_tcp_thread : CmdThread :=
  mkCmdThread (Some 0%nat) false 0 (AtReceive 0 0 (mkRecvView Established PCB_BUF_LEN None)).

Lemma reset_hangs_receiver_witness : exists t3, forall stop a',
  @command_step demo_platform debug_build TcpReceiveCommand stop t3 a' = Ret (t3, [], a').
Proof.
  destruct (@reset_hangs_receiver demo_platform debug_build TcpReceiveCommand 0 0 (mkRecvView Established PCB_BUF_LEN None)
    demo_tcp_thread (demo_with_chan [false]) TcpPcb_new [])
    as (t1 & a1 & t2 & t3 & a3 & _ & _ & _ & _ & E); [by left|reflexivity|reflexivity|reflexivity|done|reflexivity|reflexivity
    |reflexivity|]. exists t3. exact E.
Defined.
